(* ===== verification/_CoqProject ===== *)
-Q . S2P
Prelude.v
Machine.v
CString.v
Printfmt.v
Hardware.v
Console.v
PrintfProps.v
StringProps.v
Kernel.v
KernelProps.v
Spinlock.v
Pmap.v
PageAlloc.v
PageTable.v
Example.v
AllocProps.v
UserMem.v
PtProps.v
BootMap.v
Env.v
EnvProps.v
EnvAlloc.v
EnvFree.v
ConsoleProps.v
Sched.v
SchedProps.v
Syscall.v
SyscallProps.v
Trap.v
KernelExit.v
EnvIds.v
TrapProps.v
TrapUser.v
UserFault.v
SysCputs.v
KernelInv.v
KernelSafe.v
Isolation.v
TrapDestroy.v
TrapSyscall.v
KernelCalls.v
KernelSpec.v
EnvLoad.v
EnvCreate.v
MemInit.v
Devices.v
Init.v
MemInitProps.v
Kdebug.v
KdebugProps.v
Monitor.v
Boot.v
BootProps.v
UserLib.v
UserProps.v
UserPrograms.v
MonitorProps.v
MpProps.v
