(* ===== verification/Prelude.v ===== *)
(** * JosLab: a verification development of the JOS teaching kernel

    JosLab is the MIT 6.828 kernel JOS at lab 4, in C: a boot loader (src/boot),
    the kernel (src/kern), the library shared by kernel and user programs
    (src/lib), the headers (src/inc) and test programs (src/user).  The
    development translates the C code into executable definitions, function by
    function, and proves what makes each part correct.  It also states, as
    theorems, where the code does not do what it means to.

    ** How the code is modelled

    - Integers are [Z]; each place where C computes in a type of width w applies
      [u8], [u16], [u32], [i32] ... (this file).  Bit operations are those of [Z].
    - Kernel code is in the monad [K] of Kernel.v: state [kstate], outcome
      [Ret a] or [Stop r], where [r] says why it never returns: [SPanic] (with
      the message), [SFault] (the kernel itself faults), [SSpin] (waits for
      another processor), [SHalt], [SMonitor], [SUser e] (iret to environment
      [e]), [SDiverge].  [kstate] holds the global variables of kern/*.c,
      physical memory as words by frame and index, the registers the code uses,
      the console and the ports.
    - Kernel pointers are 32-bit addresses; [struct PageInfo *] and
      [struct Env *] are indices into the arrays, [None] for NULL.  [kload] and
      [kstore] access mapped physical memory from KERNBASE up, [vload] and
      [vstore] go through the page tables in CR3.  Word accesses are aligned,
      but for the frame that [page_fault_handler] writes below the user's stack
      pointer, which may have any value ([vstore32]).
    - Devices are oracles (Hardware.v): the state holds an arbitrary function
      that gives what each read of a port returns, so a theorem about all states
      is a theorem about all devices.
    - User code is in the monad [U] of UserLib.v over an interface to the
      kernel, the class [User]: system calls, page tables, [envs], [memmove],
      the stack.  UserProps.v puts the kernel of this repository behind it.
    - Where the source does not compile as it is -- an undeclared name, a
      combining tilde for the operator, a semicolon that is missing -- the
      definition that reads it says what is meant.
    - Symbols, entry points of assembly code and images are parameters.

    ** The files

    - Prelude, Machine: conventions, automation, integer lemmas; inc/*.h.
    - CString, StringProps: lib/string.c.  [memmove] is correct for every
      overlap and equals the portable byte loops, [strcmp] is lexicographic.
    - Printfmt, PrintfProps: lib/printfmt.c over a sink, the class [Putch].
      [vprintfmt] returns on every format that fits its arguments; [snprintf]
      stays in its buffer; %d and [strtol] are inverse.
    - Hardware, Console, ConsoleProps: kern/kclock.c, kern/console.c,
      kern/printf.c.  [cons_getc] polls the devices and takes from a queue,
      whose 512th waiting character empties it; output stays in the screen.
    - Kernel, KernelProps: data, monad and memory; stepping over [cprintf].
    - Spinlock: kern/spinlock.c, as run by one processor and as a step relation
      between all: mutual exclusion, and progress from every reachable state.
    - Pmap: kern/pmap.c.  PageAlloc, AllocProps: the free list; [page_alloc] and
      [page_free] refine pop and push, [page_init] builds a list that is free of
      kernel data exactly when the kernel ends before its page 700.
      PageTable, PtProps: [aspace] relates the two-level tables to a finite map
      from pages to pages with exact reference counts; [page_insert],
      [page_lookup] and [page_remove] refine insertion, lookup and deletion.
      UserMem: [user_mem_check] decides access.  BootMap: static mappings.
      MemInit, MemInitProps: [mem_init] with all self-tests, one of which fails
      on every machine, so that [mem_init] never returns.
    - Env, EnvProps, EnvAlloc, EnvFree, EnvIds: kern/env.c.  Identifiers and
      their lookup, creation, destruction (exactly the references the environment
      held are given back), and the switch; identifiers are not reused, whatever
      creations, destructions and traps there are between.
    - Sched, SchedProps: kern/sched.c; round robin as the first runnable
      element of an explicit list.
    - Syscall, SyscallProps, SysCputs: kern/syscall.c; page sharing, the IPC
      rendezvous, printing of user memory.  Only four of the thirteen calls can
      be reached through the dispatcher; all are modelled.
    - Trap, TrapProps, TrapUser, TrapSyscall, UserFault, TrapDestroy:
      kern/trap.c; the descriptor table, every system call from trap to return,
      delivery of page faults, and the end of environments whose traps nobody
      handles.
    - KernelExit: invariants of every path through the kernel: a compositional
      predicate on computations, proved once per operation, for every invariant
      that is stable under the primitive updates ([Steady], [Stable],
      [Creating]); EnvIds is one use of it.
    - KernelInv: the invariant of the whole kernel, [kernel_ok]: the spaces of
      all environments together with the free lists, every reference to a page
      accounted for.  KernelSafe: triples for computations that keep such an
      invariant.  Isolation: what a trap can do -- whatever user code puts into
      its registers, only its own environment and its children can be
      destroyed, and only pages that it could write change; by induction the
      same holds of every run of user code.  KernelCalls: the system calls
      keep the invariant, those included that the dispatcher does not reach, but
      for four cases in which a lemma shows that they break it: [sys_page_alloc]
      with arguments it accepts (an uninitialised pointer), permissions that are
      negative as an [int], the 65536th mapping of a page, and a page for a
      receiver that waits at an address from UTOP on.  KernelSpec: an abstract
      machine of page maps and environments, with the calls as its steps, which
      the code simulates, errors included, outside the last three cases.
      EnvLoad, EnvCreate: [env_create] on an ELF image builds exactly the
      address space that its program headers describe ([image_byte]), keeps the
      invariant, and touches no page that was in use; followed by [env_run] the
      program starts, and reads its image through the page tables.
    - Devices, MpProps, Init: kern/picirq.c, kern/lapic.c, kern/mpconfig.c,
      kern/init.c.  [mp_init] registers exactly the processors of the tables in
      memory, which are described as functions of its bytes.
    - Kdebug, KdebugProps: kern/kdebug.c; the binary search over entries of one
      type between others.
    - Monitor, MonitorProps: kern/monitor.c, lib/readline.c; the line that the
      keys make, its words, the command they run, and that the monitor never
      ends, which is why it is an outcome ([SMonitor]) for other code.
    - Boot, BootProps: boot/main.c, kern/entrypgdir.c; the image arrives in
      memory.
    - UserLib, UserProps: lib/syscall.c, lib/fork.c, lib/pgfault.c, lib/ipc.c,
      lib/printf.c, lib/console.c, lib/exit.c, lib/libmain.c.  [fork] panics on
      this kernel, which refuses the calls it needs; [cprintf] hands over all its
      text in chunks.  No theorem assumes a kernel that serves those calls.
    - UserPrograms: user/*.c, as clients of the library.
    - Example: concrete states on which the theorems are applied.

    ** Fuel and bounds

    Loops with a counter in the source are recursions on it (the 12800 polls
    of the serial port, NENV rounds of the scheduler, 1024 entries of a table).
    [user_mem_check] has fuel [len / PGSIZE + 3], one per page and the two ends
    ([check_verdict] shows that it suffices); [readseg] has
    [count / SECTSIZE + 2] ([BootProps]); [stab_binsearch] R - L + 2
    ([KdebugProps]); [vprintfmt] the length of the format and 16 for the nested
    format of %e ([vprintfmt_total]).  Where the number of rounds depends on
    what devices or other environments do ([sys_cgetc], [cons_intr],
    [readline], the IPC loops of the user library) the bound is an argument and
    running out of it is the outcome [SDiverge] or [UWait].

    ** Not modelled

    Assembly (boot/boot.S, kern/entry.S, kern/trapentry.S, kern/mpentry.S,
    lib/pfentry.S, lib/entry.S) and inc/x86.h, except for the effects of the
    instructions the C code uses: machine code is outside the language.
    Segment registers, the TSS other than its stack, and the field of the spin
    lock that stores a call stack for printing.  Programs of user/ that are a
    single instruction and the inline assembly of user/faultregs.c.  A panic of the
    user library is the outcome [UPanic] with its format.  GNUmakefile, conf/
    and the generated obj/. *)

From stdpp Require Export base numbers list gmap sets strings.
From Stdlib Require Export Lia.

#[global] Open Scope Z_scope.

(** ** Machine integers

    C integers are modelled as [Z]; every place where the C code computes in
    an unsigned or signed type of width w applies one of these conversions. *)

Definition u8 (z : Z) : Z := z `mod` 2 ^ 8.
Definition u16 (z : Z) : Z := z `mod` 2 ^ 16.
Definition u32 (z : Z) : Z := z `mod` 2 ^ 32.
Definition u64 (z : Z) : Z := z `mod` 2 ^ 64.
Definition i8 (z : Z) : Z := (z + 2 ^ 7) `mod` 2 ^ 8 - 2 ^ 7.
Definition i32 (z : Z) : Z := (z + 2 ^ 31) `mod` 2 ^ 32 - 2 ^ 31.
Definition i64 (z : Z) : Z := (z + 2 ^ 63) `mod` 2 ^ 64 - 2 ^ 63.

(** C truth value of a masked word: [x & m] used as a condition. *)
Definition test (x m : Z) : bool := negb (Z.land x m =? 0).

(** ** Automation *)

Create HintDb jos.

(** Case analysis on a comparison of integers that blocks a conditional. *)
Ltac zcase :=
  match goal with
  | |- context [Z.eqb ?a ?b] => destruct (Z.eqb_spec a b)
  | |- context [Z.ltb ?a ?b] => destruct (Z.ltb_spec a b)
  | |- context [Z.leb ?a ?b] => destruct (Z.leb_spec a b)
  end.

Ltac zcase_in H :=
  match type of H with
  | context [Z.eqb ?a ?b] => destruct (Z.eqb_spec a b)
  | context [Z.ltb ?a ?b] => destruct (Z.ltb_spec a b)
  | context [Z.leb ?a ?b] => destruct (Z.leb_spec a b)
  end.

(** [lia] with the division and modulus equations. *)
Ltac zdm := Z.to_euclidean_division_equations; lia.

Section Integers.

Lemma u32_small z : 0 <= z < 2 ^ 32 -> u32 z = z.
Proof. intros; unfold u32; by rewrite Z.mod_small. Qed.

Lemma u32_range z : 0 <= u32 z < 2 ^ 32.
Proof. unfold u32; apply Z.mod_pos_bound; lia. Qed.

Lemma u16_small z : 0 <= z < 2 ^ 16 -> u16 z = z.
Proof. intros; unfold u16; by rewrite Z.mod_small. Qed.

Lemma u16_range z : 0 <= u16 z < 2 ^ 16.
Proof. unfold u16; apply Z.mod_pos_bound; lia. Qed.

Lemma u8_small z : 0 <= z < 2 ^ 8 -> u8 z = z.
Proof. intros; unfold u8; by rewrite Z.mod_small. Qed.

Lemma u8_range z : 0 <= u8 z < 2 ^ 8.
Proof. unfold u8; apply Z.mod_pos_bound; lia. Qed.

Lemma u64_small z : 0 <= z < 2 ^ 64 -> u64 z = z.
Proof. intros; unfold u64; by rewrite Z.mod_small. Qed.

Lemma i32_small z : - 2 ^ 31 <= z < 2 ^ 31 -> i32 z = z.
Proof. intros; unfold i32; rewrite Z.mod_small; lia. Qed.

Lemma i32_range z : - 2 ^ 31 <= i32 z < 2 ^ 31.
Proof. unfold i32; pose proof (Z.mod_pos_bound (z + 2 ^ 31) (2 ^ 32)); lia. Qed.

End Integers.

Section Bits.

Lemma land_1_mod d : Z.land d 1 = d `mod` 2.
Proof. change 1 with (Z.ones 1); by rewrite Z.land_ones by lia. Qed.

Lemma test_1_odd d : test d 1 = Z.odd d.
Proof.
  unfold test. rewrite land_1_mod, Zmod_odd. by destruct (Z.odd d).
Qed.

(** Masking with the complement of [2^k-1] rounds down to a multiple of 2^k. *)
Lemma land_lnot_ones v k : 0 <= k -> Z.land v (Z.lnot (Z.ones k)) = v - v `mod` 2 ^ k.
Proof.
  intros. rewrite <- Z.ldiff_land, Z.ldiff_ones_r by lia.
  rewrite Z.shiftl_mul_pow2, Z.shiftr_div_pow2 by lia.
  pose proof (Z.div_mod v (2 ^ k) (Z.pow_nonzero 2 k ltac:(lia) ltac:(lia))). lia.
Qed.

(** Aligned words and words below the alignment share no bit. *)
Lemma land_shift_low a f k : 0 <= k -> 0 <= f < 2 ^ k -> Z.land (a * 2 ^ k) f = 0.
Proof.
  intros Hk Hf.
  rewrite <- (Z.mod_small f (2 ^ k)), <- Z.land_ones, Z.land_comm, <- Z.land_assoc by lia.
  rewrite (Z.land_comm (Z.ones k)), Z.land_ones, Z.mod_mul by lia. apply Z.land_0_r.
Qed.

(** Or-ing low flag bits into an aligned address is an addition. *)
Lemma lor_low_add a f k : 0 <= k -> 0 <= f < 2 ^ k -> Z.lor (a * 2 ^ k) f = a * 2 ^ k + f.
Proof.
  intros Hk Hf. rewrite <- Z.add_lor_land, land_shift_low by done. lia.
Qed.

(** A land with a mask below 2^k only looks at the low k bits. *)
Lemma land_low_add a f m k : 0 <= k -> 0 <= m < 2 ^ k -> Z.land (a * 2 ^ k + f) m = Z.land f m.
Proof.
  intros Hk Hm.
  assert (Hmm : m = Z.land m (Z.ones k)).
  { rewrite Z.land_ones, Z.mod_small by lia; done. }
  rewrite Hmm, !(Z.land_comm m), !Z.land_assoc, !Z.land_ones by lia.
  f_equal. rewrite Z.add_comm, Z.mod_add by lia. done.
Qed.

End Bits.

#[export] Hint Resolve u32_small u16_small u8_small i32_small : jos.

(** ** Counting the values of a finite map *)

Section Count.

Context {V : Type} (f : V -> Z).

(** How many keys have a value [x] with [f x = p]. *)
Definition count_val (m : gmap Z V) (p : Z) : Z :=
  Z.of_nat (size (filter (fun kv => f kv.2 = p) m)).

Lemma count_val_nonneg m p : 0 <= count_val m p.
Proof. unfold count_val. lia. Qed.

Lemma count_val_insert m k x p :
  m !! k = None -> count_val (<[k := x]> m) p = count_val m p + (if decide (f x = p) then 1 else 0).
Proof.
  intros Hk. unfold count_val. case_decide as E.
  - rewrite map_filter_insert_True by done. rewrite map_size_insert_None; [lia|].
    apply map_lookup_filter_None. by left.
  - rewrite map_filter_insert_False by done. rewrite delete_id by done. lia.
Qed.

Lemma count_val_delete m k x p :
  m !! k = Some x ->
  count_val (delete k m) p = count_val m p - (if decide (f x = p) then 1 else 0).
Proof.
  intros Hk. rewrite <- (insert_delete_id m k x Hk) at 2.
  rewrite count_val_insert by apply lookup_delete_eq. lia.
Qed.

Lemma count_val_replace m k x y p :
  m !! k = Some x ->
  count_val (<[k := y]> m) p = count_val m p - (if decide (f x = p) then 1 else 0)
                               + (if decide (f y = p) then 1 else 0).
Proof.
  intros Hk. rewrite <- insert_delete_eq, count_val_insert by apply lookup_delete_eq.
  by erewrite count_val_delete.
Qed.

Lemma count_val_pos m k x : m !! k = Some x -> 1 <= count_val m (f x).
Proof.
  intros Hk. unfold count_val. enough (size (filter (fun kv => f kv.2 = f x) m) <> O) by lia.
  intros E. apply map_size_empty_inv in E.
  assert (H : filter (fun kv => f kv.2 = f x) m !! k = Some x)
    by (by apply map_lookup_filter_Some).
  rewrite E in H. done.
Qed.

Lemma count_val_empty p : count_val ∅ p = 0.
Proof. unfold count_val. by rewrite map_filter_empty, map_size_empty. Qed.

End Count.
