(* ===== verification/Machine.v ===== *)
(** * Machine: the constants and address macros of inc/

    [inc/types.h] (rounding), [inc/mmu.h] (two-level page-table geometry and
    flags), [inc/memlayout.h] (the virtual memory map), [inc/env.h],
    [inc/error.h], [inc/trap.h], [inc/syscall.h], with the arithmetic lemmas
    the other files use. *)

From S2P Require Import Prelude.

(** ** inc/types.h *)

Definition ROUNDDOWN (a n : Z) : Z := let a := u32 a in a - a `mod` n.
Definition ROUNDUP (a n : Z) : Z := ROUNDDOWN (u32 (u32 a + u32 n - 1)) (u32 n).

(** ** inc/mmu.h *)

Definition PTXSHIFT : Z := 12.
Definition PDXSHIFT : Z := 22.
Definition PGSHIFT : Z := 12.
Definition PGSIZE : Z := 4096.
Definition NPDENTRIES : Z := 1024.
Definition NPTENTRIES : Z := 1024.
Definition PTSIZE : Z := PGSIZE * NPTENTRIES.
Definition PGNUM (la : Z) : Z := Z.shiftr la PTXSHIFT.
Definition PDX (la : Z) : Z := Z.land (Z.shiftr la PDXSHIFT) 0x3FF.
Definition PTX (la : Z) : Z := Z.land (Z.shiftr la PTXSHIFT) 0x3FF.
Definition PGOFF (la : Z) : Z := Z.land la 0xFFF.
Definition PGADDR (d t o : Z) : Z :=
  u32 (Z.lor (Z.lor (Z.shiftl d PDXSHIFT) (Z.shiftl t PTXSHIFT)) o).

Definition PTE_P : Z := 0x001.
Definition PTE_W : Z := 0x002.
Definition PTE_U : Z := 0x004.
Definition PTE_PWT : Z := 0x008.
Definition PTE_PCD : Z := 0x010.
Definition PTE_AVAIL : Z := 0xE00.
Definition PTE_SYSCALL : Z := Z.lor (Z.lor (Z.lor PTE_AVAIL PTE_P) PTE_W) PTE_U.
Definition PTE_ADDR (pte : Z) : Z := Z.land pte (Z.lnot 0xFFF).

Definition FL_IF : Z := 0x200.
Definition FEC_PR : Z := 0x1.
Definition FEC_WR : Z := 0x2.
Definition FEC_U : Z := 0x4.

(** ** inc/memlayout.h *)

Definition GD_KT : Z := 0x08.
Definition GD_KD : Z := 0x10.
Definition GD_UT : Z := 0x18.
Definition GD_UD : Z := 0x20.
Definition GD_TSS0 : Z := 0x28.
Definition KERNBASE : Z := 0xF0000000.
Definition IOPHYSMEM : Z := 0x0A0000.
Definition EXTPHYSMEM : Z := 0x100000.
Definition KSTACKTOP : Z := KERNBASE.
Definition KSTKSIZE : Z := 8 * PGSIZE.
Definition KSTKGAP : Z := 8 * PGSIZE.
Definition MMIOLIM : Z := KSTACKTOP - PTSIZE.
Definition MMIOBASE : Z := MMIOLIM - PTSIZE.
Definition ULIM : Z := MMIOBASE.
Definition UVPT : Z := ULIM - PTSIZE.
Definition UPAGES : Z := UVPT - PTSIZE.
Definition UENVS : Z := UPAGES - PTSIZE.
Definition UTOP : Z := UENVS.
Definition UXSTACKTOP : Z := UTOP.
Definition USTACKTOP : Z := UTOP - 2 * PGSIZE.
Definition UTEXT : Z := 2 * PTSIZE.
Definition UTEMP : Z := PTSIZE.
Definition PFTEMP : Z := UTEMP + PTSIZE - PGSIZE.
Definition USTABDATA : Z := PTSIZE / 2.
Definition MPENTRY_PADDR : Z := 0x7000.

(** ** inc/error.h *)

Definition E_UNSPECIFIED : Z := 1.
Definition E_BAD_ENV : Z := 2.
Definition E_INVAL : Z := 3.
Definition E_NO_MEM : Z := 4.
Definition E_NO_FREE_ENV : Z := 5.
Definition E_FAULT : Z := 6.
Definition E_IPC_NOT_RECV : Z := 7.
Definition E_EOF : Z := 8.
Definition MAXERROR : Z := 9.

(** ** inc/env.h *)

Definition LOG2NENV : Z := 10.
Definition NENV : Z := Z.shiftl 1 LOG2NENV.
Definition ENVX (envid : Z) : Z := Z.land envid (NENV - 1).

(** ** inc/trap.h *)

Definition T_DIVIDE : Z := 0.
Definition T_BRKPT : Z := 3.
Definition T_PGFLT : Z := 14.
Definition T_SYSCALL : Z := 48.
Definition IRQ_OFFSET : Z := 32.
Definition IRQ_TIMER : Z := 0.
Definition IRQ_KBD : Z := 1.
Definition IRQ_SERIAL : Z := 4.
Definition IRQ_SPURIOUS : Z := 7.
Definition IRQ_ERROR : Z := 19.

(** ** inc/syscall.h *)

Definition SYS_cputs : Z := 0.
Definition SYS_cgetc : Z := 1.
Definition SYS_getenvid : Z := 2.
Definition SYS_env_destroy : Z := 3.
Definition SYS_page_alloc : Z := 4.
Definition SYS_page_map : Z := 5.
Definition SYS_page_unmap : Z := 6.
Definition SYS_exofork : Z := 7.
Definition SYS_env_set_status : Z := 8.
Definition SYS_env_set_pgfault_upcall : Z := 9.
Definition SYS_yield : Z := 10.
Definition SYS_ipc_try_send : Z := 11.
Definition SYS_ipc_recv : Z := 12.
Definition NSYSCALLS : Z := 13.

(** ** Arithmetic of the address macros *)

Section AddressLemmas.

Lemma PGNUM_div la : PGNUM la = la / 4096.
Proof. unfold PGNUM, PTXSHIFT. by rewrite Z.shiftr_div_pow2 by lia. Qed.

Lemma PTX_div la : PTX la = (la / 4096) `mod` 1024.
Proof.
  unfold PTX, PTXSHIFT. rewrite Z.shiftr_div_pow2 by lia.
  change 0x3FF with (Z.ones 10). by rewrite Z.land_ones by lia.
Qed.

Lemma PDX_div la : PDX la = (la / 4194304) `mod` 1024.
Proof.
  unfold PDX, PDXSHIFT. rewrite Z.shiftr_div_pow2 by lia.
  change 0x3FF with (Z.ones 10). by rewrite Z.land_ones by lia.
Qed.

Lemma PTX_range la : 0 <= PTX la < 1024.
Proof. rewrite PTX_div. apply Z.mod_pos_bound; lia. Qed.

Lemma PDX_range la : 0 <= PDX la < 1024.
Proof. rewrite PDX_div. apply Z.mod_pos_bound; lia. Qed.

(** A page number of a 32-bit address is its directory and table index. *)
Lemma PGNUM_split la : 0 <= la < 2 ^ 32 -> PGNUM la = 1024 * PDX la + PTX la.
Proof. intros. rewrite PGNUM_div, PDX_div, PTX_div. zdm. Qed.

Lemma PGADDR_split d t o :
  0 <= d < 1024 -> 0 <= t < 1024 -> 0 <= o < 4096 ->
  PGADDR d t o = 4194304 * d + 4096 * t + o.
Proof.
  intros. unfold PGADDR, PDXSHIFT, PTXSHIFT.
  rewrite !Z.shiftl_mul_pow2 by lia.
  rewrite (lor_low_add d (t * 2 ^ 12) 22) by lia.
  replace (d * 2 ^ 22 + t * 2 ^ 12) with ((d * 1024 + t) * 2 ^ 12) by lia.
  rewrite lor_low_add by lia. rewrite u32_small by lia. lia.
Qed.

Lemma PDX_PGADDR d t o :
  0 <= d < 1024 -> 0 <= t < 1024 -> 0 <= o < 4096 -> PDX (PGADDR d t o) = d.
Proof. intros. rewrite PGADDR_split, PDX_div by done. zdm. Qed.

Lemma PTX_PGADDR d t o :
  0 <= d < 1024 -> 0 <= t < 1024 -> 0 <= o < 4096 -> PTX (PGADDR d t o) = t.
Proof. intros. rewrite PGADDR_split, PTX_div by done. zdm. Qed.

Lemma PTE_ADDR_mod pte : PTE_ADDR pte = pte - pte `mod` 4096.
Proof. unfold PTE_ADDR. change 0xFFF with (Z.ones 12). by rewrite land_lnot_ones. Qed.

(** The address and the flags of an entry built by or-ing them together. *)
Lemma PTE_ADDR_entry f fl : 0 <= fl < 4096 -> PTE_ADDR (4096 * f + fl) = 4096 * f.
Proof. intros. rewrite PTE_ADDR_mod. zdm. Qed.

Lemma entry_lor f fl : 0 <= fl < 4096 -> Z.lor (4096 * f) fl = 4096 * f + fl.
Proof. intros. rewrite Z.mul_comm. by apply (lor_low_add f fl 12); lia. Qed.

Lemma entry_land f fl m : 0 <= m < 4096 -> Z.land (4096 * f + fl) m = Z.land fl m.
Proof. intros. rewrite Z.mul_comm. by apply (land_low_add f fl m 12); lia. Qed.

Lemma entry_test f fl m : 0 <= m < 4096 -> test (4096 * f + fl) m = test fl m.
Proof. intros. unfold test. by rewrite entry_land. Qed.

Lemma lor_range a b k : 0 <= k -> 0 <= a < 2 ^ k -> 0 <= b < 2 ^ k -> 0 <= Z.lor a b < 2 ^ k.
Proof.
  intros Hk Ha Hb. assert (0 <= Z.lor a b) by (apply Z.lor_nonneg; lia).
  split; [done|]. destruct (Z.eq_dec (Z.lor a b) 0) as [->|]; [lia|].
  apply Z.log2_lt_pow2; [lia|]. rewrite Z.log2_lor by lia.
  apply Z.max_lub_lt.
  - destruct (Z.eq_dec a 0) as [->|]; [|apply Z.log2_lt_pow2; lia].
    destruct (Z.eq_dec b 0) as [->|]; [done|]. simpl.
    destruct (Z.eq_dec k 0) as [->|]; lia.
  - destruct (Z.eq_dec b 0) as [->|]; [|apply Z.log2_lt_pow2; lia].
    destruct (Z.eq_dec a 0) as [->|]; [done|]. simpl.
    destruct (Z.eq_dec k 0) as [->|]; lia.
Qed.

Lemma test_lor_same fl m : 0 < m -> test (Z.lor fl m) m = true.
Proof.
  intros. unfold test. rewrite Z.land_comm, Z.land_lor_distr_r, Z.land_diag.
  destruct (Z.eqb_spec (Z.lor (Z.land m fl) m) 0) as [E|]; [|done].
  apply Z.lor_eq_0_iff in E. lia.
Qed.

(** ROUNDDOWN and ROUNDUP on arguments that do not overflow. *)
Lemma ROUNDDOWN_small a n : 0 <= a < 2 ^ 32 -> ROUNDDOWN a n = a - a `mod` n.
Proof. intros. unfold ROUNDDOWN. by rewrite u32_small. Qed.

Lemma ROUNDUP_small a n :
  0 < n < 2 ^ 32 -> 0 <= a -> a + n - 1 < 2 ^ 32 ->
  ROUNDUP a n = a + n - 1 - (a + n - 1) `mod` n.
Proof.
  intros. unfold ROUNDUP. rewrite (u32_small n), (u32_small a) by lia.
  rewrite u32_small, ROUNDDOWN_small by lia. done.
Qed.

Lemma ROUNDUP_page a :
  0 <= a -> a + 4095 < 2 ^ 32 ->
  a <= ROUNDUP a PGSIZE < a + 4096 /\ ROUNDUP a PGSIZE `mod` 4096 = 0.
Proof. intros. unfold PGSIZE. rewrite ROUNDUP_small by lia. zdm. Qed.

Lemma ENVX_mod e : ENVX e = e `mod` 1024.
Proof. unfold ENVX. change (NENV - 1) with (Z.ones 10). by rewrite Z.land_ones by lia. Qed.

Lemma ENVX_range e : 0 <= ENVX e < 1024.
Proof. rewrite ENVX_mod. apply Z.mod_pos_bound; lia. Qed.

End AddressLemmas.

#[export] Hint Resolve PTX_range PDX_range ENVX_range : jos.
