(* ===== verification/CString.v ===== *)
(** * CString: lib/string.c

    C strings and byte arrays.  A pointer into a byte array is the list of
    the bytes that can be read from it, each in [0,256); a C string is such a
    list with its NUL.  Reading past the end of the list is out of bounds and
    gives [None].  [memset] and [memmove], which the source implements with
    string instructions, work on a byte-addressed memory [gmap Z Z]. *)

From S2P Require Import Prelude.

(** The bytes of a string literal, with its NUL. *)
Fixpoint chars (s : string) : list Z :=
  match s with
  | EmptyString => []
  | String a s' => Z.of_N (Ascii.N_of_ascii a) :: chars s'
  end.

(** The escapes [\n], [\r] and [\t] of a C literal. *)
Fixpoint unescape (l : list Z) : list Z :=
  match l with
  | 92 :: 110 :: l' => 10 :: unescape l'
  | 92 :: 114 :: l' => 13 :: unescape l'
  | 92 :: 116 :: l' => 9 :: unescape l'
  | c :: l' => c :: unescape l'
  | [] => []
  end.

Definition cstr (s : string) : list Z := unescape (chars s) ++ [0].

Section StringOps.

(** [strlen]: counts up to the NUL; [n] is the C loop variable. *)
Fixpoint strlen_loop (s : list Z) (n : Z) : option Z :=
  match s with
  | [] => None
  | c :: s' => if c =? 0 then Some n else strlen_loop s' (n + 1)
  end.

Definition strlen (s : list Z) : option Z := strlen_loop s 0.

Fixpoint strnlen_loop (s : list Z) (size n : Z) : option Z :=
  if size <=? 0 then Some n
  else match s with
       | [] => None
       | c :: s' => if c =? 0 then Some n else strnlen_loop s' (size - 1) (n + 1)
       end.

Definition strnlen (s : list Z) (size : Z) : option Z := strnlen_loop s size 0.

(** [strcpy dst src]: the new contents of [dst]. *)
Fixpoint strcpy (dst src : list Z) : option (list Z) :=
  match src, dst with
  | c :: src', _ :: dst' =>
      if c =? 0 then Some (c :: dst')
      else r ← strcpy dst' src'; Some (c :: r)
  | _, _ => None
  end.

Definition strcat (dst src : list Z) : option (list Z) :=
  len ← strlen dst;
  r ← strcpy (drop (Z.to_nat len) dst) src;
  Some (take (Z.to_nat len) dst ++ r).

(** [strncpy]: at most [size] bytes, padding with NULs once [src] ended. *)
Fixpoint strncpy (dst src : list Z) (size : nat) : option (list Z) :=
  match size with
  | O => Some dst
  | S n =>
      match src, dst with
      | c :: src', _ :: dst' =>
          r ← strncpy dst' (if c =? 0 then src else src') n; Some (c :: r)
      | _, _ => None
      end
  end.

(** [strlcpy]: the loop [while (--size > 0 && *src != '\0')], which returns
    the new [dst] and the number of bytes copied. *)
Fixpoint strlcpy_loop (dst src : list Z) (size : nat) : option (list Z * Z) :=
  match size with
  | O => match dst with [] => None | _ :: dst' => Some (0 :: dst', 0) end
  | S n =>
      match src, dst with
      | c :: src', _ :: dst' =>
          if c =? 0 then Some (0 :: dst', 0)
          else '(r, k) ← strlcpy_loop dst' src' n; Some (c :: r, k + 1)
      | _, _ => None
      end
  end.

Definition strlcpy (dst src : list Z) (size : Z) : option (list Z * Z) :=
  if size <=? 0 then Some (dst, 0) else strlcpy_loop dst src (Z.to_nat (size - 1)).

Fixpoint strcmp (p q : list Z) : option Z :=
  match p, q with
  | a :: p', b :: q' =>
      if negb (a =? 0) && (a =? b) then strcmp p' q' else Some (u8 a - u8 b)
  | _, _ => None
  end.

Fixpoint strncmp (p q : list Z) (n : nat) : option Z :=
  match n with
  | O => Some 0
  | S n' =>
      match p, q with
      | a :: p', b :: q' =>
          if negb (a =? 0) && (a =? b) then strncmp p' q' n' else Some (u8 a - u8 b)
      | _, _ => None
      end
  end.

(** [strchr]: [Some (Some i)] is the pointer [s + i], [Some None] is NULL. *)
Fixpoint strchr (s : list Z) (c : Z) : option (option Z) :=
  match s with
  | [] => None
  | a :: s' =>
      if a =? 0 then Some None
      else if a =? c then Some (Some 0)
      else r ← strchr s' c; Some (i ← r; Some (i + 1))
  end.

Fixpoint strfind (s : list Z) (c : Z) : option Z :=
  match s with
  | [] => None
  | a :: s' => if (a =? 0) || (a =? c) then Some 0 else i ← strfind s' c; Some (i + 1)
  end.

Fixpoint memcmp (v1 v2 : list Z) (n : nat) : option Z :=
  match n with
  | O => Some 0
  | S n' =>
      match v1, v2 with
      | a :: v1', b :: v2' => if a =? b then memcmp v1' v2' n' else Some (a - b)
      | _, _ => None
      end
  end.

Fixpoint memfind (s : list Z) (c : Z) (n : nat) : option Z :=
  match n with
  | O => Some 0
  | S n' =>
      match s with
      | [] => None
      | a :: s' => if a =? u8 c then Some 0 else i ← memfind s' c n'; Some (i + 1)
      end
  end.

End StringOps.

Section Strtol.

Definition strtol_space (c : Z) : bool := (c =? 32) || (c =? 9).

Fixpoint strtol_skip (s : list Z) : list Z :=
  match s with
  | c :: s' => if strtol_space c then strtol_skip s' else s
  | [] => []
  end.

(** The plus/minus sign: the rest and [neg]. *)
Definition strtol_sign (s : list Z) : list Z * bool :=
  match s with
  | c :: s' => if c =? 43 then (s', false) else if c =? 45 then (s', true) else (s, false)
  | [] => ([], false)
  end.

(** The hexadecimal or octal prefix. *)
Definition strtol_prefix (s : list Z) (base : Z) : list Z * Z :=
  let s0 := default 0 (s !! 0%nat) in
  let s1 := default 0 (s !! 1%nat) in
  if ((base =? 0) || (base =? 16)) && ((s0 =? 48) && (s1 =? 120)) then (drop 2 s, 16)
  else if (base =? 0) && (s0 =? 48) then (drop 1 s, 8)
  else if base =? 0 then (s, 10)
  else (s, base).

Definition strtol_digit (c : Z) : option Z :=
  if (48 <=? c) && (c <=? 57) then Some (c - 48)
  else if (97 <=? c) && (c <=? 122) then Some (c - 97 + 10)
  else if (65 <=? c) && (c <=? 90) then Some (c - 65 + 10)
  else None.

(** The digit loop; a [long] has 32 bits and wraps. *)
Fixpoint strtol_digits (s : list Z) (base val : Z) : Z * list Z :=
  match s with
  | [] => (val, [])
  | c :: s' =>
      match strtol_digit c with
      | None => (val, s)
      | Some dig =>
          if base <=? dig then (val, s)
          else strtol_digits s' base (i32 (val * base + dig))
      end
  end.

(** [strtol]: the value and [*endptr], the bytes left to read. *)
Definition strtol (s : list Z) (base : Z) : Z * list Z :=
  let s := strtol_skip s in
  let '(s, neg) := strtol_sign s in
  let '(s, base) := strtol_prefix s base in
  let '(val, rest) := strtol_digits s base 0 in
  (if neg then i32 (- val) else val, rest).

End Strtol.

Section Memory.

Definition bget (m : gmap Z Z) (a : Z) : Z := default 0 (m !! a).

(** [rep stosb] and [rep stosl] with the direction flag clear; addresses are 32-bit
    and wrap. *)
Fixpoint stosb (n : nat) (d c : Z) (m : gmap Z Z) : gmap Z Z :=
  match n with O => m | S n' => stosb n' (u32 (d + 1)) c (<[d := u8 c]> m) end.

Definition put32 (d w : Z) (m : gmap Z Z) : gmap Z Z :=
  <[d + 3 := u8 (Z.shiftr w 24)]> (<[d + 2 := u8 (Z.shiftr w 16)]>
    (<[d + 1 := u8 (Z.shiftr w 8)]> (<[d := u8 w]> m))).

Fixpoint stosl (n : nat) (d w : Z) (m : gmap Z Z) : gmap Z Z :=
  match n with O => m | S n' => stosl n' (u32 (d + 4)) w (put32 d w m) end.

Definition memset (v c n : Z) (m : gmap Z Z) : gmap Z Z :=
  if n =? 0 then m
  else if (v `mod` 4 =? 0) && (n `mod` 4 =? 0) then
    let c := Z.land c 0xFF in
    let w := u32 (Z.lor (Z.lor (Z.lor (Z.shiftl c 24) (Z.shiftl c 16)) (Z.shiftl c 8)) c) in
    stosl (Z.to_nat (n / 4)) v w m
  else stosb (Z.to_nat n) v c m.

(** [rep movsb]/[rep movsl]: [k] iterations copying a unit of [u] bytes from
    [s] to [d], moving both by [step]. *)
Definition mov_unit (u : nat) (d s : Z) (m : gmap Z Z) : gmap Z Z :=
  fold_left (fun acc i => <[d + i := bget m (s + i)]> acc) (seqZ 0 (Z.of_nat u)) m.

Fixpoint movs (k : nat) (u : nat) (step d s : Z) (m : gmap Z Z) : gmap Z Z :=
  match k with
  | O => m
  | S k' => movs k' u step (u32 (d + step)) (u32 (s + step)) (mov_unit u d s m)
  end.

Definition memmove (dst src n : Z) (m : gmap Z Z) : gmap Z Z :=
  let s := src in
  let d := dst in
  if (s <? d) && (d <? u32 (s + n)) then
    let s := u32 (s + n) in
    let d := u32 (d + n) in
    if (s `mod` 4 =? 0) && (d `mod` 4 =? 0) && (n `mod` 4 =? 0)
    then movs (Z.to_nat (n / 4)) 4 (-4) (u32 (d - 4)) (u32 (s - 4)) m
    else movs (Z.to_nat n) 1 (-1) (u32 (d - 1)) (u32 (s - 1)) m
  else
    if (s `mod` 4 =? 0) && (d `mod` 4 =? 0) && (n `mod` 4 =? 0)
    then movs (Z.to_nat (n / 4)) 4 4 d s m
    else movs (Z.to_nat n) 1 1 d s m.

(** The versions of both that the source has for builds without the string
    instructions.  The counter of the first is a signed [int]. *)
Fixpoint set_up (n : nat) (p c : Z) (m : gmap Z Z) : gmap Z Z :=
  match n with O => m | S n' => set_up n' (u32 (p + 1)) c (<[p := u8 c]> m) end.

Definition memset_bytes (v c n : Z) (m : gmap Z Z) : gmap Z Z := set_up (Z.to_nat (i32 n)) v c m.

Fixpoint copy_down (n : nat) (d s : Z) (m : gmap Z Z) : gmap Z Z :=
  match n with
  | O => m
  | S n' => copy_down n' (u32 (d - 1)) (u32 (s - 1)) (<[u32 (d - 1) := bget m (u32 (s - 1))]> m)
  end.

Fixpoint copy_up (n : nat) (d s : Z) (m : gmap Z Z) : gmap Z Z :=
  match n with
  | O => m
  | S n' => copy_up n' (u32 (d + 1)) (u32 (s + 1)) (<[d := bget m s]> m)
  end.

Definition memmove_bytes (dst src n : Z) (m : gmap Z Z) : gmap Z Z :=
  let s := src in
  let d := dst in
  if (s <? d) && (d <? u32 (s + n)) then copy_down (Z.to_nat n) (u32 (d + n)) (u32 (s + n)) m
  else copy_up (Z.to_nat n) d s m.

Definition memcpy (dst src n : Z) (m : gmap Z Z) : gmap Z Z := memmove dst src n m.

End Memory.
