(* ===== verification/Printfmt.v ===== *)
(** * Printfmt: lib/printfmt.c

    The formatter shared by the kernel and the user library.  The source
    takes the output routine as a function pointer [putch] with its data
    [putdat]; here [putch] is the typeclass [Putch], whose instances are the
    buffer of [snprintf] (below), the console of the kernel and the buffer of
    the user library (other files).  A byte pointer is the list of the bytes
    that can be read from it, so a read out of bounds gives [None]. *)

From S2P Require Import Prelude Machine CString.

(** The callback [putch]: a character and the data [putdat]. *)
Class Putch (S : Type) := putch : Z -> S -> S.

(** A variadic argument.  [VStr None] is a NULL [char *]. *)
Inductive va_arg :=
| VInt (z : Z)
| VLong (z : Z)
| VStr (s : option (list Z)).

Section Conversions.

Definition error_string (err : Z) : option string :=
  if err =? E_UNSPECIFIED then Some "unspecified error"%string
  else if err =? E_BAD_ENV then Some "bad environment"%string
  else if err =? E_INVAL then Some "invalid parameter"%string
  else if err =? E_NO_MEM then Some "out of memory"%string
  else if err =? E_NO_FREE_ENV then Some "out of environments"%string
  else if err =? E_FAULT then Some "segmentation fault"%string
  else if err =? E_IPC_NOT_RECV then Some "env is not recving"%string
  else if err =? E_EOF then Some "unexpected end of file"%string
  else None.

(** [getuint] and [getint]: [lflag >= 2] takes a long long, otherwise one
    32-bit word, read unsigned or signed. *)
Definition getuint (ap : list va_arg) (lflag : Z) : option (Z * list va_arg) :=
  match ap with
  | VLong z :: ap' => if 2 <=? lflag then Some (u64 z, ap') else None
  | VInt z :: ap' => if 2 <=? lflag then None else Some (u32 z, ap')
  | _ => None
  end.

Definition getint (ap : list va_arg) (lflag : Z) : option (Z * list va_arg) :=
  match ap with
  | VLong z :: ap' => if 2 <=? lflag then Some (i64 z, ap') else None
  | VInt z :: ap' => if 2 <=? lflag then None else Some (i32 z, ap')
  | _ => None
  end.

Definition va_int (ap : list va_arg) : option (Z * list va_arg) :=
  match ap with VInt z :: ap' => Some (i32 z, ap') | _ => None end.

Definition va_str (ap : list va_arg) : option (option (list Z) * list va_arg) :=
  match ap with VStr s :: ap' => Some (s, ap') | _ => None end.

End Conversions.

Section Output.

Context {S : Type} `{Putch S}.

(** [n] times [putch(c)]. *)
Fixpoint putch_n (n : nat) (c : Z) (s : S) : S :=
  match n with O => s | Datatypes.S n' => putch_n n' c (putch c s) end.

Definition digit_char (d : Z) : Z := default 0 (chars "0123456789abcdef" !! Z.to_nat d).

(** [printnum]: [fuel] bounds the recursion on the digits; 64 is enough for
    a 64-bit number. *)
Fixpoint printnum_loop (fuel : nat) (num base width padc : Z) (s : S) : S :=
  match fuel with
  | O => s
  | Datatypes.S fuel' =>
      let s := if base <=? num
               then printnum_loop fuel' (num / base) base (width - 1) padc s
               else putch_n (Z.to_nat (width - 1)) padc s in
      putch (digit_char (num `mod` base)) s
  end.

Definition printnum (num base width padc : Z) (s : S) : S :=
  printnum_loop 64 num base width padc s.

(** The loop of [%s] that prints the bytes of [p] up to the NUL or the
    precision; the byte is read before the precision is tested. *)
Fixpoint put_string (p : list Z) (precision width : Z) (altflag : bool) (s : S) : option (Z * S) :=
  match p with
  | [] => None
  | b :: p' =>
      let ch := i8 b in
      if ch =? 0 then Some (width, s)
      else if (precision <? 0) || (0 <=? precision - 1) then
        let s := if altflag && ((ch <? 32) || (126 <? ch)) then putch 63 s else putch ch s in
        put_string p' (if precision <? 0 then precision else precision - 1) (width - 1) altflag s
      else Some (width, s)
  end.

Definition print_string (p : list Z) (precision width padc : Z) (altflag : bool) (s : S) : option S :=
  '(width, s) ← (if (0 <? width) && negb (padc =? 45)
                 then n ← strnlen p (u32 precision);
                      let w := width - n in
                      Some (Z.min w 0, putch_n (Z.to_nat w) padc s)
                 else Some (width, s));
  '(width, s) ← put_string p precision width altflag s;
  Some (putch_n (Z.to_nat width) 32 s).

(** The state of one %-escape: [padc], [width], [precision], [lflag],
    [altflag]. *)
Record esc := mkEsc { padc : Z; width : Z; precision : Z; lflag : Z; altflag : bool }.

Definition esc0 : esc := mkEsc 32 (-1) (-1) 0 false.

Definition set_padc (c : Z) (e : esc) : esc := mkEsc c (width e) (precision e) (lflag e) (altflag e).
Definition set_width (w : Z) (e : esc) : esc := mkEsc (padc e) w (precision e) (lflag e) (altflag e).
Definition set_precision (p : Z) (e : esc) : esc := mkEsc (padc e) (width e) p (lflag e) (altflag e).
Definition set_lflag (l : Z) (e : esc) : esc := mkEsc (padc e) (width e) (precision e) l (altflag e).
Definition set_altflag (b : bool) (e : esc) : esc := mkEsc (padc e) (width e) (precision e) (lflag e) b.

(** The label [process_precision]. *)
Definition process_precision (e : esc) : esc :=
  if width e <? 0 then set_precision (-1) (set_width (precision e) e) else e.

(** The width field: the digits from [ch] on, [precision = precision * 10 +
    ch - '0'], up to the first byte that is not a digit. *)
Fixpoint width_field (ch : Z) (fmt : list Z) (precision : Z) : option (Z * list Z) :=
  let precision := i32 (precision * 10 + ch - 48) in
  match fmt with
  | [] => None
  | c :: fmt' =>
      if (c <? 48) || (57 <? c) then Some (precision, fmt) else width_field c fmt' precision
  end.

(** What a completed %-escape asks for: a conversion, or the [default] case
    (and [start] is where the format continues then). *)
Inductive conv :=
| CChar | CErr | CStr | CDec | CUns | COct | CPtr | CHex | CPercent | CDefault.

Definition conv_of (ch : Z) : conv :=
  if ch =? 99 then CChar else if ch =? 101 then CErr else if ch =? 115 then CStr
  else if ch =? 100 then CDec else if ch =? 117 then CUns else if ch =? 111 then COct
  else if ch =? 112 then CPtr else if ch =? 120 then CHex else if ch =? 37 then CPercent
  else CDefault.

(** The [reswitch] loop: flags, width and precision, until a conversion
    character.  Every iteration consumes at least one byte of [fmt]; [fuel]
    is a bound on its length. *)
Fixpoint reswitch (fuel : nat) (fmt : list Z) (ap : list va_arg) (e : esc)
  : option (conv * esc * list Z * list va_arg) :=
  match fuel, fmt with
  | Datatypes.S f, ch :: fmt' =>
      if ch =? 45 then reswitch f fmt' ap (set_padc 45 e)
      else if ch =? 48 then reswitch f fmt' ap (set_padc 48 e)
      else if (49 <=? ch) && (ch <=? 57) then
        '(p, fmt'') ← width_field ch fmt' 0;
        reswitch f fmt'' ap (process_precision (set_precision p e))
      else if ch =? 42 then
        '(p, ap') ← va_int ap;
        reswitch f fmt' ap' (process_precision (set_precision p e))
      else if ch =? 46 then
        reswitch f fmt' ap (if width e <? 0 then set_width 0 e else e)
      else if ch =? 35 then reswitch f fmt' ap (set_altflag true e)
      else if ch =? 108 then reswitch f fmt' ap (set_lflag (lflag e + 1) e)
      else Some (conv_of ch, e, fmt', ap)
  | _, _ => None
  end.

(** [vprintfmt].  After a conversion the format goes on at [fmt'], after the
    [default] case it goes on just behind the [%], which is what the loop
    [for (fmt--; fmt[-1] != '%'; fmt--)] finds.  [%e] calls [printfmt]
    recursively.  [None] is undefined behaviour: a read past the format or a
    string, or an argument that is missing or of another type. *)
Fixpoint vprintfmt_loop (fuel : nat) (fmt : list Z) (ap : list va_arg) (s : S) : option S :=
  match fuel, fmt with
  | Datatypes.S f, ch :: fmt1 =>
      if negb (ch =? 37) then
        if ch =? 0 then Some s else vprintfmt_loop f fmt1 ap (putch ch s)
      else
        '(c, e, fmt', ap) ← reswitch (length fmt1) fmt1 ap esc0;
        match c with
        | CChar =>
            '(z, ap) ← va_int ap;
            vprintfmt_loop f fmt' ap (putch z s)
        | CErr =>
            '(z, ap) ← va_int ap;
            let err := if z <? 0 then - z else z in
            s ← (if z =? - 2 ^ 31 then None
                 else if MAXERROR <=? err then vprintfmt_loop f (cstr "error %d") [VInt err] s
                 else match error_string err with
                      | None => vprintfmt_loop f (cstr "error %d") [VInt err] s
                      | Some p => vprintfmt_loop f (cstr "%s") [VStr (Some (cstr p))] s
                      end);
            vprintfmt_loop f fmt' ap s
        | CStr =>
            '(p, ap) ← va_str ap;
            s ← print_string (default (cstr "(null)") p) (precision e) (width e) (padc e) (altflag e) s;
            vprintfmt_loop f fmt' ap s
        | CDec =>
            '(num, ap) ← getint ap (lflag e);
            let s := if num <? 0 then printnum (u64 (- num)) 10 (width e) (padc e) (putch 45 s)
                     else printnum num 10 (width e) (padc e) s in
            vprintfmt_loop f fmt' ap s
        | CUns =>
            '(num, ap) ← getuint ap (lflag e);
            vprintfmt_loop f fmt' ap (printnum num 10 (width e) (padc e) s)
        | COct => vprintfmt_loop f fmt' ap (putch 88 (putch 88 (putch 88 s)))
        | CPtr =>
            '(num, ap) ← getuint ap 0;
            vprintfmt_loop f fmt' ap (printnum num 16 (width e) (padc e) (putch 120 (putch 48 s)))
        | CHex =>
            '(num, ap) ← getuint ap (lflag e);
            vprintfmt_loop f fmt' ap (printnum num 16 (width e) (padc e) s)
        | CPercent => vprintfmt_loop f fmt' ap (putch 37 s)
        | CDefault => vprintfmt_loop f fmt1 ap (putch 37 s)
        end
  | _, _ => None
  end.

Definition vprintfmt (fmt : list Z) (ap : list va_arg) (s : S) : option S :=
  vprintfmt_loop (length fmt + 16) fmt ap s.

End Output.

(** ** snprintf *)

(** [struct sprintbuf]: the bytes written so far at [buf], the room left up
    to [ebuf], and the count. *)
Record sprintbuf := mkSprintbuf { sp_written : list Z; sp_room : Z; sp_cnt : Z }.

Definition sprintputch (ch : Z) (b : sprintbuf) : sprintbuf :=
  if 0 <? sp_room b
  then mkSprintbuf (sp_written b ++ [u8 ch]) (sp_room b - 1) (sp_cnt b + 1)
  else mkSprintbuf (sp_written b) (sp_room b) (sp_cnt b + 1).

#[export] Instance Putch_sprintbuf : Putch sprintbuf := sprintputch.

(** [vsnprintf buf n fmt ap]: the new contents of the start of [buf] and the
    return value; [buf = None] is NULL. *)
Definition vsnprintf (buf : option (list Z)) (n : Z) (fmt : list Z) (ap : list va_arg)
  : option (list Z * Z) :=
  match buf with
  | None => Some ([], - E_INVAL)
  | Some old =>
      if n <? 1 then Some (old, - E_INVAL)
      else
        b ← vprintfmt fmt ap (mkSprintbuf [] (n - 1) 0);
        let out := sp_written b ++ [0] in
        Some (out ++ drop (length out) old, sp_cnt b)
  end.

Definition snprintf (buf : option (list Z)) (n : Z) (fmt : list Z) (ap : list va_arg)
  : option (list Z * Z) := vsnprintf buf n fmt ap.
