(* ===== verification/Hardware.v ===== *)
(** * Hardware: port I/O as the kernel sees it, and kern/kclock.c

    [inb] and [outb] are instructions of the machine.  A device is an
    arbitrary oracle: [port_in p n] is the byte that the n-th read of port
    [p] returns.  The oracle is a field of the state, so a theorem about
    every state is a theorem about every device behaviour; writes are
    recorded in [port_log], newest first. *)

From S2P Require Import Prelude Machine.

Record ports := mkPorts {
  port_in : Z -> nat -> Z;
  port_reads : gmap Z nat;
  port_log : list (Z * Z);
}.

Definition inb (p : Z) (io : ports) : Z * ports :=
  let n := default O (port_reads io !! p) in
  (u8 (port_in io p n), mkPorts (port_in io) (<[p := S n]> (port_reads io)) (port_log io)).

Definition outb (p data : Z) (io : ports) : ports :=
  mkPorts (port_in io) (port_reads io) ((p, u8 data) :: port_log io).

(** ** kern/kclock.c *)

Definition IO_RTC : Z := 0x70.

Definition mc146818_read (reg : Z) (io : ports) : Z * ports :=
  inb (IO_RTC + 1) (outb IO_RTC reg io).

Definition mc146818_write (reg datum : Z) (io : ports) : ports :=
  outb (IO_RTC + 1) datum (outb IO_RTC reg io).

(** A busy-wait loop [for (i = 0; !(inb(p) & mask) && i < n; i++) delay();]:
    the status register is read before the counter is tested. *)
Section Polling.

Definition delay (io : ports) : ports :=
  snd (inb 0x84 (snd (inb 0x84 (snd (inb 0x84 (snd (inb 0x84 io))))))).

Fixpoint poll (n : nat) (p mask : Z) (io : ports) : ports :=
  let '(d, io) := inb p io in
  if test d mask then io
  else match n with O => io | S n' => poll n' p mask (delay io) end.

End Polling.
