(* ===== verification/Console.v ===== *)
(** * Console: kern/console.c and kern/printf.c

    The serial port, the parallel port, the CGA text screen, the keyboard
    state machine and the circular input buffer, and the kernel's [cprintf],
    which sends the output of [vprintfmt] to the three output devices.
    [console] is the static state of console.c with the ports below it. *)

From S2P Require Import Prelude Machine CString Printfmt Hardware.

Definition COM1 : Z := 0x3F8.
Definition COM_RX : Z := 0.
Definition COM_TX : Z := 0.
Definition COM_DLL : Z := 0.
Definition COM_DLM : Z := 1.
Definition COM_IER : Z := 1.
Definition COM_IER_RDI : Z := 0x01.
Definition COM_IIR : Z := 2.
Definition COM_FCR : Z := 2.
Definition COM_LCR : Z := 3.
Definition COM_LCR_DLAB : Z := 0x80.
Definition COM_LCR_WLEN8 : Z := 0x03.
Definition COM_MCR : Z := 4.
Definition COM_LSR : Z := 5.
Definition COM_LSR_DATA : Z := 0x01.
Definition COM_LSR_TXRDY : Z := 0x20.

Definition MONO_BASE : Z := 0x3B4.
Definition CGA_BASE : Z := 0x3D4.
Definition CRT_ROWS : Z := 25.
Definition CRT_COLS : Z := 80.
Definition CRT_SIZE : Z := CRT_ROWS * CRT_COLS.

Definition CONSBUFSIZE : Z := 512.

(** The static variables of console.c.  [has_cga] says whether the CGA video
    memory answers (the test of [cga_init]); [crt_buf] is the video memory of
    the adapter in use, one 16-bit cell per character. *)
Record console := mkConsole {
  io : ports;
  serial_exists : bool;
  has_cga : bool;
  addr_6845 : Z;
  crt_buf : gmap Z Z;
  crt_pos : Z;
  kbd_shift : Z;
  cons_buf : gmap Z Z;
  cons_rpos : Z;
  cons_wpos : Z;
}.

Definition set_io (i : ports) (c : console) : console :=
  mkConsole i (serial_exists c) (has_cga c) (addr_6845 c) (crt_buf c) (crt_pos c)
    (kbd_shift c) (cons_buf c) (cons_rpos c) (cons_wpos c).
Definition set_serial_exists (b : bool) (c : console) : console :=
  mkConsole (io c) b (has_cga c) (addr_6845 c) (crt_buf c) (crt_pos c)
    (kbd_shift c) (cons_buf c) (cons_rpos c) (cons_wpos c).
Definition set_crt (addr : Z) (buf : gmap Z Z) (pos : Z) (c : console) : console :=
  mkConsole (io c) (serial_exists c) (has_cga c) addr buf pos
    (kbd_shift c) (cons_buf c) (cons_rpos c) (cons_wpos c).
Definition set_kbd_shift (s : Z) (c : console) : console :=
  mkConsole (io c) (serial_exists c) (has_cga c) (addr_6845 c) (crt_buf c) (crt_pos c)
    s (cons_buf c) (cons_rpos c) (cons_wpos c).
Definition set_cons (buf : gmap Z Z) (r w : Z) (c : console) : console :=
  mkConsole (io c) (serial_exists c) (has_cga c) (addr_6845 c) (crt_buf c) (crt_pos c)
    (kbd_shift c) buf r w.

(** ** Serial and parallel ports *)

Section Devices.

Definition serial_proc_data (c : console) : Z * console :=
  let '(d, i) := inb (COM1 + COM_LSR) (io c) in
  if negb (test d COM_LSR_DATA) then (-1, set_io i c)
  else let '(d, i) := inb (COM1 + COM_RX) i in (d, set_io i c).

Definition serial_putc (ch : Z) (c : console) : console :=
  let i := poll (Z.to_nat 12800) (COM1 + COM_LSR) COM_LSR_TXRDY (io c) in
  set_io (outb (COM1 + COM_TX) ch i) c.

Definition serial_init (c : console) : console :=
  let i := outb (COM1 + COM_FCR) 0 (io c) in
  let i := outb (COM1 + COM_LCR) COM_LCR_DLAB i in
  let i := outb (COM1 + COM_DLL) (115200 / 9600) i in
  let i := outb (COM1 + COM_DLM) 0 i in
  let i := outb (COM1 + COM_LCR) (Z.land COM_LCR_WLEN8 (Z.lnot COM_LCR_DLAB)) i in
  let i := outb (COM1 + COM_MCR) 0 i in
  let i := outb (COM1 + COM_IER) COM_IER_RDI i in
  let '(d, i) := inb (COM1 + COM_LSR) i in
  let c := set_serial_exists (negb (d =? 0xFF)) c in
  let '(_, i) := inb (COM1 + COM_IIR) i in
  let '(_, i) := inb (COM1 + COM_RX) i in
  set_io i c.

Definition lpt_putc (ch : Z) (c : console) : console :=
  let i := poll (Z.to_nat 12800) (0x378 + 1) 0x80 (io c) in
  let i := outb (0x378 + 0) ch i in
  let i := outb (0x378 + 2) (Z.lor (Z.lor 0x08 0x04) 0x01) i in
  set_io (outb (0x378 + 2) 0x08 i) c.

End Devices.

(** ** CGA text screen *)

Section Cga.

(** [cga_init]: writes a test pattern to the first cell to see whether the
    CGA memory is there, then reads the cursor position. *)
Definition cga_init (c : console) : console :=
  let addr := if has_cga c then CGA_BASE else MONO_BASE in
  let i := outb addr 14 (io c) in
  let '(hi, i) := inb (addr + 1) i in
  let i := outb addr 15 i in
  let '(lo, i) := inb (addr + 1) i in
  set_io i (set_crt addr (crt_buf c) (u16 (Z.lor (Z.shiftl hi 8) lo)) c).

(** The scrolling of [cga_putc]: the [memmove] of the rows and the clearing
    of the last one. *)
Definition crt_scroll (buf : gmap Z Z) : gmap Z Z :=
  let moved := fold_left (fun acc j => <[j := default 0 (buf !! (j + CRT_COLS))]> acc)
                 (seqZ 0 (CRT_SIZE - CRT_COLS)) buf in
  fold_left (fun acc j => <[j := Z.lor 0x0700 32]> acc) (seqZ (CRT_SIZE - CRT_COLS) CRT_COLS) moved.

Definition cga_scroll (c : console) : console :=
  if CRT_SIZE <=? crt_pos c
  then set_crt (addr_6845 c) (crt_scroll (crt_buf c)) (u16 (crt_pos c - CRT_COLS)) c
  else c.

Definition cga_cursor (c : console) : console :=
  let i := outb (addr_6845 c) 14 (io c) in
  let i := outb (addr_6845 c + 1) (Z.shiftr (crt_pos c) 8) i in
  let i := outb (addr_6845 c) 15 i in
  set_io (outb (addr_6845 c + 1) (crt_pos c) i) c.

(** [cga_putc] and [cons_putc] call each other: a tab prints five spaces with
    [cons_putc].  [depth] bounds that nesting; 2 is enough. *)
Fixpoint cga_putc (depth : nat) (ch : Z) (c : console) : console :=
  match depth with
  | O => c
  | S depth' =>
      let cons_putc' (ch : Z) (c : console) :=
        cga_putc depth' ch (lpt_putc ch (serial_putc ch c)) in
      let ch := if test ch (Z.lnot 0xFF) then ch else Z.lor ch 0x0700 in
      let k := Z.land ch 0xff in
      let addr := addr_6845 c in
      let c :=
        if k =? 8 then
          if 0 <? crt_pos c then
            let p := u16 (crt_pos c - 1) in
            set_crt addr (<[p := u16 (Z.lor (Z.land ch (Z.lnot 0xff)) 32)]> (crt_buf c)) p c
          else c
        else if (k =? 10) || (k =? 13) then
          let p := if k =? 10 then u16 (crt_pos c + CRT_COLS) else crt_pos c in
          set_crt addr (crt_buf c) (u16 (p - p `mod` CRT_COLS)) c
        else if k =? 9 then
          cons_putc' 32 (cons_putc' 32 (cons_putc' 32 (cons_putc' 32 (cons_putc' 32 c))))
        else set_crt addr (<[crt_pos c := u16 ch]> (crt_buf c)) (u16 (crt_pos c + 1)) c in
      cga_cursor (cga_scroll c)
  end.

Definition cons_putc (ch : Z) (c : console) : console :=
  cga_putc 2 ch (lpt_putc ch (serial_putc ch c)).

Definition cputchar (ch : Z) (c : console) : console := cons_putc ch c.

End Cga.

(** ** kern/printf.c

    [putch] increments the pointer [cnt], not the counter it points to, so
    the count [vcprintf] returns stays 0. *)

Section Printf.

#[export] Instance Putch_console : Putch (console * Z) :=
  fun ch '(c, cnt) => (cputchar ch c, cnt).

Definition vcprintf (fmt : list Z) (ap : list va_arg) (c : console) : option (Z * console) :=
  '(c, cnt) ← vprintfmt fmt ap (c, 0); Some (cnt, c).

Definition cprintf (fmt : list Z) (ap : list va_arg) (c : console) : option (Z * console) :=
  vcprintf fmt ap c.

End Printf.

(** ** Keyboard *)

Section Keyboard.

Definition KBSTATP : Z := 0x64.
Definition KBDATAP : Z := 0x60.
Definition KBS_DIB : Z := 0x01.
Definition KEY_DEL : Z := 0xE9.

Definition SHIFT : Z := 1.
Definition CTL : Z := 2.
Definition ALT : Z := 4.
Definition CAPSLOCK : Z := 8.
Definition NUMLOCK : Z := 16.
Definition SCROLLLOCK : Z := 32.
Definition E0ESC : Z := 64.

(** The 256-entry tables: the initial run and the designated entries, 0
    elsewhere. *)
Definition table (run : list Z) (designated : list (Z * Z)) (i : Z) : Z :=
  match list_find (fun e => fst e = i) designated with
  | Some (_, (_, v)) => v
  | None => default 0 (run !! Z.to_nat i)
  end.

Definition shiftcode : Z -> Z :=
  table [] [(0x1D, CTL); (0x2A, SHIFT); (0x36, SHIFT); (0x38, ALT); (0x9D, CTL); (0xB8, ALT)].

Definition togglecode : Z -> Z :=
  table [] [(0x3A, CAPSLOCK); (0x45, NUMLOCK); (0x46, SCROLLLOCK)].

Definition keypad (enter div : Z) : list (Z * Z) :=
  [(0xC7, 0xE0); (0x9C, enter); (0xB5, div); (0xC8, 0xE2); (0xC9, 0xE6); (0xCB, 0xE4);
   (0xCD, 0xE5); (0xCF, 0xE1); (0xD0, 0xE3); (0xD1, 0xE7); (0xD2, 0xE8); (0xD3, 0xE9)].

Definition normalmap : Z -> Z :=
  table ([0; 0x1B] ++ chars "1234567890-=" ++ [8; 9] ++ chars "qwertyuiop[]" ++ [10; 0]
         ++ chars "asdfghjkl;'`" ++ [0; 92] ++ chars "zxcvbnm,./" ++ [0; 42; 0; 32]
         ++ replicate 13 0 ++ chars "789-456+1230." ++ replicate 4 0)
    (keypad 10 47).

Definition shiftmap : Z -> Z :=
  table ([0; 27] ++ chars "!@#$%^&*()_+" ++ [8; 9] ++ chars "QWERTYUIOP{}" ++ [10; 0]
         ++ chars "ASDFGHJKL:" ++ [34; 126; 0; 124] ++ chars "ZXCVBNM<>?" ++ [0; 42; 0; 32]
         ++ replicate 13 0 ++ chars "789-456+1230." ++ replicate 4 0)
    (keypad 10 47).

(** [C(x)] is [x - '@'], stored in a byte. *)
Definition C_ (s : string) : list Z := map (fun x => u8 (x - 64)) (chars s).

Definition ctlmap : Z -> Z :=
  table (replicate 16 0 ++ C_ "QWERTYUIOP" ++ [0; 0; 13; 0] ++ C_ "ASDFGHJKL" ++ replicate 4 0
         ++ C_ "\ZXCVBNM" ++ [0; 0] ++ C_ "/" ++ [0; 0])
    [(0x97, 0xE0); (0xB5, u8 (47 - 64)); (0xC8, 0xE2); (0xC9, 0xE6); (0xCB, 0xE4); (0xCD, 0xE5);
     (0xCF, 0xE1); (0xD0, 0xE3); (0xD1, 0xE7); (0xD2, 0xE8); (0xD3, 0xE9)].

Definition charcode (i : Z) : Z -> Z :=
  if i =? 0 then normalmap else if i =? 1 then shiftmap else ctlmap.

(** The translation of one scan code: the new modifier state and the result
    of [kbd_proc_data] before the test for Ctrl-Alt-Del. *)
Definition kbd_translate (data shift : Z) : Z * Z :=
  if data =? 0xE0 then (0, Z.lor shift E0ESC)
  else if test data 0x80 then
    let data := if test shift E0ESC then data else Z.land data 0x7F in
    (0, Z.land shift (u32 (Z.lnot (Z.lor (shiftcode data) E0ESC))))
  else
    let '(data, shift) := if test shift E0ESC
                          then (Z.lor data 0x80, Z.land shift (u32 (Z.lnot E0ESC)))
                          else (data, shift) in
    let shift := Z.lor shift (shiftcode data) in
    let shift := Z.lxor shift (togglecode data) in
    let c := charcode (Z.land shift (Z.lor CTL SHIFT)) data in
    let c := if test shift CAPSLOCK then
               if (97 <=? c) && (c <=? 122) then c + 65 - 97
               else if (65 <=? c) && (c <=? 90) then c + 97 - 65 else c
             else c in
    (c, shift).

(** Did this scan code reach the end of [kbd_proc_data] with Ctrl-Alt-Del? *)
Definition kbd_reboots (data c shift : Z) : bool :=
  negb (data =? 0xE0) && negb (test data 0x80) &&
  negb (test (u32 (Z.lnot shift)) (Z.lor CTL ALT)) && (c =? KEY_DEL).

Definition kbd_proc_data (c : console) : Z * console :=
  let '(st, i) := inb KBSTATP (io c) in
  let c := set_io i c in
  if negb (test st KBS_DIB) then (-1, c)
  else
    let '(data, i) := inb KBDATAP (io c) in
    let '(r, shift) := kbd_translate data (kbd_shift c) in
    let c := set_kbd_shift shift (set_io i c) in
    if kbd_reboots data r shift then
      let c := match cprintf (cstr "Rebooting!\n") [] c with
               | Some (_, c) => c | None => c end in
      (r, set_io (outb 0x92 0x3 (io c)) c)
    else (r, c).

End Keyboard.

(** ** The circular input buffer *)

Section Buffer.

(** The body of the loop of [cons_intr] for a character other than 0. *)
Definition cons_put (ch : Z) (c : console) : console :=
  let buf := <[cons_wpos c := u8 ch]> (cons_buf c) in
  let w := cons_wpos c + 1 in
  set_cons buf (cons_rpos c) (if w =? CONSBUFSIZE then 0 else w) c.

(** [cons_intr proc]: until [proc] returns -1.  [None] when the device still
    has data after [fuel] calls. *)
Fixpoint cons_intr (fuel : nat) (proc : console -> Z * console) (c : console) : option console :=
  match fuel with
  | O => None
  | S fuel' =>
      let '(ch, c) := proc c in
      if ch =? -1 then Some c
      else if ch =? 0 then cons_intr fuel' proc c
      else cons_intr fuel' proc (cons_put ch c)
  end.

Definition serial_intr (fuel : nat) (c : console) : option console :=
  if serial_exists c then cons_intr fuel serial_proc_data c else Some c.

Definition kbd_intr (fuel : nat) (c : console) : option console :=
  cons_intr fuel kbd_proc_data c.

(** The part of [cons_getc] after the polling. *)
Definition cons_get (c : console) : Z * console :=
  if negb (cons_rpos c =? cons_wpos c) then
    let ch := default 0 (cons_buf c !! cons_rpos c) in
    let r := cons_rpos c + 1 in
    (ch, set_cons (cons_buf c) (if r =? CONSBUFSIZE then 0 else r) (cons_wpos c) c)
  else (0, c).

Definition cons_getc (fuel : nat) (c : console) : option (Z * console) :=
  c ← serial_intr fuel c;
  c ← kbd_intr fuel c;
  Some (cons_get c).

(** [getchar]: polls until there is a character. *)
Fixpoint getchar (tries fuel : nat) (c : console) : option (Z * console) :=
  match tries with
  | O => None
  | S tries' =>
      '(ch, c) ← cons_getc fuel c;
      if ch =? 0 then getchar tries' fuel c else Some (ch, c)
  end.

Definition iscons (fdnum : Z) : Z := 1.

End Buffer.
