(* ===== verification/PrintfProps.v ===== *)
(** * PrintfProps: the formatter and its sinks

    The formatter only talks to its sink through [putch], so what it does is
    determined by the characters it would send: the output into any sink is
    the replay of the [trace] of the format.  With that, [snprintf] and the
    buffered output of the user library are statements about lists. *)

From S2P Require Import Prelude Machine CString Printfmt Hardware Console.

(** The sink that records the characters. *)
#[export] Instance Putch_trace : Putch (list Z) := fun c l => l ++ [c].

Definition trace (fmt : list Z) (ap : list va_arg) : option (list Z) :=
  vprintfmt fmt ap ([] : list Z).

(** Sending characters to a sink, one after the other. *)
Definition replay {S} `{Putch S} (l : list Z) (s : S) : S := fold_left (fun s c => putch c s) l s.

(** ** The formatter commutes with maps between sinks *)

Section Morphism.

Context {S T : Type} `{!Putch S} `{!Putch T} (h : S -> T).
Context (Hh : forall c s, h (putch c s) = putch c (h s)).

Lemma putch_n_morph n c s : putch_n n c (h s) = h (putch_n n c s).
Proof using Hh. revert s. induction n as [|n IH]; intros s; simpl; [done|]. by rewrite <- IH, Hh. Qed.

Lemma printnum_loop_morph f num base w p s :
  printnum_loop f num base w p (h s) = h (printnum_loop f num base w p s).
Proof using Hh.
  revert num w s. induction f as [|f IH]; intros num w s; cbn [printnum_loop]; [done|].
  rewrite Hh. f_equal. destruct (base <=? num); [apply IH | apply putch_n_morph].
Qed.

Lemma printnum_morph num base w p s : printnum num base w p (h s) = h (printnum num base w p s).
Proof using Hh. apply printnum_loop_morph. Qed.

Lemma put_string_morph p pr w alt s :
  put_string p pr w alt (h s) = (fun '(w', s') => (w', h s')) <$> put_string p pr w alt s.
Proof using Hh.
  revert pr w s. induction p as [|b p IH]; intros pr w s; cbn [put_string]; [done|].
  destruct (i8 b =? 0); [done|]. destruct ((pr <? 0) || (0 <=? pr - 1)); [|done].
  rewrite <- IH. by destruct (alt && _); rewrite Hh.
Qed.

Lemma print_string_morph p pr w pad alt s :
  print_string p pr w pad alt (h s) = h <$> print_string p pr w pad alt s.
Proof using Hh.
  unfold print_string.
  destruct ((0 <? w) && negb (pad =? 45)).
  - destruct (strnlen p (u32 pr)) as [n|]; simpl; [|done].
    rewrite putch_n_morph, put_string_morph. destruct (put_string p _ _ _ _) as [[w' s']|]; simpl; [|done].
    by rewrite putch_n_morph.
  - simpl. rewrite put_string_morph. destruct (put_string p _ _ _ _) as [[w' s']|]; simpl; [|done].
    by rewrite putch_n_morph.
Qed.

Lemma vprintfmt_loop_morph f fmt ap s :
  vprintfmt_loop f fmt ap (h s) = h <$> vprintfmt_loop f fmt ap s.
Proof using Hh.
  revert fmt ap s. induction f as [|f IH]; intros fmt ap s; destruct fmt as [|ch fmt]; try done.
  cbn [vprintfmt_loop]. destruct (negb (ch =? 37)).
  - destruct (ch =? 0); [done|]. rewrite <- Hh. apply IH.
  - destruct (reswitch (length fmt) fmt ap esc0) as [[[[c e] fmt'] ap']|]; [|done].
    simpl. destruct c; rewrite <- ?Hh.
    + destruct (va_int ap') as [[z ap'']|]; simpl; [|done]. rewrite <- Hh. apply IH.
    + destruct (va_int ap') as [[z ap'']|]; simpl; [|done].
      destruct (z =? _); [done|].
      assert (E : forall fmt1 ap1, (vprintfmt_loop f fmt1 ap1 (h s) ≫= fun s1 => vprintfmt_loop f fmt' ap'' s1)
        = h <$> (vprintfmt_loop f fmt1 ap1 s ≫= fun s1 => vprintfmt_loop f fmt' ap'' s1)).
      { intros fmt1 ap1. rewrite IH. destruct (vprintfmt_loop f fmt1 ap1 s) as [s1|]; simpl; [apply IH | done]. }
      destruct (MAXERROR <=? _); [apply E|]. destruct (error_string _); apply E.
    + destruct (va_str ap') as [[p ap'']|]; simpl; [|done]. rewrite print_string_morph.
      destruct (print_string _ _ _ _ _ s) as [s1|]; simpl; [apply IH | done].
    + destruct (getint ap' _) as [[z ap'']|]; simpl; [|done].
      destruct (z <? 0); rewrite <- ?Hh, printnum_morph; apply IH.
    + destruct (getuint ap' _) as [[z ap'']|]; simpl; [|done]. rewrite printnum_morph. apply IH.
    + apply IH.
    + destruct (getuint ap' _) as [[z ap'']|]; simpl; [|done]. rewrite printnum_morph. apply IH.
    + destruct (getuint ap' _) as [[z ap'']|]; simpl; [|done]. rewrite printnum_morph. apply IH.
    + apply IH.
    + apply IH.
Qed.

Lemma vprintfmt_morph fmt ap s : vprintfmt fmt ap (h s) = h <$> vprintfmt fmt ap s.
Proof using Hh. apply vprintfmt_loop_morph. Qed.

End Morphism.

Section Replay.

Context {S : Type} `{!Putch S}.

Lemma replay_snoc l c (s : S) : replay (l ++ [c]) s = putch c (replay l s).
Proof. unfold replay. by rewrite fold_left_app. Qed.

(** The output into any sink is the replay of the trace. *)
Lemma vprintfmt_replay fmt ap (s : S) : vprintfmt fmt ap s = (fun l => replay l s) <$> trace fmt ap.
Proof. apply (vprintfmt_morph (fun l => replay l s)) with (s := []). intros. apply replay_snoc. Qed.

End Replay.

(** ** Fuel *)

Section Fuel.

Lemma obind_cong {A B} (x y : option A) (k1 k2 : A -> option B) :
  x = y -> (forall a, k1 a = k2 a) -> (x ≫= k1) = (y ≫= k2).
Proof. intros -> Hk. destruct y; [apply Hk | done]. Qed.

Lemma width_field_length c fmt p q fmt' :
  width_field c fmt p = Some (q, fmt') -> (length fmt' <= length fmt)%nat.
Proof.
  revert c p. induction fmt as [|d fmt IH]; intros c p; cbn [width_field]; [done|].
  destruct ((d <? 48) || (57 <? d)); [intros [= <- <-]; done|].
  intros H%IH. simpl. lia.
Qed.

(** An escape consumes its conversion character. *)
Lemma reswitch_length f fmt ap e c e' fmt' ap' :
  reswitch f fmt ap e = Some (c, e', fmt', ap') -> (length fmt' < length fmt)%nat.
Proof.
  revert fmt ap e. induction f as [|f IH]; intros fmt ap e; destruct fmt as [|ch fmt]; try done.
  cbn [reswitch length].
  assert (Hrec : forall fmt1 ap1 e1, (length fmt1 <= length fmt)%nat ->
    reswitch f fmt1 ap1 e1 = Some (c, e', fmt', ap') -> (length fmt' < S (length fmt))%nat).
  { intros fmt1 ap1 e1 Hle H%IH. lia. }
  destruct (ch =? 45); [by apply Hrec|]. destruct (ch =? 48); [by apply Hrec|].
  destruct ((49 <=? ch) && (ch <=? 57)).
  { destruct (width_field ch fmt 0) as [[p fmt'']|] eqn:E; simpl; [|done].
    apply Hrec. by eapply width_field_length. }
  destruct (ch =? 42). { destruct (va_int ap) as [[p ap'']|]; simpl; [|done]. by apply Hrec. }
  destruct (ch =? 46); [by apply Hrec|]. destruct (ch =? 35); [by apply Hrec|].
  destruct (ch =? 108); [by apply Hrec|]. intros [= <- <- <- <-]. lia.
Qed.

Context {S : Type} `{!Putch S}.

(** The two formats of [%e] need no more than 9 steps. *)
Lemma error_fuel f g (s : S) z :
  (9 <= f)%nat -> (9 <= g)%nat ->
  vprintfmt_loop f (cstr "error %d") [VInt z] s = vprintfmt_loop g (cstr "error %d") [VInt z] s.
Proof. intros Hf Hg. do 9 (destruct f as [|f], g as [|g]; try lia). reflexivity. Qed.

Lemma error_fuel_str f g (s : S) p :
  (9 <= f)%nat -> (9 <= g)%nat ->
  vprintfmt_loop f (cstr "%s") [VStr p] s = vprintfmt_loop g (cstr "%s") [VStr p] s.
Proof. intros Hf Hg. do 9 (destruct f as [|f], g as [|g]; try lia). reflexivity. Qed.

Lemma vprintfmt_loop_fuel f g fmt ap (s : S) :
  (length fmt + 9 <= f)%nat -> (length fmt + 9 <= g)%nat ->
  vprintfmt_loop f fmt ap s = vprintfmt_loop g fmt ap s.
Proof.
  revert g fmt ap s. induction f as [|f IH]; intros g fmt ap s Hf Hg; [lia|].
  destruct g as [|g]; [lia|]. destruct fmt as [|ch fmt]; [done|].
  cbn [vprintfmt_loop length] in *.
  assert (Hrec : forall fmt' ap' s', (length fmt' <= length fmt)%nat ->
    vprintfmt_loop f fmt' ap' s' = vprintfmt_loop g fmt' ap' s') by (intros; apply IH; lia).
  clear IH.
  destruct (negb (ch =? 37)); [destruct (ch =? 0); [done | by apply Hrec]|].
  destruct (reswitch (length fmt) fmt ap esc0) as [[[[c e] fmt'] ap']|] eqn:E; cbn [mbind option_bind]; [|done].
  apply reswitch_length in E.
  destruct c; try (apply Hrec; lia).
  - apply obind_cong; [done|]. intros [z ap'']. apply Hrec; lia.
  - apply obind_cong; [done|]. intros [z ap'']. apply obind_cong; [|intros; apply Hrec; lia].
    destruct (z =? _); [done|].
    destruct (MAXERROR <=? _); [|destruct (error_string _) as [p|]];
      first [apply error_fuel; lia | apply error_fuel_str; lia].
  - apply obind_cong; [done|]. intros [p ap'']. apply obind_cong; [done|]. intros. apply Hrec; lia.
  - apply obind_cong; [done|]. intros [z ap'']. apply Hrec; lia.
  - apply obind_cong; [done|]. intros [z ap'']. apply Hrec; lia.
  - apply obind_cong; [done|]. intros [z ap'']. apply Hrec; lia.
  - apply obind_cong; [done|]. intros [z ap'']. apply Hrec; lia.
Qed.

Lemma vprintfmt_fuel_ge f fmt ap (s : S) :
  (length fmt + 16 <= f)%nat -> vprintfmt_loop f fmt ap s = vprintfmt fmt ap s.
Proof.
  intros. apply vprintfmt_loop_fuel; lia.
Qed.

End Fuel.

(** ** Text without escapes *)

Section Plain.

Context {S : Type} `{!Putch S}.

(** A text without a percent sign or a NUL. *)
Definition plain (l : list Z) : Prop := Forall (fun c => c <> 37 /\ c <> 0) l.

Definition plainb (l : list Z) : bool := forallb (fun c => negb (c =? 37) && negb (c =? 0)) l.

Lemma plainb_spec l : plainb l = true -> plain l.
Proof.
  unfold plainb, plain. intros H. apply Forall_forall. intros c Hc.
  rewrite forallb_forall in H. apply list_elem_of_In, H in Hc. lia.
Qed.

Lemma vprintfmt_loop_plain f l rest ap (s : S) :
  plain l -> (length l <= f)%nat ->
  vprintfmt_loop f (l ++ rest) ap s = vprintfmt_loop (f - length l) rest ap (replay l s).
Proof.
  intros Hl. revert f s. induction Hl as [|c l [H1 H2] Hl IH]; intros f s Hf; simpl in *.
  - by replace (f - 0)%nat with f by lia.
  - destruct f as [|f]; [lia|]. cbn [vprintfmt_loop].
    rewrite (proj2 (Z.eqb_neq _ _) H1), (proj2 (Z.eqb_neq _ _) H2). simpl. apply IH. lia.
Qed.

Lemma vprintfmt_plain l ap (s : S) : plain l -> vprintfmt (l ++ [0]) ap s = Some (replay l s).
Proof.
  intros Hl. unfold vprintfmt. rewrite length_app, vprintfmt_loop_plain by (done || simpl; lia).
  simpl length. by replace (length l + 1 + 16 - length l)%nat with 17%nat by lia.
Qed.

End Plain.

(** ** Formats that match their arguments *)

Section Typed.

(** The types of the arguments, as arguments with a fixed value; only the
    smallest [int], which [%e] cannot negate, is kept apart. *)
Definition erase (a : va_arg) : va_arg :=
  match a with
  | VInt z => VInt (if i32 z =? - 2 ^ 31 then - 2 ^ 31 else 0)
  | VLong _ => VLong 0
  | VStr _ => VStr None
  end.

(** The format asks for arguments of these types. *)
Fixpoint well_typed (fuel : nat) (fmt : list Z) (ap : list va_arg) : bool :=
  match fuel, fmt with
  | Datatypes.S f, ch :: fmt1 =>
      if negb (ch =? 37) then (if ch =? 0 then true else well_typed f fmt1 ap)
      else
        match reswitch (length fmt1) fmt1 ap esc0 with
        | None => false
        | Some (c, e, fmt', ap) =>
            match c with
            | CChar => match va_int ap with Some (_, ap) => well_typed f fmt' ap | None => false end
            | CErr =>
                match va_int ap with
                | Some (z, ap) => negb (z =? - 2 ^ 31) && well_typed f fmt' ap
                | None => false
                end
            | CStr => match va_str ap with Some (_, ap) => well_typed f fmt' ap | None => false end
            | CDec => match getint ap (lflag e) with Some (_, ap) => well_typed f fmt' ap | None => false end
            | CUns | CHex =>
                match getuint ap (lflag e) with Some (_, ap) => well_typed f fmt' ap | None => false end
            | CPtr => match getuint ap 0 with Some (_, ap) => well_typed f fmt' ap | None => false end
            | COct | CPercent => well_typed f fmt' ap
            | CDefault => well_typed f fmt1 ap
            end
        end
  | _, _ => false
  end.

(** Strings have their NUL. *)
Definition terminated (a : va_arg) : Prop :=
  match a with VStr (Some l) => 0 ∈ l | _ => True end.

Definition matches (fmt : list Z) (ap : list va_arg) : Prop :=
  well_typed (length fmt + 16) fmt (map erase ap) = true /\ Forall terminated ap.

Lemma reswitch_erase f fmt ap e1 e2 c e1' fmt' apE :
  lflag e1 = lflag e2 -> Forall terminated ap ->
  reswitch f fmt (map erase ap) e1 = Some (c, e1', fmt', apE) ->
  exists e2' ap', reswitch f fmt ap e2 = Some (c, e2', fmt', ap') /\ apE = map erase ap' /\
    lflag e1' = lflag e2' /\ Forall terminated ap'.
Proof.
  assert (Hpp : forall e p, lflag (process_precision (set_precision p e)) = lflag e).
  { intros e p. unfold process_precision. by destruct (_ <? 0). }
  revert fmt ap e1 e2. induction f as [|f IH]; intros fmt ap e1 e2 Hl Ht; destruct fmt as [|ch fmt]; try done.
  cbn [reswitch].
  destruct (ch =? 45); [by apply IH|]. destruct (ch =? 48); [by apply IH|].
  destruct ((49 <=? ch) && (ch <=? 57)).
  { destruct (width_field ch fmt 0) as [[p fmt'']|]; cbn [mbind option_bind]; [|done]. apply IH; [|done].
    by rewrite !Hpp. }
  destruct (ch =? 42).
  { destruct ap as [|[z|z|z] ap]; cbn [map erase va_int mbind option_bind]; try done.
    apply Forall_cons_1 in Ht as [_ Ht]. apply IH; [|done]. by rewrite !Hpp. }
  destruct (ch =? 46); [apply IH; [by destruct (width e1 <? 0), (width e2 <? 0) | done]|].
  destruct (ch =? 35); [by apply IH|]. destruct (ch =? 108); [apply IH; [simpl; congruence | done]|].
  intros [= <- <- <- <-]. eauto 10.
Qed.

Lemma strnlen_loop_some p size n : 0 ∈ p -> is_Some (strnlen_loop p size n).
Proof.
  revert size n. induction p as [|c p IH]; intros size n Hin; cbn [strnlen_loop]; destruct (size <=? 0); eauto.
  - by apply not_elem_of_nil in Hin.
  - destruct (Z.eqb_spec c 0); [eauto|]. apply IH. by apply elem_of_cons in Hin as [<-|].
Qed.

Context {S : Type} `{!Putch S}.

Lemma put_string_some p pr w alt (s : S) : 0 ∈ p -> is_Some (put_string p pr w alt s).
Proof.
  revert pr w s. induction p as [|c p IH]; intros pr w s Hin; cbn [put_string].
  - by apply not_elem_of_nil in Hin.
  - destruct (Z.eqb_spec (i8 c) 0) as [|Hc]; [eauto|]. destruct (_ || _); [|eauto].
    apply IH. by apply elem_of_cons in Hin as [<-|].
Qed.

Lemma print_string_some p pr w pad alt (s : S) : 0 ∈ p -> is_Some (print_string p pr w pad alt s).
Proof.
  intros Hin. unfold print_string.
  assert (Hps : forall w' s', is_Some ('(w, s) ← put_string p pr w' alt s'; Some (putch_n (Z.to_nat w) 32 s))).
  { intros w' s'. destruct (put_string_some p pr w' alt s' Hin) as [[w1 s1] ->]. simpl. eauto. }
  destruct (_ && _); cbn [mbind option_bind]; [|apply Hps].
  destruct (strnlen_loop_some p (u32 pr) 0 Hin) as [n Hn]. unfold strnlen. rewrite Hn. apply Hps.
Qed.

Lemma arg_split {A} (g : list va_arg -> option (A * list va_arg)) (ap : list va_arg) x apE :
  (forall a ap', g (erase a :: map erase ap') = Some (x, apE) ->
     apE = map erase ap' /\ exists y, g (a :: ap') = Some (y, ap')) ->
  g [] = None -> Forall terminated ap ->
  g (map erase ap) = Some (x, apE) ->
  exists a ap' y, ap = a :: ap' /\ terminated a /\ Forall terminated ap' /\ apE = map erase ap' /\ g ap = Some (y, ap').
Proof.
  intros Hg H0 Ht Hx. destruct ap as [|a ap']; [cbn [map] in Hx; congruence|].
  apply Forall_cons_1 in Ht as [Ha Ht]. cbn [map] in Hx.
  destruct (Hg _ _ Hx) as (-> & y & Hy). exists a, ap', y. auto.
Qed.

Lemma va_int_split ap x apE : Forall terminated ap -> va_int (map erase ap) = Some (x, apE) ->
  exists a ap' y, ap = a :: ap' /\ terminated a /\ Forall terminated ap' /\ apE = map erase ap' /\ va_int ap = Some (y, ap').
Proof. apply arg_split; [|done]. intros [z|z|z] ap' [= <- <-]. eauto. Qed.

(** An argument of [%e]. *)
Lemma va_err_split ap x apE : Forall terminated ap -> va_int (map erase ap) = Some (x, apE) -> x <> - 2 ^ 31 ->
  exists ap' y, Forall terminated ap' /\ apE = map erase ap' /\ va_int ap = Some (y, ap') /\ y <> - 2 ^ 31.
Proof.
  intros Ht Hx Hne. destruct ap as [|[z|z|z] ap]; try done. apply Forall_cons_1 in Ht as [_ Ht].
  cbn [map erase va_int] in Hx. destruct (Z.eqb_spec (i32 z) (- 2 ^ 31)) as [E|E]; injection Hx as <- <-.
  - by destruct Hne.
  - exists ap, (i32 z). done.
Qed.

Lemma va_str_split ap x apE : Forall terminated ap -> va_str (map erase ap) = Some (x, apE) ->
  exists a ap' y, ap = a :: ap' /\ terminated a /\ Forall terminated ap' /\ apE = map erase ap' /\ va_str ap = Some (y, ap').
Proof. apply arg_split; [|done]. intros [z|z|z] ap' [= <- <-]. eauto. Qed.

Lemma getint_split lf ap x apE : Forall terminated ap -> getint (map erase ap) lf = Some (x, apE) ->
  exists a ap' y, ap = a :: ap' /\ terminated a /\ Forall terminated ap' /\ apE = map erase ap' /\ getint ap lf = Some (y, ap').
Proof.
  apply (arg_split (fun ap => getint ap lf)); [|done].
  intros [z|z|z] ap'; cbn [getint erase]; destruct (2 <=? lf); intros [= <- <-]; eauto.
Qed.

Lemma getuint_split lf ap x apE : Forall terminated ap -> getuint (map erase ap) lf = Some (x, apE) ->
  exists a ap' y, ap = a :: ap' /\ terminated a /\ Forall terminated ap' /\ apE = map erase ap' /\ getuint ap lf = Some (y, ap').
Proof.
  apply (arg_split (fun ap => getuint ap lf)); [|done].
  intros [z|z|z] ap'; cbn [getuint erase]; destruct (2 <=? lf); intros [= <- <-]; eauto.
Qed.

(** One conversion that takes an argument. *)
Ltac typed_arg lem IH :=
  match goal with
  | |- match ?g (map erase ?ap) with _ => _ end = true -> _ => idtac
  | |- match ?g (map erase ?ap) _ with _ => _ end = true -> _ => idtac
  end;
  match goal with
  | |- match ?x with _ => _ end = true -> _ =>
      let E := fresh "E" in
      destruct x as [[? ?]|] eqn:E; [|done];
      apply lem in E as (? & ? & ? & -> & ? & ? & -> & ->); [|assumption];
      cbn [mbind option_bind]; intros; apply IH; assumption
  end.

(** The formats that [%e] prints recursively. *)
Lemma error_some f z (s : S) : (9 <= f)%nat -> is_Some (vprintfmt_loop f (cstr "error %d") [VInt z] s).
Proof. intros Hf. rewrite (error_fuel f 9) by lia. eexists. reflexivity. Qed.

Lemma error_str_some f p (s : S) : (9 <= f)%nat -> is_Some (vprintfmt_loop f (cstr "%s") [VStr (Some (cstr p))] s).
Proof.
  intros Hf. rewrite (error_fuel_str f 9) by lia.
  assert (E : vprintfmt_loop 9 (cstr "%s") [VStr (Some (cstr p))] s = (s ← print_string (cstr p) (-1) (-1) 32 false s; Some s)) by reflexivity.
  rewrite E. destruct (print_string_some (cstr p) (-1) (-1) 32 false s) as [s1 ->]; [|by eexists].
  unfold cstr. apply elem_of_app. right. apply list_elem_of_here.
Qed.

Lemma vprintfmt_loop_typed f fmt ap (s : S) :
  (length fmt + 9 <= f)%nat -> well_typed f fmt (map erase ap) = true -> Forall terminated ap -> is_Some (vprintfmt_loop f fmt ap s).
Proof.
  revert fmt ap s. induction f as [|f IH0]; intros fmt ap s; destruct fmt as [|ch fmt]; try done.
  cbn [well_typed vprintfmt_loop length]. intros Hf Hw Ht. revert Hw.
  assert (IH : forall fmt' ap' s', (length fmt' <= length fmt)%nat -> well_typed f fmt' (map erase ap') = true ->
    Forall terminated ap' -> is_Some (vprintfmt_loop f fmt' ap' s')) by (intros; apply IH0; [lia | done..]).
  clear IH0.
  destruct (negb (ch =? 37)); [destruct (ch =? 0); eauto|].
  destruct (reswitch (length fmt) fmt (map erase ap) esc0) as [[[[c e] fmt'] apE]|] eqn:Er; [|done].
  destruct (reswitch_erase _ _ _ _ esc0 _ _ _ _ eq_refl Ht Er) as (e2 & ap' & -> & -> & Hl & Ht').
  apply reswitch_length in Er. cbn [mbind option_bind]. rewrite Hl. assert (Hle : (length fmt' <= length fmt)%nat) by lia. destruct c; eauto.
  - typed_arg va_int_split IH.
  - destruct (va_int (map erase ap')) as [[x apE]|] eqn:E; [|done]. intros [Hx%negb_true_iff%Z.eqb_neq Hw]%andb_true_iff.
    destruct (va_err_split ap' x apE Ht' E Hx) as (ap'' & y & Ht'' & -> & -> & Hy). cbn [mbind option_bind].
    rewrite (proj2 (Z.eqb_neq _ _) Hy). set (err := if y <? 0 then - y else y).
    assert (Hdone : forall o, is_Some o -> is_Some (s1 ← o; vprintfmt_loop f fmt' ap'' s1)).
    { intros o [s1 ->]. cbn [mbind option_bind]. by apply IH. }
    apply Hdone. destruct (MAXERROR <=? err); [apply error_some; lia|].
    destruct (error_string err) as [p|]; [apply error_str_some; lia | apply error_some; lia].
  - destruct (va_str (map erase ap')) as [[x apE]|] eqn:E; [|done].
    apply va_str_split in E as (a & ap'' & y & -> & Ha & Ht'' & -> & Ev); [|done].
    rewrite Ev. cbn [mbind option_bind]. intros Hw.
    assert (Hin : 0 ∈ default (cstr "(null)") y).
    { destruct a as [z|z|[l|]]; simpl in Ev; try done; injection Ev as <-; [exact Ha|].
      unfold cstr. apply elem_of_app. right. apply list_elem_of_here. }
    destruct (print_string_some _ (precision e2) (width e2) (padc e2) (altflag e2) s Hin) as [s1 ->].
    cbn [mbind option_bind]. by apply IH.
  - typed_arg getint_split IH.
  - typed_arg getuint_split IH.
  - typed_arg getuint_split IH.
  - typed_arg getuint_split IH.
Qed.

Lemma vprintfmt_typed fmt ap (s : S) : matches fmt ap -> is_Some (vprintfmt fmt ap s).
Proof. intros [Hw Ht]. apply vprintfmt_loop_typed; [lia | done..]. Qed.

End Typed.

(** ** Numbers *)

Section Numbers.

(** The value of a list of digits, the most significant one first. *)
Definition horner (base : Z) (ds : list Z) : Z := fold_left (fun v d => v * base + d) ds 0.

(** The digits of a number: each below the base, no leading zero. *)
Record numeral (base num : Z) (ds : list Z) : Prop := mkNumeral {
  nu_value : horner base ds = num;
  nu_digits : Forall (fun d => 0 <= d < base) ds;
  nu_lead : ds = [0] \/ exists d ds', ds = d :: ds' /\ 0 < d;
}.

Lemma horner_snoc base ds d : horner base (ds ++ [d]) = horner base ds * base + d.
Proof. unfold horner. by rewrite fold_left_app. Qed.

Lemma numeral_digit base num : 0 <= num < base -> numeral base num [num].
Proof.
  intros. split; [done | by apply Forall_singleton |].
  destruct (decide (num = 0)) as [->|]; [by left | right; exists num, []; split; [done | lia]].
Qed.

Lemma numeral_snoc base num ds :
  2 <= base -> base <= num -> numeral base (num / base) ds -> numeral base num (ds ++ [num `mod` base]).
Proof.
  intros Hb Hn [H1 H2 H3]. assert (Hm := Z.mod_pos_bound num base ltac:(lia)). split.
  - rewrite horner_snoc, H1, Z.mul_comm. symmetry. apply Z.div_mod. lia.
  - apply Forall_app; split; [done | by apply Forall_singleton].
  - destruct H3 as [->|(d & ds' & -> & Hd)]; right.
    + unfold horner in H1. simpl in H1.
      assert (1 <= num / base) by (apply Z.div_le_lower_bound; lia). lia.
    + exists d, (ds' ++ [num `mod` base]). done.
Qed.

Context {S : Type} `{!Putch S}.

Lemma putch_n_replay n c (s : S) : putch_n n c s = replay (replicate n c) s.
Proof. revert s. induction n as [|n IH]; intros s; simpl; [done | apply IH]. Qed.

Lemma replay_app l1 l2 (s : S) : replay (l1 ++ l2) s = replay l2 (replay l1 s).
Proof. unfold replay. apply fold_left_app. Qed.

Lemma printnum_loop_spec f num base w padc (s : S) :
  2 <= base -> (1 <= f)%nat -> 0 <= num < 2 ^ Z.of_nat f ->
  exists ds, numeral base num ds /\
    printnum_loop f num base w padc s =
      replay (replicate (Z.to_nat (w - Z.of_nat (length ds))) padc ++ map digit_char ds) s.
Proof.
  intros Hb. revert num w s. induction f as [|f IH]; intros num w s Hf Hn; [lia|].
  rewrite Nat2Z.inj_succ, Z.pow_succ_r in Hn by lia. cbn [printnum_loop].
  destruct (Z.leb_spec base num) as [Hle|Hlt].
  - assert (Hf1 : (1 <= f)%nat) by (destruct f; [change (2 ^ Z.of_nat 0) with 1 in Hn; lia | lia]).
    assert (Hq : 0 <= num / base < 2 ^ Z.of_nat f).
    { split; [apply Z.div_pos; lia|]. apply Z.div_lt_upper_bound; [lia|]. nia. }
    destruct (IH (num / base) (w - 1) s Hf1 Hq) as (ds & Hds & ->).
    exists (ds ++ [num `mod` base]). split; [by apply numeral_snoc|].
    rewrite map_app, app_assoc, <- replay_snoc, length_app. cbn [map length].
    by replace (w - Z.of_nat (length ds + 1)) with (w - 1 - Z.of_nat (length ds)) by lia.
  - exists [num]. split; [by apply numeral_digit; lia|].
    rewrite Z.mod_small, putch_n_replay, <- replay_snoc by lia. repeat f_equal.
Qed.

Lemma printnum_spec num base w padc (s : S) :
  2 <= base -> 0 <= num < 2 ^ 64 ->
  exists ds, numeral base num ds /\
    printnum num base w padc s =
      replay (replicate (Z.to_nat (w - Z.of_nat (length ds))) padc ++ map digit_char ds) s.
Proof. intros. by apply printnum_loop_spec; [|lia|]. Qed.

End Numbers.

(** ** Reading numbers back *)

Section ReadBack.

Lemma digit_char_spec d : 0 <= d < 16 -> strtol_digit (digit_char d) = Some d.
Proof.
  intros Hd.
  assert (Hc : Forall (fun d => strtol_digit (digit_char d) = Some d) (seqZ 0 16))
    by (repeat constructor).
  rewrite Forall_forall in Hc. apply Hc. rewrite elem_of_seqZ. lia.
Qed.

(** A digit that [printnum] prints is neither a blank, a sign nor an [x]. *)
Lemma digit_char_plain d : 0 <= d < 16 -> strtol_space (digit_char d) = false /\ digit_char d <> 43 /\ digit_char d <> 45 /\ digit_char d <> 120.
Proof.
  intros Hd.
  assert (Hc : Forall (fun d => strtol_space (digit_char d) = false /\ digit_char d <> 43 /\ digit_char d <> 45
    /\ digit_char d <> 120) (seqZ 0 16)) by (repeat constructor; done).
  rewrite Forall_forall in Hc. apply Hc. rewrite elem_of_seqZ. lia.
Qed.

Lemma i32_idem_l a b c : i32 (i32 a * b + c) = i32 (a * b + c).
Proof.
  unfold i32. f_equal.
  replace (((a + 2 ^ 31) `mod` 2 ^ 32 - 2 ^ 31) * b + c + 2 ^ 31)
    with ((a * b + c + 2 ^ 31) + (- ((a + 2 ^ 31) / 2 ^ 32) * b) * 2 ^ 32)
    by (pose proof (Z.div_mod (a + 2 ^ 31) (2 ^ 32)); lia).
  by rewrite Z.mod_add by lia.
Qed.

Lemma strtol_digits_spec base ds rest v :
  2 <= base <= 16 -> Forall (fun d => 0 <= d < base) ds ->
  (forall c, head rest = Some c -> strtol_digit c = None) ->
  strtol_digits (map digit_char ds ++ rest) base (i32 v) =
  (i32 (fold_left (fun v d => v * base + d) ds v), rest).
Proof.
  intros Hb Hds Hr. revert v. induction Hds as [|d ds Hd Hds IH]; intros v; simpl.
  - destruct rest as [|c rest]; [done|]. simpl. by rewrite (Hr c eq_refl).
  - rewrite digit_char_spec by lia. destruct (Z.leb_spec base d); [lia|].
    by rewrite i32_idem_l, IH.
Qed.

(** [strtol] reads the numeral of a number back, modulo 2^32. *)
Lemma strtol_numeral base num ds rest :
  base = 10 \/ base = 16 -> numeral base num ds ->
  (forall c, head rest = Some c -> strtol_digit c = None) -> head rest <> Some 120 ->
  strtol (map digit_char ds ++ rest) base = (i32 num, rest).
Proof.
  intros Hb [Hv Hds Hl] Hr Hx.
  assert (Hne : exists d ds', ds = d :: ds') by (destruct Hl as [->|(d & ds' & -> & _)]; eauto).
  destruct Hne as (d & ds' & Eds).
  assert (Hd : 0 <= d < 16) by (rewrite Eds in Hds; apply Forall_cons in Hds; destruct Hb; lia).
  destruct (digit_char_plain d Hd) as (Hp1 & Hp2 & Hp3 & _).
  unfold strtol. rewrite Eds at 1. cbn [map app strtol_skip]. rewrite Hp1.
  cbn [strtol_sign]. rewrite (proj2 (Z.eqb_neq _ _) Hp2), (proj2 (Z.eqb_neq _ _) Hp3).
  change (digit_char d :: map digit_char ds' ++ rest) with (map digit_char (d :: ds') ++ rest).
  rewrite <- Eds.
  assert (Epre : strtol_prefix (map digit_char ds ++ rest) base = (map digit_char ds ++ rest, base)).
  { unfold strtol_prefix. assert (E2 : (default 0 ((map digit_char ds ++ rest) !! 1%nat) =? 120) = false).
    { subst ds. cbn [map app lookup list_lookup]. destruct ds' as [|d2 ds'']; cbn [map app].
      - destruct rest as [|c rest]; [done|]. simpl in *. apply Z.eqb_neq. congruence.
      - apply Forall_cons_1 in Hds as [_ Hds]. apply Forall_cons_1 in Hds as [Hd2 _]. apply Z.eqb_neq.
        simpl. apply digit_char_plain. destruct Hb; lia. }
    rewrite E2, andb_false_r, andb_false_r. by destruct Hb as [->| ->]. }
  rewrite Epre. change 0 with (i32 0) at 1.
  rewrite strtol_digits_spec by (done || destruct Hb; lia). by unfold horner in Hv; rewrite Hv.
Qed.

(** [strtol] after a minus sign. *)
Lemma strtol_minus base num ds rest :
  base = 10 \/ base = 16 -> numeral base num ds ->
  (forall c, head rest = Some c -> strtol_digit c = None) -> head rest <> Some 120 ->
  strtol (45 :: map digit_char ds ++ rest) base = (i32 (- i32 num), rest).
Proof.
  intros Hb Hn Hr Hx. pose proof (strtol_numeral base num ds rest Hb Hn Hr Hx) as E.
  destruct Hn as [Hv Hds Hl].
  assert (Hne : exists d ds', ds = d :: ds') by (destruct Hl as [->|(d & ds' & -> & _)]; eauto).
  destruct Hne as (d & ds' & Eds).
  assert (Hd : 0 <= d < 16) by (rewrite Eds in Hds; apply Forall_cons in Hds; destruct Hb; lia).
  destruct (digit_char_plain d Hd) as (Hp1 & Hp2 & Hp3 & _).
  unfold strtol in E |- *. rewrite Eds in E. cbn [map app strtol_skip] in E. rewrite Hp1 in E.
  cbn [strtol_sign] in E. rewrite (proj2 (Z.eqb_neq _ _) Hp2), (proj2 (Z.eqb_neq _ _) Hp3) in E.
  rewrite Eds. cbn [strtol_skip strtol_space strtol_sign Z.eqb Pos.eqb orb map app].
  destruct (strtol_prefix _ base) as [s' base']. destruct (strtol_digits s' base' 0) as [v r].
  by injection E as -> ->.
Qed.

Lemma horner_ge base ds v :
  1 <= base -> Forall (fun d => 0 <= d < base) ds -> 0 <= v ->
  v * base ^ Z.of_nat (length ds) <= fold_left (fun v d => v * base + d) ds v.
Proof.
  intros Hb Hds. revert v. induction Hds as [|d ds Hd Hds IH]; intros v Hv; cbn [fold_left length].
  - rewrite Z.pow_0_r. lia.
  - rewrite Nat2Z.inj_succ, Z.pow_succ_r by lia. etrans; [|apply IH; nia].
    assert (0 <= base ^ Z.of_nat (length ds)) by (apply Z.pow_nonneg; lia). nia.
Qed.

(** A number below [base^k] has at most [k] digits. *)
Lemma numeral_length base num ds k :
  2 <= base -> numeral base num ds -> num < base ^ k -> 1 <= k -> Z.of_nat (length ds) <= k.
Proof.
  intros Hb [Hv Hds Hl] Hk Hk1. destruct Hl as [->|(d & ds' & -> & Hd)]; [simpl; lia|].
  apply Forall_cons_1 in Hds as [_ Hds]. unfold horner in Hv. cbn [fold_left] in Hv.
  pose proof (horner_ge base ds' (0 * base + d) ltac:(lia) Hds ltac:(lia)) as H. rewrite Hv in H.
  destruct (Z.le_gt_cases (Z.of_nat (length (d :: ds'))) k) as [|Hgt]; [done|]. simpl in Hgt.
  assert (base ^ k <= base ^ Z.of_nat (length ds')) by (apply Z.pow_le_mono_r; lia).
  assert (0 < base ^ k) by (apply Z.pow_pos_nonneg; lia). nia.
Qed.

Lemma digit_char_u8 base ds : base <= 16 -> Forall (fun d => 0 <= d < base) ds -> map u8 (map digit_char ds) = map digit_char ds.
Proof.
  intros Hb Hds. induction Hds as [|d ds Hd Hds IH]; simpl; [done|]. rewrite IH. f_equal.
  assert (Hc : Forall (fun d => u8 (digit_char d) = digit_char d) (seqZ 0 16)) by (repeat constructor).
  rewrite Forall_forall in Hc. apply Hc. rewrite elem_of_seqZ. lia.
Qed.

End ReadBack.

(** ** Sinks *)

Section Sinks.

Lemma replay_sprintbuf l w room cnt :
  0 <= room ->
  replay l (mkSprintbuf w room cnt) =
  mkSprintbuf (w ++ map u8 (take (Z.to_nat room) l)) (Z.max 0 (room - Z.of_nat (length l)))
    (cnt + Z.of_nat (length l)).
Proof.
  revert w room cnt. induction l as [|c l IH]; intros w room cnt Hr; unfold replay; simpl.
  - rewrite take_nil, app_nil_r. f_equal; lia.
  - fold (@replay sprintbuf _). unfold putch at 2, Putch_sprintbuf, sprintputch. cbn [sp_room sp_written sp_cnt].
    destruct (Z.ltb_spec 0 room).
    + change (fold_left _ l ?b) with (replay l b). rewrite IH by lia.
      destruct (Z.to_nat room) as [|k] eqn:Ek; [lia|]. simpl. replace (Z.to_nat (room - 1)) with k by lia.
      rewrite <- app_assoc. f_equal; lia.
    + change (fold_left _ l ?b) with (replay l b). rewrite IH by lia.
      replace (Z.to_nat room) with O by lia. f_equal; lia.
Qed.

Lemma replay_trace l (s : list Z) : replay l s = s ++ l.
Proof.
  unfold replay. revert s. induction l as [|c l IH]; intros s; simpl; [by rewrite app_nil_r|].
  rewrite IH. unfold putch, Putch_trace. by rewrite <- app_assoc.
Qed.

(** A sink that keeps its second component, as the kernel's console does. *)
Lemma replay_pair {C} (f : Z -> C -> C) l c (cnt : Z) :
  @replay (C * Z) (fun ch '(c, cnt) => (f ch c, cnt)) l (c, cnt) = (fold_left (fun c ch => f ch c) l c, cnt).
Proof. unfold replay. revert c. induction l as [|ch l IH]; intros c; simpl; [done | apply IH]. Qed.

Lemma replay_console l c cnt : replay l (c, cnt) = (fold_left (fun c ch => cputchar ch c) l c, cnt).
Proof. exact (replay_pair cputchar l c cnt). Qed.

(** C29. The formatter terminates and prints whenever the arguments have the types that the format
    asks for and its strings are terminated, for all its conversions: [vprintfmt] returns, into
    every sink, and with any larger bound on the number of iterations the result is the same, so
    the bound never cuts a computation off.  [%e] is included: it calls the formatter again, with
    one of two formats without [%e]; its argument must not be the smallest [int], of which the
    code computes the negation. *)
Theorem vprintfmt_total {S} `{!Putch S} fmt ap (s : S) :
  matches fmt ap ->
  exists s', vprintfmt fmt ap s = Some s' /\
    forall f, (length fmt + 16 <= f)%nat -> vprintfmt_loop f fmt ap s = Some s'.
Proof.
  intros Hm. destruct (vprintfmt_typed fmt ap s Hm) as [s' Hs]. exists s'. split; [done|].
  intros f Hf. by rewrite vprintfmt_fuel_ge.
Qed.

Lemma vprintfmt_total_witness :
  exists s', vprintfmt (cstr "%s: %e|%-5d|%08x%%") [VStr (Some (cstr "x")); VInt (-4); VInt (-7); VInt 255] ([] : list Z) = Some s' /\
    forall f, (length (cstr "%s: %e|%-5d|%08x%%") + 16 <= f)%nat ->
      vprintfmt_loop f (cstr "%s: %e|%-5d|%08x%%") [VStr (Some (cstr "x")); VInt (-4); VInt (-7); VInt 255] [] = Some s'.
Proof.
  apply vprintfmt_total. split; [vm_compute; reflexivity|].
  constructor; [|repeat constructor]. right. left.
Defined.

(** [%e] prints the text of the error, or its number. *)
Lemma vprintfmt_errors :
  trace (cstr "%e, %e, %e") [VInt (- E_NO_MEM); VInt E_EOF; VInt (-77)] =
    Some (chars "out of memory, unexpected end of file, error 77").
Proof. vm_compute. reflexivity. Qed.

(** C30. [snprintf] never writes more than [n] bytes and always terminates the string: it stores
    the first [n-1] characters of the formatted text and a NUL, leaves the rest of the buffer
    alone, and returns the length of the whole text, whether it fitted or not. *)
Theorem snprintf_bounded (old : list Z) (n : Z) (fmt : list Z) (ap : list va_arg) :
  1 <= n ->
  snprintf (Some old) n fmt ap =
  (fun tr => let w := map u8 (take (Z.to_nat (n - 1)) tr) ++ [0] in
             (w ++ drop (length w) old, Z.of_nat (length tr))) <$> trace fmt ap.
Proof.
  intros Hn. unfold snprintf, vsnprintf. destruct (Z.ltb_spec n 1); [lia|].
  rewrite vprintfmt_replay. destruct (trace fmt ap) as [tr|]; [|done].
  cbn [fmap option_fmap option_map mbind option_bind]. rewrite replay_sprintbuf by lia. done.
Qed.

Lemma snprintf_bounded_witness :
  snprintf (Some (replicate 6 255)) 4 (cstr "ab%dc") [VInt (-12)]
  = Some ([97; 98; 45; 0; 255; 255], 6).
Proof. rewrite (snprintf_bounded (replicate 6 255) 4 (cstr "ab%dc") [VInt (-12)]); [reflexivity | lia]. Defined.

(** The kernel's [cprintf] sends the formatted text to the console, one [cputchar] per
    character and in order, and its result is always 0, because [putch] advances the pointer to
    the counter instead of the counter. *)
Theorem cprintf_prints (fmt : list Z) (ap : list va_arg) (c : console) :
  cprintf fmt ap c = (fun tr => (0, fold_left (fun c ch => cputchar ch c) tr c)) <$> trace fmt ap.
Proof.
  unfold cprintf, vcprintf. rewrite vprintfmt_replay. destruct (trace fmt ap) as [tr|]; [|done].
  cbn [fmap option_fmap option_map mbind option_bind]. by rewrite replay_console.
Qed.

(** [printnum] prints the numeral of its number: digits below the base, without a leading
    zero, whose value is the number, padded on the left to the width; for every base of at least
    2 and every 64-bit number, so its 64 levels of recursion are enough. *)
Theorem printnum_numeral {S} `{!Putch S} num base w padc (s : S) :
  2 <= base -> 0 <= num < 2 ^ 64 ->
  exists ds, numeral base num ds /\
    printnum num base w padc s =
      replay (replicate (Z.to_nat (w - Z.of_nat (length ds))) padc ++ map digit_char ds) s.
Proof. apply printnum_spec. Qed.

Lemma printnum_numeral_witness : exists ds, numeral 16 48879 ds /\
  printnum 48879 16 6 48 ([] : list Z) =
    replay (replicate (Z.to_nat (6 - Z.of_nat (length ds))) 48 ++ map digit_char ds) [].
Proof. apply (printnum_numeral 48879 16 6 48 []); lia. Defined.

(** What [%d] sends: a minus sign and the numeral of the absolute value. *)
Lemma trace_decimal z :
  exists ds, numeral 10 (Z.abs (i32 z)) ds /\
    trace (cstr "%d") [VInt z] = Some ((if i32 z <? 0 then [45] else []) ++ map digit_char ds).
Proof.
  pose proof (i32_range z) as Hr.
  assert (E : trace (cstr "%d") [VInt z] = Some (if i32 z <? 0
    then printnum (u64 (- i32 z)) 10 (-1) 32 [45] else printnum (i32 z) 10 (-1) 32 [])) by reflexivity.
  rewrite E. destruct (Z.ltb_spec (i32 z) 0) as [Hn|Hn].
  - rewrite u64_small by lia. destruct (printnum_spec (- i32 z) 10 (-1) 32 [45] ltac:(lia) ltac:(lia)) as (ds & Hds & ->).
    exists ds. replace (Z.abs (i32 z)) with (- i32 z) by lia. split; [done|].
    replace (Z.to_nat (-1 - Z.of_nat (length ds))) with O by lia. cbn [replicate app].
    by rewrite replay_trace.
  - destruct (printnum_spec (i32 z) 10 (-1) 32 [] ltac:(lia) ltac:(lia)) as (ds & Hds & ->).
    exists ds. replace (Z.abs (i32 z)) with (i32 z) by lia. split; [done|].
    replace (Z.to_nat (-1 - Z.of_nat (length ds))) with O by lia. cbn [replicate app].
    by rewrite replay_trace.
Qed.

(** C31. Printing an [int] with [%d] and reading it back with [strtol] gives the same [int], for
    every 32-bit value, the least one included, and every buffer of at least 12 bytes. *)
Theorem snprintf_strtol (z n : Z) (old : list Z) :
  12 <= n ->
  exists out r, snprintf (Some old) n (cstr "%d") [VInt z] = Some (out, r) /\ fst (strtol out 10) = i32 z.
Proof.
  intros Hn. pose proof (i32_range z) as Hr.
  unfold snprintf, vsnprintf. destruct (Z.ltb_spec n 1); [lia|].
  rewrite vprintfmt_replay. destruct (trace_decimal z) as (ds & Hds & ->).
  cbn [fmap option_fmap option_map mbind option_bind]. rewrite replay_sprintbuf by lia. cbn [sp_written sp_cnt].
  eexists _, _. split; [reflexivity|].
  assert (Hlen := numeral_length 10 _ ds 10 ltac:(lia) Hds ltac:(lia) ltac:(lia)).
  rewrite take_ge by (rewrite length_app, length_map; destruct (i32 z <? 0); simpl; lia).
  rewrite map_app, (digit_char_u8 10) by (lia || apply Hds). cbn [app]. rewrite <- app_assoc.
  set (rest := [0] ++ drop _ old).
  destruct (Z.ltb_spec (i32 z) 0) as [Hz|Hz]; cbn [map app]; rewrite <- ?app_assoc.
  - change (u8 45) with 45. rewrite strtol_minus with (num := - i32 z); [| auto | | | done].
    + cbn [fst]. rewrite <- (i32_small (i32 z)) at 2 by lia.
      destruct (decide (i32 z = - 2 ^ 31)) as [->|]; [reflexivity|].
      rewrite (i32_small (- i32 z)) by lia. f_equal. lia.
    + by replace (- i32 z) with (Z.abs (i32 z)) by lia.
    + by intros c [= <-].
  - rewrite strtol_numeral with (num := i32 z); [| auto | | | done].
    + cbn [fst]. by apply i32_small.
    + by replace (i32 z) with (Z.abs (i32 z)) at 1 by lia.
    + by intros c [= <-].
Qed.

Lemma snprintf_strtol_witness :
  exists out r, snprintf (Some []) 12 (cstr "%d") [VInt (-2147483648)] = Some (out, r)
    /\ fst (strtol out 10) = i32 (-2147483648).
Proof. apply (snprintf_strtol (-2147483648) 12 []). lia. Defined.

End Sinks.
