(* ===== verification/StringProps.v ===== *)
(** * StringProps: the memory and string routines

    [memset] and [memmove] against their byte-wise specification, overlap and
    word-sized copies included, and comparison and copying of C strings. *)

From S2P Require Import Prelude CString.

(** ** Memory *)

Section Memory.

Implicit Types m : gmap Z Z.

Lemma bget_insert m d x a : bget (<[d := x]> m) a = if decide (d = a) then x else bget m a.
Proof.
  unfold bget. destruct (decide (d = a)) as [<-|]; [by rewrite lookup_insert_eq | by rewrite lookup_insert_ne].
Qed.

Lemma bget_stosb n d c m a :
  0 <= d -> d + Z.of_nat n <= 2 ^ 32 ->
  bget (stosb n d c m) a = if decide (d <= a < d + Z.of_nat n) then u8 c else bget m a.
Proof.
  revert d m. induction n as [|n IH]; intros d m Hd Hn; cbn [stosb]; [by rewrite decide_False by lia|].
  destruct n as [|n].
  - cbn [stosb]. rewrite bget_insert. repeat case_decide; try done; lia.
  - rewrite u32_small, IH, bget_insert by lia. repeat case_decide; try done; lia.
Qed.

Lemma bget_put32 d w m a :
  bget (put32 d w m) a = if decide (d <= a < d + 4) then u8 (Z.shiftr w (8 * (a - d))) else bget m a.
Proof.
  unfold put32. rewrite !bget_insert. destruct (decide (d <= a < d + 4)) as [H|H].
  - assert (a = d \/ a = d + 1 \/ a = d + 2 \/ a = d + 3) as Ha by lia.
    destruct Ha as [->|[->|[->| ->]]]; repeat (case_decide; try lia); f_equal; try (f_equal; lia).
    by rewrite Z.sub_diag.
  - repeat (case_decide; try lia).
Qed.

(** A word whose four bytes are equal. *)
Lemma bget_stosl n d w c m a :
  (forall k, 0 <= k < 4 -> u8 (Z.shiftr w (8 * k)) = u8 c) -> 0 <= d -> d + 4 * Z.of_nat n <= 2 ^ 32 ->
  bget (stosl n d w m) a = if decide (d <= a < d + 4 * Z.of_nat n) then u8 c else bget m a.
Proof.
  intros Hw. revert d m. induction n as [|n IH]; intros d m Hd Hn; cbn [stosl]; [by rewrite decide_False by lia|].
  destruct n as [|n].
  - cbn [stosl]. rewrite bget_put32. repeat case_decide; try done; try lia. apply Hw. lia.
  - rewrite u32_small, IH, bget_put32 by lia. repeat case_decide; try done; try lia. apply Hw. lia.
Qed.

Definition splat (b : Z) : Z :=
  u32 (Z.lor (Z.lor (Z.lor (Z.shiftl b 24) (Z.shiftl b 16)) (Z.shiftl b 8)) b).

Lemma splat_all : forallb (fun b => forallb (fun k => u8 (Z.shiftr (splat b) (8 * k)) =? b) (seqZ 0 4)) (seqZ 0 256) = true.
Proof. vm_compute. reflexivity. Qed.

Lemma splat_byte c k : 0 <= k < 4 -> u8 (Z.shiftr (splat (Z.land c 0xFF)) (8 * k)) = u8 c.
Proof.
  intros Hk. assert (Hb : Z.land c 0xFF = u8 c) by (unfold u8; change 0xFF with (Z.ones 8); by rewrite Z.land_ones).
  assert (Hr := u8_range c). change (2 ^ 8) with 256 in Hr. rewrite Hb.
  pose proof splat_all as H. rewrite forallb_forall in H.
  specialize (H (u8 c) ltac:(apply list_elem_of_In, elem_of_seqZ; lia)). rewrite forallb_forall in H.
  specialize (H k ltac:(apply list_elem_of_In, elem_of_seqZ; lia)). by apply Z.eqb_eq in H.
Qed.

(** Storing [g i] at [d+i] for consecutive [i]. *)
Lemma bget_fold_store d g i n m a :
  0 <= n ->
  bget (fold_left (fun acc i => <[d + i := g i]> acc) (seqZ i n) m) a =
  if decide (d + i <= a < d + i + n) then g (a - d) else bget m a.
Proof.
  intros Hn. remember (Z.to_nat n) as k eqn:Hk. revert i n Hn Hk m. induction k as [|k IH]; intros i n Hn Hk m.
  - replace n with 0 by lia. simpl. by rewrite decide_False by lia.
  - rewrite seqZ_cons by lia. cbn [fold_left]. rewrite IH, bget_insert by lia.
    repeat case_decide; try done; try lia. f_equal. lia.
Qed.

Lemma bget_mov_unit u d s m a :
  bget (mov_unit u d s m) a = if decide (d <= a < d + Z.of_nat u) then bget m (s + (a - d)) else bget m a.
Proof.
  unfold mov_unit. rewrite (bget_fold_store d (fun i => bget m (s + i))) by lia. by rewrite Z.add_0_r.
Qed.

(** [movs] of ranges that do not wrap around. *)
Fixpoint flat (k u : nat) (step d s : Z) (m : gmap Z Z) : gmap Z Z :=
  match k with O => m | S k' => flat k' u step (d + step) (s + step) (mov_unit u d s m) end.

Lemma movs_flat k u step d s m :
  (forall i, 0 <= i < Z.of_nat k -> 0 <= d + i * step < 2 ^ 32 /\ 0 <= s + i * step < 2 ^ 32) ->
  movs k u step d s m = flat k u step d s m.
Proof.
  revert d s m. induction k as [|k IH]; intros d s m H; [done|]. cbn [movs flat]. destruct k as [|k]; [done|].
  destruct (H 1) as [H1 H2]; [lia|]. rewrite !u32_small by lia. apply IH. intros i Hi.
  destruct (H (i + 1)) as [H3 H4]; [lia|]. lia.
Qed.

(** Copying upwards, to a lower address or to a disjoint range. *)
Lemma bget_movs_up k u d s m a :
  d <= s \/ s + Z.of_nat (k * u) <= d ->
  bget (flat k u (Z.of_nat u) d s m) a =
  if decide (d <= a < d + Z.of_nat (k * u)) then bget m (s + (a - d)) else bget m a.
Proof.
  revert d s m. induction k as [|k IH]; intros d s m Hd; cbn [flat].
  - simpl. by rewrite decide_False by lia.
  - replace (S k * u)%nat with (u + k * u)%nat in * by lia. rewrite IH, !bget_mov_unit by lia.
    repeat case_decide; try done; try lia; f_equal; lia.
Qed.

(** Copying downwards, to a higher address. *)
Lemma bget_movs_down k u d s m a :
  s <= d ->
  bget (flat k u (- Z.of_nat u) (d + Z.of_nat (k * u) - Z.of_nat u) (s + Z.of_nat (k * u) - Z.of_nat u) m) a =
  if decide (d <= a < d + Z.of_nat (k * u)) then bget m (s + (a - d)) else bget m a.
Proof.
  intros Hd. revert m. induction k as [|k IH]; intros m; cbn [flat].
  - simpl. by rewrite decide_False by lia.
  - replace (S k * u)%nat with (u + k * u)%nat in * by lia.
    replace (d + Z.of_nat (u + k * u) - Z.of_nat u + - Z.of_nat u) with (d + Z.of_nat (k * u) - Z.of_nat u) by lia.
    replace (s + Z.of_nat (u + k * u) - Z.of_nat u + - Z.of_nat u) with (s + Z.of_nat (k * u) - Z.of_nat u) by lia.
    rewrite IH, !bget_mov_unit. repeat case_decide; try done; try lia; f_equal; lia.
Qed.

(** The loops of the portable versions. *)
Lemma set_up_stosb n p c m : set_up n p c m = stosb n p c m.
Proof. revert p m. induction n as [|n IH]; intros p m; [done|]. apply IH. Qed.

Lemma mov_unit_1 d s m : mov_unit 1 d s m = <[d := bget m s]> m.
Proof. unfold mov_unit. change (seqZ 0 (Z.of_nat 1)) with [0]. cbn [fold_left]. by rewrite !Z.add_0_r. Qed.

Lemma copy_up_movs n d s m : copy_up n d s m = movs n 1 1 d s m.
Proof. revert d s m. induction n as [|n IH]; intros d s m; [done|]. cbn [copy_up movs]. by rewrite IH, mov_unit_1. Qed.

Lemma copy_down_movs n d s m : copy_down n d s m = movs n 1 (-1) (u32 (d - 1)) (u32 (s - 1)) m.
Proof. revert d s m. induction n as [|n IH]; intros d s m; [done|]. cbn [copy_down movs]. by rewrite IH, mov_unit_1. Qed.

(** [memset] sets exactly the bytes of the range, by bytes or, when address and length are
    multiples of four, by words. *)
Theorem memset_sets (v c n : Z) (m : gmap Z Z) (a : Z) :
  0 <= v -> 0 <= n -> v + n <= 2 ^ 32 -> bget (memset v c n m) a = if decide (v <= a < v + n) then u8 c else bget m a.
Proof.
  intros Hv Hn Hvn. unfold memset. destruct (Z.eqb_spec n 0) as [->|Hne]; [by rewrite decide_False by lia|].
  destruct ((v `mod` 4 =? 0) && (n `mod` 4 =? 0)) eqn:E.
  - apply andb_prop in E as [_ E%Z.eqb_eq].
    change (u32 (Z.lor (Z.lor (Z.lor (Z.shiftl (Z.land c 255) 24) (Z.shiftl (Z.land c 255) 16))
      (Z.shiftl (Z.land c 255) 8)) (Z.land c 255))) with (splat (Z.land c 255)).
    rewrite (bget_stosl _ _ _ c) by first [apply splat_byte | zdm]. rewrite Z2Nat.id by zdm.
    by replace (4 * (n / 4)) with n by zdm.
  - by rewrite bget_stosb, Z2Nat.id by lia.
Qed.

Lemma u32_back x k j : 0 <= x -> x + k <= 2 ^ 32 -> 0 < j <= k -> u32 (u32 (x + k) - j) = x + k - j.
Proof.
  intros Hx Hk Hj. unfold u32. destruct (Z.eq_dec (x + k) (2 ^ 32)) as [->|Hne].
  - change (2 ^ 32 `mod` 2 ^ 32) with 0. symmetry. apply (Z.mod_unique _ _ (-1)); lia.
  - rewrite (Z.mod_small (x + k)) by lia. apply Z.mod_small. lia.
Qed.

(** Both versions of [memmove], by the same two cases. *)
Lemma bget_memmove (dst src n : Z) (m : gmap Z Z) (a : Z) :
  0 <= n -> 0 <= src -> src + n <= 2 ^ 32 -> 0 <= dst -> dst + n <= 2 ^ 32 ->
  bget (memmove dst src n m) a = (if decide (dst <= a < dst + n) then bget m (src + (a - dst)) else bget m a) /\
  bget (memmove_bytes dst src n m) a = (if decide (dst <= a < dst + n) then bget m (src + (a - dst)) else bget m a).
Proof.
  intros Hn Hs Hsn Hd Hdn. unfold memmove, memmove_bytes.
  assert (Et : (src <? dst) && (dst <? u32 (src + n)) = (src <? dst) && (dst <? src + n)).
  { destruct (Z.ltb_spec src dst); [|done]. rewrite (u32_small (src + n)); [done|]. lia. }
  rewrite Et. clear Et.
  assert (E4 : n `mod` 4 = 0 -> Z.of_nat (Z.to_nat (n / 4) * 4) = n) by (intros; zdm).
  assert (E1 : Z.of_nat (Z.to_nat n * 1) = n) by lia.
  destruct ((src <? dst) && (dst <? src + n)) eqn:Eo.
  - apply andb_prop in Eo as [Eo1%Z.ltb_lt Eo2%Z.ltb_lt].
    rewrite copy_down_movs, (u32_back dst n 1), (u32_back src n 1) by lia.
    pose proof (bget_movs_down (Z.to_nat n) 1 dst src m a ltac:(lia)) as H1. rewrite E1 in H1.
    rewrite <- movs_flat in H1 by (intros; lia). split; [|exact H1].
    destruct (_ && (n `mod` 4 =? 0)) eqn:E; [|exact H1].
    apply andb_prop in E as [_ E%Z.eqb_eq]. assert (H4 : 4 <= n) by (clear -E Eo1 Eo2; zdm).
    rewrite (u32_back dst n 4), (u32_back src n 4) by lia.
    pose proof (bget_movs_down (Z.to_nat (n / 4)) 4 dst src m a ltac:(lia)) as H. rewrite (E4 E) in H.
    rewrite <- movs_flat in H; [exact H|]. intros i Hi. specialize (E4 E). lia.
  - assert (Ho : dst <= src \/ src + n <= dst) by lia. rewrite copy_up_movs.
    pose proof (bget_movs_up (Z.to_nat n) 1 dst src m a) as H1. rewrite E1 in H1. specialize (H1 Ho).
    rewrite <- movs_flat in H1 by (intros; lia). split; [|exact H1].
    destruct (_ && (n `mod` 4 =? 0)) eqn:E; [|exact H1].
    apply andb_prop in E as [_ E%Z.eqb_eq]. pose proof (bget_movs_up (Z.to_nat (n / 4)) 4 dst src m a) as H.
    rewrite (E4 E) in H. specialize (H Ho). rewrite <- movs_flat in H; [exact H|]. intros i Hi. specialize (E4 E). lia.
Qed.

(** C32. [memmove] copies correctly for every overlap of source and destination: afterwards each
    byte of the destination has the value that the corresponding source byte had before, and no
    other byte changes, in all four branches (upwards or downwards, by bytes or by words with
    string instructions); and so it equals, byte for byte, the portable loops that the source
    keeps for builds without them.  The two ranges do not wrap
    around the 32-bit address space, as no object of C does. *)
Theorem memmove_moves (dst src n : Z) (m : gmap Z Z) (a : Z) :
  0 <= n -> 0 <= src -> src + n <= 2 ^ 32 -> 0 <= dst -> dst + n <= 2 ^ 32 ->
  bget (memmove dst src n m) a = (if decide (dst <= a < dst + n) then bget m (src + (a - dst)) else bget m a) /\
  bget (memmove_bytes dst src n m) a = bget (memmove dst src n m) a.
Proof.
  intros Hn H1 H2 H3 H4. destruct (bget_memmove dst src n m a Hn H1 H2 H3 H4) as [E1 E2]. split; [exact E1 | by rewrite E2, E1].
Qed.

(** The portable [memset] agrees up to 2 GB; from there on its counter is negative and it does nothing. *)
Lemma memset_portable (v c n : Z) (m : gmap Z Z) (a : Z) :
  0 <= v -> 0 <= n < 2 ^ 31 -> v + n <= 2 ^ 32 -> bget (memset_bytes v c n m) a = bget (memset v c n m) a.
Proof. intros Hv Hn Hvn. unfold memset_bytes. rewrite i32_small by lia. rewrite set_up_stosb, bget_stosb, memset_sets by lia. by rewrite Z2Nat.id by lia. Qed.

Lemma memset_portable_huge v c n m : 2 ^ 31 <= n < 2 ^ 32 -> memset_bytes v c n m = m.
Proof. intros Hn. unfold memset_bytes. assert (E : i32 n < 0) by (unfold i32; revert Hn; zdm). by rewrite Z2Nat.nonpos by lia. Qed.

Lemma memset_sets_witness : bget (memset 16 0x1FF 8 ∅) 23 = 0xFF.
Proof. rewrite (memset_sets 16 0x1FF 8 ∅ 23 ltac:(lia) ltac:(lia) ltac:(lia)). reflexivity. Defined.

Lemma memmove_moves_witness :
  bget (memmove 12 8 12 (<[10 := 7]> ∅)) 14 = 7 /\ bget (memmove_bytes 12 8 12 (<[10 := 7]> ∅)) 14 = 7.
Proof. destruct (memmove_moves 12 8 12 (<[10 := 7]> ∅) 14 ltac:(lia) ltac:(lia) ltac:(lia) ltac:(lia) ltac:(lia)) as [H1 H2]. rewrite H2, H1. split; reflexivity. Defined.

End Memory.

(** ** Strings *)

Section Strings.

(** The characters of a C string: bytes other than NUL. *)
Definition cbytes (l : list Z) : Prop := Forall (fun c => 0 < c < 256) l.

(** Lexicographic order. *)
Fixpoint lex (p q : list Z) : comparison :=
  match p, q with
  | [], [] => Eq
  | [], _ :: _ => Lt
  | _ :: _, [] => Gt
  | a :: p', b :: q' => match Z.compare a b with Eq => lex p' q' | r => r end
  end.

Lemma lex_Eq p q : lex p q = Eq <-> p = q.
Proof.
  revert q. induction p as [|a p IH]; intros [|b q]; simpl; try done.
  destruct (Z.compare_spec a b) as [->|?|?].
  - rewrite IH. split; [by intros -> | by intros [= ->]].
  - split; [done | intros [= -> ->]; lia].
  - split; [done | intros [= -> ->]; lia].
Qed.

Lemma strlen_loop_eq l r n : cbytes l -> strlen_loop (l ++ 0 :: r) n = Some (n + Z.of_nat (length l)).
Proof.
  intros Hl. revert n. induction Hl as [|c l Hc Hl IH]; intros n; simpl; [f_equal; lia|].
  destruct (Z.eqb_spec c 0); [lia|]. rewrite IH. f_equal. lia.
Qed.

(** [strcmp] compares two C strings lexicographically: its result is zero exactly for equal
    strings, negative when the first is smaller and positive when it is larger; it never reads
    behind the NULs. *)
Lemma strcmp_lex (p q r1 r2 : list Z) :
  cbytes p -> cbytes q ->
  exists z, strcmp (p ++ 0 :: r1) (q ++ 0 :: r2) = Some z /\ Z.compare z 0 = lex p q /\ (z = 0 <-> p = q).
Proof.
  intros Hp Hq.
  enough (H : exists z, strcmp (p ++ 0 :: r1) (q ++ 0 :: r2) = Some z /\ Z.compare z 0 = lex p q).
  { destruct H as (z & H1 & H2). exists z. split_and!; [done..|]. rewrite <- lex_Eq, <- H2. symmetry. apply Z.compare_eq_iff. }
  revert q Hq. induction Hp as [|a p Ha Hp IH]; intros q Hq; destruct Hq as [|b q Hb Hq]; simpl.
  - exists 0. done.
  - eexists. split; [done|]. rewrite !u8_small by lia. apply Z.compare_lt_iff. lia.
  - destruct (Z.eqb_spec a 0); [lia|]. destruct (Z.eqb_spec a 0); [lia|].
    eexists. split; [done|]. rewrite u8_small by lia. apply Z.compare_gt_iff. change (u8 0) with 0. lia.
  - destruct (Z.eqb_spec a 0); [lia|]. destruct (Z.eqb_spec a b) as [->|Hne]; simpl.
    + rewrite Z.compare_refl. by apply IH.
    + eexists. split; [done|]. rewrite !u8_small by lia.
      destruct (Z.compare_spec a b); [done | apply Z.compare_lt_iff; lia | apply Z.compare_gt_iff; lia].
Qed.

Lemma strcmp_lex_witness : exists z, strcmp (cstr "cat") (cstr "car") = Some z /\ Z.compare z 0 = Gt.
Proof.
  destruct (strcmp_lex [99; 97; 116] [99; 97; 114] [] []) as (z & H1 & H2 & _); [repeat constructor..|].
  exists z. split; [exact H1 | exact H2].
Defined.

Lemma strlcpy_loop_eq l r dst k :
  cbytes l -> (k < length dst)%nat ->
  strlcpy_loop dst (l ++ 0 :: r) k =
  Some (take k l ++ 0 :: drop (S (length (take k l))) dst, Z.of_nat (length (take k l))).
Proof.
  intros Hl. revert l dst Hl. induction k as [|k IH]; intros l dst Hl Hk; (destruct dst as [|x dst]; [simpl in Hk; lia|]); cbn [strlcpy_loop].
  - done.
  - destruct Hl as [|c l Hc Hl]; simpl; [done|].
    destruct (Z.eqb_spec c 0); [lia|]. simpl in Hk. rewrite IH by (done || lia). simpl. f_equal. f_equal. lia.
Qed.

(** [strlcpy] never writes more than [size] bytes: it copies the first [size-1] characters,
    ends them with a NUL, keeps the rest of the buffer and returns the number it copied. *)
Theorem strlcpy_bounded (l r dst : list Z) (size : Z) :
  cbytes l -> 1 <= size <= Z.of_nat (length dst) ->
  let w := take (Z.to_nat (size - 1)) l in
  strlcpy dst (l ++ 0 :: r) size = Some (w ++ 0 :: drop (S (length w)) dst, Z.of_nat (length w)).
Proof.
  intros Hl Hs. cbv zeta. unfold strlcpy. destruct (Z.leb_spec size 0); [lia|].
  apply strlcpy_loop_eq; [done | lia].
Qed.

Lemma strlcpy_bounded_witness : strlcpy (replicate 5 7) (cstr "cat") 3 = Some ([99; 97; 0; 7; 7], 2).
Proof.
  assert (H := strlcpy_bounded [99; 97; 116] [] (replicate 5 7) 3 ltac:(repeat constructor) ltac:(simpl; lia)).
  exact H.
Defined.

End Strings.
