(* ===== verification/Kernel.v ===== *)
(** * Kernel: the state of the kernel and the monad its code is written in

    The global variables of kern/*.c in one record [kstate], the structures of
    inc/ (registers, trap frames, environments, page descriptors), physical
    memory, and [K], the monad of kernel code: a computation returns a value
    or stops for good, because it panics, faults, spins, halts the processor,
    enters the monitor or enters user mode. *)

From S2P Require Import Prelude Machine CString Printfmt Hardware Console.

(** ** Data structures *)

(** inc/trap.h: [struct PushRegs], [struct Trapframe] (without padding) and
    [struct UTrapframe]. *)

Record PushRegs := mkPushRegs {
  reg_edi : Z;
  reg_esi : Z;
  reg_ebp : Z;
  reg_oesp : Z;
  reg_ebx : Z;
  reg_edx : Z;
  reg_ecx : Z;
  reg_eax : Z;
}.

Record Trapframe := mkTrapframe {
  tf_regs : PushRegs;
  tf_es : Z;
  tf_ds : Z;
  tf_trapno : Z;
  tf_err : Z;
  tf_eip : Z;
  tf_cs : Z;
  tf_eflags : Z;
  tf_esp : Z;
  tf_ss : Z;
}.

Record UTrapframe := mkUTrapframe {
  utf_fault_va : Z;
  utf_err : Z;
  utf_regs : PushRegs;
  utf_eip : Z;
  utf_eflags : Z;
  utf_esp : Z;
}.

(** inc/env.h: the values of [env_status]. *)
Inductive EnvStatus := ENV_FREE | ENV_DYING | ENV_RUNNABLE | ENV_RUNNING | ENV_NOT_RUNNABLE.

#[export] Instance EnvStatus_eq_dec : EqDecision EnvStatus.
Proof. solve_decision. Defined.

(** Environments are named by their index in [envs], pointers to them are
    [option Z] with [None] for NULL. *)

Record Env := mkEnv {
  env_tf : Trapframe;
  env_link : option Z;
  env_id : Z;
  env_parent_id : Z;
  env_type : Z;
  env_status : EnvStatus;
  env_runs : Z;
  env_cpunum : Z;
  env_pgdir : Z;
  env_pgfault_upcall : Z;
  env_ipc_recving : bool;
  env_ipc_dstva : Z;
  env_ipc_value : Z;
  env_ipc_from : Z;
  env_ipc_perm : Z;
}.

(** inc/memlayout.h: [struct PageInfo]; pages are named by their index in
    [pages], that is their physical page number. *)
Record PageInfo := mkPageInfo {
  pp_link : option Z;
  pp_ref : Z;
}.

(** kern/cpu.h: [cpu_status] and [struct CpuInfo] (without the TSS). *)
Inductive CpuStatus := CPU_UNUSED | CPU_STARTED | CPU_HALTED.

#[export] Instance CpuStatus_eq_dec : EqDecision CpuStatus.
Proof. solve_decision. Defined.

Record CpuInfo := mkCpuInfo {
  cpu_id : Z;
  cpu_status : CpuStatus;
  cpu_env : option Z;
}.

(** kern/spinlock.h: [struct spinlock]; [lk_cpu] is the CPU that holds it. *)
Record spinlock := mkSpinlock {
  locked : Z;
  lk_cpu : option Z;
}.

(** Pointers to trap frames: the frame on the kernel stack at an address, or
    the [env_tf] of an environment. *)
Inductive tfptr := OnStack (addr : Z) | OfEnv (e : Z).

#[export] Instance tfptr_eq_dec : EqDecision tfptr.
Proof. solve_decision. Defined.

(** inc/mmu.h: [struct Gatedesc] (without the constant fields) and
    [struct Segdesc]. *)
Record Gatedesc := mkGatedesc {
  gd_off_15_0 : Z;
  gd_sel : Z;
  gd_type : Z;
  gd_s : Z;
  gd_dpl : Z;
  gd_p : Z;
  gd_off_31_16 : Z;
}.

Record Segdesc := mkSegdesc {
  sd_lim_15_0 : Z;
  sd_base_15_0 : Z;
  sd_base_23_16 : Z;
  sd_type : Z;
  sd_s : Z;
  sd_dpl : Z;
  sd_p : Z;
  sd_lim_19_16 : Z;
  sd_avl : Z;
  sd_rsv1 : Z;
  sd_db : Z;
  sd_g : Z;
  sd_base_31_24 : Z;
}.

(** The remaining registers and tables: CR2 and EFLAGS, [last_tf] and
    [panicstr], the IDT and the GDT, the variables of mpconfig.c, the mapped
    local APIC with the writes to it (newest first), the mask of the 8259A
    controllers, and the stack handed to a starting processor. *)
Record machine := mkMachine {
  cr2 : Z;
  eflags : Z;
  last_tf : option tfptr;
  panicstr : option string;
  idt : gmap Z Gatedesc;
  gdt : gmap Z Segdesc;
  ts_esp0 : Z;
  ts_ss0 : Z;
  ismp : Z;
  ncpu : Z;
  bootcpu : option Z;
  lapicaddr : Z;
  lapic : Z;
  lapic_log : list (Z * Z);
  irq_mask_8259A : Z;
  didinit : bool;
  mpentry_kstack : Z;
}.

(** The global state.  [mem] is physical memory by frame number and by word
    in the frame (unset words read as 0); [nextfree] and [mmio_base] are the
    static variables of [boot_alloc] and [mmio_map_region]; [this_cpu] is
    [cpunum()]; [cr3] holds the physical address of the page directory in
    use and [tlb_log] the addresses given to [invlpg], newest first.
    [pages_kva] and [envs_kva] are the values of the pointers [pages] and
    [envs]. *)

Record kstate := mkState {
  npages : Z;
  npages_basemem : Z;
  pages : gmap Z PageInfo;
  page_free_list : option Z;
  kern_pgdir : Z;
  nextfree : Z;
  mmio_base : Z;
  user_mem_check_addr : Z;
  mem : gmap Z (gmap Z Z);
  envs : gmap Z Env;
  env_free_list : option Z;
  cpus : gmap Z CpuInfo;
  this_cpu : Z;
  kernel_lock : spinlock;
  cr3 : Z;
  tlb_log : list Z;
  cr0 : Z;
  pages_kva : Z;
  envs_kva : Z;
  con : console;
  hw : machine;
}.

(** ** Field updates *)


Definition set_reg_edi (v : Z) (r : PushRegs) : PushRegs :=
  mkPushRegs v (reg_esi r) (reg_ebp r) (reg_oesp r) (reg_ebx r) (reg_edx r) (reg_ecx
    r) (reg_eax r).
Definition set_reg_esi (v : Z) (r : PushRegs) : PushRegs :=
  mkPushRegs (reg_edi r) v (reg_ebp r) (reg_oesp r) (reg_ebx r) (reg_edx r) (reg_ecx
    r) (reg_eax r).
Definition set_reg_ebp (v : Z) (r : PushRegs) : PushRegs :=
  mkPushRegs (reg_edi r) (reg_esi r) v (reg_oesp r) (reg_ebx r) (reg_edx r) (reg_ecx
    r) (reg_eax r).
Definition set_reg_oesp (v : Z) (r : PushRegs) : PushRegs :=
  mkPushRegs (reg_edi r) (reg_esi r) (reg_ebp r) v (reg_ebx r) (reg_edx r) (reg_ecx r)
    (reg_eax r).
Definition set_reg_ebx (v : Z) (r : PushRegs) : PushRegs :=
  mkPushRegs (reg_edi r) (reg_esi r) (reg_ebp r) (reg_oesp r) v (reg_edx r) (reg_ecx
    r) (reg_eax r).
Definition set_reg_edx (v : Z) (r : PushRegs) : PushRegs :=
  mkPushRegs (reg_edi r) (reg_esi r) (reg_ebp r) (reg_oesp r) (reg_ebx r) v (reg_ecx
    r) (reg_eax r).
Definition set_reg_ecx (v : Z) (r : PushRegs) : PushRegs :=
  mkPushRegs (reg_edi r) (reg_esi r) (reg_ebp r) (reg_oesp r) (reg_ebx r) (reg_edx r)
    v (reg_eax r).
Definition set_reg_eax (v : Z) (r : PushRegs) : PushRegs :=
  mkPushRegs (reg_edi r) (reg_esi r) (reg_ebp r) (reg_oesp r) (reg_ebx r) (reg_edx r)
    (reg_ecx r) v.

Definition set_tf_regs (v : PushRegs) (t : Trapframe) : Trapframe :=
  mkTrapframe v (tf_es t) (tf_ds t) (tf_trapno t) (tf_err t) (tf_eip t) (tf_cs t)
    (tf_eflags t) (tf_esp t) (tf_ss t).
Definition set_tf_es (v : Z) (t : Trapframe) : Trapframe :=
  mkTrapframe (tf_regs t) v (tf_ds t) (tf_trapno t) (tf_err t) (tf_eip t) (tf_cs t)
    (tf_eflags t) (tf_esp t) (tf_ss t).
Definition set_tf_ds (v : Z) (t : Trapframe) : Trapframe :=
  mkTrapframe (tf_regs t) (tf_es t) v (tf_trapno t) (tf_err t) (tf_eip t) (tf_cs t)
    (tf_eflags t) (tf_esp t) (tf_ss t).
Definition set_tf_trapno (v : Z) (t : Trapframe) : Trapframe :=
  mkTrapframe (tf_regs t) (tf_es t) (tf_ds t) v (tf_err t) (tf_eip t) (tf_cs t)
    (tf_eflags t) (tf_esp t) (tf_ss t).
Definition set_tf_err (v : Z) (t : Trapframe) : Trapframe :=
  mkTrapframe (tf_regs t) (tf_es t) (tf_ds t) (tf_trapno t) v (tf_eip t) (tf_cs t)
    (tf_eflags t) (tf_esp t) (tf_ss t).
Definition set_tf_eip (v : Z) (t : Trapframe) : Trapframe :=
  mkTrapframe (tf_regs t) (tf_es t) (tf_ds t) (tf_trapno t) (tf_err t) v (tf_cs t)
    (tf_eflags t) (tf_esp t) (tf_ss t).
Definition set_tf_cs (v : Z) (t : Trapframe) : Trapframe :=
  mkTrapframe (tf_regs t) (tf_es t) (tf_ds t) (tf_trapno t) (tf_err t) (tf_eip t) v
    (tf_eflags t) (tf_esp t) (tf_ss t).
Definition set_tf_eflags (v : Z) (t : Trapframe) : Trapframe :=
  mkTrapframe (tf_regs t) (tf_es t) (tf_ds t) (tf_trapno t) (tf_err t) (tf_eip t)
    (tf_cs t) v (tf_esp t) (tf_ss t).
Definition set_tf_esp (v : Z) (t : Trapframe) : Trapframe :=
  mkTrapframe (tf_regs t) (tf_es t) (tf_ds t) (tf_trapno t) (tf_err t) (tf_eip t)
    (tf_cs t) (tf_eflags t) v (tf_ss t).
Definition set_tf_ss (v : Z) (t : Trapframe) : Trapframe :=
  mkTrapframe (tf_regs t) (tf_es t) (tf_ds t) (tf_trapno t) (tf_err t) (tf_eip t)
    (tf_cs t) (tf_eflags t) (tf_esp t) v.

Definition set_env_tf (v : Trapframe) (e : Env) : Env :=
  mkEnv v (env_link e) (env_id e) (env_parent_id e) (env_type e) (env_status e)
    (env_runs e) (env_cpunum e) (env_pgdir e) (env_pgfault_upcall e) (env_ipc_recving
    e) (env_ipc_dstva e) (env_ipc_value e) (env_ipc_from e) (env_ipc_perm e).
Definition set_env_link (v : option Z) (e : Env) : Env :=
  mkEnv (env_tf e) v (env_id e) (env_parent_id e) (env_type e) (env_status e)
    (env_runs e) (env_cpunum e) (env_pgdir e) (env_pgfault_upcall e) (env_ipc_recving
    e) (env_ipc_dstva e) (env_ipc_value e) (env_ipc_from e) (env_ipc_perm e).
Definition set_env_id (v : Z) (e : Env) : Env :=
  mkEnv (env_tf e) (env_link e) v (env_parent_id e) (env_type e) (env_status e)
    (env_runs e) (env_cpunum e) (env_pgdir e) (env_pgfault_upcall e) (env_ipc_recving
    e) (env_ipc_dstva e) (env_ipc_value e) (env_ipc_from e) (env_ipc_perm e).
Definition set_env_parent_id (v : Z) (e : Env) : Env :=
  mkEnv (env_tf e) (env_link e) (env_id e) v (env_type e) (env_status e) (env_runs e)
    (env_cpunum e) (env_pgdir e) (env_pgfault_upcall e) (env_ipc_recving e)
    (env_ipc_dstva e) (env_ipc_value e) (env_ipc_from e) (env_ipc_perm e).
Definition set_env_type (v : Z) (e : Env) : Env :=
  mkEnv (env_tf e) (env_link e) (env_id e) (env_parent_id e) v (env_status e)
    (env_runs e) (env_cpunum e) (env_pgdir e) (env_pgfault_upcall e) (env_ipc_recving
    e) (env_ipc_dstva e) (env_ipc_value e) (env_ipc_from e) (env_ipc_perm e).
Definition set_env_status (v : EnvStatus) (e : Env) : Env :=
  mkEnv (env_tf e) (env_link e) (env_id e) (env_parent_id e) (env_type e) v (env_runs
    e) (env_cpunum e) (env_pgdir e) (env_pgfault_upcall e) (env_ipc_recving e)
    (env_ipc_dstva e) (env_ipc_value e) (env_ipc_from e) (env_ipc_perm e).
Definition set_env_runs (v : Z) (e : Env) : Env :=
  mkEnv (env_tf e) (env_link e) (env_id e) (env_parent_id e) (env_type e) (env_status
    e) v (env_cpunum e) (env_pgdir e) (env_pgfault_upcall e) (env_ipc_recving e)
    (env_ipc_dstva e) (env_ipc_value e) (env_ipc_from e) (env_ipc_perm e).
Definition set_env_cpunum (v : Z) (e : Env) : Env :=
  mkEnv (env_tf e) (env_link e) (env_id e) (env_parent_id e) (env_type e) (env_status
    e) (env_runs e) v (env_pgdir e) (env_pgfault_upcall e) (env_ipc_recving e)
    (env_ipc_dstva e) (env_ipc_value e) (env_ipc_from e) (env_ipc_perm e).
Definition set_env_pgdir (v : Z) (e : Env) : Env :=
  mkEnv (env_tf e) (env_link e) (env_id e) (env_parent_id e) (env_type e) (env_status
    e) (env_runs e) (env_cpunum e) v (env_pgfault_upcall e) (env_ipc_recving e)
    (env_ipc_dstva e) (env_ipc_value e) (env_ipc_from e) (env_ipc_perm e).
Definition set_env_pgfault_upcall (v : Z) (e : Env) : Env :=
  mkEnv (env_tf e) (env_link e) (env_id e) (env_parent_id e) (env_type e) (env_status
    e) (env_runs e) (env_cpunum e) (env_pgdir e) v (env_ipc_recving e) (env_ipc_dstva
    e) (env_ipc_value e) (env_ipc_from e) (env_ipc_perm e).
Definition set_env_ipc_recving (v : bool) (e : Env) : Env :=
  mkEnv (env_tf e) (env_link e) (env_id e) (env_parent_id e) (env_type e) (env_status
    e) (env_runs e) (env_cpunum e) (env_pgdir e) (env_pgfault_upcall e) v
    (env_ipc_dstva e) (env_ipc_value e) (env_ipc_from e) (env_ipc_perm e).
Definition set_env_ipc_dstva (v : Z) (e : Env) : Env :=
  mkEnv (env_tf e) (env_link e) (env_id e) (env_parent_id e) (env_type e) (env_status
    e) (env_runs e) (env_cpunum e) (env_pgdir e) (env_pgfault_upcall e)
    (env_ipc_recving e) v (env_ipc_value e) (env_ipc_from e) (env_ipc_perm e).
Definition set_env_ipc_value (v : Z) (e : Env) : Env :=
  mkEnv (env_tf e) (env_link e) (env_id e) (env_parent_id e) (env_type e) (env_status
    e) (env_runs e) (env_cpunum e) (env_pgdir e) (env_pgfault_upcall e)
    (env_ipc_recving e) (env_ipc_dstva e) v (env_ipc_from e) (env_ipc_perm e).
Definition set_env_ipc_from (v : Z) (e : Env) : Env :=
  mkEnv (env_tf e) (env_link e) (env_id e) (env_parent_id e) (env_type e) (env_status
    e) (env_runs e) (env_cpunum e) (env_pgdir e) (env_pgfault_upcall e)
    (env_ipc_recving e) (env_ipc_dstva e) (env_ipc_value e) v (env_ipc_perm e).
Definition set_env_ipc_perm (v : Z) (e : Env) : Env :=
  mkEnv (env_tf e) (env_link e) (env_id e) (env_parent_id e) (env_type e) (env_status
    e) (env_runs e) (env_cpunum e) (env_pgdir e) (env_pgfault_upcall e)
    (env_ipc_recving e) (env_ipc_dstva e) (env_ipc_value e) (env_ipc_from e) v.

Definition set_npages (v : Z) (s : kstate) : kstate :=
  mkState v (npages_basemem s) (pages s) (page_free_list s) (kern_pgdir s) (nextfree s)
    (mmio_base s) (user_mem_check_addr s) (mem s) (envs s) (env_free_list s) (cpus s)
    (this_cpu s) (kernel_lock s) (cr3 s) (tlb_log s) (cr0 s) (pages_kva s) (envs_kva s)
    (con s) (hw s).
Definition set_npages_basemem (v : Z) (s : kstate) : kstate :=
  mkState (npages s) v (pages s) (page_free_list s) (kern_pgdir s) (nextfree s)
    (mmio_base s) (user_mem_check_addr s) (mem s) (envs s) (env_free_list s) (cpus s)
    (this_cpu s) (kernel_lock s) (cr3 s) (tlb_log s) (cr0 s) (pages_kva s) (envs_kva s)
    (con s) (hw s).
Definition set_pages (v : gmap Z PageInfo) (s : kstate) : kstate :=
  mkState (npages s) (npages_basemem s) v (page_free_list s) (kern_pgdir s) (nextfree s)
    (mmio_base s) (user_mem_check_addr s) (mem s) (envs s) (env_free_list s) (cpus s)
    (this_cpu s) (kernel_lock s) (cr3 s) (tlb_log s) (cr0 s) (pages_kva s) (envs_kva s)
    (con s) (hw s).
Definition set_page_free_list (v : option Z) (s : kstate) : kstate :=
  mkState (npages s) (npages_basemem s) (pages s) v (kern_pgdir s) (nextfree s)
    (mmio_base s) (user_mem_check_addr s) (mem s) (envs s) (env_free_list s) (cpus s)
    (this_cpu s) (kernel_lock s) (cr3 s) (tlb_log s) (cr0 s) (pages_kva s) (envs_kva s)
    (con s) (hw s).
Definition set_kern_pgdir (v : Z) (s : kstate) : kstate :=
  mkState (npages s) (npages_basemem s) (pages s) (page_free_list s) v (nextfree s)
    (mmio_base s) (user_mem_check_addr s) (mem s) (envs s) (env_free_list s) (cpus s)
    (this_cpu s) (kernel_lock s) (cr3 s) (tlb_log s) (cr0 s) (pages_kva s) (envs_kva s)
    (con s) (hw s).
Definition set_nextfree (v : Z) (s : kstate) : kstate :=
  mkState (npages s) (npages_basemem s) (pages s) (page_free_list s) (kern_pgdir s) v
    (mmio_base s) (user_mem_check_addr s) (mem s) (envs s) (env_free_list s) (cpus s)
    (this_cpu s) (kernel_lock s) (cr3 s) (tlb_log s) (cr0 s) (pages_kva s) (envs_kva s)
    (con s) (hw s).
Definition set_mmio_base (v : Z) (s : kstate) : kstate :=
  mkState (npages s) (npages_basemem s) (pages s) (page_free_list s) (kern_pgdir s)
    (nextfree s) v (user_mem_check_addr s) (mem s) (envs s) (env_free_list s) (cpus s)
    (this_cpu s) (kernel_lock s) (cr3 s) (tlb_log s) (cr0 s) (pages_kva s) (envs_kva s)
    (con s) (hw s).
Definition set_user_mem_check_addr (v : Z) (s : kstate) : kstate :=
  mkState (npages s) (npages_basemem s) (pages s) (page_free_list s) (kern_pgdir s)
    (nextfree s) (mmio_base s) v (mem s) (envs s) (env_free_list s) (cpus s) (this_cpu
    s) (kernel_lock s) (cr3 s) (tlb_log s) (cr0 s) (pages_kva s) (envs_kva s) (con s)
    (hw s).
Definition set_mem (v : gmap Z (gmap Z Z)) (s : kstate) : kstate :=
  mkState (npages s) (npages_basemem s) (pages s) (page_free_list s) (kern_pgdir s)
    (nextfree s) (mmio_base s) (user_mem_check_addr s) v (envs s) (env_free_list s)
    (cpus s) (this_cpu s) (kernel_lock s) (cr3 s) (tlb_log s) (cr0 s) (pages_kva s)
    (envs_kva s) (con s) (hw s).
Definition set_envs (v : gmap Z Env) (s : kstate) : kstate :=
  mkState (npages s) (npages_basemem s) (pages s) (page_free_list s) (kern_pgdir s)
    (nextfree s) (mmio_base s) (user_mem_check_addr s) (mem s) v (env_free_list s) (cpus
    s) (this_cpu s) (kernel_lock s) (cr3 s) (tlb_log s) (cr0 s) (pages_kva s) (envs_kva
    s) (con s) (hw s).
Definition set_env_free_list (v : option Z) (s : kstate) : kstate :=
  mkState (npages s) (npages_basemem s) (pages s) (page_free_list s) (kern_pgdir s)
    (nextfree s) (mmio_base s) (user_mem_check_addr s) (mem s) (envs s) v (cpus s)
    (this_cpu s) (kernel_lock s) (cr3 s) (tlb_log s) (cr0 s) (pages_kva s) (envs_kva s)
    (con s) (hw s).
Definition set_cpus (v : gmap Z CpuInfo) (s : kstate) : kstate :=
  mkState (npages s) (npages_basemem s) (pages s) (page_free_list s) (kern_pgdir s)
    (nextfree s) (mmio_base s) (user_mem_check_addr s) (mem s) (envs s) (env_free_list
    s) v (this_cpu s) (kernel_lock s) (cr3 s) (tlb_log s) (cr0 s) (pages_kva s)
    (envs_kva s) (con s) (hw s).
Definition set_this_cpu (v : Z) (s : kstate) : kstate :=
  mkState (npages s) (npages_basemem s) (pages s) (page_free_list s) (kern_pgdir s)
    (nextfree s) (mmio_base s) (user_mem_check_addr s) (mem s) (envs s) (env_free_list
    s) (cpus s) v (kernel_lock s) (cr3 s) (tlb_log s) (cr0 s) (pages_kva s) (envs_kva s)
    (con s) (hw s).
Definition set_kernel_lock (v : spinlock) (s : kstate) : kstate :=
  mkState (npages s) (npages_basemem s) (pages s) (page_free_list s) (kern_pgdir s)
    (nextfree s) (mmio_base s) (user_mem_check_addr s) (mem s) (envs s) (env_free_list
    s) (cpus s) (this_cpu s) v (cr3 s) (tlb_log s) (cr0 s) (pages_kva s) (envs_kva s)
    (con s) (hw s).
Definition set_cr3 (v : Z) (s : kstate) : kstate :=
  mkState (npages s) (npages_basemem s) (pages s) (page_free_list s) (kern_pgdir s)
    (nextfree s) (mmio_base s) (user_mem_check_addr s) (mem s) (envs s) (env_free_list
    s) (cpus s) (this_cpu s) (kernel_lock s) v (tlb_log s) (cr0 s) (pages_kva s)
    (envs_kva s) (con s) (hw s).
Definition set_tlb_log (v : list Z) (s : kstate) : kstate :=
  mkState (npages s) (npages_basemem s) (pages s) (page_free_list s) (kern_pgdir s)
    (nextfree s) (mmio_base s) (user_mem_check_addr s) (mem s) (envs s) (env_free_list
    s) (cpus s) (this_cpu s) (kernel_lock s) (cr3 s) v (cr0 s) (pages_kva s) (envs_kva
    s) (con s) (hw s).
Definition set_cr0 (v : Z) (s : kstate) : kstate :=
  mkState (npages s) (npages_basemem s) (pages s) (page_free_list s) (kern_pgdir s)
    (nextfree s) (mmio_base s) (user_mem_check_addr s) (mem s) (envs s) (env_free_list
    s) (cpus s) (this_cpu s) (kernel_lock s) (cr3 s) (tlb_log s) v (pages_kva s)
    (envs_kva s) (con s) (hw s).
Definition set_pages_kva (v : Z) (s : kstate) : kstate :=
  mkState (npages s) (npages_basemem s) (pages s) (page_free_list s) (kern_pgdir s)
    (nextfree s) (mmio_base s) (user_mem_check_addr s) (mem s) (envs s) (env_free_list
    s) (cpus s) (this_cpu s) (kernel_lock s) (cr3 s) (tlb_log s) (cr0 s) v (envs_kva s)
    (con s) (hw s).
Definition set_envs_kva (v : Z) (s : kstate) : kstate :=
  mkState (npages s) (npages_basemem s) (pages s) (page_free_list s) (kern_pgdir s)
    (nextfree s) (mmio_base s) (user_mem_check_addr s) (mem s) (envs s) (env_free_list
    s) (cpus s) (this_cpu s) (kernel_lock s) (cr3 s) (tlb_log s) (cr0 s) (pages_kva s) v
    (con s) (hw s).
Definition set_con (v : console) (s : kstate) : kstate :=
  mkState (npages s) (npages_basemem s) (pages s) (page_free_list s) (kern_pgdir s)
    (nextfree s) (mmio_base s) (user_mem_check_addr s) (mem s) (envs s) (env_free_list
    s) (cpus s) (this_cpu s) (kernel_lock s) (cr3 s) (tlb_log s) (cr0 s) (pages_kva s)
    (envs_kva s) v (hw s).
Definition set_hw (v : machine) (s : kstate) : kstate :=
  mkState (npages s) (npages_basemem s) (pages s) (page_free_list s) (kern_pgdir s)
    (nextfree s) (mmio_base s) (user_mem_check_addr s) (mem s) (envs s) (env_free_list
    s) (cpus s) (this_cpu s) (kernel_lock s) (cr3 s) (tlb_log s) (cr0 s) (pages_kva s)
    (envs_kva s) (con s) v.

Definition set_cr2 (v : Z) (h : machine) : machine :=
  mkMachine v (eflags h) (last_tf h) (panicstr h) (idt h) (gdt h) (ts_esp0 h) (ts_ss0 h)
    (ismp h) (ncpu h) (bootcpu h) (lapicaddr h) (lapic h) (lapic_log h) (irq_mask_8259A
    h) (didinit h) (mpentry_kstack h).
Definition set_eflags (v : Z) (h : machine) : machine :=
  mkMachine (cr2 h) v (last_tf h) (panicstr h) (idt h) (gdt h) (ts_esp0 h) (ts_ss0 h)
    (ismp h) (ncpu h) (bootcpu h) (lapicaddr h) (lapic h) (lapic_log h) (irq_mask_8259A
    h) (didinit h) (mpentry_kstack h).
Definition set_last_tf (v : option tfptr) (h : machine) : machine :=
  mkMachine (cr2 h) (eflags h) v (panicstr h) (idt h) (gdt h) (ts_esp0 h) (ts_ss0 h)
    (ismp h) (ncpu h) (bootcpu h) (lapicaddr h) (lapic h) (lapic_log h) (irq_mask_8259A
    h) (didinit h) (mpentry_kstack h).
Definition set_panicstr (v : option string) (h : machine) : machine :=
  mkMachine (cr2 h) (eflags h) (last_tf h) v (idt h) (gdt h) (ts_esp0 h) (ts_ss0 h)
    (ismp h) (ncpu h) (bootcpu h) (lapicaddr h) (lapic h) (lapic_log h) (irq_mask_8259A
    h) (didinit h) (mpentry_kstack h).
Definition set_idt (v : gmap Z Gatedesc) (h : machine) : machine :=
  mkMachine (cr2 h) (eflags h) (last_tf h) (panicstr h) v (gdt h) (ts_esp0 h) (ts_ss0 h)
    (ismp h) (ncpu h) (bootcpu h) (lapicaddr h) (lapic h) (lapic_log h) (irq_mask_8259A
    h) (didinit h) (mpentry_kstack h).
Definition set_gdt (v : gmap Z Segdesc) (h : machine) : machine :=
  mkMachine (cr2 h) (eflags h) (last_tf h) (panicstr h) (idt h) v (ts_esp0 h) (ts_ss0 h)
    (ismp h) (ncpu h) (bootcpu h) (lapicaddr h) (lapic h) (lapic_log h) (irq_mask_8259A
    h) (didinit h) (mpentry_kstack h).
Definition set_ts_esp0 (v : Z) (h : machine) : machine :=
  mkMachine (cr2 h) (eflags h) (last_tf h) (panicstr h) (idt h) (gdt h) v (ts_ss0 h)
    (ismp h) (ncpu h) (bootcpu h) (lapicaddr h) (lapic h) (lapic_log h) (irq_mask_8259A
    h) (didinit h) (mpentry_kstack h).
Definition set_ts_ss0 (v : Z) (h : machine) : machine :=
  mkMachine (cr2 h) (eflags h) (last_tf h) (panicstr h) (idt h) (gdt h) (ts_esp0 h) v
    (ismp h) (ncpu h) (bootcpu h) (lapicaddr h) (lapic h) (lapic_log h) (irq_mask_8259A
    h) (didinit h) (mpentry_kstack h).
Definition set_ismp (v : Z) (h : machine) : machine :=
  mkMachine (cr2 h) (eflags h) (last_tf h) (panicstr h) (idt h) (gdt h) (ts_esp0 h)
    (ts_ss0 h) v (ncpu h) (bootcpu h) (lapicaddr h) (lapic h) (lapic_log h)
    (irq_mask_8259A h) (didinit h) (mpentry_kstack h).
Definition set_ncpu (v : Z) (h : machine) : machine :=
  mkMachine (cr2 h) (eflags h) (last_tf h) (panicstr h) (idt h) (gdt h) (ts_esp0 h)
    (ts_ss0 h) (ismp h) v (bootcpu h) (lapicaddr h) (lapic h) (lapic_log h)
    (irq_mask_8259A h) (didinit h) (mpentry_kstack h).
Definition set_bootcpu (v : option Z) (h : machine) : machine :=
  mkMachine (cr2 h) (eflags h) (last_tf h) (panicstr h) (idt h) (gdt h) (ts_esp0 h)
    (ts_ss0 h) (ismp h) (ncpu h) v (lapicaddr h) (lapic h) (lapic_log h) (irq_mask_8259A
    h) (didinit h) (mpentry_kstack h).
Definition set_lapicaddr (v : Z) (h : machine) : machine :=
  mkMachine (cr2 h) (eflags h) (last_tf h) (panicstr h) (idt h) (gdt h) (ts_esp0 h)
    (ts_ss0 h) (ismp h) (ncpu h) (bootcpu h) v (lapic h) (lapic_log h) (irq_mask_8259A
    h) (didinit h) (mpentry_kstack h).
Definition set_lapic (v : Z) (h : machine) : machine :=
  mkMachine (cr2 h) (eflags h) (last_tf h) (panicstr h) (idt h) (gdt h) (ts_esp0 h)
    (ts_ss0 h) (ismp h) (ncpu h) (bootcpu h) (lapicaddr h) v (lapic_log h)
    (irq_mask_8259A h) (didinit h) (mpentry_kstack h).
Definition set_lapic_log (v : list (Z * Z)) (h : machine) : machine :=
  mkMachine (cr2 h) (eflags h) (last_tf h) (panicstr h) (idt h) (gdt h) (ts_esp0 h)
    (ts_ss0 h) (ismp h) (ncpu h) (bootcpu h) (lapicaddr h) (lapic h) v (irq_mask_8259A
    h) (didinit h) (mpentry_kstack h).
Definition set_irq_mask_8259A (v : Z) (h : machine) : machine :=
  mkMachine (cr2 h) (eflags h) (last_tf h) (panicstr h) (idt h) (gdt h) (ts_esp0 h)
    (ts_ss0 h) (ismp h) (ncpu h) (bootcpu h) (lapicaddr h) (lapic h) (lapic_log h) v
    (didinit h) (mpentry_kstack h).
Definition set_didinit (v : bool) (h : machine) : machine :=
  mkMachine (cr2 h) (eflags h) (last_tf h) (panicstr h) (idt h) (gdt h) (ts_esp0 h)
    (ts_ss0 h) (ismp h) (ncpu h) (bootcpu h) (lapicaddr h) (lapic h) (lapic_log h)
    (irq_mask_8259A h) v (mpentry_kstack h).
Definition set_mpentry_kstack (v : Z) (h : machine) : machine :=
  mkMachine (cr2 h) (eflags h) (last_tf h) (panicstr h) (idt h) (gdt h) (ts_esp0 h)
    (ts_ss0 h) (ismp h) (ncpu h) (bootcpu h) (lapicaddr h) (lapic h) (lapic_log h)
    (irq_mask_8259A h) (didinit h) v.

Definition set_pp_link (l : option Z) (p : PageInfo) : PageInfo := mkPageInfo l (pp_ref p).
Definition set_pp_ref (r : Z) (p : PageInfo) : PageInfo := mkPageInfo (pp_link p) r.
Definition set_cpu_status (st : CpuStatus) (c : CpuInfo) : CpuInfo := mkCpuInfo (cpu_id c) st (cpu_env c).
Definition set_cpu_env (e : option Z) (c : CpuInfo) : CpuInfo := mkCpuInfo (cpu_id c) (cpu_status c) e.

(** ** Physical memory *)

Definition mget (m : gmap Z (gmap Z Z)) (f i : Z) : Z := default 0 (default ∅ (m !! f) !! i).
Definition mset (m : gmap Z (gmap Z Z)) (f i v : Z) : gmap Z (gmap Z Z) :=
  <[f := <[i := v]> (default ∅ (m !! f))]> m.

(** The 32-bit word at a word-aligned physical address. *)
Definition mload (m : gmap Z (gmap Z Z)) (pa : Z) : Z := mget m (pa / 4096) (pa `mod` 4096 / 4).
Definition mstore (m : gmap Z (gmap Z Z)) (pa v : Z) : gmap Z (gmap Z Z) :=
  mset m (pa / 4096) (pa `mod` 4096 / 4) (u32 v).

(** [rep stosl]: [n] words from [pa] on. *)
Fixpoint mfill (n : nat) (pa w : Z) (m : gmap Z (gmap Z Z)) : gmap Z (gmap Z Z) :=
  match n with O => m | S n' => mfill n' (pa + 4) w (mstore m pa w) end.

(** ** The monad of kernel code *)

(** How a computation ends when it does not return. *)
Inductive stop :=
| SPanic (msg : string)      (* panic() or a failed assert() *)
| SFault (va : Z)            (* the kernel accesses an address that is not mapped *)
| SUser (e : Z)              (* iret into environment e *)
| SMonitor                   (* while (1) monitor(NULL) *)
| SHalt                      (* hlt *)
| SSpin                      (* waits for a lock another CPU holds *)
| SDiverge.                  (* a device that never stops sending *)

Inductive outcome (A : Type) :=
| Ret (a : A)
| Stop (r : stop).
Arguments Ret {A} a.
Arguments Stop {A} r.

Definition K (A : Type) : Type := kstate -> outcome A * kstate.

#[export] Instance K_ret : MRet K := fun A a s => (Ret a, s).
#[export] Instance K_bind : MBind K := fun A B f m s =>
  match m s with
  | (Ret a, s') => f a s'
  | (Stop r, s') => (Stop r, s')
  end.

Definition get : K kstate := fun s => (Ret s, s).
Definition gets {A} (f : kstate -> A) : K A := fun s => (Ret (f s), s).
Definition modify (f : kstate -> kstate) : K unit := fun s => (Ret tt, f s).
Definition halt {A} (r : stop) : K A := fun s => (Stop r, s).
Definition panic {A} (msg : string) : K A := halt (SPanic msg).
Definition skip : K unit := mret tt.
Definition when (b : bool) (m : K unit) : K unit := if b then m else skip.

(** [assert(x)]: the message is the text of the condition. *)
Definition assert_ (b : bool) (text : string) : K unit :=
  if b then skip else panic ("assertion failed: " +:+ text).

(** A [for] loop over a list of indices. *)
Fixpoint for_each {A} (l : list A) (body : A -> K unit) : K unit :=
  match l with
  | [] => skip
  | x :: l' => body x ;; for_each l' body
  end.

(** [cprintf]: the format, its arguments; a format or argument that leads to
    a read out of bounds is a fault. *)
Definition cprintf (fmt : string) (ap : list va_arg) : K unit := fun s =>
  match Console.cprintf (cstr fmt) ap (con s) with
  | Some (_, c) => (Ret tt, set_con c s)
  | None => (Stop (SFault 0), s)
  end.

(** ** Access to kernel virtual addresses, arrays and the current CPU *)

(** Kernel virtual addresses from KERNBASE on map physical memory; an access
    below (a NULL pointer) faults. *)
Definition kload (kva : Z) : K Z := fun s =>
  if KERNBASE <=? kva then (Ret (mload (mem s) (kva - KERNBASE)), s) else (Stop (SFault kva), s).

Definition kstore (kva v : Z) : K unit := fun s =>
  if KERNBASE <=? kva then (Ret tt, set_mem (mstore (mem s) (kva - KERNBASE) v) s)
  else (Stop (SFault kva), s).

(** [memset] of lib/string.c at a word-aligned kernel address, a multiple of
    four bytes: the [rep stosl] branch. *)
Definition kmemset (kva c n : Z) : K unit := fun s =>
  let c := Z.land c 0xFF in
  let w := u32 (Z.lor (Z.lor (Z.lor (Z.shiftl c 24) (Z.shiftl c 16)) (Z.shiftl c 8)) c) in
  if KERNBASE <=? kva
  then (Ret tt, set_mem (mfill (Z.to_nat (n / 4)) (kva - KERNBASE) w (mem s)) s)
  else (Stop (SFault kva), s).

Definition page_info (p : Z) : K PageInfo := fun s =>
  match pages s !! p with Some i => (Ret i, s) | None => (Stop (SFault p), s) end.

Definition page_update (p : Z) (f : PageInfo -> PageInfo) : K unit := fun s =>
  match pages s !! p with
  | Some i => (Ret tt, set_pages (<[p := f i]> (pages s)) s)
  | None => (Stop (SFault p), s)
  end.

Definition env_get (e : Z) : K Env := fun s =>
  match envs s !! e with Some v => (Ret v, s) | None => (Stop (SFault e), s) end.

Definition env_update (e : Z) (f : Env -> Env) : K unit := fun s =>
  match envs s !! e with
  | Some v => (Ret tt, set_envs (<[e := f v]> (envs s)) s)
  | None => (Stop (SFault e), s)
  end.

Definition cpu0 : CpuInfo := mkCpuInfo 0 CPU_UNUSED None.

(** [thiscpu] and [curenv]. *)
Definition thiscpu (s : kstate) : CpuInfo := default cpu0 (cpus s !! this_cpu s).
Definition curenv (s : kstate) : option Z := cpu_env (thiscpu s).
Definition set_thiscpu (f : CpuInfo -> CpuInfo) : K unit :=
  modify (fun s => set_cpus (<[this_cpu s := f (thiscpu s)]> (cpus s)) s).
Definition set_curenv (e : option Z) : K unit := set_thiscpu (set_cpu_env e).

(** An access through a pointer that may be NULL. *)
Definition deref {A} (p : option A) : K A :=
  match p with Some a => mret a | None => halt (SFault 0) end.

(** inc/x86.h: [lcr3] loads a page directory, [invlpg] drops one entry. *)
Definition lcr3 (pa : Z) : K unit := modify (set_cr3 pa).
Definition invlpg (va : Z) : K unit := modify (fun s => set_tlb_log (va :: tlb_log s) s).

(** Addresses below KERNBASE go through the page tables that [cr3] points
    to.  The kernel runs with CR0_WP, so a write needs PTE_W in both levels. *)
Definition mmu_walk (m : gmap Z (gmap Z Z)) (dir va : Z) (write : bool) : option Z :=
  let pde := mload m (PTE_ADDR dir + 4 * PDX va) in
  if test pde PTE_P && (negb write || test pde PTE_W) then
    let pte := mload m (PTE_ADDR pde + 4 * PTX va) in
    if test pte PTE_P && (negb write || test pte PTE_W) then Some (PTE_ADDR pte + PGOFF va)
    else None
  else None.

Definition vload (va : Z) : K Z := fun s =>
  if KERNBASE <=? va then kload va s
  else match mmu_walk (mem s) (cr3 s) va false with
       | Some pa => (Ret (mload (mem s) pa), s)
       | None => (Stop (SFault va), s)
       end.

Definition vstore (va v : Z) : K unit := fun s =>
  if KERNBASE <=? va then kstore va v s
  else match mmu_walk (mem s) (cr3 s) va true with
       | Some pa => (Ret tt, set_mem (mstore (mem s) pa v) s)
       | None => (Stop (SFault va), s)
       end.

(** Single bytes. *)
Definition get_byte (w k : Z) : Z := Z.land (Z.shiftr w (8 * k)) 0xFF.
Definition put_byte (w k b : Z) : Z :=
  Z.lor (Z.land w (Z.lnot (Z.shiftl 0xFF (8 * k)))) (Z.shiftl (u8 b) (8 * k)).

Definition translate (va : Z) (write : bool) (s : kstate) : option Z :=
  if KERNBASE <=? va then Some (va - KERNBASE) else mmu_walk (mem s) (cr3 s) va write.

Definition vload8 (va : Z) : K Z := fun s =>
  match translate va false s with
  | Some pa => (Ret (get_byte (mload (mem s) (pa - pa `mod` 4)) (pa `mod` 4)), s)
  | None => (Stop (SFault va), s)
  end.

Definition vstore8 (va b : Z) : K unit := fun s =>
  match translate va true s with
  | Some pa =>
      let w := mload (mem s) (pa - pa `mod` 4) in
      (Ret tt, set_mem (mstore (mem s) (pa - pa `mod` 4) (put_byte w (pa `mod` 4) b)) s)
  | None => (Stop (SFault va), s)
  end.

(** A word store at any address: x86 allows it to be unaligned, then the bytes go
    to both pages it touches, and none is written when one of them refuses. *)
Definition vstore32 (va v : Z) : K unit := fun s =>
  if va `mod` 4 =? 0 then vstore va v s
  else match translate va true s, translate (va + 3) true s with
       | Some _, Some _ =>
           (vstore8 va (get_byte v 0) ;; vstore8 (va + 1) (get_byte v 1) ;;
            vstore8 (va + 2) (get_byte v 2) ;; vstore8 (va + 3) (get_byte v 3)) s
       | None, _ => (Stop (SFault va), s)
       | Some _, None => (Stop (SFault (va + 4 - va `mod` 4)), s)
       end.

(** The 32-bit and 16-bit little-endian fields of an object in memory whose
    bytes are [b]. *)
Definition le16 (b : Z -> Z) (o : Z) : Z := b o + 256 * b (o + 1).
Definition le32 (b : Z -> Z) (o : Z) : Z := le16 b o + 65536 * le16 b (o + 2).

(** Updates of the fields of [hw]. *)
Definition hw_update (f : machine -> machine) : K unit := modify (fun s => set_hw (f (hw s)) s).

(** Port I/O from kernel code. *)
Definition with_io {A} (f : ports -> A * ports) : K A := fun s =>
  let '(a, i) := f (io (con s)) in (Ret a, set_con (set_io i (con s)) s).
Definition out_io (f : ports -> ports) : K unit :=
  modify (fun s => set_con (set_io (f (io (con s))) (con s)) s).

(** ** Equations of the monad *)

Section MonadLemmas.

Lemma bind_Ret {A B} (m : K A) (f : A -> K B) s a s' :
  m s = (Ret a, s') -> (m ≫= f) s = f a s'.
Proof. unfold mbind, K_bind. by intros ->. Qed.

Lemma bind_Stop {A B} (m : K A) (f : A -> K B) s r s' :
  m s = (Stop r, s') -> (m ≫= f) s = (Stop r, s').
Proof. unfold mbind, K_bind. by intros ->. Qed.

Lemma bind_inv {A B} (m : K A) (f : A -> K B) s b s' :
  (m ≫= f) s = (Ret b, s') -> exists a s1, m s = (Ret a, s1) /\ f a s1 = (Ret b, s').
Proof. unfold mbind, K_bind. destruct (m s) as [[a|r] s1]; [eauto | done]. Qed.

Lemma bind_assoc {A B C} (m : K A) (f : A -> K B) (g : B -> K C) s :
  ((m ≫= f) ≫= g) s = (m ≫= (fun a => f a ≫= g)) s.
Proof. unfold mbind, K_bind. by destruct (m s) as [[a|r] s1]. Qed.

(** A run whose result is known. *)
Lemma run_snd {A} (r : outcome A * kstate) a : fst r = a -> r = (a, snd r).
Proof. by destruct r; intros [= ->]. Qed.

Lemma for_each_app {A} (l1 l2 : list A) body s :
  for_each (l1 ++ l2) body s = (for_each l1 body ;; for_each l2 body) s.
Proof.
  revert s. induction l1 as [|x l1 IH]; intros s; [done|].
  cbn [for_each app]. unfold mbind, K_bind in *. destruct (body x s) as [[a|r] s1]; [|done].
  apply IH.
Qed.

(** An invariant of a loop over the indices from [a] to [b]. *)
Lemma for_each_range (P : Z -> kstate -> Prop) a b body s :
  a <= b -> P a s ->
  (forall i s1, a <= i < b -> P i s1 -> exists s2, body i s1 = (Ret tt, s2) /\ P (i + 1) s2) ->
  exists s', for_each (seqZ a (b - a)) body s = (Ret tt, s') /\ P b s'.
Proof.
  intros Hab HP Hstep. remember (Z.to_nat (b - a)) as n eqn:Hn. revert a s Hab HP Hstep Hn.
  induction n as [|n IH]; intros a s Hab HP Hstep Hn.
  - replace (b - a) with 0 by lia. exists s. by replace b with a by lia.
  - destruct (Hstep a s ltac:(lia) HP) as (s1 & Hrun & H1). rewrite seqZ_cons by lia. cbn [for_each].
    rewrite (bind_Ret _ _ _ _ _ Hrun). replace (Z.pred (b - a)) with (b - Z.succ a) by lia.
    apply IH; [lia | done | | lia]. intros i s2 Hi. apply Hstep. lia.
Qed.

End MonadLemmas.

(** Equations of the accessors. *)
Section AccessLemmas.

Lemma page_info_eq s p pi : pages s !! p = Some pi -> page_info p s = (Ret pi, s).
Proof. unfold page_info. by intros ->. Qed.

Lemma page_update_eq s p pi f :
  pages s !! p = Some pi -> page_update p f s = (Ret tt, set_pages (<[p := f pi]> (pages s)) s).
Proof. unfold page_update. by intros ->. Qed.

Lemma env_get_eq s e v : envs s !! e = Some v -> env_get e s = (Ret v, s).
Proof. unfold env_get. by intros ->. Qed.

Lemma env_update_eq s e v f :
  envs s !! e = Some v -> env_update e f s = (Ret tt, set_envs (<[e := f v]> (envs s)) s).
Proof. unfold env_update. by intros ->. Qed.

Lemma kload_eq s a : 0 <= a -> kload (a + KERNBASE) s = (Ret (mload (mem s) a), s).
Proof.
  intros. unfold kload. destruct (Z.leb_spec KERNBASE (a + KERNBASE)); [|lia].
  by replace (a + KERNBASE - KERNBASE) with a by lia.
Qed.

Lemma kstore_eq s a v :
  0 <= a -> kstore (a + KERNBASE) v s = (Ret tt, set_mem (mstore (mem s) a v) s).
Proof.
  intros. unfold kstore. destruct (Z.leb_spec KERNBASE (a + KERNBASE)); [|lia].
  by replace (a + KERNBASE - KERNBASE) with a by lia.
Qed.

Lemma kmemset0_eq s a n :
  0 <= a -> kmemset (a + KERNBASE) 0 n s = (Ret tt, set_mem (mfill (Z.to_nat (n / 4)) a 0 (mem s)) s).
Proof.
  intros. unfold kmemset. destruct (Z.leb_spec KERNBASE (a + KERNBASE)); [|lia].
  by replace (a + KERNBASE - KERNBASE) with a by lia.
Qed.

(** Printing changes the console only. *)
Lemma cprintf_inv fmt ap s s' : cprintf fmt ap s = (Ret tt, s') -> exists c, s' = set_con c s.
Proof.
  unfold cprintf. destruct (Console.cprintf (cstr fmt) ap (con s)) as [[x c]|]; [|done].
  intros [= <-]. by exists c.
Qed.

Lemma deref_eq {A} (a : A) s : deref (Some a) s = (Ret a, s).
Proof. done. Qed.

Lemma get_eq s : get s = (Ret s, s).
Proof. done. Qed.

End AccessLemmas.

Section MemoryLemmas.

Lemma mget_mset m f i v f' i' :
  mget (mset m f i v) f' i' = if decide (f = f' /\ i = i') then v else mget m f' i'.
Proof.
  unfold mget, mset. destruct (decide (f = f')) as [<-|Hf].
  - rewrite lookup_insert_eq; simpl. destruct (decide (i = i')) as [<-|Hi].
    + rewrite lookup_insert_eq, decide_True by done. done.
    + rewrite lookup_insert_ne, decide_False by naive_solver. done.
  - rewrite lookup_insert_ne, decide_False by naive_solver. done.
Qed.

Lemma mget_mset_eq m f i v : mget (mset m f i v) f i = v.
Proof. rewrite mget_mset, decide_True; done. Qed.

Lemma mget_mset_ne m f i v f' i' : f <> f' \/ i <> i' -> mget (mset m f i v) f' i' = mget m f' i'.
Proof. intros. rewrite mget_mset, decide_False; naive_solver. Qed.

(** Addresses of words written as frame and index. *)
Lemma mload_word m f i : 0 <= i < 1024 -> mload m (4096 * f + 4 * i) = mget m f i.
Proof. intros. unfold mload. f_equal; zdm. Qed.

Lemma mstore_word m f i v : 0 <= i < 1024 -> mstore m (4096 * f + 4 * i) v = mset m f i (u32 v).
Proof. intros. unfold mstore. f_equal; zdm. Qed.

(** Filling [n] words of a frame from index [i] on. *)
Lemma mget_mfill n f i w m f' i' :
  0 <= i -> i + Z.of_nat n <= 1024 ->
  mget (mfill n (4096 * f + 4 * i) w m) f' i' =
  if decide (f = f' /\ i <= i' < i + Z.of_nat n) then u32 w else mget m f' i'.
Proof.
  revert i m. induction n as [|n IH]; intros i m Hi Hn; cbn [mfill].
  - rewrite decide_False by lia. done.
  - replace (4096 * f + 4 * i + 4) with (4096 * f + 4 * (i + 1)) by lia.
    rewrite IH, mstore_word, mget_mset by lia.
    repeat case_decide; try lia; naive_solver lia.
Qed.

End MemoryLemmas.

#[global] Arguments mfill : simpl never.
#[global] Arguments mload : simpl never.
#[global] Arguments mstore : simpl never.
#[global] Arguments mget : simpl never.
#[global] Arguments mset : simpl never.
#[global] Strategy 1000 [mfill mset mstore].

(** Running a computation step by step: [kgo] rewrites the first action of a
    sequence with the equation given. *)
Tactic Notation "kgo" uconstr(E) := erewrite bind_Ret; [| eapply E].
Tactic Notation "kstop" uconstr(E) := erewrite bind_Stop; [| eapply E].

(** The same for the actions whose equations need no thought: reading the
    state, updating it, accessing an array at an index known to be there. *)
Ltac kact :=
  first
    [ erewrite bind_Ret; [| reflexivity]
    | erewrite bind_Ret; [| solve [eauto with jos_run]]
    | erewrite bind_Stop; [| reflexivity] ];
  cbn beta.
Ltac kacts := repeat kact.

Create HintDb jos_run.
#[export] Hint Resolve page_info_eq page_update_eq env_get_eq env_update_eq : jos_run.

