(* ===== verification/KernelProps.v ===== *)
(** * KernelProps: printing from kernel code

    A [cprintf] whose format and arguments match changes the console and
    nothing else, so the theorems about the rest of the state can step over
    it. *)

From S2P Require Import Prelude Machine CString Printfmt Hardware Console PrintfProps Kernel.

Section Printing.

Lemma cprintf_ok fmt ap tr s :
  trace (cstr fmt) ap = Some tr -> exists c, cprintf fmt ap s = (Ret tt, set_con c s).
Proof.
  intros Htr. unfold cprintf, Console.cprintf, vcprintf.
  rewrite vprintfmt_replay, Htr. cbn [fmap option_fmap option_map mbind option_bind].
  rewrite replay_console. eauto.
Qed.

(** The arguments have the types the format asks for. *)
Lemma cprintf_matches fmt ap s : matches (cstr fmt) ap -> exists c, cprintf fmt ap s = (Ret tt, set_con c s).
Proof. intros Hm. destruct (vprintfmt_typed (cstr fmt) ap [] Hm) as [tr Htr]. by apply (cprintf_ok _ _ tr). Qed.

End Printing.

(** Steps over a [cprintf] at the head of a sequence; the console after it is [c]. *)
Ltac kprint c :=
  match goal with
  | |- context [(mbind _ (cprintf ?f ?a)) ?s] =>
      let H := fresh in
      destruct (cprintf_matches f a s) as [c H];
      [split; [vm_compute; reflexivity | repeat constructor] | rewrite (bind_Ret _ _ _ _ _ H); clear H]
  end.
