(* ===== verification/Spinlock.v ===== *)
(** * Spinlock: kern/spinlock.c

    The operations on the big kernel lock as one processor executes them
    ([spin_lock], [spin_unlock] in the monad [K]), and the lock as a shared
    object of all processors: a step relation that interleaves the atomic
    actions of the source ([holding], the [xchg] loop, the stores to
    [lk->cpu]), with mutual exclusion as an invariant of its reachable states.
    [get_caller_pcs] is the walk along the call stack; its result, which is only
    printed, is not stored in the lock. *)

From S2P Require Import Prelude Machine CString Printfmt Hardware Console Kernel.

(** ** The operations of one processor *)

Section Operations.

Definition holding (lk : spinlock) (cpu : Z) : bool :=
  negb (locked lk =? 0) && bool_decide (lk_cpu lk = Some cpu).

(** The return addresses of the callers, along the chain of frame pointers from [ebp] on; [n] is
    the number of entries left, filled with 0 after the end of the chain. *)
Fixpoint get_caller_pcs (n : nat) (ebp : Z) : K (list Z) :=
  match n with
  | O => mret []
  | S n' =>
      if (ebp =? 0) || (ebp <? ULIM) then mret (replicate n 0)
      else
        pc ← vload (u32 (ebp + 4));
        ebp' ← vload ebp;
        pcs ← get_caller_pcs n' ebp';
        mret (pc :: pcs)
  end.

Definition spin_initlock : K unit := modify (set_kernel_lock (mkSpinlock 0 None)).

(** [while (xchg(&lk->locked, 1) != 0)]: when the lock is taken this
    processor waits for another one to release it. *)
Definition spin_lock : K unit :=
  s ← get;
  if holding (kernel_lock s) (this_cpu s) then panic "CPU %d cannot acquire %s: already holding"
  else
    let old := locked (kernel_lock s) in
    modify (set_kernel_lock (mkSpinlock 1 (lk_cpu (kernel_lock s)))) ;;
    if negb (old =? 0) then halt SSpin
    else modify (set_kernel_lock (mkSpinlock 1 (Some (this_cpu s)))).

Definition spin_unlock : K unit :=
  s ← get;
  if negb (holding (kernel_lock s) (this_cpu s)) then
    c ← deref (lk_cpu (kernel_lock s));
    cprintf "CPU %d cannot release %s: held by CPU %d\nAcquired at:"
      [VInt (this_cpu s); VStr (Some (cstr "kernel_lock"));
       VInt (cpu_id (default cpu0 (cpus s !! c)))] ;;
    panic "spin_unlock"
  else modify (set_kernel_lock (mkSpinlock 0 None)).

Definition lock_kernel : K unit := spin_lock.
Definition unlock_kernel : K unit := spin_unlock.

End Operations.

(** ** The lock shared by the processors *)

(** Where a processor is in the code of the lock. *)
Inductive lpc :=
| LOut                (* not using the lock *)
| LTest               (* in spin_lock, before the loop *)
| LSpin               (* in the xchg loop *)
| LMark               (* has the lock, before lk->cpu = thiscpu *)
| LCrit               (* holds the lock *)
| LClear              (* in spin_unlock, after lk->cpu = 0, before the xchg *)
| LPanic.             (* panicked *)

#[export] Instance lpc_eq_dec : EqDecision lpc.
Proof. solve_decision. Defined.

Record lstate := mkLstate {
  l_lock : spinlock;
  l_pc : Z -> lpc;
}.

Definition goto (i : Z) (p : lpc) (pcs : Z -> lpc) : Z -> lpc :=
  fun j => if decide (j = i) then p else pcs j.

(** One atomic action of processor [i]. *)
Inductive lstep (i : Z) : lstate -> lstate -> Prop :=
| step_enter st :
    l_pc st i = LOut -> lstep i st (mkLstate (l_lock st) (goto i LTest (l_pc st)))
| step_test st :
    l_pc st i = LTest ->
    lstep i st (mkLstate (l_lock st)
      (goto i (if holding (l_lock st) i then LPanic else LSpin) (l_pc st)))
| step_xchg st :
    l_pc st i = LSpin ->
    lstep i st (mkLstate (mkSpinlock 1 (lk_cpu (l_lock st)))
      (goto i (if locked (l_lock st) =? 0 then LMark else LSpin) (l_pc st)))
| step_mark st :
    l_pc st i = LMark ->
    lstep i st (mkLstate (mkSpinlock (locked (l_lock st)) (Some i)) (goto i LCrit (l_pc st)))
| step_reenter st :
    l_pc st i = LCrit -> lstep i st (mkLstate (l_lock st) (goto i LTest (l_pc st)))
| step_unlock st :
    l_pc st i = LCrit ->
    lstep i st
      (if holding (l_lock st) i
       then mkLstate (mkSpinlock (locked (l_lock st)) None) (goto i LClear (l_pc st))
       else mkLstate (l_lock st) (goto i LPanic (l_pc st)))
| step_release st :
    l_pc st i = LClear ->
    lstep i st (mkLstate (mkSpinlock 0 (lk_cpu (l_lock st))) (goto i LOut (l_pc st))).

Definition linit : lstate := mkLstate (mkSpinlock 0 None) (fun _ => LOut).

Inductive lreach : lstate -> Prop :=
| lreach_init : lreach linit
| lreach_step i st st' : lreach st -> lstep i st st' -> lreach st'.

(** ** Mutual exclusion *)

Section Exclusion.

Definition outside (p : lpc) : Prop := p = LOut \/ p = LTest \/ p = LSpin.

(** The processor between a successful [xchg] and the releasing one. *)
Definition in_lock (p : lpc) : Prop := p = LMark \/ p = LCrit \/ p = LClear.

(** The lock is free, or processor [o] owns it. *)
Definition linv (o : option Z) (st : lstate) : Prop :=
  (forall i, o <> Some i -> outside (l_pc st i)) /\
  match o with
  | None => l_lock st = mkSpinlock 0 None
  | Some i =>
      (l_pc st i = LMark \/ l_pc st i = LClear) /\ l_lock st = mkSpinlock 1 None \/
      (l_pc st i = LCrit \/ l_pc st i = LTest \/ l_pc st i = LPanic) /\ l_lock st = mkSpinlock 1 (Some i)
  end.

Lemma goto_eq i p pcs : goto i p pcs i = p.
Proof. unfold goto. by rewrite decide_True. Qed.

Lemma goto_ne i j p pcs : j <> i -> goto i p pcs j = pcs j.
Proof. intros. unfold goto. by rewrite decide_False. Qed.

(** A processor that does not own the lock moves outside it, or takes it. *)
Lemma outside_step o i st lk p :
  linv o st -> o <> Some i -> outside p -> lk = l_lock st -> linv o (mkLstate lk (goto i p (l_pc st))).
Proof.
  intros [H1 H2] Hi Hp ->. split; simpl.
  - intros j Hj. destruct (decide (j = i)) as [->|]; [by rewrite goto_eq | rewrite goto_ne; auto].
  - destruct o as [j|]; [|done]. rewrite goto_ne by congruence. done.
Qed.

Lemma owner_step i st lk p :
  linv (Some i) st ->
  (p = LMark \/ p = LClear) /\ lk = mkSpinlock 1 None \/
  (p = LCrit \/ p = LTest \/ p = LPanic) /\ lk = mkSpinlock 1 (Some i) ->
  linv (Some i) (mkLstate lk (goto i p (l_pc st))).
Proof.
  intros [H1 H2] Hp. split; simpl; [|by rewrite goto_eq].
  intros j Hj. rewrite goto_ne by congruence. auto.
Qed.

Lemma not_holding o i st : linv o st -> o <> Some i -> holding (l_lock st) i = false.
Proof.
  intros [_ H] Hi. unfold holding. destruct o as [j|]; [|by rewrite H].
  destruct H as [[_ ->]|[_ ->]]; simpl; [done|].
  case_bool_decide as E; [congruence | done].
Qed.

Lemma linv_step o i st st' : linv o st -> lstep i st st' -> exists o', linv o' st'.
Proof.
  intros H Hs. destruct (decide (o = Some i)) as [->|Hi].
  - assert (Hpc := proj2 H). simpl in Hpc.
    destruct Hs as [st E|st E|st E|st E|st E|st E|st E]; rewrite E in Hpc; simpl in *;
      destruct Hpc as [[Hc Hl]|[Hc Hl]]; try naive_solver; rewrite ?Hl.
    + exists (Some i). apply owner_step; [done|]. right. unfold holding. simpl.
      rewrite bool_decide_true by done. auto.
    + exists (Some i). apply owner_step; auto.
    + exists (Some i). apply owner_step; auto.
    + exists (Some i). unfold holding. simpl. rewrite bool_decide_true by done. simpl.
      apply owner_step; auto.
    + exists None. split; [|done]. simpl. intros j _. destruct (decide (j = i)) as [->|].
      * rewrite goto_eq. by left.
      * rewrite goto_ne by done. apply (proj1 H). congruence.
  - assert (Ho := proj1 H _ Hi). unfold outside in Ho.
    destruct Hs as [st E|st E|st E|st E|st E|st E|st E]; rewrite E in Ho; try (by naive_solver).
    + exists o. apply outside_step; unfold outside; auto.
    + exists o. rewrite (not_holding _ _ _ H Hi). apply outside_step; unfold outside; auto.
    + destruct H as [H1 H2]. destruct o as [j|].
      * exists (Some j). assert (El : locked (l_lock st) = 1) by (by destruct H2 as [[_ ->]|[_ ->]]).
        rewrite El. apply outside_step; unfold outside; auto; [by split|].
        destruct H2 as [[_ ->]|[_ ->]]; done.
      * exists (Some i). rewrite H2. split; simpl.
        -- intros j Hj. rewrite goto_ne by congruence. auto.
        -- rewrite goto_eq. auto.
Qed.

Lemma lreach_inv st : lreach st -> exists o, linv o st.
Proof.
  induction 1 as [|i st st' _ [o Ho] Hs].
  - exists None. split; [|done]. intros i _. by left.
  - by eapply linv_step.
Qed.

End Exclusion.

(** Processor 0 holds the lock and processor 1 waits for it. *)
Section Example.

Definition ex_l1 : lstate := mkLstate (mkSpinlock 0 None) (goto 0 LTest (fun _ => LOut)).
Definition ex_l2 : lstate := mkLstate (mkSpinlock 0 None) (goto 0 LSpin (l_pc ex_l1)).
Definition ex_l3 : lstate := mkLstate (mkSpinlock 1 None) (goto 0 LMark (l_pc ex_l2)).
Definition ex_l4 : lstate := mkLstate (mkSpinlock 1 (Some 0)) (goto 0 LCrit (l_pc ex_l3)).
Definition ex_l5 : lstate := mkLstate (mkSpinlock 1 (Some 0)) (goto 1 LTest (l_pc ex_l4)).
Definition ex_l6 : lstate := mkLstate (mkSpinlock 1 (Some 0)) (goto 1 LSpin (l_pc ex_l5)).

Lemma ex_l6_reach : lreach ex_l6.
Proof.
  apply (lreach_step 1 ex_l5); [|exact (step_test 1 ex_l5 eq_refl)].
  apply (lreach_step 1 ex_l4); [|exact (step_enter 1 ex_l4 eq_refl)].
  apply (lreach_step 0 ex_l3); [|exact (step_mark 0 ex_l3 eq_refl)].
  apply (lreach_step 0 ex_l2); [|exact (step_xchg 0 ex_l2 eq_refl)].
  apply (lreach_step 0 ex_l1); [|exact (step_test 0 ex_l1 eq_refl)].
  apply (lreach_step 0 linit); [apply lreach_init | exact (step_enter 0 linit eq_refl)].
Qed.

End Example.

(** C9. Mutual exclusion of [spin_lock]: in no reachable state of any number
    of processors, under any interleaving of their atomic actions, are two
    of them between a successful [xchg] of [spin_lock] and the releasing
    [xchg] of [spin_unlock]. *)
Theorem spin_lock_mutual_exclusion st i j
  (Hr : lreach st) (Hi : in_lock (l_pc st i)) (Hj : in_lock (l_pc st j)) : i = j.
Proof.
  destruct (lreach_inv _ Hr) as (o & Ho & _).
  assert (Howner : forall k, in_lock (l_pc st k) -> o = Some k).
  { intros k Hk. destruct (decide (o = Some k)) as [|Hn]; [done|].
    destruct (Ho k Hn) as [E|[E|E]]; rewrite E in Hk; destruct Hk as [?|[?|?]]; done. }
  assert (E1 := Howner _ Hi). assert (E2 := Howner _ Hj). congruence.
Qed.

Lemma spin_lock_mutual_exclusion_witness :
  l_pc ex_l6 0 = LCrit /\ l_pc ex_l6 1 = LSpin /\ forall j, in_lock (l_pc ex_l6 j) -> j = 0.
Proof.
  split; [reflexivity|]. split; [reflexivity|].
  intros j Hj. apply (spin_lock_mutual_exclusion ex_l6 j 0 ex_l6_reach Hj). right; left. reflexivity.
Defined.

(** The debugging checks of the lock: in every reachable state a
    processor that is past [spin_lock] passes the test [holding] of
    [spin_unlock], so that releasing never panics; a processor that calls
    [spin_lock] again while it owns the lock panics instead of waiting for
    itself, and one that does not own it does not panic. *)
Theorem spin_lock_checks st i
  (Hr : lreach st) :
  (l_pc st i = LCrit -> holding (l_lock st) i = true) /\
  (forall st', l_pc st i = LTest -> lstep i st st' ->
     l_pc st' i = LPanic <-> lk_cpu (l_lock st) = Some i).
Proof.
  destruct (lreach_inv _ Hr) as (o & Ho). assert (Hout := proj1 Ho). assert (Hl := proj2 Ho).
  split.
  - intros E. destruct (decide (o = Some i)) as [->|Hn].
    + simpl in Hl. rewrite E in Hl. destruct Hl as [[? _]|[_ ->]]; [naive_solver|].
      unfold holding. simpl. by rewrite bool_decide_true.
    + destruct (Hout i Hn) as [E'|[E'|E']]; congruence.
  - intros st' E Hs. destruct Hs as [st E'|st E'|st E'|st E'|st E'|st E'|st E']; try congruence.
    cbn [l_pc]. rewrite goto_eq. destruct (decide (o = Some i)) as [->|Hn].
    + simpl in Hl. rewrite E in Hl. destruct Hl as [[? _]|[_ Hl]]; [naive_solver|].
      rewrite Hl. unfold holding. simpl. by rewrite bool_decide_true.
    + rewrite (not_holding _ _ _ Ho Hn). split; [done|]. intros Hc.
      destruct o as [j|]; [destruct Hl as [[_ Hl]|[_ Hl]]|]; rewrite Hl in Hc; simpl in Hc; congruence.
Qed.

Lemma spin_lock_checks_witness : l_pc ex_l6 0 = LCrit /\ holding (l_lock ex_l6) 0 = true.
Proof. split; [reflexivity | exact (proj1 (spin_lock_checks ex_l6 0 ex_l6_reach) eq_refl)]. Defined.

(** ** Progress *)

Section Progress.

Definition lany (st st' : lstate) : Prop := exists j, lstep j st st'.

(** A waiting processor takes a free lock in two steps. *)
Lemma take_free st i :
  l_pc st i = LSpin -> locked (l_lock st) = 0 -> exists st', rtc lany st st' /\ l_pc st' i = LCrit.
Proof.
  intros Hi Hl.
  pose proof (step_xchg i st Hi) as S1. rewrite Hl in S1. cbn [Z.eqb] in S1.
  eexists. split.
  - eapply rtc_l; [by exists i|]. eapply rtc_l; [|apply rtc_refl]. exists i. apply step_mark.
    cbn [l_pc]. apply goto_eq.
  - cbn [l_pc]. apply goto_eq.
Qed.

Lemma after_clear st i j :
  i <> j -> l_pc st i = LSpin -> l_pc st j = LClear -> exists st', rtc lany st st' /\ l_pc st' i = LCrit.
Proof.
  intros Hne Hi Hj.
  destruct (take_free (mkLstate (mkSpinlock 0 (lk_cpu (l_lock st))) (goto j LOut (l_pc st))) i) as (st' & H1 & H2);
    [cbn [l_pc]; by rewrite goto_ne | done |].
  exists st'. split; [|done]. eapply rtc_l; [|exact H1]. exists j. by apply step_release.
Qed.

Lemma after_crit st i j :
  i <> j -> l_pc st i = LSpin -> l_pc st j = LCrit -> holding (l_lock st) j = true ->
  exists st', rtc lany st st' /\ l_pc st' i = LCrit.
Proof.
  intros Hne Hi Hj Hh. pose proof (step_unlock j st Hj) as S1. rewrite Hh in S1.
  destruct (after_clear (mkLstate (mkSpinlock (locked (l_lock st)) None) (goto j LClear (l_pc st))) i j) as (st' & H1 & H2);
    [done | cbn [l_pc]; by rewrite goto_ne | cbn [l_pc]; apply goto_eq |].
  exists st'. split; [|done]. eapply rtc_l; [by exists j | exact H1].
Qed.

End Progress.

(** C37. A processor that waits for the lock can get it: from every reachable state in which the
    recorded holder, if there is one, is still inside its critical section (and has not stopped
    in a failed check), some sequence of steps of the holder and of the waiting processor leads
    to a state in which the waiting one holds the lock. *)
Theorem spin_lock_progress st i
  (Hr : lreach st) (Hi : l_pc st i = LSpin)
  (Hlive : forall j, lk_cpu (l_lock st) = Some j -> l_pc st j = LCrit) :
  exists st', rtc lany st st' /\ l_pc st' i = LCrit.
Proof.
  destruct (lreach_inv _ Hr) as (o & _ & Ho). destruct o as [j|]; [|by apply take_free; rewrite ?Ho].
  assert (Hne : i <> j) by (intros <-; rewrite Hi in Ho; naive_solver).
  destruct Ho as [[[Hj|Hj] Hl]|[_ Hl]].
  - pose proof (step_mark j st Hj) as S1.
    destruct (after_crit (mkLstate (mkSpinlock (locked (l_lock st)) (Some j)) (goto j LCrit (l_pc st))) i j) as (st' & H1 & H2).
    + done.
    + cbn [l_pc]. by rewrite goto_ne.
    + cbn [l_pc]. apply goto_eq.
    + rewrite Hl. unfold holding. simpl. by rewrite bool_decide_true.
    + exists st'. split; [|done]. eapply rtc_l; [by exists j | exact H1].
  - by apply (after_clear st i j).
  - apply (after_crit st i j); [done..| |].
    + apply Hlive. by rewrite Hl.
    + rewrite Hl. unfold holding. simpl. by rewrite bool_decide_true.
Qed.

Lemma spin_lock_progress_witness : exists st', rtc lany ex_l6 st' /\ l_pc st' 1 = LCrit.
Proof.
  apply (spin_lock_progress ex_l6 1 ex_l6_reach eq_refl). intros j [= <-]. reflexivity.
Defined.
