(* ===== verification/Pmap.v ===== *)
(** * Pmap: the operations of kern/pmap.c and kern/pmap.h

    Physical pages ([boot_alloc], [page_init], [page_alloc], [page_free],
    [page_decref]), the two-level page tables ([pgdir_walk],
    [boot_map_region], [page_insert], [page_lookup], [page_remove]),
    [mmio_map_region], [user_mem_check].  A kernel pointer is its 32-bit
    virtual address, a [struct PageInfo *] is [option Z].  [mem_init] is in
    MemInit.v; the theorems are in AllocProps.v, PtProps.v and BootMap.v. *)

From S2P Require Import Prelude Machine CString Printfmt Hardware Console Kernel.

(** ** kern/pmap.h *)

Section PmapH.

Definition ALLOC_ZERO : Z := 1.

Definition PADDR (kva : Z) : K Z :=
  if u32 kva <? KERNBASE then panic "PADDR called with invalid kva" else mret (u32 kva - KERNBASE).

Definition KADDR (pa : Z) : K Z :=
  s ← get;
  if npages s <=? PGNUM pa then panic "KADDR called with invalid pa" else mret (u32 (pa + KERNBASE)).

Definition page2pa (pp : Z) : Z := u32 (Z.shiftl pp PGSHIFT).

Definition pa2page (pa : Z) : K Z :=
  s ← get;
  if npages s <=? PGNUM pa then panic "pa2page called with invalid pa" else mret (PGNUM pa).

Definition page2kva (pp : Z) : K Z := KADDR (page2pa pp).

End PmapH.

(** ** Detecting memory *)

Section DetectMemory.

Definition MC_NVRAM_START : Z := 0xe.
Definition NVRAM_BASELO : Z := MC_NVRAM_START + 7.
Definition NVRAM_EXTLO : Z := MC_NVRAM_START + 9.

Definition nvram_read (r : Z) : K Z :=
  lo ← with_io (mc146818_read r);
  hi ← with_io (mc146818_read (r + 1));
  mret (Z.lor lo (Z.shiftl hi 8)).

Definition i386_detect_memory : K unit :=
  base ← nvram_read NVRAM_BASELO;
  modify (set_npages_basemem (base * 1024 / PGSIZE)) ;;
  ext ← nvram_read NVRAM_EXTLO;
  let npages_extmem := ext * 1024 / PGSIZE in
  s ← get;
  modify (set_npages (if negb (npages_extmem =? 0) then EXTPHYSMEM / PGSIZE + npages_extmem
                      else npages_basemem s)) ;;
  s ← get;
  cprintf "Physical memory: %uK available, base = %uK, extended = %uK\n"
    [VInt (u32 (npages s * PGSIZE) / 1024); VInt (npages_basemem s * PGSIZE / 1024);
     VInt (npages_extmem * PGSIZE / 1024)].

End DetectMemory.

(** ** Physical pages *)

Section PhysicalPages.

(** [end_] is the linker symbol [end]. *)
Context (end_ : Z).

Definition boot_alloc (n : Z) : K Z :=
  s ← get;
  when (nextfree s =? 0) (modify (set_nextfree (ROUNDUP end_ PGSIZE))) ;;
  s ← get;
  if 0 <? n then
    let result := nextfree s in
    modify (set_nextfree (ROUNDUP (u32 (nextfree s + n)) PGSIZE)) ;;
    mret result
  else if n =? 0 then mret (nextfree s)
  else mret 0.

(** One iteration of the loops of [page_init]: put page [i] on the list. *)
Definition page_init_one (i : Z) : K unit :=
  page_update i (set_pp_ref 0) ;;
  s ← get;
  page_update i (set_pp_link (page_free_list s)) ;;
  modify (set_page_free_list (Some i)).

Definition page_init : K unit :=
  let low := PGNUM IOPHYSMEM in
  a ← boot_alloc 0;
  pa ← PADDR a;
  let up := PGNUM pa in
  let mpentry := PGNUM MPENTRY_PADDR in
  for_each (seqZ 1 (low - 1)) (fun i => if i =? mpentry then skip else page_init_one i) ;;
  s ← get;
  for_each (seqZ 700 (npages s - 700)) page_init_one.

Definition page_alloc (alloc_flags : Z) : K (option Z) :=
  s ← get;
  match page_free_list s with
  | None => mret None
  | Some p =>
      pi ← page_info p;
      modify (set_page_free_list (pp_link pi)) ;;
      when (test alloc_flags ALLOC_ZERO)
        (q ← page2kva p; kmemset q 0 PGSIZE) ;;
      mret (Some p)
  end.

Definition page_free (pp : Z) : K unit :=
  pi ← page_info pp;
  if pp_ref pi =? 0 then
    s ← get;
    page_update pp (set_pp_link (page_free_list s)) ;;
    modify (set_page_free_list (Some pp))
  else skip.

Definition page_decref (pp : Z) : K unit :=
  pi ← page_info pp;
  let r := u16 (pp_ref pi - 1) in
  page_update pp (set_pp_ref r) ;;
  when (r =? 0) (page_free pp).

End PhysicalPages.

(** ** Page tables *)

Section PageTables.

(** The result is the address of the entry, 0 for NULL. *)
Definition pgdir_walk (pgdir va create : Z) : K Z :=
  let pde := u32 (pgdir + 4 * PDX va) in
  d ← kload pde;
  if test d PTE_P then
    pgtab ← KADDR (PTE_ADDR d);
    mret (u32 (pgtab + 4 * PTX va))
  else if create =? 0 then mret 0
  else
    temp ← page_alloc ALLOC_ZERO;
    match temp with
    | Some temp =>
        page_update temp (set_pp_ref 1) ;;
        pgtab ← page2kva temp;
        kstore pde (Z.lor (Z.lor (Z.lor (page2pa temp) PTE_P) PTE_U) PTE_W) ;;
        mret (u32 (pgtab + 4 * PTX va))
    | None => mret 0
    end.

(** The loop of [boot_map_region]: [n] iterations from [va] and [pa] on.  The
    counter of the source does not wrap for sizes up to 0xFFFFF000. *)
Fixpoint boot_map_loop (n : nat) (pgdir va pa perm : Z) : K unit :=
  match n with
  | O => skip
  | S n' =>
      pte ← pgdir_walk pgdir va 1;
      kstore pte (u32 (Z.lor (Z.lor pa perm) PTE_P)) ;;
      boot_map_loop n' pgdir (u32 (va + PGSIZE)) (u32 (pa + PGSIZE)) perm
  end.

Definition boot_map_region (pgdir va size pa perm : Z) : K unit :=
  boot_map_loop (Z.to_nat ((size + PGSIZE - 1) / PGSIZE)) pgdir va pa perm.

(** [page_lookup]: the page and, for [*pte_store], the address of the entry
    (0 when it is not stored). *)
Definition page_lookup (pgdir va : Z) : K (option Z * Z) :=
  temp ← pgdir_walk pgdir va 0;
  if temp =? 0 then mret (None, 0)
  else
    d ← kload temp;
    if test d PTE_P then
      pp ← pa2page (PTE_ADDR d);
      mret (Some pp, temp)
    else mret (None, temp).

Definition tlb_invalidate (pgdir va : Z) : K unit :=
  s ← get;
  match curenv s with
  | None => invlpg va
  | Some e =>
      v ← env_get e;
      when (env_pgdir v =? pgdir) (invlpg va)
  end.

Definition page_remove (pgdir va : Z) : K unit :=
  '(temp, pte) ← page_lookup pgdir va;
  match temp with
  | None => skip
  | Some pp =>
      page_decref pp ;;
      tlb_invalidate pgdir va ;;
      kstore pte 0
  end.

Definition page_insert (pgdir pp va perm : Z) : K Z :=
  pte ← pgdir_walk pgdir va 1;
  if pte =? 0 then mret (- E_NO_MEM)
  else
    d ← kload pte;
    when (test d PTE_P)
      (if PTE_ADDR d =? page2pa pp then
         page_update pp (fun i => set_pp_ref (u16 (pp_ref i - 1)) i) ;;
         tlb_invalidate pgdir va
       else page_remove pgdir va) ;;
    page_update pp (fun i => set_pp_ref (u16 (pp_ref i + 1)) i) ;;
    kstore pte (u32 (Z.lor (Z.lor (page2pa pp) perm) PTE_P)) ;;
    mret 0.

Definition mmio_map_region (pa size : Z) : K Z :=
  s ← get;
  let perm := Z.lor (Z.lor (Z.lor PTE_PCD PTE_PWT) PTE_W) PTE_P in
  boot_map_region (kern_pgdir s) (mmio_base s) size pa perm ;;
  modify (fun s => set_mmio_base (ROUNDUP (u32 (mmio_base s + size)) PGSIZE) s) ;;
  s ← get;
  cprintf "shuzi%x base %x\n" [VInt (MMIOLIM - MMIOBASE); VInt (mmio_base s)] ;;
  mret (mmio_base s).

End PageTables.

(** ** Checking user memory *)

Section UserMemCheck.

(** The loop of [user_mem_check] from [start]. *)
Fixpoint user_mem_check_loop (fuel : nat) (env start end_ perm : Z) : K Z :=
  match fuel with
  | O => halt SDiverge
  | S fuel' =>
      if negb (start <? end_) then mret 0
      else if ULIM <=? start then
        modify (set_user_mem_check_addr start) ;; mret (- E_FAULT)
      else
        v ← env_get env;
        pte ← pgdir_walk (env_pgdir v) start 0;
        bad ← (if pte =? 0 then mret true
               else d ← kload pte; mret (negb (Z.land d perm =? perm)));
        if (bad : bool) then
          modify (set_user_mem_check_addr start) ;; mret (- E_FAULT)
        else
          user_mem_check_loop fuel' env (u32 (ROUNDDOWN start PGSIZE + PGSIZE)) end_ perm
  end.

Definition user_mem_check (env va len perm : Z) : K Z :=
  let start := u32 va in
  let end_ := u32 (start + len) in
  let perm := u32 (Z.lor (Z.lor perm PTE_U) PTE_P) in
  user_mem_check_loop (Z.to_nat (len / PGSIZE) + 3) env start end_ perm.

End UserMemCheck.
