(* ===== verification/PageAlloc.v ===== *)
(** * PageAlloc: correctness of the physical page allocator

    The free list is a linked list through the [pp_link] fields of the array
    [pages].  [alloc_wf s l] says that it represents the list [l] of page
    numbers; [page_alloc] and [page_free] are pop and push on [l], and
    [page_init] builds the list of the pages it means to be free. *)

From S2P Require Import Prelude Machine CString Printfmt Hardware Console Kernel Pmap.

(** ** Representation *)

Fixpoint free_chain (pgs : gmap Z PageInfo) (hd : option Z) (l : list Z) : Prop :=
  match l with
  | [] => hd = None
  | p :: l' => hd = Some p /\ exists pi, pgs !! p = Some pi /\ free_chain pgs (pp_link pi) l'
  end.

Record alloc_wf (s : kstate) (l : list Z) : Prop := mkAllocWf {
  aw_npages : 0 <= npages s <= 65536;
  aw_dom : forall p, is_Some (pages s !! p) <-> 0 <= p < npages s;
  aw_chain : free_chain (pages s) (page_free_list s) l;
  aw_ref : forall p pi, p ∈ l -> pages s !! p = Some pi -> pp_ref pi = 0;
}.

(** The abstract allocator: a stack of page numbers. *)
Definition spec_alloc (l : list Z) : option Z * list Z :=
  match l with [] => (None, []) | p :: l' => (Some p, l') end.
Definition spec_free (p : Z) (l : list Z) : list Z := p :: l.

(** The state after [page_alloc] took page [p]. *)
Definition link_of (s : kstate) (p : Z) : option Z := pages s !! p ≫= pp_link.
Definition zero_page (p : Z) (m : gmap Z (gmap Z Z)) : gmap Z (gmap Z Z) :=
  mfill (Z.to_nat 1024) (4096 * p) 0 m.
Definition take_page (fl p : Z) (s : kstate) : kstate :=
  let s1 := set_page_free_list (link_of s p) s in
  if test fl ALLOC_ZERO then set_mem (zero_page p (mem s1)) s1 else s1.

(** The state after page [p] went back on the list. *)
Definition give_page (p : Z) (s : kstate) : kstate :=
  let pi := default (mkPageInfo None 0) (pages s !! p) in
  set_page_free_list (Some p)
    (set_pages (<[p := set_pp_link (page_free_list s) pi]> (pages s)) s).

Section Chains.

Lemma free_chain_det pgs hd l l' : free_chain pgs hd l -> free_chain pgs hd l' -> l = l'.
Proof.
  revert hd l'. induction l as [|p l IH]; intros hd [|p' l'] H H'; cbn [free_chain] in *.
  - done.
  - destruct H' as [? _]. congruence.
  - destruct H as [? _]. congruence.
  - destruct H as [-> (pi & Hp & Hc)], H' as [[= <-] (pi' & Hp' & Hc')].
    simplify_eq. f_equal. eauto.
Qed.

Lemma free_chain_suffix pgs hd l1 p l2 :
  free_chain pgs hd (l1 ++ p :: l2) -> free_chain pgs (Some p) (p :: l2).
Proof.
  revert hd. induction l1 as [|q l1 IH]; simpl; intros hd.
  - naive_solver.
  - intros [_ (pi & _ & Hc)]. by eapply IH.
Qed.

(** A list that ends has no cycle. *)
Lemma free_chain_NoDup pgs hd l : free_chain pgs hd l -> NoDup l.
Proof.
  revert hd. induction l as [|p l IH]; intros hd; [constructor|].
  intros Hc. assert (Hc' := Hc). destruct Hc' as [-> (pi & Hp & Hl)].
  constructor; [|by eapply IH].
  intros Hin. apply list_elem_of_split in Hin as (l1 & l2 & ->).
  assert (Hs := free_chain_suffix pgs (Some p) (p :: l1) p l2 Hc).
  assert (E := free_chain_det _ _ _ _ Hc Hs).
  injection E as E. apply (f_equal length) in E. rewrite length_app in E. simpl in E. lia.
Qed.

Lemma free_chain_insert pgs hd l p pi :
  p ∉ l -> free_chain pgs hd l -> free_chain (<[p := pi]> pgs) hd l.
Proof.
  revert hd. induction l as [|q l IH]; intros hd Hp; simpl; [done|].
  intros [-> (qi & Hq & Hc)]. split; [done|]. exists qi.
  rewrite lookup_insert_ne by set_solver. split; [done|]. apply IH; set_solver.
Qed.

(** Changing a page descriptor but not its link. *)
Lemma free_chain_ref pgs hd l p pi r :
  pgs !! p = Some pi -> free_chain pgs hd l -> free_chain (<[p := set_pp_ref r pi]> pgs) hd l.
Proof.
  intros Hp. revert hd. induction l as [|q l IH]; intros hd; simpl; [done|].
  intros [-> (qi & Hq & Hc)]. split; [done|].
  destruct (decide (p = q)) as [<-|].
  - rewrite lookup_insert_eq. simplify_eq. eexists; split; [done|]. simpl. auto.
  - rewrite lookup_insert_ne by done. eauto.
Qed.

End Chains.

Section AllocWf.

Lemma alloc_wf_NoDup s l : alloc_wf s l -> NoDup l.
Proof. intros []. by eapply free_chain_NoDup. Qed.

Lemma alloc_wf_in s l p : alloc_wf s l -> p ∈ l -> exists pi, pages s !! p = Some pi /\ pp_ref pi = 0.
Proof.
  intros W Hp. assert (Hc := aw_chain _ _ W).
  apply list_elem_of_split in Hp as (l1 & l2 & E). assert (Hin : p ∈ l) by (subst; set_solver).
  rewrite E in Hc. apply free_chain_suffix in Hc as [_ (pi & Hpi & _)].
  exists pi. split; [done|]. eapply aw_ref; eauto.
Qed.

Lemma alloc_wf_range s l p : alloc_wf s l -> p ∈ l -> 0 <= p < npages s.
Proof.
  intros W Hp. destruct (alloc_wf_in _ _ _ W Hp) as (pi & Hpi & _).
  apply (aw_dom _ _ W). eauto.
Qed.

Lemma alloc_wf_page s l p : alloc_wf s l -> 0 <= p < npages s -> exists pi, pages s !! p = Some pi.
Proof. intros W Hp. by apply (aw_dom _ _ W) in Hp as [pi ?]; eauto. Qed.

(** The representation only looks at three fields of the state. *)
Lemma alloc_wf_frame s s' l :
  alloc_wf s l -> npages s' = npages s -> pages s' = pages s ->
  page_free_list s' = page_free_list s -> alloc_wf s' l.
Proof. intros [H1 H2 H3 H4] E1 E2 E3. constructor; by rewrite ?E1, ?E2, ?E3. Qed.

(** Changing the reference count of an allocated page. *)
Lemma alloc_wf_set_ref s l p pi r :
  alloc_wf s l -> p ∉ l -> pages s !! p = Some pi ->
  alloc_wf (set_pages (<[p := set_pp_ref r pi]> (pages s)) s) l.
Proof.
  intros W Hp Hpi. destruct W as [H1 H2 H3 H4]. constructor; simpl; [done| | |].
  - intros q. rewrite <- H2. rewrite lookup_insert. case_decide; naive_solver.
  - by apply free_chain_ref.
  - intros q qi Hq. rewrite lookup_insert_ne by (intros ->; done). eauto.
Qed.

End AllocWf.

(** ** Addresses of pages *)

Section PageAddresses.

Lemma page2pa_eq p : 0 <= p < 65536 -> page2pa p = 4096 * p.
Proof.
  intros. unfold page2pa, PGSHIFT. rewrite Z.shiftl_mul_pow2, u32_small by lia. lia.
Qed.

Lemma KADDR_eq s p o :
  0 <= p < npages s -> npages s <= 65536 -> 0 <= o < 4096 ->
  KADDR (4096 * p + o) s = (Ret (4096 * p + o + KERNBASE), s).
Proof.
  intros Hp Hn Ho. unfold KADDR, mbind, K_bind, get. rewrite PGNUM_div.
  destruct (Z.leb_spec (npages s) ((4096 * p + o) / 4096)).
  - exfalso. revert H. zdm.
  - unfold KERNBASE. rewrite u32_small by lia. done.
Qed.

Lemma KADDR_page s p :
  0 <= p < npages s -> npages s <= 65536 -> KADDR (4096 * p) s = (Ret (4096 * p + KERNBASE), s).
Proof. intros. rewrite <- (Z.add_0_r (4096 * p)). rewrite KADDR_eq by lia. done. Qed.

Lemma page2kva_eq s p :
  0 <= p < npages s -> npages s <= 65536 -> page2kva p s = (Ret (4096 * p + KERNBASE), s).
Proof. intros. unfold page2kva. rewrite page2pa_eq by lia. by apply KADDR_page. Qed.

Lemma pa2page_eq s p :
  0 <= p < npages s -> pa2page (4096 * p) s = (Ret p, s).
Proof.
  intros. unfold pa2page, mbind, K_bind, get. rewrite PGNUM_div.
  replace (4096 * p / 4096) with p by zdm.
  destruct (Z.leb_spec (npages s) p); [lia | done].
Qed.

End PageAddresses.

Lemma mget_zero_page p m f k :
  mget (zero_page p m) f k = if decide (f = p /\ 0 <= k < 1024) then 0 else mget m f k.
Proof.
  unfold zero_page. replace (4096 * p) with (4096 * p + 4 * 0) by lia.
  rewrite mget_mfill by lia. repeat case_decide; try lia; done.
Qed.

(** ** The operations as equations *)

Section AllocEquations.

Lemma page_alloc_nil s fl : alloc_wf s [] -> page_alloc fl s = (Ret None, s).
Proof. intros W. unfold page_alloc, mbind, K_bind, get. by rewrite (aw_chain _ _ W). Qed.

Lemma page_alloc_cons s fl p l :
  alloc_wf s (p :: l) -> page_alloc fl s = (Ret (Some p), take_page fl p s).
Proof.
  intros W. assert (Hr := alloc_wf_range _ _ p W ltac:(set_solver)).
  assert (Hn := aw_npages _ _ W).
  destruct (aw_chain _ _ W) as [Hh (pi & Hpi & _)].
  unfold page_alloc, take_page, link_of, page_info, modify, when.
  unfold mbind, K_bind, get. rewrite Hh, Hpi. simpl.
  destruct (test fl ALLOC_ZERO); [|done].
  rewrite page2kva_eq by (simpl; lia). unfold kmemset.
  destruct (Z.leb_spec KERNBASE (4096 * p + KERNBASE)); [|lia].
  unfold zero_page. replace (4096 * p + KERNBASE - KERNBASE) with (4096 * p) by lia. done.
Qed.

Lemma take_page_wf s fl p l : alloc_wf s (p :: l) -> alloc_wf (take_page fl p s) l.
Proof.
  intros W. destruct (aw_chain _ _ W) as [Hh (pi & Hpi & Hc)].
  assert (W1 : alloc_wf (set_page_free_list (link_of s p) s) l).
  { destruct W as [H1 H2 H3 H4]. constructor; simpl; [done|done| |].
    - unfold link_of. by rewrite Hpi.
    - intros q qi Hq. apply H4. set_solver. }
  unfold take_page. destruct (test fl ALLOC_ZERO); [|done].
  by eapply alloc_wf_frame.
Qed.

Lemma page_free_nonzero s p pi :
  pages s !! p = Some pi -> pp_ref pi <> 0 -> page_free p s = (Ret tt, s).
Proof.
  intros Hp Hr. unfold page_free. kgo (page_info_eq _ _ _ Hp).
  by destruct (Z.eqb_spec (pp_ref pi) 0).
Qed.

Lemma page_free_zero s p pi :
  pages s !! p = Some pi -> pp_ref pi = 0 -> page_free p s = (Ret tt, give_page p s).
Proof.
  intros Hp Hr. unfold page_free, give_page. kgo (page_info_eq _ _ _ Hp).
  rewrite Hr, Hp. simpl. kgo get_eq. kgo (page_update_eq _ _ _ _ Hp). done.
Qed.

Lemma give_page_wf s p l pi :
  alloc_wf s l -> pages s !! p = Some pi -> pp_ref pi = 0 -> p ∉ l ->
  alloc_wf (give_page p s) (p :: l).
Proof.
  intros [H1 H2 H3 H4] Hp Hr Hl. unfold give_page. rewrite Hp. simpl.
  constructor; simpl; [done| | |].
  - intros q. rewrite <- H2, lookup_insert. case_decide; naive_solver.
  - split; [done|]. eexists. rewrite lookup_insert_eq. split; [done|]. simpl.
    by apply free_chain_insert.
  - intros q qi [->|Hq]%elem_of_cons.
    + rewrite lookup_insert_eq. intros [= <-]. done.
    + rewrite lookup_insert_ne by (intros ->; done). eauto.
Qed.

(** [page_decref]: the decremented state, with the page freed at 0. *)
Definition dec_page (p : Z) (s : kstate) : kstate :=
  let pi := default (mkPageInfo None 0) (pages s !! p) in
  let r := u16 (pp_ref pi - 1) in
  let s1 := set_pages (<[p := set_pp_ref r pi]> (pages s)) s in
  if r =? 0 then give_page p s1 else s1.

Lemma page_decref_eq s p pi :
  pages s !! p = Some pi -> page_decref p s = (Ret tt, dec_page p s).
Proof.
  intros Hp. unfold page_decref, dec_page, when. rewrite Hp. simpl.
  kgo (page_info_eq _ _ _ Hp). kgo (page_update_eq _ _ _ _ Hp).
  destruct (Z.eqb_spec (u16 (pp_ref pi - 1)) 0) as [E|]; [|done].
  eapply page_free_zero; simpl; [by rewrite lookup_insert_eq | done].
Qed.

(** The free list after [page_decref] of an allocated page. *)
Lemma dec_page_wf s p l pi :
  alloc_wf s l -> p ∉ l -> pages s !! p = Some pi -> 0 < pp_ref pi < 2 ^ 16 ->
  alloc_wf (dec_page p s) (if pp_ref pi =? 1 then p :: l else l).
Proof.
  intros W Hl Hp Hr. unfold dec_page. rewrite Hp; simpl. rewrite u16_small by lia.
  assert (W1 := alloc_wf_set_ref _ _ _ _ (pp_ref pi - 1) W Hl Hp).
  destruct (Z.eqb_spec (pp_ref pi - 1) 0), (Z.eqb_spec (pp_ref pi) 1); try lia; [|done].
  eapply give_page_wf; [done | simpl; by rewrite lookup_insert_eq | simpl; lia | done].
Qed.

End AllocEquations.

#[global] Opaque zero_page.

#[export] Hint Resolve take_page_wf : jos.

(** ** page_init *)

Section PageInit.

Definition init_page (i : Z) (s : kstate) : kstate :=
  set_page_free_list (Some i) (set_pages (<[i := mkPageInfo (page_free_list s) 0]> (pages s)) s).

Lemma page_init_one_eq s i pi :
  pages s !! i = Some pi -> page_init_one i s = (Ret tt, init_page i s).
Proof.
  intros Hi. unfold page_init_one, init_page. kgo (page_update_eq _ _ _ _ Hi). kgo get_eq.
  erewrite bind_Ret; [| eapply page_update_eq; simpl; apply lookup_insert_eq].
  unfold modify; simpl. by rewrite insert_insert_eq.
Qed.

Lemma init_page_wf s l i :
  alloc_wf s l -> 0 <= i < npages s -> i ∉ l -> alloc_wf (init_page i s) (i :: l).
Proof.
  intros W Hi Hl. destruct (alloc_wf_page _ _ _ W Hi) as [pi Hpi].
  assert (W1 := alloc_wf_set_ref _ _ _ _ 0 W Hl Hpi).
  eapply (give_page_wf _ i) in W1; [| simpl; by rewrite lookup_insert_eq | done | done].
  eapply alloc_wf_frame; [exact W1 | done | | done].
  unfold give_page; simpl. rewrite lookup_insert_eq; simpl. by rewrite insert_insert_eq.
Qed.

(** The loops of [page_init] push their pages one after the other. *)
Lemma page_init_loop L s l :
  alloc_wf s l -> (forall i, i ∈ L -> 0 <= i < npages s /\ i ∉ l) -> NoDup L ->
  exists pgs hd, let s' := set_page_free_list hd (set_pages pgs s) in
    for_each L page_init_one s = (Ret tt, s') /\ alloc_wf s' (rev L ++ l).
Proof.
  revert s l. induction L as [|i L IH]; intros s l W HL Hd.
  - exists (pages s), (page_free_list s). destruct s; split; [done | exact W].
  - destruct (HL i ltac:(set_solver)) as [Hi Hl].
    destruct (alloc_wf_page _ _ _ W Hi) as [pi Hpi]. apply NoDup_cons in Hd as [Hd1 Hd2].
    destruct (IH (init_page i s) (i :: l)) as (pgs & hd & Hrun & HW).
    + by apply init_page_wf.
    + intros j Hj. simpl. destruct (HL j ltac:(set_solver)). set_solver.
    + done.
    + exists pgs, hd. cbn [for_each]. kgo (page_init_one_eq _ _ _ Hpi). rewrite Hrun.
      split; [done|]. simpl. rewrite <- app_assoc. exact HW.
Qed.

Lemma for_each_filter (q : Z) L body s :
  for_each L (fun i => if i =? q then skip else body i) s
  = for_each (filter (fun i => i <> q) L) body s.
Proof.
  revert s. induction L as [|i L IH]; intros s; [done|].
  cbn [for_each]. rewrite filter_cons. destruct (Z.eqb_spec i q), (decide (i <> q)); try done.
  - unfold mbind, K_bind. cbn [skip mret K_ret]. apply IH.
  - cbn [for_each]. unfold mbind, K_bind. destruct (body i s) as [[?|] ?]; [apply IH | done].
Qed.

Lemma boot_alloc_0 end_ s : nextfree s <> 0 -> boot_alloc end_ 0 s = (Ret (nextfree s), s).
Proof.
  intros. unfold boot_alloc, when. kgo get_eq. destruct (Z.eqb_spec (nextfree s) 0); done.
Qed.

Lemma PADDR_eq s a : KERNBASE <= a < 2 ^ 32 -> PADDR a s = (Ret (a - KERNBASE), s).
Proof.
  unfold KERNBASE. intros. unfold PADDR. rewrite u32_small by lia. unfold KERNBASE.
  destruct (Z.ltb_spec a 0xF0000000); [lia | done].
Qed.

(** The page numbers [page_init] frees, in the order it pushes them. *)
Definition init_pages (np : Z) : list Z :=
  filter (fun i => i <> 7) (seqZ 1 159) ++ seqZ 700 (np - 700).

Lemma init_pages_NoDup np : NoDup (init_pages np).
Proof.
  apply NoDup_app. split_and!.
  - apply NoDup_filter, NoDup_seqZ.
  - intros x [_ H1]%list_elem_of_filter H2. apply elem_of_seqZ in H1, H2. lia.
  - apply NoDup_seqZ.
Qed.

Lemma init_pages_elem np i :
  i ∈ init_pages np <-> 1 <= i < 160 /\ i <> 7 \/ 700 <= i < np.
Proof.
  unfold init_pages. rewrite elem_of_app, list_elem_of_filter, !elem_of_seqZ. lia.
Qed.

Lemma page_init_eq end_ s :
  160 <= npages s <= 65536 -> (forall p, is_Some (pages s !! p) <-> 0 <= p < npages s) ->
  page_free_list s = None -> KERNBASE <= nextfree s < 2 ^ 32 ->
  exists pgs hd, let s' := set_page_free_list hd (set_pages pgs s) in
    page_init end_ s = (Ret tt, s') /\ alloc_wf s' (rev (init_pages (npages s))).
Proof.
  intros Hn Hdom Hfl Hnf.
  assert (W : alloc_wf s []) by (constructor; [lia | done | done | set_solver]).
  destruct (page_init_loop (init_pages (npages s)) s [] W) as (pgs & hd & Hrun & HW).
  - intros i Hi%init_pages_elem. split; [lia | apply not_elem_of_nil].
  - apply init_pages_NoDup.
  - exists pgs, hd. rewrite app_nil_r in HW. split; [|done].
    unfold page_init. kgo boot_alloc_0; [|unfold KERNBASE in *; lia].
    kgo PADDR_eq; [|done]. rewrite <- Hrun. unfold init_pages. rewrite for_each_app.
    unfold mbind, K_bind. rewrite for_each_filter.
    change (PGNUM MPENTRY_PADDR) with 7. change (PGNUM IOPHYSMEM - 1) with 159.
    destruct (page_init_loop (filter (fun i => i <> 7) (seqZ 1 159)) s [] W)
      as (pgs1 & hd1 & Hrun1 & _).
    + intros i [_ Hi]%list_elem_of_filter. apply elem_of_seqZ in Hi. split; [lia | apply not_elem_of_nil].
    + apply NoDup_filter, NoDup_seqZ.
    + by rewrite Hrun1.
Qed.

End PageInit.
