(* ===== verification/PageTable.v ===== *)
(** * PageTable: address spaces as finite maps

    The abstract address space behind a page directory is a finite map from
    virtual page numbers to a physical page and its flags.  [aspace] relates
    a state of the kernel to such a map [A], to the map [T] from directory
    indices to page-table pages, to the free list [l] and to the references
    [ext] that other parts of the kernel hold.  The lemmas of this file run
    the operations of kern/pmap.c on such states. *)

From S2P Require Import Prelude Machine CString Printfmt Hardware Console Kernel Pmap PageAlloc.

(** ** The relation *)

(** [tables_wf D s pgdir pd T]: the directory at [pgdir] is page [pd], and for
    the directory indices in [D] the present entries are those of [T]. *)
Record tables_wf (D : Z -> Prop) (s : kstate) (pgdir pd : Z) (T : gmap Z Z) : Prop := mkTablesWf {
  tw_dir : pgdir = 4096 * pd + KERNBASE;
  tw_pd : 0 <= pd < npages s;
  tw_some : forall i t, T !! i = Some t ->
    0 <= i < 1024 /\ D i /\ 0 <= t < npages s /\ t <> pd /\
    test (mget (mem s) pd i) PTE_P = true /\ PTE_ADDR (mget (mem s) pd i) = 4096 * t;
  tw_none : forall i, 0 <= i < 1024 -> D i -> T !! i = None ->
    test (mget (mem s) pd i) PTE_P = false;
  tw_inj : forall i j t, T !! i = Some t -> T !! j = Some t -> i = j;
}.

(** The entry for a page [p] with flags [fl]. *)
Definition pte_entry (e : Z * Z) : Z := 4096 * e.1 + e.2.

(** [space_wf]: the present entries of the page tables are those of [A]. *)
Record space_wf (D : Z -> Prop) (s : kstate) (pgdir pd : Z) (T : gmap Z Z) (A : gmap Z (Z * Z))
  : Prop := mkSpaceWf {
  sw_tables : tables_wf D s pgdir pd T;
  sw_some : forall v e, A !! v = Some e ->
    0 <= v < 2 ^ 20 /\ 0 <= e.1 < npages s /\ 0 <= e.2 < 4096 /\ test e.2 PTE_P = true /\
    exists t, T !! (v / 1024) = Some t /\ mget (mem s) t (v `mod` 1024) = pte_entry e;
  sw_none : forall v t, 0 <= v < 2 ^ 20 -> A !! v = None -> T !! (v / 1024) = Some t ->
    test (mget (mem s) t (v `mod` 1024)) PTE_P = false;
}.

(** How often page [p] is referenced: by entries of [A], as a page table, as
    the directory, and from elsewhere. *)
Definition ref_count (pd : Z) (T : gmap Z Z) (A : gmap Z (Z * Z)) (ext : Z -> Z) (p : Z) : Z :=
  count_val fst A p + count_val id T p + (if decide (p = pd) then 1 else 0) + ext p.

Record aspace (D : Z -> Prop) (s : kstate) (pgdir pd : Z) (T : gmap Z Z) (A : gmap Z (Z * Z))
  (l : list Z) (ext : Z -> Z) : Prop := mkAspace {
  as_alloc : alloc_wf s l;
  as_space : space_wf D s pgdir pd T A;
  as_ext : forall p, 0 <= ext p;
  as_refs : forall p pi, pages s !! p = Some pi ->
    pp_ref pi = ref_count pd T A ext p /\ pp_ref pi < 2 ^ 16;
}.

(** The current environment, if there is one, is in the array. *)
Definition cur_ok (s : kstate) : Prop :=
  forall e, curenv s = Some e -> is_Some (envs s !! e).

(** The operations of this file change these four fields only. *)
Definition mm_eq (s s' : kstate) : Prop :=
  s' = set_tlb_log (tlb_log s') (set_mem (mem s')
         (set_page_free_list (page_free_list s') (set_pages (pages s') s))).

(** Memory outside the directory and the page tables is unchanged. *)
Definition mem_frame (pd : Z) (T : gmap Z Z) (s s' : kstate) : Prop :=
  forall f k, f <> pd -> (forall i, T !! i <> Some f) -> mget (mem s') f k = mget (mem s) f k.

Section Basics.

Lemma mm_eq_refl s : mm_eq s s.
Proof. by destruct s. Qed.

Lemma mm_eq_trans s1 s2 s3 : mm_eq s1 s2 -> mm_eq s2 s3 -> mm_eq s1 s3.
Proof. intros H1 H2. red in H1, H2 |- *. rewrite H2, H1. by destruct s1. Qed.

Lemma mm_eq_npages s s' : mm_eq s s' -> npages s' = npages s.
Proof. intros ->. by destruct s. Qed.

Lemma mm_eq_cur s s' : mm_eq s s' -> curenv s' = curenv s /\ envs s' = envs s.
Proof. intros ->. by destruct s. Qed.

Lemma mm_eq_cur_ok s s' : mm_eq s s' -> cur_ok s -> cur_ok s'.
Proof. intros E H. destruct (mm_eq_cur _ _ E) as [E1 E2]. unfold cur_ok. by rewrite E1, E2. Qed.

Lemma mem_frame_refl pd T s : mem_frame pd T s s.
Proof. by intros f k. Qed.

Lemma mem_frame_trans pd T s1 s2 s3 :
  mem_frame pd T s1 s2 -> mem_frame pd T s2 s3 -> mem_frame pd T s1 s3.
Proof. intros H1 H2 f k Hf Ht. rewrite H2, H1 by done. done. Qed.

(** A page on the free list is referenced by nobody. *)
Lemma aspace_free D s pgdir pd T A l ext p :
  aspace D s pgdir pd T A l ext -> p ∈ l ->
  p <> pd /\ (forall i, T !! i <> Some p) /\ (forall v e, A !! v = Some e -> e.1 <> p) /\ ext p = 0.
Proof.
  intros H Hp. destruct (alloc_wf_in _ _ _ (as_alloc _ _ _ _ _ _ _ _ H) Hp) as (pi & Hpi & Hr).
  destruct (as_refs _ _ _ _ _ _ _ _ H _ _ Hpi) as [E _]. rewrite Hr in E. unfold ref_count in E.
  pose proof (count_val_nonneg fst A p). pose proof (count_val_nonneg id T p).
  pose proof (as_ext _ _ _ _ _ _ _ _ H p). case_decide; [lia|]. split_and!; [done| | |lia].
  - intros i Hi. pose proof (count_val_pos id T i p Hi). simpl in *. lia.
  - intros v e Hv <-. pose proof (count_val_pos fst A v e Hv). lia.
Qed.

Lemma aspace_page D s pgdir pd T A l ext p :
  aspace D s pgdir pd T A l ext -> 0 <= p < npages s -> exists pi, pages s !! p = Some pi.
Proof. intros H. eapply alloc_wf_page, as_alloc, H. Qed.

End Basics.

#[export] Hint Resolve mm_eq_refl mm_eq_trans mem_frame_refl mem_frame_trans : jos.

(** ** pgdir_walk *)

Section Walk.

Context (D : Z -> Prop).

(** The address of the entry for [va] in table page [t]. *)
Definition pte_ptr (t va : Z) : Z := 4096 * t + 4 * PTX va + KERNBASE.

Lemma pde_ptr s pgdir pd T va :
  tables_wf D s pgdir pd T -> npages s <= 65536 ->
  u32 (pgdir + 4 * PDX va) = 4096 * pd + 4 * PDX va + KERNBASE.
Proof.
  intros W Hn. rewrite (tw_dir _ _ _ _ _ W). pose proof (tw_pd _ _ _ _ _ W).
  pose proof (PDX_range va). unfold KERNBASE. rewrite u32_small; lia.
Qed.

Lemma kload_word s f i :
  0 <= f -> 0 <= i < 1024 ->
  kload (4096 * f + 4 * i + KERNBASE) s = (Ret (mget (mem s) f i), s).
Proof. intros. rewrite kload_eq by lia. by rewrite mload_word. Qed.

Lemma kstore_word s f i v :
  0 <= f -> 0 <= i < 1024 ->
  kstore (4096 * f + 4 * i + KERNBASE) v s = (Ret tt, set_mem (mset (mem s) f i (u32 v)) s).
Proof. intros. rewrite kstore_eq by lia. by rewrite mstore_word. Qed.

Lemma pte_ptr_u32 t va n :
  0 <= t < n -> n <= 65536 -> u32 (4096 * t + KERNBASE + 4 * PTX va) = pte_ptr t va.
Proof.
  intros. pose proof (PTX_range va). unfold pte_ptr, KERNBASE. rewrite u32_small; lia.
Qed.

Lemma pte_ptr_nonzero t va : 0 <= t -> (pte_ptr t va =? 0) = false.
Proof. intros. pose proof (PTX_range va). unfold pte_ptr, KERNBASE. lia. Qed.

Lemma walk_present s pgdir pd T va t create :
  tables_wf D s pgdir pd T -> npages s <= 65536 -> T !! PDX va = Some t ->
  pgdir_walk pgdir va create s = (Ret (pte_ptr t va), s).
Proof.
  intros W Hn Ht. destruct (tw_some _ _ _ _ _ W _ _ Ht) as (H1 & H2 & H3 & H4 & H5 & H6).
  unfold pgdir_walk. rewrite (pde_ptr s pgdir pd T va W Hn).
  kgo kload_word; [| pose proof (tw_pd _ _ _ _ _ W); lia | done].
  rewrite H5, H6. kgo KADDR_page; [|done|done]. by rewrite (pte_ptr_u32 t va (npages s)).
Qed.

Lemma walk_pde_absent s pgdir pd T va :
  tables_wf D s pgdir pd T -> D (PDX va) -> T !! PDX va = None ->
  test (mget (mem s) pd (PDX va)) PTE_P = false.
Proof. intros W Hd Ht. eapply tw_none; eauto. apply PDX_range. Qed.

Lemma walk_absent s pgdir pd T va :
  tables_wf D s pgdir pd T -> npages s <= 65536 -> D (PDX va) -> T !! PDX va = None ->
  pgdir_walk pgdir va 0 s = (Ret 0, s).
Proof.
  intros W Hn Hd Ht. unfold pgdir_walk. rewrite (pde_ptr s pgdir pd T va W Hn).
  kgo kload_word; [| pose proof (tw_pd _ _ _ _ _ W); lia | apply PDX_range].
  by erewrite walk_pde_absent.
Qed.

Lemma walk_nomem s pgdir pd T va create :
  tables_wf D s pgdir pd T -> alloc_wf s [] -> D (PDX va) -> T !! PDX va = None ->
  pgdir_walk pgdir va create s = (Ret 0, s).
Proof.
  intros W Ha Hd Ht. pose proof (aw_npages _ _ Ha).
  unfold pgdir_walk. rewrite (pde_ptr s pgdir pd T va W) by lia.
  kgo kload_word; [| pose proof (tw_pd _ _ _ _ _ W); lia | apply PDX_range].
  erewrite walk_pde_absent by done. destruct (create =? 0); [done|].
  by kgo page_alloc_nil.
Qed.

(** The state after a new page table [t] was put at index [i] of directory
    page [pd]. *)
Definition new_table (pd i t : Z) (s : kstate) : kstate :=
  let s1 := take_page ALLOC_ZERO t s in
  let pi := default (mkPageInfo None 0) (pages s1 !! t) in
  let s2 := set_pages (<[t := set_pp_ref 1 pi]> (pages s1)) s1 in
  set_mem (mset (mem s2) pd i (4096 * t + 7)) s2.

Lemma walk_create s pgdir pd T va create t l :
  tables_wf D s pgdir pd T -> alloc_wf s (t :: l) -> D (PDX va) -> T !! PDX va = None ->
  create <> 0 ->
  pgdir_walk pgdir va create s = (Ret (pte_ptr t va), new_table pd (PDX va) t s).
Proof.
  intros W Ha Hd Ht Hc. pose proof (aw_npages _ _ Ha). pose proof (tw_pd _ _ _ _ _ W).
  pose proof (PDX_range va). assert (Htr := alloc_wf_range _ _ t Ha (list_elem_of_here t l)).
  unfold pgdir_walk. rewrite (pde_ptr s pgdir pd T va W) by lia.
  kgo kload_word; [| lia | done].
  erewrite walk_pde_absent by done. destruct (Z.eqb_spec create 0); [done|].
  kgo (page_alloc_cons _ _ _ _ Ha).
  destruct (alloc_wf_page _ l t (take_page_wf _ ALLOC_ZERO _ _ Ha)) as [pi Hpi]; [done|].
  unfold new_table. rewrite Hpi. kgo (page_update_eq _ _ _ _ Hpi).
  kgo page2kva_eq; [| simpl; lia ..].
  kgo kstore_word; [| lia | done]. simpl. rewrite (pte_ptr_u32 t va (npages s)) by lia.
  rewrite page2pa_eq by lia.
  replace (Z.lor (Z.lor (Z.lor (4096 * t) PTE_P) PTE_U) PTE_W) with (4096 * t + 7); cycle 1.
  { rewrite <- !Z.lor_assoc, entry_lor; done. }
  by rewrite u32_small by lia.
Qed.

End Walk.

(** What [new_table] changes. *)
Lemma take_zero p s :
  take_page ALLOC_ZERO p s = set_mem (zero_page p (mem s)) (set_page_free_list (link_of s p) s).
Proof. reflexivity. Qed.

Lemma new_table_mm pd i t s : mm_eq s (new_table pd i t s).
Proof.
  unfold new_table. rewrite take_zero. generalize (zero_page t (mem s)); intros. by destruct s.
Qed.

Lemma new_table_tlb pd i t s : tlb_log (new_table pd i t s) = tlb_log s.
Proof. reflexivity. Qed.

Lemma new_table_mem pd i t s f k :
  mget (mem (new_table pd i t s)) f k =
  if decide (f = pd /\ k = i) then 4096 * t + 7
  else if decide (f = t /\ 0 <= k < 1024) then 0 else mget (mem s) f k.
Proof.
  unfold new_table, take_page. change (test ALLOC_ZERO ALLOC_ZERO) with true. cbn [mem set_mem set_pages].
  rewrite mget_mset, mget_zero_page. cbn [mem set_page_free_list].
  repeat case_decide; naive_solver.
Qed.

Lemma new_table_pages pd i t s p pi :
  pages s !! t = Some pi ->
  pages (new_table pd i t s) !! p = if decide (p = t) then Some (set_pp_ref 1 pi) else pages s !! p.
Proof.
  intros Ht. unfold new_table, take_page. change (test ALLOC_ZERO ALLOC_ZERO) with true.
  cbn [pages set_mem set_pages set_page_free_list]. rewrite Ht, lookup_insert. simpl.
  repeat case_decide; congruence.
Qed.

Lemma new_table_alloc pd i t s l : alloc_wf s (t :: l) -> alloc_wf (new_table pd i t s) l.
Proof.
  intros Ha. assert (Hin := list_elem_of_here t l).
  destruct (alloc_wf_in _ _ _ Ha Hin) as (pi & Hpi & _).
  assert (Ht := take_page_wf _ ALLOC_ZERO _ _ Ha). pose proof (alloc_wf_NoDup _ _ Ha) as [Hn _]%NoDup_cons.
  unfold new_table. revert Ht. rewrite take_zero. generalize (zero_page t (mem s)). intros m Ht.
  assert (W := alloc_wf_set_ref _ _ t pi 1 Ht Hn Hpi).
  eapply alloc_wf_frame; [exact W | reflexivity | | reflexivity]. simpl. by rewrite Hpi.
Qed.

Lemma new_table_frame pd T i t s :
  mem_frame pd (<[i := t]> T) s (new_table pd i t s).
Proof.
  intros f k Hf Ht. rewrite new_table_mem. rewrite decide_False by naive_solver.
  rewrite decide_False; [done|]. intros [-> _]. apply (Ht i), lookup_insert_eq.
Qed.

Section NewTable.

Context (D : Z -> Prop).

Lemma new_table_tables s pgdir pd T t i :
  tables_wf D s pgdir pd T -> D i -> 0 <= i < 1024 -> T !! i = None -> 0 <= t < npages s ->
  t <> pd -> (forall j, T !! j <> Some t) ->
  tables_wf D (new_table pd i t s) pgdir pd (<[i := t]> T).
Proof.
  intros W Hd Hi Ht Htr Hpd Hfr. constructor.
  - apply W.
  - apply W.
  - intros j u Hj. change (npages (new_table pd i t s)) with (npages s). rewrite new_table_mem.
    apply lookup_insert_Some in Hj as [[<- <-]|[Hne Hj]].
    + rewrite decide_True by done. rewrite entry_test, PTE_ADDR_entry by done. done.
    + rewrite decide_False by naive_solver. rewrite decide_False by naive_solver. by apply W.
  - intros j Hj Hdj Hl. apply lookup_insert_None in Hl as [Hl Hne].
    rewrite new_table_mem, decide_False, decide_False by naive_solver. by eapply tw_none.
  - intros j k u Hj Hk. apply lookup_insert_Some in Hj as [[? ?]|[Hne Hj]];
      apply lookup_insert_Some in Hk as [[? ?]|[Hne' Hk]]; subst; try done.
    + by destruct (Hfr k).
    + by destruct (Hfr j).
    + by eapply tw_inj.
Qed.

Lemma new_table_aspace s pgdir pd T A t l ext i :
  aspace D s pgdir pd T A (t :: l) ext -> D i -> 0 <= i < 1024 -> T !! i = None ->
  aspace D (new_table pd i t s) pgdir pd (<[i := t]> T) A l ext.
Proof.
  intros H Hd Hi Ht. destruct H as [Ha Hs He Hr] eqn:EH.
  assert (Hin := list_elem_of_here t l).
  destruct (alloc_wf_in _ _ _ Ha Hin) as (pi & Hpi & Hpr).
  destruct (aspace_free _ _ _ _ _ _ _ _ _ H Hin) as (F1 & F2 & F3 & F4).
  assert (Htr := alloc_wf_range _ _ t Ha Hin).
  constructor; [by apply new_table_alloc | | done |].
  - destruct Hs as [W Hsome Hnone]. constructor; [by apply new_table_tables | |].
    + intros v e Hv. destruct (Hsome _ _ Hv) as (H1 & H2 & H3 & H4 & u & H5 & H6).
      refine (conj H1 (conj H2 (conj H3 (conj H4 _)))). exists u. split.
      * rewrite lookup_insert_ne; [done|]. intros E. rewrite <- E in H5. congruence.
      * destruct (tw_some _ _ _ _ _ W _ _ H5) as (_ & _ & _ & Hup & _).
        rewrite new_table_mem, decide_False, decide_False; [done | |naive_solver].
        intros [-> _]. by apply (F2 (v / 1024)).
    + intros v u Hv Hl Hu. rewrite new_table_mem.
      apply lookup_insert_Some in Hu as [[E <-]|[Hne Hu]].
      * rewrite decide_False by naive_solver.
        rewrite decide_True by (split; [done | apply Z.mod_pos_bound; lia]). done.
      * destruct (tw_some _ _ _ _ _ W _ _ Hu) as (_ & _ & _ & Hup & _).
        rewrite decide_False, decide_False; [by apply Hnone | | naive_solver].
        intros [-> _]. by apply (F2 (v / 1024)).
  - intros p qi Hp. erewrite new_table_pages in Hp by done. unfold ref_count.
    rewrite count_val_insert by done. simpl. destruct (decide (t = p)) as [<-|Hne].
    + rewrite decide_True in Hp by done. injection Hp as <-. simpl.
      destruct (Hr _ _ Hpi) as [E _]. unfold ref_count in E. split; lia.
    + rewrite decide_False in Hp by done. destruct (Hr _ _ Hp) as [E ?].
      unfold ref_count in E. split; lia.
Qed.

End NewTable.

(** ** Looking up, storing and clearing one entry *)

Section PageNumbers.

(** The indices of the page number of a 32-bit address. *)
Lemma PGNUM_dir va : 0 <= va < 2 ^ 32 -> PGNUM va / 1024 = PDX va.
Proof. intros. rewrite PGNUM_div, PDX_div. zdm. Qed.

Lemma PGNUM_tab va : PGNUM va `mod` 1024 = PTX va.
Proof. by rewrite PGNUM_div, PTX_div. Qed.

Lemma PGNUM_range va : 0 <= va < 2 ^ 32 -> 0 <= PGNUM va < 2 ^ 20.
Proof. intros. rewrite PGNUM_div. zdm. Qed.

End PageNumbers.

Section Entries.

Context (D : Z -> Prop).

(** The address of the entry for [va], 0 when there is no page table. *)
Definition slot (T : gmap Z Z) (va : Z) : Z := from_option (fun t => pte_ptr t va) 0 (T !! PDX va).

Lemma walk_lookup s pgdir pd T va :
  tables_wf D s pgdir pd T -> npages s <= 65536 -> D (PDX va) ->
  pgdir_walk pgdir va 0 s = (Ret (slot T va), s).
Proof.
  intros W Hn Hd. unfold slot. destruct (T !! PDX va) as [t|] eqn:Ht; simpl.
  - by eapply walk_present.
  - by eapply walk_absent.
Qed.

Lemma kload_pte s pgdir pd T t va :
  tables_wf D s pgdir pd T -> T !! PDX va = Some t ->
  kload (pte_ptr t va) s = (Ret (mget (mem s) t (PTX va)), s).
Proof.
  intros W Ht. destruct (tw_some _ _ _ _ _ W _ _ Ht) as (_ & _ & ? & _).
  apply kload_word; [lia | apply PTX_range].
Qed.

Lemma kstore_pte s pgdir pd T t va w :
  tables_wf D s pgdir pd T -> T !! PDX va = Some t ->
  kstore (pte_ptr t va) w s = (Ret tt, set_mem (mset (mem s) t (PTX va) (u32 w)) s).
Proof.
  intros W Ht. destruct (tw_some _ _ _ _ _ W _ _ Ht) as (_ & _ & ? & _).
  apply kstore_word; [lia | apply PTX_range].
Qed.

(** What the entry holds. *)
Lemma entry_some s pgdir pd T A va t e :
  space_wf D s pgdir pd T A -> 0 <= va < 2 ^ 32 -> T !! PDX va = Some t -> A !! PGNUM va = Some e ->
  mget (mem s) t (PTX va) = pte_entry e.
Proof.
  intros W Hva Ht He. destruct (sw_some _ _ _ _ _ _ W _ _ He) as (_ & _ & _ & _ & u & Hu & Hm).
  rewrite PGNUM_dir in Hu by done. rewrite PGNUM_tab in Hm. congruence.
Qed.

Lemma entry_none s pgdir pd T A va t :
  space_wf D s pgdir pd T A -> 0 <= va < 2 ^ 32 -> T !! PDX va = Some t -> A !! PGNUM va = None ->
  test (mget (mem s) t (PTX va)) PTE_P = false.
Proof.
  intros W Hva Ht He. rewrite <- PGNUM_tab. eapply (sw_none _ _ _ _ _ _ W); [|done|].
  - by apply PGNUM_range.
  - by rewrite PGNUM_dir.
Qed.

Lemma entry_table s pgdir pd T A va e :
  space_wf D s pgdir pd T A -> 0 <= va < 2 ^ 32 -> A !! PGNUM va = Some e ->
  exists t, T !! PDX va = Some t.
Proof.
  intros W Hva He. destruct (sw_some _ _ _ _ _ _ W _ _ He) as (_ & _ & _ & _ & u & Hu & Hm).
  rewrite PGNUM_dir in Hu by done. eauto.
Qed.

Lemma pte_entry_test e m : 0 <= e.2 < 4096 -> 0 <= m < 4096 -> test (pte_entry e) m = test e.2 m.
Proof. intros. unfold pte_entry. by apply entry_test. Qed.

Lemma pte_entry_addr e : 0 <= e.2 < 4096 -> PTE_ADDR (pte_entry e) = 4096 * e.1.
Proof. intros. unfold pte_entry. by apply PTE_ADDR_entry. Qed.

Lemma page_lookup_eq s pgdir pd T A va :
  space_wf D s pgdir pd T A -> npages s <= 65536 -> D (PDX va) -> 0 <= va < 2 ^ 32 ->
  page_lookup pgdir va s = (Ret (fst <$> A !! PGNUM va, slot T va), s).
Proof.
  intros W Hn Hd Hva. assert (WT := sw_tables _ _ _ _ _ _ W).
  unfold page_lookup. kgo walk_lookup; [|done..]. unfold slot.
  destruct (A !! PGNUM va) as [e|] eqn:He.
  - destruct (entry_table _ _ _ _ _ _ _ W Hva He) as [t Ht]. rewrite Ht. simpl.
    destruct (tw_some _ _ _ _ _ WT _ _ Ht) as (_ & _ & Hr & _).
    rewrite pte_ptr_nonzero by lia. kgo kload_pte; [|done..].
    erewrite entry_some by done.
    destruct (sw_some _ _ _ _ _ _ W _ _ He) as (_ & H2 & H3 & H4 & _).
    rewrite pte_entry_test, H4, pte_entry_addr by done. by kgo pa2page_eq.
  - destruct (T !! PDX va) as [t|] eqn:Ht; simpl; [|done].
    destruct (tw_some _ _ _ _ _ WT _ _ Ht) as (_ & _ & Hr & _).
    rewrite pte_ptr_nonzero by lia. kgo kload_pte; [|done..].
    by erewrite entry_none.
Qed.

(** Storing an entry. *)
Definition put_pte (t k w : Z) (s : kstate) : kstate := set_mem (mset (mem s) t k w) s.

Lemma put_pte_tables s pgdir pd T t k w j :
  tables_wf D s pgdir pd T -> T !! j = Some t -> tables_wf D (put_pte t k w s) pgdir pd T.
Proof.
  intros W Ht. destruct (tw_some _ _ _ _ _ W _ _ Ht) as (_ & _ & _ & Hne & _).
  constructor; try apply W; intros i; simpl.
  - intros u Hu. rewrite mget_mset_ne by auto. by apply W.
  - intros. rewrite mget_mset_ne by auto. by eapply tw_none.
Qed.

(** Two page numbers with the same slot are equal. *)
Lemma slot_inj s pgdir pd T v v' t :
  tables_wf D s pgdir pd T -> T !! (v / 1024) = Some t -> T !! (v' / 1024) = Some t ->
  v `mod` 1024 = v' `mod` 1024 -> v = v'.
Proof. intros W H1 H2 H3. assert (E := tw_inj _ _ _ _ _ W _ _ _ H1 H2). zdm. Qed.

Lemma put_pte_space s pgdir pd T A v t e :
  space_wf D s pgdir pd T A -> 0 <= v < 2 ^ 20 -> T !! (v / 1024) = Some t ->
  0 <= e.1 < npages s -> 0 <= e.2 < 4096 -> test e.2 PTE_P = true ->
  space_wf D (put_pte t (v `mod` 1024) (pte_entry e) s) pgdir pd T (<[v := e]> A).
Proof.
  intros W Hv Ht H1 H2 H3. assert (WT := sw_tables _ _ _ _ _ _ W).
  constructor; [by eapply put_pte_tables | |]; intros v'; simpl.
  - intros e' He'. apply lookup_insert_Some in He' as [[<- <-]|[Hne He']].
    + refine (conj Hv (conj H1 (conj H2 (conj H3 _)))). exists t. by rewrite mget_mset_eq.
    + destruct (sw_some _ _ _ _ _ _ W _ _ He') as (J1 & J2 & J3 & J4 & u & Hu & Hm).
      refine (conj J1 (conj J2 (conj J3 (conj J4 _)))). exists u. split; [done|].
      rewrite mget_mset_ne; [done|]. destruct (decide (t = u)) as [<-|]; [right|by left].
      intros E. apply Hne. by eapply slot_inj.
  - intros u Hv' Hl Hu. apply lookup_insert_None in Hl as [Hl Hne].
    rewrite mget_mset_ne; [by eapply sw_none|].
    destruct (decide (t = u)) as [<-|]; [right|by left]. intros E. apply Hne. by eapply slot_inj.
Qed.

Lemma clear_pte_space s pgdir pd T A v t :
  space_wf D s pgdir pd T A -> 0 <= v < 2 ^ 20 -> T !! (v / 1024) = Some t ->
  space_wf D (put_pte t (v `mod` 1024) 0 s) pgdir pd T (delete v A).
Proof.
  intros W Hv Ht. assert (WT := sw_tables _ _ _ _ _ _ W).
  constructor; [by eapply put_pte_tables | |]; intros v'; simpl.
  - intros e' He'. apply lookup_delete_Some in He' as [Hne He'].
    destruct (sw_some _ _ _ _ _ _ W _ _ He') as (J1 & J2 & J3 & J4 & u & Hu & Hm).
    refine (conj J1 (conj J2 (conj J3 (conj J4 _)))). exists u. split; [done|].
    rewrite mget_mset_ne; [done|]. destruct (decide (t = u)) as [<-|]; [right|by left].
    intros E. apply Hne. by eapply slot_inj.
  - intros u Hv' Hl Hu. rewrite mget_mset. case_decide as E; [done|].
    apply lookup_delete_None in Hl as [<-|Hl]; [|by eapply sw_none].
    destruct E. split; congruence.
Qed.

(** A space only depends on memory and the number of pages. *)
Lemma tables_wf_frame s s' pgdir pd T :
  tables_wf D s pgdir pd T -> npages s' = npages s ->
  (forall k, mget (mem s') pd k = mget (mem s) pd k) -> tables_wf D s' pgdir pd T.
Proof.
  intros [] E1 E2. constructor; rewrite ?E1; auto; intros; rewrite ?E2; eauto.
Qed.

Lemma space_wf_frame s s' pgdir pd T A :
  space_wf D s pgdir pd T A -> npages s' = npages s -> mem s' = mem s ->
  space_wf D s' pgdir pd T A.
Proof.
  intros [W1 W2 W3] E1 E2. constructor; rewrite ?E1, ?E2; auto.
  apply (tables_wf_frame s); [done..|]. intros. by rewrite E2.
Qed.

Lemma aspace_frame s s' pgdir pd T A l ext :
  aspace D s pgdir pd T A l ext -> npages s' = npages s -> mem s' = mem s -> pages s' = pages s ->
  page_free_list s' = page_free_list s -> aspace D s' pgdir pd T A l ext.
Proof.
  intros [H1 H2 H3 H4] E1 E2 E3 E4. constructor; [by eapply alloc_wf_frame | by eapply space_wf_frame | done |].
  intros p pi. rewrite E3. apply H4.
Qed.

End Entries.

(** ** The specification: operations on finite maps *)

(** Page [p] goes to the free list when nothing refers to it any more. *)
Definition release (pd : Z) (T : gmap Z Z) (A : gmap Z (Z * Z)) (ext : Z -> Z) (p : Z) (l : list Z)
  : list Z :=
  if decide (ref_count pd T A ext p = 0) then p :: l else l.

(** [page_remove] of page number [v]. *)
Definition spec_remove (pd : Z) (ext : Z -> Z) (T : gmap Z Z) (v : Z) (A : gmap Z (Z * Z)) (l : list Z)
  : gmap Z (Z * Z) * list Z :=
  match A !! v with
  | None => (A, l)
  | Some e => let A' := delete v A in (A', release pd T A' ext e.1 l)
  end.

(** The page tables and the free list once a table exists for index [i];
    [None] when that takes a page and there is none. *)
Definition spec_table (i : Z) (T : gmap Z Z) (l : list Z) : option (gmap Z Z * list Z) :=
  match T !! i, l with
  | Some _, _ => Some (T, l)
  | None, t :: l' => Some (<[i := t]> T, l')
  | None, [] => None
  end.

(** [page_insert] of page [pp] at [v] with flags [fl]. *)
Definition spec_insert (pd : Z) (ext : Z -> Z) (pp v fl : Z) (T : gmap Z Z) (A : gmap Z (Z * Z))
  (l : list Z) : option (gmap Z Z * gmap Z (Z * Z) * list Z) :=
  match spec_table (v / 1024) T l with
  | None => None
  | Some (T', l') =>
      let A' := <[v := (pp, Z.lor fl PTE_P)]> A in
      Some (T', A', match A !! v with Some e => release pd T' A' ext e.1 l' | None => l' end)
  end.

(** The translation is dropped when the directory may be in use. *)
Definition flush (pgdir va : Z) (s : kstate) : kstate :=
  match curenv s with
  | None => set_tlb_log (va :: tlb_log s) s
  | Some e =>
      match envs s !! e with
      | Some v => if env_pgdir v =? pgdir then set_tlb_log (va :: tlb_log s) s else s
      | None => s
      end
  end.

Section Operations.

Context (D : Z -> Prop).

Lemma tlb_invalidate_eq s pgdir va :
  cur_ok s -> tlb_invalidate pgdir va s = (Ret tt, flush pgdir va s).
Proof.
  intros Hc. unfold tlb_invalidate, flush. kgo get_eq. destruct (curenv s) as [e|] eqn:He; [|done].
  destruct (Hc _ He) as [v Hv]. rewrite Hv. kgo (env_get_eq _ _ _ Hv).
  by destruct (env_pgdir v =? pgdir).
Qed.

Lemma flush_cases pgdir va s : exists log, flush pgdir va s = set_tlb_log log s.
Proof.
  assert (E : s = set_tlb_log (tlb_log s) s) by by destruct s.
  unfold flush. destruct (curenv s) as [e|]; [|eauto]. destruct (envs s !! e) as [v|]; [|eauto].
  destruct (env_pgdir v =? pgdir); eauto.
Qed.

(** The bookkeeping of references, apart from the free list. *)
Definition refs_ok (s : kstate) (pd : Z) (T : gmap Z Z) (A : gmap Z (Z * Z)) (ext : Z -> Z) : Prop :=
  forall p pi, pages s !! p = Some pi -> pp_ref pi = ref_count pd T A ext p /\ pp_ref pi < 2 ^ 16.

Lemma ref_count_nonneg pd T A ext p : 0 <= ext p -> 0 <= ref_count pd T A ext p.
Proof.
  intros. unfold ref_count. pose proof (count_val_nonneg fst A p).
  pose proof (count_val_nonneg id T p). case_decide; lia.
Qed.

Lemma ref_count_insert pd T A ext v e p :
  A !! v = None ->
  ref_count pd T (<[v := e]> A) ext p = ref_count pd T A ext p + (if decide (e.1 = p) then 1 else 0).
Proof. intros. unfold ref_count. rewrite count_val_insert by done. lia. Qed.

Lemma ref_count_delete pd T A ext v e p :
  A !! v = Some e ->
  ref_count pd T (delete v A) ext p = ref_count pd T A ext p - (if decide (e.1 = p) then 1 else 0).
Proof. intros. unfold ref_count. erewrite count_val_delete by done. lia. Qed.

(** [page_decref] of a page whose count in the specification drops by one
    from [rc] to [rc']. *)
Lemma dec_page_counts s l p (rc rc' : Z -> Z) :
  alloc_wf s l -> p ∉ l -> 0 <= p < npages s ->
  (forall q qi, pages s !! q = Some qi -> pp_ref qi = rc q /\ pp_ref qi < 2 ^ 16) ->
  (forall q, rc' q = rc q - (if decide (p = q) then 1 else 0)) -> 0 <= rc' p ->
  alloc_wf (dec_page p s) (if decide (rc' p = 0) then p :: l else l) /\
  (forall q qi, pages (dec_page p s) !! q = Some qi -> pp_ref qi = rc' q /\ pp_ref qi < 2 ^ 16).
Proof.
  intros Ha Hl Hp Hr E H0. destruct (alloc_wf_page _ _ _ Ha Hp) as [pi Hpi].
  destruct (Hr _ _ Hpi) as [Ep Hlt]. assert (E' := E p). rewrite decide_True in E' by done.
  split.
  - replace (if decide (rc' p = 0) then p :: l else l)
      with (if pp_ref pi =? 1 then p :: l else l) by (case_decide; zcase; lia || done).
    eapply dec_page_wf; [done..|lia].
  - intros q qi Hq. rewrite E.
    assert (Hqi : exists qi', pages s !! q = Some qi' /\
              pp_ref qi = pp_ref qi' - (if decide (p = q) then 1 else 0)).
    { revert Hq. unfold dec_page, give_page. rewrite Hpi. simpl. rewrite u16_small by lia.
      zcase; simpl; rewrite ?lookup_insert_eq, ?insert_insert_eq; simpl;
        intros [[<- <-]|[Hne Hq]]%lookup_insert_Some;
        rewrite ?decide_True, ?decide_False by done; eexists; split; try done; simpl; lia. }
    destruct Hqi as (qi' & Hqi & ->). destruct (Hr _ _ Hqi) as [-> ?].
    case_decide; lia.
Qed.

(** [page_decref] of the page mapped at [v], once the entry is gone. *)
Lemma dec_page_refs s pd T A ext l v e :
  alloc_wf s l -> refs_ok s pd T A ext -> (forall p, 0 <= ext p) -> e.1 ∉ l ->
  0 <= e.1 < npages s -> A !! v = Some e ->
  alloc_wf (dec_page e.1 s) (release pd T (delete v A) ext e.1 l) /\
  refs_ok (dec_page e.1 s) pd T (delete v A) ext.
Proof.
  intros Ha Hr He Hl Hp Hv. eapply dec_page_counts; [done..| |].
  - intros q. by apply ref_count_delete.
  - by apply ref_count_nonneg.
Qed.

(** What [dec_page] and [flush] change. *)
Lemma dec_page_mm p s : mm_eq s (dec_page p s).
Proof. unfold dec_page, give_page. destruct s. by destruct (u16 _ =? 0). Qed.

Lemma dec_page_mem p s : mem (dec_page p s) = mem s.
Proof. unfold dec_page, give_page. by destruct (u16 _ =? 0). Qed.

Lemma flush_mm pgdir va s : mm_eq s (flush pgdir va s).
Proof. destruct (flush_cases pgdir va s) as [log ->]. by destruct s. Qed.

Lemma flush_mem pgdir va s : mem (flush pgdir va s) = mem s.
Proof. by destruct (flush_cases pgdir va s) as [log ->]. Qed.

Lemma flush_pages pgdir va s : pages (flush pgdir va s) = pages s.
Proof. by destruct (flush_cases pgdir va s) as [log ->]. Qed.

Lemma flush_alloc pgdir va s l : alloc_wf s l -> alloc_wf (flush pgdir va s) l.
Proof.
  intros. destruct (flush_cases pgdir va s) as [log ->]. by eapply alloc_wf_frame.
Qed.

Lemma put_pte_mm t k w s : mm_eq s (put_pte t k w s).
Proof. by destruct s. Qed.

Lemma put_pte_alloc t k w s l : alloc_wf s l -> alloc_wf (put_pte t k w s) l.
Proof. intros. by eapply alloc_wf_frame. Qed.

Lemma put_pte_frame pd T s t k w i : T !! i = Some t -> mem_frame pd T s (put_pte t k w s).
Proof. intros Ht f j Hf Hn. simpl. rewrite mget_mset_ne; [done|]. left. intros ->. by apply (Hn i). Qed.

(** A mapped page is not free. *)
Lemma mapped_not_free s pgdir pd T A l ext v e :
  aspace D s pgdir pd T A l ext -> A !! v = Some e -> e.1 ∉ l.
Proof.
  intros H Hv Hl. destruct (aspace_free _ _ _ _ _ _ _ _ _ H Hl) as (_ & _ & F & _). by apply (F v e).
Qed.

Lemma page_remove_none s pgdir pd T A l ext va :
  aspace D s pgdir pd T A l ext -> D (PDX va) -> 0 <= va < 2 ^ 32 -> A !! PGNUM va = None ->
  page_remove pgdir va s = (Ret tt, s).
Proof.
  intros H Hd Hva Hv. pose proof (aw_npages _ _ (as_alloc _ _ _ _ _ _ _ _ H)).
  unfold page_remove. kgo page_lookup_eq; [| apply H | lia | done..]. by rewrite Hv.
Qed.

Definition removed (pgdir va p : Z) (T : gmap Z Z) (s : kstate) : kstate :=
  put_pte (default 0 (T !! PDX va)) (PTX va) 0 (flush pgdir va (dec_page p s)).

Lemma removed_mm pgdir va p T s : mm_eq s (removed pgdir va p T s).
Proof.
  unfold removed. eapply mm_eq_trans; [apply dec_page_mm|].
  eapply mm_eq_trans; [apply flush_mm | apply put_pte_mm].
Qed.

Lemma removed_frame pgdir pd va p T s t : T !! PDX va = Some t -> mem_frame pd T s (removed pgdir va p T s).
Proof.
  intros Ht f k Hf Hn. unfold removed. rewrite (put_pte_frame pd T _ _ _ _ (PDX va)) by (done || by rewrite Ht).
  by rewrite flush_mem, dec_page_mem.
Qed.

Lemma page_remove_some s pgdir pd T A l ext va e :
  aspace D s pgdir pd T A l ext -> cur_ok s -> D (PDX va) -> 0 <= va < 2 ^ 32 ->
  A !! PGNUM va = Some e ->
  page_remove pgdir va s = (Ret tt, removed pgdir va e.1 T s) /\
  aspace D (removed pgdir va e.1 T s) pgdir pd T (delete (PGNUM va) A)
    (release pd T (delete (PGNUM va) A) ext e.1 l) ext.
Proof.
  intros H Hc Hd Hva Hv. destruct H as [Ha Hs He Hr] eqn:EH. pose proof (aw_npages _ _ Ha).
  destruct (entry_table _ _ _ _ _ _ _ _ Hs Hva Hv) as [t Ht].
  destruct (sw_some _ _ _ _ _ _ Hs _ _ Hv) as (_ & Hp & _).
  assert (Hnf := mapped_not_free _ _ _ _ _ _ _ _ _ H Hv).
  destruct (alloc_wf_page _ _ _ Ha Hp) as [pi Hpi].
  destruct (dec_page_refs _ _ _ _ _ _ _ _ Ha Hr He Hnf Hp Hv) as [Ha' Hr'].
  assert (Hs1 : space_wf D (flush pgdir va (dec_page e.1 s)) pgdir pd T A).
  { eapply space_wf_frame; [exact Hs | | by rewrite flush_mem, dec_page_mem].
    rewrite (mm_eq_npages _ _ (flush_mm _ _ _)). apply (mm_eq_npages _ _ (dec_page_mm _ _)). }
  unfold removed. rewrite Ht. simpl. split.
  - unfold page_remove. kgo page_lookup_eq; [| done | lia | done..]. rewrite Hv. simpl.
    kgo (page_decref_eq _ _ _ Hpi).
    kgo tlb_invalidate_eq; [| by eapply mm_eq_cur_ok, Hc; apply dec_page_mm].
    unfold slot. rewrite Ht. simpl. by eapply kstore_pte; [apply Hs1|].
  - constructor.
    + by apply put_pte_alloc, flush_alloc.
    + rewrite <- PGNUM_tab. apply clear_pte_space; [done | by apply PGNUM_range | by rewrite PGNUM_dir].
    + done.
    + intros q qi. simpl. rewrite flush_pages. apply Hr'.
Qed.

(** The last steps of [page_insert]: one reference more, and the entry. *)
Definition linked (t pp va fl : Z) (s : kstate) : kstate :=
  let pi := default (mkPageInfo None 0) (pages s !! pp) in
  put_pte t (PTX va) (pte_entry (pp, Z.lor fl PTE_P))
    (set_pages (<[pp := set_pp_ref (pp_ref pi + 1) pi]> (pages s)) s).

Lemma linked_mm t pp va fl s : mm_eq s (linked t pp va fl s).
Proof. by destruct s. Qed.

Lemma linked_frame pd T s t pp va fl i :
  T !! i = Some t -> mem_frame pd T s (linked t pp va fl s).
Proof. intros Ht. unfold linked. exact (put_pte_frame pd T _ t _ _ i Ht). Qed.

Lemma flags_range fl : 0 <= fl < 4096 -> 0 <= Z.lor fl PTE_P < 4096.
Proof. intros. apply (lor_range fl 1 12); lia. Qed.

Lemma link_eq s pgdir pd T A t pp va fl pi :
  space_wf D s pgdir pd T A -> T !! PDX va = Some t -> pages s !! pp = Some pi ->
  0 <= pp_ref pi -> pp_ref pi + 1 < 2 ^ 16 -> 0 <= pp < 65536 -> 0 <= fl < 4096 ->
  (page_update pp (fun i => set_pp_ref (u16 (pp_ref i + 1)) i) ;;
   kstore (pte_ptr t va) (u32 (Z.lor (Z.lor (page2pa pp) fl) PTE_P)) ;; mret 0) s
  = (Ret 0, linked t pp va fl s).
Proof.
  intros Hs Ht Hpi Hr0 Hr Hpp Hfl. kgo (page_update_eq _ _ _ _ Hpi).
  assert (Hs' : tables_wf D (set_pages (<[pp := set_pp_ref (u16 (pp_ref pi + 1)) pi]> (pages s)) s)
                  pgdir pd T) by (eapply tables_wf_frame; [apply Hs | done | done]).
  kgo kstore_pte; [|done..]. pose proof (flags_range fl Hfl).
  unfold linked, put_pte. rewrite Hpi. simpl. rewrite u16_small, page2pa_eq by lia.
  rewrite <- Z.lor_assoc, entry_lor by lia. unfold pte_entry. simpl.
  by rewrite (u32_small (u32 _)), u32_small by (apply u32_range || lia).
Qed.

Lemma link_aspace s pgdir pd T A l ext t pp va fl pi :
  alloc_wf s l -> space_wf D s pgdir pd T A -> (forall p, 0 <= ext p) ->
  refs_ok s pd T (delete (PGNUM va) A) ext ->
  T !! PDX va = Some t -> pages s !! pp = Some pi -> pp ∉ l ->
  pp_ref pi + 1 < 2 ^ 16 -> 0 <= va < 2 ^ 32 -> 0 <= fl < 4096 ->
  aspace D (linked t pp va fl s) pgdir pd T (<[PGNUM va := (pp, Z.lor fl PTE_P)]> A) l ext.
Proof.
  intros Ha Hs He Hr Ht Hpi Hl Hlt Hva Hfl. pose proof (flags_range fl Hfl).
  assert (Hpp : 0 <= pp < npages s) by (apply (aw_dom _ _ Ha); eauto).
  unfold linked. rewrite Hpi. simpl. constructor.
  - apply put_pte_alloc. by apply alloc_wf_set_ref.
  - rewrite <- PGNUM_tab. apply put_pte_space; simpl; try done.
    + by eapply space_wf_frame.
    + by apply PGNUM_range.
    + by rewrite PGNUM_dir.
    + by apply test_lor_same.
  - done.
  - intros q qi. simpl. rewrite <- (insert_delete_eq A).
    rewrite ref_count_insert by apply lookup_delete_eq. simpl.
    intros [[<- <-]|[Hne Hq]]%lookup_insert_Some; simpl.
    + rewrite decide_True by done. destruct (Hr _ _ Hpi) as [<- _]. lia.
    + rewrite decide_False by done. destruct (Hr _ _ Hq) as [<- ?]. lia.
Qed.

End Operations.

(** ** page_insert once the page table is there *)

Section Insert.

Context (D : Z -> Prop) (s : kstate) (pgdir pd : Z) (T : gmap Z Z) (A : gmap Z (Z * Z))
  (l : list Z) (ext : Z -> Z) (t pp va fl : Z) (pi : PageInfo).

Hypothesis H : aspace D s pgdir pd T A l ext.
Hypothesis Hc : cur_ok s.
Hypothesis Hd : D (PDX va).
Hypothesis Ht : T !! PDX va = Some t.
Hypothesis Hva : 0 <= va < 2 ^ 32.
Hypothesis Hpi : pages s !! pp = Some pi.
Hypothesis Hl : pp ∉ l.
Hypothesis Hlt : pp_ref pi + 1 < 2 ^ 16.
Hypothesis Hfl : 0 <= fl < 4096.

Let A' : gmap Z (Z * Z) := <[PGNUM va := (pp, Z.lor fl PTE_P)]> A.

(** The middle of [page_insert]: what happens to the old entry. *)
Let unlink (d : Z) : K unit :=
  when (test d PTE_P)
    (if PTE_ADDR d =? page2pa pp then
       page_update pp (fun i => set_pp_ref (u16 (pp_ref i - 1)) i) ;;
       tlb_invalidate pgdir va
     else page_remove pgdir va).

Lemma insert_range : 0 <= pp < npages s /\ npages s <= 65536 /\ 0 <= pp_ref pi /\ 0 <= t < npages s.
Proof using All.
  assert (Ha := as_alloc _ _ _ _ _ _ _ _ H). pose proof (aw_npages _ _ Ha).
  destruct (as_refs _ _ _ _ _ _ _ _ H _ _ Hpi) as [E _].
  pose proof (ref_count_nonneg pd T A ext pp (as_ext _ _ _ _ _ _ _ _ H pp)).
  destruct (tw_some _ _ _ _ _ (sw_tables _ _ _ _ _ _ (as_space _ _ _ _ _ _ _ _ H)) _ _ Ht)
    as (_ & _ & ? & _).
  split; [apply (aw_dom _ _ Ha); eauto | lia].
Qed.

(** An outcome of the middle part from which the rest of the function ends
    as specified. *)
Definition unlinked (s1 : kstate) (l1 : list Z) : Prop :=
  mm_eq s s1 /\ mem_frame pd T s s1 /\ alloc_wf s1 l1 /\ (pp ∉ l1) /\
  (exists A1, space_wf D s1 pgdir pd T A1 /\ (delete (PGNUM va) A1 = delete (PGNUM va) A)) /\
  refs_ok s1 pd T (delete (PGNUM va) A) ext /\
  exists pi1, pages s1 !! pp = Some pi1 /\ 0 <= pp_ref pi1 /\ pp_ref pi1 + 1 < 2 ^ 16.

Lemma unlinked_finish s1 l1 :
  unlinked s1 l1 ->
  exists s', (page_update pp (fun i => set_pp_ref (u16 (pp_ref i + 1)) i) ;;
     kstore (pte_ptr t va) (u32 (Z.lor (Z.lor (page2pa pp) fl) PTE_P)) ;; mret 0) s1 = (Ret 0, s') /\
    mm_eq s s' /\ mem_frame pd T s s' /\ aspace D s' pgdir pd T A' l1 ext.
Proof using All.
  intros (U1 & U2 & U3 & U4 & (A1 & U5 & U6) & U7 & pi1 & U8 & U9 & U10).
  destruct insert_range as (? & ? & _). eexists. split; [|split_and!].
  - eapply (link_eq D s1 pgdir pd T A1); eauto; lia.
  - eapply mm_eq_trans; [exact U1 | apply linked_mm].
  - eapply mem_frame_trans; [exact U2 | by eapply linked_frame].
  - replace A' with (<[PGNUM va := (pp, Z.lor fl PTE_P)]> A1).
    + eapply link_aspace; eauto; [apply H | by rewrite U6].
    + unfold A'. rewrite <- (insert_delete_eq A), <- U6. by rewrite insert_delete_eq.
Qed.

(** The page was mapped there already: the references are not counted twice. *)
Lemma unlink_same fl0 :
  A !! PGNUM va = Some (pp, fl0) ->
  exists s1, unlink (mget (mem s) t (PTX va)) s = (Ret tt, s1) /\ unlinked s1 l.
Proof using All.
  intros Hv. destruct H as [Ha Hs He Hr] eqn:EH. destruct insert_range as (Hpp & Hn & Hr0 & Htr).
  destruct (sw_some _ _ _ _ _ _ Hs _ _ Hv) as (_ & _ & H3 & H4 & _).
  set (pi1 := set_pp_ref (pp_ref pi - 1) pi). set (s1 := set_pages (<[pp := pi1]> (pages s)) s).
  assert (Hpos : 1 <= pp_ref pi).
  { destruct (Hr _ _ Hpi) as [-> _]. pose proof (ref_count_delete pd T A ext _ _ pp Hv) as E.
    simpl in E. rewrite decide_True in E by done.
    pose proof (ref_count_nonneg pd T (delete (PGNUM va) A) ext pp (He pp)). lia. }
  exists (flush pgdir va s1). split.
  - unfold unlink. erewrite (entry_some D) by done.
    rewrite pte_entry_test, H4, pte_entry_addr by done. cbn [when fst].
    rewrite page2pa_eq, Z.eqb_refl by lia. kgo (page_update_eq _ _ _ _ Hpi). cbn beta.
    rewrite u16_small by lia. by apply tlb_invalidate_eq.
  - split_and!.
    + eapply mm_eq_trans; [|apply flush_mm]. by destruct s.
    + intros f k _ _. by rewrite flush_mem.
    + by apply flush_alloc, alloc_wf_set_ref.
    + done.
    + exists A. split; [|done].
      eapply space_wf_frame; [exact Hs | apply (mm_eq_npages _ _ (flush_mm pgdir va s1)) | by rewrite flush_mem].
    + intros q qi. rewrite flush_pages, (ref_count_delete _ _ _ _ _ _ _ Hv). simpl.
      intros [[<- <-]|[Hne Hq]]%lookup_insert_Some; simpl.
      * rewrite decide_True by done. destruct (Hr _ _ Hpi) as [<- ?]. lia.
      * rewrite decide_False by done. destruct (Hr _ _ Hq) as [<- ?]. lia.
    + exists pi1. rewrite flush_pages. simpl. rewrite lookup_insert_eq. split; [done | lia].
Qed.

(** Another page was mapped there. *)
Lemma unlink_other e :
  A !! PGNUM va = Some e -> e.1 <> pp ->
  exists s1, unlink (mget (mem s) t (PTX va)) s = (Ret tt, s1) /\
    unlinked s1 (release pd T (delete (PGNUM va) A) ext e.1 l).
Proof using All.
  intros Hv Hne. destruct (page_remove_some _ _ _ _ _ _ _ _ _ _ H Hc Hd Hva Hv) as [Hrun Has].
  destruct insert_range as (Hpp & Hn & Hr0 & Htr). assert (Hs := as_space _ _ _ _ _ _ _ _ H).
  destruct (sw_some _ _ _ _ _ _ Hs _ _ Hv) as (_ & _ & H3 & H4 & _).
  eexists. split.
  - unfold unlink. erewrite (entry_some D) by done.
    rewrite pte_entry_test, H4, pte_entry_addr by done. cbn [when].
    rewrite page2pa_eq by lia. destruct (Z.eqb_spec (4096 * e.1) (4096 * pp)); [lia | exact Hrun].
  - assert (Hmm := removed_mm pgdir va e.1 T s). split_and!.
    + done.
    + by eapply removed_frame.
    + apply Has.
    + unfold release. case_decide; [apply not_elem_of_cons|]; auto.
    + exists (delete (PGNUM va) A). split; [apply Has | by rewrite delete_delete_eq].
    + exact (as_refs _ _ _ _ _ _ _ _ Has).
    + destruct (alloc_wf_page _ _ pp (as_alloc _ _ _ _ _ _ _ _ Has)) as [pi1 Hpi1];
        [by rewrite (mm_eq_npages _ _ Hmm)|].
      exists pi1. split; [done|]. destruct (as_refs _ _ _ _ _ _ _ _ Has _ _ Hpi1) as [E _].
      rewrite (ref_count_delete _ _ _ _ _ _ _ Hv), decide_False, Z.sub_0_r in E by done.
      destruct (as_refs _ _ _ _ _ _ _ _ H _ _ Hpi) as [E' _]. lia.
Qed.

(** Nothing was mapped there. *)
Lemma unlink_none :
  A !! PGNUM va = None ->
  unlink (mget (mem s) t (PTX va)) s = (Ret tt, s) /\ unlinked s l.
Proof using All.
  intros Hv. assert (Hs := as_space _ _ _ _ _ _ _ _ H). destruct insert_range as (_ & _ & Hr0 & _).
  split; [unfold unlink; by erewrite (entry_none D)|]. split_and!; auto with jos.
  - apply H.
  - by exists A.
  - rewrite delete_id by done. exact (as_refs _ _ _ _ _ _ _ _ H).
  - eauto.
Qed.

Lemma release_live p k : p = pp -> release pd T A' ext p k = k.
Proof using All.
  intros ->. unfold release. rewrite decide_False; [done|]. unfold A'.
  rewrite <- (insert_delete_eq A), ref_count_insert by apply lookup_delete_eq. simpl.
  rewrite decide_True by done.
  pose proof (ref_count_nonneg pd T (delete (PGNUM va) A) ext pp (as_ext _ _ _ _ _ _ _ _ H pp)). lia.
Qed.

Lemma release_other e k :
  e.1 <> pp -> A !! PGNUM va = Some e ->
  release pd T A' ext e.1 k = release pd T (delete (PGNUM va) A) ext e.1 k.
Proof using All.
  intros Hne Hv. unfold release, A'.
  rewrite <- (insert_delete_eq A), ref_count_insert by apply lookup_delete_eq. simpl.
  by rewrite (decide_False (P := pp = e.1)), Z.add_0_r by done.
Qed.

Lemma insert_present :
  exists s', page_insert pgdir pp va fl s = (Ret 0, s') /\ mm_eq s s' /\ mem_frame pd T s s' /\
    aspace D s' pgdir pd T A'
      (match A !! PGNUM va with Some e => release pd T A' ext e.1 l | None => l end) ext.
Proof using All.
  destruct insert_range as (Hpp & Hn & Hr0 & Htr).
  assert (WT := sw_tables _ _ _ _ _ _ (as_space _ _ _ _ _ _ _ _ H)).
  assert (Hstart : forall s1 l1, unlink (mget (mem s) t (PTX va)) s = (Ret tt, s1) -> unlinked s1 l1 ->
    exists s', page_insert pgdir pp va fl s = (Ret 0, s') /\ mm_eq s s' /\ mem_frame pd T s s' /\
      aspace D s' pgdir pd T A' l1 ext).
  { intros s1 l1 Hu Hun. destruct (unlinked_finish _ _ Hun) as (s' & Hrun & Hrest).
    exists s'. split; [|done]. unfold page_insert. kgo walk_present; [|done..].
    rewrite pte_ptr_nonzero by lia. kgo kload_pte; [|done..]. by rewrite (bind_Ret _ _ _ _ _ Hu). }
  destruct (A !! PGNUM va) as [[p fl0]|] eqn:Hv.
  - destruct (decide (p = pp)) as [->|Hne].
    + rewrite release_live by done. destruct (unlink_same _ Hv) as (s1 & ? & ?). eauto.
    + rewrite release_other by done. destruct (unlink_other _ Hv Hne) as (s1 & ? & ?). eauto.
  - destruct (unlink_none Hv). eauto.
Qed.

End Insert.



(** ** page_insert *)

Section InsertSpec.

Context (D : Z -> Prop).

(** Creating the table first does not change what [page_insert] does. *)
Lemma page_insert_create s pgdir pd T va t l pp fl :
  tables_wf D s pgdir pd T -> alloc_wf s (t :: l) -> D (PDX va) -> T !! PDX va = None ->
  t <> pd -> (forall j, T !! j <> Some t) ->
  page_insert pgdir pp va fl s = page_insert pgdir pp va fl (new_table pd (PDX va) t s).
Proof.
  intros W Ha Hd Ht Hne Hfr. assert (Htr := alloc_wf_range _ _ t Ha (list_elem_of_here t l)).
  pose proof (aw_npages _ _ Ha).
  assert (W' : tables_wf D (new_table pd (PDX va) t s) pgdir pd (<[PDX va := t]> T)).
  { apply new_table_tables; auto using PDX_range. }
  assert (E : pgdir_walk pgdir va 1 (new_table pd (PDX va) t s)
              = (Ret (pte_ptr t va), new_table pd (PDX va) t s)).
  { eapply (walk_present D); [exact W' | | apply lookup_insert_eq].
    rewrite (mm_eq_npages _ _ (new_table_mm pd (PDX va) t s)). lia. }
  unfold page_insert. rewrite (bind_Ret _ _ _ _ _ E). by kgo (walk_create D).
Qed.

Lemma page_insert_nomem s pgdir pd T va pp fl :
  tables_wf D s pgdir pd T -> alloc_wf s [] -> D (PDX va) -> T !! PDX va = None ->
  page_insert pgdir pp va fl s = (Ret (- E_NO_MEM), s).
Proof. intros. unfold page_insert. by kgo (walk_nomem D). Qed.

(** [page_insert] implements [spec_insert]; when it fails nothing changes. *)
Lemma page_insert_eq s pgdir pd T A l ext pp va fl pi :
  aspace D s pgdir pd T A l ext -> cur_ok s -> D (PDX va) -> 0 <= va < 2 ^ 32 ->
  pages s !! pp = Some pi -> pp ∉ l -> pp_ref pi + 1 < 2 ^ 16 -> 0 <= fl < 4096 ->
  match spec_insert pd ext pp (PGNUM va) fl T A l with
  | None => page_insert pgdir pp va fl s = (Ret (- E_NO_MEM), s)
  | Some (T', A', l') =>
      exists s', page_insert pgdir pp va fl s = (Ret 0, s') /\ mm_eq s s' /\ mem_frame pd T' s s' /\
        aspace D s' pgdir pd T' A' l' ext
  end.
Proof.
  intros H Hc Hd Hva Hpi Hl Hlt Hfl. unfold spec_insert, spec_table. rewrite PGNUM_dir by done.
  assert (WT := sw_tables _ _ _ _ _ _ (as_space _ _ _ _ _ _ _ _ H)).
  assert (Ha := as_alloc _ _ _ _ _ _ _ _ H).
  destruct (T !! PDX va) as [t|] eqn:Ht; [eapply insert_present; eassumption|].
  destruct l as [|t l]; [exact (page_insert_nomem _ _ _ _ _ _ _ WT Ha Hd Ht)|].
  destruct (aspace_free _ _ _ _ _ _ _ _ t H (list_elem_of_here t l)) as (F1 & F2 & _ & _).
  rewrite (page_insert_create s pgdir pd T va t l pp fl) by done.
  assert (Hm := new_table_mm pd (PDX va) t s).
  destruct (alloc_wf_in _ _ _ Ha (list_elem_of_here t l)) as (ti & Hti & _).
  apply not_elem_of_cons in Hl as [Hne Hl].
  assert (H1 := new_table_aspace _ _ _ _ _ _ _ _ _ _ H Hd (PDX_range va) Ht).
  assert (Hpi1 : pages (new_table pd (PDX va) t s) !! pp = Some pi)
    by (rewrite (new_table_pages _ _ _ _ _ _ Hti), decide_False; assumption).
  assert (Hc1 := mm_eq_cur_ok _ _ Hm Hc).
  assert (Ht1 : <[PDX va := t]> T !! PDX va = Some t) by apply lookup_insert_eq.
  destruct (insert_present D _ _ _ _ _ _ _ _ _ _ _ _ H1 Hc1 Hd Ht1 Hva Hpi1 Hl Hlt Hfl)
    as (s' & R1 & R2 & R3 & R4).
  exists s'. split; [exact R1|]. split; [exact (mm_eq_trans _ _ _ Hm R2)|]. split; [|exact R4].
  eapply mem_frame_trans; [apply new_table_frame | exact R3].
Qed.

End InsertSpec.
