(* ===== verification/Example.v ===== *)
(** * Example: concrete states

    Sample states on which the theorems of the other files are applied: a
    machine with [n] pages of memory whose devices are always ready and send
    nothing. *)

From S2P Require Import Prelude Machine CString Printfmt Hardware Console Kernel Pmap PageAlloc PageTable.

(** The array with [f i] at every index from 0 to [n-1]. *)
Definition array_of {A} (n : Z) (f : Z -> A) : gmap Z A :=
  list_to_map ((fun i => (i, f i)) <$> seqZ 0 n).

Definition ex_ports : ports :=
  mkPorts (fun p _ => if p =? 0x3FD then 0x20 else if p =? 0x379 then 0x80 else 0) ∅ [].

Definition ex_console : console :=
  mkConsole ex_ports false true CGA_BASE ∅ 0 0 ∅ 0 0.

Definition ex_regs : PushRegs := mkPushRegs 0 0 0 0 0 0 0 0.
Definition ex_tf : Trapframe := mkTrapframe ex_regs 0 0 0 0 0 0 0 0 0.
Definition ex_env : Env := mkEnv ex_tf None 0 0 0 ENV_FREE 0 0 0 0 false 0 0 0 0.

(** Interrupts off, empty tables, one processor. *)
Definition ex_machine : machine :=
  mkMachine 0 0 None None ∅ ∅ 0 0 0 1 (Some 0) 0 0 [] 0xFFFB false 0.

(** [n] pages none of which is on the free list yet. *)
Definition ex_boot (n : Z) : kstate :=
  mkState n 160 (array_of n (fun _ => mkPageInfo None 0)) None 0 (KERNBASE + 0x200000) MMIOBASE 0 ∅
    (array_of NENV (fun _ => ex_env)) None ∅ 0 (mkSpinlock 0 None) 0 [] 0 0 0 ex_console ex_machine.

(** The free list [k, k+1, ..., k+m-1]. *)
Definition ex_link (k m i : Z) : option Z :=
  if (k <=? i) && (i <? k + m - 1) then Some (i + 1) else None.

Definition ex_free (n k m : Z) : kstate :=
  set_page_free_list (if 0 <? m then Some k else None)
    (set_pages (array_of n (fun i => mkPageInfo (ex_link k m i) 0)) (ex_boot n)).

(** Page [pd] taken for an empty page directory. *)
Definition ex_dir (n pd k m : Z) : kstate :=
  let s := ex_free n k m in
  set_pages (<[pd := mkPageInfo None 1]> (pages s)) s.

Section ExampleLemmas.

Lemma array_of_lookup {A} n (f : Z -> A) i :
  array_of n f !! i = if (0 <=? i) && (i <? n) then Some (f i) else None.
Proof.
  unfold array_of.
  assert (Hnd : NoDup ((fun i => (i, f i)) <$> seqZ 0 n).*1).
  { rewrite <- list_fmap_compose. apply NoDup_fmap_2; [intros x y E; exact E | apply NoDup_seqZ]. }
  destruct (decide (0 <= i < n)) as [Hi|Hi].
  - replace ((0 <=? i) && (i <? n)) with true by lia.
    apply elem_of_list_to_map; [done|]. apply list_elem_of_fmap. exists i.
    split; [done|]. apply elem_of_seqZ. lia.
  - replace ((0 <=? i) && (i <? n)) with false by lia.
    apply not_elem_of_list_to_map. intros Hin.
    apply list_elem_of_fmap in Hin as ([j y] & -> & Hin).
    apply list_elem_of_fmap in Hin as (k & [= -> ->] & Hk).
    apply elem_of_seqZ in Hk. simpl in *. lia.
Qed.

Lemma array_of_dom {A} n (f : Z -> A) i : is_Some (array_of n f !! i) <-> 0 <= i < n.
Proof.
  rewrite array_of_lookup. destruct (decide (0 <= i < n)).
  - replace ((0 <=? i) && (i <? n)) with true by lia. by split; eauto.
  - replace ((0 <=? i) && (i <? n)) with false by lia. split; [by intros [] | lia].
Qed.

Lemma ex_boot_dom n p : is_Some (pages (ex_boot n) !! p) <-> 0 <= p < npages (ex_boot n).
Proof. apply array_of_dom. Qed.

Lemma ex_chain n k j m :
  0 <= k -> k + Z.of_nat m <= n -> 0 <= j <= Z.of_nat m ->
  free_chain (array_of n (fun i => mkPageInfo (ex_link k (Z.of_nat m) i) 0))
    (if j <? Z.of_nat m then Some (k + j) else None) (seqZ (k + j) (Z.of_nat m - j)).
Proof.
  intros Hk Hn Hj.
  remember (Z.to_nat (Z.of_nat m - j)) as d eqn:Hd. revert j Hj Hd.
  induction d as [|d IH]; intros j Hj Hd.
  - destruct (Z.ltb_spec j (Z.of_nat m)); [lia|]. by replace (Z.of_nat m - j) with 0 by lia.
  - destruct (Z.ltb_spec j (Z.of_nat m)); [|lia].
    rewrite seqZ_cons by lia. split; [done|].
    rewrite array_of_lookup. destruct (Z.leb_spec 0 (k + j)), (Z.ltb_spec (k + j) n); try lia.
    simpl. eexists. split; [done|]. simpl.
    specialize (IH (j + 1) ltac:(lia) ltac:(lia)).
    replace (Z.succ (k + j)) with (k + (j + 1)) by lia.
    replace (Z.pred (Z.of_nat m - j)) with (Z.of_nat m - (j + 1)) by lia.
    unfold ex_link at 2. destruct (Z.leb_spec k (k + j)); [|lia]. simpl.
    destruct (Z.ltb_spec (k + j) (k + Z.of_nat m - 1)), (Z.ltb_spec (j + 1) (Z.of_nat m));
      try lia; [|done]. by replace (k + j + 1) with (k + (j + 1)) by lia.
Qed.

(** The sample states represent the free lists they are meant to. *)
Lemma ex_free_wf n k m :
  0 <= k -> 0 <= m -> k + m <= n <= 65536 -> alloc_wf (ex_free n k m) (seqZ k m).
Proof.
  intros. constructor; simpl; [lia | apply array_of_dom | |].
  - pose proof (ex_chain n k 0 (Z.to_nat m)) as Hc. rewrite Z2Nat.id in Hc by lia.
    rewrite Z.add_0_r, Z.sub_0_r in Hc. apply Hc; lia.
  - intros p pi Hp. rewrite array_of_lookup. destruct ((0 <=? p) && (p <? n)); [|done].
    by intros [= <-].
Qed.

Lemma ex_dir_alloc n pd k m :
  0 <= k -> 0 <= m -> k + m <= n <= 65536 -> 0 <= pd < k -> alloc_wf (ex_dir n pd k m) (seqZ k m).
Proof.
  intros. assert (W := ex_free_wf n k m ltac:(lia) ltac:(lia) ltac:(lia)).
  assert (E : pages (ex_free n k m) !! pd = Some (mkPageInfo None 0)).
  { simpl. rewrite array_of_lookup. replace ((0 <=? pd) && (pd <? n)) with true by lia.
    unfold ex_link. by replace (k <=? pd) with false by lia. }
  apply (alloc_wf_set_ref _ _ pd (mkPageInfo None 0) 1 W); [|done].
  intros Hin%elem_of_seqZ. lia.
Qed.

(** The address space of the sample state is empty. *)
Lemma ex_dir_aspace D n pd k m :
  0 <= k -> 0 <= m -> k + m <= n <= 65536 -> 0 <= pd < k ->
  aspace D (ex_dir n pd k m) (4096 * pd + KERNBASE) pd ∅ ∅ (seqZ k m) (fun _ => 0).
Proof.
  intros. constructor; [by apply ex_dir_alloc | | done |].
  - constructor; [constructor| |]; try done. simpl. lia.
  - intros p pi. unfold ref_count. rewrite !count_val_empty. simpl.
    intros [[<- <-]|[Hne Hq]]%lookup_insert_Some; simpl.
    + rewrite decide_True by done. lia.
    + rewrite decide_False by done. revert Hq. rewrite array_of_lookup.
      destruct (_ && _); [|done]. intros [= <-]. simpl. lia.
Qed.

Lemma ex_dir_cur n pd k m : cur_ok (ex_dir n pd k m).
Proof. intros e He. done. Qed.

End ExampleLemmas.
