(* ===== verification/AllocProps.v ===== *)
(** * AllocProps: what the physical page allocator promises

    The properties of [page_alloc], [page_free], [page_init] and
    [boot_alloc], each with an application to a concrete machine. *)

From S2P Require Import Prelude Machine CString Printfmt Hardware Console Kernel Pmap PageAlloc Example.

Section Lemmas.

Lemma mget_take_page fl p s f i :
  mget (mem (take_page fl p s)) f i =
  if test fl ALLOC_ZERO && bool_decide (f = p /\ 0 <= i < 1024) then 0 else mget (mem s) f i.
Proof.
  unfold take_page. destruct (test fl ALLOC_ZERO); simpl; [|done].
  rewrite mget_zero_page. repeat case_decide; repeat case_bool_decide; done.
Qed.

(** Pushing a page that is already on the list makes it point to itself or
    to a page from which it can be reached again. *)
Lemma free_chain_cycle pgs hd l p pi :
  free_chain pgs hd l -> p ∈ l -> pgs !! p = Some pi ->
  forall l', ~ free_chain (<[p := set_pp_link hd pi]> pgs) (Some p) l'.
Proof.
  intros Hc Hp Hpi l' Hc'. assert (Hnd := free_chain_NoDup _ _ _ Hc).
  apply list_elem_of_split in Hp as (l1 & l2 & ->).
  set (pgs' := <[p := set_pp_link hd pi]> pgs) in *.
  assert (Hwalk : forall m hd0 l2, NoDup (m ++ p :: l2) -> free_chain pgs hd0 (m ++ p :: l2) ->
            forall l'', free_chain pgs' hd0 l'' -> exists l3, l'' = m ++ p :: l3).
  { clear. induction m as [|q m IH]; intros hd0 l2 Hnd Hc l'' Hc''.
    - destruct Hc as [-> _], l'' as [|x l'']; [done|]. destruct Hc'' as [[= ->] _]. eauto.
    - destruct Hc as [-> (qi & Hq & Hc)], l'' as [|x l'']; [done|].
      destruct Hc'' as [[= <-] (qi' & Hq' & Hc'')].
      apply NoDup_cons in Hnd as [Hq1 Hnd]. unfold pgs' in Hq'.
      rewrite lookup_insert_ne in Hq' by (intros ->; set_solver). simplify_eq.
      destruct (IH _ _ Hnd Hc _ Hc'') as [l3 ->]. by exists l3. }
  assert (Hc2 := Hc'). destruct l' as [|x l'']; [done|]. destruct Hc2 as [[= <-] (ci & Hci & Hc2)].
  unfold pgs' in Hci. rewrite lookup_insert_eq in Hci. injection Hci as <-. simpl in Hc2.
  destruct (Hwalk _ _ _ Hnd Hc _ Hc2) as [l3 ->].
  assert (Hs := free_chain_suffix _ _ (p :: l1) p l3 Hc').
  assert (E := free_chain_det _ _ _ _ Hc' Hs). injection E as E.
  apply (f_equal length) in E. rewrite length_app in E. simpl in E. lia.
Qed.

End Lemmas.

Section Properties.

(** C11. [page_alloc] refines the abstract allocator: on a state whose free
    list represents [l] it returns the head of [l] (NULL when [l] is empty)
    and leaves a state that represents the tail; it changes no reference
    count, and with ALLOC_ZERO it clears exactly the 4096 bytes of the page
    it returns and no other word of memory. *)
Theorem page_alloc_refines s l fl (W : alloc_wf s l) :
  exists s', page_alloc fl s = (Ret (fst (spec_alloc l)), s') /\
    alloc_wf s' (snd (spec_alloc l)) /\ pages s' = pages s /\
    forall f i, mget (mem s') f i =
      if test fl ALLOC_ZERO && bool_decide (Some f = fst (spec_alloc l) /\ 0 <= i < 1024)
      then 0 else mget (mem s) f i.
Proof.
  destruct l as [|p l]; simpl.
  - exists s. rewrite page_alloc_nil by done. split_and!; [done..|].
    intros. by rewrite andb_false_r.
  - exists (take_page fl p s). rewrite (page_alloc_cons _ _ _ l) by done.
    split_and!; [done | by eapply take_page_wf | by unfold take_page; destruct (test _ _) |].
    intros. rewrite mget_take_page. repeat case_bool_decide; naive_solver.
Qed.

Lemma page_alloc_refines_witness :
  exists s', page_alloc ALLOC_ZERO (ex_free 8 3 2) = (Ret (Some 3), s') /\ alloc_wf s' [4] /\
    mget (mem s') 3 0 = 0.
Proof.
  destruct (page_alloc_refines (ex_free 8 3 2) (seqZ 3 2) ALLOC_ZERO) as (s' & H1 & H2 & _ & H4);
    [apply ex_free_wf; lia|].
  exists s'. split_and!; [exact H1 | exact H2 |]. rewrite H4. reflexivity.
Defined.

(** C12. [page_free] refines the abstract allocator: a page that is not on
    the free list is pushed on it when its reference count is 0, and is left
    alone (with the whole state) when it is not; memory is not touched. *)
Theorem page_free_refines s l p pi (W : alloc_wf s l) (Hp : pages s !! p = Some pi) (Hl : p ∉ l) :
  exists s', page_free p s = (Ret tt, s') /\ mem s' = mem s /\
    alloc_wf s' (if pp_ref pi =? 0 then spec_free p l else l) /\
    (pp_ref pi <> 0 -> s' = s).
Proof.
  destruct (Z.eqb_spec (pp_ref pi) 0) as [E|E].
  - exists (give_page p s). rewrite (page_free_zero _ _ pi) by done.
    split_and!; [done..| by eapply give_page_wf | done].
  - exists s. by rewrite (page_free_nonzero _ _ pi).
Qed.

Lemma page_free_refines_witness :
  exists s', page_free 6 (ex_free 8 3 2) = (Ret tt, s') /\ alloc_wf s' [6; 3; 4].
Proof.
  destruct (page_free_refines (ex_free 8 3 2) (seqZ 3 2) 6 (mkPageInfo None 0))
    as (s' & H1 & _ & H3 & _).
  - apply ex_free_wf; lia.
  - reflexivity.
  - apply (bool_decide_unpack _). vm_compute. exact I.
  - exists s'. split; [exact H1 | exact H3].
Defined.

(** [page_free] has no guard against a page that is already free: freeing
    such a page succeeds and leaves a cyclic list, so that no list of pages
    is represented any more. *)
Theorem page_free_twice s l p (W : alloc_wf s l) (Hp : p ∈ l) :
  exists s', page_free p s = (Ret tt, s') /\ forall l', ~ alloc_wf s' l'.
Proof.
  destruct (alloc_wf_in _ _ _ W Hp) as (pi & Hpi & Hr).
  exists (give_page p s). rewrite (page_free_zero _ _ pi) by done. split; [done|].
  intros l' W'. assert (Hc := aw_chain _ _ W'). unfold give_page in Hc. rewrite Hpi in Hc.
  simpl in Hc. revert Hc. eapply free_chain_cycle; [apply W | done | done].
Qed.

Lemma page_free_twice_witness :
  exists s', page_free 4 (ex_free 8 3 2) = (Ret tt, s') /\ forall l', ~ alloc_wf s' l'.
Proof.
  apply (page_free_twice (ex_free 8 3 2) (seqZ 3 2) 4).
  - apply ex_free_wf; lia.
  - apply (bool_decide_unpack _). vm_compute. exact I.
Defined.

(** C13. [page_init] on an array with at least the 160 pages of base memory
    succeeds without a fault, and the free list it builds holds, last pushed
    first, exactly the pages 1 to 159 except the page of MPENTRY_PADDR and
    the pages from 700 on; memory is not touched.  The list is a proper one
    in the sense of [check_page_free_list] -- it has no page of extended
    memory below the first free one, [boot_alloc(0)] -- exactly when memory
    ends before page 700 or the kernel's boot-time data ends at page 700 or
    below; otherwise [page_init] frees pages of the kernel's data. *)
Theorem page_init_free_list end_ s
  (Hn : 160 <= npages s <= 65536)
  (Hdom : forall p, is_Some (pages s !! p) <-> 0 <= p < npages s)
  (Hfl : page_free_list s = None) (Hnf : KERNBASE <= nextfree s < 2 ^ 32) :
  exists s' l, page_init end_ s = (Ret tt, s') /\ mem s' = mem s /\
    alloc_wf s' l /\ l = rev (filter (fun i => i <> 7) (seqZ 1 159) ++ seqZ 700 (npages s - 700)) /\
    (forall p, p ∈ l <-> 1 <= p < 160 /\ p <> PGNUM MPENTRY_PADDR \/ 700 <= p < npages s) /\
    ((forall p, p ∈ l -> page2pa p < EXTPHYSMEM \/ nextfree s <= page2pa p + KERNBASE) <->
      npages s <= 700 \/ nextfree s <= page2pa 700 + KERNBASE).
Proof.
  destruct (page_init_eq end_ s Hn Hdom Hfl Hnf) as (pgs & hd & Hrun & HW).
  assert (Hin : forall p, p ∈ rev (init_pages (npages s)) <-> 1 <= p < 160 /\ p <> 7 \/ 700 <= p < npages s).
  { intros p. rewrite <- init_pages_elem. by rewrite !list_elem_of_In, <- in_rev. }
  eexists _, _. split_and!; [exact Hrun | done | exact HW | done | exact Hin |]. change EXTPHYSMEM with 1048576. split.
  - intros H. destruct (Z.leb_spec (npages s) 700) as [|Hlt]; [by left | right].
    destruct (H 700) as [H7|]; [apply Hin; lia | rewrite page2pa_eq in H7 by lia; lia | done].
  - intros H p Hp%Hin. rewrite page2pa_eq in H by lia. rewrite !page2pa_eq by lia. lia.
Qed.

Lemma page_init_free_list_witness :
  exists s' l, page_init 0 (ex_boot 1024) = (Ret tt, s') /\ alloc_wf s' l /\ 1023 ∈ l.
Proof.
  destruct (page_init_free_list 0 (ex_boot 1024)) as (s' & l & H1 & _ & H3 & _ & H5 & _).
  - simpl; lia.
  - apply ex_boot_dom.
  - reflexivity.
  - simpl; unfold KERNBASE; lia.
  - exists s', l. split_and!; [exact H1 | exact H3 | apply H5; simpl; lia].
Defined.

(** The boundary 700 of [page_init] does not depend on what [boot_alloc]
    has handed out (the variable [up] is not used): on a machine with more
    than 700 pages whose boot-time data ends beyond page 701, [page_init]
    puts pages on the free list that lie below [boot_alloc(0)], hence belong
    to the kernel's own data. *)
Theorem page_init_frees_kernel_data end_ s
  (Hn : 700 < npages s <= 65536)
  (Hdom : forall p, is_Some (pages s !! p) <-> 0 <= p < npages s)
  (Hfl : page_free_list s = None)
  (Hnf : KERNBASE + 701 * PGSIZE <= nextfree s < 2 ^ 32) :
  exists s' l, page_init end_ s = (Ret tt, s') /\ alloc_wf s' l /\
    700 ∈ l /\ page2pa 700 + PGSIZE <= nextfree s - KERNBASE.
Proof.
  unfold PGSIZE in *.
  destruct (page_init_eq end_ s) as (pgs & hd & Hrun & HW); [lia | done | done | lia |].
  eexists _, _. split_and!; [exact Hrun | exact HW | |].
  - rewrite list_elem_of_In, <- in_rev, <- list_elem_of_In. apply init_pages_elem. lia.
  - rewrite page2pa_eq by lia. lia.
Qed.

Lemma page_init_frees_kernel_data_witness :
  exists s' l, page_init 0 (set_nextfree (KERNBASE + 0x300000) (ex_boot 1024)) = (Ret tt, s') /\
    alloc_wf s' l /\ 700 ∈ l.
Proof.
  destruct (page_init_frees_kernel_data 0 (set_nextfree (KERNBASE + 0x300000) (ex_boot 1024)))
    as (s' & l & H1 & H2 & H3 & _).
  - simpl; lia.
  - apply ex_boot_dom.
  - reflexivity.
  - simpl; unfold KERNBASE, PGSIZE; lia.
  - exists s', l. split_and!; [exact H1 | exact H2 | exact H3].
Defined.

End Properties.
