(* ===== verification/UserMem.v ===== *)
(** * UserMem: checking memory that user code hands to the kernel

    [accessible] says when an environment may access an address with given
    permission bits, straight from the two levels of its page tables;
    [user_mem_check] of kern/pmap.c decides it for a range of addresses. *)

From S2P Require Import Prelude Machine CString Printfmt Hardware Console Kernel Pmap PageAlloc PageTable.
From S2P Require Import Example.

(** The directory at [pgdir] is page [pd], and its present entries point to
    existing pages. *)
Record dir_ok (s : kstate) (pgdir pd : Z) : Prop := mkDirOk {
  do_dir : pgdir = 4096 * pd + KERNBASE;
  do_pd : 0 <= pd < npages s;
  do_npages : npages s <= 65536;
  do_entries : forall i, 0 <= i < 1024 -> test (mget (mem s) pd i) PTE_P = true ->
    0 <= mget (mem s) pd i / 4096 < npages s;
}.

(** The entry for address [a] through directory page [pd], [None] without a
    page table. *)
Definition pte_at (s : kstate) (pd a : Z) : option Z :=
  let d := mget (mem s) pd (PDX a) in
  if test d PTE_P then Some (mget (mem s) (d / 4096) (PTX a)) else None.

Definition accessible (s : kstate) (pd perm a : Z) : bool :=
  (a <? ULIM) && from_option (fun d => Z.land d perm =? perm) false (pte_at s pd a).

Section Walking.

Context (s : kstate) (pgdir pd : Z) (Hdir : dir_ok s pgdir pd).

Lemma dir_walk a :
  exists p, pgdir_walk pgdir a 0 s = (Ret p, s) /\
    match pte_at s pd a with
    | None => p = 0
    | Some d => p <> 0 /\ kload p s = (Ret d, s)
    end.
Proof.
  destruct Hdir as [H1 H2 H3 H4]. pose proof (PDX_range a) as Hi. pose proof (PTX_range a) as Hj.
  unfold pgdir_walk, pte_at. rewrite H1.
  replace (u32 (4096 * pd + KERNBASE + 4 * PDX a)) with (4096 * pd + 4 * PDX a + KERNBASE);
    [|unfold KERNBASE; rewrite u32_small; lia].
  erewrite bind_Ret; [|apply kload_word; lia].
  destruct (test (mget (mem s) pd (PDX a)) PTE_P) eqn:E; [|by exists 0].
  specialize (H4 _ Hi E). set (d := mget (mem s) pd (PDX a)) in *.
  replace (PTE_ADDR d) with (4096 * (d / 4096)) by (rewrite PTE_ADDR_mod; zdm).
  erewrite bind_Ret; [|apply KADDR_page; lia].
  exists (4096 * (d / 4096) + 4 * PTX a + KERNBASE). split.
  - unfold KERNBASE. rewrite u32_small by lia. unfold mret, K_ret. do 2 f_equal. lia.
  - split; [unfold KERNBASE; lia | apply kload_word; lia].
Qed.

(** Access rights are those of the page. *)
Lemma accessible_page perm a b : 0 <= a -> a / 4096 = b / 4096 -> accessible s pd perm a = accessible s pd perm b.
Proof.
  intros Ha E. unfold accessible, pte_at.
  rewrite !PTX_div, !PDX_div, <- !E. replace (b / 4194304) with (a / 4194304) by zdm.
  assert (HU : ULIM = 4096 * 980992) by reflexivity. rewrite HU.
  destruct (Z.ltb_spec a (4096 * 980992)), (Z.ltb_spec b (4096 * 980992)); try done; zdm.
Qed.

End Walking.

Section Checking.

Context (s : kstate) (e : Z) (v : Env) (pd : Z).
Hypothesis He : envs s !! e = Some v.
Hypothesis Hdir : dir_ok s (env_pgdir v) pd.

(** The verdict on the range from [start] to [end_]. *)
Inductive verdict (perm start end_ : Z) : outcome Z * kstate -> Prop :=
| verdict_ok :
    (forall a, start <= a < end_ -> accessible s pd perm a = true) ->
    verdict perm start end_ (Ret 0, s)
| verdict_bad a :
    start <= a < end_ -> accessible s pd perm a = false ->
    (forall b, start <= b < a -> accessible s pd perm b = true) ->
    verdict perm start end_ (Ret (- E_FAULT), set_user_mem_check_addr a s).

Lemma loop_step fuel start end_ perm :
  start < end_ ->
  user_mem_check_loop (S fuel) e start end_ perm s =
  if accessible s pd perm start
  then user_mem_check_loop fuel e (u32 (ROUNDDOWN start PGSIZE + PGSIZE)) end_ perm s
  else (Ret (- E_FAULT), set_user_mem_check_addr start s).
Proof.
  intros Hlt. cbn [user_mem_check_loop]. destruct (Z.ltb_spec start end_); [|lia]. cbn [negb].
  unfold accessible. destruct (Z.leb_spec ULIM start), (Z.ltb_spec start ULIM); try lia; [done|].
  erewrite bind_Ret; [|by apply env_get_eq].
  destruct (dir_walk s (env_pgdir v) pd Hdir start) as (p & Hp & Hpte).
  erewrite bind_Ret; [|exact Hp]. destruct (pte_at s pd start) as [d|].
  - destruct Hpte as [Hne Hld]. destruct (Z.eqb_spec p 0); [done|].
    erewrite bind_Ret; [|erewrite bind_Ret; [reflexivity | exact Hld]].
    cbn [andb from_option]. by destruct (Z.land d perm =? perm).
  - subst p. cbn [Z.eqb]. erewrite bind_Ret; [|reflexivity]. done.
Qed.

Lemma loop_verdict perm end_ : end_ < 2 ^ 32 -> forall fuel start,
  0 <= start -> end_ - (start - start `mod` 4096) <= 4096 * Z.of_nat fuel ->
  verdict perm start end_ (user_mem_check_loop (S fuel) e start end_ perm s).
Proof.
  intros Hend. induction fuel as [|fuel IH]; intros start Hs Hf.
  all: destruct (decide (end_ <= start)) as [Hge|Hlt];
    [cbn [user_mem_check_loop]; destruct (Z.ltb_spec start end_); [lia|]; constructor; lia|].
  - exfalso. revert Hf Hlt. zdm.
  - rewrite loop_step by lia. destruct (accessible s pd perm start) eqn:Hok; cycle 1.
    { apply verdict_bad; [lia | done | lia]. }
    assert (HU : start < ULIM) by (unfold accessible in Hok; destruct (Z.ltb_spec start ULIM); done).
    assert (HU2 : ULIM = 4096 * 980992) by reflexivity.
    set (next := start - start `mod` 4096 + 4096).
    assert (En : u32 (ROUNDDOWN start PGSIZE + PGSIZE) = next).
    { rewrite ROUNDDOWN_small by lia. unfold PGSIZE. rewrite u32_small; [done|].
      pose proof (Z.mod_pos_bound start 4096). lia. }
    rewrite En. pose proof (Z.mod_pos_bound start 4096).
    assert (Hpage : forall b, start <= b < next -> accessible s pd perm b = true).
    { intros b Hb. rewrite <- Hok. symmetry. apply accessible_page; [done|].
      unfold next in Hb. zdm. }
    assert (Hm : next `mod` 4096 = 0) by (unfold next; zdm).
    destruct (IH next) as [Hall|a Ha Hbad Hpre]; [unfold next; lia | rewrite Hm; unfold next; lia | |].
    + constructor. intros b Hb. destruct (decide (b < next)); [apply Hpage | apply Hall]; lia.
    + apply verdict_bad; [unfold next in *; lia | done |].
      intros b Hb. destruct (decide (b < next)); [apply Hpage | apply Hpre]; lia.
Qed.

Lemma check_verdict va len perm :
  0 <= va -> 0 <= len -> va + len < 2 ^ 32 -> 0 <= perm < 2 ^ 32 ->
  verdict (Z.lor perm (Z.lor PTE_U PTE_P)) va (va + len) (user_mem_check e va len perm s).
Proof.
  intros Hva Hlen Hend Hperm. unfold user_mem_check.
  rewrite (u32_small va), (u32_small (va + len)) by lia.
  rewrite <- Z.lor_assoc, (u32_small (Z.lor perm _)); cycle 1.
  { apply (lor_range _ _ 32); [lia..|]. change (Z.lor PTE_U PTE_P) with 5. lia. }
  replace (Z.to_nat (len / PGSIZE) + 3)%nat with (S (Z.to_nat (len / PGSIZE) + 2)) by lia.
  apply loop_verdict; [done..|]. unfold PGSIZE. zdm.
Qed.

End Checking.
