(* ===== verification/PtProps.v ===== *)
(** * PtProps: what the page-table operations promise

    Address spaces as finite maps: [page_insert], [page_lookup] and
    [page_remove] are insertion, lookup and deletion; [user_mem_check] decides
    access to a range, except when the range wraps around. *)

From S2P Require Import Prelude Machine CString Printfmt Hardware Console Kernel Pmap PageAlloc PageTable.
From S2P Require Import Example UserMem.

Section Lemmas.

(** Concrete directories used below: every index belongs to the space. *)
Definition every (i : Z) : Prop := True.

Lemma ex_dir_page n pd k m p :
  0 <= p < k -> p <> pd -> k <= n -> 0 <= m -> pages (ex_dir n pd k m) !! p = Some (mkPageInfo None 0).
Proof.
  intros. simpl. rewrite lookup_insert_ne by done. rewrite array_of_lookup.
  replace ((0 <=? p) && (p <? n)) with true by lia. unfold ex_link.
  by replace (k <=? p) with false by lia.
Qed.

(** An address space that covers the directory makes it well formed. *)
Lemma tables_dir_ok s pgdir pd T :
  tables_wf every s pgdir pd T -> npages s <= 65536 -> dir_ok s pgdir pd.
Proof.
  intros W Hn. constructor; [apply W..|done|]. intros i Hi Hp.
  destruct (T !! i) as [t|] eqn:Ht.
  - destruct (tw_some _ _ _ _ _ W _ _ Ht) as (_ & _ & Htr & _ & _ & E).
    rewrite PTE_ADDR_mod in E. replace (mget (mem s) pd i / 4096) with t by zdm. done.
  - rewrite (tw_none _ _ _ _ _ W _ Hi I Ht) in Hp. done.
Qed.

(** Environment 0 with the page 2 mapped at 0x5000. *)
Definition ex_mapped : kstate := snd (page_insert (4096 * 1 + KERNBASE) 2 0x5000 6 (ex_dir 16 1 3 2)).
Definition ex_mapped_env : Env := set_env_pgdir (4096 * 1 + KERNBASE) ex_env.
Definition ex_user : kstate := set_envs {[ 0 := ex_mapped_env ]} ex_mapped.

Lemma ex_mapped_aspace (D : Z -> Prop) : D 0 ->
  mm_eq (ex_dir 16 1 3 2) ex_mapped /\
  aspace D ex_mapped (4096 * 1 + KERNBASE) 1 {[ 0 := 3 ]} {[ 5 := (2, 7) ]} [4] (fun _ => 0).
Proof.
  intros HD. pose proof (page_insert_eq D (ex_dir 16 1 3 2) (4096 * 1 + KERNBASE) 1 ∅ ∅ (seqZ 3 2)
    (fun _ => 0) 2 0x5000 6 (mkPageInfo None 0)
    (ex_dir_aspace D 16 1 3 2 ltac:(lia) ltac:(lia) ltac:(lia) ltac:(lia))
    (ex_dir_cur 16 1 3 2) HD ltac:(lia) (ex_dir_page 16 1 3 2 2 ltac:(lia) ltac:(lia) ltac:(lia) ltac:(lia))
    ltac:(intros Hin%elem_of_seqZ; lia) ltac:(simpl; lia) ltac:(lia)) as Hw.
  destruct Hw as (s1 & H1 & H2 & _ & H4). unfold ex_mapped. rewrite H1. split; [exact H2 | exact H4].
Qed.

Lemma dir_ok_set_envs s E pgdir pd : dir_ok s pgdir pd -> dir_ok (set_envs E s) pgdir pd.
Proof. intros []. by constructor. Qed.

Lemma ex_user_dir : dir_ok ex_user (env_pgdir ex_mapped_env) 1.
Proof.
  destruct (ex_mapped_aspace every I) as [Hm Ha]. pose proof (aw_npages _ _ (as_alloc _ _ _ _ _ _ _ _ Ha)) as [_ Hn].
  apply dir_ok_set_envs.
  exact (tables_dir_ok _ _ _ _ (sw_tables _ _ _ _ _ _ (as_space _ _ _ _ _ _ _ _ Ha)) Hn).
Qed.

End Lemmas.

(** C5. [page_insert] refines insertion into the finite map from virtual
    pages to physical pages: on a state that represents the map [A], the page
    tables [T] and the free list [l], it does what [spec_insert] says -- it
    fails with -E_NO_MEM, changing nothing at all, exactly when a page table
    is needed and no page is free, and otherwise returns 0 in a state that
    represents the map with the new entry, with exact reference counts for
    all pages and with the page mapped before freed when that was its last
    reference; memory outside the page tables is untouched. *)
Theorem page_insert_refines D s pgdir pd T A l ext pp va fl pi
  (H : aspace D s pgdir pd T A l ext) (Hc : cur_ok s) (Hd : D (PDX va)) (Hva : 0 <= va < 2 ^ 32)
  (Hpi : pages s !! pp = Some pi) (Hl : pp ∉ l) (Hr : pp_ref pi + 1 < 2 ^ 16) (Hfl : 0 <= fl < 4096) :
  match spec_insert pd ext pp (PGNUM va) fl T A l with
  | None => page_insert pgdir pp va fl s = (Ret (- E_NO_MEM), s)
  | Some (T', A', l') =>
      exists s', page_insert pgdir pp va fl s = (Ret 0, s') /\ mm_eq s s' /\ mem_frame pd T' s s' /\
        aspace D s' pgdir pd T' A' l' ext
  end.
Proof. by eapply page_insert_eq. Qed.

Lemma page_insert_refines_witness :
  exists s', page_insert (4096 + KERNBASE) 2 0x5000 6 (ex_dir 16 1 3 2) = (Ret 0, s') /\
    aspace every s' (4096 + KERNBASE) 1 {[ 0 := 3 ]} {[ 5 := (2, 7) ]} [4] (fun _ => 0).
Proof.
  pose proof (page_insert_refines every (ex_dir 16 1 3 2) (4096 * 1 + KERNBASE) 1 ∅ ∅ (seqZ 3 2)
    (fun _ => 0) 2 0x5000 6 (mkPageInfo None 0)
    (ex_dir_aspace every 16 1 3 2 ltac:(lia) ltac:(lia) ltac:(lia) ltac:(lia))
    (ex_dir_cur 16 1 3 2) I ltac:(lia) (ex_dir_page 16 1 3 2 2 ltac:(lia) ltac:(lia) ltac:(lia) ltac:(lia))
    ltac:(intros Hin%elem_of_seqZ; lia) ltac:(simpl; lia) ltac:(lia)) as Hw.
  destruct Hw as (s' & H1 & _ & _ & H4). exists s'. split; [exact H1 | exact H4].
Defined.

(** C6. [page_insert] then [page_lookup]: after a successful insertion of
    [pp] at [va], looking up an address on the same virtual page finds [pp],
    and looking up any other address finds what it found before. *)
Theorem page_insert_lookup D s s' pgdir pd T A l ext pp va fl pi va'
  (H : aspace D s pgdir pd T A l ext) (Hc : cur_ok s) (Hd : D (PDX va)) (Hva : 0 <= va < 2 ^ 32)
  (Hpi : pages s !! pp = Some pi) (Hl : pp ∉ l) (Hr : pp_ref pi + 1 < 2 ^ 16) (Hfl : 0 <= fl < 4096)
  (Hrun : page_insert pgdir pp va fl s = (Ret 0, s')) (Hd' : D (PDX va')) (Hva' : 0 <= va' < 2 ^ 32) :
  exists q q' o o', page_lookup pgdir va' s = (Ret (q, o), s) /\ page_lookup pgdir va' s' = (Ret (q', o'), s') /\
    q' = (if PGNUM va' =? PGNUM va then Some pp else q).
Proof.
  pose proof (page_insert_eq D s pgdir pd T A l ext pp va fl pi H Hc Hd Hva Hpi Hl Hr Hfl) as Hi.
  destruct (spec_insert pd ext pp (PGNUM va) fl T A l) as [[[T' A'] l']|] eqn:Es;
    [|rewrite Hi in Hrun; discriminate Hrun].
  destruct Hi as (s2 & Hrun2 & Hmm & _ & H'). rewrite Hrun in Hrun2. injection Hrun2 as <-.
  pose proof (aw_npages _ _ (as_alloc _ _ _ _ _ _ _ _ H)) as [_ Hn].
  pose proof (aw_npages _ _ (as_alloc _ _ _ _ _ _ _ _ H')) as [_ Hn'].
  do 4 eexists. split; [by eapply page_lookup_eq; [apply H|..]|].
  split; [by eapply page_lookup_eq; [apply H'|..]|].
  unfold spec_insert in Es. destruct (spec_table _ _ _) as [[T1 l1]|]; [|done]. injection Es as <- <- <-.
  destruct (Z.eqb_spec (PGNUM va') (PGNUM va)) as [->|Hne].
  - by rewrite lookup_insert_eq.
  - by rewrite lookup_insert_ne.
Qed.

Lemma page_insert_lookup_witness :
  let s' := snd (page_insert (4096 * 1 + KERNBASE) 2 0x5000 6 (ex_dir 16 1 3 2)) in
  exists q q' o o',
    page_lookup (4096 * 1 + KERNBASE) 0x5123 (ex_dir 16 1 3 2) = (Ret (q, o), ex_dir 16 1 3 2) /\
    page_lookup (4096 * 1 + KERNBASE) 0x5123 s' = (Ret (q', o'), s') /\ q' = Some 2.
Proof.
  exact (page_insert_lookup every (ex_dir 16 1 3 2)
    (snd (page_insert (4096 * 1 + KERNBASE) 2 0x5000 6 (ex_dir 16 1 3 2)))
    (4096 * 1 + KERNBASE) 1 ∅ ∅ (seqZ 3 2)
    (fun _ => 0) 2 0x5000 6 (mkPageInfo None 0) 0x5123
    (ex_dir_aspace every 16 1 3 2 ltac:(lia) ltac:(lia) ltac:(lia) ltac:(lia))
    (ex_dir_cur 16 1 3 2) I ltac:(lia) (ex_dir_page 16 1 3 2 2 ltac:(lia) ltac:(lia) ltac:(lia) ltac:(lia))
    ltac:(intros Hin%elem_of_seqZ; lia) ltac:(simpl; lia) ltac:(lia)
    (run_snd _ _ ltac:(vm_compute; reflexivity)) I ltac:(lia)).
Defined.

(** C7. [page_remove] refines deletion from the map: the entry of the
    virtual page disappears and no other, the reference count of the page it
    mapped drops by one and the page goes to the head of the free list
    exactly when nothing refers to it any more; where nothing was mapped the
    whole state stays as it is.  The translation is invalidated in the TLB
    when no environment runs or the current one uses this directory. *)
Theorem page_remove_refines D s pgdir pd T A l ext va
  (H : aspace D s pgdir pd T A l ext) (Hc : cur_ok s) (Hd : D (PDX va)) (Hva : 0 <= va < 2 ^ 32) :
  exists s', page_remove pgdir va s = (Ret tt, s') /\
    (let '(A', l') := spec_remove pd ext T (PGNUM va) A l in aspace D s' pgdir pd T A' l' ext) /\
    mm_eq s s' /\ mem_frame pd T s s' /\
    tlb_log s' = match A !! PGNUM va with Some _ => tlb_log (flush pgdir va s) | None => tlb_log s end.
Proof.
  unfold spec_remove. destruct (A !! PGNUM va) as [e|] eqn:Hv.
  - destruct (page_remove_some _ _ _ _ _ _ _ _ _ _ H Hc Hd Hva Hv) as [Hrun Has].
    eexists. split; [exact Hrun|]. split; [exact Has|].
    destruct (entry_table _ _ _ _ _ _ _ _ (as_space _ _ _ _ _ _ _ _ H) Hva Hv) as [t Ht].
    split; [apply removed_mm|]. split; [by eapply removed_frame|].
    unfold removed, put_pte, flush, dec_page, give_page. simpl.
    destruct (u16 _ =? 0); cbn [set_pages set_page_free_list curenv envs tlb_log];
      unfold curenv, thiscpu; simpl;
      destruct (cpu_env _) as [e'|]; simpl; try done; destruct (envs s !! e') as [v|]; simpl; try done;
      by destruct (env_pgdir v =? pgdir).
  - exists s. rewrite (page_remove_none D s pgdir pd T A l ext va) by done. split_and!; auto with jos.
Qed.

Lemma page_remove_refines_witness :
  exists s', page_remove (4096 * 1 + KERNBASE) 0x5000 ex_mapped = (Ret tt, s') /\
    aspace every s' (4096 * 1 + KERNBASE) 1 {[ 0 := 3 ]} ∅ [2; 4] (fun _ => 0).
Proof.
  destruct (ex_mapped_aspace every I) as [Hm Ha].
  destruct (page_remove_refines every ex_mapped _ _ _ _ _ _ 0x5000 Ha
    (mm_eq_cur_ok _ _ Hm (ex_dir_cur 16 1 3 2)) I ltac:(lia)) as (s' & R1 & R2 & _).
  exists s'. split; [exact R1 | exact R2].
Defined.

(** C8. [user_mem_check] decides access to a range that does not wrap: it
    returns 0 and leaves the state alone exactly when every address of the
    range lies below ULIM on a page mapped with all the permission bits (and
    PTE_U, PTE_P); otherwise it returns -E_FAULT with [user_mem_check_addr]
    set to the first address that fails. *)
Theorem user_mem_check_decides s e v pd va len perm
  (He : envs s !! e = Some v) (Hdir : dir_ok s (env_pgdir v) pd)
  (Hva : 0 <= va) (Hlen : 0 <= len) (Hend : va + len < 2 ^ 32) (Hperm : 0 <= perm < 2 ^ 32) :
  verdict s pd (Z.lor perm (Z.lor PTE_U PTE_P)) va (va + len) (user_mem_check e va len perm s).
Proof. by eapply check_verdict. Qed.

Lemma user_mem_check_decides_witness :
  verdict ex_user 1 7 0x5000 0x5800 (user_mem_check 0 0x5000 0x800 PTE_W ex_user).
Proof.
  exact (user_mem_check_decides ex_user 0 ex_mapped_env 1 0x5000 0x800 PTE_W eq_refl ex_user_dir
    ltac:(lia) ltac:(lia) ltac:(lia) ltac:(unfold PTE_W; lia)).
Defined.

(** [user_mem_check] accepts every range that wraps around the end of the
    address space: when the 32-bit sum of start and length is not above the
    start, the loop body never runs and the answer is 0 whatever the page
    tables say, kernel addresses included. *)
Lemma user_mem_check_wraps s e va len perm
  (Hva : 0 <= va < 2 ^ 32) (Hwrap : u32 (va + len) <= va) :
  user_mem_check e va len perm s = (Ret 0, s).
Proof.
  unfold user_mem_check. rewrite (u32_small va) by done.
  replace (Z.to_nat (len / PGSIZE) + 3)%nat with (S (Z.to_nat (len / PGSIZE) + 2)) by lia.
  cbn [user_mem_check_loop]. by destruct (Z.ltb_spec va (u32 (va + len))); [lia|].
Qed.

Lemma user_mem_check_wraps_witness :
  user_mem_check 0 KERNBASE 0x10000000 PTE_W (ex_boot 8) = (Ret 0, ex_boot 8).
Proof. apply user_mem_check_wraps; [unfold KERNBASE; lia | vm_compute; discriminate]. Defined.
