(* ===== verification/BootMap.v ===== *)
(** * BootMap: static mappings of the kernel's address space

    [boot_map_region] and [mmio_map_region] of kern/pmap.c: page-table entries
    as a function of the virtual page, page tables taken from the free list
    as they are needed. *)

From S2P Require Import Prelude Machine CString Printfmt Hardware Console Kernel Pmap PageAlloc PageTable.
From S2P Require Import Example.

(** The entry of virtual page [v] (0 when it has no page table). *)
Definition pte_val (s : kstate) (T : gmap Z Z) (v : Z) : Z :=
  match T !! (v / 1024) with Some t => mget (mem s) t (v `mod` 1024) | None => 0 end.

(** No free page is in use as a directory or page table. *)
Definition unused (pd : Z) (T : gmap Z Z) (l : list Z) : Prop :=
  forall p, p ∈ l -> p <> pd /\ forall i, T !! i <> Some p.

(** The tables needed for [n] pages from [va] on, allocated in this order;
    [None] when the free pages do not suffice. *)
Fixpoint spec_tables (n : nat) (va : Z) (T : gmap Z Z) (l : list Z) : option (gmap Z Z * list Z) :=
  match n with
  | O => Some (T, l)
  | S n' =>
      match spec_table (PDX va) T l with
      | None => None
      | Some (T', l') => spec_tables n' (u32 (va + PGSIZE)) T' l'
      end
  end.

(** The entries afterwards. *)
Definition mapped_entry (va pa perm : Z) (n : nat) (v : Z) (old : Z) : Z :=
  if decide (PGNUM va <= v < PGNUM va + Z.of_nat n)
  then pa + 4096 * (v - PGNUM va) + Z.lor perm PTE_P
  else old.

Record boot_wf (D : Z -> Prop) (s : kstate) (pgdir pd : Z) (T : gmap Z Z) (l : list Z) : Prop := mkBootWf {
  bw_tables : tables_wf D s pgdir pd T;
  bw_alloc : alloc_wf s l;
  bw_unused : unused pd T l;
}.

Section BootMap.

Context (D : Z -> Prop) (pgdir pd : Z).

Lemma unused_tail T t l i :
  NoDup (t :: l) -> unused pd T (t :: l) -> unused pd (<[i := t]> T) l.
Proof.
  intros [Hn _]%NoDup_cons H p Hp. destruct (H p) as [H1 H2]; [by apply elem_of_cons; right|].
  split; [done|]. intros j. rewrite lookup_insert. case_decide; [|done]. intros [= ->]. done.
Qed.

(** [pgdir_walk] with [create] set: the table is there afterwards, and the
    entries are what they were. *)
Lemma walk_spec s T l va :
  boot_wf D s pgdir pd T l -> D (PDX va) -> 0 <= va < 2 ^ 32 ->
  match spec_table (PDX va) T l with
  | None => pgdir_walk pgdir va 1 s = (Ret 0, s)
  | Some (T', l') =>
      exists s' t, pgdir_walk pgdir va 1 s = (Ret (pte_ptr t va), s') /\ T' !! PDX va = Some t /\
        boot_wf D s' pgdir pd T' l' /\ mm_eq s s' /\
        (forall v, 0 <= v < 2 ^ 20 -> pte_val s' T' v = pte_val s T v)
  end.
Proof.
  intros [W Ha Hu] Hd Hva. unfold spec_table. pose proof (aw_npages _ _ Ha) as [_ Hn].
  destruct (T !! PDX va) as [t|] eqn:Ht.
  { exists s, t. split; [by eapply walk_present|]. split_and!; auto with jos. by constructor. }
  destruct l as [|t l]; [exact (walk_nomem _ _ _ _ _ _ _ W Ha Hd Ht)|].
  destruct (Hu t (list_elem_of_here t l)) as [Hpd Hf].
  exists (new_table pd (PDX va) t s), t.
  assert (Htr := alloc_wf_range _ _ t Ha (list_elem_of_here t l)).
  split; [apply (walk_create D s pgdir pd T va 1 t l W Ha Hd Ht); lia|].
  split; [apply lookup_insert_eq|]. split; [|split; [apply new_table_mm|]].
  - constructor.
    + apply new_table_tables; try assumption. apply PDX_range.
    + by apply new_table_alloc.
    + apply unused_tail; [by eapply alloc_wf_NoDup | done].
  - intros v Hv. unfold pte_val. rewrite lookup_insert. case_decide as E.
    + rewrite E in Ht. rewrite Ht, new_table_mem. pose proof (Z.mod_pos_bound v 1024).
      repeat case_decide; naive_solver lia.
    + destruct (T !! (v / 1024)) as [u|] eqn:Hu'; [|done].
      destruct (tw_some _ _ _ _ _ W _ _ Hu') as (_ & _ & _ & Hne & _).
      rewrite new_table_mem, decide_False, decide_False; [done | |naive_solver].
      intros [-> _]. by apply (Hf (v / 1024)).
Qed.

(** Storing one entry. *)
Lemma put_pte_boot s T l va t w :
  boot_wf D s pgdir pd T l -> T !! PDX va = Some t -> 0 <= va < 2 ^ 32 ->
  boot_wf D (put_pte t (PTX va) w s) pgdir pd T l /\
  forall v, 0 <= v < 2 ^ 20 ->
    pte_val (put_pte t (PTX va) w s) T v = if decide (v = PGNUM va) then w else pte_val s T v.
Proof.
  intros [W Ha Hu] Ht Hva. split.
  - constructor; [by eapply put_pte_tables | by apply put_pte_alloc | done].
  - intros v Hv. unfold pte_val. destruct (T !! (v / 1024)) as [u|] eqn:Hu'.
    + simpl. rewrite mget_mset. destruct (decide (v = PGNUM va)) as [->|Hne].
      * rewrite PGNUM_tab. rewrite PGNUM_dir in Hu' by done.
        rewrite decide_True by (split; congruence). done.
      * rewrite decide_False; [done|]. intros [<- E]. apply Hne. symmetry.
        rewrite <- PGNUM_tab in E. rewrite <- PGNUM_dir in Ht by done.
        exact (slot_inj D s pgdir pd T _ _ _ W Ht Hu' E).
    + case_decide; [|done]. subst v. rewrite PGNUM_dir in Hu' by done. congruence.
Qed.

Lemma boot_entry pa perm :
  0 <= pa < 2 ^ 32 -> pa `mod` 4096 = 0 -> 0 <= perm < 4096 ->
  u32 (u32 (Z.lor (Z.lor pa perm) PTE_P)) = pa + Z.lor perm PTE_P.
Proof.
  intros Hpa Hal Hperm. pose proof (flags_range perm Hperm).
  rewrite <- Z.lor_assoc. assert (E : pa = 4096 * (pa / 4096)) by zdm.
  rewrite E at 1. rewrite entry_lor by done. rewrite <- E.
  assert (pa + Z.lor perm PTE_P < 2 ^ 32) by zdm.
  by rewrite (u32_small (u32 _)), u32_small by (apply u32_range || lia).
Qed.

(** One iteration of the loop of [boot_map_region]. *)
Lemma boot_step s T l va pa perm :
  boot_wf D s pgdir pd T l -> D (PDX va) -> 0 <= va < 2 ^ 32 -> 0 <= pa < 2 ^ 32 ->
  pa `mod` 4096 = 0 -> 0 <= perm < 4096 ->
  let body := (pte ← pgdir_walk pgdir va 1; kstore pte (u32 (Z.lor (Z.lor pa perm) PTE_P))) in
  match spec_table (PDX va) T l with
  | None => body s = (Stop (SFault 0), s)
  | Some (T', l') =>
      exists s', body s = (Ret tt, s') /\ boot_wf D s' pgdir pd T' l' /\ mm_eq s s' /\
        forall v, 0 <= v < 2 ^ 20 ->
          pte_val s' T' v = if decide (v = PGNUM va) then pa + Z.lor perm PTE_P else pte_val s T v
  end.
Proof.
  intros HW Hd Hva Hpa Hal Hperm body. pose proof (walk_spec s T l va HW Hd Hva) as Hw. unfold body.
  destruct (spec_table (PDX va) T l) as [[T1 l1]|]; [|by rewrite (bind_Ret _ _ _ _ _ Hw)].
  destruct Hw as (s1 & t & Hw & Ht & HW1 & Hmm & Hval). rewrite (bind_Ret _ _ _ _ _ Hw).
  destruct (put_pte_boot s1 T1 l1 va t (pa + Z.lor perm PTE_P) HW1 Ht Hva) as [HW2 Hval2].
  exists (put_pte t (PTX va) (pa + Z.lor perm PTE_P) s1). split_and!.
  - rewrite (kstore_pte D s1 pgdir pd T1 t va) by (apply HW1 || exact Ht). by rewrite boot_entry.
  - exact HW2.
  - eapply mm_eq_trans; [exact Hmm | apply put_pte_mm].
  - intros v Hv. by rewrite Hval2, Hval.
Qed.

Lemma boot_map_loop_eq n : forall s T l va pa perm,
  boot_wf D s pgdir pd T l -> (forall a, va <= a < va + 4096 * Z.of_nat n -> D (PDX a)) ->
  0 <= va -> va + 4096 * Z.of_nat n <= 2 ^ 32 -> 0 <= pa -> pa + 4096 * Z.of_nat n <= 2 ^ 32 ->
  va `mod` 4096 = 0 -> pa `mod` 4096 = 0 -> 0 <= perm < 4096 ->
  match spec_tables n va T l with
  | None => exists s', boot_map_loop n pgdir va pa perm s = (Stop (SFault 0), s')
  | Some (T', l') =>
      exists s', boot_map_loop n pgdir va pa perm s = (Ret tt, s') /\
        boot_wf D s' pgdir pd T' l' /\ mm_eq s s' /\
        forall v, 0 <= v < 2 ^ 20 -> pte_val s' T' v = mapped_entry va pa perm n v (pte_val s T v)
  end.
Proof.
  induction n as [|n IH]; intros s T l va pa perm HW HD Hva Hend Hpa Hpend Hal Hpal Hperm.
  { exists s. split_and!; auto with jos. intros v Hv. unfold mapped_entry. rewrite decide_False; [done|lia]. }
  pose proof (boot_step s T l va pa perm HW (HD va ltac:(lia)) ltac:(lia) ltac:(lia) Hpal Hperm) as Hb.
  cbn [spec_tables boot_map_loop]. rewrite <- bind_assoc.
  destruct (spec_table (PDX va) T l) as [[T1 l1]|]; [|exists s; by rewrite (bind_Stop _ _ _ _ _ Hb)].
  destruct Hb as (s1 & Hb & HW1 & Hmm & Hval). rewrite (bind_Ret _ _ _ _ _ Hb).
  destruct n as [|n].
  { exists s1. split_and!; [done..|]. intros v Hv. rewrite Hval by done. unfold mapped_entry.
    repeat case_decide; lia. }
  replace (u32 (va + PGSIZE)) with (va + 4096) by (unfold PGSIZE; rewrite u32_small; lia).
  replace (u32 (pa + PGSIZE)) with (pa + 4096) by (unfold PGSIZE; rewrite u32_small; lia).
  specialize (IH s1 T1 l1 (va + 4096) (pa + 4096) perm HW1 ltac:(intros; apply HD; lia) ltac:(lia)
    ltac:(lia) ltac:(lia) ltac:(lia) ltac:(zdm) ltac:(zdm) Hperm).
  destruct (spec_tables (S n) (va + 4096) T1 l1) as [[T' l']|]; [|exact IH].
  destruct IH as (s' & R1 & R2 & R3 & R4). exists s'. split_and!; [done | done | by eapply mm_eq_trans |].
  intros v Hv. rewrite R4, Hval by done. unfold mapped_entry.
  replace (PGNUM (va + 4096)) with (PGNUM va + 1) by (rewrite !PGNUM_div; zdm).
  repeat case_decide; lia.
Qed.

End BootMap.

Section Conditions.

(** An address space gives the weaker condition used here. *)
Lemma aspace_boot D s pgdir pd T A l ext : aspace D s pgdir pd T A l ext -> boot_wf D s pgdir pd T l.
Proof.
  intros H. constructor; [apply H..|]. intros p Hp.
  by destruct (aspace_free _ _ _ _ _ _ _ _ p H Hp) as (? & ? & _).
Qed.

Lemma boot_wf_kern_pgdir D s pgdir pd T l a :
  boot_wf D s pgdir pd T l -> boot_wf D (set_kern_pgdir a s) pgdir pd T l.
Proof.
  intros [W1 W2 W3].
  constructor; [by apply (tables_wf_frame D s) | by apply (alloc_wf_frame s) | done].
Qed.

End Conditions.

(** C10. [boot_map_region] maps the region page by page: with page-aligned
    addresses and a region inside the address space, the entries of exactly
    the pages of [va, va+size) become [pa + offset | perm | PTE_P] and all
    others keep their value, page tables being taken from the free list when
    missing; when the free pages run out it stores through the NULL pointer
    that [pgdir_walk] returns, since the result is not tested. *)
Theorem boot_map_region_maps D s pgdir pd T l va size pa perm n
  (HW : boot_wf D s pgdir pd T l) (Hsize : n = (size + 4095) / 4096)
  (HD : forall a, va <= a < va + 4096 * n -> D (PDX a)) (Hva : 0 <= va) (Hn : 0 <= n)
  (Hend : va + 4096 * n <= 2 ^ 32) (Hpa : 0 <= pa) (Hpend : pa + 4096 * n <= 2 ^ 32)
  (Hal : va `mod` 4096 = 0) (Hpal : pa `mod` 4096 = 0) (Hperm : 0 <= perm < 4096) :
  match spec_tables (Z.to_nat n) va T l with
  | None => exists s', boot_map_region pgdir va size pa perm s = (Stop (SFault 0), s')
  | Some (T', l') =>
      exists s', boot_map_region pgdir va size pa perm s = (Ret tt, s') /\
        boot_wf D s' pgdir pd T' l' /\ mm_eq s s' /\
        forall v, 0 <= v < 2 ^ 20 -> pte_val s' T' v =
          if decide (PGNUM va <= v < PGNUM va + n) then pa + 4096 * (v - PGNUM va) + Z.lor perm PTE_P
          else pte_val s T v
  end.
Proof.
  unfold boot_map_region. replace ((size + PGSIZE - 1) / PGSIZE) with n by (unfold PGSIZE; rewrite Hsize; f_equal; lia).
  pose proof (boot_map_loop_eq D pgdir pd (Z.to_nat n) s T l va pa perm HW) as Hb.
  unfold mapped_entry in Hb. rewrite Z2Nat.id in Hb by done. by apply Hb.
Qed.

Lemma boot_map_region_maps_witness :
  exists s' T', boot_map_region (4096 * 1 + KERNBASE) KERNBASE 0x1800 0 PTE_W (ex_dir 16 1 3 2) = (Ret tt, s') /\
    pte_val s' T' (PGNUM KERNBASE + 1) = 0x1003.
Proof.
  destruct (boot_map_region_maps (fun _ => True) (ex_dir 16 1 3 2) (4096 * 1 + KERNBASE) 1 ∅ (seqZ 3 2)
    KERNBASE 0x1800 0 PTE_W 2
    (aspace_boot _ _ _ _ _ _ _ _ (ex_dir_aspace _ 16 1 3 2 ltac:(lia) ltac:(lia) ltac:(lia) ltac:(lia)))
    eq_refl (fun _ _ => I) ltac:(unfold KERNBASE; lia) ltac:(lia) ltac:(unfold KERNBASE; lia)
    ltac:(lia) ltac:(lia) eq_refl eq_refl ltac:(unfold PTE_W; lia)) as (s' & H1 & _ & _ & H4).
  eexists s', _. split; [exact H1|]. rewrite H4 by (rewrite PGNUM_div; unfold KERNBASE; zdm). reflexivity.
Defined.

(** [mmio_map_region] returns the end of the region it reserved, not its
    start: the value returned is the new [mmio_base], which is above the
    pages that were mapped to [pa], and the page at the returned address
    keeps the entry it had.  (The comment, and lapic_init(), take the result
    for the base of the region.) *)
Lemma mmio_map_region_returns_end D s s' pd T l pa size r n
  (HW : boot_wf D s (kern_pgdir s) pd T l) (HD : forall i, D i) (Hsize : n = (size + 4095) / 4096)
  (Hs0 : 0 < size) (Hlo : MMIOBASE <= mmio_base s) (Hhi : mmio_base s + size <= MMIOLIM)
  (Hal : mmio_base s `mod` 4096 = 0) (Hpa : 0 <= pa) (Hpend : pa + 4096 * n <= 2 ^ 32)
  (Hpal : pa `mod` 4096 = 0)
  (Hrun : mmio_map_region pa size s = (Ret r, s')) :
  r = mmio_base s + 4096 * n /\ r = mmio_base s' /\
  exists T', pte_val s' T' (PGNUM (mmio_base s)) = pa + 27 /\ pte_val s' T' (PGNUM r) = pte_val s T (PGNUM r).
Proof.
  assert (HL : MMIOLIM = 0xefc00000) by reflexivity. assert (HB : MMIOBASE = 0xef800000) by reflexivity.
  assert (Hn : 0 < n /\ 4096 * n < size + 4096) by zdm.
  unfold mmio_map_region in Hrun. cbn zeta in Hrun.
  erewrite bind_Ret in Hrun by apply get_eq.
  apply bind_inv in Hrun as ([] & s1 & Hmap & Hrun).
  pose proof (boot_map_loop_eq D (kern_pgdir s) pd (Z.to_nat n) s T l (mmio_base s) pa 27 HW
    (fun a _ => HD (PDX a)) ltac:(lia) ltac:(lia) ltac:(lia) ltac:(lia) Hal Hpal ltac:(lia)) as Hb.
  unfold boot_map_region in Hmap.
  replace ((size + PGSIZE - 1) / PGSIZE) with n in Hmap by (unfold PGSIZE; rewrite Hsize; f_equal; lia).
  change (Z.lor (Z.lor (Z.lor PTE_PCD PTE_PWT) PTE_W) PTE_P) with 27 in Hmap.
  destruct (spec_tables (Z.to_nat n) (mmio_base s) T l) as [[T' l']|]; cycle 1.
  { destruct Hb as [sx Hb]. congruence. }
  destruct Hb as (s2 & Hb & _ & Hmm & Hval). rewrite Hmap in Hb. injection Hb as <-.
  assert (Eb : mmio_base s1 = mmio_base s) by (rewrite Hmm; reflexivity).
  apply bind_inv in Hrun as ([] & s3 & H3 & Hrun). injection H3 as <-.
  erewrite bind_Ret in Hrun by apply get_eq.
  apply bind_inv in Hrun as ([] & s4 & H4 & Hrun). injection Hrun as <- <-.
  apply cprintf_inv in H4 as [c ->].
  simpl. rewrite Eb, (u32_small (mmio_base s + size)) by lia.
  destruct (ROUNDUP_page (mmio_base s + size)) as [R1 R2]; [lia..|].
  assert (Er : ROUNDUP (mmio_base s + size) PGSIZE = mmio_base s + 4096 * n) by zdm.
  rewrite Er. split; [done|]. split; [done|]. exists T'.
  unfold pte_val at 1 2. simpl. fold (pte_val s1 T' (PGNUM (mmio_base s))).
  fold (pte_val s1 T' (PGNUM (mmio_base s + 4096 * n))).
  rewrite !Hval by (apply PGNUM_range; lia). unfold mapped_entry.
  assert (EP : PGNUM (mmio_base s + 4096 * n) = PGNUM (mmio_base s) + n) by (rewrite !PGNUM_div; zdm).
  rewrite EP. rewrite decide_True by lia. rewrite decide_False by lia.
  change (Z.lor 27 PTE_P) with 27. split; [lia | done].
Qed.

(** A directory in page 1 used as the kernel's. *)
Definition ex_mmio : kstate := set_kern_pgdir (4096 * 1 + KERNBASE) (ex_dir 16 1 3 2).

Lemma ex_mmio_boot : boot_wf (fun _ => True) ex_mmio (kern_pgdir ex_mmio) 1 ∅ (seqZ 3 2).
Proof.
  apply boot_wf_kern_pgdir. eapply aspace_boot.
  exact (ex_dir_aspace (fun _ => True) 16 1 3 2 ltac:(lia) ltac:(lia) ltac:(lia) ltac:(lia)).
Qed.

Lemma mmio_map_region_returns_end_witness :
  mmio_base ex_mmio = MMIOBASE /\
  exists T', let s' := snd (mmio_map_region 0xFEE00000 0x1000 ex_mmio) in
    pte_val s' T' (PGNUM MMIOBASE) = 0xFEE0001B /\
    pte_val s' T' (PGNUM (MMIOBASE + 0x1000)) = 0.
Proof.
  split; [reflexivity|].
  destruct (mmio_map_region_returns_end (fun _ => True) ex_mmio
    (snd (mmio_map_region 0xFEE00000 0x1000 ex_mmio)) 1 ∅ (seqZ 3 2) 0xFEE00000 0x1000
    (MMIOBASE + 0x1000) 1 ex_mmio_boot (fun _ => I) eq_refl ltac:(lia) ltac:(discriminate)
    ltac:(discriminate) eq_refl ltac:(lia) ltac:(lia) eq_refl
    (run_snd _ _ ltac:(vm_compute; reflexivity))) as (_ & _ & T' & H1 & H2).
  exists T'. split; [exact H1 | exact H2].
Defined.
