(* ===== verification/Env.v ===== *)
(** * Env: the operations of kern/env.c

    Environments (processes): the array [envs] with its free list, creation
    from an ELF image, destruction, and the switch into an environment. *)

From S2P Require Import Prelude Machine CString Printfmt Hardware Console Kernel Pmap Spinlock.

(** ** Data *)

Definition ENVGENSHIFT : Z := 12.
Definition ENV_TYPE_USER : Z := 0.
Definition NCPU : Z := 8.
Definition STA_X : Z := 0x8.
Definition STA_W : Z := 0x2.
Definition STA_R : Z := 0x2.

Definition SEG_NULL : Segdesc := mkSegdesc 0 0 0 0 0 0 0 0 0 0 0 0 0.
Definition SEG (type base lim dpl : Z) : Segdesc :=
  mkSegdesc (Z.land (Z.shiftr lim 12) 0xffff) (Z.land base 0xffff) (Z.land (Z.shiftr base 16) 0xff)
    type 1 dpl 1 (Z.shiftr (u32 lim) 28) 0 0 1 1 (Z.shiftr (u32 base) 24).
Definition SEG16 (type base lim dpl : Z) : Segdesc :=
  mkSegdesc (Z.land lim 0xffff) (Z.land base 0xffff) (Z.land (Z.shiftr base 16) 0xff)
    type 1 dpl 1 (Z.shiftr (u32 lim) 16) 0 0 1 0 (Z.shiftr (u32 base) 24).

(** The initial contents of [gdt]; the entries not listed are [SEG_NULL]. *)
Definition gdt_init : gmap Z Segdesc :=
  <[Z.shiftr GD_KT 3 := SEG (Z.lor STA_X STA_R) 0 0xffffffff 0]>
  (<[Z.shiftr GD_KD 3 := SEG STA_W 0 0xffffffff 0]>
  (<[Z.shiftr GD_UT 3 := SEG (Z.lor STA_X STA_R) 0 0xffffffff 3]>
  (<[Z.shiftr GD_UD 3 := SEG STA_W 0 0xffffffff 3]>
  (list_to_map ((fun i => (i, SEG_NULL)) <$> seqZ 0 (NCPU + 5)))))).

Definition regs0 : PushRegs := mkPushRegs 0 0 0 0 0 0 0 0.
Definition tf0 : Trapframe := mkTrapframe regs0 0 0 0 0 0 0 0 0 0.

(** [curenv ? curenv->env_id : 0], as it is printed. *)
Definition curenv_id : K Z :=
  s ← get;
  match curenv s with None => mret 0 | Some c => v ← env_get c; mret (env_id v) end.

(** ** Lookup *)

Section Lookup.

(** [envid2env]: the result and [*env_store]. *)
Definition envid2env (envid : Z) (checkperm : bool) : K (Z * option Z) :=
  s ← get;
  if envid =? 0 then mret (0, curenv s)
  else
    let e := ENVX envid in
    v ← env_get e;
    if bool_decide (env_status v = ENV_FREE) || negb (env_id v =? envid) then mret (- E_BAD_ENV, None)
    else if checkperm && negb (bool_decide (curenv s = Some e)) then
      c ← deref (curenv s);
      cv ← env_get c;
      if negb (env_parent_id v =? env_id cv) then mret (- E_BAD_ENV, None) else mret (0, Some e)
    else mret (0, Some e).

End Lookup.

(** ** Initialisation *)

Section Initialisation.

(** The GDT is loaded; the segment registers are not part of the model. *)
Definition env_init_percpu : K unit := skip.

Definition env_init_one (i : Z) : K unit :=
  env_update i (set_env_status ENV_FREE) ;;
  env_update i (set_env_id 0) ;;
  s ← get;
  f ← deref (env_free_list s);
  env_update f (set_env_link (Some i)) ;;
  modify (set_env_free_list (Some i)).

Definition env_init : K unit :=
  modify (set_env_free_list (Some 0)) ;;
  for_each (seqZ 0 NENV) env_init_one ;;
  s ← get;
  f ← deref (env_free_list s);
  env_update f (set_env_link None) ;;
  modify (set_env_free_list (Some 0)) ;;
  env_init_percpu.

End Initialisation.

(** ** Creation *)

Section Creation.

Definition env_setup_vm (e : Z) : K Z :=
  p ← page_alloc ALLOC_ZERO;
  match p with
  | None => mret (- E_NO_MEM)
  | Some p =>
      page_update p (fun i => set_pp_ref (u16 (pp_ref i + 1)) i) ;;
      kva ← page2kva p;
      env_update e (set_env_pgdir kva) ;;
      kmemset kva 0 (PDX UTOP * 4) ;;
      s ← get;
      for_each (seqZ (PDX UTOP) (1024 - PDX UTOP))
        (fun i => d ← kload (u32 (kern_pgdir s + 4 * i)); kstore (u32 (kva + 4 * i)) d) ;;
      pa ← PADDR kva;
      kstore (u32 (kva + 4 * PDX UVPT)) (Z.lor (Z.lor pa PTE_P) PTE_U) ;;
      mret 0
  end.

(** The new identifier of slot [e] whose last one was [old]. *)
Definition next_env_id (old e : Z) : Z :=
  let generation := Z.land (i32 (old + Z.shiftl 1 ENVGENSHIFT)) (Z.lnot (NENV - 1)) in
  let generation := if generation <=? 0 then Z.shiftl 1 ENVGENSHIFT else generation in
  Z.lor generation e.

(** The register state of a new environment. *)
Definition init_tf : Trapframe :=
  let t := set_tf_ds (Z.lor GD_UD 3) tf0 in
  let t := set_tf_es (Z.lor GD_UD 3) t in
  let t := set_tf_ss (Z.lor GD_UD 3) t in
  let t := set_tf_esp USTACKTOP t in
  let t := set_tf_cs (Z.lor GD_UT 3) t in
  set_tf_eflags (Z.lor (tf_eflags t) FL_IF) t.

(** [env_alloc]: the result and [*newenv_store] ([None] when not stored). *)
Definition env_alloc (parent_id : Z) : K (Z * option Z) :=
  s ← get;
  match env_free_list s with
  | None => mret (- E_NO_FREE_ENV, None)
  | Some e =>
      r ← env_setup_vm e;
      if r <? 0 then mret (r, None)
      else
        env_update e (fun v => set_env_id (next_env_id (env_id v) e) v) ;;
        env_update e (set_env_parent_id parent_id) ;;
        env_update e (set_env_type ENV_TYPE_USER) ;;
        env_update e (set_env_status ENV_RUNNABLE) ;;
        env_update e (set_env_runs 0) ;;
        env_update e (set_env_tf init_tf) ;;
        env_update e (set_env_pgfault_upcall 0) ;;
        env_update e (set_env_ipc_recving false) ;;
        v ← env_get e;
        modify (set_env_free_list (env_link v)) ;;
        c ← curenv_id;
        cprintf "[%08x] new env %08x\n" [VInt c; VInt (env_id v)] ;;
        mret (0, Some e)
  end.

(** The pages [region_alloc] maps: from [va] rounded down to [va+len]
    rounded up, in 32-bit arithmetic. *)
Definition region_pages (va len : Z) : list Z :=
  let start := ROUNDDOWN va PGSIZE in
  let stop := ROUNDUP (u32 (va + len)) PGSIZE in
  (fun k => start + PGSIZE * k) <$> seqZ 0 ((stop - start) / PGSIZE).

Definition region_alloc (e va len : Z) : K unit :=
  for_each (region_pages va len) (fun i =>
    p ← page_alloc 1;
    match p with
    | None => panic "Memory out!"
    | Some p =>
        v ← env_get e;
        page_insert (env_pgdir v) p i (Z.lor PTE_W PTE_U) ;;
        skip
    end).

Definition ELF_MAGIC : Z := 0x464C457F.
Definition ELF_PROG_LOAD : Z := 1.

Record Elf := mkElf {
  e_magic : Z;
  e_entry : Z;
  e_phoff : Z;
  e_phnum : Z;
}.

Record Proghdr := mkProghdr {
  p_type : Z;
  p_offset : Z;
  p_va : Z;
  p_filesz : Z;
  p_memsz : Z;
}.

(** The headers of the image whose bytes are [bin]. *)
Definition elf_header (bin : Z -> Z) : Elf :=
  mkElf (le32 bin 0) (le32 bin 24) (le32 bin 28) (le16 bin 44).
Definition prog_header (bin : Z -> Z) (o : Z) : Proghdr :=
  mkProghdr (le32 bin o) (le32 bin (o + 4)) (le32 bin (o + 8)) (le32 bin (o + 16)) (le32 bin (o + 20)).

(** [memset] and [memmove] to user addresses, through the page tables that
    [cr3] points to. *)
Definition user_memset (va c n : Z) : K unit :=
  for_each (seqZ 0 n) (fun k => vstore8 (u32 (va + k)) c).
Definition user_copy (va : Z) (bin : Z -> Z) (o n : Z) : K unit :=
  for_each (seqZ 0 n) (fun k => vstore8 (u32 (va + k)) (bin (o + k))).

Definition load_segment (e : Z) (bin : Z -> Z) (ph : Proghdr) : K unit :=
  if p_type ph =? ELF_PROG_LOAD then
    region_alloc e (p_va ph) (p_memsz ph) ;;
    user_memset (p_va ph) 0 (p_memsz ph) ;;
    user_copy (p_va ph) bin (p_offset ph) (p_filesz ph)
  else skip.

Definition load_icode (e : Z) (bin : Z -> Z) : K unit :=
  let h := elf_header bin in
  if negb (e_magic h =? ELF_MAGIC) then panic "load_icode: Not a valid ELF"
  else
    v ← env_get e;
    pa ← PADDR (env_pgdir v);
    lcr3 pa ;;
    for_each (seqZ 0 (e_phnum h)) (fun k => load_segment e bin (prog_header bin (e_phoff h + 32 * k))) ;;
    s ← get;
    kpa ← PADDR (kern_pgdir s);
    lcr3 kpa ;;
    env_update e (fun v => set_env_tf (set_tf_eip (e_entry h) (env_tf v)) v) ;;
    region_alloc e (USTACKTOP - PGSIZE) PGSIZE ;;
    cprintf "load_icode finish!\r\n" [].

(** [env_create] does not test the result of [env_alloc]: [junk] is what the
    local variable [p] holds when it was not set. *)
Definition env_create (junk : option Z) (bin : Z -> Z) (type : Z) : K unit :=
  r ← env_alloc 0;
  p ← deref (match snd r with Some p => Some p | None => junk end);
  env_update p (set_env_type type) ;;
  load_icode p bin.

End Creation.

(** ** Destruction *)

Section Destruction.

(** The loop over the entries of one page table. *)
Definition env_free_ptes (e pdeno pt : Z) : K unit :=
  for_each (seqZ 0 1024) (fun pteno =>
    d ← kload (u32 (pt + 4 * pteno));
    when (test d PTE_P) (v ← env_get e; page_remove (env_pgdir v) (PGADDR pdeno pteno 0))).

Definition env_free_pde (e pdeno : Z) : K unit :=
  v ← env_get e;
  d ← kload (u32 (env_pgdir v + 4 * pdeno));
  if negb (test d PTE_P) then skip
  else
    let pa := PTE_ADDR d in
    pt ← KADDR pa;
    env_free_ptes e pdeno pt ;;
    v ← env_get e;
    kstore (u32 (env_pgdir v + 4 * pdeno)) 0 ;;
    pp ← pa2page pa;
    page_decref pp.

Definition env_free (e : Z) : K unit :=
  s ← get;
  when (bool_decide (curenv s = Some e)) (pa ← PADDR (kern_pgdir s); lcr3 pa) ;;
  c ← curenv_id;
  v ← env_get e;
  cprintf "[%08x] free env %08x\n" [VInt c; VInt (env_id v)] ;;
  for_each (seqZ 0 (PDX UTOP)) (env_free_pde e) ;;
  v ← env_get e;
  pa ← PADDR (env_pgdir v);
  env_update e (set_env_pgdir 0) ;;
  pp ← pa2page pa;
  page_decref pp ;;
  env_update e (set_env_status ENV_FREE) ;;
  s ← get;
  env_update e (set_env_link (env_free_list s)) ;;
  modify (set_env_free_list (Some e)).

End Destruction.

(** ** Running *)

Section Running.

Definition env_pop_tf {A} : K A :=
  s ← get;
  c ← deref (curenv s);
  env_update c (set_env_cpunum (this_cpu s)) ;;
  halt (SUser c).

Definition env_run {A} (e : Z) : K A :=
  s ← get;
  (match curenv s with
   | None => skip
   | Some c =>
       v ← env_get c;
       when (bool_decide (env_status v = ENV_RUNNING)) (env_update c (set_env_status ENV_RUNNABLE))
   end) ;;
  set_curenv (Some e) ;;
  env_update e (set_env_status ENV_RUNNING) ;;
  env_update e (fun v => set_env_runs (u32 (env_runs v + 1)) v) ;;
  v ← env_get e;
  pa ← PADDR (env_pgdir v);
  lcr3 pa ;;
  unlock_kernel ;;
  env_pop_tf.

End Running.
