(* ===== verification/EnvProps.v ===== *)
(** * EnvProps: environments

    Identifiers and the free list of environments: [envid2env], [env_init],
    generations of identifiers, and the switch [env_run]. *)

From S2P Require Import Prelude Machine CString Printfmt Hardware Console Kernel Spinlock Pmap PageAlloc.
From S2P Require Import PageTable Example Env.

(** ** Invariants *)

(** Every slot of the array exists, and the identifier of an environment in
    use contains its index. *)
Record envs_wf (s : kstate) : Prop := mkEnvsWf {
  ew_dom : forall e, is_Some (envs s !! e) <-> 0 <= e < NENV;
  ew_ids : forall e v, envs s !! e = Some v -> env_status v <> ENV_FREE -> ENVX (env_id v) = e /\ env_id v > 0;
}.

(** The free list through [env_link]. *)
Fixpoint env_chain (m : gmap Z Env) (hd : option Z) (l : list Z) : Prop :=
  match l with
  | [] => hd = None
  | e :: l' => hd = Some e /\ exists v, m !! e = Some v /\ env_chain m (env_link v) l'
  end.

(** [e] may be named by the current environment: it is the current one or
    its child. *)
Definition may_control (s : kstate) (e : Z) (v : Env) : Prop :=
  exists c cv, curenv s = Some c /\ envs s !! c = Some cv /\ (c = e \/ env_parent_id v = env_id cv).

Definition names (s : kstate) (envid e : Z) (checkperm : bool) : Prop :=
  exists v, envs s !! e = Some v /\ env_status v <> ENV_FREE /\ env_id v = envid /\
    (checkperm = true -> may_control s e v).

(** ** envid2env *)

Section Lookup.

Context (s : kstate) (Hwf : envs_wf s) (c : Z) (cv : Env).
Hypothesis Hcur : curenv s = Some c.
Hypothesis Hcv : envs s !! c = Some cv.

Lemma envid2env_cases envid checkperm :
  envid <> 0 ->
  (exists e, names s envid e checkperm /\ envid2env envid checkperm s = (Ret (0, Some e), s)) \/
  ((forall e, ~ names s envid e checkperm) /\ envid2env envid checkperm s = (Ret (- E_BAD_ENV, None), s)).
Proof.
  intros Hne. unfold envid2env. kgo get_eq. destruct (Z.eqb_spec envid 0); [done|].
  destruct (proj2 (ew_dom _ Hwf (ENVX envid)) (ENVX_range envid)) as [v Hv].
  kgo (env_get_eq _ _ _ Hv).
  assert (Honly : forall e, names s envid e checkperm -> e = ENVX envid).
  { intros e (w & Hw & Hs & Hid & _). destruct (ew_ids _ Hwf _ _ Hw Hs) as [E _]. congruence. }
  case_bool_decide as Hfree; simpl.
  { right. split; [|done]. intros e Hn. assert (e = ENVX envid) as -> by auto.
    destruct Hn as (w & Hw & Hs & _). congruence. }
  destruct (Z.eqb_spec (env_id v) envid) as [Hid|Hid]; simpl.
  2:{ right. split; [|done]. intros e Hn. assert (e = ENVX envid) as -> by auto.
      destruct Hn as (w & Hw & _ & Hid' & _). congruence. }
  destruct checkperm; simpl; [|left; exists (ENVX envid); split; [by exists v | done]].
  rewrite Hcur. case_bool_decide as Hself; simpl.
  { left. exists (ENVX envid). split; [|done]. exists v. split_and!; [done..|]. intros _.
    exists c, cv. split_and!; [done..|]. left. congruence. }
  kgo @deref_eq. kgo (env_get_eq _ _ _ Hcv).
  destruct (Z.eqb_spec (env_parent_id v) (env_id cv)) as [Hp|Hp]; simpl.
  - left. exists (ENVX envid). split; [|done]. exists v. split_and!; [done..|]. intros _.
    exists c, cv. auto.
  - right. split; [|done]. intros e Hn. assert (e = ENVX envid) as -> by auto.
    destruct Hn as (w & Hw & _ & _ & Hm). destruct (Hm eq_refl) as (c' & cv' & E1 & E2 & E3).
    rewrite Hcur in E1. injection E1 as <-. rewrite Hcv in E2. injection E2 as <-.
    rewrite Hv in Hw. injection Hw as <-. destruct E3; congruence.
Qed.

End Lookup.

(** ** env_init *)

Section Init.

(** The environment at [j] after [env_init]. *)
Definition init_env (j : Z) (v : Env) : Env :=
  set_env_link (if j =? NENV - 1 then None else Some (j + 1)) (set_env_id 0 (set_env_status ENV_FREE v)).

(** The state after [k] iterations of the loop. *)
Definition init_upto (k : Z) (m0 m : gmap Z Env) : Prop :=
  forall j v, m0 !! j = Some v ->
    exists v', m !! j = Some v' /\
      (0 <= j < k -> exists lk, v' = set_env_link lk (set_env_id 0 (set_env_status ENV_FREE v)) /\
         (j < k - 1 -> lk = Some (j + 1))) /\
      (k <= j -> v' = v).

Lemma env_init_one_eq m0 m k s :
  (forall j, is_Some (m0 !! j) <-> 0 <= j < NENV) -> 0 <= k < NENV -> init_upto k m0 m ->
  exists m', init_upto (k + 1) m0 m' /\
    env_init_one k (set_envs m (set_env_free_list (Some (Z.max 0 (k - 1))) s)) =
      (Ret tt, set_envs m' (set_env_free_list (Some k) s)).
Proof.
  intros Hdom Hk Hup. destruct (proj2 (Hdom k) Hk) as [v0 Hv0].
  destruct (Hup _ _ Hv0) as (v & Hv & _ & Hvv). specialize (Hvv ltac:(lia)). subst v.
  set (p := Z.max 0 (k - 1)).
  set (m1 := <[k := set_env_id 0 (set_env_status ENV_FREE v0)]> m).
  assert (Hp : exists w, m1 !! p = Some w).
  { unfold m1. destruct (decide (k = p)) as [E|]; [rewrite <- E, lookup_insert_eq; eauto|].
    rewrite lookup_insert_ne by done. destruct (proj2 (Hdom p) ltac:(unfold p; lia)) as [w0 Hw0].
    destruct (Hup _ _ Hw0) as (w & Hw & _). eauto. }
  destruct Hp as [w Hw]. exists (<[p := set_env_link (Some k) w]> m1). split.
  - intros j x Hj. rewrite lookup_insert. destruct (decide (p = j)) as [<-|Hne].
    + eexists. split; [done|]. split; [|unfold p; lia]. intros _.
      destruct (decide (k = p)) as [E|E].
      * unfold m1 in Hw. rewrite <- E, lookup_insert_eq in Hw. injection Hw as <-.
        rewrite <- E in Hj. assert (x = v0) as -> by congruence.
        exists (Some k). split; [by destruct v0 | lia].
      * unfold m1 in Hw. rewrite lookup_insert_ne in Hw by done.
        destruct (Hup _ _ Hj) as (w' & Hw' & H1 & _). assert (w' = w) as -> by congruence.
        destruct (H1 ltac:(unfold p in *; lia)) as (lk & -> & _).
        exists (Some k). split; [by destruct x | intros; f_equal; unfold p in *; lia].
    + unfold m1. rewrite lookup_insert. destruct (decide (k = j)) as [<-|Hkj].
      * eexists. split; [done|]. split; [|lia]. intros _. assert (x = v0) as -> by congruence.
        exists (env_link v0). split; [by destruct v0 | lia].
      * destruct (Hup _ _ Hj) as (w' & Hw' & H1 & H2). exists w'. split; [done|].
        split; [|intros; apply H2; lia]. intros Hjk. destruct (H1 ltac:(lia)) as (lk & -> & Hlk).
        exists lk. split; [done|]. intros. apply Hlk. unfold p in *. lia.
  - unfold env_init_one. kgo env_update_eq; [|exact Hv]. cbn [envs set_envs].
    erewrite bind_Ret; [|eapply env_update_eq; simpl; apply lookup_insert_eq]. simpl.
    rewrite insert_insert_eq. fold m1. kgo get_eq. simpl. kgo @deref_eq.
    erewrite bind_Ret; [|eapply env_update_eq; simpl; exact Hw]. done.
Qed.

Lemma init_loop m0 s : (forall j, is_Some (m0 !! j) <-> 0 <= j < NENV) -> forall n k m,
  0 <= k -> k + Z.of_nat n = NENV -> init_upto k m0 m ->
  exists m', init_upto NENV m0 m' /\
    for_each (seqZ k (Z.of_nat n)) env_init_one (set_envs m (set_env_free_list (Some (Z.max 0 (k - 1))) s)) =
      (Ret tt, set_envs m' (set_env_free_list (Some (NENV - 1)) s)).
Proof.
  intros Hdom. induction n as [|n IH]; intros k m Hk Hkn Hup.
  - exists m. replace k with NENV in * by lia. split; [done|]. done.
  - rewrite seqZ_cons by lia. cbn [for_each].
    destruct (env_init_one_eq m0 m k s Hdom ltac:(lia) Hup) as (m1 & Hup1 & Hrun).
    rewrite (bind_Ret _ _ _ _ _ Hrun).
    destruct (IH (k + 1) m1) as (m' & Hup' & Hrun'); [lia..|done|].
    exists m'. split; [done|]. replace (Z.pred (Z.of_nat (S n))) with (Z.of_nat n) by lia.
    replace (Z.succ k) with (k + 1) by lia. rewrite <- Hrun'. repeat f_equal. lia.
Qed.

Lemma env_init_eq s :
  (forall e, is_Some (envs s !! e) <-> 0 <= e < NENV) ->
  exists m, env_init s = (Ret tt, set_envs m (set_env_free_list (Some 0) s)) /\
    forall e v, envs s !! e = Some v -> m !! e = Some (init_env e v).
Proof.
  intros Hdom.
  assert (H0 : init_upto 0 (envs s) (envs s)).
  { intros j v Hj. exists v. split_and!; [done | lia | done]. }
  destruct (init_loop (envs s) s Hdom (Z.to_nat NENV) 0 (envs s)) as (m & Hup & Hrun); [done..|].
  rewrite Z2Nat.id in Hrun by done.
  destruct (proj2 (Hdom (NENV - 1)) ltac:(done)) as [w0 Hw0].
  destruct (Hup _ _ Hw0) as (w & Hw & Hlast & _).
  exists (<[NENV - 1 := set_env_link None w]> m). split.
  - unfold env_init. erewrite bind_Ret; [|reflexivity].
    replace (set_env_free_list (Some 0) s)
      with (set_envs (envs s) (set_env_free_list (Some (Z.max 0 (0 - 1))) s)) by by destruct s.
    rewrite (bind_Ret _ _ _ _ _ Hrun). kgo get_eq. simpl.
    kgo @deref_eq. erewrite bind_Ret; [|eapply env_update_eq; exact Hw]. by destruct s.
  - intros e v He. assert (Her : 0 <= e < NENV) by (apply Hdom; eauto).
    rewrite lookup_insert. unfold init_env. destruct (decide (NENV - 1 = e)) as [<-|Hne].
    + rewrite Z.eqb_refl. destruct (Hlast ltac:(done)) as (lk & -> & _).
      assert (w0 = v) as -> by congruence. done.
    + destruct (Z.eqb_spec e (NENV - 1)); [lia|].
      destruct (Hup _ _ He) as (v' & Hv' & H1 & _). destruct (H1 Her) as (lk & -> & Hlk).
      rewrite Hv'. by rewrite (Hlk ltac:(lia)).
Qed.

Lemma init_chain m n k :
  0 <= k -> k + Z.of_nat n = NENV ->
  (forall e, 0 <= e < NENV -> exists v, m !! e = Some (init_env e v)) ->
  env_chain m (if k =? NENV then None else Some k) (seqZ k (Z.of_nat n)).
Proof.
  revert k. induction n as [|n IH]; intros k Hk Hkn Hm.
  - replace k with NENV by lia. done.
  - rewrite seqZ_cons by lia. destruct (Z.eqb_spec k NENV); [lia|]. split; [done|].
    destruct (Hm k ltac:(lia)) as [v Hv]. eexists. split; [exact Hv|].
    replace (Z.pred (Z.of_nat (S n))) with (Z.of_nat n) by lia.
    specialize (IH (Z.succ k) ltac:(lia) ltac:(lia) Hm). unfold init_env. simpl.
    destruct (Z.eqb_spec (Z.succ k) NENV), (Z.eqb_spec k (NENV - 1)); try lia; [exact IH|].
    by replace (k + 1) with (Z.succ k) by lia.
Qed.

End Init.

(** ** Identifiers *)

Section Identifiers.

Lemma next_env_id_gen k e :
  0 <= k < 2 ^ 19 -> 0 <= e < NENV ->
  next_env_id (4096 * k + e) e = 4096 * (if k + 1 =? 2 ^ 19 then 1 else k + 1) + e.
Proof.
  intros Hk He. unfold next_env_id, ENVGENSHIFT. change (Z.shiftl 1 12) with 4096.
  change (NENV - 1) with (Z.ones 10). change NENV with 1024 in He.
  rewrite land_lnot_ones by lia. change (2 ^ 10) with 1024.
  assert (Hor : forall g, Z.lor (4096 * g) e = 4096 * g + e) by (intros; apply entry_lor; lia).
  destruct (Z.eqb_spec (k + 1) (2 ^ 19)) as [E|E].
  - assert (Hi : i32 (4096 * k + e + 4096) = e - 2 ^ 31) by (unfold i32; zdm).
    rewrite Hi. replace (e - 2 ^ 31 - (e - 2 ^ 31) `mod` 1024) with (- 2 ^ 31) by zdm.
    simpl. exact (Hor 1).
  - rewrite i32_small by lia.
    replace (4096 * k + e + 4096 - (4096 * k + e + 4096) `mod` 1024) with (4096 * (k + 1)) by zdm.
    destruct (Z.leb_spec (4096 * (k + 1)) 0); [lia|]. apply Hor.
Qed.

(** The identifier after [n] allocations of slot [e]. *)
Definition nth_id (n : nat) (e : Z) : Z := Nat.iter n (fun id => next_env_id id e) 0.

Lemma next_env_id_first e : 0 <= e < NENV -> next_env_id 0 e = 4096 + e.
Proof.
  intros He. unfold next_env_id. simpl. apply (entry_lor 1 e). change NENV with 1024 in He. lia.
Qed.

Lemma nth_id_eq n e :
  0 <= e < NENV -> nth_id (S n) e = 4096 * (Z.of_nat n `mod` (2 ^ 19 - 1) + 1) + e.
Proof.
  intros He. induction n as [|n IH]; [by apply next_env_id_first|].
  change (nth_id (S (S n)) e) with (next_env_id (nth_id (S n) e) e). rewrite IH.
  pose proof (Z.mod_pos_bound (Z.of_nat n) (2 ^ 19 - 1) ltac:(lia)).
  rewrite next_env_id_gen by lia. replace (Z.of_nat (S n)) with (Z.of_nat n + 1) by lia.
  destruct (Z.eqb_spec (Z.of_nat n `mod` (2 ^ 19 - 1) + 1 + 1) (2 ^ 19)) as [E|E]; zdm.
Qed.

End Identifiers.

(** ** Running an environment *)

Section Running.

(** The environment that runs gives up the processor. *)
Definition demote (c : option Z) (m : gmap Z Env) : gmap Z Env :=
  match c with
  | None => m
  | Some c =>
      match m !! c with
      | Some v =>
          if bool_decide (env_status v = ENV_RUNNING) then <[c := set_env_status ENV_RUNNABLE v]> m else m
      | None => m
      end
  end.

Definition running_env (cpu : Z) (v : Env) : Env :=
  set_env_cpunum cpu (set_env_runs (u32 (env_runs v + 1)) (set_env_status ENV_RUNNING v)).

Definition holds_lock (s : kstate) : Prop := kernel_lock s = mkSpinlock 1 (Some (this_cpu s)).

(** The state in which the processor leaves the kernel. *)
Definition switched (e : Z) (v : Env) (s : kstate) : kstate :=
  set_envs (<[e := running_env (this_cpu s) v]> (demote (curenv s) (envs s)))
    (set_kernel_lock (mkSpinlock 0 None)
      (set_cr3 (env_pgdir v - KERNBASE)
        (set_cpus (<[this_cpu s := set_cpu_env (Some e) (thiscpu s)]> (cpus s)) s))).

Lemma env_run_eq {A} s e v :
  cur_ok s -> envs s !! e = Some v -> KERNBASE <= env_pgdir v < 2 ^ 32 -> holds_lock s ->
  @env_run A e s = (Stop (SUser e), switched e v s).
Proof.
  intros Hc He Hpd Hl.
  assert (Hd : exists v', demote (curenv s) (envs s) !! e = Some v' /\
                 (v' = v \/ v' = set_env_status ENV_RUNNABLE v)).
  { unfold demote. destruct (curenv s) as [c|]; [|eauto].
    destruct (envs s !! c) as [w|] eqn:Hw; [|eauto]. case_bool_decide; [|eauto].
    rewrite lookup_insert. case_decide as E; [|eauto]. subst c.
    rewrite Hw in He. injection He as ->. eauto. }
  destruct Hd as (v' & Hv' & Hvv).
  unfold env_run. kgo get_eq.
  erewrite bind_Ret with (a := tt) (s' := set_envs (demote (curenv s) (envs s)) s); cycle 1.
  { unfold demote. destruct (curenv s) as [c|] eqn:Ec; [|by destruct s].
    destruct (Hc _ Ec) as [w Hw]. rewrite Hw. kgo (env_get_eq _ _ _ Hw).
    case_bool_decide; unfold when; [by apply env_update_eq|]. by destruct s. }
  erewrite bind_Ret; [|reflexivity].
  erewrite bind_Ret; [|eapply env_update_eq; simpl; exact Hv'].
  erewrite bind_Ret; [|eapply env_update_eq; simpl; apply lookup_insert_eq].
  erewrite bind_Ret; [|eapply env_get_eq; simpl; apply lookup_insert_eq].
  assert (Epd : env_pgdir v' = env_pgdir v) by (destruct Hvv as [->| ->]; done).
  erewrite bind_Ret; [|simpl; rewrite Epd; apply PADDR_eq; exact Hpd].
  erewrite bind_Ret; [|reflexivity].
  red in Hl.
  erewrite bind_Ret; cycle 1.
  { unfold unlock_kernel, spin_unlock. kgo get_eq. simpl. unfold thiscpu; simpl. rewrite Hl. unfold holding. simpl.
    rewrite bool_decide_true by done. reflexivity. }
  unfold env_pop_tf. kgo get_eq. unfold curenv, thiscpu. simpl. rewrite lookup_insert_eq. simpl.
  kgo @deref_eq. erewrite bind_Ret; [|eapply env_update_eq; simpl; apply lookup_insert_eq].
  unfold halt. f_equal. simpl. rewrite !insert_insert_eq.
  assert (Er : set_env_cpunum (this_cpu s) (set_env_runs (u32 (env_runs v' + 1)) (set_env_status ENV_RUNNING v'))
               = running_env (this_cpu s) v) by (destruct Hvv as [->| ->]; done).
  rewrite Er. reflexivity.
Qed.

(** It never returns. *)
Lemma env_pop_tf_no_ret {A} s a s' : @env_pop_tf A s <> (Ret a, s').
Proof.
  intros H. unfold env_pop_tf in H. apply bind_inv in H as (s1 & s2 & _ & H).
  apply bind_inv in H as (c & s3 & _ & H). apply bind_inv in H as ([] & s4 & _ & H). done.
Qed.

Lemma env_run_no_ret {A} e s a s' : @env_run A e s <> (Ret a, s').
Proof.
  intros H. unfold env_run in H.
  do 9 (apply bind_inv in H as (? & ? & _ & H)). by apply env_pop_tf_no_ret in H.
Qed.

End Running.

(** ** Properties *)

Section Examples.

(** Environment 1 runs, environment 5 is its child, environment 9 is not. *)
Definition ex_live (id parent : Z) (st : EnvStatus) : Env :=
  set_env_pgdir (KERNBASE + 0x1000) (set_env_parent_id parent (set_env_id id (set_env_status st ex_env))).

Definition ex_family : kstate :=
  set_kernel_lock (mkSpinlock 1 (Some 0))
    (set_cpus {[ 0 := mkCpuInfo 0 CPU_STARTED (Some 1) ]}
      (set_envs
        (<[1 := ex_live 0x1001 0 ENV_RUNNING]>
          (<[5 := ex_live 0x1005 0x1001 ENV_RUNNABLE]>
            (<[9 := ex_live 0x2009 0x1005 ENV_RUNNABLE]> (array_of NENV (fun _ => ex_env)))))
        (ex_boot 16))).

Lemma ex_family_wf : envs_wf ex_family.
Proof.
  assert (Hd := array_of_dom NENV (fun _ => ex_env)).
  assert (Hl : forall e v, array_of NENV (fun _ => ex_env) !! e = Some v -> v = ex_env).
  { intros e v. rewrite array_of_lookup. destruct (_ && _); congruence. }
  revert Hd Hl. unfold ex_family. generalize (array_of NENV (fun _ => ex_env)). intros m Hd Hl.
  change NENV with 1024 in *.
  constructor; intros e; cbn [envs set_kernel_lock set_cpus set_envs]; rewrite !lookup_insert;
    repeat case_decide; subst.
  1-3: split; [intros _; change NENV with 1024; lia | intros _; eexists; reflexivity].
  - exact (Hd e).
  - intros v [= <-] _. split; reflexivity.
  - intros v [= <-] _. split; reflexivity.
  - intros v [= <-] _. split; reflexivity.
  - intros v Hv Hs. by rewrite (Hl _ _ Hv) in Hs.
Qed.

End Examples.

(** C18. [envid2env] finds exactly the environments it should: for a nonzero
    identifier it returns 0 and slot [e] when the environment in [e] is not
    free, has exactly this identifier (so a stale one does not match) and,
    with [checkperm], is the current environment or an immediate child of
    it; there is at most one such slot, and when there is none the result is
    -E_BAD_ENV with NULL stored.  The state is not changed. *)
Theorem envid2env_finds s c cv envid checkperm e
  (Hwf : envs_wf s) (Hcur : curenv s = Some c) (Hcv : envs s !! c = Some cv) (Hid : envid <> 0) :
  (names s envid e checkperm <-> envid2env envid checkperm s = (Ret (0, Some e), s)) /\
  ((forall e', ~ names s envid e' checkperm) <-> envid2env envid checkperm s = (Ret (- E_BAD_ENV, None), s)).
Proof.
  assert (Huniq : forall e1 e2, names s envid e1 checkperm -> names s envid e2 checkperm -> e1 = e2).
  { intros e1 e2 (v1 & H1 & S1 & I1 & _) (v2 & H2 & S2 & I2 & _).
    destruct (ew_ids _ Hwf _ _ H1 S1) as [<- _]. destruct (ew_ids _ Hwf _ _ H2 S2) as [<- _]. congruence. }
  destruct (envid2env_cases s Hwf c cv Hcur Hcv envid checkperm Hid) as [(e0 & Hn & ->)|[Hn ->]].
  - split; split.
    + intros He. by rewrite (Huniq _ _ He Hn).
    + intros [= <-]. done.
    + intros Hno. by destruct (Hno e0).
    + done.
  - split; split; try done. intros He. by destruct (Hn e).
Qed.

Lemma envid2env_finds_witness :
  envid2env 0x1005 true ex_family = (Ret (0, Some 5), ex_family) /\
  ~ names ex_family 0x2009 9 true.
Proof.
  split.
  - apply (envid2env_finds ex_family 1 (ex_live 0x1001 0 ENV_RUNNING) 0x1005 true 5 ex_family_wf
      eq_refl eq_refl ltac:(lia)).
    exists (ex_live 0x1005 0x1001 ENV_RUNNABLE). split; [reflexivity|]. split; [discriminate|].
    split; [reflexivity|]. intros _. exists 1, (ex_live 0x1001 0 ENV_RUNNING).
    split; [reflexivity|]. split; [reflexivity|]. right. reflexivity.
  - intros Hn.
    pose proof (proj1 (proj1 (envid2env_finds ex_family 1 (ex_live 0x1001 0 ENV_RUNNING) 0x2009 true 9
      ex_family_wf eq_refl eq_refl ltac:(lia))) Hn) as E.
    apply (f_equal fst) in E. vm_compute in E. discriminate E.
Defined.

(** [env_init] marks all 1024 environments free with identifier 0 and
    links them in the order of the array, so that [env_alloc] hands out
    envs[0] first; nothing but the array and the head of the list changes. *)
Theorem env_init_links s
  (Hdom : forall e, is_Some (envs s !! e) <-> 0 <= e < NENV) :
  exists m, env_init s = (Ret tt, set_envs m (set_env_free_list (Some 0) s)) /\
    env_chain m (Some 0) (seqZ 0 NENV) /\
    forall e v, envs s !! e = Some v ->
      exists v', m !! e = Some v' /\ env_status v' = ENV_FREE /\ env_id v' = 0 /\
        env_pgdir v' = env_pgdir v /\ env_tf v' = env_tf v.
Proof.
  destruct (env_init_eq s Hdom) as (m & Hrun & Hm). exists m. split; [done|]. split.
  - apply (init_chain m (Z.to_nat NENV) 0); [done..|].
    intros e He. destruct (proj2 (Hdom e) He) as [v Hv]. eauto.
  - intros e v He. exists (init_env e v). rewrite (Hm _ _ He). done.
Qed.

Lemma env_init_links_witness :
  exists m, env_init (ex_boot 16) = (Ret tt, set_envs m (set_env_free_list (Some 0) (ex_boot 16))) /\
    env_chain m (Some 0) (seqZ 0 NENV).
Proof.
  destruct (env_init_links (ex_boot 16) (array_of_dom NENV (fun _ => ex_env))) as (m & H1 & H2 & _).
  exists m. split; [exact H1 | exact H2].
Defined.

(** [env_run] switches to environment [e] and leaves the kernel: it ends
    in user mode of [e] with [e] current and ENV_RUNNING, one more run on
    its counter, its page directory in CR3 and the kernel lock released; the
    environment that was running becomes ENV_RUNNABLE, any other stays as it
    is, and memory is untouched. *)
Lemma env_run_switches A s e v
  (Hc : cur_ok s) (He : envs s !! e = Some v) (Hpd : KERNBASE <= env_pgdir v < 2 ^ 32)
  (Hl : holds_lock s) :
  exists s', @env_run A e s = (Stop (SUser e), s') /\ curenv s' = Some e /\
    envs s' !! e = Some (running_env (this_cpu s) v) /\ cr3 s' = env_pgdir v - KERNBASE /\
    kernel_lock s' = mkSpinlock 0 None /\ mem s' = mem s /\
    forall e' v', e' <> e -> envs s !! e' = Some v' ->
      envs s' !! e' = Some (if bool_decide (curenv s = Some e' /\ env_status v' = ENV_RUNNING)
                            then set_env_status ENV_RUNNABLE v' else v').
Proof.
  exists (switched e v s). split; [by apply env_run_eq|]. split_and!; try done.
  - unfold curenv, thiscpu. simpl. by rewrite lookup_insert_eq.
  - simpl. by rewrite lookup_insert_eq.
  - intros e' v' Hne Hv'. simpl. rewrite lookup_insert_ne by done. unfold demote.
    destruct (curenv s) as [c|] eqn:Ec; [|by rewrite bool_decide_false by naive_solver].
    destruct (envs s !! c) as [w|] eqn:Hw.
    2:{ destruct (Hc _ Ec) as [w Hw']. congruence. }
    destruct (decide (c = e')) as [->|Hce].
    + assert (w = v') as -> by congruence. repeat case_bool_decide; try naive_solver.
      by rewrite lookup_insert_eq.
    + rewrite (bool_decide_false (Some c = Some e' /\ _)) by naive_solver.
      case_bool_decide; [|done]. by rewrite lookup_insert_ne.
Qed.

Lemma env_run_switches_witness :
  exists s', @env_run unit 5 ex_family = (Stop (SUser 5), s') /\ curenv s' = Some 5 /\
    envs s' !! 1 = Some (set_env_status ENV_RUNNABLE (ex_live 0x1001 0 ENV_RUNNING)).
Proof.
  destruct (env_run_switches unit ex_family 5 (ex_live 0x1005 0x1001 ENV_RUNNABLE)) as (s' & H1 & H2 & _ & _ & _ & _ & H7).
  - intros e [= <-]. eexists. reflexivity.
  - reflexivity.
  - split; [discriminate | reflexivity].
  - reflexivity.
  - exists s'. split; [exact H1|]. split; [exact H2|].
    exact (H7 1 (ex_live 0x1001 0 ENV_RUNNING) ltac:(lia) eq_refl).
Defined.
