(* ===== verification/EnvAlloc.v ===== *)
(** * EnvAlloc: creation of environments

    [env_setup_vm] and [env_alloc]: the page directory of a new environment
    and its slot in [envs]. *)

From S2P Require Import Prelude Machine CString Printfmt Hardware Console Kernel Spinlock Pmap PageAlloc.
From S2P Require Import PrintfProps KernelProps PageTable Example Env EnvProps.

Section Setup.

(** The entries of frame [kp] from index [i] on, [n] of them, copied to frame [p]. *)
Fixpoint copy_words (n : nat) (kp p i : Z) (m : gmap Z (gmap Z Z)) : gmap Z (gmap Z Z) :=
  match n with
  | O => m
  | S n' => copy_words n' kp p (i + 1) (mset m p i (u32 (mget m kp i)))
  end.

Lemma mget_copy_words n kp p i m f k :
  kp <> p ->
  mget (copy_words n kp p i m) f k =
  if decide (f = p /\ i <= k < i + Z.of_nat n) then u32 (mget m kp k) else mget m f k.
Proof.
  intros Hne. revert i m. induction n as [|n IH]; intros i m; cbn [copy_words].
  - by rewrite decide_False by lia.
  - rewrite IH, !mget_mset. repeat case_decide; try done; try lia; naive_solver lia.
Qed.

Lemma copy_loop s n kp p i :
  0 <= kp < 65536 -> 0 <= p < 65536 -> 0 <= i -> i + Z.of_nat n <= 1024 ->
  kern_pgdir s = 4096 * kp + KERNBASE ->
  for_each (seqZ i (Z.of_nat n))
    (fun i => d ← kload (u32 (kern_pgdir s + 4 * i)); kstore (u32 (4096 * p + KERNBASE + 4 * i)) d) s
  = (Ret tt, set_mem (copy_words n kp p i (mem s)) s).
Proof.
  intros Hkp Hp Hi Hn Hk. rewrite Hk.
  assert (Hgen : forall m i, 0 <= i -> i + Z.of_nat n <= 1024 ->
    for_each (seqZ i (Z.of_nat n))
      (fun i => d ← kload (u32 (4096 * kp + KERNBASE + 4 * i)); kstore (u32 (4096 * p + KERNBASE + 4 * i)) d)
      (set_mem m s)
    = (Ret tt, set_mem (copy_words n kp p i m) s)).
  { clear i Hi Hn. induction n as [|n IH]; intros m i Hi Hn; [done|].
    rewrite seqZ_cons by lia. cbn [for_each copy_words].
    assert (Hstep : (d ← kload (u32 (4096 * kp + KERNBASE + 4 * i)); kstore (u32 (4096 * p + KERNBASE + 4 * i)) d)
      (set_mem m s) = (Ret tt, set_mem (mset m p i (u32 (mget m kp i))) s)).
    { rewrite !u32_small by (change KERNBASE with 4026531840; lia).
      replace (4096 * kp + KERNBASE + 4 * i) with (4096 * kp + 4 * i + KERNBASE) by lia.
      replace (4096 * p + KERNBASE + 4 * i) with (4096 * p + 4 * i + KERNBASE) by lia.
      kgo kload_eq; [|lia]. rewrite kstore_eq by lia. cbn [mem set_mem].
      by rewrite mload_word, mstore_word by lia. }
    rewrite (bind_Ret _ _ _ _ _ Hstep).
    replace (Z.pred (Z.of_nat (S n))) with (Z.of_nat n) by lia.
    apply (IH _ (i + 1)); lia. }
  rewrite <- (Hgen (mem s) i) by done. by destruct s.
Qed.

(** The memory after [env_setup_vm] used page [p]. *)
Definition vm_mem (kp p : Z) (m : gmap Z (gmap Z Z)) : gmap Z (gmap Z Z) :=
  mset (copy_words (Z.to_nat (1024 - PDX UTOP)) kp p (PDX UTOP)
         (mfill (Z.to_nat (PDX UTOP * 4 / 4)) (4096 * p) 0 (zero_page p m)))
    p (PDX UVPT) (4096 * p + 5).

Definition vm_state (kp p e : Z) (v : Env) (s : kstate) : kstate :=
  set_envs (<[e := set_env_pgdir (4096 * p + KERNBASE) v]> (envs s))
    (set_mem (vm_mem kp p (mem s))
      (set_pages (<[p := mkPageInfo (link_of s p) 1]> (pages s))
        (set_page_free_list (link_of s p) s))).

Lemma mget_vm_mem kp p m f k :
  kp <> p -> 0 <= k < 1024 ->
  mget (vm_mem kp p m) f k =
  if decide (f = p)
  then if decide (k = PDX UVPT) then 4096 * p + 5
       else if decide (k < PDX UTOP) then 0 else u32 (mget m kp k)
  else mget m f k.
Proof.
  intros Hne Hk. unfold vm_mem. rewrite mget_mset, mget_copy_words by done.
  assert (E : forall n m', mfill n (4096 * p) 0 m' = mfill n (4096 * p + 4 * 0) 0 m')
    by (intros; f_equal; lia).
  rewrite E.
  change (PDX UTOP) with 955. change (PDX UVPT) with 957. change (955 * 4 / 4) with 955.
  rewrite !mget_mfill, !mget_zero_page by lia.
  repeat case_decide; try done; try lia; naive_solver lia.
Qed.

Lemma env_setup_vm_none s e : alloc_wf s [] -> env_setup_vm e s = (Ret (- E_NO_MEM), s).
Proof. intros W. unfold env_setup_vm. by rewrite (bind_Ret _ _ _ _ _ (page_alloc_nil _ _ W)). Qed.

Lemma env_setup_vm_eq s e v p l kp :
  alloc_wf s (p :: l) -> envs s !! e = Some v ->
  kern_pgdir s = 4096 * kp + KERNBASE -> 0 <= kp < 65536 ->
  env_setup_vm e s = (Ret 0, vm_state kp p e v s).
Proof.
  intros W He Hk Hkp.
  assert (Hn := aw_npages _ _ W).
  assert (Hp : 0 <= p < npages s) by (apply (alloc_wf_range _ _ _ W); apply list_elem_of_here).
  destruct (alloc_wf_in _ _ p W ltac:(apply list_elem_of_here)) as ([lk r] & Hpi & Hr). simpl in Hr. subst r.
  unfold env_setup_vm. rewrite (bind_Ret _ _ _ _ _ (page_alloc_cons _ ALLOC_ZERO _ _ W)).
  unfold take_page. change (test ALLOC_ZERO ALLOC_ZERO) with true. cbv zeta iota.
  set (m0 := zero_page p _).
  erewrite bind_Ret; [|eapply page_update_eq; cbn [pages set_pages set_mem set_page_free_list]; exact Hpi].
  erewrite bind_Ret; [|apply page2kva_eq; [exact Hp | exact (proj2 Hn)]].
  erewrite bind_Ret; [|eapply env_update_eq; exact He].
  erewrite bind_Ret; [|apply kmemset0_eq; lia].
  erewrite bind_Ret; [|apply get_eq].
  erewrite bind_Ret; [|refine (copy_loop _ (Z.to_nat (1024 - PDX UTOP)) kp p (PDX UTOP) Hkp _ _ _ _); [lia | done | done | exact Hk]].
  erewrite bind_Ret; [|apply PADDR_eq; change KERNBASE with 4026531840; lia].
  replace (4096 * p + KERNBASE - KERNBASE) with (4096 * p) by lia.
  change (PDX UVPT) with 957.
  rewrite u32_small by (change KERNBASE with 4026531840; lia).
  replace (4096 * p + KERNBASE + 4 * 957) with (4096 * p + 4 * 957 + KERNBASE) by lia.
  erewrite bind_Ret; [|apply kstore_eq; lia].
  rewrite <- Z.lor_assoc. change (Z.lor PTE_P PTE_U) with 5. rewrite entry_lor by lia.
  rewrite mstore_word, u32_small by lia.
  unfold vm_state, vm_mem, link_of. rewrite Hpi. change (PDX UVPT) with 957.
  unfold set_pp_ref, m0. destruct s.
  cbn [Kernel.mem set_mem set_envs set_pages set_page_free_list pp_link Kernel.pages Kernel.envs mbind option_bind].
  reflexivity.
Qed.

End Setup.

Section Alloc.

Lemma env_update_again s m e x f :
  env_update e f (set_envs (<[e := x]> m) s) = (Ret tt, set_envs (<[e := f x]> m) s).
Proof.
  unfold env_update. cbn [envs set_envs]. rewrite lookup_insert_eq, insert_insert_eq. by destruct s.
Qed.

Lemma set_envs_twice a b s : set_envs a (set_envs b s) = set_envs a s.
Proof. done. Qed.

Lemma curenv_id_eq s : cur_ok s -> exists i, curenv_id s = (Ret i, s).
Proof.
  intros Hc. unfold curenv_id. kgo get_eq. destruct (curenv s) as [c|] eqn:Ec; [|eauto].
  destruct (Hc _ Ec) as [w Hw]. kgo (env_get_eq _ _ _ Hw). eauto.
Qed.

(** The environment that [env_alloc] makes of slot [e] with page directory [p]. *)
Definition new_env (parent e p : Z) (v : Env) : Env :=
  mkEnv init_tf (env_link v) (next_env_id (env_id v) e) parent ENV_TYPE_USER ENV_RUNNABLE 0
    (env_cpunum v) (4096 * p + KERNBASE) 0 false (env_ipc_dstva v) (env_ipc_value v)
    (env_ipc_from v) (env_ipc_perm v).

(** The environment taken from the free list keeps its link. *)
Lemma env_chain_same_link m hd l e v w :
  m !! e = Some v -> env_link w = env_link v -> env_chain m hd l -> env_chain (<[e := w]> m) hd l.
Proof.
  intros He Hw. revert hd. induction l as [|x l IH]; intros hd; [done|].
  intros [-> (u & Hu & Hc)]. split; [done|]. destruct (decide (e = x)) as [<-|Hne].
  - exists w. rewrite lookup_insert_eq. split; [done|]. rewrite Hw. apply IH. congruence.
  - exists u. rewrite lookup_insert_ne by done. split; [done|]. by apply IH.
Qed.

Lemma env_alloc_eq s parent e v p l kp :
  alloc_wf s (p :: l) -> env_free_list s = Some e -> envs s !! e = Some v -> cur_ok s ->
  kern_pgdir s = 4096 * kp + KERNBASE -> 0 <= kp < 65536 ->
  exists c, env_alloc parent s =
    (Ret (0, Some e), set_con c (set_env_free_list (env_link v)
       (set_envs (<[e := new_env parent e p v]> (envs s)) (vm_state kp p e v s)))).
Proof.
  intros W Hf He Hc Hk Hkp. unfold env_alloc. kgo get_eq. rewrite Hf.
  rewrite (bind_Ret _ _ _ _ _ (env_setup_vm_eq _ _ _ _ _ _ W He Hk Hkp)).
  change (0 <? 0) with false. cbv iota. unfold vm_state at 1.
  match goal with |- context [set_envs _ ?s0] => set (s1 := s0) end.
  do 8 (erewrite bind_Ret; [|apply env_update_again]).
  erewrite bind_Ret; [|apply env_get_eq; cbn [envs set_envs]; apply lookup_insert_eq].
  erewrite bind_Ret; [|reflexivity].
  match goal with |- context [(mbind _ curenv_id) ?s2] => destruct (curenv_id_eq s2) as [i Hi] end.
  { intros x Hx. cbn [envs set_envs set_env_free_list].
    assert (Hx' : curenv s = Some x) by exact Hx. destruct (Hc _ Hx') as [w Hw].
    destruct (decide (e = x)) as [<-|]; [rewrite lookup_insert_eq; eauto|].
    rewrite lookup_insert_ne by done. eauto. }
  rewrite (bind_Ret _ _ _ _ _ Hi). kprint c. exists c. unfold vm_state. rewrite set_envs_twice.
  fold s1. clearbody s1. destruct v. reflexivity.
Qed.

End Alloc.

Section Properties.

Lemma vm_state_wf s kp p e v l : alloc_wf s (p :: l) -> alloc_wf (vm_state kp p e v s) l.
Proof.
  intros W. assert (Wt := take_page_wf s 0 p l W).
  destruct (alloc_wf_in _ _ p W ltac:(apply list_elem_of_here)) as ([lk r] & Hpi & Hr).
  pose proof (alloc_wf_NoDup _ _ W) as [Hn _]%NoDup_cons.
  assert (W1 := alloc_wf_set_ref _ l p _ 1 Wt Hn Hpi).
  eapply alloc_wf_frame; [exact W1 | done | | done].
  unfold vm_state, link_of. cbn [pages set_envs set_mem set_pages]. rewrite Hpi. done.
Qed.

(** C19. [env_alloc] creates an environment: it takes the first slot [e] of the free list and one
    page [p] for the page directory.  The slot gets the next identifier of its generation, the
    given parent and the initial register state; the new directory is empty below UTOP, shares
    the kernel's part above it, and maps itself read-only at UVPT.  The rest of the two free
    lists, the other environments and the rest of memory stay as they are. *)
Theorem env_alloc_creates s parent e v L p l kp
  (Hal : alloc_wf s (p :: l)) (Hch : env_chain (envs s) (env_free_list s) (e :: L))
  (He : envs s !! e = Some v) (Hcur : cur_ok s)
  (Hk : kern_pgdir s = 4096 * kp + KERNBASE) (Hkp : 0 <= kp < 65536) (Hkf : kp <> p) :
  exists s', env_alloc parent s = (Ret (0, Some e), s') /\
    envs s' = <[e := new_env parent e p v]> (envs s) /\
    env_chain (envs s') (env_free_list s') L /\
    alloc_wf s' l /\ (exists pi, pages s' !! p = Some pi /\ pp_ref pi = 1) /\
    (forall k, 0 <= k < 1024 ->
      mget (mem s') p k =
        if decide (k = PDX UVPT) then 4096 * p + Z.lor PTE_P PTE_U
        else if decide (k < PDX UTOP) then 0 else u32 (mget (mem s) kp k)) /\
    (forall f k, f <> p -> 0 <= k < 1024 -> mget (mem s') f k = mget (mem s) f k).
Proof.
  destruct Hch as [Hf (v' & He' & Hc)]. assert (v' = v) as -> by congruence.
  destruct (env_alloc_eq s parent e v p l kp Hal Hf He Hcur Hk Hkp) as [c Hrun].
  eexists. split; [exact Hrun|]. split_and!.
  - done.
  - exact (env_chain_same_link _ _ _ e v (new_env parent e p v) He eq_refl Hc).
  - eapply alloc_wf_frame; [exact (vm_state_wf s kp p e v l Hal) | done..].
  - exists (mkPageInfo (link_of s p) 1). split; [|done].
    unfold vm_state. cbn [pages set_con set_env_free_list set_envs set_mem set_pages]. by rewrite lookup_insert_eq.
  - intros k Hkr. etrans; [exact (mget_vm_mem kp p (mem s) p k Hkf Hkr)|]. by rewrite decide_True by done.
  - intros f k Hfp Hkr. etrans; [exact (mget_vm_mem kp p (mem s) f k Hkf Hkr)|]. by rewrite decide_False by done.
Qed.

(** [env_alloc] fails cleanly: without a free slot it returns -E_NO_FREE_ENV, without a page
    for the directory -E_NO_MEM, and in both cases the state is as it was before. *)
Theorem env_alloc_fails s parent
  (H : env_free_list s = None \/ (is_Some (env_free_list s) /\ alloc_wf s [])) :
  env_alloc parent s = (Ret (if decide (env_free_list s = None) then - E_NO_FREE_ENV else - E_NO_MEM, None), s).
Proof.
  unfold env_alloc. kgo get_eq. destruct H as [Hn|[[e Hf] W]].
  - by rewrite Hn.
  - rewrite Hf, (bind_Ret _ _ _ _ _ (env_setup_vm_none _ e W)). done.
Qed.

(** ** Witnesses *)

(** One free slot, four free pages, the kernel's page directory in page 0. *)
Definition ex_newborn : kstate :=
  set_kern_pgdir KERNBASE (set_env_free_list (Some 7) (ex_free 16 4 4)).

Lemma alloc_wf_boot s l k f : alloc_wf s l -> alloc_wf (set_kern_pgdir k (set_env_free_list f s)) l.
Proof. intros W. by apply (alloc_wf_frame s). Qed.

Lemma alloc_wf_env_list s l f : alloc_wf s l -> alloc_wf (set_env_free_list f s) l.
Proof. intros W. by apply (alloc_wf_frame s). Qed.

Lemma env_alloc_creates_witness :
  exists s', env_alloc 0 ex_newborn = (Ret (0, Some 7), s') /\
    (exists w, envs s' !! 7 = Some w /\ env_id w = 0x1007 /\ env_status w = ENV_RUNNABLE) /\
    mget (mem s') 4 957 = 0x4005.
Proof.
  destruct (env_alloc_creates ex_newborn 0 7 ex_env [] 4 [5; 6; 7] 0) as (s' & H1 & H2 & _ & _ & _ & H3 & _).
  - apply alloc_wf_boot. exact (ex_free_wf 16 4 4 ltac:(lia) ltac:(lia) ltac:(lia)).
  - split; [reflexivity|]. exists ex_env. split; reflexivity.
  - reflexivity.
  - intros x Hx. discriminate Hx.
  - reflexivity.
  - lia.
  - lia.
  - exists s'. split; [exact H1|]. split.
    + exists (new_env 0 7 4 ex_env). rewrite H2. split; [apply lookup_insert_eq | split; reflexivity].
    + exact (H3 957 ltac:(lia)).
Defined.

Lemma env_alloc_fails_witness :
  env_alloc 0 (set_env_free_list (Some 7) (ex_free 16 4 0))
    = (Ret (- E_NO_MEM, None), set_env_free_list (Some 7) (ex_free 16 4 0)).
Proof.
  apply (env_alloc_fails (set_env_free_list (Some 7) (ex_free 16 4 0)) 0).
  right. split; [eexists; reflexivity|].
  apply alloc_wf_env_list. exact (ex_free_wf 16 4 0 ltac:(lia) ltac:(lia) ltac:(lia)).
Defined.

End Properties.
