(* ===== verification/EnvFree.v ===== *)
(** * EnvFree: destruction of environments

    [env_free] gives back every page of an environment: the pages mapped
    below UTOP, the page tables and the page directory. *)

From S2P Require Import Prelude Machine CString Printfmt Hardware Console Kernel Spinlock Pmap PageAlloc.
From S2P Require Import PrintfProps KernelProps PageTable Example UserMem PtProps Env EnvProps EnvAlloc.

(** ** What a sequence of releases does to the free list *)

(** From counts [rc] and free list [l] to [rc'] and [l']: counts only drop,
    and the pages that are free now are those that were free or lost their
    last reference. *)
Definition freed (rc : Z -> Z) (l : list Z) (rc' : Z -> Z) (l' : list Z) : Prop :=
  (forall p, 0 <= rc' p <= rc p) /\ forall p, p ∈ l' <-> p ∈ l \/ (rc p <> 0 /\ rc' p = 0).

Section Freed.

Lemma freed_refl rc l : (forall p, 0 <= rc p) -> freed rc l rc l.
Proof. intros H. split; [intros p; specialize (H p); lia | tauto]. Qed.

Lemma freed_trans rc1 l1 rc2 l2 rc3 l3 :
  freed rc1 l1 rc2 l2 -> freed rc2 l2 rc3 l3 -> freed rc1 l1 rc3 l3.
Proof.
  intros [A1 A2] [B1 B2]. split; [intros p; specialize (A1 p); specialize (B1 p); lia|].
  intros p. rewrite B2, A2. specialize (A1 p). specialize (B1 p).
  destruct (decide (rc2 p = 0)); naive_solver lia.
Qed.

Lemma freed_one rc rc' p l :
  (forall q, rc' q = rc q - (if decide (p = q) then 1 else 0)) -> (forall q, 0 <= rc' q) ->
  freed rc l rc' (if decide (rc' p = 0) then p :: l else l).
Proof.
  intros E H0. split.
  - intros q. specialize (H0 q). rewrite (E q) in *. case_decide; lia.
  - intros q. assert (Ep := E p). rewrite decide_True in Ep by done.
    destruct (decide (q = p)) as [->|Hne].
    + specialize (H0 p). case_decide; [rewrite elem_of_cons|]; intuition lia.
    + assert (Eq := E q). rewrite decide_False in Eq by done.
      case_decide; [rewrite elem_of_cons|]; intuition lia.
Qed.

End Freed.

(** ** The loops *)

(** The part of the address space that an environment owns. *)
Definition below_utop (i : Z) : Prop := i < PDX UTOP.

Section Loops.

Context (e : Z) (v : Env) (pd : Z) (ext : Z -> Z) (s0 : kstate) (T0 : gmap Z Z) (A0 : gmap Z (Z * Z))
  (l0 : list Z).

Hypothesis He : envs s0 !! e = Some v.
Hypothesis Hc : cur_ok s0.

(** What is left of the address space, and where the rest went. *)
Record left (s : kstate) (T : gmap Z Z) (A : gmap Z (Z * Z)) (l : list Z) : Prop := mkLeft {
  lf_mm : mm_eq s0 s;
  lf_sub : T ⊆ T0;
  lf_frame : mem_frame pd T0 s0 s;
  lf_space : aspace below_utop s (env_pgdir v) pd T A l ext;
  lf_freed : freed (ref_count pd T0 A0 ext) l0 (ref_count pd T A ext) l;
}.

Lemma mem_frame_sub T s s' : T ⊆ T0 -> mem_frame pd T s s' -> mem_frame pd T0 s s'.
Proof.
  intros Hs H f k Hf Hn. apply H; [done|]. intros i Hi. by apply (Hn i), (lookup_weaken _ _ _ _ Hi).
Qed.

Lemma left_env s T A l : left s T A l -> envs s !! e = Some v /\ cur_ok s /\ npages s <= 65536.
Proof using He Hc.
  intros [H1 _ _ H2 _]. destruct (mm_eq_cur _ _ H1) as [_ ->]. split; [done|].
  split; [by eapply mm_eq_cur_ok | apply (aw_npages _ _ (as_alloc _ _ _ _ _ _ _ _ H2))].
Qed.

(** One page less. *)
Lemma left_remove s T A l w en :
  left s T A l -> A !! w = Some en ->
  exists s' l', page_remove (env_pgdir v) (4096 * w) s = (Ret tt, s') /\ left s' T (delete w A) l'.
Proof using He Hc.
  intros H Hw. destruct (left_env _ _ _ _ H) as (_ & Hcs & _). destruct H as [H1 H2 H3 H4 H5].
  destruct (sw_some _ _ _ _ _ _ (as_space _ _ _ _ _ _ _ _ H4) _ _ Hw) as (Hr & _ & _ & _ & t & Ht & _).
  destruct (tw_some _ _ _ _ _ (sw_tables _ _ _ _ _ _ (as_space _ _ _ _ _ _ _ _ H4)) _ _ Ht) as (_ & Hd & _).
  assert (Hva : 0 <= 4096 * w < 2 ^ 32) by lia.
  assert (EN : PGNUM (4096 * w) = w) by (rewrite PGNUM_div; zdm).
  assert (ED : PDX (4096 * w) = w / 1024) by (rewrite PDX_div; zdm).
  rewrite <- ED in Ht, Hd. rewrite <- EN in Hw.
  destruct (page_remove_some _ _ _ _ _ _ _ _ _ _ H4 Hcs Hd Hva Hw) as [Hrun Has].
  rewrite EN in Hw, Has. do 2 eexists. split; [exact Hrun|]. constructor; [| done | | exact Has |].
  - eapply mm_eq_trans; [exact H1 | apply removed_mm].
  - eapply mem_frame_trans; [exact H3|]. eapply mem_frame_sub; [exact H2 | by eapply removed_frame].
  - eapply freed_trans; [exact H5|]. apply freed_one.
    + intros q. by apply ref_count_delete.
    + intros q. apply ref_count_nonneg, (as_ext _ _ _ _ _ _ _ _ Has).
Qed.

(** The loop over one page table. *)
Lemma env_free_ptes_left s T A l i t :
  left s T A l -> T !! i = Some t ->
  exists s' A' l', env_free_ptes e i (4096 * t + KERNBASE) s = (Ret tt, s') /\
    left s' T A' l' /\ forall w, w / 1024 = i -> A' !! w = None.
Proof using He Hc.
  intros H Ht. unfold env_free_ptes.
  assert (WT := sw_tables _ _ _ _ _ _ (as_space _ _ _ _ _ _ _ _ (lf_space _ _ _ _ H))).
  destruct (tw_some _ _ _ _ _ WT _ _ Ht) as (Hi & _ & Htr & _).
  destruct (left_env _ _ _ _ H) as (_ & _ & Hn). rewrite <- (Z.sub_0_r 1024).
  destruct (for_each_range (fun j s1 => exists A' l', left s1 T A' l' /\
    forall w, A' !! w = if decide (w / 1024 = i /\ w `mod` 1024 < j) then None else A !! w) 0 1024
    (fun pteno => d ← kload (u32 (4096 * t + KERNBASE + 4 * pteno));
       when (test d PTE_P) (v ← env_get e; page_remove (env_pgdir v) (PGADDR i pteno 0))) s)
    as (s' & Hrun & A' & l' & H' & HA'); [lia | | |].
  - exists A, l. split; [done|]. intros w. rewrite decide_False; [done|]. intros [_ ?].
    pose proof (Z.mod_pos_bound w 1024). lia.
  - clear H WT. intros j s1 Hj (A' & l' & H & HA).
    destruct (left_env _ _ _ _ H) as (He1 & _ & _). assert (Hs := as_space _ _ _ _ _ _ _ _ (lf_space _ _ _ _ H)).
    rewrite u32_small by (change KERNBASE with 4026531840; lia).
    replace (4096 * t + KERNBASE + 4 * j) with (4096 * t + 4 * j + KERNBASE) by lia.
    kgo kload_word; [|lia..].
    assert (E1 : (1024 * i + j) / 1024 = i) by zdm. assert (E2 : (1024 * i + j) `mod` 1024 = j) by zdm.
    assert (Hnext : forall w, A' !! w = None \/ w <> 1024 * i + j ->
      A' !! w = if decide (w / 1024 = i /\ w `mod` 1024 < j + 1) then None else A !! w).
    { intros w Hw. rewrite (HA w) in *. destruct (decide (w = 1024 * i + j)) as [->|Hne].
      - rewrite E1, E2 in *. rewrite decide_False in * by lia. rewrite decide_True by lia. naive_solver.
      - assert (w / 1024 = i -> w `mod` 1024 <> j) by (intros; intros ?; apply Hne; zdm).
        repeat case_decide; naive_solver lia. }
    destruct (A' !! (1024 * i + j)) as [en|] eqn:Hw.
    + destruct (sw_some _ _ _ _ _ _ Hs _ _ Hw) as (_ & _ & F1 & F2 & u & Hu & Hm).
      rewrite E1 in Hu. rewrite E2 in Hm. assert (u = t) as -> by congruence.
      rewrite Hm, pte_entry_test, F2 by done. cbn [when]. kgo (env_get_eq _ _ _ He1).
      destruct (left_remove _ _ _ _ _ _ H Hw) as (s2 & l2 & Hrun & H2).
      exists s2. split.
      * rewrite PGADDR_split by lia. rewrite <- Hrun. f_equal. lia.
      * exists (delete (1024 * i + j) A'), l2. split; [done|]. intros w. rewrite lookup_delete.
        case_decide as Ew; [subst w; rewrite decide_True by lia; done | apply Hnext; naive_solver].
    + assert (F : test (mget (mem s1) t j) PTE_P = false).
      { rewrite <- E2. eapply (sw_none _ _ _ _ _ _ Hs); [lia | done | by rewrite E1]. }
      rewrite F. cbn [when skip mret K_ret]. exists s1. split; [done|]. exists A', l'. split; [done|].
      intros w. apply Hnext. destruct (decide (w = 1024 * i + j)) as [->|]; naive_solver.
  - exists s', A', l'. split; [exact Hrun|]. split; [done|]. intros w Hw. rewrite HA', decide_True; [done|].
    split; [done|]. pose proof (Z.mod_pos_bound w 1024). lia.
Qed.

(** Clearing a directory entry whose table maps nothing. *)
Lemma clear_pde_space s pgdir T A i t :
  space_wf below_utop s pgdir pd T A -> T !! i = Some t -> (forall w, w / 1024 = i -> A !! w = None) ->
  space_wf below_utop (set_mem (mset (mem s) pd i 0) s) pgdir pd (delete i T) A.
Proof.
  intros [W W1 W2] Ht HA. constructor.
  - constructor; [apply W..| | |]; cbn [mem set_mem npages].
    + intros j u [Hne Hj]%lookup_delete_Some. rewrite mget_mset_ne by naive_solver. by apply W.
    + intros j Hj Hd Hl. rewrite mget_mset. case_decide as E; [done|].
      apply lookup_delete_None in Hl as [->|Hl]; [by destruct E|]. by eapply tw_none.
    + intros j k u [_ Hj]%lookup_delete_Some [_ Hk]%lookup_delete_Some. by eapply tw_inj.
  - intros w en Hw. destruct (W1 _ _ Hw) as (H1 & H2 & H3 & H4 & u & Hu & Hm).
    refine (conj H1 (conj H2 (conj H3 (conj H4 _)))). exists u. cbn [mem set_mem]. split.
    + rewrite lookup_delete_ne; [done|]. intros E. rewrite HA in Hw by done. discriminate Hw.
    + destruct (tw_some _ _ _ _ _ W _ _ Hu) as (_ & _ & _ & Hne & _). rewrite mget_mset_ne by auto. done.
  - intros w u Hw Hl [_ Hu]%lookup_delete_Some. cbn [mem set_mem].
    destruct (tw_some _ _ _ _ _ W _ _ Hu) as (_ & _ & _ & Hne & _). rewrite mget_mset_ne by auto.
    by apply (W2 w u).
Qed.

Lemma ref_count_table T A i t p :
  T !! i = Some t -> ref_count pd (delete i T) A ext p = ref_count pd T A ext p - (if decide (t = p) then 1 else 0).
Proof. intros Ht. unfold ref_count. rewrite (count_val_delete id _ _ _ _ Ht). simpl. lia. Qed.

Lemma left_table s T A l i t :
  left s T A l -> T !! i = Some t -> (forall w, w / 1024 = i -> A !! w = None) ->
  exists s' l', (kstore (u32 (env_pgdir v + 4 * i)) 0 ;; pp ← pa2page (4096 * t); page_decref pp) s = (Ret tt, s') /\
    left s' (delete i T) A l'.
Proof using He Hc.
  intros H Ht HA. destruct (left_env _ _ _ _ H) as (He1 & _ & Hn). destruct H as [H1 H2 H3 [Ha Hs Hx Hr] H5] eqn:EH.
  assert (W := sw_tables _ _ _ _ _ _ Hs). destruct (tw_some _ _ _ _ _ W _ _ Ht) as (Hi & Hd & Htr & Hne & _).
  pose proof (tw_pd _ _ _ _ _ W) as Hpd. rewrite (tw_dir _ _ _ _ _ W).
  rewrite u32_small by (change KERNBASE with 4026531840; lia).
  replace (4096 * pd + KERNBASE + 4 * i) with (4096 * pd + 4 * i + KERNBASE) by lia.
  kgo kstore_word; [|lia..]. rewrite (u32_small 0) by lia.
  set (s1 := set_mem (mset (mem s) pd i 0) s).
  kgo pa2page_eq; [|exact Htr].
  destruct (alloc_wf_page _ _ _ Ha Htr) as [pi Hpi]. rewrite (page_decref_eq s1 t pi Hpi).
  assert (Hnf : t ∉ l).
  { intros Hin. destruct (aspace_free _ _ _ _ _ _ _ _ t (lf_space _ _ _ _ H) Hin) as (_ & F & _). by apply (F i). }
  assert (HE := fun q => ref_count_table T A i t q Ht).
  assert (H0 := fun q => ref_count_nonneg pd (delete i T) A ext q (Hx q)).
  destruct (dec_page_counts s1 l t (ref_count pd T A ext) (ref_count pd (delete i T) A ext)) as [Ha2 Hr2];
    [by eapply alloc_wf_frame | done | done | exact Hr | done | done |].
  assert (Hm2 := dec_page_mm t s1). do 2 eexists. split; [reflexivity|]. constructor.
  - eapply mm_eq_trans; [exact H1|]. eapply mm_eq_trans; [|exact Hm2]. by destruct s.
  - etrans; [apply delete_subseteq | done].
  - eapply mem_frame_trans; [exact H3|]. intros f k Hf _. rewrite dec_page_mem. cbn [mem set_mem s1].
    rewrite mget_mset_ne by auto. done.
  - constructor; [exact Ha2 | | done | exact Hr2].
    eapply space_wf_frame; [exact (clear_pde_space s _ _ _ _ _ Hs Ht HA) | by rewrite (mm_eq_npages _ _ Hm2) | by rewrite dec_page_mem].
  - eapply freed_trans; [exact H5|]. by apply freed_one.
Qed.

(** One directory entry. *)
Lemma env_free_pde_left s T A l i :
  left s T A l -> 0 <= i < PDX UTOP ->
  exists s' T' A' l', env_free_pde e i s = (Ret tt, s') /\ left s' T' A' l' /\ T' !! i = None /\ T' ⊆ T.
Proof using He Hc.
  intros H Hi. change (PDX UTOP) with 955 in Hi. destruct (left_env _ _ _ _ H) as (He1 & _ & Hn).
  assert (W := sw_tables _ _ _ _ _ _ (as_space _ _ _ _ _ _ _ _ (lf_space _ _ _ _ H))).
  pose proof (tw_pd _ _ _ _ _ W) as Hpd. unfold env_free_pde. kgo (env_get_eq _ _ _ He1).
  assert (Epd : u32 (env_pgdir v + 4 * i) = 4096 * pd + 4 * i + KERNBASE).
  { rewrite (tw_dir _ _ _ _ _ W), u32_small; change KERNBASE with 4026531840; lia. }
  rewrite Epd. kgo kload_word; [|lia..]. destruct (T !! i) as [t|] eqn:Ht.
  - destruct (tw_some _ _ _ _ _ W _ _ Ht) as (_ & _ & Htr & _ & Hp & Haddr). rewrite Hp, Haddr. cbn [negb].
    kgo KADDR_page; [|done..].
    destruct (env_free_ptes_left _ _ _ _ _ _ H Ht) as (s1 & A1 & l1 & Hrun & H1 & HA1).
    rewrite (bind_Ret _ _ _ _ _ Hrun). destruct (left_env _ _ _ _ H1) as (He2 & _).
    kgo (env_get_eq _ _ _ He2). destruct (left_table _ _ _ _ _ _ H1 Ht HA1) as (s2 & l2 & Hrun2 & H2).
    exists s2, (delete i T), A1, l2. split; [exact Hrun2|]. split; [done|].
    split; [apply lookup_delete_eq | apply delete_subseteq].
  - rewrite (tw_none _ _ _ _ _ W i ltac:(lia) (proj2 Hi) Ht). exists s, T, A, l. by split_and!.
Qed.

(** The whole address space. *)
Lemma env_free_loop_left s T A l :
  left s T A l -> exists s' l', for_each (seqZ 0 (PDX UTOP)) (env_free_pde e) s = (Ret tt, s') /\ left s' ∅ ∅ l'.
Proof using He Hc.
  intros H. rewrite <- (Z.sub_0_r (PDX UTOP)).
  destruct (for_each_range (fun i s1 => exists T' A' l', left s1 T' A' l' /\ forall k, k < i -> T' !! k = None)
    0 (PDX UTOP) (env_free_pde e) s) as (s' & Hrun & T' & A' & l' & H' & HT'); [done | | |].
  - exists T, A, l. split; [done|]. intros k Hk. destruct (T !! k) as [t|] eqn:Ht; [|done].
    assert (W := sw_tables _ _ _ _ _ _ (as_space _ _ _ _ _ _ _ _ (lf_space _ _ _ _ H))).
    destruct (tw_some _ _ _ _ _ W _ _ Ht) as (? & _). lia.
  - intros i s1 Hi (T1 & A1 & l1 & H1 & HT1).
    destruct (env_free_pde_left _ _ _ _ _ H1 Hi) as (s2 & T2 & A2 & l2 & Hrun & H2 & HT2 & Hsub).
    exists s2. split; [done|]. exists T2, A2, l2. split; [done|]. intros k Hk.
    destruct (decide (k = i)) as [->|]; [done|]. eapply lookup_weaken_None; [apply HT1; lia | done].
  - exists s', l'. split; [exact Hrun|].
    assert (Hs := as_space _ _ _ _ _ _ _ _ (lf_space _ _ _ _ H')).
    assert (T' = ∅) as ->.
    { apply map_empty. intros k. destruct (T' !! k) as [t|] eqn:Ht; [|done].
      destruct (tw_some _ _ _ _ _ (sw_tables _ _ _ _ _ _ Hs) _ _ Ht) as (_ & Hd & _).
      by rewrite HT' in Ht. }
    assert (A' = ∅) as ->; [|done].
    apply map_empty. intros w. destruct (A' !! w) as [en|] eqn:Hw; [|done].
    destruct (sw_some _ _ _ _ _ _ Hs _ _ Hw) as (_ & _ & _ & _ & u & Hu & _). by rewrite lookup_empty in Hu.
Qed.

End Loops.

(** ** env_free *)

Section Freeing.

Lemma env_chain_other m hd l e v : e ∉ l -> env_chain m hd l -> env_chain (<[e := v]> m) hd l.
Proof.
  revert hd. induction l as [|x l IH]; intros hd; [done|].
  intros [Hne He]%not_elem_of_cons [-> (w & Hw & Hl)]. split; [done|].
  exists w. rewrite lookup_insert_ne by done. split; [done|]. by apply IH.
Qed.

Lemma env_chain_push m l e v :
  e ∉ l -> env_chain m (env_link v) l -> env_chain (<[e := v]> m) (Some e) (e :: l).
Proof.
  intros He Hc. split; [done|]. exists v. rewrite lookup_insert_eq. split; [done|]. by apply env_chain_other.
Qed.

(** The slot of a freed environment. *)
Definition freed_env (link : option Z) (v : Env) : Env :=
  set_env_link link (set_env_status ENV_FREE (set_env_pgdir 0 v)).

(** The directory page itself, after the last table is gone. *)
Lemma left_directory v pd ext s0 T0 A0 l0 s l :
  left v pd ext s0 T0 A0 l0 s ∅ ∅ l ->
  exists pi l', pages s !! pd = Some pi /\ alloc_wf (dec_page pd s) l' /\
    (forall q qi, pages (dec_page pd s) !! q = Some qi -> pp_ref qi = ext q) /\
    freed (ref_count pd T0 A0 ext) l0 ext l' /\ envs (dec_page pd s) = envs s0 /\
    env_free_list (dec_page pd s) = env_free_list s0 /\ cr3 (dec_page pd s) = cr3 s0 /\
    forall f k, f <> pd -> (forall i, T0 !! i <> Some f) -> mget (mem (dec_page pd s)) f k = mget (mem s0) f k.
Proof.
  intros [H1 _ H3 HS H5]. assert (HS' := HS). destruct HS' as [Ha Hs Hx Hr].
  assert (Hpd := tw_pd _ _ _ _ _ (sw_tables _ _ _ _ _ _ Hs)).
  destruct (alloc_wf_page _ _ _ Ha Hpd) as [pi Hpi].
  assert (Hnf : pd ∉ l).
  { intros Hin. by destruct (aspace_free _ _ _ _ _ _ _ _ pd HS Hin). }
  assert (E : forall q, ext q = ref_count pd ∅ ∅ ext q - (if decide (pd = q) then 1 else 0)).
  { intros q. unfold ref_count. rewrite !count_val_empty. repeat case_decide; congruence || lia. }
  destruct (dec_page_counts s l pd (ref_count pd ∅ ∅ ext) ext) as [Ha2 Hr2]; try done.
  assert (Hm := mm_eq_trans _ _ _ H1 (dec_page_mm pd s)).
  exists pi. eexists. split; [exact Hpi|]. split; [exact Ha2|]. split; [intros q qi Hq; apply (Hr2 q qi Hq)|].
  split; [eapply freed_trans; [exact H5 | by apply freed_one]|].
  split; [exact (proj2 (mm_eq_cur _ _ Hm))|]. split; [rewrite Hm; by destruct s0|].
  split; [rewrite Hm; by destruct s0|]. intros f k Hf HT. rewrite dec_page_mem. by apply H3.
Qed.

Lemma dec_page_set_envs p E s : dec_page p (set_envs E s) = set_envs E (dec_page p s).
Proof. unfold dec_page, give_page. cbn [pages set_envs set_pages page_free_list]. by destruct (u16 _ =? 0). Qed.

(** The steps before the loop: [cr3] is switched away from a directory that is in use. *)
Lemma env_free_start s e v :
  cur_ok s -> envs s !! e = Some v -> KERNBASE <= kern_pgdir s < 2 ^ 32 ->
  exists c, let s1 := set_con c (if decide (curenv s = Some e) then set_cr3 (kern_pgdir s - KERNBASE) s else s) in
    forall B (k : K B), ((s ← get;
      when (bool_decide (curenv s = Some e)) (pa ← PADDR (kern_pgdir s); lcr3 pa) ;;
      c ← curenv_id;
      v ← env_get e;
      cprintf "[%08x] free env %08x\n" [VInt c; VInt (env_id v)] ;; k) s) = k s1.
Proof.
  intros Hc He Hk. set (s1 := if decide (curenv s = Some e) then set_cr3 (kern_pgdir s - KERNBASE) s else s).
  assert (E : when (bool_decide (curenv s = Some e)) (pa ← PADDR (kern_pgdir s); lcr3 pa) s = (Ret tt, s1)).
  { unfold s1. case_bool_decide; [rewrite decide_True by done | by rewrite decide_False by done].
    cbn [when]. by kgo PADDR_eq. }
  assert (E1 : curenv s1 = curenv s /\ envs s1 = envs s) by (unfold s1; by case_decide).
  destruct E1 as [E1 E2]. clearbody s1. assert (Hc1 : cur_ok s1) by (unfold cur_ok; by rewrite E1, E2).
  destruct (curenv_id_eq s1 Hc1) as [i Hi]. rewrite <- E2 in He.
  destruct (cprintf_matches "[%08x] free env %08x\n" [VInt i; VInt (env_id v)] s1) as [c Hp].
  { split; [vm_compute; reflexivity | repeat constructor]. }
  exists c. intros s2 B k. kgo get_eq. rewrite (bind_Ret _ _ _ _ _ E), (bind_Ret _ _ _ _ _ Hi).
  kgo (env_get_eq _ _ _ He). by rewrite (bind_Ret _ _ _ _ _ Hp).
Qed.

(** C23. [env_free] releases everything the environment owned: for an environment whose directory
    maps the space [A] below UTOP through the page tables [T], it runs to the end, every
    reference the environment held is given up -- each page keeps exactly the references [ext]
    that others hold -- and the free pages afterwards are the free pages from before together with
    the mapped pages, page tables and the directory to which nobody else refers.  The slot is
    marked free without a directory and pushed on the list of free environments; other
    environments and memory outside the page tables stay as they are, and when the environment
    was the current one the processor leaves its directory before it is freed. *)
Theorem env_free_releases s e v pd T A l ext L
  (He : envs s !! e = Some v) (H : aspace below_utop s (env_pgdir v) pd T A l ext) (Hc : cur_ok s)
  (Hk : KERNBASE <= kern_pgdir s < 2 ^ 32) (HL : env_chain (envs s) (env_free_list s) L) (HeL : e ∉ L) :
  exists s' l', env_free e s = (Ret tt, s') /\ alloc_wf s' l' /\
    (forall p pi, pages s' !! p = Some pi -> pp_ref pi = ext p) /\
    (forall p, p ∈ l' <-> p ∈ l \/ (ref_count pd T A ext p <> 0 /\ ext p = 0)) /\
    envs s' = <[e := freed_env (env_free_list s) v]> (envs s) /\
    env_chain (envs s') (env_free_list s') (e :: L) /\
    cr3 s' = (if decide (curenv s = Some e) then kern_pgdir s - KERNBASE else cr3 s) /\
    forall f k, f <> pd -> (forall i, T !! i <> Some f) -> mget (mem s') f k = mget (mem s) f k.
Proof.
  destruct (env_free_start s e v Hc He Hk) as [c Hstart]. unfold env_free. rewrite Hstart. clear Hstart.
  match goal with |- context [set_con c ?x] => set (s0 := set_con c x) end.
  assert (E0 : envs s0 = envs s /\ curenv s0 = curenv s /\ env_free_list s0 = env_free_list s /\ mem s0 = mem s /\
    cr3 s0 = (if decide (curenv s = Some e) then kern_pgdir s - KERNBASE else cr3 s) /\
    npages s0 = npages s /\ pages s0 = pages s /\ page_free_list s0 = page_free_list s)
    by (unfold s0; by case_decide).
  destruct E0 as (E1 & E2 & E3 & E4 & E5 & E6 & E7 & E8). clearbody s0.
  assert (Hc0 : cur_ok s0) by (unfold cur_ok; by rewrite E1, E2). assert (He0 := He). rewrite <- E1 in He0.
  assert (H0 := aspace_frame _ _ _ _ _ _ _ _ _ H E6 E4 E7 E8).
  assert (HI : left v pd ext s0 T A l s0 T A l).
  { constructor; auto with jos. apply freed_refl. intros p. apply ref_count_nonneg, (as_ext _ _ _ _ _ _ _ _ H0). }
  destruct (env_free_loop_left e v pd ext s0 T A l He0 Hc0 s0 T A l HI) as (s1 & l1 & Hrun & H1).
  rewrite (bind_Ret _ _ _ _ _ Hrun). clear Hrun HI.
  destruct (left_env e v pd ext s0 T A l He0 Hc0 s1 ∅ ∅ l1 H1) as (He1 & _ & Hn).
  destruct (left_directory _ _ _ _ _ _ _ _ _ H1) as (pi & l2 & Hpi & Ha & Hr & [_ Hf] & F1 & F2 & F3 & F4).
  assert (W := sw_tables _ _ _ _ _ _ (as_space _ _ _ _ _ _ _ _ (lf_space _ _ _ _ _ _ _ _ _ _ _ H1))).
  kgo (env_get_eq _ _ _ He1). pose proof (tw_pd _ _ _ _ _ W) as Hpd. rewrite (tw_dir _ _ _ _ _ W).
  kgo PADDR_eq; [|change KERNBASE with 4026531840; lia].
  kgo (env_update_eq _ _ _ (set_env_pgdir 0) He1).
  replace (4096 * pd + KERNBASE - KERNBASE) with (4096 * pd) by lia.
  kgo pa2page_eq; [|exact Hpd].
  rewrite (bind_Ret _ _ _ _ _ (page_decref_eq (set_envs (<[e := set_env_pgdir 0 v]> (envs s1)) s1) pd pi Hpi)).
  rewrite dec_page_set_envs. set (s2 := dec_page pd s1) in *. clearbody s2.
  rewrite (bind_Ret _ _ _ _ _ (env_update_again s2 (envs s1) e _ (set_env_status ENV_FREE))). kgo get_eq.
  cbn [env_free_list set_envs].
  rewrite (bind_Ret _ _ _ _ _ (env_update_again s2 (envs s1) e _ (set_env_link (env_free_list s2)))).
  assert (E1' : envs s1 = envs s) by by rewrite <- E1, <- (proj2 (mm_eq_cur _ _ (lf_mm _ _ _ _ _ _ _ _ _ _ _ H1))).
  rewrite F2, E3, E1'. fold (freed_env (env_free_list s) v). eexists _, l2. split; [reflexivity|].
  cbn [envs cr3 mem pages env_free_list set_envs set_env_free_list]. split; [by eapply alloc_wf_frame|].
  split; [exact Hr|]. split; [exact Hf|]. split; [done|]. split; [by apply env_chain_push|].
  split; [by rewrite F3|]. intros f k Hfp HT. rewrite F4, E4; done.
Qed.

(** Environment 0 maps page 2 through the table in page 3, its directory is page 1; page 4 is free. *)
Definition ex_owner : kstate := set_kern_pgdir KERNBASE ex_user.

Lemma aspace_owner D s pgdir pd T A l ext k E :
  aspace D s pgdir pd T A l ext -> aspace D (set_kern_pgdir k (set_envs E s)) pgdir pd T A l ext.
Proof. intros H. by apply (aspace_frame _ s). Qed.

Lemma ex_owner_aspace :
  aspace below_utop ex_owner (4096 * 1 + KERNBASE) 1 {[ 0 := 3 ]} {[ 5 := (2, 7) ]} [4] (fun _ => 0).
Proof. exact (aspace_owner _ _ _ _ _ _ _ _ _ _ (proj2 (ex_mapped_aspace below_utop eq_refl))). Qed.

Lemma kern_pgdir_set k s : kern_pgdir (set_kern_pgdir k s) = k.
Proof. done. Qed.

Lemma owner_others s s' k E :
  mm_eq s s' -> let o := set_kern_pgdir k (set_envs E s') in
  curenv o = curenv s /\ env_free_list o = env_free_list s /\ envs o = E.
Proof. intros ->. by destruct s. Qed.

Lemma ex_owner_others : curenv ex_owner = None /\ env_free_list ex_owner = None /\ envs ex_owner = {[ 0 := ex_mapped_env ]}.
Proof. exact (owner_others _ _ _ _ (proj1 (ex_mapped_aspace every I))). Qed.

Lemma env_free_releases_witness :
  exists s' l', env_free 0 ex_owner = (Ret tt, s') /\ alloc_wf s' l' /\ 1 ∈ l' /\ 2 ∈ l' /\ 3 ∈ l' /\ 4 ∈ l'.
Proof.
  destruct (env_free_releases ex_owner 0 ex_mapped_env 1 {[ 0 := 3 ]} {[ 5 := (2, 7) ]} [4] (fun _ => 0) [])
    as (s' & l' & H1 & H2 & _ & H3 & _).
  - rewrite (proj2 (proj2 ex_owner_others)). apply lookup_insert_eq.
  - exact ex_owner_aspace.
  - intros x Hx. destruct ex_owner_others as [E _]. rewrite E in Hx. discriminate Hx.
  - unfold ex_owner. rewrite kern_pgdir_set. change KERNBASE with 4026531840. lia.
  - exact (proj1 (proj2 ex_owner_others)).
  - apply not_elem_of_nil.
  - exists s', l'. split; [exact H1|]. split; [exact H2|].
    assert (Hin : forall p, ref_count 1 {[ 0 := 3 ]} {[ 5 := (2, 7) ]} (fun _ => 0) p <> 0 -> p ∈ l').
    { intros p Hp. apply H3. right. exact (conj Hp eq_refl). }
    split; [apply Hin; vm_compute; discriminate|]. split; [apply Hin; vm_compute; discriminate|].
    split; [apply Hin; vm_compute; discriminate|]. apply H3. left. apply list_elem_of_here.
Defined.

End Freeing.
