(* ===== verification/ConsoleProps.v ===== *)
(** * ConsoleProps: the input queue and the text screen

    The circular buffer of console.c as a queue, with its overflow, and the
    bounds of the screen memory. *)

From S2P Require Import Prelude Machine CString Printfmt Hardware Console PrintfProps Kernel Example.

(** ** The input buffer as a queue *)

(** The buffer holds the characters [q], the oldest one at [cons_rpos]. *)
Record queue (c : console) (q : list Z) : Prop := mkQueue {
  qu_rpos : 0 <= cons_rpos c < CONSBUFSIZE;
  qu_len : Z.of_nat (length q) < CONSBUFSIZE;
  qu_wpos : cons_wpos c = (cons_rpos c + Z.of_nat (length q)) `mod` CONSBUFSIZE;
  qu_data : forall i x, q !! i = Some x ->
    cons_buf c !! ((cons_rpos c + Z.of_nat i) `mod` CONSBUFSIZE) = Some x;
}.

Section Queue.

Lemma wrap_mod a n : 0 <= a < n -> (if a + 1 =? n then 0 else a + 1) = (a + 1) `mod` n.
Proof.
  intros. destruct (Z.eqb_spec (a + 1) n) as [->|]; [by rewrite Z_mod_same_full|].
  by rewrite Z.mod_small by lia.
Qed.

Lemma mod_inj a i j n : 0 < n -> 0 <= i < n -> 0 <= j < n -> (a + i) `mod` n = (a + j) `mod` n -> i = j.
Proof.
  intros Hn Hi Hj E. assert (E' : ((a + i) - (a + j)) `mod` n = 0).
  { by rewrite Zminus_mod, E, Z.sub_diag, Zmod_0_l. }
  replace (a + i - (a + j)) with (i - j) in E' by lia.
  apply Z.mod_divide in E' as [k Hk]; [|lia]. assert (k = 0) by nia. lia.
Qed.

(** A character is appended; the 512th one of an unread buffer makes the
    write position meet the read position, and the queue is empty. *)
Lemma cons_put_queue c q ch :
  queue c q ->
  queue (cons_put ch c) (if Z.of_nat (length q) + 1 =? CONSBUFSIZE then [] else q ++ [u8 ch]).
Proof.
  intros [H1 H2 H3 H4]. change CONSBUFSIZE with 512 in *.
  assert (Hw : 0 <= cons_wpos c < 512) by (rewrite H3; apply Z.mod_pos_bound; lia).
  unfold cons_put. change CONSBUFSIZE with 512. rewrite wrap_mod by done.
  destruct (Z.eqb_spec (Z.of_nat (length q) + 1) 512) as [E|E].
  - constructor; cbn [cons_rpos cons_wpos cons_buf set_cons length]; change CONSBUFSIZE with 512; [done | lia | |].
    + rewrite H3, Zplus_mod_idemp_l. replace (cons_rpos c + Z.of_nat (length q) + 1) with (cons_rpos c + 1 * 512) by lia.
      rewrite Z.mod_add by lia. f_equal. lia.
    + intros i x Hi. by rewrite lookup_nil in Hi.
  - constructor; cbn [cons_rpos cons_wpos cons_buf set_cons]; change CONSBUFSIZE with 512; rewrite ?length_app; simpl length.
    + done.
    + lia.
    + rewrite H3, Zplus_mod_idemp_l. f_equal. lia.
    + intros i x Hi. apply lookup_app_Some in Hi as [Hi|[Hle Hi]].
      * rewrite lookup_insert_ne; [by apply H4|]. rewrite H3. intros Eq.
        assert (Hlt : (i < length q)%nat) by (by eapply lookup_lt_Some).
        apply mod_inj in Eq; lia.
      * apply list_lookup_singleton_Some in Hi as [Hi <-].
        replace i with (length q) by lia. rewrite <- H3. by rewrite lookup_insert_eq.
Qed.

Lemma cons_get_queue c x q :
  queue c (x :: q) -> exists c', cons_get c = (x, c') /\ queue c' q /\ io c' = io c.
Proof.
  intros [H1 H2 H3 H4]. change CONSBUFSIZE with 512 in *. simpl length in *.
  assert (H0 := H4 O x eq_refl). rewrite Z.add_0_r, (Z.mod_small _ _ H1) in H0.
  unfold cons_get. destruct (Z.eqb_spec (cons_rpos c) (cons_wpos c)) as [E|E].
  { exfalso. rewrite H3, <- (Z.mod_small _ _ H1) in E at 1.
    rewrite <- (Z.add_0_r (cons_rpos c)) in E at 1. apply mod_inj in E; lia. }
  simpl. change CONSBUFSIZE with 512. rewrite wrap_mod by done. rewrite H0.
  eexists. split; [reflexivity|]. split; [|done].
  constructor; cbn [cons_rpos cons_wpos cons_buf set_cons]; change CONSBUFSIZE with 512.
  - apply Z.mod_pos_bound. lia.
  - lia.
  - rewrite H3, Zplus_mod_idemp_l. f_equal. lia.
  - intros i y Hi. rewrite Zplus_mod_idemp_l. replace (cons_rpos c + 1 + Z.of_nat i) with (cons_rpos c + Z.of_nat (S i)) by lia.
    by apply (H4 (S i)).
Qed.

Lemma cons_get_empty c : queue c [] -> cons_get c = (0, c).
Proof.
  intros [H1 _ H3 _]. simpl in H3. rewrite Z.add_0_r, Z.mod_small in H3 by done.
  unfold cons_get. by rewrite H3, Z.eqb_refl.
Qed.

(** The device [proc] delivers the characters [l] and then -1. *)
Inductive delivers (proc : console -> Z * console) : console -> list Z -> console -> Prop :=
| delivers_end c c' : proc c = (-1, c') -> delivers proc c [] c'
| delivers_none c c1 l c' : proc c = (0, c1) -> delivers proc c1 l c' -> delivers proc c l c'
| delivers_char c c1 ch l c' :
    proc c = (ch, c1) -> ch <> -1 -> ch <> 0 -> delivers proc (cons_put ch c1) l c' -> delivers proc c (ch :: l) c'.

(** The queue after the characters [l] arrived. *)
Definition arrive (q l : list Z) : list Z :=
  fold_left (fun q ch => if Z.of_nat (length q) + 1 =? CONSBUFSIZE then [] else q ++ [u8 ch]) l q.

Lemma queue_frame c c' q :
  cons_rpos c' = cons_rpos c -> cons_wpos c' = cons_wpos c -> cons_buf c' = cons_buf c -> queue c q -> queue c' q.
Proof. intros E1 E2 E3 [H1 H2 H3 H4]. constructor; rewrite ?E1, ?E2, ?E3; done. Qed.

(** The device leaves the buffer alone. *)
Definition keeps_buffer (proc : console -> Z * console) : Prop :=
  forall c, cons_rpos (snd (proc c)) = cons_rpos c /\ cons_wpos (snd (proc c)) = cons_wpos c /\
            cons_buf (snd (proc c)) = cons_buf c.

Lemma cons_intr_queue proc c l c' q :
  keeps_buffer proc -> delivers proc c l c' -> queue c q ->
  (exists n, forall fuel, (n <= fuel)%nat -> cons_intr fuel proc c = Some c') /\ queue c' (arrive q l).
Proof.
  intros Hk Hd. revert q.
  assert (Hq : forall c0 ch c1 q0, proc c0 = (ch, c1) -> queue c0 q0 -> queue c1 q0).
  { intros c0 ch c1 q0 E. destruct (Hk c0) as (E1 & E2 & E3). rewrite E in E1, E2, E3. by apply queue_frame. }
  induction Hd as [c c' E | c c1 l c' E Hd IH | c c1 ch l c' E H1 H0 Hd IH]; intros q HQ.
  - split; [|by eapply Hq]. exists 1%nat. intros [|fuel] Hf; [lia|]. cbn [cons_intr]. by rewrite E.
  - destruct (IH q ltac:(by eapply Hq)) as [[n Hn] HQ']. split; [|done]. exists (S n).
    intros [|fuel] Hf; [lia|]. cbn [cons_intr]. rewrite E. simpl. apply Hn. lia.
  - assert (HQ1 := cons_put_queue _ _ ch (Hq _ _ _ _ E HQ)).
    destruct (IH _ HQ1) as [[n Hn] HQ']. split; [|done]. exists (S n).
    intros [|fuel] Hf; [lia|]. cbn [cons_intr]. rewrite E.
    rewrite (proj2 (Z.eqb_neq _ _) H1), (proj2 (Z.eqb_neq _ _) H0). apply Hn. lia.
Qed.

Lemma arrive_fits q l : Z.of_nat (length q + length l) < CONSBUFSIZE -> arrive q l = q ++ map u8 l.
Proof.
  unfold arrive. change CONSBUFSIZE with 512. revert q. induction l as [|ch l IH]; intros q Hl; simpl in *; [by rewrite app_nil_r|].
  destruct (Z.eqb_spec (Z.of_nat (length q) + 1) 512); [lia|].
  rewrite IH by (rewrite length_app; simpl; lia). by rewrite <- app_assoc.
Qed.

Lemma arrive_app q l1 l2 : arrive q (l1 ++ l2) = arrive (arrive q l1) l2.
Proof. unfold arrive. by rewrite fold_left_app. Qed.

Lemma serial_keeps : keeps_buffer serial_proc_data.
Proof.
  intros c. unfold serial_proc_data. destruct (inb (COM1 + COM_LSR) (io c)) as [d i].
  destruct (negb _); [done|]. destruct (inb (COM1 + COM_RX) i). done.
Qed.

(** In closed form: each time 512 characters have gathered, they are all lost. *)
Lemma arrive_drop q l : Z.of_nat (length q) < CONSBUFSIZE ->
  arrive q l = drop (512 * (length (q ++ map u8 l) / 512)) (q ++ map u8 l).
Proof.
  change CONSBUFSIZE with 512. intros Hq. induction l as [|ch l IH] using rev_ind.
  - cbn [map]. rewrite app_nil_r, Nat.div_small by lia. by rewrite drop_0.
  - rewrite arrive_app, IH. unfold arrive at 1. cbn [fold_left]. rewrite map_app, app_assoc. cbn [map].
    set (all := q ++ map u8 l). rewrite length_drop, length_app. cbn [length]. change CONSBUFSIZE with 512.
    pose proof (Nat.div_mod_eq (length all) 512) as E. pose proof (Nat.mod_upper_bound (length all) 512 ltac:(lia)) as Hm.
    destruct (Z.eqb_spec (Z.of_nat (length all - 512 * (length all / 512)) + 1) 512) as [E1|E1].
    + rewrite (drop_ge (all ++ [u8 ch])); [done|]. rewrite length_app. cbn [length].
      assert (E2 : ((length all + 1) / 512 = length all / 512 + 1)%nat); [|rewrite E2; lia].
      symmetry. apply (Nat.div_unique _ _ _ 0); lia.
    + assert (E2 : ((length all + 1) / 512 = length all / 512)%nat) by (symmetry; apply (Nat.div_unique _ _ _ (length all mod 512 + 1)); lia).
      rewrite E2. by rewrite drop_app_le by lia.
Qed.

(** The buffer overflows by losing everything: when 511 characters are waiting and one more
    arrives, the write position meets the read position and the whole input is gone. *)
Lemma cons_put_overflow c q ch :
  queue c q -> length q = 511%nat -> queue (cons_put ch c) [] /\ cons_get (cons_put ch c) = (0, cons_put ch c).
Proof.
  intros HQ Hl. assert (H := cons_put_queue c q ch HQ). rewrite Hl in H.
  split; [exact H | by apply cons_get_empty].
Qed.

End Queue.

(** ** The text screen *)

(** Characters do not touch the input side. *)
Definition input_eq (c c' : console) : Prop :=
  cons_rpos c' = cons_rpos c /\ cons_wpos c' = cons_wpos c /\ cons_buf c' = cons_buf c /\
  kbd_shift c' = kbd_shift c /\ serial_exists c' = serial_exists c.

(** The cursor is on the screen, and no cell outside the screen was written
    since the video memory was [b]. *)
Record on_screen (b : gmap Z Z) (c : console) : Prop := mkOnScreen {
  sc_pos : 0 <= crt_pos c < CRT_SIZE;
  sc_cells : forall j, ~ 0 <= j < CRT_SIZE -> crt_buf c !! j = b !! j;
}.

Section Screen.

Lemma input_eq_trans c1 c2 c3 : input_eq c1 c2 -> input_eq c2 c3 -> input_eq c1 c3.
Proof. unfold input_eq. intros (?&?&?&?&?) (?&?&?&?&?). split_and!; congruence. Qed.

Lemma cga_scroll_input c : input_eq c (cga_cursor (cga_scroll c)).
Proof. unfold cga_scroll. destruct (CRT_SIZE <=? crt_pos c); done. Qed.

Lemma cga_putc_input d ch c : input_eq c (cga_putc d ch c).
Proof.
  revert ch c. induction d as [|d IH]; intros ch c; [done|]. cbn [cga_putc].
  eapply input_eq_trans; [|apply cga_scroll_input].
  set (ch' := if test ch (Z.lnot 0xFF) then ch else Z.lor ch 0x0700). clearbody ch'.
  destruct (Z.land ch' 255 =? 8); [by destruct (0 <? crt_pos c)|].
  destruct ((Z.land ch' 255 =? 10) || (Z.land ch' 255 =? 13)); [done|].
  destruct (Z.land ch' 255 =? 9); [|done].
  do 5 (eapply input_eq_trans; [|apply IH]; cbv beta; try exact (input_eq_refl_io _)).
  done.
Qed.

Lemma fold_insert_ne (l : list Z) (f : Z -> Z) (buf : gmap Z Z) j :
  (forall i, i ∈ l -> i <> j) -> fold_left (fun acc i => <[i := f i]> acc) l buf !! j = buf !! j.
Proof.
  revert buf. induction l as [|i l IH]; intros buf Hl; simpl; [done|].
  rewrite IH by (intros; apply Hl; by apply elem_of_cons; right).
  apply lookup_insert_ne, Hl, list_elem_of_here.
Qed.

Lemma crt_scroll_cells buf j : ~ 0 <= j < CRT_SIZE -> crt_scroll buf !! j = buf !! j.
Proof.
  intros Hj. change CRT_SIZE with 2000 in Hj. unfold crt_scroll.
  change (CRT_SIZE - CRT_COLS) with 1920. change CRT_COLS with 80.
  rewrite (fold_insert_ne _ (fun _ => Z.lor 0x0700 32)) by (intros i Hi%elem_of_seqZ; lia).
  rewrite (fold_insert_ne _ (fun j => default 0 (buf !! (j + 80)))) by (intros i Hi%elem_of_seqZ; lia).
  done.
Qed.

Lemma cga_scroll_screen b c :
  0 <= crt_pos c < CRT_SIZE + CRT_COLS -> (forall j, ~ 0 <= j < CRT_SIZE -> crt_buf c !! j = b !! j) ->
  on_screen b (cga_cursor (cga_scroll c)).
Proof.
  intros Hp Hb. unfold cga_scroll. change CRT_SIZE with 2000 in *. change CRT_COLS with 80 in *.
  destruct (Z.leb_spec 2000 (crt_pos c)) as [Hle|Hlt].
  - constructor; change CRT_SIZE with 2000.
    + cbn [cga_cursor crt_pos set_io set_crt]. rewrite u16_small; lia.
    + intros j Hj. etrans; [by apply (crt_scroll_cells (crt_buf c))|]. by apply Hb.
  - constructor; change CRT_SIZE with 2000; [exact (conj (proj1 Hp) Hlt) | exact Hb].
Qed.

Lemma on_screen_io b c i : on_screen b c -> on_screen b (set_io i c).
Proof. intros [H1 H2]. by constructor. Qed.

Lemma ports_screen b c ch : on_screen b c -> on_screen b (lpt_putc ch (serial_putc ch c)).
Proof. intros H. unfold lpt_putc, serial_putc. by repeat apply on_screen_io. Qed.

Lemma cga_putc_screen b d ch c : on_screen b c -> on_screen b (cga_putc d ch c).
Proof.
  revert ch c. induction d as [|d IH]; intros ch c [Hp Hb]; [done|]. cbn [cga_putc].
  set (ch' := if test ch (Z.lnot 0xFF) then ch else Z.lor ch 0x0700). clearbody ch'.
  assert (Hrow : forall p, 0 <= p < CRT_SIZE + CRT_COLS -> 0 <= u16 (p - p `mod` CRT_COLS) < CRT_SIZE + CRT_COLS).
  { intros p Hr. change CRT_SIZE with 2000 in *. change CRT_COLS with 80 in *.
    rewrite u16_small by zdm. zdm. }
  assert (Hins : forall p x, 0 <= p < CRT_SIZE ->
    forall j, ~ 0 <= j < CRT_SIZE -> <[p := x]> (crt_buf c) !! j = b !! j).
  { intros p x Hr j Hj. rewrite lookup_insert_ne by (intros ->; done). by apply Hb. }
  change CRT_SIZE with 2000 in *. change CRT_COLS with 80 in *.
  destruct (Z.land ch' 255 =? 8).
  { apply cga_scroll_screen; destruct (Z.ltb_spec 0 (crt_pos c)); try done;
      change CRT_SIZE with 2000; change CRT_COLS with 80.
    - cbn [crt_pos set_crt]. rewrite u16_small; lia.
    - lia.
    - cbn [crt_buf set_crt]. apply Hins. rewrite u16_small; lia. }
  destruct (Z.land ch' 255 =? 10) eqn:E10; cbn [orb].
  { apply cga_scroll_screen; [|exact Hb]. cbn [crt_pos set_crt]. change CRT_SIZE with 2000 in Hrow. change CRT_COLS with 80 in Hrow.
    apply Hrow. rewrite u16_small; change CRT_COLS with 80; lia. }
  destruct (Z.land ch' 255 =? 13).
  { apply cga_scroll_screen; [|exact Hb]. cbn [crt_pos set_crt]. apply Hrow. change CRT_SIZE with 2000. change CRT_COLS with 80. lia. }
  destruct (Z.land ch' 255 =? 9).
  - assert (H5 : on_screen b (Nat.iter 5 (fun c => cga_putc d 32 (lpt_putc 32 (serial_putc 32 c))) c)).
    { apply Nat.iter_invariant; [|by constructor]. intros x Hx. by apply IH, ports_screen. }
    destruct H5 as [H1 H2]. change CRT_SIZE with 2000 in *. apply cga_scroll_screen; [|exact H2].
    change CRT_SIZE with 2000. change CRT_COLS with 80. cbn [Nat.iter nat_rect] in H1. lia.
  - apply cga_scroll_screen; [|cbn [crt_buf set_crt]; by apply Hins].
    cbn [crt_pos set_crt]. change CRT_SIZE with 2000. change CRT_COLS with 80. rewrite u16_small; lia.
Qed.

Lemma cputchar_screen b ch c : on_screen b c -> on_screen b (cputchar ch c).
Proof. intros H. by apply cga_putc_screen, ports_screen. Qed.

End Screen.

(** ** The keyboard *)

Section Keyboard.

Lemma fold_input (f : Z -> console -> console) l c :
  (forall ch c, input_eq c (f ch c)) -> input_eq c (fold_left (fun c ch => f ch c) l c).
Proof.
  intros Hf. revert c. induction l as [|ch l IH]; intros c; cbn [fold_left]; [done|].
  eapply input_eq_trans; [apply Hf | apply IH].
Qed.

Lemma fold_screen (f : Z -> console -> console) b l c :
  (forall ch c, on_screen b c -> on_screen b (f ch c)) ->
  on_screen b c -> on_screen b (fold_left (fun c ch => f ch c) l c).
Proof.
  intros Hf. revert c. induction l as [|ch l IH]; intros c Hb; cbn [fold_left]; [done|]. by apply IH, Hf.
Qed.

Lemma ports_input ch c : input_eq c (lpt_putc ch (serial_putc ch c)).
Proof. unfold lpt_putc, serial_putc. repeat split. Qed.

Lemma cons_putc_input ch c : input_eq c (cons_putc ch c).
Proof. unfold cons_putc. eapply input_eq_trans; [apply ports_input | apply cga_putc_input]. Qed.

Lemma cputchar_input l c : input_eq c (fold_left (fun c ch => cputchar ch c) l c).
Proof. apply fold_input. exact cons_putc_input. Qed.

Lemma cprintf_console fmt ap c r c' :
  Console.cprintf fmt ap c = Some (r, c') -> exists l, c' = fold_left (fun c ch => cputchar ch c) l c.
Proof.
  unfold Console.cprintf, vcprintf. rewrite vprintfmt_replay. destruct (trace fmt ap) as [tr|]; [|done].
  cbn [fmap option_fmap option_map mbind option_bind]. rewrite replay_console. intros [= <- <-]. eauto.
Qed.

Lemma kbd_keeps : keeps_buffer kbd_proc_data.
Proof.
  intros c. unfold kbd_proc_data. destruct (inb KBSTATP (io c)) as [st i].
  destruct (negb (test st KBS_DIB)); [done|]. cbn [io set_io].
  destruct (inb KBDATAP i) as [data i']. destruct (kbd_translate data (kbd_shift (set_io i c))) as [r sh].
  destruct (kbd_reboots data r sh); [|done].
  destruct (Console.cprintf (cstr "Rebooting!\n") [] (set_kbd_shift sh (set_io i' (set_io i c)))) as [[x c2]|] eqn:E; [|done].
  apply cprintf_console in E as [l ->].
  match goal with |- context [fold_left ?g l ?c1] => destruct (cputchar_input l c1) as (E1 & E2 & E3 & _) end.
  cbn [snd set_io cons_rpos cons_wpos cons_buf] in *. by rewrite E1, E2, E3.
Qed.

(** The serial line delivers [l], if there is one. *)
Definition serial_delivers (c : console) (l : list Z) (c' : console) : Prop :=
  if serial_exists c then delivers serial_proc_data c l c' else l = [] /\ c' = c.

(** C33. The console input is a first-in first-out queue with a bound.  A call of [cons_getc]
    first appends what the serial line has (if it exists) and then what the keyboard has, every
    character other than 0 until the device is empty, to the characters that are waiting, and
    then takes the oldest one, or returns 0 when there is none.  The buffer holds 511 characters,
    and the 512th one loses all of them: what is waiting after the polling is everything behind
    the last full 512.  In particular, as long as fewer than 512 have gathered, nothing is lost
    and the order of arrival is the order of delivery. *)
Theorem cons_getc_fifo c q l1 l2 c1 c2 :
  queue c q -> serial_delivers c l1 c1 -> delivers kbd_proc_data c1 l2 c2 ->
  exists n r c', (forall fuel, (n <= fuel)%nat -> cons_getc fuel c = Some (r, c')) /\
    let all := q ++ map u8 (l1 ++ l2) in
    match (if (length all <? 512)%nat then all else drop (512 * (length all / 512)) all) with
    | [] => r = 0 /\ queue c' []
    | x :: q' => r = x /\ queue c' q'
    end.
Proof.
  intros HQ H1 H2.
  assert (Hs : (exists n, forall fuel, (n <= fuel)%nat -> serial_intr fuel c = Some c1) /\ queue c1 (arrive q l1)).
  { unfold serial_delivers in H1. unfold serial_intr. destruct (serial_exists c).
    - by apply cons_intr_queue; [apply serial_keeps|..].
    - destruct H1 as [-> ->]. split; [by exists O | exact HQ]. }
  destruct Hs as [[n1 Hn1] HQ1]. destruct (cons_intr_queue _ _ _ _ _ kbd_keeps H2 HQ1) as [[n2 Hn2] HQ2].
  exists (max n1 n2), (fst (cons_get c2)), (snd (cons_get c2)). split.
  { intros fuel Hf. unfold cons_getc. rewrite Hn1 by lia. cbn [mbind option_bind]. unfold kbd_intr. rewrite Hn2 by lia.
    cbn [mbind option_bind]. by rewrite <- surjective_pairing. }
  cbv zeta. rewrite <- arrive_app, arrive_drop in HQ2 by apply (qu_len _ _ HQ).
  set (all := q ++ map u8 (l1 ++ l2)) in *.
  assert (E : (if (length all <? 512)%nat then all else drop (512 * (length all / 512)) all) = drop (512 * (length all / 512)) all).
  { destruct (Nat.ltb_spec (length all) 512); [|done]. rewrite Nat.div_small by done. by rewrite drop_0. }
  rewrite E. destruct (drop _ all) as [|x q'].
  - by rewrite (cons_get_empty _ HQ2).
  - destruct (cons_get_queue _ _ _ HQ2) as (c' & -> & HQ' & _). done.
Qed.

(** The character of a key that is not escaped, for the modifiers [sh]. *)
Definition key_char (sh data : Z) : Z :=
  let c := charcode (Z.land sh (Z.lor CTL SHIFT)) data in
  if test sh CAPSLOCK then
    if (97 <=? c) && (c <=? 122) then c - 32 else if (65 <=? c) && (c <=? 90) then c + 32 else c
  else c.

(** What a key press and the release of the key do, as a check on one key
    and one modifier state. *)
Definition make_break_ok (data sh : Z) : bool :=
  let '(c1, s1) := kbd_translate data sh in
  let '(c2, s2) := kbd_translate (data + 0x80) s1 in
  (s1 =? Z.lxor (Z.lor sh (shiftcode data)) (togglecode data)) && (c1 =? key_char s1 data) &&
  (0 <=? c1) && (c1 <? 256) && (c2 =? 0) &&
  (s2 =? Z.land (Z.lxor sh (togglecode data)) (Z.lnot (shiftcode data))).

Lemma make_break_all : forallb (fun data => (data =? 0x60) || forallb (make_break_ok data) (seqZ 0 64)) (seqZ 0 128) = true.
Proof. vm_compute. reflexivity. Qed.

(** Pressing and releasing a key: for every scan code (0x60 apart, whose release
    would be the escape code 0xE0) and every state of the modifiers the press delivers the byte of the map that Shift and Ctrl select, with the case swapped under
    Caps Lock, sets the key's modifier and flips its lock; the release delivers nothing and
    clears the modifier, so the locks are flipped exactly once and no modifier sticks. *)
Lemma kbd_press_release (data sh : Z) :
  0 <= data < 0x80 -> data <> 0x60 -> 0 <= sh < 64 ->
  exists s1, kbd_translate data sh = (key_char s1 data, s1) /\
    s1 = Z.lxor (Z.lor sh (shiftcode data)) (togglecode data) /\
    0 <= key_char s1 data < 256 /\
    kbd_translate (data + 0x80) s1 = (0, Z.land (Z.lxor sh (togglecode data)) (Z.lnot (shiftcode data))).
Proof.
  intros Hd Hne Hs. pose proof make_break_all as H. rewrite forallb_forall in H.
  specialize (H data ltac:(apply list_elem_of_In, elem_of_seqZ; lia)).
  rewrite (proj2 (Z.eqb_neq _ _) Hne), orb_false_l, forallb_forall in H.
  specialize (H sh ltac:(apply list_elem_of_In, elem_of_seqZ; lia)). unfold make_break_ok in H.
  destruct (kbd_translate data sh) as [c1 s1]. destruct (kbd_translate (data + 0x80) s1) as [c2 s2] eqn:E2.
  exists s1. rewrite !andb_true_iff in H. destruct H as [[[[[H1 H2] H3] H4] H5] H6].
  apply Z.eqb_eq in H1, H2, H5, H6. apply Z.leb_le in H3. apply Z.ltb_lt in H4. subst c1 c2 s2.
  split; [done|]. split; [done|]. split; [lia | exact E2].
Qed.

Lemma kbd_press_release_witness :
  exists s1, kbd_translate 0x1E CAPSLOCK = (key_char s1 0x1E, s1) /\ key_char s1 0x1E = 65.
Proof.
  destruct (kbd_press_release 0x1E CAPSLOCK ltac:(lia) ltac:(lia) ltac:(unfold CAPSLOCK; lia)) as (s1 & H1 & -> & _).
  exists (Z.lxor (Z.lor CAPSLOCK (shiftcode 0x1E)) (togglecode 0x1E)). split; [exact H1 | reflexivity].
Defined.

(** C34. Output stays on the screen: whatever the kernel prints, tabs, backspaces, line feeds and
    scrolling included, the cursor stays among the 2000 cells of the text screen, no memory
    outside them is written, and the input side of the console does not change. *)
Theorem cprintf_on_screen b c fmt ap r c' :
  on_screen b c -> Console.cprintf fmt ap c = Some (r, c') -> on_screen b c' /\ input_eq c c'.
Proof.
  intros Hb E. apply cprintf_console in E as [l ->]. split; [|apply cputchar_input].
  by apply fold_screen; [exact (cputchar_screen b)|].
Qed.

End Keyboard.

(** ** Witnesses *)

Section Witnesses.

(** A serial line that sends [hi]. *)
Definition ex_serial : console :=
  set_serial_exists true (set_io (mkPorts (fun p n => if p =? 0x3FD then (if (n <? 2)%nat then 1 else 0x20)
                              else if p =? 0x3F8 then (if (n =? 0)%nat then 104 else 105) else 0x80) ∅ [])
    ex_console).

Lemma ex_serial_queue : queue ex_serial [].
Proof. constructor; [split; [reflexivity|done] | reflexivity | reflexivity | done]. Qed.

Lemma cons_getc_fifo_witness :
  exists n c', (forall fuel, (n <= fuel)%nat -> cons_getc fuel ex_serial = Some (104, c')) /\ queue c' [105].
Proof.
  assert (Hd : exists c1, delivers serial_proc_data ex_serial [104; 105] c1 /\ delivers kbd_proc_data c1 [] (snd (kbd_proc_data c1))).
  { eexists. split.
    - eapply delivers_char; [vm_compute; reflexivity | done | done |].
      eapply delivers_char; [vm_compute; reflexivity | done | done |]. eapply delivers_end. vm_compute. reflexivity.
    - apply delivers_end. vm_compute. reflexivity. }
  destruct Hd as (c1 & H1 & H2).
  destruct (cons_getc_fifo ex_serial [] [104; 105] [] c1 (snd (kbd_proc_data c1)) ex_serial_queue H1 H2) as (n & r & c' & Hrun & Hr).
  destruct Hr as [-> Hq]. exists n, c'. split; [exact Hrun | exact Hq].
Defined.

Lemma cons_put_overflow_witness :
  exists c, queue c (replicate 511 120) /\ cons_get (cons_put 121 c) = (0, cons_put 121 c).
Proof.
  assert (H : exists c, queue c (replicate 511 120)).
  { assert (Hn : forall n, (n <= 511)%nat -> exists c, queue c (replicate n 120)).
    { induction n as [|n IH]; intros Hn; [exists ex_serial; apply ex_serial_queue|].
      destruct (IH ltac:(lia)) as [c Hc]. exists (cons_put 120 c). assert (H := cons_put_queue c _ 120 Hc).
      rewrite length_replicate in H. destruct (Z.eqb_spec (Z.of_nat n + 1) CONSBUFSIZE) as [E|]; [change CONSBUFSIZE with 512 in E; lia|].
      by rewrite <- replicate_S_end in H. }
    apply Hn. lia. }
  destruct H as [c Hc]. exists c. split; [exact Hc|].
  apply (cons_put_overflow c (replicate 511 120) 121 Hc). by rewrite length_replicate.
Defined.

Lemma cprintf_on_screen_witness :
  exists r c', Console.cprintf (cstr "a\tb\n") [] ex_console = Some (r, c') /\ on_screen ∅ c'.
Proof.
  assert (E : exists r c', Console.cprintf (cstr "a\tb\n") [] ex_console = Some (r, c'))
    by (eexists _, _; vm_compute; reflexivity).
  destruct E as (r & c' & E). exists r, c'. split; [exact E|].
  apply (cprintf_on_screen ∅ ex_console (cstr "a\tb\n") [] r c'); [|exact E].
  constructor; [split; [reflexivity | done] | done].
Defined.

End Witnesses.
