(* ===== verification/Sched.v ===== *)
(** * Sched: kern/sched.c, with env_destroy and user_mem_assert

    The round-robin scheduler and the two functions of kern/env.c and
    kern/pmap.c that end in it. *)

From S2P Require Import Prelude Machine CString Printfmt Hardware Console Kernel Pmap Spinlock Env.

Section Operations.

(** The search loop: [n] rounds left, [ptr] the candidate.  [env_run] does
    not return. *)
Fixpoint sched_loop (n : nat) (ptr : Z) : K unit :=
  match n with
  | O => skip
  | S n' =>
      let ptr := if NENV <=? ptr then 1 else ptr in
      v ← env_get ptr;
      when (bool_decide (env_status v = ENV_RUNNABLE)) (env_run ptr) ;;
      sched_loop n' (ptr + 1)
  end.

Definition sched_yield {A} : K A :=
  s ← get;
  sched_loop (Z.to_nat NENV) (default 0 (curenv s) + 1) ;;
  v ← env_get 0;
  if bool_decide (env_status v = ENV_RUNNABLE) then env_run 0
  else
    cprintf "Destroyed all environments - nothing more to do!\n" [] ;;
    halt SMonitor.

(** The search of [sched_halt]: whether some environment can run. *)
Fixpoint any_alive (n : nat) (i : Z) : K bool :=
  match n with
  | O => mret false
  | S n' =>
      v ← env_get i;
      if bool_decide (env_status v = ENV_RUNNABLE) || bool_decide (env_status v = ENV_RUNNING)
      then mret true else any_alive n' (i + 1)
  end.

Definition sched_halt {A} : K A :=
  b ← any_alive (Z.to_nat NENV) 0;
  if negb b then
    cprintf "No runnable environments in the system!\n" [] ;;
    halt SMonitor
  else
    set_curenv None ;;
    s ← get;
    pa ← PADDR (kern_pgdir s);
    lcr3 pa ;;
    set_thiscpu (set_cpu_status CPU_HALTED) ;;
    unlock_kernel ;;
    halt SHalt.

Definition env_destroy (e : Z) : K unit :=
  s ← get;
  v ← env_get e;
  if bool_decide (env_status v = ENV_RUNNING) && negb (bool_decide (curenv s = Some e))
  then env_update e (set_env_status ENV_DYING)
  else
    env_free e ;;
    s ← get;
    if bool_decide (curenv s = Some e) then set_curenv None ;; sched_yield else skip.

Definition user_mem_assert (env va len perm : Z) : K unit :=
  r ← user_mem_check env va len (Z.lor perm PTE_U);
  if r <? 0 then
    v ← env_get env;
    s ← get;
    cprintf "[%08x] user_mem_check assertion failure for va %08x\n"
      [VInt (env_id v); VInt (user_mem_check_addr s)] ;;
    env_destroy env
  else skip.

End Operations.
