(* ===== verification/SchedProps.v ===== *)
(** * SchedProps: the round-robin scheduler

    [sched_yield] as a search: the order in which it looks at environments,
    and what it does with the first one that can run. *)

From S2P Require Import Prelude Machine CString Printfmt Hardware Console Kernel Spinlock Pmap PageAlloc.
From S2P Require Import PrintfProps KernelProps PageTable Example Env EnvProps Sched.

Definition runnable (s : kstate) (e : Z) : bool :=
  match envs s !! e with Some v => bool_decide (env_status v = ENV_RUNNABLE) | None => false end.

(** The first environment of the list that can run. *)
Fixpoint pick (s : kstate) (l : list Z) : option Z :=
  match l with [] => None | e :: l' => if runnable s e then Some e else pick s l' end.

(** Round robin after [c]: the environments behind it, then those before it,
    environment 0 last. *)
Definition round_robin (c : Z) : list Z := seqZ (c + 1) (NENV - 1 - c) ++ seqZ 1 c ++ [0].

(** What the scheduler needs of the environments it may choose. *)
Record sched_ok (s : kstate) : Prop := mkSchedOk {
  so_dom : forall e, is_Some (envs s !! e) <-> 0 <= e < NENV;
  so_cur : cur_ok s;
  so_pgdir : forall e v, envs s !! e = Some v -> env_status v = ENV_RUNNABLE -> KERNBASE <= env_pgdir v < 2 ^ 32;
  so_lock : holds_lock s;
}.

Section Search.

(** The candidates of [n] rounds of the loop. *)
Fixpoint candidates (n : nat) (ptr : Z) : list Z :=
  match n with
  | O => []
  | S n' => let ptr := if NENV <=? ptr then 1 else ptr in ptr :: candidates n' (ptr + 1)
  end.

Lemma candidates_seq n ptr :
  ptr + Z.of_nat n <= NENV -> candidates n ptr = seqZ ptr (Z.of_nat n).
Proof.
  revert ptr. induction n as [|n IH]; intros ptr Hn; [done|].
  cbn [candidates]. destruct (Z.leb_spec NENV ptr); [lia|].
  rewrite seqZ_cons by lia. f_equal. rewrite IH by lia.
  f_equal; lia.
Qed.

Lemma candidates_app n1 n2 ptr :
  ptr + Z.of_nat n1 = NENV ->
  candidates (n1 + n2) ptr = seqZ ptr (Z.of_nat n1) ++ candidates n2 NENV.
Proof.
  revert ptr. induction n1 as [|n1 IH]; intros ptr Hn.
  - simpl. by replace ptr with NENV by lia.
  - cbn [Nat.add candidates]. destruct (Z.leb_spec NENV ptr); [lia|].
    rewrite (seqZ_cons ptr) by lia. simpl. f_equal. rewrite IH by lia.
    f_equal. f_equal; lia.
Qed.

Lemma candidates_wrap n : candidates (S n) NENV = candidates (S n) 1.
Proof. done. Qed.

(** In 1024 rounds every other environment is looked at, one of them twice. *)
Lemma candidates_all c :
  0 <= c < NENV ->
  exists d, d ∈ seqZ (c + 1) (NENV - 1 - c) ++ seqZ 1 c /\
    candidates (Z.to_nat NENV) (c + 1) = (seqZ (c + 1) (NENV - 1 - c) ++ seqZ 1 c) ++ [d].
Proof.
  intros Hc. change NENV with 1024 in *.
  replace (Z.to_nat 1024) with (Z.to_nat (1023 - c) + S (Z.to_nat c))%nat by lia.
  rewrite candidates_app by (change NENV with 1024; lia). rewrite candidates_wrap, Z2Nat.id by lia.
  replace (1024 - 1 - c) with (1023 - c) by lia.
  destruct (decide (c = 1023)) as [->|Hne].
  - replace (S (Z.to_nat 1023)) with (Z.to_nat 1023 + 1)%nat by lia.
    rewrite candidates_app by (change NENV with 1024; lia). rewrite Z2Nat.id by lia.
    exists 1. split; [|done]. rewrite elem_of_app, !elem_of_seqZ. lia.
  - exists (c + 1). split; [rewrite elem_of_app, !elem_of_seqZ; lia|].
    rewrite candidates_seq by (change NENV with 1024; lia). rewrite <- app_assoc. f_equal.
    replace (Z.of_nat (S (Z.to_nat c))) with (c + 1) by lia.
    rewrite seqZ_app by lia. f_equal. replace (1 + c) with (c + 1) by lia. done.
Qed.

Lemma pick_app s l1 l2 : pick s (l1 ++ l2) = match pick s l1 with Some e => Some e | None => pick s l2 end.
Proof. induction l1 as [|e l1 IH]; simpl; [done|]. by destruct (runnable s e). Qed.

Lemma pick_None s l : pick s l = None <-> forall e, e ∈ l -> runnable s e = false.
Proof.
  induction l as [|e l IH]; simpl; [split; [intros _ e []%not_elem_of_nil | done]|].
  destruct (runnable s e) eqn:He.
  - split; [done|]. intros H. specialize (H e (list_elem_of_here _ _)). congruence.
  - rewrite IH. split; intros H x.
    + intros [->|Hx]%elem_of_cons; auto.
    + intros Hx. apply H. by apply elem_of_cons; right.
Qed.

Lemma pick_Some s l e : pick s l = Some e -> e ∈ l /\ runnable s e = true.
Proof.
  induction l as [|x l IH]; simpl; [done|]. destruct (runnable s x) eqn:Hx.
  - intros [= <-]. split; [apply list_elem_of_here | done].
  - intros H. destruct (IH H). split; [by apply elem_of_cons; right | done].
Qed.

Lemma pick_again s l d : d ∈ l -> pick s (l ++ [d]) = pick s l.
Proof.
  intros Hd. rewrite pick_app. destruct (pick s l) as [e|] eqn:Hp; [done|].
  simpl. by rewrite (proj1 (pick_None s l) Hp _ Hd).
Qed.

Lemma runnable_env s e : runnable s e = true -> exists v, envs s !! e = Some v /\ env_status v = ENV_RUNNABLE.
Proof.
  unfold runnable. destruct (envs s !! e) as [v|]; [|done]. intros H%bool_decide_eq_true. eauto.
Qed.

(** The loop takes the first candidate that can run. *)
Lemma sched_loop_eq s n ptr :
  sched_ok s -> 0 <= ptr ->
  sched_loop n ptr s =
  match pick s (candidates n ptr) with
  | Some e => @env_run unit e s
  | None => (Ret tt, s)
  end.
Proof.
  intros Hok. revert ptr. induction n as [|n IH]; intros ptr Hp; [done|].
  cbn [sched_loop candidates pick]. set (q := if NENV <=? ptr then 1 else ptr).
  assert (Hq : 0 <= q < NENV) by (unfold q; destruct (Z.leb_spec NENV ptr); [done | lia]).
  destruct (proj2 (so_dom _ Hok q) Hq) as [v Hv]. rewrite (bind_Ret _ _ _ _ _ (env_get_eq _ _ _ Hv)).
  unfold runnable at 1. rewrite Hv. case_bool_decide as Hs; cbn [when].
  - assert (E := @env_run_eq unit s q v (so_cur _ Hok) Hv (so_pgdir _ Hok _ _ Hv Hs) (so_lock _ Hok)).
    rewrite (bind_Stop _ _ _ _ _ E). by rewrite E.
  - erewrite bind_Ret; [|reflexivity]. apply IH. lia.
Qed.

Lemma sched_yield_eq {A} s c :
  sched_ok s -> default 0 (curenv s) = c -> 0 <= c < NENV ->
  @sched_yield A s =
  match pick s (round_robin c) with
  | Some e => @env_run A e s
  | None => (cprintf "Destroyed all environments - nothing more to do!\n" [] ;; halt SMonitor) s
  end.
Proof.
  intros Hok Hc Hr. unfold sched_yield. kgo get_eq. rewrite Hc.
  destruct (candidates_all c Hr) as (d & Hd & Ec).
  pose proof (sched_loop_eq s (Z.to_nat NENV) (c + 1) Hok ltac:(lia)) as Hloop.
  rewrite Ec, (pick_again _ _ _ Hd) in Hloop.
  unfold round_robin. rewrite app_assoc, pick_app.
  destruct (pick s (seqZ (c + 1) (NENV - 1 - c) ++ seqZ 1 c)) as [e|] eqn:Hp.
  - destruct (pick_Some _ _ _ Hp) as [_ Hrun]. destruct (runnable_env _ _ Hrun) as (v & Hv & Hs).
    assert (Hpd := so_pgdir _ Hok _ _ Hv Hs).
    rewrite (@env_run_eq unit s e v (so_cur _ Hok) Hv Hpd (so_lock _ Hok)) in Hloop.
    rewrite (bind_Stop _ _ _ _ _ Hloop).
    by rewrite (@env_run_eq A s e v (so_cur _ Hok) Hv Hpd (so_lock _ Hok)).
  - rewrite (bind_Ret _ _ _ _ _ Hloop).
    destruct (proj2 (so_dom _ Hok 0) ltac:(done)) as [v Hv].
    rewrite (bind_Ret _ _ _ _ _ (env_get_eq _ _ _ Hv)). cbn [pick]. unfold runnable. rewrite Hv.
    by case_bool_decide.
Qed.

End Search.

Section Properties.

Lemma sched_monitor {A} s :
  fst ((cprintf "Destroyed all environments - nothing more to do!\n" [] ;; halt SMonitor) s : outcome A * kstate)
  = Stop SMonitor.
Proof.
  kprint c. reflexivity.
Qed.

(** Every environment has its turn. *)
Lemma round_robin_perm c : 0 <= c < NENV -> round_robin c ≡ₚ seqZ 0 NENV.
Proof.
  intros Hc. unfold round_robin. change NENV with 1024 in *.
  rewrite Permutation_app_comm, (Permutation_app_comm (seqZ 1 c)), <- app_assoc.
  replace 1024 with (1 + (c + (1023 - c))) at 2 by lia.
  rewrite seqZ_app, seqZ_app by lia. 
  replace (0 + 1 + c) with (c + 1) by lia. replace (1024 - 1 - c) with (1023 - c) by lia. done.
Qed.

(** Nothing is runnable when the search finds nothing. *)
Lemma none_runnable s c : sched_ok s -> 0 <= c < NENV -> pick s (round_robin c) = None ->
  forall e v, envs s !! e = Some v -> env_status v <> ENV_RUNNABLE.
Proof.
  intros Hok Hr Hp e v Hv Hs.
  assert (Hin : e ∈ round_robin c).
  { rewrite round_robin_perm, elem_of_seqZ by done.
    destruct (proj1 (so_dom _ Hok e) (ex_intro _ v Hv)). lia. }
  assert (Hf := proj1 (pick_None _ _) Hp e Hin). unfold runnable in Hf. rewrite Hv, Hs in Hf. done.
Qed.

(** C24. The scheduler is round robin.  It switches to the first runnable environment in the order
    [round_robin], which starts behind the current environment and visits every environment
    exactly once; it enters the monitor exactly when no environment is runnable. *)
Theorem sched_yield_round_robin A s c
  (Hok : sched_ok s) (Hc : default 0 (curenv s) = c) (Hr : 0 <= c < NENV) :
  round_robin c ≡ₚ seqZ 0 NENV /\
  match pick s (round_robin c) with
  | Some e =>
      exists s' v, @sched_yield A s = (Stop (SUser e), s') /\ curenv s' = Some e /\
        envs s !! e = Some v /\ env_status v = ENV_RUNNABLE /\
        envs s' !! e = Some (running_env (this_cpu s) v) /\ cr3 s' = env_pgdir v - KERNBASE /\
        kernel_lock s' = mkSpinlock 0 None
  | None =>
      fst (@sched_yield A s) = Stop SMonitor /\
      forall e v, envs s !! e = Some v -> env_status v <> ENV_RUNNABLE
  end.
Proof.
  split; [by apply round_robin_perm|].
  rewrite (sched_yield_eq s c Hok Hc Hr). destruct (pick s (round_robin c)) as [e|] eqn:Hp.
  - destruct (pick_Some _ _ _ Hp) as [_ Hrun]. destruct (runnable_env _ _ Hrun) as (v & Hv & Hs).
    exists (switched e v s), v.
    rewrite (env_run_eq s e v (so_cur _ Hok) Hv (so_pgdir _ Hok _ _ Hv Hs) (so_lock _ Hok)).
    split_and!; try done.
    + unfold curenv, thiscpu. simpl. by rewrite lookup_insert_eq.
    + simpl. by rewrite lookup_insert_eq.
  - split; [apply sched_monitor | by apply (none_runnable s c)].
Qed.

(** A running environment that yields alone is lost: when no environment is runnable the
    scheduler enters the monitor even though the current one is still ENV_RUNNING and could go
    on, which the comment above [sched_yield] asks for. *)
Lemma sched_yield_abandons_running A s c v
  (Hok : sched_ok s) (Hc : curenv s = Some c) (Hv : envs s !! c = Some v)
  (Hrun : env_status v = ENV_RUNNING)
  (Halone : forall e w, envs s !! e = Some w -> env_status w <> ENV_RUNNABLE) :
  fst (@sched_yield A s) = Stop SMonitor.
Proof.
  assert (Hr : 0 <= c < NENV) by (apply (so_dom _ Hok); eauto).
  rewrite (sched_yield_eq s c Hok) by (try rewrite Hc; done).
  assert (Hp : pick s (round_robin c) = None).
  { apply pick_None. intros e _. unfold runnable. destruct (envs s !! e) as [w|] eqn:Hw; [|done].
    apply bool_decide_eq_false. by apply Halone in Hw. }
  rewrite Hp. apply sched_monitor.
Qed.

(** ** Witnesses *)

Lemma ex_family_sched : sched_ok ex_family.
Proof.
  assert (Hd := array_of_dom NENV (fun _ => ex_env)).
  assert (Hl : forall e v, array_of NENV (fun _ => ex_env) !! e = Some v -> v = ex_env).
  { intros e v. rewrite array_of_lookup. destruct (_ && _); congruence. }
  revert Hd Hl. unfold ex_family. generalize (array_of NENV (fun _ => ex_env)). intros m Hd Hl.
  split; [| | |reflexivity]; cbn [envs set_envs set_cpus set_kernel_lock].
  - intros e. rewrite !lookup_insert_is_Some', Hd. change NENV with 1024. lia.
  - intros e [= <-]. cbn [envs set_envs set_cpus set_kernel_lock]. rewrite lookup_insert_eq. eauto.
  - intros e v Hv Hs.
    assert (Hpd : env_pgdir v = KERNBASE + 0x1000).
    { apply lookup_insert_Some in Hv as [[_ <-]|[_ Hv]]; [reflexivity|].
      apply lookup_insert_Some in Hv as [[_ <-]|[_ Hv]]; [reflexivity|].
      apply lookup_insert_Some in Hv as [[_ <-]|[_ Hv]]; [reflexivity|].
      rewrite (Hl _ _ Hv) in Hs. discriminate Hs. }
    rewrite Hpd. split; [lia | reflexivity].
Qed.

Lemma sched_yield_round_robin_witness :
  exists s' v, @sched_yield unit ex_family = (Stop (SUser 5), s') /\ curenv s' = Some 5 /\
        envs ex_family !! 5 = Some v /\ env_status v = ENV_RUNNABLE /\
        envs s' !! 5 = Some (running_env (this_cpu ex_family) v) /\ cr3 s' = env_pgdir v - KERNBASE /\
        kernel_lock s' = mkSpinlock 0 None.
Proof.
  destruct (sched_yield_round_robin unit ex_family 1 ex_family_sched eq_refl ltac:(split; [lia | reflexivity]))
    as [_ H].
  assert (E : pick ex_family (round_robin 1) = Some 5) by (vm_compute; reflexivity).
  rewrite E in H. exact H.
Defined.

(** Environment 1 is running, no other one exists. *)
Definition ex_alone : kstate :=
  set_kernel_lock (mkSpinlock 1 (Some 0))
    (set_cpus {[ 0 := mkCpuInfo 0 CPU_STARTED (Some 1) ]}
      (set_envs (<[1 := ex_live 0x1001 0 ENV_RUNNING]> (array_of NENV (fun _ => ex_env))) (ex_boot 16))).

Lemma ex_alone_sched :
  sched_ok ex_alone /\ forall e w, envs ex_alone !! e = Some w -> env_status w <> ENV_RUNNABLE.
Proof.
  assert (Hd := array_of_dom NENV (fun _ => ex_env)).
  assert (Hl : forall e v, array_of NENV (fun _ => ex_env) !! e = Some v -> v = ex_env).
  { intros e v. rewrite array_of_lookup. destruct (_ && _); congruence. }
  revert Hd Hl. unfold ex_alone. generalize (array_of NENV (fun _ => ex_env)). intros m Hd Hl.
  cbn [envs set_envs set_cpus set_kernel_lock].
  assert (Hno : forall e v, <[1:=ex_live 0x1001 0 ENV_RUNNING]> m !! e = Some v -> env_status v <> ENV_RUNNABLE).
  { intros e v [[<- <-]|[_ Hv]]%lookup_insert_Some; [done|]. by rewrite (Hl _ _ Hv). }
  split; [|done]. split; [| | |reflexivity]; cbn [envs set_envs set_cpus set_kernel_lock].
  - intros e. rewrite lookup_insert_is_Some', Hd. change NENV with 1024. lia.
  - intros e [= <-]. cbn [envs set_envs set_cpus set_kernel_lock]. rewrite lookup_insert_eq. eauto.
  - intros e v Hv Hs. by apply Hno in Hv.
Qed.

Lemma sched_yield_abandons_running_witness : fst (@sched_yield unit ex_alone) = Stop SMonitor.
Proof.
  apply (sched_yield_abandons_running unit ex_alone 1 (ex_live 0x1001 0 ENV_RUNNING)
    (proj1 ex_alone_sched) eq_refl eq_refl eq_refl (proj2 ex_alone_sched)).
Defined.

End Properties.
