(* ===== verification/Syscall.v ===== *)
(** * Syscall: kern/syscall.c

    The system calls and their dispatcher. *)

From S2P Require Import Prelude Machine CString Printfmt Hardware Console Kernel Pmap Spinlock Env.
From S2P Require Import Sched.

(** The mask [PTE_USER] has no definition in the sources; a comment in
    kern/syscall.c gives it the value of PTE_SYSCALL. *)
Definition PTE_USER : Z := Z.lor (Z.lor (Z.lor PTE_U PTE_P) PTE_W) PTE_AVAIL.

(** [perm & ~PTE_USER > 0] on a signed [int]. *)
Definition bad_perm (perm : Z) : bool := 0 <? Z.land (i32 perm) (Z.lnot PTE_USER).
Definition no_up (perm : Z) : bool := (Z.land perm PTE_U =? 0) || (Z.land perm PTE_P =? 0).

(** The same test on an [unsigned] ([sys_ipc_try_send]).  The source has the combining
    tilde U+0303 in place of the operator, which no compiler accepts; it is read as the
    operator, as in the two tests above it is copied from. *)
Definition bad_perm_u (perm : Z) : bool := 0 <? Z.land (u32 perm) (u32 (Z.lnot PTE_USER)).

Section Console.

(** The bytes that ["%.*s"] reads with precision [n]: it stops after a NUL
    byte, and reads the byte after the last one it prints.  A read that
    faults ends the list with the faulting address. *)
Fixpoint read_user (n : nat) (va : Z) : K (list Z * option Z) := fun s =>
  match vload8 va s with
  | (Ret c, _) =>
      match n with
      | O => (Ret ([c], None), s)
      | S n' =>
          if c =? 0 then (Ret ([c], None), s)
          else match read_user n' (u32 (va + 1)) s with
               | (Ret (l, f), _) => (Ret (c :: l, f), s)
               | (Stop r, _) => (Stop r, s)
               end
      end
  | (Stop _, _) => (Ret ([], Some va), s)
  end.

Definition sys_cputs (va len : Z) : K unit :=
  s ← get;
  c ← deref (curenv s);
  user_mem_assert c va len PTE_U ;;
  '(l, f) ← read_user (Z.to_nat len) va;
  match f with
  | None => cprintf "%.*s" [VInt len; VStr (Some l)]
  | Some a => cprintf "%.*s" [VInt len; VStr (Some (l ++ [0]))] ;; halt (SFault a)
  end.

(** [cons_getc] of kern/console.c; [fuel] bounds the number of characters
    that the devices deliver during the call. *)
Definition sys_cgetc (fuel : nat) : K Z := fun s =>
  match cons_getc fuel (con s) with
  | Some (c, con') => (Ret c, set_con con' s)
  | None => (Stop SDiverge, s)
  end.

End Console.

Section Environments.

Definition sys_getenvid : K Z :=
  s ← get;
  c ← deref (curenv s);
  v ← env_get c;
  mret (env_id v).

Definition sys_env_destroy (envid : Z) : K Z :=
  '(r, e) ← envid2env envid true;
  if r <? 0 then mret r
  else
    s ← get;
    id ← sys_getenvid;
    (if bool_decide (e = curenv s) then cprintf "[%08x] exiting gracefully\n" [VInt id]
     else
       e ← deref e;
       v ← env_get e;
       cprintf "[%08x] destroying %08x\n" [VInt id; VInt (env_id v)]) ;;
    e ← deref e;
    env_destroy e ;;
    mret 0.

Definition sys_yield {A} : K A := sched_yield.

Definition sys_exofork : K Z :=
  id ← sys_getenvid;
  '(r, newenv) ← env_alloc id;
  if r <? 0 then mret r
  else
    newenv ← deref newenv;
    env_update newenv (set_env_status ENV_NOT_RUNNABLE) ;;
    s ← get;
    c ← deref (curenv s);
    cv ← env_get c;
    env_update newenv (set_env_tf (env_tf cv)) ;;
    env_update newenv (fun v =>
      set_env_tf (set_tf_regs (set_reg_eax 0 (tf_regs (env_tf v))) (env_tf v)) v) ;;
    v ← env_get newenv;
    mret (env_id v).

(** The values of [env_status] as the system call gets them. *)
Definition status_of (z : Z) : option EnvStatus :=
  if z =? 2 then Some ENV_RUNNABLE else if z =? 4 then Some ENV_NOT_RUNNABLE else None.

Definition sys_env_set_status (envid status : Z) : K Z :=
  match status_of status with
  | None => mret (- E_INVAL)
  | Some st =>
      '(r, e) ← envid2env envid true;
      if r <? 0 then mret r
      else
        e ← deref e;
        env_update e (set_env_status st) ;;
        mret 0
  end.

Definition sys_env_set_pgfault_upcall (envid func : Z) : K Z :=
  '(r, e) ← envid2env envid true;
  if r <? 0 then mret (- E_BAD_ENV)
  else
    e ← deref e;
    env_update e (set_env_pgfault_upcall func) ;;
    mret 0.

End Environments.

Section Pages.

(** [sys_page_alloc] calls [page_alloc(&p)]: the flags are the address of the
    local variable [p] ([addr_p]), the page returned is not stored, and [p]
    keeps its uninitialised value [junk]; a pointer is never below 0. *)
Definition sys_page_alloc (addr_p junk : Z) (envid va perm : Z) : K Z :=
  if UTOP <=? va then mret (- E_INVAL)
  else if no_up perm then mret (- E_INVAL)
  else if bad_perm perm then mret (- E_INVAL)
  else
    '(r, e) ← envid2env envid true;
    if r <? 0 then mret (- E_BAD_ENV)
    else
      page_alloc addr_p ;;
      e ← deref e;
      v ← env_get e;
      r ← page_insert (env_pgdir v) junk va perm;
      if r <? 0 then page_free junk ;; mret (- E_NO_MEM)
      else
        kva ← page2kva junk;
        kmemset kva 0 PGSIZE ;;
        mret 0.

(** The source lacks a semicolon after the last [return 0]. *)
Definition sys_page_map (srcenvid srcva dstenvid dstva perm : Z) : K Z :=
  if (UTOP <=? srcva) || negb (ROUNDUP srcva PGSIZE =? srcva)
     || (UTOP <=? dstva) || negb (ROUNDUP dstva PGSIZE =? dstva)
  then mret (- E_INVAL)
  else if no_up perm then mret (- E_INVAL)
  else if bad_perm perm then mret (- E_INVAL)
  else
    '(r, srcenv) ← envid2env srcenvid true;
    if r <? 0 then mret (- E_BAD_ENV)
    else
      '(r, dstenv) ← envid2env dstenvid true;
      if r <? 0 then mret (- E_BAD_ENV)
      else
        srcenv ← deref srcenv;
        sv ← env_get srcenv;
        '(p, pte) ← page_lookup (env_pgdir sv) srcva;
        match p with
        | None => mret (- E_INVAL)
        | Some p =>
            ro ← (if 0 <? Z.land perm PTE_W
                  then d ← kload pte; mret (Z.land d PTE_W =? 0) else mret false);
            if (ro : bool) then mret (- E_INVAL)
            else
              dstenv ← deref dstenv;
              dv ← env_get dstenv;
              r ← page_insert (env_pgdir dv) p dstva perm;
              if r <? 0 then mret (- E_NO_MEM) else mret 0
        end.

Definition sys_page_unmap (envid va : Z) : K Z :=
  if (UTOP <=? va) || negb (ROUNDUP va PGSIZE =? va) then mret (- E_INVAL)
  else
    '(r, e) ← envid2env envid true;
    if r <? 0 then mret (- E_BAD_ENV)
    else
      e ← deref e;
      v ← env_get e;
      page_remove (env_pgdir v) va ;;
      mret 0.

End Pages.

Section Ipc.

Definition ipc_deliver (dst value : Z) : K Z :=
  s ← get;
  c ← deref (curenv s);
  cv ← env_get c;
  env_update dst (set_env_ipc_from (env_id cv)) ;;
  env_update dst (set_env_ipc_value value) ;;
  env_update dst (set_env_status ENV_RUNNABLE) ;;
  env_update dst (set_env_ipc_recving false) ;;
  env_update dst (fun v =>
    set_env_tf (set_tf_regs (set_reg_eax 0 (tf_regs (env_tf v))) (env_tf v)) v) ;;
  mret 0.

Definition sys_ipc_try_send (envid value srcva perm : Z) : K Z :=
  '(r, dst) ← envid2env envid false;
  if r <? 0 then mret (- E_BAD_ENV)
  else
    dst ← deref dst;
    dv ← env_get dst;
    if negb (env_ipc_recving dv) || negb (env_ipc_from dv =? 0) then mret (- E_IPC_NOT_RECV)
    else if (srcva <? UTOP) && negb (ROUNDDOWN srcva PGSIZE =? srcva) then mret (- E_INVAL)
    else if (srcva <? UTOP) && no_up perm then mret (- E_INVAL)
    else if (srcva <? UTOP) && bad_perm_u perm then mret (- E_INVAL)
    else if srcva <? UTOP then
      s ← get;
      c ← deref (curenv s);
      cv ← env_get c;
      '(p, pte) ← page_lookup (env_pgdir cv) srcva;
      match p with
      | None => mret (- E_INVAL)
      | Some p =>
          d ← kload pte;
          if (Z.land d PTE_W =? 0) && (0 <? Z.land perm PTE_W) then mret (- E_INVAL)
          else if negb (env_ipc_dstva dv =? 0) then
            r ← page_insert (env_pgdir dv) p (env_ipc_dstva dv) perm;
            if r <? 0 then mret (- E_NO_MEM)
            else env_update dst (set_env_ipc_perm perm) ;; ipc_deliver dst value
          else ipc_deliver dst value
      end
    else ipc_deliver dst value.

Definition sys_ipc_recv (dstva : Z) : K Z :=
  if (dstva <? UTOP) && negb (ROUNDDOWN dstva PGSIZE =? dstva) then mret (- E_INVAL)
  else
    s ← get;
    c ← deref (curenv s);
    env_update c (set_env_ipc_dstva dstva) ;;
    env_update c (set_env_ipc_recving true) ;;
    env_update c (set_env_ipc_from 0) ;;
    env_update c (set_env_status ENV_NOT_RUNNABLE) ;;
    sched_yield.

End Ipc.

(** The dispatcher knows four of the thirteen calls. *)
Definition syscall (fuel : nat) (syscallno a1 a2 a3 a4 a5 : Z) : K Z :=
  if syscallno =? SYS_cputs then sys_cputs a1 a2 ;; mret 0
  else if syscallno =? SYS_cgetc then sys_cgetc fuel
  else if syscallno =? SYS_getenvid then sys_getenvid
  else if syscallno =? SYS_env_destroy then sys_env_destroy (i32 a1)
  else mret (- E_INVAL).
