(* ===== verification/SyscallProps.v ===== *)
(** * SyscallProps: the system calls

    The dispatcher as a contract with user code, [sys_page_map] as insertion
    into the address space of the destination, and the rendezvous of
    [sys_ipc_recv] and [sys_ipc_try_send]. *)

From S2P Require Import Prelude Machine CString Printfmt Hardware Console Kernel Pmap PageAlloc PageTable.
From S2P Require Import Example PtProps Env EnvProps Sched Syscall.

(** ** The dispatcher *)

Section Dispatch.

Lemma syscall_others fuel n a1 a2 a3 a4 a5 s :
  4 <= n -> syscall fuel n a1 a2 a3 a4 a5 s = (Ret (- E_INVAL), s).
Proof.
  intros H4. unfold syscall, SYS_cputs, SYS_cgetc, SYS_getenvid, SYS_env_destroy.
  rewrite !(proj2 (Z.eqb_neq n _)) by lia. done.
Qed.

(** The dispatcher serves four of the thirteen system calls of inc/syscall.h -- sys_cputs,
    sys_cgetc, sys_getenvid and sys_env_destroy; the nine others are refused with -E_INVAL
    and leave the state as it is, although kern/syscall.c implements them. *)
Theorem syscall_refuses (fuel : nat) (n a1 a2 a3 a4 a5 : Z) (s : kstate) :
  n ∈ [SYS_page_alloc; SYS_page_map; SYS_page_unmap; SYS_exofork; SYS_env_set_status;
       SYS_env_set_pgfault_upcall; SYS_yield; SYS_ipc_try_send; SYS_ipc_recv] \/ NSYSCALLS <= n ->
  syscall fuel n a1 a2 a3 a4 a5 s = (Ret (- E_INVAL), s).
Proof.
  intros [Hn|Hn]; apply syscall_others; [|unfold NSYSCALLS in Hn; lia].
  repeat (apply elem_of_cons in Hn as [->|Hn]; [done|]). by apply not_elem_of_nil in Hn.
Qed.

Lemma syscall_refuses_witness : syscall 0 SYS_exofork 0 0 0 0 0 (ex_boot 4) = (Ret (- E_INVAL), ex_boot 4).
Proof. apply (syscall_refuses 0 SYS_exofork 0 0 0 0 0 (ex_boot 4)). left. do 3 right. left. Defined.

End Dispatch.

(** ** Naming environments *)

Section Naming.

(** [envid] is a name for [e] that the current environment may use. *)
Definition resolves (s : kstate) (envid e : Z) : Prop :=
  if decide (envid = 0) then curenv s = Some e else names s envid e true.

Lemma resolves_eq s c cv envid e :
  envs_wf s -> curenv s = Some c -> envs s !! c = Some cv -> resolves s envid e ->
  envid2env envid true s = (Ret (0, Some e), s).
Proof.
  intros Hwf Hc Hcv. unfold resolves. destruct (decide (envid = 0)) as [->|Hne].
  - intros He. unfold envid2env. kgo get_eq. by rewrite He.
  - intros Hn. destruct (envid2env_cases s Hwf c cv Hc Hcv envid true Hne) as [(e' & Hn' & ->)|[Hno _]].
    + destruct Hn as (v1 & H1 & S1 & I1 & _), Hn' as (v2 & H2 & S2 & I2 & _).
      destruct (ew_ids _ Hwf _ _ H1 S1) as [<- _]. destruct (ew_ids _ Hwf _ _ H2 S2) as [<- _]. congruence.
    + by destruct (Hno e).
Qed.

End Naming.

(** ** sys_page_map *)

Section PageMap.

(** The permissions that a user may ask for. *)
Definition user_perm (perm : Z) : Prop :=
  0 <= perm < 4096 /\ test perm PTE_U = true /\ test perm PTE_P = true /\ Z.land perm (Z.lnot PTE_USER) = 0.

(** A page boundary of the user's part of an address space. *)
Definition user_page (va : Z) : Prop := 0 <= va < UTOP /\ va `mod` 4096 = 0.

Lemma user_page_checks va : user_page va -> ((UTOP <=? va) || negb (ROUNDUP va PGSIZE =? va)) = false.
Proof.
  intros [Hr Hm]. change UTOP with 4005560320 in *. destruct (Z.leb_spec 4005560320 va); [lia|]. simpl.
  destruct (ROUNDUP_page va) as [H1 H2]; [lia..|].
  assert (ROUNDUP va PGSIZE = va) as -> by zdm. by rewrite Z.eqb_refl.
Qed.

Lemma user_perm_checks perm : user_perm perm -> no_up perm = false /\ bad_perm perm = false.
Proof.
  intros (Hr & Hu & Hp & Hm). unfold test in Hu, Hp. split.
  - unfold no_up. apply negb_true_iff in Hu, Hp. by rewrite Hu, Hp.
  - unfold bad_perm. rewrite i32_small by lia. by rewrite Hm.
Qed.

Lemma test_pos x m : 0 <= m -> (0 <? Z.land x m) = test x m.
Proof.
  intros Hm. unfold test. assert (0 <= Z.land x m) by (apply Z.land_nonneg; by right).
  destruct (Z.ltb_spec 0 (Z.land x m)), (Z.eqb_spec (Z.land x m) 0); try lia; done.
Qed.

(** [sys_page_map] shares a page: for page-aligned addresses below UTOP, names of two
    environments the caller may use and proper permissions, it fails with -E_INVAL when nothing
    is mapped at the source or a writable mapping of a read-only page is asked for, and otherwise
    it is insertion of the same physical page, with the new permissions, into the map of the
    destination (or -E_NO_MEM without any change when no page table can be allocated). *)
Lemma sys_page_map_shares s c cv src sv srcva dst dv dstva srcid dstid perm
    D sD pd spd T sT A sA l ext
  (Hwf : envs_wf s) (Hcur : curenv s = Some c) (Hcv : envs s !! c = Some cv)
  (Hsrc : resolves s srcid src) (Hsv : envs s !! src = Some sv)
  (Hdst : resolves s dstid dst) (Hdv : envs s !! dst = Some dv)
  (Hsva : user_page srcva) (Hdva : user_page dstva) (Hperm : user_perm perm)
  (Hsp : space_wf sD s (env_pgdir sv) spd sT sA) (HsD : sD (PDX srcva))
  (Hds : aspace D s (env_pgdir dv) pd T A l ext) (HD : D (PDX dstva))
  (Hshare : forall v e, sA !! v = Some e ->
    (e.1 ∉ l) /\ (forall pi, pages s !! e.1 = Some pi -> pp_ref pi + 1 < 2 ^ 16)) :
  match sA !! PGNUM srcva with
  | None => sys_page_map srcid srcva dstid dstva perm s = (Ret (- E_INVAL), s)
  | Some (p, fl) =>
      if test perm PTE_W && negb (test fl PTE_W)
      then sys_page_map srcid srcva dstid dstva perm s = (Ret (- E_INVAL), s)
      else match spec_insert pd ext p (PGNUM dstva) perm T A l with
           | None => sys_page_map srcid srcva dstid dstva perm s = (Ret (- E_NO_MEM), s)
           | Some (T', A', l') =>
               exists s', sys_page_map srcid srcva dstid dstva perm s = (Ret 0, s') /\ mm_eq s s' /\
                 A' !! PGNUM dstva = Some (p, Z.lor perm PTE_P) /\ aspace D s' (env_pgdir dv) pd T' A' l' ext
           end
  end.
Proof.
  assert (Hn := proj2 (aw_npages _ _ (as_alloc _ _ _ _ _ _ _ _ Hds))).
  destruct (user_perm_checks _ Hperm) as [Hup Hbad].
  assert (Hs32 : 0 <= srcva < 2 ^ 32) by (destruct Hsva as [? _]; change UTOP with 4005560320 in *; lia).
  assert (Hd32 : 0 <= dstva < 2 ^ 32) by (destruct Hdva as [? _]; change UTOP with 4005560320 in *; lia).
  unfold sys_page_map.
  assert (Hchk : ((UTOP <=? srcva) || negb (ROUNDUP srcva PGSIZE =? srcva) || (UTOP <=? dstva)
    || negb (ROUNDUP dstva PGSIZE =? dstva)) = false).
  { rewrite <- orb_assoc, (user_page_checks _ Hsva), (user_page_checks _ Hdva). done. }
  rewrite Hchk, Hup, Hbad. cbv iota.
  erewrite bind_Ret; [|by eapply resolves_eq]. cbv beta iota. change (0 <? 0) with false. cbv iota.
  erewrite bind_Ret; [|by eapply resolves_eq]. cbv beta iota. change (0 <? 0) with false. cbv iota.
  erewrite bind_Ret; [|apply deref_eq].
  rewrite (bind_Ret _ _ _ _ _ (env_get_eq _ _ _ Hsv)).
  rewrite (bind_Ret _ _ _ _ _ (page_lookup_eq _ _ _ _ _ _ _ Hsp Hn HsD Hs32)).
  destruct (sA !! PGNUM srcva) as [[p fl]|] eqn:Hp; [|done]. cbn [fmap option_fmap option_map fst].
  destruct (sw_some _ _ _ _ _ _ Hsp _ _ Hp) as (_ & Hpr & Hfl & Hpp & _). cbn [fst snd] in *.
  rewrite test_pos by done.
  assert (Hro : (if test perm PTE_W then d ← kload (slot sT srcva); mret (Z.land d PTE_W =? 0) else mret false) s
                = (Ret (test perm PTE_W && negb (test fl PTE_W)), s)).
  { destruct (test perm PTE_W); [|done].
    destruct (entry_table _ _ _ _ _ _ _ _ Hsp Hs32 Hp) as [t Ht]. unfold slot. rewrite Ht. cbn [from_option].
    rewrite (bind_Ret _ _ _ _ _ (kload_pte _ _ _ _ _ _ _ (sw_tables _ _ _ _ _ _ Hsp) Ht)).
    rewrite (entry_some _ _ _ _ _ _ _ _ _ Hsp Hs32 Ht Hp).
    assert (Ht2 := pte_entry_test (p, fl) PTE_W Hfl ltac:(unfold PTE_W; lia)). cbn [snd] in Ht2.
    rewrite <- Ht2. unfold test. by rewrite negb_involutive. }
  rewrite (bind_Ret _ _ _ _ _ Hro). destruct (test perm PTE_W && negb (test fl PTE_W)); [done|].
  erewrite bind_Ret; [|apply deref_eq]. rewrite (bind_Ret _ _ _ _ _ (env_get_eq _ _ _ Hdv)).
  destruct (proj2 (aw_dom _ _ (as_alloc _ _ _ _ _ _ _ _ Hds) p) Hpr) as [pi Hpi].
  destruct (Hshare _ _ Hp) as [Hpl Href]. cbn [fst] in *.
  pose proof (page_insert_eq D s (env_pgdir dv) pd T A l ext p dstva perm pi Hds
    ltac:(intros x Hx; rewrite Hcur in Hx; injection Hx as <-; eauto) HD Hd32 Hpi Hpl (Href _ Hpi) (proj1 Hperm)) as Hi.
  destruct (spec_insert pd ext p (PGNUM dstva) perm T A l) as [[[T' A'] l']|] eqn:Es.
  - destruct Hi as (s' & Hrun & Hmm & _ & Has). exists s'. rewrite (bind_Ret _ _ _ _ _ Hrun).
    split; [done|]. split; [done|]. split; [|done].
    unfold spec_insert in Es. destruct (spec_table _ T l) as [[T1 l1]|]; [|done]. injection Es as <- <- <-.
    apply lookup_insert_eq.
  - by rewrite (bind_Ret _ _ _ _ _ Hi).
Qed.

End PageMap.

(** ** Interprocess communication *)

Section Ipc.

(** A receiver that waits, and the receiver after a delivery. *)
Definition waiting (dstva : Z) (v : Env) : Env :=
  set_env_status ENV_NOT_RUNNABLE (set_env_ipc_from 0 (set_env_ipc_recving true (set_env_ipc_dstva dstva v))).

Definition delivered (from value : Z) (v : Env) : Env :=
  set_env_tf (set_tf_regs (set_reg_eax 0 (tf_regs (env_tf v))) (env_tf v))
    (set_env_ipc_recving false (set_env_status ENV_RUNNABLE (set_env_ipc_value value (set_env_ipc_from from v)))).

Lemma env_update_same s m e x f :
  env_update e f (set_envs (<[e := x]> m) s) = (Ret tt, set_envs (<[e := f x]> m) s).
Proof.
  unfold env_update. cbn [envs set_envs]. rewrite lookup_insert_eq, insert_insert_eq. by destruct s.
Qed.

Lemma env_update_first s e v f :
  envs s !! e = Some v -> env_update e f s = (Ret tt, set_envs (<[e := f v]> (envs s)) s).
Proof. apply env_update_eq. Qed.

(** Looking an environment up by its identifier, without the check. *)
Lemma lookup_any s c cv envid e :
  envs_wf s -> curenv s = Some c -> envs s !! c = Some cv -> envid <> 0 -> names s envid e false ->
  envid2env envid false s = (Ret (0, Some e), s).
Proof.
  intros Hwf Hc Hcv Hne Hn. destruct (envid2env_cases s Hwf c cv Hc Hcv envid false Hne) as [(e' & Hn' & ->)|[Hno _]].
  - destruct Hn as (v1 & H1 & S1 & I1 & _), Hn' as (v2 & H2 & S2 & I2 & _).
    destruct (ew_ids _ Hwf _ _ H1 S1) as [<- _]. destruct (ew_ids _ Hwf _ _ H2 S2) as [<- _]. congruence.
  - by destruct (Hno e).
Qed.

Lemma ipc_deliver_eq s c cv e v value :
  curenv s = Some c -> envs s !! c = Some cv -> envs s !! e = Some v ->
  ipc_deliver e value s = (Ret 0, set_envs (<[e := delivered (env_id cv) value v]> (envs s)) s).
Proof.
  intros Hc Hcv Hv. unfold ipc_deliver. kgo get_eq. rewrite Hc. kgo @deref_eq.
  rewrite (bind_Ret _ _ _ _ _ (env_get_eq _ _ _ Hcv)).
  rewrite (bind_Ret _ _ _ _ _ (env_update_eq _ _ _ _ Hv)).
  do 4 (erewrite bind_Ret; [|apply env_update_same]). done.
Qed.

(** C26. Rendezvous without a page.  [sys_ipc_recv] marks the caller as waiting and gives up the
    processor.  When another environment sends to it, the value and the sender's identifier are
    stored, the receiver becomes runnable and its call returns 0; nothing else changes.  A send
    to an environment that does not wait -- the same receiver again, for instance -- is refused
    with -E_IPC_NOT_RECV and changes nothing.  (The receiver's env_ipc_perm is not reset to 0,
    as the comment has it.) *)
Theorem ipc_rendezvous s r rv dstva s2 c cv envid value srcva perm
  (Hr : curenv s = Some r) (Hrv : envs s !! r = Some rv) (Hdst : UTOP <= dstva)
  (Hwf : envs_wf s2) (Hc : curenv s2 = Some c) (Hcv : envs s2 !! c = Some cv) (Hne : c <> r)
  (Hid : envid <> 0) (Hname : names s2 envid r false)
  (Hwait : envs s2 !! r = Some (waiting dstva rv)) (Hsrc : UTOP <= srcva) :
  sys_ipc_recv dstva s = sched_yield (set_envs (<[r := waiting dstva rv]> (envs s)) s) /\
  (let s3 := set_envs (<[r := delivered (env_id cv) value (waiting dstva rv)]> (envs s2)) s2 in
   sys_ipc_try_send envid value srcva perm s2 = (Ret 0, s3) /\
   (exists w, envs s3 !! r = Some w /\ env_status w = ENV_RUNNABLE /\ env_ipc_value w = value /\
      env_ipc_from w = env_id cv /\ reg_eax (tf_regs (env_tf w)) = 0 /\ env_ipc_perm w = env_ipc_perm rv) /\
   (forall value' srcva' perm' s4, envs_wf s4 -> curenv s4 = Some c -> envs s4 !! c = Some cv ->
      names s4 envid r false -> envs s4 !! r = envs s3 !! r ->
      sys_ipc_try_send envid value' srcva' perm' s4 = (Ret (- E_IPC_NOT_RECV), s4))).
Proof.
  assert (Hlt : forall a, UTOP <= a -> (a <? UTOP) = false) by (intros a Ha; by apply Z.ltb_ge).
  split; [|cbv zeta; split; [|split]].
  - unfold sys_ipc_recv. rewrite (Hlt _ Hdst). cbn [andb]. kgo get_eq. rewrite Hr. kgo @deref_eq.
    rewrite (bind_Ret _ _ _ _ _ (env_update_eq _ _ _ _ Hrv)).
    do 3 (erewrite bind_Ret; [|apply env_update_same]). done.
  - unfold sys_ipc_try_send.
    rewrite (bind_Ret _ _ _ _ _ (lookup_any s2 c cv envid r Hwf Hc Hcv Hid Hname)). cbv beta iota.
    change (0 <? 0) with false. cbv iota. erewrite bind_Ret; [|apply deref_eq].
    rewrite (bind_Ret _ _ _ _ _ (env_get_eq _ _ _ Hwait)). rewrite !(Hlt _ Hsrc). cbn [andb].
    exact (ipc_deliver_eq s2 c cv r (waiting dstva rv) value Hc Hcv Hwait).
  - eexists. split; [cbn [envs set_envs]; apply lookup_insert_eq|]. done.
  - intros value' srcva' perm' s4 Hwf4 Hc4 Hcv4 Hn4 Hr4. cbn [envs set_envs] in Hr4.
    rewrite lookup_insert_eq in Hr4. unfold sys_ipc_try_send.
    rewrite (bind_Ret _ _ _ _ _ (lookup_any s4 c cv envid r Hwf4 Hc4 Hcv4 Hid Hn4)). cbv beta iota.
    change (0 <? 0) with false. cbv iota. erewrite bind_Ret; [|apply deref_eq].
    rewrite (bind_Ret _ _ _ _ _ (env_get_eq _ _ _ Hr4)). done.
Qed.

End Ipc.

(** ** Witnesses *)

Section Witnesses.

Lemma envs_wf_update s e v w :
  envs_wf s -> envs s !! e = Some v -> env_status v <> ENV_FREE -> env_id w = env_id v ->
  envs_wf (set_envs (<[e := w]> (envs s)) s).
Proof.
  intros [H1 H2] Hv Hs Hid. constructor; cbn [envs set_envs].
  - intros x. rewrite lookup_insert_is_Some'. rewrite <- H1. split; [intros [<-|?]; eauto | by right].
  - intros x u [[<- <-]|[_ Hu]]%lookup_insert_Some Hst; [|by apply H2]. rewrite Hid. by apply H2.
Qed.

(** Environment 5 waits, environment 1 runs. *)
Definition ex_receiver : kstate := set_cpus {[ 0 := mkCpuInfo 0 CPU_STARTED (Some 5) ]} ex_family.
Definition ex_waiting : Env := waiting UTOP (ex_live 0x1005 0x1001 ENV_RUNNABLE).
Definition ex_sender : kstate := set_envs (<[5 := ex_waiting]> (envs ex_family)) ex_family.

Lemma ex_family_5 : envs ex_family !! 5 = Some (ex_live 0x1005 0x1001 ENV_RUNNABLE).
Proof. reflexivity. Qed.

Lemma ex_family_1 : envs ex_family !! 1 = Some (ex_live 0x1001 0 ENV_RUNNING).
Proof. reflexivity. Qed.

Lemma envs_set_cpus c s e : envs (set_cpus c s) !! e = envs s !! e.
Proof. reflexivity. Qed.

Lemma ex_receiver_5 : envs ex_receiver !! 5 = Some (ex_live 0x1005 0x1001 ENV_RUNNABLE).
Proof. exact (eq_trans (envs_set_cpus _ ex_family 5) ex_family_5). Qed.

Lemma ex_sender_cur : curenv ex_sender = Some 1.
Proof. reflexivity. Qed.

Lemma ex_receiver_cur : curenv ex_receiver = Some 5.
Proof. reflexivity. Qed.

Lemma ipc_rendezvous_witness :
  exists s3 w, sys_ipc_try_send 0x1005 42 UTOP 0 ex_sender = (Ret 0, s3) /\
    envs s3 !! 5 = Some w /\ env_status w = ENV_RUNNABLE /\ env_ipc_value w = 42 /\ env_ipc_from w = 0x1001.
Proof.
  assert (Hwf : envs_wf ex_sender)
    by exact (envs_wf_update ex_family 5 _ ex_waiting ex_family_wf ex_family_5 ltac:(discriminate) eq_refl).
  assert (Hw : envs ex_sender !! 5 = Some ex_waiting) by apply lookup_insert_eq.
  assert (Hcv : envs ex_sender !! 1 = Some (ex_live 0x1001 0 ENV_RUNNING))
    by (unfold ex_sender; cbn [envs set_envs]; rewrite lookup_insert_ne by done; exact ex_family_1).
  assert (Hn : names ex_sender 0x1005 5 false).
  { exists ex_waiting. split; [exact Hw|]. split; [discriminate|]. split; [reflexivity | discriminate]. }
  destruct (ipc_rendezvous ex_receiver 5 (ex_live 0x1005 0x1001 ENV_RUNNABLE) UTOP ex_sender 1
    (ex_live 0x1001 0 ENV_RUNNING) 0x1005 42 UTOP 0 ex_receiver_cur ex_receiver_5 (Z.le_refl _) Hwf ex_sender_cur Hcv
    ltac:(lia) ltac:(lia) Hn Hw (Z.le_refl _)) as (_ & H1 & (w & H2 & H3 & H4 & H5 & _) & _).
  eexists _, w. split; [exact H1|]. split; [exact H2|]. split; [exact H3|]. split; [exact H4 | exact H5].
Defined.

(** The mapped page of the sample state belongs to the current environment. *)
Definition ex_mapper_env : Env := ex_live 0x1000 0 ENV_RUNNING.
Definition ex_mapper : kstate :=
  set_cpus {[ 0 := mkCpuInfo 0 CPU_STARTED (Some 0) ]}
    (set_envs (<[0 := ex_mapper_env]> (array_of NENV (fun _ => ex_env))) ex_mapped).

Lemma aspace_set_envs D s pgdir pd T A l ext C E :
  aspace D s pgdir pd T A l ext -> aspace D (set_cpus C (set_envs E s)) pgdir pd T A l ext.
Proof.
  intros [Ha [[H1 H2 H3 H4 H5] H6 H7] H8 H9]. constructor; [by apply (alloc_wf_frame s) | | done | done].
  constructor; [by constructor | done | done].
Qed.

Lemma ex_mapper_wf : envs_wf ex_mapper.
Proof.
  assert (Hd := array_of_dom NENV (fun _ => ex_env)).
  assert (Hl : forall e v, array_of NENV (fun _ => ex_env) !! e = Some v -> v = ex_env).
  { intros e v. rewrite array_of_lookup. destruct (_ && _); congruence. }
  revert Hd Hl. unfold ex_mapper. generalize (array_of NENV (fun _ => ex_env)). intros m Hd Hl.
  constructor; cbn [envs set_cpus set_envs].
  - intros e. rewrite lookup_insert_is_Some'. rewrite Hd. change NENV with 1024. lia.
  - intros e v [[<- <-]|[_ Hv]]%lookup_insert_Some Hs; [split; reflexivity|]. by rewrite (Hl _ _ Hv) in Hs.
Qed.

Lemma sys_page_map_shares_witness :
  exists s', sys_page_map 0 0x5000 0 0x6000 7 ex_mapper = (Ret 0, s') /\
    aspace every s' (4096 * 1 + KERNBASE) 1 {[ 0 := 3 ]} (<[6 := (2, 7)]> {[ 5 := (2, 7) ]}) [4] (fun _ => 0).
Proof.
  assert (Ha := aspace_set_envs _ _ _ _ _ _ _ _ {[ 0 := mkCpuInfo 0 CPU_STARTED (Some 0) ]}
    (<[0 := ex_mapper_env]> (array_of NENV (fun _ => ex_env))) (proj2 (ex_mapped_aspace every I))).
  assert (He : envs ex_mapper !! 0 = Some ex_mapper_env) by apply lookup_insert_eq.
  destruct (sys_page_map_shares ex_mapper 0 ex_mapper_env 0 ex_mapper_env 0x5000 0 ex_mapper_env 0x6000 0 0 7
    every every 1 1 {[ 0 := 3 ]} {[ 0 := 3 ]} {[ 5 := (2, 7) ]} {[ 5 := (2, 7) ]} [4] (fun _ => 0)
    ex_mapper_wf eq_refl He eq_refl He eq_refl He) as (s' & H1 & _ & _ & H4).
  - split; [split; [discriminate | reflexivity] | reflexivity].
  - split; [split; [discriminate | reflexivity] | reflexivity].
  - split; [lia|]. split_and!; reflexivity.
  - exact (as_space _ _ _ _ _ _ _ _ Ha).
  - exact I.
  - exact Ha.
  - exact I.
  - intros v e Hv. apply lookup_singleton_Some in Hv as [<- <-]. split.
    + intros [E|E%not_elem_of_nil]%elem_of_cons; [discriminate E | exact E].
    + intros pi Hpi. destruct (as_refs _ _ _ _ _ _ _ _ Ha _ _ Hpi) as [-> _]. vm_compute. reflexivity.
  - exists s'. split; [exact H1 | exact H4].
Defined.

End Witnesses.
