(* ===== verification/Trap.v ===== *)
(** * Trap: kern/trap.c

    The interrupt descriptor table, the printing of trap frames, the handler
    [trap] with its dispatcher, and the delivery of page faults to user
    code. *)

From S2P Require Import Prelude Machine CString Printfmt Hardware Console Kernel Pmap Spinlock Env.
From S2P Require Import Sched Syscall.

(** ** Names *)

Definition excnames : list string :=
  ["Divide error"; "Debug"; "Non-Maskable Interrupt"; "Breakpoint"; "Overflow";
   "BOUND Range Exceeded"; "Invalid Opcode"; "Device Not Available"; "Double Fault";
   "Coprocessor Segment Overrun"; "Invalid TSS"; "Segment Not Present"; "Stack Fault";
   "General Protection"; "Page Fault"; "(unknown trap)"; "x87 FPU Floating-Point Error";
   "Alignment Check"; "Machine-Check"; "SIMD Floating-Point Exception"]%string.

(** The comparison with the size of the array is unsigned, so a negative
    number is not an index. *)
Definition trapname (trapno : Z) : string :=
  match (if u32 trapno <? 20 then excnames !! Z.to_nat (u32 trapno) else None) with
  | Some n => n
  | None =>
      if trapno =? T_SYSCALL then "System call"%string
      else if (IRQ_OFFSET <=? trapno) && (trapno <? IRQ_OFFSET + 16) then "Hardware Interrupt"%string
      else "(unknown trap)"%string
  end.

(** ** Initialisation *)

Section Initialisation.

(** The addresses of the entry points of kern/trapentry.S: [routine n] for
    exception or system call [n], [routine_irq n] for interrupt line [n], and
    [ts_addr] the address of the task state. *)
Context (routine routine_irq : Z -> Z) (ts_addr : Z).

Definition STS_T32A : Z := 0x9.
Definition STS_IG32 : Z := 0xE.
Definition STS_TG32 : Z := 0xF.

Definition SETGATE (istrap sel off dpl : Z) : Gatedesc :=
  mkGatedesc (Z.land (u32 off) 0xffff) sel (if istrap =? 0 then STS_IG32 else STS_TG32) 0 dpl 1
    (Z.shiftr (u32 off) 16).

(** The exceptions with a handler. *)
Definition exceptions : list Z := [0; 1; 2; 3; 4; 5; 6; 7; 8; 10; 11; 12; 13; 14; 16; 17; 18; 19].

Definition set_idt_entry (n : Z) (g : Gatedesc) : K unit :=
  hw_update (fun h => set_idt (<[n := g]> (idt h)) h).

Definition sizeof_Taskstate : Z := 104.

(** Descriptor 5 and the task state are shared by all processors. *)
Definition trap_init_percpu : K unit :=
  hw_update (set_ts_esp0 KSTACKTOP) ;;
  hw_update (set_ts_ss0 GD_KD) ;;
  let d := SEG16 STS_T32A ts_addr sizeof_Taskstate 0 in
  hw_update (fun h => set_gdt (<[Z.shiftr GD_TSS0 3 :=
    mkSegdesc (sd_lim_15_0 d) (sd_base_15_0 d) (sd_base_23_16 d) (sd_type d) 0 (sd_dpl d) (sd_p d)
      (sd_lim_19_16 d) (sd_avl d) (sd_rsv1 d) (sd_db d) (sd_g d) (sd_base_31_24 d)]> (gdt h)) h).

Definition trap_init : K unit :=
  for_each exceptions (fun n =>
    set_idt_entry n (SETGATE 0 GD_KT (routine n) (if n =? T_BRKPT then 3 else 0))) ;;
  set_idt_entry T_SYSCALL (SETGATE 0 GD_KT (routine T_SYSCALL) 3) ;;
  for_each (seqZ 0 16) (fun n => set_idt_entry (IRQ_OFFSET + n) (SETGATE 0 GD_KT (routine_irq n) 0)) ;;
  trap_init_percpu.

End Initialisation.

(** ** Trap frames *)

Section Frames.

(** The contents of the frame on the kernel stack. *)
Context (stack_tf : Trapframe).

Definition sizeof_Env : Z := 124.

Definition tf_addr (p : tfptr) (s : kstate) : Z :=
  match p with OnStack a => a | OfEnv e => envs_kva s + sizeof_Env * e end.

Definition tf_read (p : tfptr) : K Trapframe :=
  match p with OnStack _ => mret stack_tf | OfEnv e => v ← env_get e; mret (env_tf v) end.

(** A change of the frame on the stack is lost, because [trap] does not
    return to it. *)
Definition tf_write (p : tfptr) (f : Trapframe -> Trapframe) : K unit :=
  match p with OnStack _ => skip | OfEnv e => env_update e (fun v => set_env_tf (f (env_tf v)) v) end.

Definition print_regs (r : PushRegs) : K unit :=
  cprintf "  edi  0x%08x\n" [VInt (reg_edi r)] ;;
  cprintf "  esi  0x%08x\n" [VInt (reg_esi r)] ;;
  cprintf "  ebp  0x%08x\n" [VInt (reg_ebp r)] ;;
  cprintf "  oesp 0x%08x\n" [VInt (reg_oesp r)] ;;
  cprintf "  ebx  0x%08x\n" [VInt (reg_ebx r)] ;;
  cprintf "  edx  0x%08x\n" [VInt (reg_edx r)] ;;
  cprintf "  ecx  0x%08x\n" [VInt (reg_ecx r)] ;;
  cprintf "  eax  0x%08x\n" [VInt (reg_eax r)].

Definition VS (str : string) : va_arg := VStr (Some (cstr str)).

Definition print_trapframe (p : tfptr) : K unit :=
  s ← get;
  tf ← tf_read p;
  cprintf "TRAP frame at %p from CPU %d\n" [VInt (tf_addr p s); VInt (this_cpu s)] ;;
  print_regs (tf_regs tf) ;;
  cprintf "  es   0x----%04x\n" [VInt (tf_es tf)] ;;
  cprintf "  ds   0x----%04x\n" [VInt (tf_ds tf)] ;;
  cprintf "  trap 0x%08x %s\n" [VInt (tf_trapno tf); VS (trapname (tf_trapno tf))] ;;
  s ← get;
  when (bool_decide (last_tf (hw s) = Some p) && (tf_trapno tf =? T_PGFLT))
    (cprintf "  cr2  0x%08x\n" [VInt (cr2 (hw s))]) ;;
  cprintf "  err  0x%08x" [VInt (tf_err tf)] ;;
  (if tf_trapno tf =? T_PGFLT then
     cprintf " [%s, %s, %s]\n"
       [VS (if test (tf_err tf) 4 then "user" else "kernel");
        VS (if test (tf_err tf) 2 then "write" else "read");
        VS (if test (tf_err tf) 1 then "protection" else "not-present")]
   else cprintf "\n" []) ;;
  cprintf "  eip  0x%08x\n" [VInt (tf_eip tf)] ;;
  cprintf "  cs   0x----%04x\n" [VInt (tf_cs tf)] ;;
  cprintf "  flag 0x%08x\n" [VInt (tf_eflags tf)] ;;
  when (negb (Z.land (tf_cs tf) 3 =? 0))
    (cprintf "  esp  0x%08x\n" [VInt (tf_esp tf)] ;;
     cprintf "  ss   0x----%04x\n" [VInt (tf_ss tf)]).

(** ** Page faults *)

Definition sizeof_UTrapframe : Z := 52.

(** Where the next frame on the user exception stack goes. *)
Definition utf_addr (esp : Z) : Z :=
  if (UXSTACKTOP - PGSIZE <=? esp) && (esp <? UXSTACKTOP) then u32 (esp - sizeof_UTrapframe - 4)
  else UXSTACKTOP - sizeof_UTrapframe.

Definition store_regs (va : Z) (r : PushRegs) : K unit :=
  vstore32 va (reg_edi r) ;; vstore32 (va + 4) (reg_esi r) ;; vstore32 (va + 8) (reg_ebp r) ;;
  vstore32 (va + 12) (reg_oesp r) ;; vstore32 (va + 16) (reg_ebx r) ;; vstore32 (va + 20) (reg_edx r) ;;
  vstore32 (va + 24) (reg_ecx r) ;; vstore32 (va + 28) (reg_eax r).

(** The stores to the user trap frame at [utf], in the order of the source; [utf] is
    unaligned when the user's stack pointer was. *)
Definition push_utf (utf fault_va : Z) (tf : Trapframe) : K unit :=
  vstore32 (utf + 44) (tf_eflags tf) ;;
  vstore32 (utf + 40) (tf_eip tf) ;;
  vstore32 (utf + 4) (tf_err tf) ;;
  vstore32 (utf + 48) (tf_esp tf) ;;
  vstore32 utf fault_va ;;
  store_regs (utf + 8) (tf_regs tf).

Definition page_fault_handler (p : tfptr) : K unit :=
  s ← get;
  let fault_va := cr2 (hw s) in
  tf ← tf_read p;
  if Z.land (tf_cs tf) 3 =? 0 then panic "kernel-mode page faults"
  else
    c ← deref (curenv s);
    v ← env_get c;
    (if negb (env_pgfault_upcall v =? 0) then
       let utf := utf_addr (tf_esp tf) in
       user_mem_assert c utf sizeof_UTrapframe (Z.lor PTE_U PTE_W) ;;
       push_utf utf fault_va tf ;;
       env_update c (fun v => set_env_tf (set_tf_eip (env_pgfault_upcall v) (env_tf v)) v) ;;
       env_update c (fun v => set_env_tf (set_tf_esp utf (env_tf v)) v) ;;
       env_run c
     else skip) ;;
    cprintf "[%08x] user fault va %08x ip %08x\n" [VInt (env_id v); VInt fault_va; VInt (tf_eip tf)] ;;
    print_trapframe p ;;
    env_destroy c.

(** ** The handler *)

Definition trap_dispatch (fuel : nat) (p : tfptr) : K unit :=
  tf ← tf_read p;
  if tf_trapno tf =? IRQ_OFFSET + IRQ_SPURIOUS then
    cprintf "Spurious interrupt on irq 7\n" [] ;;
    print_trapframe p
  else if tf_trapno tf =? IRQ_OFFSET + IRQ_TIMER then sched_yield
  else
    when (tf_trapno tf =? T_PGFLT) (page_fault_handler p) ;;
    if tf_trapno tf =? T_BRKPT then halt SMonitor
    else if tf_trapno tf =? T_SYSCALL then
      let r := tf_regs tf in
      ret ← syscall fuel (reg_eax r) (reg_edx r) (reg_ecx r) (reg_ebx r) (reg_edi r) (reg_esi r);
      tf_write p (fun t => set_tf_regs (set_reg_eax (u32 ret) (tf_regs t)) t)
    else
      print_trapframe p ;;
      if tf_cs tf =? GD_KT then panic "unhandled trap in kernel"
      else
        s ← get;
        c ← deref (curenv s);
        env_destroy c.

(** [addr] is the address of the frame on the kernel stack. *)
Definition trap {A} (fuel : nat) (addr : Z) : K A :=
  s ← get;
  when (bool_decide (is_Some (panicstr (hw s)))) (halt SHalt) ;;
  let st := cpu_status (thiscpu s) in
  set_thiscpu (set_cpu_status CPU_STARTED) ;;
  when (bool_decide (st = CPU_HALTED)) lock_kernel ;;
  assert_ (negb (test (eflags (hw s)) FL_IF)) "!(read_eflags() & FL_IF)" ;;
  p ← (if Z.land (tf_cs stack_tf) 3 =? 3 then
         lock_kernel ;;
         s ← get;
         assert_ (bool_decide (is_Some (curenv s))) "curenv" ;;
         c ← deref (curenv s);
         v ← env_get c;
         when (bool_decide (env_status v = ENV_DYING))
           (env_free c ;; set_curenv None ;; sched_yield) ;;
         env_update c (set_env_tf stack_tf) ;;
         mret (OfEnv c)
       else mret (OnStack addr));
  hw_update (set_last_tf (Some p)) ;;
  trap_dispatch fuel p ;;
  s ← get;
  match curenv s with
  | None => sched_yield
  | Some c =>
      v ← env_get c;
      if bool_decide (env_status v = ENV_RUNNING) then env_run c else sched_yield
  end.

End Frames.
