(* ===== verification/KernelExit.v ===== *)
(** * KernelExit: what every path through the kernel keeps

    Kernel code changes its state through few primitives, and it enters user
    mode at one place only, [env_pop_tf], called from [env_run].  [ok I m] says
    that the computation [m] keeps the invariant [I], however it ends, and that
    user mode is entered only in a state it may be entered in.  The property
    is compositional: proved once for the primitives and [env_run], it follows
    the code to the scheduler, the system calls and the trap handler, for
    every [I] that is [Stable] under the primitives, and the code that does not
    switch environments for every [Steady] one. *)

From S2P Require Import Prelude Machine CString Printfmt Hardware Console Kernel Spinlock Pmap Env.
From S2P Require Import Sched Syscall Trap.

(** The state in which user mode of environment [e] may be entered. *)
Record in_user (e : Z) (s : kstate) : Prop := mkInUser {
  iu_curenv : curenv s = Some e;
  iu_env : exists v, envs s !! e = Some v /\ env_status v = ENV_RUNNING /\
             env_cpunum v = this_cpu s /\ cr3 s = u32 (env_pgdir v) - KERNBASE /\
             KERNBASE <= u32 (env_pgdir v);
  iu_lock : kernel_lock s = mkSpinlock 0 None;
}.

(** An invariant that the primitive updates of kernel code keep: stores to
    memory, reference counts and links of existing pages, existing
    environments apart from their identifiers, and the scalar fields; to be
    stable, the choice of the current environment and the lock; and, to be
    open to creation, the new identifier of an environment. *)
Class Steady (I : kstate -> Prop) := {
  st_mstore : forall s pa v, I s -> I (set_mem (mstore (mem s) pa v) s);
  st_mfill : forall s n pa w, I s -> I (set_mem (mfill n pa w (mem s)) s);
  st_ref : forall s p pi r, I s -> pages s !! p = Some pi -> I (set_pages (<[p := set_pp_ref (u16 r) pi]> (pages s)) s);
  st_link : forall s p pi l, I s -> pages s !! p = Some pi -> I (set_pages (<[p := set_pp_link l pi]> (pages s)) s);
  st_free_list : forall s l, I s -> I (set_page_free_list l s);
  st_env : forall s e v w, I s -> envs s !! e = Some v -> env_id w = env_id v -> I (set_envs (<[e := w]> (envs s)) s);
  st_env_list : forall s l, I s -> I (set_env_free_list l s);
  st_con : forall s c, I s -> I (set_con c s);
  st_check : forall s a, I s -> I (set_user_mem_check_addr a s);
  st_cr3 : forall s a, I s -> I (set_cr3 a s);
  st_tlb : forall s l, I s -> I (set_tlb_log l s);
  st_last_tf : forall s p, I s -> I (set_hw (set_last_tf p (hw s)) s);
}.

Class Stable (I : kstate -> Prop) := {
  st_steady :: Steady I;
  st_cpus : forall s f, I s -> I (set_cpus (<[this_cpu s := f (thiscpu s)]> (cpus s)) s);
  st_lock : forall s l, I s -> (locked l = 0 \/ locked l = 1) -> I (set_kernel_lock l s);
}.

Class Creating (I : kstate -> Prop) := {
  cr_id : forall s e v, I s -> envs s !! e = Some v ->
    I (set_envs (<[e := set_env_id (next_env_id (env_id v) e) v]> (envs s)) s);
}.

(** [ok I m]: [m] keeps [I], however it ends, and when it ends in user mode
    the state is one user mode may be entered in. *)
Definition ok (I : kstate -> Prop) {A} (m : K A) : Prop :=
  forall s o s', I s -> m s = (o, s') -> I s' /\ (forall e, o = Stop (SUser e) -> in_user e s').
Definition keeps (I : kstate -> Prop) {A} (m : K A) : Prop := forall s o s', I s -> m s = (o, s') -> I s'.
Definition never {A} (m : K A) : Prop := forall s, exists r s', m s = (Stop r, s').

Section Combinators.

Lemma bind_stop_inv {A B} (m : K A) (f : A -> K B) s r s' :
  (m ≫= f) s = (Stop r, s') ->
  m s = (Stop r, s') \/ exists a s1, m s = (Ret a, s1) /\ f a s1 = (Stop r, s').
Proof. unfold mbind, K_bind. destruct (m s) as [[a|q] s1]; [eauto|]. intros [= -> ->]. by left. Qed.

Context (I : kstate -> Prop).

Lemma ok_bind {A B} (m : K A) (f : A -> K B) : ok I m -> (forall a, ok I (f a)) -> ok I (m ≫= f).
Proof.
  intros Hm Hf s o s' HI. unfold mbind, K_bind. destruct (m s) as [[a|r] s1] eqn:E.
  - intros Hrun. eapply Hf; [|exact Hrun]. by eapply Hm.
  - intros [= <- <-]. destruct (Hm _ _ _ HI E) as [H1 H2]. split; [done|]. intros e [= ->]. by apply H2.
Qed.

(** A computation that returns in a state with [I]. *)
Lemma ok_returns {A} (m : K A) : (forall s, I s -> exists a s', m s = (Ret a, s') /\ I s') -> ok I m.
Proof. intros Hm s o s' HI Hrun. destruct (Hm s HI) as (a & s1 & E & H1). rewrite E in Hrun. by injection Hrun as <- <-. Qed.

Lemma ok_ret {A} (a : A) : ok I (mret a).
Proof. apply ok_returns. eauto. Qed.
Lemma ok_skip : ok I skip.
Proof. apply ok_ret. Qed.
Lemma ok_get : ok I get.
Proof. apply ok_returns. intros s. by exists s, s. Qed.
Lemma ok_modify f : (forall s, I s -> I (f s)) -> ok I (modify f).
Proof. intros Hf. apply ok_returns. intros s HI. exists tt, (f s). auto. Qed.
Lemma ok_halt {A} r : (forall e, r <> SUser e) -> ok I (@halt A r).
Proof. intros Hr s o s' HI [= <- <-]. split; [done|]. intros e [= E]. by destruct (Hr e). Qed.
Lemma ok_panic {A} msg : ok I (@panic A msg).
Proof. by apply ok_halt. Qed.
Lemma ok_when b m : ok I m -> ok I (when b m).
Proof. destruct b; [done | intros; apply ok_skip]. Qed.
Lemma ok_assert b t : ok I (assert_ b t).
Proof. destruct b; [apply ok_skip | apply ok_panic]. Qed.
Lemma ok_deref {A} (p : option A) : ok I (deref p).
Proof. destruct p; [apply ok_ret | by apply ok_halt]. Qed.
Lemma ok_for_each {A} (l : list A) body : (forall x, ok I (body x)) -> ok I (for_each l body).
Proof. intros Hb. induction l; [apply ok_skip | by apply ok_bind]. Qed.

(** A computation that leaves the state alone and does not enter user mode. *)
Lemma ok_pure {A} (m : K A) : (forall s, exists o, m s = (o, s) /\ forall e, o <> Stop (SUser e)) -> ok I m.
Proof.
  intros Hm s o s' HI Hrun. destruct (Hm s) as (o1 & E & Ho). rewrite E in Hrun. injection Hrun as <- <-.
  split; [done|]. intros e He. by destruct (Ho e).
Qed.

Lemma ok_keeps {A} (m : K A) : ok I m -> keeps I m.
Proof. intros Hm s o s' HI Hrun. by eapply Hm. Qed.

Lemma keeps_bind {A B} (m : K A) (f : A -> K B) : keeps I m -> (forall a, keeps I (f a)) -> keeps I (m ≫= f).
Proof.
  intros Hm Hf s o s' HI. unfold mbind, K_bind. destruct (m s) as [[a|r] s1] eqn:E.
  - intros Hrun. eapply Hf; [|exact Hrun]. by eapply Hm.
  - intros [= <- <-]. by eapply Hm.
Qed.

Lemma keeps_halt {A} r : keeps I (@halt A r).
Proof. by intros s o s' HI [= <- <-]. Qed.

Lemma never_bind {A B} (m : K A) (f : A -> K B) : (forall a, never (f a)) -> never (m ≫= f).
Proof.
  intros Hf s. unfold mbind, K_bind. destruct (m s) as [[a|r] s1]; [apply Hf | eauto].
Qed.

Lemma never_halt {A} r : never (@halt A r).
Proof. intros s. by exists r, s. Qed.

End Combinators.

Create HintDb jos_ok.
#[export] Hint Constants Opaque : jos_ok.
#[export] Hint Resolve ok_ret ok_skip ok_get ok_panic ok_assert ok_deref : jos_ok.

(** Follows the structure of the code. *)
Ltac ok_step :=
  match goal with
  | |- ok _ (mbind _ _) => apply ok_bind; [|intros ?]
  | |- ok _ (when _ _) => apply ok_when
  | |- ok _ (for_each _ _) => apply ok_for_each; intros ?
  | |- ok _ (halt _) => by apply ok_halt
  | |- ok _ (match ?x with _ => _ end) => destruct x
  | |- ok _ _ => solve [eauto 2 with jos_ok]
  end.
Ltac ok_code := repeat (cbv zeta; ok_step).

(** ** The primitives, the operations and the handler, for a stable invariant *)

Section Traversal.

Context {I : kstate -> Prop} `{!Steady I}.

Section Primitives.

(** Reads. *)
Ltac ok_read := apply ok_pure; intros s; repeat case_match; eexists; (split; [reflexivity | discriminate]).

Lemma ok_kload a : ok I (kload a).
Proof. unfold kload. ok_read. Qed.
Lemma ok_page_info p : ok I (page_info p).
Proof. unfold page_info. ok_read. Qed.
Lemma ok_env_get p : ok I (env_get p).
Proof. unfold env_get. ok_read. Qed.

(** Updates: each either stops or makes one stable change. *)
Ltac ok_write st := intros s o s' HI; repeat case_match; intros [= <- <-]; (split; [first [assumption | eapply st; eassumption] | discriminate]).

Lemma ok_cprintf f a : ok I (cprintf f a).
Proof. unfold cprintf. ok_write st_con. Qed.
Lemma ok_kstore a v : ok I (kstore a v).
Proof. unfold kstore. ok_write st_mstore. Qed.
Lemma ok_vstore a v : ok I (vstore a v).
Proof. unfold vstore, kstore. ok_write st_mstore. Qed.
Lemma ok_vstore8 a b : ok I (vstore8 a b).
Proof. unfold vstore8. ok_write st_mstore. Qed.
Lemma ok_kmemset a c n : ok I (kmemset a c n).
Proof. unfold kmemset. cbv zeta. ok_write st_mfill. Qed.
Lemma ok_env_update p f : (forall v, env_id (f v) = env_id v) -> ok I (env_update p f).
Proof.
  unfold env_update. intros Hf s o s' HI. destruct (envs s !! p) as [v|] eqn:Hv; intros [= <- <-]; split; [|done|done..].
  by eapply st_env.
Qed.
Lemma ok_page_link p l : ok I (page_update p (set_pp_link l)).
Proof. unfold page_update. ok_write st_link. Qed.
Lemma ok_page_ref p r : ok I (page_update p (set_pp_ref (u16 r))).
Proof. unfold page_update. ok_write st_ref. Qed.
Lemma ok_page_ref1 p : ok I (page_update p (set_pp_ref 1)).
Proof. exact (ok_page_ref p 1). Qed.
Lemma ok_page_count p (g : PageInfo -> Z) : ok I (page_update p (fun i => set_pp_ref (u16 (g i)) i)).
Proof. unfold page_update. ok_write st_ref. Qed.

Lemma ok_free_list l : ok I (modify (set_page_free_list l)).
Proof. apply ok_modify. intros s. apply st_free_list. Qed.
Lemma ok_env_list l : ok I (modify (set_env_free_list l)).
Proof. apply ok_modify. intros s. apply st_env_list. Qed.
Lemma ok_check a : ok I (modify (set_user_mem_check_addr a)).
Proof. apply ok_modify. intros s. apply st_check. Qed.
Lemma ok_lcr3 a : ok I (lcr3 a).
Proof. apply ok_modify. intros s. apply st_cr3. Qed.
Lemma ok_invlpg a : ok I (invlpg a).
Proof. apply ok_modify. intros s. apply st_tlb. Qed.
Lemma ok_last_tf p : ok I (hw_update (set_last_tf p)).
Proof. apply ok_modify. intros s. apply st_last_tf. Qed.

End Primitives.

Hint Resolve ok_cprintf ok_kload ok_kstore ok_kmemset ok_page_info ok_env_get ok_vstore ok_vstore8
  ok_page_link ok_page_ref ok_page_ref1 ok_free_list ok_env_list ok_check ok_lcr3 ok_invlpg ok_last_tf : jos_ok.
Hint Extern 1 (ok _ (env_update _ _)) => apply ok_env_update; intros ?; reflexivity : jos_ok.
Hint Extern 1 (ok _ (page_update _ (fun i => set_pp_ref (u16 _) i))) => apply ok_page_count : jos_ok.

Section Pages.

Lemma ok_PADDR a : ok I (PADDR a).
Proof. unfold PADDR. ok_code. Qed.
Lemma ok_KADDR a : ok I (KADDR a).
Proof. unfold KADDR. ok_code. Qed.
Lemma ok_pa2page a : ok I (pa2page a).
Proof. unfold pa2page. ok_code. Qed.
Lemma ok_page2kva a : ok I (page2kva a).
Proof. apply ok_KADDR. Qed.
Hint Resolve ok_PADDR ok_KADDR ok_pa2page ok_page2kva : jos_ok.

Lemma ok_page_alloc f : ok I (page_alloc f).
Proof. unfold page_alloc. ok_code. Qed.
Lemma ok_page_free p : ok I (page_free p).
Proof. unfold page_free. ok_code. Qed.
Hint Resolve ok_page_alloc ok_page_free : jos_ok.
Lemma ok_page_decref p : ok I (page_decref p).
Proof. unfold page_decref. ok_code. Qed.
Lemma ok_pgdir_walk d va c : ok I (pgdir_walk d va c).
Proof. unfold pgdir_walk. ok_code. Qed.
Hint Resolve ok_page_decref ok_pgdir_walk : jos_ok.
Lemma ok_page_lookup d va : ok I (page_lookup d va).
Proof. unfold page_lookup. ok_code. Qed.
Lemma ok_tlb_invalidate d va : ok I (tlb_invalidate d va).
Proof. unfold tlb_invalidate. ok_code. Qed.
Hint Resolve ok_page_lookup ok_tlb_invalidate : jos_ok.
Lemma ok_page_remove d va : ok I (page_remove d va).
Proof. unfold page_remove. ok_code. Qed.
Hint Resolve ok_page_remove : jos_ok.
Lemma ok_page_insert d p va perm : ok I (page_insert d p va perm).
Proof. unfold page_insert. ok_code. Qed.

Lemma ok_user_mem_check_loop n e start end_ perm : ok I (user_mem_check_loop n e start end_ perm).
Proof.
  revert start. induction n as [|n IH]; intros start; cbn [user_mem_check_loop]; [by apply ok_halt|].
  ok_code.
Qed.

Lemma ok_user_mem_check e va len perm : ok I (user_mem_check e va len perm).
Proof. apply ok_user_mem_check_loop. Qed.

End Pages.

Hint Resolve ok_PADDR ok_KADDR ok_pa2page ok_page2kva ok_page_alloc ok_page_free
  ok_page_decref ok_pgdir_walk ok_page_lookup ok_tlb_invalidate ok_page_remove ok_page_insert
  ok_user_mem_check : jos_ok.

Lemma ok_curenv_id : ok I curenv_id.
Proof. unfold curenv_id. ok_code. Qed.

Hint Resolve ok_curenv_id : jos_ok.

Lemma ok_env_free e : ok I (env_free e).
Proof. unfold env_free, env_free_pde, env_free_ptes. ok_code. Qed.

(** ** Entering user mode *)

Context `{!Stable I}.

Lemma ok_thiscpu f : ok I (set_thiscpu f).
Proof. apply ok_modify. intros s. apply st_cpus. Qed.
Lemma ok_curenv e : ok I (set_curenv e).
Proof. apply ok_thiscpu. Qed.

Lemma ok_lock l : locked l = 0 \/ locked l = 1 -> ok I (modify (set_kernel_lock l)).
Proof. intros Hl. apply ok_modify. intros s HI. by apply st_lock. Qed.

Hint Resolve ok_thiscpu ok_curenv : jos_ok.
Hint Extern 1 (ok _ (modify (set_kernel_lock _))) => apply ok_lock; cbn [locked]; auto : jos_ok.

Section Running.

Lemma ok_spin_lock : ok I spin_lock.
Proof. unfold spin_lock. ok_code. Qed.

Lemma ok_spin_unlock : ok I spin_unlock.
Proof. unfold spin_unlock. ok_code. Qed.

Hint Extern 1 (ok _ lock_kernel) => apply ok_spin_lock : jos_ok.
Hint Extern 1 (ok _ unlock_kernel) => apply ok_spin_unlock : jos_ok.

(** The lock is free after a release that returns. *)
Lemma unlock_ret s s' : unlock_kernel s = (Ret tt, s') -> s' = set_kernel_lock (mkSpinlock 0 None) s.
Proof.
  unfold unlock_kernel, spin_unlock. kgo get_eq. destruct (negb (holding _ _)).
  - intros H. apply bind_inv in H as (c & s1 & _ & H). apply bind_inv in H as (? & s2 & _ & H). done.
  - by intros [= <-].
Qed.

Lemma PADDR_ret a s pa s' : PADDR a s = (Ret pa, s') -> pa = u32 a - KERNBASE /\ KERNBASE <= u32 a /\ s' = s.
Proof.
  unfold PADDR. destruct (Z.ltb_spec (u32 a) KERNBASE); [done|]. by intros [= <- <-].
Qed.

Lemma env_update_ret e f s s' : env_update e f s = (Ret tt, s') ->
  exists v, envs s !! e = Some v /\ s' = set_envs (<[e := f v]> (envs s)) s.
Proof. unfold env_update. destruct (envs s !! e) as [v|]; [|done]. intros [= <-]. eauto. Qed.

(** What follows the choice of the environment. *)
Lemma run_tail_exit {A} e s r s' :
  curenv s = Some e ->
  (env_update e (set_env_status ENV_RUNNING) ;;
   env_update e (fun v => set_env_runs (u32 (env_runs v + 1)) v) ;;
   v ← env_get e;
   pa ← PADDR (env_pgdir v);
   lcr3 pa ;;
   unlock_kernel ;;
   @env_pop_tf A) s = (Stop (SUser r), s') -> r = e /\ in_user e s'.
Proof.
  intros Hc H.
  apply bind_stop_inv in H as [H|([] & s1 & E1 & H)].
  { unfold env_update in H. by destruct (envs s !! e). }
  apply env_update_ret in E1 as (v & Hv & ->).
  apply bind_stop_inv in H as [H|([] & s2 & E2 & H)].
  { unfold env_update in H. cbn [envs set_envs] in H. by rewrite lookup_insert_eq in H. }
  apply env_update_ret in E2 as (v2 & Hv2 & ->). cbn [envs set_envs] in Hv2 |- *.
  rewrite lookup_insert_eq in Hv2. injection Hv2 as <-.
  cbn [envs set_envs] in H. rewrite insert_insert_eq in H.
  set (w := set_env_runs _ _) in H.
  erewrite bind_Ret in H; [|apply env_get_eq; cbn [envs set_envs]; apply lookup_insert_eq].
  apply bind_stop_inv in H as [H|(pa & s3 & E3 & H)].
  { unfold PADDR in H. by destruct (_ <? _). }
  apply PADDR_ret in E3 as (-> & Hkb & ->).
  erewrite bind_Ret in H; [|reflexivity].
  apply bind_stop_inv in H as [H|([] & s4 & E4 & H)].
  { revert H. unfold unlock_kernel, spin_unlock. kgo get_eq. destruct (negb (holding _ _)); [|done].
    intros [H|(c & s5 & _ & H)]%bind_stop_inv; [by destruct (lk_cpu _)|].
    apply bind_stop_inv in H as [H|(? & s6 & _ & H)]; [|done].
    unfold cprintf in H. by destruct (Console.cprintf _ _ _) as [[]|]. }
  apply unlock_ret in E4 as ->.
  unfold env_pop_tf in H. erewrite bind_Ret in H; [|apply get_eq].
  unfold curenv, thiscpu in Hc, H. cbn [cpus this_cpu set_kernel_lock set_cr3 set_envs] in H.
  rewrite Hc in H. erewrite bind_Ret in H; [|apply deref_eq].
  erewrite bind_Ret in H; [|apply env_update_eq; cbn [envs set_kernel_lock set_cr3 set_envs]; apply lookup_insert_eq].
  injection H as <- <-. split; [done|]. constructor; [exact Hc | | done].
  eexists. split; [cbn [envs set_kernel_lock set_cr3 set_envs]; apply lookup_insert_eq|].
  split; [done|]. split; [done|]. split; [done|]. exact Hkb.
Qed.

Lemma env_run_exit {A} e s r s' : @env_run A e s = (Stop (SUser r), s') -> in_user r s'.
Proof.
  unfold env_run. rewrite (bind_Ret _ _ _ _ _ (get_eq s)). intros H.
  apply bind_stop_inv in H as [H|(? & s0 & _ & H)].
  { exfalso. revert H. destruct (curenv s) as [c|]; [|done].
    unfold env_get, env_update, mbind, K_bind. destruct (envs s !! c) as [v|] eqn:Hv; [|done].
    unfold when. case_bool_decide; [by rewrite Hv | done]. }
  apply bind_stop_inv in H as [H|([] & s1 & E & H)]; [done|]. injection E as <-.
  apply run_tail_exit in H as [-> H]; [done|].
  unfold curenv, thiscpu. cbn [cpus this_cpu set_cpus]. by rewrite lookup_insert_eq.
Qed.

Lemma keeps_env_run {A} e : keeps I (@env_run A e).
Proof.
  unfold env_run, env_pop_tf.
  repeat (apply keeps_bind; [apply ok_keeps; ok_code | intros ?]). apply keeps_halt.
Qed.

Lemma ok_env_run {A} e : ok I (@env_run A e).
Proof.
  intros s o s' HI H. split; [by eapply keeps_env_run|]. intros r ->. by eapply env_run_exit.
Qed.

Lemma never_env_run {A} e : never (@env_run A e).
Proof.
  unfold env_run, env_pop_tf. repeat (apply never_bind; intros ?). apply never_halt.
Qed.

End Running.

Hint Extern 1 (ok _ lock_kernel) => apply ok_spin_lock : jos_ok.
Hint Extern 1 (ok _ unlock_kernel) => apply ok_spin_unlock : jos_ok.

Hint Resolve ok_curenv_id ok_env_run ok_spin_lock ok_spin_unlock : jos_ok.

(** ** The rest of the kernel *)

Section Handlers.

Lemma ok_sched_loop n ptr : ok I (sched_loop n ptr).
Proof. revert ptr. induction n as [|n IH]; intros ptr; cbn [sched_loop]; ok_code. Qed.

Lemma ok_sched_yield {A} : ok I (@sched_yield A).
Proof.
  unfold sched_yield. apply ok_bind; [apply ok_get|]. intros s.
  apply ok_bind; [apply ok_sched_loop|]. intros _. ok_code.
Qed.

Lemma never_sched_yield {A} : never (@sched_yield A).
Proof.
  unfold sched_yield. repeat (apply never_bind; intros ?). case_bool_decide; [apply never_env_run|].
  apply never_bind. intros _. apply never_halt.
Qed.

Hint Resolve ok_env_free ok_sched_yield : jos_ok.

Lemma ok_env_destroy e : ok I (env_destroy e).
Proof. unfold env_destroy. ok_code. Qed.

Hint Resolve ok_env_destroy : jos_ok.

Lemma ok_user_mem_assert e va len perm : ok I (user_mem_assert e va len perm).
Proof. unfold user_mem_assert. ok_code. Qed.

Lemma ok_envid2env id c : ok I (envid2env id c).
Proof. unfold envid2env. ok_code. Qed.

Hint Resolve ok_user_mem_assert ok_envid2env : jos_ok.

(** [read_user] stops never: a fault is part of its result. *)
Lemma read_user_ret n va s : exists l, read_user n va s = (Ret l, s).
Proof.
  revert va. induction n as [|n IH]; intros va; cbn [read_user]; destruct (vload8 va s) as [[c|r] s1]; eauto.
  destruct (c =? 0); [eauto|]. destruct (IH (u32 (va + 1))) as [[l f] ->]. eauto.
Qed.

Lemma ok_read_user n va : ok I (read_user n va).
Proof. apply ok_pure. intros s. destruct (read_user_ret n va s) as [l ->]. eexists. by split. Qed.

Hint Resolve ok_read_user : jos_ok.

Lemma ok_sys_cputs va len : ok I (sys_cputs va len).
Proof. unfold sys_cputs. ok_code. Qed.

Lemma ok_sys_cgetc fuel : ok I (sys_cgetc fuel).
Proof.
  unfold sys_cgetc. intros s o s' HI. destruct (cons_getc fuel (con s)) as [[c k]|]; intros [= <- <-];
    (split; [first [assumption | eapply st_con; eassumption] | discriminate]).
Qed.

Lemma ok_sys_getenvid : ok I sys_getenvid.
Proof. unfold sys_getenvid. ok_code. Qed.

Hint Resolve ok_sys_cputs ok_sys_cgetc ok_sys_getenvid : jos_ok.

Lemma ok_sys_env_destroy id : ok I (sys_env_destroy id).
Proof. unfold sys_env_destroy. ok_code. Qed.

Hint Resolve ok_sys_env_destroy : jos_ok.

Lemma ok_syscall fuel n a1 a2 a3 a4 a5 : ok I (syscall fuel n a1 a2 a3 a4 a5).
Proof. unfold syscall. ok_code. Qed.

Hint Resolve ok_syscall : jos_ok.

Context (stack_tf : Trapframe).

Lemma ok_tf_read p : ok I (tf_read stack_tf p).
Proof. unfold tf_read. ok_code. Qed.

Lemma ok_tf_write p f : ok I (tf_write p f).
Proof. unfold tf_write. ok_code. Qed.

Lemma ok_print_regs r : ok I (print_regs r).
Proof. unfold print_regs. ok_code. Qed.

Hint Resolve ok_tf_read ok_tf_write ok_print_regs : jos_ok.

Lemma ok_print_trapframe p : ok I (print_trapframe stack_tf p).
Proof. unfold print_trapframe. ok_code. Qed.

Lemma ok_vstore32 a v : ok I (vstore32 a v).
Proof.
  intros s o s' HI. unfold vstore32. destruct (a `mod` 4 =? 0); [by apply ok_vstore|].
  destruct (translate a true s); [|by intros [= <- <-]]. destruct (translate (a + 3) true s); [|by intros [= <- <-]].
  revert s o s' HI. change (ok I (vstore8 a (get_byte v 0) ;; vstore8 (a + 1) (get_byte v 1) ;;
    vstore8 (a + 2) (get_byte v 2) ;; vstore8 (a + 3) (get_byte v 3))). ok_code.
Qed.

Hint Resolve ok_vstore32 : jos_ok.

Lemma ok_push_utf u a t : ok I (push_utf u a t).
Proof. unfold push_utf, store_regs. ok_code. Qed.

Hint Resolve ok_print_trapframe ok_push_utf : jos_ok.

Lemma ok_page_fault_handler p : ok I (page_fault_handler stack_tf p).
Proof. unfold page_fault_handler. ok_code. Qed.

Hint Resolve ok_page_fault_handler : jos_ok.

Lemma ok_trap_dispatch fuel p : ok I (trap_dispatch stack_tf fuel p).
Proof. unfold trap_dispatch. ok_code. Qed.

Hint Resolve ok_trap_dispatch : jos_ok.

Lemma ok_trap {A} fuel addr : ok I (@trap stack_tf A fuel addr).
Proof. unfold trap. ok_code. Qed.

Lemma never_trap {A} fuel addr : never (@trap stack_tf A fuel addr).
Proof.
  unfold trap. repeat (apply never_bind; intros ?). destruct (curenv _) as [c|]; [|apply never_sched_yield].
  apply never_bind. intros v. case_bool_decide; [apply never_env_run | apply never_sched_yield].
Qed.

End Handlers.

(** The system calls that the dispatcher does not reach yet. *)
Section Calls.

Hint Resolve ok_env_free ok_sched_yield ok_envid2env ok_sys_getenvid : jos_ok.

Lemma ok_env_setup_vm e : ok I (env_setup_vm e).
Proof. unfold env_setup_vm. ok_code. Qed.

Hint Resolve ok_env_setup_vm : jos_ok.

Lemma ok_env_id `{!Creating I} e : ok I (env_update e (fun v => set_env_id (next_env_id (env_id v) e) v)).
Proof.
  unfold env_update. intros s o s' HI. destruct (envs s !! e) as [v|] eqn:Hv; intros [= <- <-]; split; [|done|done..].
  by apply cr_id.
Qed.

Lemma ok_env_alloc `{!Creating I} p : ok I (env_alloc p).
Proof.
  unfold env_alloc. apply ok_bind; [apply ok_get|]. intros s. destruct (env_free_list s) as [e|]; [|apply ok_ret].
  apply ok_bind; [apply ok_env_setup_vm|]. intros r. destruct (r <? 0); [apply ok_ret|].
  apply ok_bind; [apply ok_env_id|]. intros ?. ok_code.
Qed.

Hint Resolve ok_env_alloc : jos_ok.

Lemma ok_sys_exofork `{!Creating I} : ok I sys_exofork.
Proof. unfold sys_exofork. ok_code. Qed.

Lemma ok_sys_env_set_status id st : ok I (sys_env_set_status id st).
Proof. unfold sys_env_set_status. ok_code. Qed.

Lemma ok_sys_env_set_pgfault_upcall id f : ok I (sys_env_set_pgfault_upcall id f).
Proof. unfold sys_env_set_pgfault_upcall. ok_code. Qed.

Lemma ok_sys_page_alloc a j id va perm : ok I (sys_page_alloc a j id va perm).
Proof. unfold sys_page_alloc. ok_code. Qed.

Lemma ok_sys_page_map i1 v1 i2 v2 perm : ok I (sys_page_map i1 v1 i2 v2 perm).
Proof. unfold sys_page_map. ok_code. Qed.

Lemma ok_sys_page_unmap id va : ok I (sys_page_unmap id va).
Proof. unfold sys_page_unmap. ok_code. Qed.

Lemma ok_ipc_deliver d v : ok I (ipc_deliver d v).
Proof. unfold ipc_deliver. ok_code. Qed.

Hint Resolve ok_ipc_deliver : jos_ok.

Lemma ok_sys_ipc_try_send id v va perm : ok I (sys_ipc_try_send id v va perm).
Proof. unfold sys_ipc_try_send. ok_code. Qed.

Lemma ok_sys_ipc_recv va : ok I (sys_ipc_recv va).
Proof. unfold sys_ipc_recv. ok_code. Qed.

End Calls.

End Traversal.

#[export] Instance Stable_True : Stable (fun _ => True).
Proof. split; by constructor. Qed.

#[export] Instance Creating_True : Creating (fun _ => True).
Proof. by constructor. Qed.

(** C14. A trap never returns to its caller, and the kernel is left for user mode in one state
    only: whatever the trap frame and the state are, [trap] ends by panicking, faulting, halting,
    waiting or entering the monitor, or in user mode of an environment [e] that is then the
    current environment of this processor, marked ENV_RUNNING on it, with its page directory in
    CR3 and the kernel lock released. *)
Theorem trap_exits_safely (stack_tf : Trapframe) (fuel : nat) (addr : Z) (s : kstate) :
  exists r s', @trap stack_tf unit fuel addr s = (Stop r, s') /\ forall e, r = SUser e -> in_user e s'.
Proof.
  destruct (@never_trap stack_tf unit fuel addr s) as (r & s' & E). exists r, s'. split; [done|].
  intros e ->. destruct (ok_trap (I := fun _ => True) stack_tf fuel addr s _ _ Logic.I E) as [_ H]. by apply H.
Qed.
