(* ===== verification/EnvIds.v ===== *)
(** * EnvIds: identifiers of environments

    Only [env_alloc] changes the identifier of an entry of [envs], and it
    gives a slot the identifier that follows the last one it had, even after
    [env_free]: so identifiers are not reused, and [envid2env] refuses the
    identifier of an environment that is gone. *)

From S2P Require Import Prelude Machine CString Printfmt Hardware Console Kernel KernelProps Spinlock Pmap PageAlloc.
From S2P Require Import PageTable Example Env EnvProps EnvAlloc EnvFree Sched Syscall Trap KernelExit.

(** ** Computations that keep the identifiers *)

Section Quiet.

Definition ids (s : kstate) : gmap Z Z := env_id <$> envs s.

#[export] Instance Stable_ids m : Stable (fun s => ids s = m).
Proof.
  split; [constructor|..]; intros s; intros; try assumption.
  unfold ids in *. cbn [envs set_envs]. rewrite fmap_insert. rewrite insert_id; [done|].
  rewrite lookup_fmap. match goal with H : envs _ !! _ = Some _ |- _ => rewrite H end. cbn. congruence.
Qed.

(** What the kernel and user code do apart from creating environments. *)
Inductive quiet : forall A, K A -> Prop :=
| q_free e : quiet unit (env_free e)
| q_destroy e : quiet unit (env_destroy e)
| q_update e f : (forall v, env_id (f v) = env_id v) -> quiet unit (env_update e f)
| q_load e bin : quiet unit (load_icode e bin)
| q_page_insert pgdir p va perm : quiet Z (page_insert pgdir p va perm)
| q_page_remove pgdir va : quiet unit (page_remove pgdir va)
| q_run e : quiet unit (env_run e)
| q_sched : quiet unit sched_yield
| q_trap tf fuel addr : quiet unit (@trap tf unit fuel addr)
| q_fault a : quiet unit (hw_update (set_cr2 a))
| q_store va b : quiet unit (vstore8 va b).

Hint Extern 1 (ok _ (page_alloc _)) => apply ok_page_alloc : jos_ok.
Hint Extern 1 (ok _ (page_insert _ _ _ _)) => apply ok_page_insert : jos_ok.
Hint Extern 1 (ok _ (PADDR _)) => apply ok_PADDR : jos_ok.
Hint Extern 1 (ok _ (lcr3 _)) => apply ok_lcr3 : jos_ok.
Hint Extern 1 (ok _ (cprintf _ _)) => apply ok_cprintf : jos_ok.
Hint Extern 1 (ok _ (env_get _)) => apply ok_env_get : jos_ok.
Hint Extern 1 (ok _ (modify (set_env_free_list _))) => apply ok_env_list : jos_ok.
Hint Extern 1 (ok _ curenv_id) => apply ok_curenv_id : jos_ok.
Hint Extern 1 (ok _ (vstore8 _ _)) => apply ok_vstore8 : jos_ok.
Hint Extern 1 (ok _ (env_update _ _)) => apply ok_env_update; intros ?; reflexivity : jos_ok.

Lemma ok_region_alloc m e va len : ok (fun s => ids s = m) (region_alloc e va len).
Proof. unfold region_alloc. ok_code. Qed.

Hint Resolve ok_region_alloc : jos_ok.

Lemma ok_load_icode m e bin : ok (fun s => ids s = m) (load_icode e bin).
Proof. unfold load_icode, load_segment, user_memset, user_copy. ok_code. Qed.

Lemma quiet_ids A (m : K A) s o s' : quiet A m -> m s = (o, s') -> ids s' = ids s.
Proof.
  intros Hq. assert (H : ok (fun t => ids t = ids s) m); [|intros Hrun; exact (proj1 (H s o s' eq_refl Hrun))].
  destruct Hq; [apply ok_env_free | apply ok_env_destroy | by apply ok_env_update | apply ok_load_icode | apply ok_page_insert |
    apply ok_page_remove | apply ok_env_run | apply ok_sched_yield | apply ok_trap | by apply ok_modify | apply ok_vstore8].
Qed.

(** [env_alloc]: the next identifier of the slot it returns. *)
Lemma env_alloc_ids parent s r e s' : env_alloc parent s = (Ret (r, e), s') ->
  match e with
  | None => ids s' = ids s
  | Some e => exists i, ids s !! e = Some i /\ ids s' = <[e := next_env_id i e]> (ids s)
  end.
Proof.
  unfold env_alloc. rewrite (bind_Ret _ _ _ _ _ (get_eq s)). destruct (env_free_list s) as [x|]; [|by intros [= _ <- <-]].
  intros (r1 & s1 & H1 & H)%bind_inv. assert (E1 : ids s1 = ids s) by exact (proj1 (ok_env_setup_vm (I := fun t => ids t = ids s) x s _ _ eq_refl H1)).
  destruct (r1 <? 0); [by injection H as _ <- <-|]. apply bind_inv in H as ([] & s2 & H2 & H).
  apply env_update_ret in H2 as (v & Hv & E2).
  assert (Hi : ids s !! x = Some (env_id v)) by (rewrite <- E1; unfold ids; by rewrite lookup_fmap, Hv).
  assert (Hs2 : ids s2 = <[x := next_env_id (env_id v) x]> (ids s)) by (rewrite E2; unfold ids at 1; cbn [envs set_envs]; rewrite fmap_insert; by rewrite <- E1).
  clear E2. match type of H with ?m s2 = _ => assert (Hk : ok (fun t => ids t = ids s2) m) by ok_code end.
  assert (Hs' := proj1 (Hk s2 _ _ eq_refl H)). cbv beta in Hs'. clear Hk.
  repeat (apply bind_inv in H as (? & ? & _ & H)). injection H as _ <- _. exists (env_id v). split; [done|]. congruence.
Qed.

End Quiet.

(** ** Histories *)

Section History.

(** From [s], the kernel came to a state after the creations [h], the last
    one first: the slots and the identifiers that [env_alloc] gave them. *)
Inductive history (s : kstate) : list (Z * Z) -> kstate -> Prop :=
| hi_start : history s [] s
| hi_alloc h s1 parent e s2 v :
    history s h s1 -> env_alloc parent s1 = (Ret (0, Some e), s2) -> envs s2 !! e = Some v -> history s ((e, env_id v) :: h) s2
| hi_refused h s1 parent r s2 : history s h s1 -> env_alloc parent s1 = (Ret (r, None), s2) -> history s h s2
| hi_quiet h s1 A (m : K A) o s2 : history s h s1 -> quiet A m -> m s1 = (o, s2) -> history s h s2.

(** How often slot [e] was given away. *)
Definition allocs (e : Z) (h : list (Z * Z)) : nat := length (filter (fun x => x.1 = e) h).

Lemma allocs_cons e x h : allocs e (x :: h) = if decide (x.1 = e) then S (allocs e h) else allocs e h.
Proof. unfold allocs. rewrite filter_cons. by case_decide. Qed.

Lemma allocs_app e h1 h2 : allocs e (h1 ++ h2) = (allocs e h1 + allocs e h2)%nat.
Proof. unfold allocs. by rewrite filter_app, length_app. Qed.

(** All entries of [envs] are there and have no identifier, as after [env_init]. *)
Definition fresh (s : kstate) : Prop :=
  (forall e, is_Some (envs s !! e) <-> 0 <= e < NENV) /\ forall e v, envs s !! e = Some v -> env_id v = 0.

Record numbered (h : list (Z * Z)) (s : kstate) : Prop := mkNumbered {
  nb_ids : forall e, ids s !! e = if decide (0 <= e < NENV) then Some (nth_id (allocs e h) e) else None;
  nb_hist : forall h1 e i h2, h = h1 ++ (e, i) :: h2 -> 0 <= e < NENV /\ i = nth_id (S (allocs e h2)) e;
}.

Lemma numbered_ids h s s' : ids s' = ids s -> numbered h s -> numbered h s'.
Proof. intros E [H1 H2]. constructor; [by rewrite E | done]. Qed.

Lemma history_numbered s h s' : fresh s -> history s h s' -> numbered h s'.
Proof.
  intros [Hd Hi] H. induction H as [|h s1 parent e s2 v H IH Ha Hv|h s1 parent r s2 H IH Ha|h s1 A m o s2 H IH Hq Hr].
  - constructor; [|intros h1 e i h2 E; by destruct h1]. intros e. unfold ids. rewrite lookup_fmap. case_decide as He.
    + destruct (proj2 (Hd e) He) as [v Hv]. rewrite Hv. cbn. by rewrite (Hi e v Hv).
    + destruct (envs s !! e) as [v|] eqn:Hv; [|done]. destruct He. apply Hd. by exists v.
  - destruct IH as [H1 H2]. destruct (env_alloc_ids _ _ _ _ _ Ha) as (i & Hx & E).
    rewrite H1 in Hx. case_decide as He; [|done]. injection Hx as <-.
    assert (Ev : env_id v = nth_id (S (allocs e h)) e).
    { assert (Hw : ids s2 !! e = Some (env_id v)) by (unfold ids; by rewrite lookup_fmap, Hv). rewrite E, lookup_insert_eq in Hw. by injection Hw as <-. }
    constructor.
    + intros x. rewrite E, lookup_insert, allocs_cons. cbn [fst]. case_decide as Ex; [subst x; by rewrite decide_True | apply H1].
    + intros h1 x j h2 Eh. destruct h1 as [|y h1]; injection Eh as E1 E2; [|by apply (H2 h1 x j h2)].
      intros. subst. done.
  - by apply (numbered_ids h s1), IH; apply (env_alloc_ids _ _ _ _ _ Ha).
  - by apply (numbered_ids h s1), IH; apply (quiet_ids _ _ _ _ _ Hq Hr).
Qed.

Lemma nth_id_same e n k : 0 <= e < NENV ->
  (nth_id (S (n + S k)) e = nth_id (S n) e <-> Z.of_nat (S k) `mod` (2 ^ 19 - 1) = 0).
Proof.
  intros He. rewrite !nth_id_eq by done. replace (Z.of_nat (n + S k)) with (Z.of_nat n + Z.of_nat (S k)) by lia.
  generalize (Z.of_nat n) (Z.of_nat (S k)). intros a b. change (2 ^ 19 - 1) with 524287. split; intros; zdm.
Qed.

End History.

(** C20. Identifiers are not reused.  Whatever the kernel and user code do after [env_init] --
    creations and destructions of environments in any order, successful or not, loading, page
    mappings, scheduling, traps with any frame -- each identifier that [env_alloc] gives is
    positive and contains the index of its slot, and two creations get the same identifier only
    when they are of the same slot and the number of creations of that slot from one to the other
    is a multiple of 2^19-1.  So [envid2env] refuses the identifier of an environment that is
    gone: when its slot is free, and when the slot was given away again (and not just a multiple
    of 2^19-1 times). *)
Theorem env_ids_not_reused s h s' h1 e i h2 e' i' h3
  (Hf : fresh s) (H : history s h s') (Eh : h = h1 ++ (e, i) :: h2 ++ (e', i') :: h3) :
  0 < i < 2 ^ 31 /\ ENVX i = e /\
  (i = i' <-> e = e' /\ Z.of_nat (S (allocs e h2)) `mod` (2 ^ 19 - 1) = 0) /\
  (forall v check, envs s' !! e' = Some v ->
    env_status v = ENV_FREE \/ Z.of_nat (allocs e' (h1 ++ (e, i) :: h2)) `mod` (2 ^ 19 - 1) <> 0 ->
    envid2env i' check s' = (Ret (- E_BAD_ENV, None), s')).
Proof.
  destruct (history_numbered s h s' Hf H) as [N1 N2]. destruct (N2 _ _ _ _ Eh) as [He Ei].
  destruct (N2 (h1 ++ (e, i) :: h2) e' i' h3) as [He' Ei']; [by rewrite Eh, <- app_assoc|].
  assert (Hx : forall n x, 0 <= x < NENV -> 0 < nth_id (S n) x < 2 ^ 31 /\ ENVX (nth_id (S n) x) = x).
  { intros n x Hx. rewrite !nth_id_eq, ENVX_mod by done. change NENV with 1024 in Hx.
    pose proof (Z.mod_pos_bound (Z.of_nat n) (2 ^ 19 - 1) ltac:(lia)). split; [lia | zdm]. }
  destruct (Hx (allocs e (h2 ++ (e', i') :: h3)) e He) as [X1 X2]. rewrite <- Ei in X1, X2.
  destruct (Hx (allocs e' h3) e' He') as [Y1 Y2]. rewrite <- Ei' in Y1, Y2.
  split; [exact X1|]. split; [exact X2|]. split.
  - assert (Hsame : e = e' -> (i = i' <-> Z.of_nat (S (allocs e h2)) `mod` (2 ^ 19 - 1) = 0)); [|naive_solver congruence].
    intros <-. rewrite Ei, Ei', allocs_app, allocs_cons, decide_True by done. rewrite <- (nth_id_same e (allocs e h3)) by done.
    by rewrite Nat.add_comm, Nat.add_succ_comm.
  - intros v check Hv Hgone. unfold envid2env. rewrite (bind_Ret _ _ _ _ _ (get_eq s')).
    destruct (Z.eqb_spec i' 0); [lia|]. rewrite Y2, (bind_Ret _ _ _ _ _ (env_get_eq _ _ _ Hv)).
    destruct (bool_decide_reflect (env_status v = ENV_FREE)) as [|Hst]; [done|]. cbn [orb].
    destruct Hgone as [|Hn]; [done|]. destruct (Z.eqb_spec (env_id v) i') as [E|]; [|done]. exfalso. apply Hn.
    assert (Hw : ids s' !! e' = Some (env_id v)) by (unfold ids; by rewrite lookup_fmap, Hv).
    rewrite N1, decide_True in Hw by done. injection Hw as Hw.
    assert (Es : h1 ++ (e, i) :: h2 ++ (e', i') :: h3 = (h1 ++ (e, i) :: h2) ++ (e', i') :: h3) by by rewrite <- app_assoc.
    rewrite Eh, Es, allocs_app, allocs_cons, decide_True in Hw by done.
    destruct (allocs e' (h1 ++ (e, i) :: h2)) as [|k]; [done|]. apply (nth_id_same e' (allocs e' h3) k He').
    rewrite <- Ei', <- E, <- Hw. by rewrite Nat.add_comm, Nat.add_succ_comm.
Qed.

(** Slot 7 is given away, freed and given away again. *)
Section Sample.

Definition ex_born : kstate := snd (env_alloc 0 ex_newborn).
Definition ex_gone : kstate := snd (env_free 7 ex_born).
Definition ex_reborn : kstate := snd (env_alloc 0 ex_gone).

Lemma ex_newborn_fresh : fresh ex_newborn.
Proof.
  split; [exact (array_of_dom NENV (fun _ => ex_env))|]. intros e v Hv.
  change (envs ex_newborn) with (array_of NENV (fun _ => ex_env)) in Hv. rewrite array_of_lookup in Hv.
  destruct (_ && _); [|discriminate Hv]. by injection Hv as <-.
Qed.

Lemma ids_entry (m : gmap Z Env) e i : from_option env_id (-1) (m !! e) = i -> i <> -1 -> exists v, m !! e = Some v /\ env_id v = i.
Proof. destruct (m !! e) as [v|]; cbn; [by eauto | by intros <-]. Qed.

Lemma ex_reborn_history : history ex_newborn [(7, 0x2007); (7, 0x1007)] ex_reborn.
Proof.
  assert (A1 : fst (env_alloc 0 ex_newborn) = Ret (0, Some 7)) by (vm_compute; reflexivity).
  assert (A2 : fst (env_free 7 ex_born) = Ret tt) by (vm_compute; reflexivity).
  assert (A3 : fst (env_alloc 0 ex_gone) = Ret (0, Some 7)) by (vm_compute; reflexivity).
  destruct (ids_entry (envs ex_born) 7 0x1007 ltac:(vm_compute; reflexivity) ltac:(lia)) as (v1 & V1 & I1).
  destruct (ids_entry (envs ex_reborn) 7 0x2007 ltac:(vm_compute; reflexivity) ltac:(lia)) as (v2 & V2 & I2).
  rewrite <- I1, <- I2.
  refine (hi_alloc _ _ ex_gone 0 7 ex_reborn v2 _ (run_snd _ _ A3) V2).
  refine (hi_quiet _ _ ex_born unit _ _ ex_gone _ (q_free 7) (run_snd _ _ A2)).
  exact (hi_alloc _ _ ex_newborn 0 7 ex_born v1 (hi_start _) (run_snd _ _ A1) V1).
Qed.

Lemma env_ids_not_reused_witness : envid2env 0x1007 false ex_reborn = (Ret (- E_BAD_ENV, None), ex_reborn).
Proof.
  destruct (env_ids_not_reused ex_newborn _ ex_reborn [] 7 0x2007 [] 7 0x1007 [] ex_newborn_fresh ex_reborn_history eq_refl)
    as (_ & _ & _ & H).
  destruct (ids_entry (envs ex_reborn) 7 0x2007 ltac:(vm_compute; reflexivity) ltac:(lia)) as (v & V & _).
  apply (H v false V). right. vm_compute. discriminate.
Defined.

End Sample.
