(* ===== verification/TrapProps.v ===== *)
(** * TrapProps: the interrupt descriptor table and the exception stack

    What [trap_init] leaves in the table the processor uses, and where the
    frames of nested page faults go on the user exception stack. *)

From S2P Require Import Prelude Machine CString Printfmt Hardware Console Kernel Pmap Env.
From S2P Require Import Example Sched Syscall Trap.

Section Idt.

Context (routine routine_irq : Z -> Z) (ts_addr : Z).

(** The entry point behind vector [n], if it has one. *)
Definition vector (n : Z) : option Z :=
  if decide (n ∈ exceptions) then Some (routine n)
  else if decide (n = T_SYSCALL) then Some (routine n)
  else if decide (IRQ_OFFSET <= n < IRQ_OFFSET + 16) then Some (routine_irq (n - IRQ_OFFSET))
  else None.

(** The lowest privilege that may raise vector [n] with an [int]. *)
Definition vector_dpl (n : Z) : Z := if decide (n = T_BRKPT \/ n = T_SYSCALL) then 3 else 0.

Lemma set_idt_loop (k : Z -> Z) (g : Z -> Gatedesc) l s :
  for_each l (fun n => set_idt_entry (k n) (g n)) s =
  (Ret tt, set_hw (set_idt (fold_left (fun m n => <[k n := g n]> m) l (idt (hw s))) (hw s)) s).
Proof.
  revert s. induction l as [|n l IH]; intros s; cbn [for_each fold_left].
  - destruct s as [? ? ? ? ? ? ? ? ? ? ? ? ? ? ? ? ? ? ? ? []]. reflexivity.
  - erewrite bind_Ret; [|reflexivity]. rewrite IH. reflexivity.
Qed.

Lemma fold_insert_lookup (k : Z -> Z) (g : Z -> Gatedesc) l (m : gmap Z Gatedesc) n :
  (forall x y, k x = k y -> x = y) ->
  fold_left (fun m n => <[k n := g n]> m) l m !! k n = if decide (n ∈ l) then Some (g n) else m !! k n.
Proof.
  intros Hk. revert m. induction l as [|x l IH]; intros m; cbn [fold_left].
  - rewrite decide_False by apply not_elem_of_nil. done.
  - rewrite IH. destruct (decide (n ∈ l)) as [Hl|Hl].
    + rewrite decide_True by (by apply elem_of_cons; right). done.
    + destruct (decide (n = x)) as [->|Hne].
      * rewrite lookup_insert_eq, decide_True by apply list_elem_of_here. done.
      * rewrite lookup_insert_ne by (intros E; apply Hne; symmetry; by apply Hk).
        rewrite decide_False; [done|]. intros [->|?]%elem_of_cons; done.
Qed.

(** The two halves of the offset give the address back. *)
Lemma gate_offset a : 0 <= a < 2 ^ 32 -> 65536 * Z.shiftr (u32 a) 16 + Z.land (u32 a) 0xffff = a.
Proof.
  intros Ha. rewrite u32_small by done. change 0xffff with (Z.ones 16).
  rewrite Z.land_ones, Z.shiftr_div_pow2 by lia. change (2 ^ 16) with 65536. zdm.
Qed.

Lemma trap_init_percpu_idt s :
  exists s', trap_init_percpu ts_addr s = (Ret tt, s') /\ idt (hw s') = idt (hw s).
Proof.
  unfold trap_init_percpu. erewrite bind_Ret; [|reflexivity]. erewrite bind_Ret; [|reflexivity].
  eexists. split; [reflexivity|]. done.
Qed.

Lemma trap_init_idt s :
  exists s', trap_init routine routine_irq ts_addr s = (Ret tt, s') /\
    forall n, idt (hw s') !! n = match vector n with
                                 | Some a => Some (SETGATE 0 GD_KT a (vector_dpl n))
                                 | None => idt (hw s) !! n
                                 end.
Proof.
  unfold trap_init.
  rewrite (bind_Ret _ _ _ _ _ (set_idt_loop (fun n => n) _ exceptions s)).
  erewrite bind_Ret; [|reflexivity].
  erewrite bind_Ret; [|apply (set_idt_loop (fun n => IRQ_OFFSET + n))].
  match goal with |- context [trap_init_percpu _ ?s1] => destruct (trap_init_percpu_idt s1) as (s' & Hrun & Hidt) end.
  exists s'. split; [exact Hrun|]. intros n. rewrite Hidt. cbn [hw idt set_hw set_idt].
  replace n with (IRQ_OFFSET + (n - IRQ_OFFSET)) at 1 by lia.
  rewrite fold_insert_lookup by (intros; lia). replace (IRQ_OFFSET + (n - IRQ_OFFSET)) with n by lia.
  unfold vector, vector_dpl.
  assert (Hex : n ∈ exceptions -> 0 <= n < 20).
  { intros Hin. assert (Hf : Forall (fun n => 0 <= n < 20) exceptions) by (repeat constructor; done).
    rewrite Forall_forall in Hf. by apply Hf. }
  change IRQ_OFFSET with 32. change T_SYSCALL with 48. change T_BRKPT with 3.
  destruct (decide (n - 32 ∈ seqZ 0 16)) as [Hirq|Hirq]; rewrite elem_of_seqZ in Hirq.
  - rewrite decide_False by (intros H%Hex; lia). rewrite decide_False by lia. rewrite decide_True by lia.
    by rewrite decide_False by lia.
  - destruct (decide (n = 48)) as [->|Hsys].
    + rewrite lookup_insert_eq, decide_False by (intros H%Hex; lia). rewrite decide_True by auto. done.
    + rewrite lookup_insert_ne by done.
      rewrite (fold_insert_lookup (fun n => n) _ exceptions) by done.
      destruct (decide (n ∈ exceptions)).
      * destruct (Z.eqb_spec n 3) as [->|]; [by rewrite decide_True by auto|].
        by rewrite decide_False by lia.
      * by rewrite decide_False by lia.
Qed.

(** After [trap_init] every vector that the processor can raise has its handler: the gate of
    vector [n] leads to the entry point of [n] in the kernel's code segment, is an interrupt
    gate (so the handler starts with interrupts off, which [trap] asserts), and user code can
    only raise the breakpoint and the system call itself; all other vectors stay as they were. *)
Lemma trap_init_gates (s : kstate) :
  exists s', trap_init routine routine_irq ts_addr s = (Ret tt, s') /\
    forall n, match vector n with
      | Some a =>
          exists g, idt (hw s') !! n = Some g /\ gd_sel g = GD_KT /\ gd_type g = STS_IG32 /\ gd_p g = 1 /\
            (0 <= a < 2 ^ 32 -> 65536 * gd_off_31_16 g + gd_off_15_0 g = a) /\
            (gd_dpl g = 3 <-> n = T_BRKPT \/ n = T_SYSCALL) /\ (gd_dpl g = 0 \/ gd_dpl g = 3)
      | None => idt (hw s') !! n = idt (hw s) !! n
      end.
Proof.
  destruct (trap_init_idt s) as (s' & Hrun & Hn). exists s'. split; [done|]. intros n. specialize (Hn n).
  destruct (vector n) as [a|]; [|done]. eexists. split; [exact Hn|]. do 3 (split; [done|]).
  cbn [SETGATE gd_off_31_16 gd_off_15_0 gd_dpl]. split; [apply gate_offset|].
  unfold vector_dpl. case_decide; split; auto; split; auto; done.
Qed.

End Idt.

Section ExceptionStack.

(** Frames of nested page faults do not overlap: while user code runs on its exception stack,
    with its stack pointer [esp] in the page, the next frame and the spare word above it end at
    or below [esp]; a fault from anywhere else puts the first frame at the top of the stack. *)
Theorem utf_addr_disjoint (esp : Z) :
  0 <= esp < 2 ^ 32 ->
  if decide (UXSTACKTOP - PGSIZE <= esp < UXSTACKTOP)
  then utf_addr esp + sizeof_UTrapframe + 4 = esp
  else utf_addr esp + sizeof_UTrapframe = UXSTACKTOP.
Proof.
  intros He. unfold utf_addr, sizeof_UTrapframe. change UXSTACKTOP with 4005560320 in *.
  change PGSIZE with 4096 in *. case_decide as H.
  - destruct (Z.leb_spec (4005560320 - 4096) esp), (Z.ltb_spec esp 4005560320); try lia. simpl.
    rewrite u32_small by lia. lia.
  - destruct (Z.leb_spec (4005560320 - 4096) esp), (Z.ltb_spec esp 4005560320); try lia; simpl; lia.
Qed.

Lemma utf_addr_disjoint_witness : utf_addr (UXSTACKTOP - 52) + 52 + 4 = UXSTACKTOP - 52.
Proof. exact (utf_addr_disjoint (UXSTACKTOP - 52) ltac:(split; [discriminate | reflexivity])). Defined.

End ExceptionStack.
