(* ===== verification/TrapUser.v ===== *)
(** * TrapUser: traps from user mode

    What [trap] does when user code traps into the kernel: it takes the
    kernel lock, saves the registers in the environment, dispatches on the
    trap number, and resumes the environment after a call that returns. *)

From S2P Require Import Prelude Machine CString Printfmt Hardware Console Kernel Spinlock Pmap PageAlloc.
From S2P Require Import PageTable Example UserMem PtProps Env EnvProps Sched Syscall SyscallProps.
From S2P Require Import Trap.

(** ** Entering the kernel *)

Section Enter.

(** Environment [c] runs in user mode on a processor that does not hold the
    lock, and the frame [tf] was pushed by a trap. *)
Record user_trap (tf : Trapframe) (s : kstate) (c : Z) (v : Env) : Prop := mkUserTrap {
  ut_cpl : Z.land (tf_cs tf) 3 = 3;
  ut_panic : panicstr (hw s) = None;
  ut_if : test (eflags (hw s)) FL_IF = false;
  ut_cpu : cpu_status (thiscpu s) <> CPU_HALTED;
  ut_lock : kernel_lock s = mkSpinlock 0 None;
  ut_cur : curenv s = Some c;
  ut_env : envs s !! c = Some v;
  ut_status : env_status v = ENV_RUNNING;
  ut_dir : KERNBASE <= env_pgdir v < 2 ^ 32;
}.

(** The state when the trap is dispatched. *)
Definition entered (tf : Trapframe) (c : Z) (v : Env) (s : kstate) : kstate :=
  set_hw (set_last_tf (Some (OfEnv c)) (hw s))
    (set_envs (<[c := set_env_tf tf v]> (envs s))
      (set_kernel_lock (mkSpinlock 1 (Some (this_cpu s)))
        (set_cpus (<[this_cpu s := set_cpu_status CPU_STARTED (thiscpu s)]> (cpus s)) s))).

(** The end of [trap]. *)
Definition leave {A} : K A :=
  s ← get;
  match curenv s with
  | None => sched_yield
  | Some c => v ← env_get c; if bool_decide (env_status v = ENV_RUNNING) then env_run c else sched_yield
  end.

Lemma trap_enter {A} tf fuel addr s c v :
  user_trap tf s c v -> @trap tf A fuel addr s = (trap_dispatch tf fuel (OfEnv c) ;; leave) (entered tf c v s).
Proof.
  intros [H1 H2 H3 H4 H5 H6 H7 H8 _]. unfold trap. kgo get_eq.
  rewrite (bool_decide_false (is_Some (panicstr (hw s)))) by (rewrite H2; intros [? E]; discriminate E). cbn [when].
  erewrite bind_Ret; [|reflexivity]. erewrite bind_Ret; [|reflexivity].
  rewrite bool_decide_false by done. cbn [when]. erewrite bind_Ret; [|reflexivity].
  rewrite H3. cbn [negb assert_]. erewrite bind_Ret; [|reflexivity].
  rewrite H1. change (3 =? 3) with true. cbv iota.
  set (s1 := set_cpus (<[this_cpu s := set_cpu_status CPU_STARTED (thiscpu s)]> (cpus s)) s).
  assert (Ec : curenv s1 = Some c).
  { unfold curenv, thiscpu, s1. cbn [cpus this_cpu set_cpus]. rewrite lookup_insert_eq. exact H6. }
  assert (El : kernel_lock s1 = mkSpinlock 0 None) by exact H5.
  assert (Ee : envs s1 !! c = Some v) by exact H7.
  assert (Et : this_cpu s1 = this_cpu s /\ envs s1 = envs s /\ hw s1 = hw s) by done.
  cbv beta. fold s1. unfold entered. fold s1. clearbody s1. destruct Et as (Et1 & Et2 & Et3).
  assert (Hlk : lock_kernel s1 = (Ret tt, set_kernel_lock (mkSpinlock 1 (Some (this_cpu s))) s1)).
  { unfold lock_kernel, spin_lock. kgo get_eq. rewrite El, Et1. by destruct s1. }
  set (s2 := set_kernel_lock (mkSpinlock 1 (Some (this_cpu s))) s1) in *.
  assert (E2 : curenv s2 = Some c /\ envs s2 = envs s1 /\ hw s2 = hw s1) by done.
  destruct E2 as (E21 & E22 & E23). clearbody s2. rewrite <- E22 in Ee.
  erewrite bind_Ret with (a := OfEnv c); cycle 1.
  - erewrite bind_Ret; [|exact Hlk]. kgo get_eq. rewrite E21.
    rewrite bool_decide_true by eauto. cbn [assert_]. erewrite bind_Ret; [|reflexivity].
    kgo @deref_eq. kgo (env_get_eq _ _ _ Ee). rewrite bool_decide_false by (rewrite H8; done). cbn [when].
    erewrite bind_Ret; [|reflexivity]. by kgo (env_update_eq _ _ _ (set_env_tf tf) Ee).
  - erewrite bind_Ret; [|reflexivity]. rewrite <- Et3, <- E23, <- Et2, <- E22. by destruct s2.
Qed.

End Enter.

(** ** System calls *)

Section SystemCalls.

(** The registers with the result of a system call. *)
Definition with_result (ret : Z) (t : Trapframe) : Trapframe :=
  set_tf_regs (set_reg_eax (u32 ret) (tf_regs t)) t.

Lemma curenv_entered tf c v s : curenv s = Some c -> curenv (entered tf c v s) = Some c.
Proof.
  intros H. unfold curenv, thiscpu, entered. cbn [cpus this_cpu set_hw set_envs set_kernel_lock set_cpus].
  rewrite lookup_insert_eq. exact H.
Qed.

Lemma entered_env tf c v s : envs (entered tf c v s) !! c = Some (set_env_tf tf v).
Proof. unfold entered. cbn [envs set_hw set_envs]. apply lookup_insert_eq. Qed.

Lemma entered_lock tf c v s : holds_lock (entered tf c v s).
Proof. done. Qed.

Lemma dispatch_syscall tf fuel s c v :
  envs s !! c = Some v -> tf_trapno (env_tf v) = T_SYSCALL ->
  trap_dispatch tf fuel (OfEnv c) s =
    (ret ← syscall fuel (reg_eax (tf_regs (env_tf v))) (reg_edx (tf_regs (env_tf v))) (reg_ecx (tf_regs (env_tf v)))
       (reg_ebx (tf_regs (env_tf v))) (reg_edi (tf_regs (env_tf v))) (reg_esi (tf_regs (env_tf v)));
     tf_write (OfEnv c) (with_result ret)) s.
Proof.
  intros He Hn. unfold trap_dispatch, tf_read. erewrite bind_Ret; [|by kgo (env_get_eq _ _ _ He)]. rewrite Hn.
  change (T_SYSCALL =? IRQ_OFFSET + IRQ_SPURIOUS) with false. change (T_SYSCALL =? IRQ_OFFSET + IRQ_TIMER) with false.
  change (T_SYSCALL =? T_PGFLT) with false. change (T_SYSCALL =? T_BRKPT) with false.
  change (T_SYSCALL =? T_SYSCALL) with true. cbn [when]. cbv iota. by erewrite bind_Ret.
Qed.

(** A call that comes back to the kernel with the environment still running. *)
Lemma trap_syscall_resumes {A} tf fuel addr s c v ret s1 :
  user_trap tf s c v -> tf_trapno tf = T_SYSCALL ->
  syscall fuel (reg_eax (tf_regs tf)) (reg_edx (tf_regs tf)) (reg_ecx (tf_regs tf)) (reg_ebx (tf_regs tf))
    (reg_edi (tf_regs tf)) (reg_esi (tf_regs tf)) (entered tf c v s) = (Ret ret, s1) ->
  curenv s1 = Some c -> envs s1 !! c = Some (set_env_tf tf v) -> holds_lock s1 ->
  @trap tf A fuel addr s = (Stop (SUser c), switched c (set_env_tf (with_result ret tf) v)
    (set_envs (<[c := set_env_tf (with_result ret tf) v]> (envs s1)) s1)).
Proof.
  intros H Hn Hcall Hc1 He1 Hl1. rewrite (trap_enter tf fuel addr s c v H). destruct H as [_ _ _ _ _ Hc He Hst Hd].
  set (v' := set_env_tf (with_result ret tf) v). set (s2 := set_envs (<[c := v']> (envs s1)) s1).
  assert (Hdis : trap_dispatch tf fuel (OfEnv c) (entered tf c v s) = (Ret tt, s2)).
  { rewrite (dispatch_syscall tf fuel _ c _ (entered_env tf c v s)) by exact Hn. cbn [env_tf set_env_tf].
    rewrite (bind_Ret _ _ _ _ _ Hcall). exact (env_update_eq _ _ _ _ He1). }
  rewrite (bind_Ret _ _ _ _ _ Hdis).
  assert (Hc2 : curenv s2 = Some c) by exact Hc1. assert (Hl2 : holds_lock s2) by exact Hl1.
  assert (He2 : envs s2 !! c = Some v') by apply lookup_insert_eq. clearbody s2.
  unfold leave. kgo get_eq. rewrite Hc2. kgo (env_get_eq _ _ _ He2).
  rewrite bool_decide_true by done. apply env_run_eq; [|exact He2 | exact Hd | exact Hl2].
  intros x Hx. rewrite Hc2 in Hx. injection Hx as <-. eauto.
Qed.

(** A call that does not come back. *)
Lemma trap_syscall_stops {A} tf fuel addr s c v r s1 :
  user_trap tf s c v -> tf_trapno tf = T_SYSCALL ->
  syscall fuel (reg_eax (tf_regs tf)) (reg_edx (tf_regs tf)) (reg_ecx (tf_regs tf)) (reg_ebx (tf_regs tf))
    (reg_edi (tf_regs tf)) (reg_esi (tf_regs tf)) (entered tf c v s) = (Stop r, s1) ->
  @trap tf A fuel addr s = (Stop r, s1).
Proof.
  intros H Hn Hcall. rewrite (trap_enter tf fuel addr s c v H). apply bind_Stop.
  rewrite (dispatch_syscall tf fuel _ c _ (entered_env tf c v s)) by exact Hn. cbn [env_tf set_env_tf]. by apply bind_Stop.
Qed.

(** What the state looks like when the current environment goes on. *)
Lemma switched_again c v' m s :
  curenv s = Some c ->
  let s' := switched c v' (set_envs (<[c := v']> m) s) in
  envs s' !! c = Some (running_env (this_cpu s) v') /\ (forall e, e <> c -> envs s' !! e = m !! e) /\
  curenv s' = Some c /\ kernel_lock s' = mkSpinlock 0 None /\ cr3 s' = env_pgdir v' - KERNBASE /\ mem s' = mem s.
Proof.
  intros Hc. unfold switched. cbn [envs set_envs]. split; [apply lookup_insert_eq|]. split; [|split_and!; try done].
  - intros e He. rewrite lookup_insert_ne by done. unfold demote.
    change (curenv (set_envs (<[c := v']> m) s)) with (curenv s). rewrite Hc, lookup_insert_eq.
    case_bool_decide; by rewrite !lookup_insert_ne by done.
  - unfold curenv, thiscpu. cbn [cpus this_cpu set_envs set_kernel_lock set_cr3 set_cpus]. by rewrite lookup_insert_eq.
Qed.

(** A system call with number [n], and the sample family outside the kernel. *)
Definition ex_call (n : Z) : Trapframe :=
  mkTrapframe (mkPushRegs 0 0 0 0 0 0 0 n) 0x23 0x23 T_SYSCALL 0 0x800020 0x1b FL_IF 0xeebfdf00 0x23.

Definition ex_outside : kstate := set_kernel_lock (mkSpinlock 0 None) ex_family.

Lemma envs_set_lock k s e : envs (set_kernel_lock k s) !! e = envs s !! e.
Proof. reflexivity. Qed.

Lemma ex_outside_trap n : user_trap (ex_call n) ex_outside 1 (ex_live 0x1001 0 ENV_RUNNING).
Proof.
  assert (E1 : envs ex_outside !! 1 = Some (ex_live 0x1001 0 ENV_RUNNING)) by exact (eq_trans (envs_set_lock _ ex_family 1) ex_family_1).
  constructor; [reflexivity..| discriminate | reflexivity | reflexivity | exact E1 | reflexivity | split; [discriminate | reflexivity]].
Qed.

End SystemCalls.
