(* ===== verification/UserFault.v ===== *)
(** * UserFault: page faults of user code

    A page fault of an environment that has installed a handler is delivered
    to it: the kernel writes a frame to the exception stack and resumes the
    environment in its handler. *)

From S2P Require Import Prelude Machine CString Printfmt Hardware Console Kernel Spinlock Pmap PageAlloc.
From S2P Require Import PageTable Example UserMem PtProps Env EnvProps Sched Syscall SyscallProps.
From S2P Require Import Trap TrapProps TrapUser.

(** The words of a [struct UTrapframe], from the lowest address on. *)
Definition utf_words (fault_va : Z) (tf : Trapframe) : list Z :=
  let r := tf_regs tf in
  [fault_va; tf_err tf; reg_edi r; reg_esi r; reg_ebp r; reg_oesp r; reg_ebx r; reg_edx r; reg_ecx r; reg_eax r;
   tf_eip tf; tf_eflags tf; tf_esp tf].

(** ** The exception stack *)

Section ExceptionStack.

(** Directory page [pd], page table [tb] and page [f] of the exception stack,
    mapped writable for the user. *)
Record stack_mapped (m : gmap Z (gmap Z Z)) (pd tb f : Z) : Prop := mkStackMapped {
  sm_pde : mget m pd 954 = 4096 * tb + 7;
  sm_pte : exists fl, mget m tb 1023 = 4096 * f + fl /\ 0 <= fl < 4096 /\ Z.land fl 7 = 7;
  sm_dir : f <> pd;
  sm_table : f <> tb;
}.

Context (pd tb f : Z).

Lemma stack_mapped_put m i w : stack_mapped m pd tb f -> stack_mapped (mset m f i w) pd tb f.
Proof.
  intros [H1 (fl & H2 & H3) H4 H5]. constructor; [by rewrite mget_mset_ne by auto | | done | done].
  exists fl. by rewrite mget_mset_ne by auto.
Qed.

Lemma land7 fl : Z.land fl 7 = 7 -> test fl PTE_P = true /\ test fl PTE_W = true /\ test fl PTE_U = true.
Proof.
  intros H. unfold test, PTE_P, PTE_W, PTE_U.
  assert (E : forall k, Z.land 7 k = k -> Z.land fl k = k) by (intros k Hk; rewrite <- Hk at 1; rewrite Z.land_assoc, H; done).
  rewrite !E; done.
Qed.

(** Addresses of the exception stack, by word. *)
Lemma stack_walk m i w :
  stack_mapped m pd tb f -> 0 <= i < 1024 ->
  mmu_walk m (4096 * pd) (UXSTACKTOP - 4096 + 4 * i) w = Some (4096 * f + 4 * i).
Proof.
  intros [H1 (fl & H2 & H3 & H4) _ _] Hi. change UXSTACKTOP with 4005560320. unfold mmu_walk.
  assert (Ed : PDX (4005560320 - 4096 + 4 * i) = 954) by (rewrite PDX_div; zdm).
  assert (Et : PTX (4005560320 - 4096 + 4 * i) = 1023) by (rewrite PTX_div; zdm).
  assert (Eo : PGOFF (4005560320 - 4096 + 4 * i) = 4 * i).
  { unfold PGOFF. change 0xFFF with (Z.ones 12). rewrite Z.land_ones by lia. zdm. }
  rewrite Ed, Et, Eo. destruct (land7 fl H4) as (F1 & F2 & _).
  rewrite (PTE_ADDR_mod (4096 * pd)). replace (4096 * pd - (4096 * pd) `mod` 4096) with (4096 * pd) by zdm.
  rewrite mload_word, H1 by lia. rewrite !entry_test by (unfold PTE_P, PTE_W; lia).
  change (test 7 PTE_P) with true. change (test 7 PTE_W) with true.
  rewrite PTE_ADDR_entry, mload_word, H2 by lia. rewrite !entry_test by (unfold PTE_P, PTE_W; lia).
  rewrite F1, F2, PTE_ADDR_entry by done. by rewrite orb_true_r.
Qed.

Lemma stack_below i : 0 <= i < 1024 -> (KERNBASE <=? UXSTACKTOP - 4096 + 4 * i) = false.
Proof. intros. change KERNBASE with 4026531840. change UXSTACKTOP with 4005560320. lia. Qed.

Lemma vstore_stack s a i w :
  stack_mapped (mem s) pd tb f -> cr3 s = 4096 * pd -> 0 <= i < 1024 -> a = UXSTACKTOP - 4096 + 4 * i ->
  vstore a w s = (Ret tt, set_mem (mset (mem s) f i (u32 w)) s).
Proof.
  intros H Hc Hi ->. unfold vstore. rewrite stack_below, Hc, (stack_walk _ _ true H Hi) by done.
  by rewrite mstore_word.
Qed.

Lemma vload_stack s a i :
  stack_mapped (mem s) pd tb f -> cr3 s = 4096 * pd -> 0 <= i < 1024 -> a = UXSTACKTOP - 4096 + 4 * i ->
  vload a s = (Ret (mget (mem s) f i), s).
Proof.
  intros H Hc Hi ->. unfold vload. rewrite stack_below, Hc, (stack_walk _ _ false H Hi) by done.
  by rewrite mload_word.
Qed.

Lemma vstore32_stack s a i w :
  stack_mapped (mem s) pd tb f -> cr3 s = 4096 * pd -> 0 <= i < 1024 -> a = UXSTACKTOP - 4096 + 4 * i ->
  vstore32 a w s = (Ret tt, set_mem (mset (mem s) f i (u32 w)) s).
Proof.
  intros H Hc Hi Ha. unfold vstore32. replace (a `mod` 4) with 0 by (rewrite Ha; change UXSTACKTOP with 4005560320; zdm).
  by apply vstore_stack.
Qed.

(** The frame is written word by word, in this order. *)
Definition put_words (o : Z) (l : list (Z * Z)) (m : gmap Z (gmap Z Z)) : gmap Z (gmap Z Z) :=
  foldl (fun m kw => mset m f (o + kw.1) (u32 kw.2)) m l.

Definition utf_stores (fault_va : Z) (tf : Trapframe) : list (Z * Z) :=
  let r := tf_regs tf in
  [(11, tf_eflags tf); (10, tf_eip tf); (1, tf_err tf); (12, tf_esp tf); (0, fault_va); (2, reg_edi r);
   (3, reg_esi r); (4, reg_ebp r); (5, reg_oesp r); (6, reg_ebx r); (7, reg_edx r); (8, reg_ecx r); (9, reg_eax r)].

Lemma put_words_mapped o l m : stack_mapped m pd tb f -> stack_mapped (put_words o l m) pd tb f.
Proof. revert m. induction l as [|kw l IH]; intros m H; [done|]. by apply IH, stack_mapped_put. Qed.

Lemma put_words_other o l m f' i :
  (forall kw, kw ∈ l -> f' <> f \/ i <> o + kw.1) -> mget (put_words o l m) f' i = mget m f' i.
Proof.
  revert m. induction l as [|kw l IH]; intros m H; [done|]. cbn [put_words foldl] in *.
  etrans; [apply IH; intros; apply H; by right|]. rewrite mget_mset_ne; [done|].
  destruct (H kw (list_elem_of_here _ _)); [left | right]; congruence.
Qed.

Lemma put_words_get o l m k w :
  NoDup l.*1 -> (k, w) ∈ l -> mget (put_words o l m) f (o + k) = u32 w.
Proof.
  revert m. induction l as [|[k' w'] l IH]; intros m Hn Hin; [by apply elem_of_nil in Hin|].
  apply NoDup_cons in Hn as [Hn1 Hn2]. cbn [put_words foldl fst snd].
  apply elem_of_cons in Hin as [[= <- <-]|Hin]; [|by apply IH].
  etrans; [apply put_words_other|by rewrite mget_mset_eq].
  intros kw Hkw. right. intros E. apply Hn1. apply list_elem_of_fmap. exists kw. split; [cbn; lia | done].
Qed.

Lemma push_utf_eq s o fault_va tf :
  stack_mapped (mem s) pd tb f -> cr3 s = 4096 * pd -> 0 <= o -> o + 13 <= 1024 ->
  push_utf (UXSTACKTOP - 4096 + 4 * o) fault_va tf s
  = (Ret tt, set_mem (put_words o (utf_stores fault_va tf) (mem s)) s).
Proof.
  intros H Hc Ho1 Ho2.
  assert (Hstep : forall l k w a B (g : unit -> K B), 0 <= k < 13 -> a = UXSTACKTOP - 4096 + 4 * (o + k) ->
    (vstore32 a w ≫= g) (set_mem (put_words o l (mem s)) s) = g tt (set_mem (put_words o (l ++ [(k, w)]) (mem s)) s)).
  { intros l k w a B g Hk Ha. erewrite bind_Ret; [|eapply (vstore32_stack _ _ (o + k)); [|exact Hc | lia | exact Ha]].
    - f_equal. unfold put_words. rewrite foldl_app. by destruct s.
    - by apply put_words_mapped. }
  assert (E0 : s = set_mem (put_words o [] (mem s)) s) by by destruct s. rewrite E0 at 1.
  unfold push_utf, store_regs.
  rewrite (Hstep _ 11) by lia. rewrite (Hstep _ 10) by lia. rewrite (Hstep _ 1) by lia. rewrite (Hstep _ 12) by lia.
  rewrite (Hstep _ 0) by lia. rewrite (Hstep _ 2) by lia. rewrite (Hstep _ 3) by lia. rewrite (Hstep _ 4) by lia.
  rewrite (Hstep _ 5) by lia. rewrite (Hstep _ 6) by lia. rewrite (Hstep _ 7) by lia. rewrite (Hstep _ 8) by lia.
  cbn [app]. rewrite (vstore32_stack _ _ (o + 9)); [|by apply put_words_mapped | exact Hc | lia | lia].
  unfold utf_stores, put_words. cbn [foldl fst snd]. by destruct s.
Qed.

(** The stores and the words of the frame are the same thing. *)
Lemma utf_words_stored fault_va tf k w :
  utf_words fault_va tf !! k = Some w -> (Z.of_nat k, w) ∈ utf_stores fault_va tf.
Proof.
  intros H. unfold utf_stores. do 13 (destruct k as [|k]; [injection H as <-; repeat first [exact (list_elem_of_here _ _) | apply list_elem_of_further]|]).
  discriminate H.
Qed.

Lemma utf_stores_NoDup fault_va tf : NoDup (utf_stores fault_va tf).*1.
Proof.
  change (NoDup [11; 10; 1; 12; 0; 2; 3; 4; 5; 6; 7; 8; 9]). refine (bool_decide_unpack _ _). by vm_compute.
Qed.

Lemma utf_stores_range fault_va tf kw : kw ∈ utf_stores fault_va tf -> 0 <= kw.1 < 13.
Proof.
  unfold utf_stores. intros H. repeat (apply elem_of_cons in H as [->|H]; [cbn; lia|]). by apply elem_of_nil in H.
Qed.

End ExceptionStack.

(** ** Delivery *)

Section Delivery.

(** The kernel's own test of the exception stack succeeds. *)
Lemma stack_accessible s pd tb f utf :
  stack_mapped (mem s) pd tb f -> UXSTACKTOP - PGSIZE <= utf -> utf + sizeof_UTrapframe <= UXSTACKTOP ->
  forall a, utf <= a < utf + sizeof_UTrapframe -> accessible s pd (Z.lor 6 (Z.lor PTE_U PTE_P)) a = true.
Proof.
  intros [H1 (fl & H2 & H3 & H4) _ _] Hl Hh a Ha. change UXSTACKTOP with 4005560320 in *. change PGSIZE with 4096 in *.
  change sizeof_UTrapframe with 52 in *. unfold accessible, pte_at.
  replace (PDX a) with 954 by (rewrite PDX_div; zdm). replace (PTX a) with 1023 by (rewrite PTX_div; zdm).
  rewrite H1, entry_test by (unfold PTE_P; lia). change (test 7 PTE_P) with true. cbv iota.
  replace ((4096 * tb + 7) / 4096) with tb by zdm. cbn [from_option].
  rewrite H2. change (Z.lor 6 (Z.lor PTE_U PTE_P)) with 7. rewrite entry_land, H4 by lia.
  change ULIM with 4018143232. destruct (Z.ltb_spec a 4018143232); [done | lia].
Qed.

Lemma assert_stack s c v pd tb f utf :
  envs s !! c = Some v -> dir_ok s (env_pgdir v) pd -> stack_mapped (mem s) pd tb f ->
  UXSTACKTOP - PGSIZE <= utf -> utf + sizeof_UTrapframe <= UXSTACKTOP ->
  user_mem_assert c utf sizeof_UTrapframe (Z.lor PTE_U PTE_W) s = (Ret tt, s).
Proof.
  intros He Hd Hm Hl Hh. unfold user_mem_assert. change (Z.lor (Z.lor PTE_U PTE_W) PTE_U) with 6.
  assert (Hacc := stack_accessible _ _ _ _ _ Hm Hl Hh).
  change UXSTACKTOP with 4005560320 in *. change PGSIZE with 4096 in *.
  assert (E : user_mem_check c utf sizeof_UTrapframe 6 s = (Ret 0, s)).
  { destruct (check_verdict s c v pd He Hd utf sizeof_UTrapframe 6) as [_|a Ha Hbad _];
      [lia | done | change sizeof_UTrapframe with 52 in *; lia | lia | done |].
    rewrite Hacc in Hbad by done. discriminate Hbad. }
  by rewrite (bind_Ret _ _ _ _ _ E).
Qed.

(** The environment in its handler. *)
Definition handling (utf : Z) (tf : Trapframe) (v : Env) : Env :=
  set_env_tf (set_tf_esp utf (set_tf_eip (env_pgfault_upcall v) tf)) v.

Lemma page_fault_handler_eq stack s c v tf pd tb f o :
  curenv s = Some c -> envs s !! c = Some (set_env_tf tf v) -> Z.land (tf_cs tf) 3 = 3 ->
  env_pgfault_upcall v <> 0 -> holds_lock s -> KERNBASE <= env_pgdir v < 2 ^ 32 ->
  dir_ok s (env_pgdir v) pd -> cr3 s = 4096 * pd -> stack_mapped (mem s) pd tb f ->
  0 <= o -> o + 13 <= 1024 -> utf_addr (tf_esp tf) = UXSTACKTOP - 4096 + 4 * o ->
  page_fault_handler stack (OfEnv c) s
  = (Stop (SUser c), switched c (handling (utf_addr (tf_esp tf)) tf v)
      (set_envs (<[c := handling (utf_addr (tf_esp tf)) tf v]> (envs s))
        (set_mem (put_words f o (utf_stores (cr2 (hw s)) tf) (mem s)) s))).
Proof.
  intros Hc He Hcpl Hup Hl Hpg Hd H3 Hm Ho1 Ho2 Hutf. unfold page_fault_handler, tf_read. kgo get_eq.
  erewrite bind_Ret; [|by kgo (env_get_eq _ _ _ He)]. cbn [env_tf set_env_tf]. rewrite Hcpl.
  change (3 =? 0) with false. cbv iota. rewrite Hc. kgo @deref_eq. kgo (env_get_eq _ _ _ He).
  cbn [env_pgfault_upcall set_env_tf]. rewrite (proj2 (Z.eqb_neq _ _) Hup). cbn [negb].
  apply bind_Stop. set (utf := utf_addr (tf_esp tf)) in *.
  erewrite bind_Ret; [|eapply assert_stack; [exact He | exact Hd | exact Hm | ..]].
  2:{ rewrite Hutf. change PGSIZE with 4096. lia. }
  2:{ rewrite Hutf. change sizeof_UTrapframe with 52. lia. }
  rewrite Hutf at 1. rewrite (bind_Ret _ _ _ _ _ (push_utf_eq pd tb f s o (cr2 (hw s)) tf Hm H3 Ho1 Ho2)).
  set (s2 := set_mem _ s). assert (He2 : envs s2 !! c = Some (set_env_tf tf v)) by exact He.
  assert (Hl2 : holds_lock s2) by exact Hl. assert (Hc2 : curenv s2 = Some c) by exact Hc.
  assert (Ee : envs s = envs s2) by done. rewrite Ee. clearbody s2.
  kgo (env_update_eq _ _ _ (fun v => set_env_tf (set_tf_eip (env_pgfault_upcall v) (env_tf v)) v) He2).
  erewrite bind_Ret; [|eapply env_update_eq; cbn [envs set_envs]; apply lookup_insert_eq].
  cbn [envs set_envs]. rewrite insert_insert_eq.
  match goal with |- env_run c (set_envs (<[c := ?x]> _) _) = _ => change x with (handling utf tf v) end.
  change (set_envs ?a (set_envs ?b s2)) with (set_envs a s2).
  apply env_run_eq; [|cbn [envs set_envs]; apply lookup_insert_eq | exact Hpg | exact Hl2].
  intros x Hx. change (curenv s2 = Some x) in Hx. rewrite Hc2 in Hx. injection Hx as <-.
  cbn [envs set_envs]. rewrite lookup_insert_eq. eauto.
Qed.

(** C15. A page fault of user code is delivered to its handler: when environment [c] has an upcall,
    a writable exception stack with room for a frame, and a word-aligned stack pointer, a
    page-fault trap ends in user mode of the same environment, at the upcall and with the stack
    pointer at a new frame; the frame holds the fault address, the error code and all registers
    of the interrupted code, as user code reads them through its page tables; apart from the frame
    no memory changes, and other environments stay as they are. *)
Theorem trap_page_fault_delivered A tf fuel addr s c v pd tb f
  (H : user_trap tf s c v) (Hn : tf_trapno tf = T_PGFLT) (Hup : env_pgfault_upcall v <> 0)
  (Hd : dir_ok s (env_pgdir v) pd) (H3 : cr3 s = 4096 * pd) (Hm : stack_mapped (mem s) pd tb f)
  (Hesp : 0 <= tf_esp tf < 2 ^ 32) (Hal : tf_esp tf `mod` 4 = 0)
  (Hroom : UXSTACKTOP - PGSIZE <= utf_addr (tf_esp tf)) :
  let utf := utf_addr (tf_esp tf) in
  exists s', @trap tf A fuel addr s = (Stop (SUser c), s') /\
    envs s' !! c = Some (running_env (this_cpu s) (handling utf tf v)) /\
    (forall e, e <> c -> envs s' !! e = envs s !! e) /\ curenv s' = Some c /\ kernel_lock s' = mkSpinlock 0 None /\
    (forall k w, utf_words (cr2 (hw s)) tf !! k = Some w -> vload (utf + 4 * Z.of_nat k) s' = (Ret (u32 w), s')) /\
    (forall f' i, f' <> f \/ ~ (utf <= UXSTACKTOP - PGSIZE + 4 * i < utf + sizeof_UTrapframe) ->
      mget (mem s') f' i = mget (mem s) f' i).
Proof.
  intros utf. set (o := (utf - (UXSTACKTOP - 4096)) / 4).
  assert (Ho : 0 <= o /\ o + 13 <= 1024 /\ utf = UXSTACKTOP - 4096 + 4 * o).
  { assert (Hu := utf_addr_disjoint (tf_esp tf) Hesp). unfold o. fold utf in Hu, Hroom.
    change UXSTACKTOP with 4005560320 in *. change PGSIZE with 4096 in *. change sizeof_UTrapframe with 52 in *.
    case_decide; zdm. }
  destruct Ho as (Ho1 & Ho2 & Hutf). clearbody o.
  set (s1 := entered tf c v s). set (v2 := handling utf tf v).
  set (s2 := set_mem (put_words f o (utf_stores (cr2 (hw s)) tf) (mem s)) s1).
  assert (Hc1 : curenv s1 = Some c) by apply curenv_entered, (ut_cur _ _ _ _ H).
  assert (Hrun : @trap tf A fuel addr s = (Stop (SUser c), switched c v2 (set_envs (<[c := v2]> (envs s)) s2))).
  { rewrite (trap_enter tf fuel addr s c v H). fold s1. apply bind_Stop. unfold trap_dispatch, tf_read.
    erewrite bind_Ret; [|by kgo (env_get_eq _ _ _ (entered_env tf c v s))]. cbn [env_tf set_env_tf]. rewrite Hn.
    change (T_PGFLT =? IRQ_OFFSET + IRQ_SPURIOUS) with false. change (T_PGFLT =? IRQ_OFFSET + IRQ_TIMER) with false.
    change (T_PGFLT =? T_PGFLT) with true. cbn [when]. cbv iota. apply bind_Stop.
    fold s1. rewrite (page_fault_handler_eq tf s1 c v tf pd tb f o Hc1 (entered_env tf c v s) (ut_cpl _ _ _ _ H) Hup
      (entered_lock tf c v s) (ut_dir _ _ _ _ H)); [| by destruct Hd | exact H3 | exact Hm | done..].
    fold utf v2. unfold s2. change (cr2 (hw s1)) with (cr2 (hw s)). change (mem s1) with (mem s).
    unfold s1. change (envs (entered tf c v s)) with (<[c := set_env_tf tf v]> (envs s)). by rewrite insert_insert_eq. }
  assert (Hc2 : curenv s2 = Some c) by exact Hc1.
  assert (Hm2 : mem s2 = put_words f o (utf_stores (cr2 (hw s)) tf) (mem s) /\ this_cpu s2 = this_cpu s) by done.
  clearbody s2. destruct Hm2 as [Hm2 Ecpu].
  destruct (switched_again c v2 (envs s) s2 Hc2) as (F1 & F2 & F3 & F4 & F5 & F6). rewrite Ecpu in F1.
  eexists. split; [exact Hrun|]. set (s' := switched c v2 _) in *. clearbody s'.
  do 4 (split; [done|]). rewrite Hm2 in F6. split.
  - intros k w Hk. assert (Hin := utf_words_stored _ _ _ _ Hk). assert (Hr := utf_stores_range _ _ _ Hin). cbn in Hr.
    rewrite (vload_stack pd tb f s' _ (o + Z.of_nat k)).
    + rewrite F6, (put_words_get f o _ _ _ _ (utf_stores_NoDup _ _) Hin). done.
    + rewrite F6. by apply put_words_mapped.
    + rewrite F5. unfold v2, handling. cbn [env_pgdir set_env_tf]. rewrite (do_dir _ _ _ Hd). lia.
    + lia.
    + rewrite Hutf. lia.
  - intros f' i Hout. rewrite F6. apply put_words_other. intros kw Hkw. apply utf_stores_range in Hkw.
    destruct Hout as [|Hout]; [by left | right]. rewrite Hutf in Hout. change PGSIZE with 4096 in Hout.
    change sizeof_UTrapframe with 52 in Hout. lia.
Qed.

(** Environment 1 with its directory in page 1 and its exception stack in page 3, mapped
    through the table in page 2. *)
Definition ex_faulting : Env := set_env_pgfault_upcall 0x800100 (ex_live 0x1001 0 ENV_RUNNING).
Definition ex_stack_mem : gmap Z (gmap Z Z) := mset (mset ∅ 1 954 (4096 * 2 + 7)) 2 1023 (4096 * 3 + 7).
Definition ex_fault : kstate := set_envs {[ 1 := ex_faulting ]} (set_cr3 4096 (set_mem ex_stack_mem ex_outside)).
Definition ex_fault_frame : Trapframe :=
  mkTrapframe (mkPushRegs 1 2 3 4 5 6 7 8) 0x23 0x23 T_PGFLT 6 0x800020 0x1b FL_IF 0xeebfdf00 0x23.

Lemma ex_fault_trap : user_trap ex_fault_frame ex_fault 1 ex_faulting.
Proof.
  constructor; [reflexivity..| discriminate | reflexivity | reflexivity | apply lookup_insert_eq | reflexivity |
    split; [discriminate | reflexivity]].
Qed.

Lemma ex_fault_dir : dir_ok ex_fault (env_pgdir ex_faulting) 1.
Proof.
  assert (Em : mem ex_fault = ex_stack_mem /\ npages ex_fault = 16) by (split; reflexivity).
  destruct Em as [Em En]. constructor; rewrite ?Em, ?En; [reflexivity | lia | lia |].
  intros i Hi. unfold ex_stack_mem. rewrite !mget_mset. rewrite (decide_False (P := 2 = 1 /\ 1023 = i)) by lia.
  case_decide; [intros _; vm_compute; split; discriminate || reflexivity | intros Hf; discriminate Hf].
Qed.

Lemma ex_fault_stack : stack_mapped (mem ex_fault) 1 2 3.
Proof.
  assert (Em : mem ex_fault = ex_stack_mem) by reflexivity. rewrite Em.
  constructor; [reflexivity | exists 7; split; [reflexivity | split; [lia | reflexivity]] | lia | lia].
Qed.

Lemma trap_page_fault_delivered_witness :
  exists s', @trap ex_fault_frame unit 0 0 ex_fault = (Stop (SUser 1), s') /\
    vload (UXSTACKTOP - 52 + 4 * 10) s' = (Ret 0x800020, s').
Proof.
  destruct (trap_page_fault_delivered unit ex_fault_frame 0 0 ex_fault 1 ex_faulting 1 2 3 ex_fault_trap eq_refl
    ltac:(discriminate) ex_fault_dir eq_refl ex_fault_stack ltac:(split; [discriminate | reflexivity]) eq_refl
    ltac:(discriminate)) as (s' & H1 & _ & _ & _ & _ & H2 & _).
  exists s'. split; [exact H1 | exact (H2 10%nat 0x800020 eq_refl)].
Defined.

End Delivery.
