(* ===== verification/SysCputs.v ===== *)
(** * SysCputs: printing memory of user code

    [sys_cputs] of kern/syscall.c, the one system call of the kernel that reads
    memory of its caller: it checks the memory before it looks at it, destroys
    an environment that asks for memory it may not read, and else prints what
    is there up to the first NUL.  The formatter reads one byte more than was
    checked. *)

From S2P Require Import Prelude Machine CString Printfmt Hardware Console PrintfProps Kernel KernelProps Pmap PageAlloc.
From S2P Require Import PageTable Example UserMem PtProps Env Sched Syscall Trap KernelExit TrapUser UserFault.

Section Reading.

Context (s : kstate) (pd : Z).

(** The byte at an address of user code, and whether the processor can read it. *)
Definition user_byte (a : Z) : Z :=
  get_byte (mget (mem s) (default 0 (pte_at s pd a) / 4096) (a `mod` 4096 / 4)) (a `mod` 4).
Definition readable (a : Z) : bool := from_option (fun d => test d PTE_P) false (pte_at s pd a).

Hypothesis Hcr3 : cr3 s = 4096 * pd.

Lemma vload8_user a :
  0 <= a < KERNBASE -> vload8 a s = if readable a then (Ret (user_byte a), s) else (Stop (SFault a), s).
Proof.
  intros Ha. unfold vload8, translate, readable, user_byte, pte_at, mmu_walk. rewrite Hcr3.
  destruct (Z.leb_spec KERNBASE a); [lia|]. rewrite (PTE_ADDR_mod (4096 * pd)).
  replace (4096 * pd - (4096 * pd) `mod` 4096) with (4096 * pd) by zdm.
  rewrite mload_word by apply PDX_range. cbn [negb orb]. rewrite ?andb_true_r.
  destruct (test (mget (mem s) pd (PDX a)) PTE_P); [|done]. cbn [from_option default].
  set (d := mget (mem s) pd (PDX a)).
  replace (PTE_ADDR d) with (4096 * (d / 4096)) by (rewrite PTE_ADDR_mod; zdm).
  rewrite mload_word by apply PTX_range. rewrite ?andb_true_r.
  set (e := mget (mem s) (d / 4096) (PTX a)). destruct (test e PTE_P); [|done].
  assert (Eo : PGOFF a = a `mod` 4096) by (unfold PGOFF; change 0xFFF with (Z.ones 12); by rewrite Z.land_ones).
  replace (PTE_ADDR e) with (4096 * (e / 4096)) by (rewrite PTE_ADDR_mod; zdm). rewrite Eo.
  replace (4096 * (e / 4096) + a `mod` 4096 - (4096 * (e / 4096) + a `mod` 4096) `mod` 4)
    with (4096 * (e / 4096) + 4 * (a `mod` 4096 / 4)) by zdm.
  rewrite mload_word by zdm. replace ((4096 * (e / 4096) + a `mod` 4096) `mod` 4) with (a `mod` 4) by zdm. done.
Qed.

Lemma user_byte_range a : 0 <= user_byte a < 256.
Proof. unfold user_byte, get_byte. change 0xFF with (Z.ones 8). rewrite Z.land_ones by lia. apply Z.mod_pos_bound. lia. Qed.

Lemma accessible_readable a : accessible s pd (Z.lor PTE_U PTE_P) a = true -> readable a = true.
Proof.
  unfold accessible, readable. intros [_ H]%andb_true_iff. destruct (pte_at s pd a) as [d|]; [|done].
  cbn [from_option] in *. apply Z.eqb_eq in H. unfold test. change (Z.lor PTE_U PTE_P) with 5 in H.
  replace (Z.land d PTE_P) with (Z.land (Z.land d 5) PTE_P) by (by rewrite <- Z.land_assoc). by rewrite H.
Qed.

(** The bytes up to the first NUL. *)
Fixpoint upto_nul (l : list Z) : list Z :=
  match l with [] => [] | c :: l' => if c =? 0 then [] else c :: upto_nul l' end.

Definition user_text (n : nat) (a : Z) : list Z := upto_nul (map user_byte (seqZ a (Z.of_nat n))).

Lemma user_text_S n a :
  user_text (S n) a = if user_byte a =? 0 then [] else user_byte a :: user_text n (a + 1).
Proof. unfold user_text. rewrite seqZ_cons by lia. cbn [map upto_nul]. by replace (Z.pred (Z.of_nat (S n))) with (Z.of_nat n) by lia. Qed.

Lemma user_text_length n a : (length (user_text n a) <= n)%nat.
Proof.
  revert a. induction n as [|n IH]; intros a; [done|]. rewrite user_text_S. destruct (_ =? 0); cbn [length]; [lia|].
  specialize (IH (a + 1)). lia.
Qed.

(** What the formatter reads: the text and the byte that ends it, if that can be read. *)
Lemma read_user_eq n a :
  0 <= a -> a + Z.of_nat n < KERNBASE -> (forall b, a <= b < a + Z.of_nat n -> readable b = true) ->
  read_user n a s = (Ret
    (if (length (user_text n a) <? n)%nat then (user_text n a ++ [0], None)
     else if readable (a + Z.of_nat n) then (user_text n a ++ [user_byte (a + Z.of_nat n)], None)
     else (user_text n a, Some (a + Z.of_nat n))), s).
Proof.
  revert a. induction n as [|n IH]; intros a Ha Hend Hall; cbn [read_user]; rewrite vload8_user by lia.
  - rewrite Z.add_0_r. cbn. by destruct (readable a).
  - rewrite Hall, user_text_S by lia. destruct (Z.eqb_spec (user_byte a) 0) as [->|]; [done|].
    rewrite u32_small by (change KERNBASE with 4026531840 in *; lia).
    rewrite IH; [|lia|lia|intros b Hb; apply Hall; lia]. cbn [length].
    replace (a + 1 + Z.of_nat n) with (a + Z.of_nat (S n)) by lia.
    destruct (Nat.ltb_spec (length (user_text n (a + 1))) n), (Nat.ltb_spec (S (length (user_text n (a + 1)))) (S n)); try lia; [done|].
    by destruct (readable _).
Qed.

End Reading.

Section Printing.

(** Characters are printed sign-extended. *)
Lemma put_string_text t pr w x (tr : list Z) :
  0 <= pr -> Forall (fun c => 0 < c < 256) t -> (i8 x = 0 /\ Z.of_nat (length t) <= pr) \/ Z.of_nat (length t) = pr ->
  put_string (t ++ [x]) pr w false tr = Some (w - Z.of_nat (length t), tr ++ map i8 t).
Proof.
  revert pr w tr. induction t as [|c t IH]; intros pr w tr Hpr Ht Hx; cbn [app put_string map length].
  - rewrite Z.sub_0_r, app_nil_r. destruct (Z.eqb_spec (i8 x) 0); [done|]. destruct Hx as [[]|Hx]; [done|].
    cbn [length] in Hx. by replace pr with 0 by lia.
  - apply Forall_cons in Ht as [Hc Ht]. cbn [length] in Hx.
    destruct (Z.eqb_spec (i8 c) 0) as [E|_]; [unfold i8 in E; revert E; zdm|].
    destruct (Z.ltb_spec pr 0); [lia|]. destruct (Z.leb_spec 0 (pr - 1)); [|lia]. cbn [orb andb].
    rewrite IH by (done || lia || (destruct Hx; [left|right]; lia)).
    unfold putch, Putch_trace. rewrite <- app_assoc. cbn [app]. do 2 f_equal. lia.
Qed.

Lemma trace_cputs len t x :
  0 <= len < 2 ^ 31 -> Forall (fun c => 0 < c < 256) t -> (i8 x = 0 /\ Z.of_nat (length t) <= len) \/ Z.of_nat (length t) = len ->
  trace (cstr "%.*s") [VInt len; VStr (Some (t ++ [x]))] = Some (map i8 t).
Proof.
  intros Hl Ht Hx.
  assert (E : trace (cstr "%.*s") [VInt len; VStr (Some (t ++ [x]))] =
    (s ← print_string (t ++ [x]) (i32 len) 0 32 false []; Some s)) by reflexivity.
  rewrite E, i32_small by lia. unfold print_string. cbn [Z.ltb Z.compare andb mbind option_bind].
  rewrite put_string_text by (done || lia). cbn [mbind option_bind app].
  by replace (Z.to_nat (0 - Z.of_nat (length t))) with O by lia.
Qed.

(** The console after the characters. *)
Definition shown (l : list Z) (s : kstate) : kstate :=
  set_con (fold_left (fun c ch => cputchar ch c) (map i8 l) (con s)) s.

Lemma cputs_cprintf len t x s :
  0 <= len < 2 ^ 31 -> Forall (fun c => 0 < c < 256) t -> (i8 x = 0 /\ Z.of_nat (length t) <= len) \/ Z.of_nat (length t) = len ->
  cprintf "%.*s" [VInt len; VStr (Some (t ++ [x]))] s = (Ret tt, shown t s).
Proof.
  intros Hl Ht Hx. unfold cprintf, Console.cprintf, vcprintf. rewrite vprintfmt_replay, trace_cputs by done.
  cbn [fmap option_fmap option_map mbind option_bind]. by rewrite replay_console.
Qed.

Lemma user_text_chars s pd n a : Forall (fun c => 0 < c < 256) (user_text s pd n a).
Proof.
  revert a. induction n as [|n IH]; intros a; [constructor|]. rewrite user_text_S.
  pose proof (user_byte_range s pd a). destruct (Z.eqb_spec (user_byte s pd a) 0); constructor; [lia | done].
Qed.

End Printing.

Section Destroying.

#[local] Instance Steady_curenv c : Steady (fun s => curenv s = Some c).
Proof. by constructor. Qed.

(** An environment that is destroyed while it runs does not go on. *)
Lemma env_destroy_current s c : curenv s = Some c -> exists r s', env_destroy c s = (Stop r, s').
Proof.
  intros Hc. unfold env_destroy. rewrite (bind_Ret _ _ _ _ _ (get_eq s)).
  unfold env_get. destruct (envs s !! c) as [v|] eqn:Hv; [|by eexists _, _; unfold mbind, K_bind; rewrite Hv].
  rewrite (bind_Ret _ _ s v s) by by rewrite Hv.
  rewrite (bool_decide_true (curenv s = Some c)) by done. rewrite andb_false_r.
  destruct (env_free c s) as [[[]|r] s1] eqn:E; [|by eexists _, _; unfold mbind, K_bind; rewrite E].
  destruct (ok_env_free (I := fun s => curenv s = Some c) c s _ _ Hc E) as [Hc1 _].
  rewrite (bind_Ret _ _ _ _ _ E), (bind_Ret _ _ _ _ _ (get_eq s1)), bool_decide_true by done.
  rewrite (bind_Ret _ _ s1 tt _) by reflexivity. apply never_sched_yield.
Qed.

End Destroying.

(** C25. The system call that prints, on a range that does not wrap around.  It looks at memory
    of the caller only after the whole range has passed the check.  When every byte of the range
    is accessible, it prints the bytes up to the first NUL -- not all [len] of them, as its comment
    says -- and changes nothing but the console; but when there is no NUL the formatter reads the
    one byte after the range, which nobody checked, and when that byte is not mapped the kernel
    itself faults after it has printed.  When some byte is not accessible, none of the memory is
    printed: the address of the first such byte is reported and the caller is destroyed, so that
    the call does not return. *)
Theorem sys_cputs_checks (s : kstate) (c : Z) (v : Env) (pd va len : Z)
  (Hcur : curenv s = Some c) (He : envs s !! c = Some v) (Hdir : dir_ok s (env_pgdir v) pd)
  (Hcr3 : cr3 s = 4096 * pd) (Hva : 0 <= va) (Hlen : 0 < len < 2 ^ 31) (Hend : va + len < 2 ^ 32) :
  let text := user_text s pd (Z.to_nat len) va in
  let ok a := accessible s pd (Z.lor PTE_U PTE_P) a in
  ((forall a, va <= a < va + len -> ok a = true) /\
   sys_cputs va len s =
     (if (Z.of_nat (length text) <? len) || readable s pd (va + len) then Ret tt else Stop (SFault (va + len)),
      shown text s)) \/
  (exists a msg r s', va <= a < va + len /\ ok a = false /\ (forall b, va <= b < a -> ok b = true) /\
     sys_cputs va len s = (Stop r, s') /\ env_destroy c (set_con msg (set_user_mem_check_addr a s)) = (Stop r, s')).
Proof.
  cbv zeta. unfold sys_cputs. rewrite (bind_Ret _ _ _ _ _ (get_eq s)), Hcur, (bind_Ret _ _ _ _ _ (deref_eq c s)).
  unfold user_mem_assert. change (Z.lor PTE_U PTE_U) with PTE_U.
  pose proof (check_verdict s c v pd He Hdir va len PTE_U Hva ltac:(lia) Hend ltac:(by vm_compute)) as Hv.
  change (Z.lor PTE_U (Z.lor PTE_U PTE_P)) with (Z.lor PTE_U PTE_P) in Hv.
  inversion Hv as [Hall E | a Ha Hbad Hpre E]; symmetry in E; clear Hv.
  - left. split; [done|].
    assert (HU : va + len <= ULIM).
    { specialize (Hall (va + len - 1) ltac:(lia)). unfold accessible in Hall. apply andb_true_iff in Hall as [Hlt%Z.ltb_lt _]. lia. }
    assert (HK : va + len < KERNBASE) by (change KERNBASE with 4026531840; change ULIM with 4018143232 in HU; lia).
    rewrite (bind_Ret _ _ s tt s) by by rewrite (bind_Ret _ _ _ _ _ E).
    assert (Hn : Z.of_nat (Z.to_nat len) = len) by lia.
    rewrite (bind_Ret _ _ _ _ _ (read_user_eq s pd Hcr3 (Z.to_nat len) va Hva ltac:(by rewrite Hn)
      ltac:(rewrite Hn; intros b Hb; by apply accessible_readable, Hall))), Hn.
    pose proof (user_text_chars s pd (Z.to_nat len) va) as Ht. pose proof (user_text_length s pd (Z.to_nat len) va) as Hl.
    set (t := user_text s pd (Z.to_nat len) va) in *.
    replace (Z.of_nat (length t) <? len) with (length t <? Z.to_nat len)%nat
      by (destruct (Nat.ltb_spec (length t) (Z.to_nat len)), (Z.ltb_spec (Z.of_nat (length t)) len); lia).
    destruct (Nat.ltb_spec (length t) (Z.to_nat len)); cbn [orb].
    + apply cputs_cprintf; [lia | done | left; split; [done | lia]].
    + destruct (readable s pd (va + len)); [apply cputs_cprintf; [lia | done | right; lia]|].
      by rewrite (bind_Ret _ _ _ _ _ (cputs_cprintf len t 0 s ltac:(lia) Ht ltac:(right; lia))).
  - right. exists a. set (s1 := set_user_mem_check_addr a s) in *.
    assert (He1 : envs s1 !! c = Some v) by done. assert (Hc1 : curenv s1 = Some c) by done. clearbody s1.
    destruct (cprintf_matches "[%08x] user_mem_check assertion failure for va %08x\n" [VInt (env_id v); VInt (user_mem_check_addr s1)] s1)
      as [msg Hm]; [split; [vm_compute; reflexivity | repeat constructor]|].
    destruct (env_destroy_current (set_con msg s1) c Hc1) as (r & s' & Ed).
    exists msg, r, s'. split; [done|]. split; [done|]. split; [done|]. split; [|done].
    apply bind_Stop. rewrite (bind_Ret _ _ _ _ _ E). change (- E_FAULT <? 0) with true. cbv iota.
    rewrite (bind_Ret _ _ _ _ _ (env_get_eq _ _ _ He1)), (bind_Ret _ _ _ _ _ (get_eq s1)), (bind_Ret _ _ _ _ _ Hm). exact Ed.
Qed.

(** Two characters at the end of the last page below UTOP: the kernel prints them and faults. *)
Definition ex_text_mem : gmap Z (gmap Z Z) := mset ex_stack_mem 3 1023 0x69680000.
Definition ex_text : kstate := set_mem ex_text_mem ex_fault.

Lemma dir_ok_set_mem s m pgdir pd :
  dir_ok s pgdir pd -> (forall i, mget m pd i = mget (mem s) pd i) -> dir_ok (set_mem m s) pgdir pd.
Proof.
  intros [H1 H2 H3 H4] Hm. constructor; [done..|]. intros i Hi. cbn [mem set_mem npages]. rewrite Hm. by apply H4.
Qed.

Lemma ex_text_dir : dir_ok ex_text (env_pgdir ex_faulting) 1.
Proof.
  apply (dir_ok_set_mem ex_fault ex_text_mem _ 1 ex_fault_dir). intros i. unfold ex_text_mem.
  rewrite mget_mset, decide_False by lia. reflexivity.
Qed.

Lemma ex_text_user : user_text ex_text 1 (Z.to_nat 2) (UXSTACKTOP - 2) = [104; 105] /\
  readable ex_text 1 (UXSTACKTOP - 2 + 2) = false /\
  accessible ex_text 1 5 (UXSTACKTOP - 2) = true /\ accessible ex_text 1 5 (UXSTACKTOP - 1) = true.
Proof. vm_compute. repeat split. Qed.

Lemma ex_text_ok a : UXSTACKTOP - 2 <= a < UXSTACKTOP - 2 + 2 -> accessible ex_text 1 5 a <> false.
Proof.
  intros Ha. destruct ex_text_user as (_ & _ & E1 & E2).
  assert (E : a = UXSTACKTOP - 2 \/ a = UXSTACKTOP - 1) by lia. destruct E as [-> | ->]; [by rewrite E1 | by rewrite E2].
Qed.

Lemma sys_cputs_checks_witness :
  sys_cputs (UXSTACKTOP - 2) 2 ex_text = (Stop (SFault UXSTACKTOP), shown [104; 105] ex_text).
Proof.
  destruct (sys_cputs_checks ex_text 1 ex_faulting 1 (UXSTACKTOP - 2) 2 eq_refl (lookup_insert_eq _ _ _) ex_text_dir eq_refl
    ltac:(discriminate) ltac:(lia) ltac:(reflexivity)) as [[_ E] | (a & _ & _ & _ & Ha & Hbad & _)].
  - destruct ex_text_user as (E1 & E2 & _). rewrite E1, E2 in E. exact E.
  - destruct (ex_text_ok a Ha Hbad).
Defined.

(** One character fewer: the formatter stops at the byte that was checked. *)
Lemma sys_cputs_prints :
  sys_cputs (UXSTACKTOP - 4) 3 ex_text = (Ret tt, shown [] ex_text) /\
  sys_cputs (UXSTACKTOP - 2) 1 ex_text = (Ret tt, shown [104] ex_text).
Proof. split; vm_compute; reflexivity. Qed.
