(* ===== verification/KernelInv.v ===== *)
(** * KernelInv: the invariant of the whole kernel

    The spaces of all environments together with the free lists: [kernel_ok]
    says that every page is counted exactly -- as often as page tables,
    directories and mappings of live environments and the kernel itself
    ([kref]) refer to it --, that the pages of directories and page tables
    belong to one environment only, and that free pages, free environments
    and live ones are where they belong.  The destruction of an environment
    keeps it. *)

From S2P Require Import Prelude Machine CString Printfmt Hardware Console Kernel Spinlock Pmap PageAlloc.
From S2P Require Import PageTable Example UserMem PtProps Env EnvProps EnvAlloc EnvFree Sched Syscall Trap KernelExit.

(** ** The spaces of all environments *)

(** Directory page, page tables and mappings of one environment, below UTOP. *)
Record space := mkSpace { sp_pd : Z; sp_T : gmap Z Z; sp_A : gmap Z (Z * Z) }.

Section Counting.

Definition refs (x : space) (p : Z) : Z := ref_count (sp_pd x) (sp_T x) (sp_A x) (fun _ => 0) p.
Definition total (S : gmap Z space) (p : Z) : Z := map_fold (fun _ x n => refs x p + n) 0 S.

(** The pages that hold the directory and the page tables. *)
Definition table_of (x : space) (f : Z) : Prop := f = sp_pd x \/ exists i, sp_T x !! i = Some f.
(** The pages that the environment can write to. *)
Definition writable (x : space) (f : Z) : Prop := exists v fl, sp_A x !! v = Some (f, fl) /\ test fl PTE_W = true.

Lemma refs_nonneg x p : 0 <= refs x p.
Proof. by apply ref_count_nonneg. Qed.

Lemma total_delete S e x p : S !! e = Some x -> total S p = refs x p + total (delete e S) p.
Proof.
  intros He. unfold total.
  rewrite (map_fold_delete_L (fun _ x n => refs x p + n) 0 e x S); [done | intros; lia | done].
Qed.

Lemma total_nonneg S p : 0 <= total S p.
Proof.
  unfold total. apply (map_fold_weak_ind (fun r _ => 0 <= r)); [done|].
  intros i x m r _ Hr. pose proof (refs_nonneg x p). lia.
Qed.

Lemma total_least S e x p : S !! e = Some x -> refs x p <= total S p.
Proof. intros He. rewrite (total_delete S e x p He). pose proof (total_nonneg (delete e S) p). lia. Qed.

Lemma total_two S e1 e2 x1 x2 p :
  S !! e1 = Some x1 -> S !! e2 = Some x2 -> e1 <> e2 -> refs x1 p + refs x2 p <= total S p.
Proof.
  intros H1 H2 Hne. rewrite (total_delete S e1 x1 p H1).
  pose proof (total_least (delete e1 S) e2 x2 p ltac:(by rewrite lookup_delete_ne)). lia.
Qed.

Lemma refs_table x p : table_of x p -> 1 <= refs x p.
Proof.
  unfold refs, ref_count. pose proof (count_val_nonneg fst (sp_A x) p). pose proof (count_val_nonneg id (sp_T x) p).
  intros [-> | [i Hi]]; [rewrite decide_True by done; lia|].
  pose proof (count_val_pos id (sp_T x) i p Hi). simpl in *. case_decide; lia.
Qed.

Lemma refs_mapped x v e : sp_A x !! v = Some e -> 1 <= refs x e.1.
Proof.
  intros Hv. unfold refs, ref_count. pose proof (count_val_pos fst (sp_A x) v e Hv).
  pose proof (count_val_nonneg id (sp_T x) (fst e)). case_decide; lia.
Qed.

(** A page that is mapped and a page table has two references. *)
Lemma refs_both x v e : sp_A x !! v = Some e -> table_of x e.1 -> 2 <= refs x e.1.
Proof.
  intros Hv Ht. unfold refs, ref_count. pose proof (count_val_pos fst (sp_A x) v e Hv).
  pose proof (count_val_nonneg id (sp_T x) (fst e)).
  destruct Ht as [E | [i Hi]]; [rewrite decide_True by done; lia|].
  pose proof (count_val_pos id (sp_T x) i e.1 Hi). simpl in *. case_decide; lia.
Qed.

End Counting.

(** A store below UTOP reaches a page that is mapped writable. *)
Lemma walk_writable s pgdir x va pa :
  space_wf below_utop s pgdir (sp_pd x) (sp_T x) (sp_A x) -> 0 <= va < UTOP ->
  mmu_walk (mem s) (4096 * sp_pd x) va true = Some pa ->
  exists fl, sp_A x !! (va / 4096) = Some (pa / 4096, fl) /\ test fl PTE_W = true.
Proof.
  intros [W1 W2 W3] Hva. change UTOP with 4005560320 in Hva. unfold mmu_walk.
  rewrite (PTE_ADDR_mod (4096 * sp_pd x)).
  replace (4096 * sp_pd x - (4096 * sp_pd x) `mod` 4096) with (4096 * sp_pd x) by zdm.
  rewrite mload_word by apply PDX_range. set (d := mget (mem s) (sp_pd x) (PDX va)).
  destruct (test d PTE_P) eqn:Ed; [cbn [andb negb orb]|done]. destruct (test d PTE_W); [|done].
  assert (Hi : PDX va = va / 4096 / 1024) by (rewrite PDX_div; zdm).
  assert (Hj : PTX va = (va / 4096) `mod` 1024) by apply PTX_div.
  destruct (sp_T x !! PDX va) as [t|] eqn:Ht.
  2:{ unfold d in Ed. rewrite (tw_none _ _ _ _ _ W1 (PDX va)) in Ed; [done | apply PDX_range | | done].
    unfold below_utop. change (PDX UTOP) with 955. rewrite PDX_div. zdm. }
  destruct (tw_some _ _ _ _ _ W1 _ _ Ht) as (_ & _ & _ & _ & _ & E). fold d in E.
  rewrite E, mload_word by apply PTX_range. rewrite Hi in Ht. rewrite Hj.
  destruct (sp_A x !! (va / 4096)) as [[f fl]|] eqn:HA.
  - destruct (W2 _ _ HA) as (_ & _ & Hfl & _ & t' & Ht' & Em). cbn [fst snd] in *. rewrite Ht in Ht'. injection Ht' as <-. rewrite Em.
    rewrite !pte_entry_test by (done || (unfold PTE_P, PTE_W; lia)). cbn [snd].
    destruct (test fl PTE_P); [cbn [andb]|done]. destruct (test fl PTE_W) eqn:Ew; [|done].
    rewrite pte_entry_addr by done. cbn [fst]. intros [= <-]. exists fl. split; [|done]. do 2 f_equal.
    assert (Eo : PGOFF va = va `mod` 4096) by (unfold PGOFF; change 0xFFF with (Z.ones 12); by rewrite Z.land_ones).
    rewrite Eo. zdm.
  - by rewrite (W3 (va / 4096) t ltac:(zdm) HA Ht).
Qed.

(** ** The invariant *)

Definition live (s : kstate) (e : Z) : Prop := exists v, envs s !! e = Some v /\ env_status v <> ENV_FREE.
(** Environment [p] is the parent of [e]. *)
Definition parent (s : kstate) (p e : Z) : Prop :=
  exists u v, envs s !! p = Some u /\ envs s !! e = Some v /\ env_parent_id v = env_id u.

Section Invariant.

(** The references that the kernel holds to pages. *)
Context (kref : Z -> Z).

(** Free pages [l], free environments [L], spaces [S] of the live ones. *)
Record kernel_ok (s : kstate) (l L : list Z) (S : gmap Z space) : Prop := mkKernelOk {
  ko_alloc : alloc_wf s l;
  ko_chain : env_chain (envs s) (env_free_list s) L;
  ko_free : forall e v, e ∈ L -> envs s !! e = Some v -> env_status v = ENV_FREE;
  ko_live : forall e, is_Some (S !! e) <-> live s e;
  ko_space : forall e v x, envs s !! e = Some v -> S !! e = Some x ->
    space_wf below_utop s (env_pgdir v) (sp_pd x) (sp_T x) (sp_A x);
  ko_refs : forall p pi, pages s !! p = Some pi -> pp_ref pi = kref p + total S p /\ pp_ref pi < 2 ^ 16;
  ko_kref : forall p, 0 <= kref p;
  ko_own : forall e x p, S !! e = Some x -> table_of x p -> kref p + total S p = 1;
  ko_kern : KERNBASE <= kern_pgdir s < 2 ^ 32;
}.

Lemma space_at s l L S e v :
  kernel_ok s l L S -> envs s !! e = Some v -> env_status v <> ENV_FREE -> exists x, S !! e = Some x.
Proof. intros H He Hv. apply (ko_live _ _ _ _ H). by exists v. Qed.

(** The space of one environment, the others count as references from elsewhere. *)
Definition others (S : gmap Z space) (e : Z) (p : Z) : Z := kref p + total (delete e S) p.

Lemma kernel_aspace s l L S e v x :
  kernel_ok s l L S -> envs s !! e = Some v -> S !! e = Some x ->
  aspace below_utop s (env_pgdir v) (sp_pd x) (sp_T x) (sp_A x) l (others S e).
Proof.
  intros H He Hx. constructor; [apply (ko_alloc _ _ _ _ H) | by apply (ko_space _ _ _ _ H e) | |].
  - intros p. pose proof (ko_kref _ _ _ _ H p). pose proof (total_nonneg (delete e S) p). unfold others. lia.
  - intros p pi Hp. destruct (ko_refs _ _ _ _ H p pi Hp) as [E Hlt]. split; [|done].
    rewrite E, (total_delete S e x p Hx). unfold refs, ref_count, others. lia.
Qed.

(** Pages of tables belong to one environment and are not mapped. *)
Lemma table_unique s l L S e1 e2 x1 x2 p :
  kernel_ok s l L S -> S !! e1 = Some x1 -> S !! e2 = Some x2 -> table_of x1 p -> table_of x2 p -> e1 = e2.
Proof.
  intros H H1 H2 Ht1 Ht2. destruct (decide (e1 = e2)) as [|Hne]; [done|].
  pose proof (total_two S e1 e2 x1 x2 p H1 H2 Hne). pose proof (refs_table _ _ Ht1). pose proof (refs_table _ _ Ht2).
  pose proof (ko_own _ _ _ _ H e1 x1 p H1 Ht1). pose proof (ko_kref _ _ _ _ H p). lia.
Qed.

Lemma mapped_no_table s l L S e1 e2 x1 x2 v e :
  kernel_ok s l L S -> S !! e1 = Some x1 -> S !! e2 = Some x2 -> sp_A x1 !! v = Some e -> ~ table_of x2 e.1.
Proof.
  intros H H1 H2 Hv Ht. pose proof (ko_own _ _ _ _ H e2 x2 e.1 H2 Ht) as Ho. pose proof (ko_kref _ _ _ _ H e.1).
  destruct (decide (e1 = e2)) as [->|Hne].
  - rewrite H2 in H1. injection H1 as ->. pose proof (refs_both _ _ _ Hv Ht). pose proof (total_least S e2 x1 e.1 H2). lia.
  - pose proof (total_two S e1 e2 x1 x2 e.1 H1 H2 Hne). pose proof (refs_mapped _ _ _ Hv). pose proof (refs_table _ _ Ht). lia.
Qed.

(** A space only depends on the pages of its tables. *)
Lemma space_wf_tables D s s' pgdir x :
  space_wf D s pgdir (sp_pd x) (sp_T x) (sp_A x) -> npages s' = npages s ->
  (forall f k, table_of x f -> mget (mem s') f k = mget (mem s) f k) ->
  space_wf D s' pgdir (sp_pd x) (sp_T x) (sp_A x).
Proof.
  intros [W1 W2 W3] En Em.
  assert (Et : forall i t k, sp_T x !! i = Some t -> mget (mem s') t k = mget (mem s) t k) by (intros i t k Ht; apply Em; right; eauto).
  constructor.
  - apply (tables_wf_frame D s); [done..|]. intros k. apply Em. by left.
  - intros v e Hv. destruct (W2 v e Hv) as (R1 & R2 & R3 & R4 & t & Ht & Hm). rewrite En.
    do 4 (split; [done|]). exists t. split; [done|]. by rewrite (Et _ _ _ Ht).
  - intros v t Hv Hn Ht. rewrite (Et _ _ _ Ht). by apply W3.
Qed.

(** The destruction of a live environment. *)
Lemma env_free_ok s l L S e v :
  kernel_ok s l L S -> cur_ok s -> envs s !! e = Some v -> env_status v <> ENV_FREE ->
  exists s' l' x, S !! e = Some x /\ env_free e s = (Ret tt, s') /\ npages s' = npages s /\
    kernel_ok s' l' (e :: L) (delete e S) /\ envs s' = <[e := freed_env (env_free_list s) v]> (envs s) /\
    forall f k, ~ table_of x f -> mget (mem s') f k = mget (mem s) f k.
Proof.
  intros H Hc He Hst. destruct (space_at _ _ _ _ _ _ H He Hst) as [x Hx].
  assert (HeL : e ∉ L) by (intros Hin; by apply Hst, (ko_free _ _ _ _ H e v)).
  destruct (env_free_releases s e v _ _ _ l _ L He (kernel_aspace _ _ _ _ _ _ _ H He Hx) Hc (ko_kern _ _ _ _ H)
    (ko_chain _ _ _ _ H) HeL) as (s' & l' & Hrun & Ha & Hr & _ & Ee & Hch & _ & Hm).
  assert (Hkeep : npages s' = npages s /\ kern_pgdir s' = kern_pgdir s).
  { assert (Hst2 : Steady (fun t => npages t = npages s /\ kern_pgdir t = kern_pgdir s)) by by constructor.
    exact (proj1 (ok_env_free (I := fun t => npages t = npages s /\ kern_pgdir t = kern_pgdir s) e s _ _ (conj eq_refl eq_refl) Hrun)). }
  destruct Hkeep as [En Ek].
  assert (Hm' : forall f k, ~ table_of x f -> mget (mem s') f k = mget (mem s) f k).
  { intros f k Hf. apply Hm; [intros ->; apply Hf; by left | intros i Hi; apply Hf; right; eauto]. }
  exists s', l', x. do 3 (split; [done|]). split; [|done]. constructor.
  - done.
  - done.
  - intros e' w Hin. rewrite Ee. apply elem_of_cons in Hin as [->|Hin].
    + rewrite lookup_insert_eq. by intros [= <-].
    + rewrite lookup_insert_ne by (intros ->; done). by apply (ko_free _ _ _ _ H).
  - intros e'. unfold live. rewrite Ee. destruct (decide (e = e')) as [<-|Hne].
    + rewrite lookup_delete_eq, lookup_insert_eq. split; [by intros [? ?] | intros (w & [= <-] & Hw)]. by destruct Hw.
    + rewrite lookup_delete_ne, lookup_insert_ne by done. apply (ko_live _ _ _ _ H).
  - intros e' w y Hw Hy. apply lookup_delete_Some in Hy as [Hne Hy]. rewrite Ee, lookup_insert_ne in Hw by done.
    apply (space_wf_tables _ s); [by apply (ko_space _ _ _ _ H e') | done |]. intros f k Hf. apply Hm'. intros Hf'.
    by apply Hne, (table_unique _ _ _ _ e e' x y f H).
  - intros p pi Hp. rewrite (Hr p pi Hp). split; [done|]. unfold others.
    destruct (proj1 (aw_dom _ _ Ha p) ltac:(by eexists)) as [Hp1 Hp2]. rewrite En in Hp2.
    destruct (proj2 (aw_dom _ _ (ko_alloc _ _ _ _ H) p) (conj Hp1 Hp2)) as [pj Hj].
    destruct (ko_refs _ _ _ _ H p pj Hj) as [E Hlt]. rewrite (total_delete S e x p Hx) in E. pose proof (refs_nonneg x p). lia.
  - apply (ko_kref _ _ _ _ H).
  - intros e' y p Hy Ht. apply lookup_delete_Some in Hy as [Hne Hy]. pose proof (ko_own _ _ _ _ H e' y p Hy Ht) as Ho.
    pose proof (total_two S e e' x y p Hx Hy Hne). pose proof (refs_nonneg x p). pose proof (refs_table _ _ Ht).
    rewrite (total_delete S e x p Hx) in *. pose proof (ko_kref _ _ _ _ H p).
    pose proof (total_least (delete e S) e' y p ltac:(by rewrite lookup_delete_ne)). lia.
  - rewrite Ek. apply (ko_kern _ _ _ _ H).
Qed.

(** What the invariant looks at. *)
Lemma kernel_ok_frame s s' l L S :
  kernel_ok s l L S -> npages s' = npages s -> pages s' = pages s -> page_free_list s' = page_free_list s ->
  mem s' = mem s -> envs s' = envs s -> env_free_list s' = env_free_list s -> kern_pgdir s' = kern_pgdir s ->
  kernel_ok s' l L S.
Proof.
  intros [H1 H2 H3 H4 H5 H6 H7 H8 H9] E1 E2 E3 E4 E5 E6 E7.
  constructor; rewrite ?E2, ?E5, ?E6, ?E7; try done; [by eapply alloc_wf_frame | |].
  - intros e. rewrite H4. unfold live. by rewrite E5.
  - intros e v x He Hx. eapply space_wf_frame; [by eapply H5 | done | done].
Qed.

(** A change of an environment that keeps its directory, its link and whether it is free. *)
Definition soft (v w : Env) : Prop :=
  env_pgdir w = env_pgdir v /\ env_link w = env_link v /\ (env_status w = ENV_FREE <-> env_status v = ENV_FREE).

Lemma kernel_ok_env s l L S e v w :
  kernel_ok s l L S -> envs s !! e = Some v -> soft v w -> kernel_ok (set_envs (<[e := w]> (envs s)) s) l L S.
Proof.
  intros [H1 H2 H3 H4 H5 H6 H7 H8 H9] He (S1 & S2 & S3).
  constructor; cbn [envs pages npages mem env_free_list kern_pgdir set_envs]; try done.
  - by eapply alloc_wf_frame.
  - eapply env_chain_same_link; [done..|]. done.
  - intros e' u Hin. rewrite lookup_insert. case_decide; [|by apply H3]. subst e'. intros [= <-]. apply S3. by eapply H3.
  - intros e'. rewrite H4. unfold live. cbn [envs set_envs]. rewrite lookup_insert. case_decide; [|done]. subst e'.
    split; intros (u & Hu & Hs); eexists; (split; [done|]); simplify_eq; tauto.
  - intros e' u x Hu Hx. apply (space_wf_frame _ s); [|done|done]. revert Hu. rewrite lookup_insert. case_decide; [|intros; by eapply H5].
    subst e'. intros [= <-]. rewrite S1. by apply (H5 e).
Qed.

(** A store to a page that an environment has mapped. *)
Lemma kernel_ok_store s l L S f k w e x v fl :
  kernel_ok s l L S -> S !! e = Some x -> sp_A x !! v = Some (f, fl) -> kernel_ok (set_mem (mset (mem s) f k w) s) l L S.
Proof.
  intros H Hx Hv. assert (H' := H). destruct H' as [H1 H2 H3 H4 H5 H6 H7 H8 H9].
  constructor; cbn [envs pages npages mem env_free_list kern_pgdir set_mem]; try done.
  - by eapply alloc_wf_frame.
  - intros e' u y Hu Hy. apply (space_wf_tables _ s); [by eapply H5 | done|]. intros f' k' Hf. cbn [mem set_mem].
    rewrite mget_mset_ne; [done|]. left. intros ->. exact (mapped_no_table _ _ _ _ e e' x y v (f', fl) H Hx Hy Hv Hf).
Qed.

End Invariant.
