(* ===== verification/KernelSafe.v ===== *)
(** * KernelSafe: computations that keep an invariant of the kernel

    A logic of triples for kernel code: [safe_from ev P m Q] says that [m], run
    from a state with [P], returns in a state with [Q], and that [ev] holds
    when it does not return.  The conditions of interest look at the memory
    management and the environments only ([Grounded], [Light]), so the rules
    follow the structure of the code, the more interesting steps apart. *)

From S2P Require Import Prelude Machine CString Printfmt Hardware Console Kernel KernelProps Spinlock Pmap PageAlloc.
From S2P Require Import PageTable UserMem Env EnvProps Sched Syscall Trap KernelExit TrapUser KernelInv.

(** ** What the conditions look at *)

(** Changes of an environment that leave its space and its names alone. *)
Definition mild (v w : Env) : Prop :=
  soft v w /\ env_id w = env_id v /\ env_parent_id w = env_parent_id v.

(** What these properties look at. *)
Record same (s s' : kstate) : Prop := mkSame {
  sa_npages : npages s' = npages s;
  sa_pages : pages s' = pages s;
  sa_free : page_free_list s' = page_free_list s;
  sa_mem : mem s' = mem s;
  sa_envs : envs s' = envs s;
  sa_env_free : env_free_list s' = env_free_list s;
  sa_kern : kern_pgdir s' = kern_pgdir s;
}.

Lemma live_env s e v w e' :
  live s e' -> envs s !! e = Some v -> mild v w -> live (set_envs (<[e := w]> (envs s)) s) e'.
Proof.
  intros (u & Hu & Hs) He ((_ & _ & Hf) & _). unfold live. cbn [envs set_envs]. rewrite lookup_insert.
  case_decide; [|by exists u]. subst e'. exists w. split; [done|]. simplify_eq. tauto.
Qed.

(** Conditions that hold wherever the kernel may stop. *)
Class Grounded (ev : kstate -> Prop) := {
  gr_same : forall s s', ev s -> same s s' -> ev s';
  gr_env : forall s e v w, ev s -> envs s !! e = Some v -> mild v w -> ev (set_envs (<[e := w]> (envs s)) s);
}.

(** Conditions that kernel code keeps when it does not switch environments. *)
Class LightFor (ev P : kstate -> Prop) := {
  lt_ev : forall s, P s -> ev s;
  lt_same : forall s s', P s -> same s s' -> curenv s' = curenv s -> cr3 s' = cr3 s -> P s';
  lt_env : forall s e v w, P s -> envs s !! e = Some v -> mild v w -> P (set_envs (<[e := w]> (envs s)) s);
}.

(** Environment [e] is live; and it is the current one. *)
Definition lively (ev : kstate -> Prop) (e : Z) (s : kstate) : Prop := ev s /\ live s e.
Definition running_in (ev : kstate -> Prop) (c : Z) (s : kstate) : Prop := lively ev c s /\ curenv s = Some c.

Section Conditions.

Context {ev : kstate -> Prop} `{!Grounded ev}.

#[export] Instance Light_grounded : LightFor ev ev.
Proof.
  constructor; [done | intros s s' H1 Hs _ _; by eapply gr_same | intros; by eapply gr_env].
Qed.

#[export] Instance Light_lively e : LightFor ev (lively ev e).
Proof.
  constructor.
  - by intros s [H _].
  - intros s s' [H1 (v & H2 & H3)] Hs _ _. split; [by eapply gr_same|]. exists v. by rewrite (sa_envs _ _ Hs).
  - intros s e' v w [H1 H2] He Hm. split; [by eapply gr_env | by eapply live_env].
Qed.

#[export] Instance Light_running c : LightFor ev (running_in ev c).
Proof.
  constructor.
  - by intros s [[H _] _].
  - intros s s' [H1 H2] Hs Hc H3. split; [by eapply (lt_same (P := lively ev c)) | by rewrite Hc].
  - intros s e' v w [H1 H2] He Hm. split; [by eapply (lt_env (P := lively ev c)) | done].
Qed.

End Conditions.

(** ** Triples *)

Definition safe_from (ev : kstate -> Prop) {A} (P : kstate -> Prop) (m : K A) (Q : A -> kstate -> Prop) : Prop :=
  forall s o s', P s -> m s = (o, s') -> match o with Ret a => Q a s' | Stop _ => ev s' end.
Definition inv_from (ev : kstate -> Prop) {A} (P : kstate -> Prop) (m : K A) : Prop := safe_from ev P m (fun _ => P).

Section Triples.

Context {ev : kstate -> Prop}.
#[local] Abbreviation safe := (safe_from ev).

Lemma safe_bind {A B} P (m : K A) (f : A -> K B) Q R :
  safe P m Q -> (forall a, safe (Q a) (f a) R) -> safe P (m ≫= f) R.
Proof.
  intros Hm Hf s o s' HP. unfold mbind, K_bind. destruct (m s) as [[a|r] s1] eqn:E.
  - intros Hrun. exact (Hf a _ _ _ (Hm _ _ _ HP E) Hrun).
  - intros [= <- <-]. exact (Hm _ _ _ HP E).
Qed.

Lemma safe_pre {A} (P P' : kstate -> Prop) (m : K A) Q : (forall s, P s -> P' s) -> safe P' m Q -> safe P m Q.
Proof. intros H Hm s o s' HP. apply Hm, H, HP. Qed.

Lemma safe_post {A} P (m : K A) (Q Q' : A -> kstate -> Prop) : safe P m Q -> (forall a s, Q a s -> Q' a s) -> safe P m Q'.
Proof. intros Hm H s [a|r] s' HP Hrun; [apply H; exact (Hm _ _ _ HP Hrun) | exact (Hm _ _ _ HP Hrun)]. Qed.

Lemma safe_deref {A B} P (x : A) (f : A -> K B) Q : safe P (f x) Q -> safe P (deref (Some x) ≫= f) Q.
Proof. done. Qed.

Lemma get_here {A} c P (f : kstate -> K A) Q :
  (forall s, P s -> curenv s = Some c) -> (forall s, curenv s = Some c -> safe P (f s) Q) -> safe P (s ← get; f s) Q.
Proof. intros HP Hf s o s' H. kgo get_eq. exact (Hf s (HP s H) s o s' H). Qed.

End Triples.

Section Reads.

Lemma env_get_none s e : envs s !! e = None -> env_get e s = (Stop (SFault e), s).
Proof. unfold env_get. by intros ->. Qed.

(** A computation that only reads. *)
Definition reads {A} (m : K A) : Prop := forall s, exists o, m s = (o, s).

Lemma reads_bind {A B} (m : K A) (f : A -> K B) : reads m -> (forall a, reads (f a)) -> reads (m ≫= f).
Proof. intros Hm Hf s. unfold mbind, K_bind. destruct (Hm s) as [[a|r] ->]; [apply Hf | eauto]. Qed.

Lemma reads_result {A} (m : K A) s o s' : reads m -> m s = (o, s') -> s' = s.
Proof. intros Hm. destruct (Hm s) as [o' ->]. congruence. Qed.

Lemma reads_PADDR a : reads (PADDR a).
Proof. intros s. unfold PADDR. case_match; by eexists. Qed.
Lemma reads_KADDR a : reads (KADDR a).
Proof. intros s. unfold KADDR. rewrite (bind_Ret _ _ _ _ _ (get_eq s)). case_match; by eexists. Qed.
Lemma reads_kload a : reads (kload a).
Proof. intros s. unfold kload. case_match; by eexists. Qed.
Lemma reads_env_get e : reads (env_get e).
Proof. intros s. unfold env_get. case_match; by eexists. Qed.
Lemma reads_ret {A} (a : A) : reads (mret a).
Proof. intros s. by eexists. Qed.
Lemma reads_read_user n va : reads (read_user n va).
Proof. intros s. destruct (read_user_ret n va s) as [l ->]. by eexists. Qed.

Lemma reads_walk d va : reads (pgdir_walk d va 0).
Proof.
  apply reads_bind; [apply reads_kload|]. intros w. case_match; [|by apply reads_ret].
  apply reads_bind; [apply reads_KADDR|]. intros. apply reads_ret.
Qed.

Lemma reads_envid2env id check : reads (envid2env id check).
Proof.
  apply reads_bind; [intros s; by eexists|]. intros s. case_match; [apply reads_ret|]. cbv zeta.
  apply reads_bind; [apply reads_env_get|]. intros v. case_match; [apply reads_ret|]. case_match; [|apply reads_ret].
  apply reads_bind; [intros s1; destruct (curenv s); by eexists|]. intros c.
  apply reads_bind; [apply reads_env_get|]. intros u. case_match; apply reads_ret.
Qed.

(** [envid2env] finds a live environment, and with [checkperm] the current one or a child. *)
Lemma envid2env_result c id check s o s' :
  curenv s = Some c -> live s c -> envid2env id check s = (o, s') ->
  s' = s /\ match o with
           | Ret r => (r.1 <? 0) = false -> exists e, r.2 = Some e /\ live s e /\ (check = true -> e = c \/ parent s c e)
           | Stop _ => True
           end.
Proof.
  intros Hcur Hlc Hrun. split; [exact (reads_result _ _ _ _ (reads_envid2env id check) Hrun)|]. revert Hrun.
  unfold envid2env. kgo get_eq. rewrite Hcur. destruct (id =? 0).
  { intros [= <- _] _. exists c. split; [done|]. split; [done|]. by left. }
  set (e := ENVX id). destruct (envs s !! e) as [v|] eqn:He; [|rewrite (bind_Stop _ _ _ _ _ (env_get_none _ _ He)); by intros [= <- _]].
  kgo (env_get_eq _ _ _ He). case_bool_decide as Hst; [by intros [= <- _]|]. cbn [orb].
  destruct (negb (env_id v =? id)); [by intros [= <- _]|]. assert (Hl : live s e) by (by exists v).
  destruct check; cbn [andb]; [|intros [= <- _] _; by exists e].
  case_bool_decide as Ec; cbn [negb]; [intros [= <- _] _; exists e; injection Ec as <-; split; [done | split; [done | by left]]|].
  unfold deref. erewrite bind_Ret; [|reflexivity]. destruct Hlc as (u & Hu & _). kgo (env_get_eq _ _ _ Hu).
  destruct (Z.eqb_spec (env_parent_id v) (env_id u)) as [Ep|]; cbn [negb]; intros [= <- _]; [|done]. intros _. exists e.
  split; [done|]. split; [done|]. intros _. right. by exists u, v.
Qed.

End Reads.

Section Inv.

Context {ev P : kstate -> Prop} `{!LightFor ev P}.
#[local] Abbreviation inv := (inv_from ev).

Lemma inv_bind {A B} (m : K A) (f : A -> K B) : inv P m -> (forall a, inv P (f a)) -> inv P (m ≫= f).
Proof. intros Hm Hf. eapply safe_bind; [exact Hm | exact Hf]. Qed.

Lemma inv_reads {A} (m : K A) : reads m -> inv P m.
Proof.
  intros Hm s o s' HP E. rewrite (reads_result _ _ _ _ Hm E). destruct o; [done | by apply lt_ev].
Qed.

Lemma inv_ret {A} (a : A) : inv P (mret a).
Proof. apply inv_reads, reads_ret. Qed.
Lemma inv_skip : inv P skip.
Proof. apply inv_ret. Qed.
Lemma inv_get : inv P get.
Proof. apply inv_reads. intros s. by eexists. Qed.
Lemma inv_halt {A} r : inv P (@halt A r).
Proof. apply inv_reads. intros s. by eexists. Qed.
Lemma inv_panic {A} m : inv P (@panic A m).
Proof. apply inv_halt. Qed.
Lemma inv_when b m : inv P m -> inv P (when b m).
Proof. destruct b; [done | intros; apply inv_skip]. Qed.
Lemma inv_assert b t : inv P (assert_ b t).
Proof. destruct b; [apply inv_skip | apply inv_panic]. Qed.
Lemma inv_deref {A} (p : option A) : inv P (deref p).
Proof. destruct p; [apply inv_ret | apply inv_halt]. Qed.

Lemma inv_modify f :
  (forall s, same s (f s) /\ curenv (f s) = curenv s /\ cr3 (f s) = cr3 s) -> inv P (modify f).
Proof.
  intros Hf s o s' HP [= <- <-]. destruct (Hf s) as (H1 & H2 & H3). by apply (lt_same s).
Qed.

Lemma inv_cprintf f a : inv P (cprintf f a).
Proof.
  intros s o s' HP. unfold cprintf. case_match; [case_match|]; intros [= <- <-]; [by apply (lt_same s) | by apply lt_ev].
Qed.

Lemma inv_check a : inv P (modify (set_user_mem_check_addr a)).
Proof. by apply inv_modify. Qed.
Lemma inv_lock l : inv P (modify (set_kernel_lock l)).
Proof. by apply inv_modify. Qed.
Lemma inv_last_tf p : inv P (hw_update (set_last_tf p)).
Proof. by apply inv_modify. Qed.
Lemma inv_cpu_status st : inv P (set_thiscpu (set_cpu_status st)).
Proof.
  apply inv_modify. intros s. split; [done|]. split; [|done]. unfold curenv, thiscpu at 1. cbn [cpus this_cpu set_cpus].
  by rewrite lookup_insert_eq.
Qed.

Lemma inv_env_update e f : (forall v, mild v (f v)) -> inv P (env_update e f).
Proof.
  intros Hf s o s' HP. unfold env_update. destruct (envs s !! e) as [v|] eqn:He; intros [= <- <-]; [|by apply lt_ev].
  by apply (lt_env s e v).
Qed.

End Inv.

Create HintDb jos_inv.
#[export] Hint Constants Opaque : jos_inv.
#[export] Hint Extern 3 (LightFor _ _) => typeclasses eauto : jos_inv.
#[export] Hint Resolve inv_ret inv_skip inv_get inv_halt inv_panic inv_assert inv_deref inv_cprintf inv_check inv_lock
  inv_last_tf inv_cpu_status : jos_inv.
#[export] Hint Extern 1 (inv_from _ _ (env_get _)) => apply inv_reads, reads_env_get : jos_inv.
#[export] Hint Extern 1 (inv_from _ _ (kload _)) => apply inv_reads, reads_kload : jos_inv.
#[export] Hint Extern 1 (inv_from _ _ (PADDR _)) => apply inv_reads, reads_PADDR : jos_inv.
#[export] Hint Extern 1 (inv_from _ _ (pgdir_walk _ _ 0)) => apply inv_reads, reads_walk : jos_inv.
#[export] Hint Extern 1 (inv_from _ _ (read_user _ _)) => apply inv_reads, reads_read_user : jos_inv.
#[export] Hint Extern 1 (inv_from _ _ (env_update _ _)) => apply inv_env_update; by intros ? : jos_inv.

(** Follows the structure of the code. *)
Ltac inv_step :=
  match goal with
  | |- inv_from _ _ (mbind _ _) => apply inv_bind; [|intros ?]
  | |- inv_from _ _ (when _ _) => apply inv_when
  | |- inv_from _ _ (match ?x with _ => _ end) => destruct x
  | |- inv_from _ _ _ => solve [eauto 2 with jos_inv]
  end.
Ltac inv_code := repeat (cbv zeta; inv_step).

(** ** Code that stays with its environment *)

Section Staying.

Context {ev P : kstate -> Prop} `{!LightFor ev P}.
#[local] Abbreviation inv := (inv_from ev).

Lemma inv_spin_lock : inv P lock_kernel.
Proof. unfold lock_kernel, spin_lock. inv_code. Qed.
Lemma inv_spin_unlock : inv P unlock_kernel.
Proof. unfold unlock_kernel, spin_unlock. inv_code. Qed.
Lemma inv_getenvid : inv P sys_getenvid.
Proof. unfold sys_getenvid. inv_code. Qed.
Lemma inv_tf_read tf p : inv P (tf_read tf p).
Proof. unfold tf_read. inv_code. Qed.
Lemma inv_tf_write p f : inv P (tf_write p f).
Proof. unfold tf_write. inv_code. Qed.
Hint Resolve inv_spin_lock inv_spin_unlock inv_getenvid inv_tf_read : jos_inv.

Lemma inv_print_regs r : inv P (print_regs r).
Proof. unfold print_regs. inv_code. Qed.
Hint Resolve inv_print_regs : jos_inv.

Lemma inv_print_trapframe tf p : inv P (print_trapframe tf p).
Proof. unfold print_trapframe. inv_code. Qed.

Lemma inv_check_loop n e start end_ perm : inv P (user_mem_check_loop n e start end_ perm).
Proof. revert start. induction n as [|n IH]; intros start; cbn [user_mem_check_loop]; [apply inv_halt|]. inv_code. Qed.

Lemma inv_user_mem_check e va len perm : inv P (user_mem_check e va len perm).
Proof. apply inv_check_loop. Qed.

Lemma inv_sys_cgetc fuel : inv P (sys_cgetc fuel).
Proof.
  intros s o s' HP. unfold sys_cgetc. case_match; [case_match|]; intros [= <- <-]; [by apply (lt_same s) | by apply lt_ev].
Qed.

End Staying.

#[export] Hint Resolve inv_spin_lock inv_spin_unlock inv_getenvid inv_tf_read inv_tf_write inv_print_regs inv_print_trapframe
  inv_user_mem_check inv_sys_cgetc : jos_inv.

(** ** Switching environments *)

Section Switching.

Context {ev : kstate -> Prop} `{!Grounded ev}.
#[local] Abbreviation safe := (safe_from ev).
#[local] Abbreviation inv := (inv_from ev).
#[local] Abbreviation lively := (lively ev).

Lemma mild_status v st : env_status v <> ENV_FREE -> st <> ENV_FREE -> mild v (set_env_status st v).
Proof. intros H1 H2. split; [|done]. split; [done|]. split; [done|]. by split; intros H. Qed.

Lemma inv_set_status P `{!LightFor ev P} e st :
  (forall s, P s -> live s e) -> st <> ENV_FREE -> inv P (env_update e (set_env_status st)).
Proof.
  intros Hl Hst s o s' HP. unfold env_update. destruct (Hl s HP) as (v & He & Hs). rewrite He. intros [= <- <-].
  by apply (lt_env (P := P) s e v), mild_status.
Qed.

(** User mode is entered in environment [e]. *)
Lemma safe_env_run {A} e Q : safe (lively e) (@env_run A e) Q.
Proof.
  assert (Hsame : forall f, (forall s, same s (f s)) -> inv (lively e) (modify f)).
  { intros f Hf s o s' [H1 (v & H2)] [= <- <-]. split; [by eapply gr_same|]. exists v. by rewrite (sa_envs _ _ (Hf s)). }
  assert (Hrun : inv (lively e) (env_update e (set_env_status ENV_RUNNING))) by (apply inv_set_status; [by apply Light_lively | by intros s [_ H] | done]).
  assert (Hdemote : forall c, inv (lively e) (v ← env_get c;
    when (bool_decide (env_status v = ENV_RUNNING)) (env_update c (set_env_status ENV_RUNNABLE)))).
  { intros c s o s' HP. unfold env_get, mbind, K_bind. destruct (envs s !! c) as [v|] eqn:He; [|intros [= <- <-]; apply HP].
    case_bool_decide as Hs; cbn [when]; [|by intros [= <- <-]]. rewrite (env_update_eq _ _ _ _ He). intros [= <- <-].
    apply (lt_env (P := lively e) s c v); [done | done|]. by apply mild_status; rewrite ?Hs. }
  assert (Hw : forall Q', inv (lively e) (@env_run A e) -> safe (lively e) (@env_run A e) Q').
  { intros Q' H s [a|r] s' HP E; [|exact (H _ _ _ HP E)]. destruct (@never_env_run A e s) as (r & s1 & E'). congruence. }
  apply Hw. unfold env_run. apply inv_bind; [apply inv_get|]. intros s.
  apply inv_bind; [destruct (curenv s); [apply Hdemote | apply inv_skip]|]. intros _.
  apply inv_bind; [by apply Hsame|]. intros _. apply inv_bind; [exact Hrun|]. intros _.
  apply inv_bind; [apply inv_env_update; by intros v|]. intros _. apply inv_bind; [apply inv_reads, reads_env_get|]. intros v.
  apply inv_bind; [apply inv_reads, reads_PADDR|]. intros pa. apply inv_bind; [by apply Hsame|]. intros _.
  unfold env_pop_tf. inv_code.
Qed.

(** An environment that may run is live. *)
Lemma safe_run_if {A} st e (els : K A) Q :
  st <> ENV_FREE -> safe ev els Q ->
  safe ev (v ← env_get e; if bool_decide (env_status v = st) then env_run e else els) Q.
Proof.
  intros Hst Hels s o s' HP. unfold env_get, mbind at 1, K_bind at 1. destruct (envs s !! e) as [v|] eqn:He; [|by intros [= <- <-]].
  case_bool_decide as Hs; [|by apply Hels]. apply safe_env_run. split; [done|]. exists v. by rewrite Hs.
Qed.

Lemma safe_sched_loop n ptr : safe ev (sched_loop n ptr) (fun _ => ev).
Proof.
  revert ptr. induction n as [|n IH]; intros ptr; cbn [sched_loop]; [by intros s o s' HP [= <- <-]|]. cbv zeta.
  set (p := if NENV <=? ptr then 1 else ptr). intros s o s' HP.
  assert (E : (v ← env_get p; when (bool_decide (env_status v = ENV_RUNNABLE)) (env_run p) ;; sched_loop n (p + 1)) s
    = (v ← env_get p; if bool_decide (env_status v = ENV_RUNNABLE) then env_run p else sched_loop n (p + 1)) s).
  { unfold env_get, mbind at 1 3, K_bind at 1 3. destruct (envs s !! p) as [v|]; [|done]. case_bool_decide; [|done]. cbn [when].
    destruct (@never_env_run unit p s) as (r & s1 & E1). unfold mbind, K_bind. by rewrite E1. }
  rewrite E. by apply safe_run_if.
Qed.

Lemma safe_sched_yield {A} Q : safe ev (@sched_yield A) Q.
Proof.
  unfold sched_yield. eapply safe_bind; [apply (inv_get (P := ev))|]. intros s.
  eapply safe_bind; [apply safe_sched_loop|]. intros ?. apply safe_run_if; [done|].
  eapply safe_bind; [apply (inv_cprintf (P := ev))|]. intros ?. by intros s1 o s' HP [= <- <-].
Qed.

Lemma safe_give_up {A} Q : safe ev (set_curenv None ;; @sched_yield A) Q.
Proof.
  eapply safe_bind with (Q := fun _ => ev); [|intros ?; apply safe_sched_yield].
  intros s o s' H [= <- <-]. by apply (gr_same s).
Qed.

End Switching.
