(* ===== verification/Isolation.v ===== *)
(** * Isolation: what a trap of one environment can do to the others

    The invariant of the whole kernel ([kernel_ok] of KernelInv.v) along the
    handler of kern/trap.c and everything it calls: whatever user code puts
    into its registers, a trap destroys no environment but its own and its
    children, keeps the address spaces of all others as they are, and writes
    to memory only where its own environment could write. *)

From S2P Require Import Prelude Machine CString Printfmt Hardware Console Kernel KernelProps Spinlock Pmap PageAlloc.
From S2P Require Import PageTable Example UserMem PtProps Env EnvProps EnvAlloc EnvFree Sched Syscall SyscallProps.
From S2P Require Import Trap KernelExit TrapUser UserFault SysCputs KernelInv KernelSafe.

(** ** What may change *)

Section Isolation.

(** The kernel's references, the state and the spaces when the trap comes,
    and the environment that traps. *)
Context (kref : Z -> Z) (s0 : kstate) (S0 : gmap Z space) (c0 : Z).

Definition may_destroy (e : Z) : Prop := e = c0 \/ parent s0 c0 e.

(** From [s0] with spaces [S0], the kernel came to [s] with spaces [S]. *)
Record evolved_to (s : kstate) (l L : list Z) (S : gmap Z space) : Prop := mkEvolved {
  ev_ok : kernel_ok kref s l L S;
  ev_sub : S ⊆ S0;
  ev_gone : forall e, is_Some (S0 !! e) -> S !! e = None -> may_destroy e;
  ev_mem : forall f k, (forall x, S0 !! c0 = Some x -> ~ writable x f) ->
    (forall e x, S0 !! e = Some x -> S !! e = None -> ~ table_of x f) ->
    mget (mem s) f k = mget (mem s0) f k;
  ev_names : forall e v, envs s !! e = Some v -> exists v0, envs s0 !! e = Some v0 /\
    env_id v = env_id v0 /\ env_parent_id v = env_parent_id v0;
}.

Definition evolved (s : kstate) : Prop := exists l L S, evolved_to s l L S.

(** Environment [c0] is still the current one; and its directory is loaded. *)
#[local] Abbreviation lively := (KernelSafe.lively evolved).
#[local] Abbreviation here := (running_in evolved c0).
Definition inside (s : kstate) : Prop := here s /\ exists x, S0 !! c0 = Some x /\ cr3 s = 4096 * sp_pd x.

Lemma evolved_same s s' : same s s' -> evolved s -> evolved s'.
Proof.
  intros [E1 E2 E3 E4 E5 E6 E7] (l & L & S & [H1 H2 H3 H4 H5]). exists l, L, S.
  constructor; [by eapply kernel_ok_frame | done | done | by rewrite E4 | by rewrite E5].
Qed.

Lemma evolved_env s e v w :
  evolved s -> envs s !! e = Some v -> mild v w -> evolved (set_envs (<[e := w]> (envs s)) s).
Proof.
  intros (l & L & S & [H1 H2 H3 H4 H5]) He (Hs & Hi & Hp). exists l, L, S.
  constructor; [by eapply kernel_ok_env | done | done | done |].
  cbn [envs set_envs]. intros e' u. rewrite lookup_insert. case_decide; [|apply H5].
  subst e'. intros [= <-]. rewrite Hi, Hp. by apply H5.
Qed.

#[local] Instance Grounded_evolved : Grounded evolved.
Proof. constructor; [intros s s' H1 H2; by eapply evolved_same | intros; by eapply evolved_env]. Qed.

#[local] Abbreviation safe := (safe_from evolved).
#[local] Abbreviation inv := (inv_from evolved).
#[local] Abbreviation Light := (LightFor evolved).

#[local] Instance Light_inside : Light inside.
Proof.
  constructor.
  - by intros s [[[H _] _] _].
  - intros s s' [H1 H2] Hs Hc H3. split; [by eapply lt_same | by rewrite H3].
  - intros s e' v w [H1 H2] He Hm. split; [by eapply lt_env | done].
Qed.

(** ** Destruction *)

#[local] Instance Steady_cur c : Steady (fun s => curenv s = Some c).
Proof. by constructor. Qed.

Lemma evolved_free s e :
  evolved s -> cur_ok s -> live s e -> may_destroy e ->
  exists s', env_free e s = (Ret tt, s') /\ evolved s' /\ (forall e', e' <> e -> live s e' -> live s' e').
Proof.
  intros (l & L & S & [H1 H2 H3 H4 H5]) Hc (v & He & Hs) Hd.
  destruct (env_free_ok kref s l L S e v H1 Hc He Hs) as (s' & l' & x & Hx & Hrun & _ & Hk & Ee & Hm).
  exists s'. split; [done|]. split.
  - exists l', (e :: L), (delete e S). constructor; [done | | | |].
    + etrans; [apply delete_subseteq | done].
    + intros e' He' Hn. apply lookup_delete_None in Hn as [<-|Hn]; [done | by apply H3].
    + intros f k Hw Ht. assert (Hx0 := lookup_weaken _ _ _ _ Hx H2).
      rewrite Hm; [apply H4; [done|]|].
      * intros e' y Hy Hn. apply (Ht e' y Hy). apply lookup_delete_None. by right.
      * apply (Ht e x Hx0), lookup_delete_eq.
    + intros e' w. rewrite Ee. rewrite lookup_insert. case_decide; [|apply H5]. subst e'. intros [= <-]. exact (H5 e v He).
  - intros e' Hne (w & Hw & Hws). exists w. by rewrite Ee, lookup_insert_ne.
Qed.

(** An environment the current one may destroy. *)
Definition target (e : Z) (s : kstate) : Prop := here s /\ live s e /\ may_destroy e.

#[local] Instance Light_target e : Light (target e).
Proof.
  constructor.
  - by intros s [[[H _] _] _].
  - intros s s' (H1 & (v & H2) & H3) Hs Hc H4. split; [by eapply lt_same|]. split; [|done]. exists v. by rewrite (sa_envs _ _ Hs).
  - intros s e' v w (H1 & H2 & H3) He Hm. split; [by eapply lt_env | split; [by eapply live_env | done]].
Qed.

Lemma here_target s : here s -> target c0 s.
Proof. intros H. split; [done|]. split; [apply H | by left]. Qed.

Lemma safe_env_destroy e : safe (target e) (env_destroy e) (fun _ => here).
Proof.
  intros s o s' (Hh & Hl & Hd). assert (Hh' := Hh). destruct Hh' as [[Hev (v0 & Hv0 & _)] Hcur]. assert (Hl' := Hl).
  destruct Hl' as (v & He & Hst).
  unfold env_destroy. kgo get_eq. kgo (env_get_eq _ _ _ He). destruct (_ && _) eqn:Eb.
  - apply andb_true_iff in Eb as [Er%bool_decide_eq_true _]. rewrite (env_update_eq _ _ _ _ He). intros [= <- <-].
    apply (lt_env (P := here) s e v); [done | done | by apply mild_status].
  - clear Eb. destruct (evolved_free s e Hev) as (s1 & Hrun & Hev1 & Hlive); [|done|done|].
    { intros c. rewrite Hcur. intros [= <-]. by exists v0. }
    destruct (ok_env_free (I := fun s => curenv s = Some c0) e s _ _ Hcur Hrun) as [Hc1 _].
    kgo Hrun. kgo get_eq. rewrite Hc1. case_bool_decide as Ec.
    + exact (safe_give_up (fun _ => here) s1 o s' Hev1).
    + intros [= <- <-]. split; [|done]. split; [done|]. apply Hlive; [congruence | apply Hh].
Qed.

(** The current environment does not survive its own destruction. *)
Lemma safe_destroy_self Q : safe here (env_destroy c0) Q.
Proof.
  intros s o s' Hh Hrun. destruct (env_destroy_current s c0 (proj2 Hh)) as (r & s1 & E).
  assert (H := safe_env_destroy c0 s o s' (here_target s Hh) Hrun). rewrite E in Hrun. by injection Hrun as <- <-.
Qed.

Lemma inv_destroy_self P : (forall s, P s -> here s) -> inv P (env_destroy c0).
Proof. intros H. apply (safe_pre P here); [done | apply safe_destroy_self]. Qed.

Lemma inv_user_mem_assert P va len perm :
  Light P -> (forall s, P s -> here s) -> inv P (user_mem_assert c0 va len perm).
Proof.
  intros HL HP. unfold user_mem_assert. apply inv_bind; [by apply inv_user_mem_check|]. intros r.
  destruct (r <? 0); [|by apply inv_skip]. inv_code. by apply inv_destroy_self.
Qed.

(** ** System calls *)

Lemma safe_envid2env id :
  safe here (envid2env id true) (fun r s => here s /\ ((r.1 <? 0) = false -> exists e, r.2 = Some e /\ target e s)).
Proof.
  intros s o s' Hh Hrun. destruct (envid2env_result c0 id true s o s' (proj2 Hh) (proj2 (proj1 Hh)) Hrun) as [-> Hr].
  destruct o as [r|]; [|apply Hh]. split; [done|]. intros Hpos. destruct (Hr Hpos) as (e & He & Hl & Hd). exists e.
  split; [done|]. split; [done|]. split; [done|]. destruct (Hd eq_refl) as [->|(u & v & Hu & Hv & Ep)]; [by left | right].
  destruct (proj1 (proj1 Hh)) as (l & L & S & H). destruct (ev_names _ _ _ _ H e v Hv) as (v1 & Hv1 & _ & Hp1).
  destruct (ev_names _ _ _ _ H c0 u Hu) as (u1 & Hu1 & Hi1 & _). exists u1, v1. split; [done|]. split; [done|]. congruence.
Qed.

Lemma inv_sys_env_destroy id : inv here (sys_env_destroy id).
Proof.
  unfold sys_env_destroy. eapply safe_bind; [apply safe_envid2env|]. intros [r e]. cbn [fst snd].
  destruct (r <? 0); [by intros s o s' [H _] [= <- <-]|]. intros s o s' [Hh Ht]. destruct (Ht eq_refl) as (e' & -> & Ht').
  revert Hh Ht. intros _ _. revert s o s' Ht'. change (safe (target e') (s ← get; id ← sys_getenvid;
    (if bool_decide (Some e' = curenv s) then cprintf "[%08x] exiting gracefully\n" [VInt id]
     else e ← deref (Some e'); v ← env_get e; cprintf "[%08x] destroying %08x\n" [VInt id; VInt (env_id v)]) ;;
    e ← deref (Some e'); env_destroy e ;; mret 0) (fun _ => here)).
  eapply safe_bind; [apply (inv_get (P := target e'))|]. intros s.
  eapply safe_bind; [apply (inv_getenvid (P := target e'))|]. intros i.
  eapply safe_bind with (Q := fun _ => target e').
  { change (inv (target e') (if bool_decide (Some e' = curenv s) then cprintf "[%08x] exiting gracefully\n" [VInt i]
     else e ← deref (Some e'); v ← env_get e; cprintf "[%08x] destroying %08x\n" [VInt i; VInt (env_id v)])). inv_code. }
  intros _. unfold deref. eapply safe_bind with (Q := fun x s => x = e' /\ target e' s); [by intros t o t' Ht [= <- <-]|].
  intros x. eapply safe_bind with (Q := fun _ => here); [intros t o t' [-> Ht]; by apply safe_env_destroy|].
  intros _. apply (inv_ret (P := here)).
Qed.

Lemma safe_sys_cputs va len : inv here (sys_cputs va len).
Proof.
  unfold sys_cputs. eapply safe_bind with (Q := fun a s => a = s /\ here s); [by intros s o s' H [= <- <-]|].
  intros a s o s' [-> Hh]. rewrite (proj2 Hh). unfold deref. erewrite bind_Ret; [|reflexivity]. revert s o s' Hh.
  match goal with |- forall s o s', _ -> ?m s = _ -> _ => change (inv here m) end.
  apply inv_bind; [by apply inv_user_mem_assert; [apply Light_running|]|]. intros _.
  apply inv_bind; [apply inv_reads, reads_read_user|]. intros [l f]. inv_code.
Qed.
Hint Resolve inv_sys_env_destroy safe_sys_cputs : jos_inv.

Lemma inv_syscall fuel n a1 a2 a3 a4 a5 : inv here (syscall fuel n a1 a2 a3 a4 a5).
Proof. unfold syscall. inv_code. Qed.

(** ** Stores through the page tables of the environment *)

Lemma inside_space s : inside s -> exists l L S x v, evolved_to s l L S /\ S0 !! c0 = Some x /\ S !! c0 = Some x /\
  envs s !! c0 = Some v /\ cr3 s = 4096 * sp_pd x.
Proof.
  intros ([[(l & L & S & H) Hl] _] & x & Hx & H3).
  destruct (proj2 (ko_live _ _ _ _ _ (ev_ok _ _ _ _ H) c0) Hl) as [y Hy].
  assert (E := lookup_weaken _ _ _ _ Hy (ev_sub _ _ _ _ H)). rewrite Hx in E. injection E as <-.
  destruct Hl as (v & Hv & _). by exists l, L, S, x, v.
Qed.

Lemma inside_store s va pa q w :
  inside s -> 0 <= va < UTOP -> mmu_walk (mem s) (cr3 s) va true = Some pa -> q / 4096 = pa / 4096 ->
  inside (set_mem (mstore (mem s) q w) s).
Proof.
  intros Hin Hva Hw Hq. destruct (inside_space s Hin) as (l & L & S & x & v & [H1 H2 H3 H4 H5] & Hx0 & Hx & Hv & Hc).
  rewrite Hc in Hw. destruct (walk_writable s (env_pgdir v) x va pa) as (fl & HA & Hfl); [by apply (ko_space _ _ _ _ _ H1 c0) | done | done |].
  destruct Hin as [[[_ Hl] Hcur] Hdir]. split; [|exact Hdir]. split; [|exact Hcur]. split; [|exact Hl].
  exists l, L, S. unfold mstore. rewrite Hq. constructor; [by eapply kernel_ok_store | done | done | | done].
  intros f k Hf Ht. assert (Hne : f <> pa / 4096) by (intros ->; apply (Hf x Hx0); by exists (va / 4096), fl).
  cbn [mem set_mem]. rewrite mget_mset_ne by (left; congruence). by apply H4.
Qed.

Lemma inv_vstore va w : 0 <= va < UTOP -> inv inside (vstore va w).
Proof.
  intros Hva s o s' Hin. unfold vstore. assert (UTOP < KERNBASE) by done. destruct (Z.leb_spec KERNBASE va); [lia|].
  destruct (mmu_walk (mem s) (cr3 s) va true) as [pa|] eqn:Hw; intros [= <- <-]; [by eapply inside_store | apply Hin].
Qed.

Lemma inside_vstore8 va b s s' : inside s -> 0 <= va < UTOP -> vstore8 va b s = (Ret tt, s') -> inside s'.
Proof.
  intros Hin Hva. unfold vstore8, translate. assert (UTOP < KERNBASE) by done. destruct (Z.leb_spec KERNBASE va); [lia|].
  destruct (mmu_walk (mem s) (cr3 s) va true) as [pa|] eqn:Hw; intros [= <-].
  apply (inside_store s va pa); [done..|]. zdm.
Qed.

Lemma inv_vstore8 va b : 0 <= va < UTOP -> inv inside (vstore8 va b).
Proof.
  intros Hva s o s' Hin Hrun. destruct o as [[]|k].
  - by apply (inside_vstore8 va b s s').
  - revert Hrun. unfold vstore8. destruct (translate va true s); intros [= <- <-]. apply Hin.
Qed.

Lemma utf_addr_below esp k : 0 <= k <= 51 -> 0 <= utf_addr esp + k < UTOP.
Proof.
  intros Hk. unfold utf_addr. change UTOP with 4005560320. change UXSTACKTOP with 4005560320. change PGSIZE with 4096.
  change sizeof_UTrapframe with 52. destruct (Z.leb_spec (4005560320 - 4096) esp), (Z.ltb_spec esp 4005560320); cbn [andb]; try lia.
  rewrite u32_small by lia. lia.
Qed.

Lemma inv_vstore32 va w : 0 <= va -> va + 3 < UTOP -> inv inside (vstore32 va w).
Proof.
  intros H1 H2 s o s' Hin. unfold vstore32.
  destruct (va `mod` 4 =? 0); [by apply inv_vstore; [lia|]|].
  destruct (translate va true s); [|intros [= <- <-]; apply Hin].
  destruct (translate (va + 3) true s); [|intros [= <- <-]; apply Hin].
  revert s o s' Hin. change (inv inside (vstore8 va (get_byte w 0) ;; vstore8 (va + 1) (get_byte w 1) ;;
    vstore8 (va + 2) (get_byte w 2) ;; vstore8 (va + 3) (get_byte w 3))).
  repeat (apply inv_bind; [apply inv_vstore8; lia|intros ?]). apply inv_vstore8; lia.
Qed.

Lemma inv_push_utf esp a tf : inv inside (push_utf (utf_addr esp) a tf).
Proof.
  assert (H : forall k w, 0 <= k <= 48 -> inv inside (vstore32 (utf_addr esp + k) w))
    by (intros; destruct (utf_addr_below esp k), (utf_addr_below esp (k + 3)); [lia..|]; apply inv_vstore32; lia).
  assert (H2 : forall j k w, 0 <= j -> 0 <= k -> j + k <= 48 -> inv inside (vstore32 (utf_addr esp + j + k) w))
    by (intros; rewrite <- Z.add_assoc; apply H; lia).
  assert (H0 : forall w, inv inside (vstore32 (utf_addr esp) w)) by (intros w; rewrite <- (Z.add_0_r (utf_addr esp)); apply H; lia).
  assert (H3 : forall j w, 0 <= j <= 48 -> inv inside (vstore32 (utf_addr esp + j) w)) by auto.
  unfold push_utf, store_regs. repeat (apply inv_bind; [first [apply H0 | apply H2; lia | apply H; lia]|intros ?]).
  apply H2; lia.
Qed.

(** ** Page faults and the handler *)

Context (tf : Trapframe).

Lemma inside_here s : inside s -> here s.
Proof. by intros [H _]. Qed.

Lemma safe_page_fault Q : safe inside (page_fault_handler tf (OfEnv c0)) Q.
Proof.
  unfold page_fault_handler. apply (get_here c0); [by intros s2 [[_ H] _]|]. intros s Hc. rewrite Hc. cbv zeta.
  eapply safe_bind; [apply inv_tf_read|]. intros t. cbv beta.
  destruct (Z.land (tf_cs t) 3 =? 0); [intros s1 o s' H [= <- <-]; apply H|].
  apply safe_deref.
  eapply safe_bind; [apply inv_reads, reads_env_get|]. intros v. cbv beta.
  eapply safe_bind with (Q := fun _ => inside).
  - destruct (negb _); [|apply inv_skip]. cbv zeta.
    match goal with |- safe inside ?m _ => change (inv inside m) end.
    apply inv_bind; [apply inv_user_mem_assert; [apply Light_inside | apply inside_here]|]. intros _.
    apply inv_bind; [apply inv_push_utf|]. intros _. apply inv_bind; [by apply inv_env_update|]. intros _.
    apply inv_bind; [by apply inv_env_update|]. intros _. apply (safe_pre _ (lively c0)); [intros s1 H; apply H | apply safe_env_run].
  - intros _. eapply safe_bind; [apply inv_cprintf|]. intros ?. eapply safe_bind; [apply inv_print_trapframe|]. intros ?.
    apply (safe_pre _ here); [apply inside_here | apply safe_destroy_self].
Qed.

Lemma safe_dispatch fuel : safe inside (trap_dispatch tf fuel (OfEnv c0)) (fun _ => evolved).
Proof.
  assert (Hev : forall s, inside s -> evolved s) by (intros s H; apply H).
  unfold trap_dispatch. eapply safe_bind; [apply inv_tf_read|]. intros t. cbv beta.
  destruct (_ =? IRQ_OFFSET + IRQ_SPURIOUS).
  { eapply safe_post; [|intros ? s1; apply Hev].
    change (inv inside (cprintf "Spurious interrupt on irq 7\n" [] ;; print_trapframe tf (OfEnv c0))). inv_code. }
  destruct (_ =? IRQ_OFFSET + IRQ_TIMER); [apply (safe_pre _ evolved); [done | apply safe_sched_yield]|].
  eapply safe_bind with (Q := fun _ => inside); [destruct (_ =? _); [apply safe_page_fault | apply inv_skip]|]. intros _.
  apply (safe_pre _ here); [apply inside_here|]. assert (Hev' : forall s, here s -> evolved s) by (intros s H; apply H).
  apply (safe_post _ _ (fun _ => here)); [|intros ? s1; apply Hev'].
  match goal with |- safe here ?m _ => change (inv here m) end.
  destruct (_ =? T_BRKPT); [apply inv_halt|]. destruct (_ =? T_SYSCALL).
  - apply inv_bind; [apply inv_syscall|]. intros r. apply inv_tf_write.
  - apply inv_bind; [apply inv_print_trapframe|]. intros _. destruct (_ =? GD_KT); [apply inv_panic|].
    apply (get_here c0); [by intros s2 [_ H]|]. intros s ->. apply safe_deref. by apply inv_destroy_self.
Qed.

(** A processor whose environment was destroyed by another one. *)
Lemma safe_dying {A} Q : safe inside (env_free c0 ;; set_curenv None ;; @sched_yield A) Q.
Proof.
  intros s o s' [[[Hev Hl] Hcur] _]. destruct (evolved_free s c0 Hev) as (s1 & Hrun & Hev1 & _); [|done|by left|].
  { intros c. rewrite Hcur. intros [= <-]. destruct Hl as (v & Hv & _). by exists v. }
  kgo Hrun. by apply (safe_give_up Q).
Qed.

Lemma safe_tail {A} Q : safe evolved (@leave A) Q.
Proof.
  unfold leave. eapply safe_bind; [apply (inv_get (P := evolved))|]. intros s.
  destruct (curenv s) as [c|]; [apply safe_run_if; [done|]|]; apply safe_sched_yield.
Qed.

Lemma safe_trap {A} fuel addr Q : Z.land (tf_cs tf) 3 = 3 -> safe inside (@trap tf A fuel addr) Q.
Proof.
  intros Hcs. unfold trap. rewrite Hcs. change (3 =? 3) with true. cbv iota.
  eapply safe_bind; [apply (inv_get (P := inside))|]. intros s. cbv zeta beta.
  eapply safe_bind; [apply inv_when, inv_halt|]. intros ?. eapply safe_bind; [apply inv_cpu_status|]. intros ?.
  eapply safe_bind; [apply inv_when, inv_spin_lock|]. intros ?. eapply safe_bind; [apply inv_assert|]. intros ?.
  eapply safe_bind with (Q := fun p s => p = OfEnv c0 /\ inside s).
  - eapply safe_bind; [apply inv_spin_lock|]. intros ?. apply (get_here c0); [by intros s2 [[_ H] _]|]. intros s1 ->.
    eapply safe_bind; [apply inv_assert|]. intros ?. apply safe_deref.
    eapply safe_bind; [apply inv_reads, reads_env_get|]. intros v. cbv beta.
    eapply safe_bind with (Q := fun _ => inside); [case_bool_decide; [apply safe_dying | apply inv_skip]|]. intros ?.
    eapply safe_bind; [by apply (inv_env_update (P := inside))|]. intros ?. by intros s2 o s' H [= <- <-].
  - intros p. apply (safe_pre _ (fun s => p = OfEnv c0 /\ inside s)); [done|]. intros s1 o s' [-> Hin]. revert s1 o s' Hin.
    match goal with |- forall s o s', _ -> ?m s = _ -> _ => change (safe inside m Q) end.
    eapply safe_bind; [apply inv_last_tf|]. intros ?. eapply safe_bind; [apply safe_dispatch|]. intros ?. apply safe_tail.
Qed.

End Isolation.

(** ** Isolation *)

Section Theorems.

Context (kref : Z -> Z).

Lemma evolved_refl s l L S c : kernel_ok kref s l L S -> evolved_to kref s S c s l L S.
Proof.
  intros H. constructor; [done | done | by intros e [x ->] | done |]. intros e v He. by exists v.
Qed.

Lemma start_inside s l L S c v :
  kernel_ok kref s l L S -> curenv s = Some c -> envs s !! c = Some v -> env_status v <> ENV_FREE ->
  cr3 s = u32 (env_pgdir v) - KERNBASE -> inside kref s S c s.
Proof.
  intros H Hc Hv Hst H3. destruct (space_at _ _ _ _ _ _ _ H Hv Hst) as [x Hx].
  assert (W := sw_tables _ _ _ _ _ _ (ko_space _ _ _ _ _ H c v x Hv Hx)).
  assert (Hn := aw_npages _ _ (ko_alloc _ _ _ _ _ H)). assert (Hp := tw_pd _ _ _ _ _ W).
  split; [|exists x; split; [done|]].
  - split; [|done]. split; [|by exists v]. exists l, L, S. by apply evolved_refl.
  - rewrite H3, (tw_dir _ _ _ _ _ W). unfold KERNBASE. rewrite u32_small by lia. lia.
Qed.

(** C1. Traps isolate environments: when user code of environment [c] traps, with whatever
    registers, the kernel's invariant holds however the handler ends -- in user mode of some
    environment, in the monitor, panicking or faulting.  The trap destroys no environment but [c]
    and its children; every environment it does not destroy keeps its directory, its page tables
    and all of its mappings; and the memory it changes lies in pages that [c] could write to
    itself and in the page tables of the environments it destroyed. *)
Theorem trap_isolates A tf fuel addr s c v l L S r s'
  (H : kernel_ok kref s l L S) (Hcur : curenv s = Some c) (Hv : envs s !! c = Some v) (Hst : env_status v <> ENV_FREE)
  (H3 : cr3 s = u32 (env_pgdir v) - KERNBASE) (Hcs : Z.land (tf_cs tf) 3 = 3)
  (Hrun : @trap tf A fuel addr s = (r, s')) :
  exists l' L' S', kernel_ok kref s' l' L' S' /\ S' ⊆ S /\
    (forall e, is_Some (S !! e) -> S' !! e = None -> e = c \/ parent s c e) /\
    forall f k, (forall x, S !! c = Some x -> ~ writable x f) ->
      (forall e x, S !! e = Some x -> S' !! e = None -> ~ table_of x f) -> mget (mem s') f k = mget (mem s) f k.
Proof.
  assert (Hin := start_inside s l L S c v H Hcur Hv Hst H3).
  assert (Hev := safe_trap kref s S c tf fuel addr (fun _ => evolved kref s S c) Hcs s r s' Hin Hrun).
  assert (E : evolved kref s S c s') by by destruct r. destruct E as (l' & L' & S' & [E1 E2 E3 E4 _]).
  by exists l', L', S'.
Qed.

(** ** Runs of user code *)

(** What user code does to the machine: it stores a byte through its page
    tables, or it traps, with a frame and a fault address of its choice, and
    the kernel returns to user mode.  The list names the environments that
    act. *)
Inductive user_runs : list Z -> kstate -> kstate -> Prop :=
| runs_done s : user_runs [] s s
| runs_store c acts va b s s1 s' :
    in_user c s -> 0 <= va < UTOP -> vstore8 va b s = (Ret tt, s1) ->
    user_runs acts s1 s' -> user_runs (c :: acts) s s'
| runs_trap c acts tf fuel addr a e s s1 s' :
    in_user c s -> Z.land (tf_cs tf) 3 = 3 ->
    @trap tf unit fuel addr (set_hw (set_cr2 a (hw s)) s) = (Stop (SUser e), s1) ->
    user_runs acts s1 s' -> user_runs (c :: acts) s s'.

Lemma in_user_inside s l L S c : kernel_ok kref s l L S -> in_user c s -> inside kref s S c s.
Proof.
  intros H [H1 (v & H2 & H3 & _ & H4 & _) _]. apply (start_inside s l L S c v); try done. by rewrite H3.
Qed.

(** One step. *)
Lemma store_evolves s l L S c va b s1 :
  kernel_ok kref s l L S -> in_user c s -> 0 <= va < UTOP -> vstore8 va b s = (Ret tt, s1) ->
  evolved kref s S c s1 /\ in_user c s1.
Proof.
  intros H Hu Hva Hrun. assert (Hin := inside_vstore8 kref s S c va b s s1 (in_user_inside _ _ _ _ _ H Hu) Hva Hrun).
  split; [apply Hin|]. revert Hrun. unfold vstore8. case_match; intros [= <-]. destruct Hu. by constructor.
Qed.

Lemma trap_evolves s l L S c tf fuel addr a e s1 :
  kernel_ok kref s l L S -> in_user c s -> Z.land (tf_cs tf) 3 = 3 ->
  @trap tf unit fuel addr (set_hw (set_cr2 a (hw s)) s) = (Stop (SUser e), s1) ->
  evolved kref s S c s1 /\ in_user e s1.
Proof.
  intros H Hu Hcs Hrun. split.
  - refine (safe_trap kref s S c tf fuel addr (fun _ _ => True) Hcs _ _ _ _ Hrun).
    eapply (@lt_same _ _ (Light_inside kref s S c) s); [by eapply in_user_inside | done..].
  - destruct (ok_trap (I := fun _ => True) tf fuel addr _ _ _ Logic.I Hrun) as [_ Hex]. by apply Hex.
Qed.

(** What one step and many steps leave of an environment that no actor may destroy. *)
Record untouched (S S' : gmap Z space) (s s' : kstate) (acts : list Z) (e : Z) (x : space) : Prop := mkUntouched {
  un_space : S' !! e = Some x;
  un_mem : forall f k,
    table_of x f \/ ((exists v fl, sp_A x !! v = Some (f, fl)) /\
      forall a y, a ∈ acts -> S !! a = Some y -> ~ writable y f) ->
    mget (mem s') f k = mget (mem s) f k;
}.

Lemma evolved_untouched s l L S c s1 l1 L1 S1 e x acts :
  kernel_ok kref s l L S -> evolved_to kref s S c s1 l1 L1 S1 -> c ∈ acts -> S !! e = Some x -> c <> e -> ~ parent s c e ->
  untouched S S1 s s1 acts e x.
Proof.
  intros H [E1 E2 E3 E4 _] Hc He Hne Hp. assert (Hx : S1 !! e = Some x).
  { destruct (S1 !! e) as [y|] eqn:Ey; [|by destruct (E3 e ltac:(by exists x) Ey)].
    assert (E := lookup_weaken _ _ _ _ Ey E2). congruence. }
  constructor; [done|]. intros f k Hf. apply E4.
  - intros y Hy. destruct Hf as [Hf | [_ Hf]]; [|by apply (Hf c)]. intros (w & fl & Hw & _).
    exact (mapped_no_table kref s l L S c e y x w (f, fl) H Hy He Hw Hf).
  - intros e' y Hy Hgone Ht. destruct Hf as [Hf | [(w & fl & Hw) _]].
    + assert (e' = e) as -> by exact (table_unique kref s l L S e' e y x f H Hy He Ht Hf). by rewrite Hx in Hgone.
    + exact (mapped_no_table kref s l L S e e' x y w (f, fl) H He Hy Hw Ht).
Qed.

Lemma parent_before s S c s1 l1 L1 S1 a e : evolved_to kref s S c s1 l1 L1 S1 -> parent s1 a e -> parent s a e.
Proof.
  intros H (u & v & Hu & Hv & E). destruct (ev_names _ _ _ _ _ _ _ _ H _ _ Hu) as (u0 & Hu0 & Eu & _).
  destruct (ev_names _ _ _ _ _ _ _ _ H _ _ Hv) as (v0 & Hv0 & _ & Ev). exists u0, v0. split_and!; [done..|congruence].
Qed.

Lemma user_step s l L S c s1 c1 acts s' :
  kernel_ok kref s l L S -> evolved kref s S c s1 -> in_user c1 s1 ->
  (forall l1 L1 S1, kernel_ok kref s1 l1 L1 S1 ->
    exists l' L' S' c', kernel_ok kref s' l' L' S' /\ in_user c' s' /\ S' ⊆ S1 /\
      forall e x, S1 !! e = Some x -> (forall a, a ∈ acts -> a <> e /\ ~ parent s1 a e) -> untouched S1 S' s1 s' acts e x) ->
  exists l' L' S' c', kernel_ok kref s' l' L' S' /\ in_user c' s' /\ S' ⊆ S /\
    forall e x, S !! e = Some x -> (forall a, a ∈ c :: acts -> a <> e /\ ~ parent s a e) -> untouched S S' s s' (c :: acts) e x.
Proof.
  intros H (l1 & L1 & S1 & He) Hu IH. destruct (IH _ _ _ (ev_ok _ _ _ _ _ _ _ _ He)) as (l' & L' & S' & c' & H1 & H2 & H3 & H4).
  assert (Hsub := ev_sub _ _ _ _ _ _ _ _ He). exists l', L', S', c'. split; [done|]. split; [done|]. split; [by etrans|].
  intros e x Hx Hacts. destruct (Hacts c (list_elem_of_here _ _)) as [Hne Hp].
  destruct (evolved_untouched s l L S c s1 l1 L1 S1 e x (c :: acts) H He (list_elem_of_here _ _) Hx Hne Hp) as [U1 U2].
  destruct (H4 e x U1) as [V1 V2].
  { intros a Ha. destruct (Hacts a (list_elem_of_further _ _ _ Ha)) as [Hn Hq]. split; [done|].
    intros Hq'. by apply Hq, (parent_before s S c s1 l1 L1 S1). }
  constructor; [done|]. intros f k Hf. rewrite V2; [by apply U2|]. destruct Hf as [Hf | [Hm Hf]]; [by left|].
  right. split; [done|]. intros a y Ha Hy. apply (Hf a); [by right | by eapply lookup_weaken].
Qed.

(** C2. Isolation over time: user code runs for as long as it likes -- storing through its page
    tables, trapping with any registers and any fault address, the kernel switching between
    environments as it schedules them.  As long as the kernel returns to user mode its invariant
    holds and user mode is entered properly; and an environment that does not act itself and is
    not a child of one that does keeps its address space, page tables and the contents of all
    pages that the acting environments did not share with it for writing. *)
Theorem runs_isolate acts s s' l L S c
  (H : kernel_ok kref s l L S) (Hu : in_user c s) (Hrun : user_runs acts s s') :
  exists l' L' S' c', kernel_ok kref s' l' L' S' /\ in_user c' s' /\ S' ⊆ S /\
    forall e x, S !! e = Some x -> (forall a, a ∈ acts -> a <> e /\ ~ parent s a e) -> untouched S S' s s' acts e x.
Proof.
  revert l L S c H Hu. induction Hrun as [s | c0 acts va b s s1 s' Hc0 Hva Hst _ IH | c0 acts tf fuel addr a e s s1 s' Hc0 Hcs Htr _ IH];
    intros l L S c H Hu.
  - exists l, L, S, c. split; [done|]. split; [done|]. split; [done|]. by constructor.
  - destruct (store_evolves s l L S c0 va b s1 H Hc0 Hva Hst) as [He Hu1].
    apply (user_step s l L S c0 s1 c0); [done..|]. intros l1 L1 S1 H1. by apply (IH l1 L1 S1 c0).
  - destruct (trap_evolves s l L S c0 tf fuel addr a e s1 H Hc0 Hcs Htr) as [He Hu1].
    apply (user_step s l L S c0 s1 e); [done..|]. intros l1 L1 S1 H1. by apply (IH l1 L1 S1 e).
Qed.

End Theorems.

(** ** Two environments *)

Section Two.

(** Environment 1 runs: directory in page 1, page table in page 2, exception stack in page 3.
    Environment 5 is not its child: directory in page 4, page table in page 5, page 6 at the
    address of the exception stack.  The other pages are the kernel's. *)
Definition ex_other : Env := set_env_pgdir (KERNBASE + 0x4000) (ex_live 0x1005 0x2009 ENV_RUNNABLE).
Definition ex_two_mem : gmap Z (gmap Z Z) := mset (mset ex_stack_mem 4 954 (4096 * 5 + 7)) 5 1023 (4096 * 6 + 7).
Definition ex_two : kstate :=
  set_pages (array_of 16 (fun _ => mkPageInfo None 1)) (set_kern_pgdir KERNBASE
    (set_envs (<[5 := ex_other]> {[ 1 := ex_faulting ]}) (set_mem ex_two_mem ex_fault))).
Definition ex_space (k : Z) : space := mkSpace (k + 1) {[ 954 := k + 2 ]} {[ 954 * 1024 + 1023 := (k + 3, 7) ]}.
Definition ex_spaces : gmap Z space := <[5 := ex_space 3]> {[ 1 := ex_space 0 ]}.
Definition ex_kref (p : Z) : Z := if (1 <=? p) && (p <=? 6) then 0 else 1.

Lemma ex_two_parts : npages ex_two = 16 /\ pages ex_two = array_of 16 (fun _ => mkPageInfo None 1) /\ page_free_list ex_two = None /\
  mem ex_two = ex_two_mem /\ envs ex_two = <[5 := ex_other]> {[ 1 := ex_faulting ]} /\ env_free_list ex_two = None /\
  kern_pgdir ex_two = KERNBASE.
Proof. split_and!; reflexivity. Qed.

Lemma ex_total p : 0 <= p < 16 -> ex_kref p + total ex_spaces p = 1.
Proof.
  intros Hp. assert (Hall : forallb (fun p => ex_kref p + total ex_spaces p =? 1) (seqZ 0 16) = true) by (vm_compute; reflexivity).
  rewrite forallb_forall in Hall. apply Z.eqb_eq, Hall. apply list_elem_of_In, elem_of_seqZ. lia.
Qed.

Lemma ex_spaces_cases e x : ex_spaces !! e = Some x -> (e = 1 /\ x = ex_space 0) \/ (e = 5 /\ x = ex_space 3).
Proof.
  unfold ex_spaces. intros [[<- <-] | [_ [<- <-]%lookup_singleton_Some]]%lookup_insert_Some; [by right | by left].
Qed.

Lemma ex_space_tables k p : table_of (ex_space k) p -> p = k + 1 \/ p = k + 2.
Proof.
  intros [-> | [i Hi]]; [by left | right]. cbn [ex_space sp_T] in Hi. by apply lookup_singleton_Some in Hi as [_ <-].
Qed.

(** A space with one page table and one page. *)
Lemma ex_space_wf s k : npages s = 16 -> 0 <= k -> k + 3 < 16 -> mem s = ex_two_mem ->
  (forall i, 0 <= i < 1024 -> mget ex_two_mem (k + 1) i = if decide (i = 954) then 4096 * (k + 2) + 7 else 0) ->
  (forall i, 0 <= i < 1024 -> mget ex_two_mem (k + 2) i = if decide (i = 1023) then 4096 * (k + 3) + 7 else 0) ->
  space_wf below_utop s (KERNBASE + 4096 * (k + 1)) (sp_pd (ex_space k)) (sp_T (ex_space k)) (sp_A (ex_space k)).
Proof.
  intros En Hk1 Hk2 Em Hd Ht. cbn [sp_pd sp_T sp_A ex_space]. constructor; [constructor | |]; rewrite ?En, ?Em.
  - lia.
  - lia.
  - intros i t [<- <-]%lookup_singleton_Some. rewrite Hd, decide_True by lia.
    rewrite entry_test, PTE_ADDR_entry by (unfold PTE_P; lia). split_and!; (done || lia).
  - intros i Hi _ Hn%lookup_singleton_None. by rewrite Hd, decide_False by (lia || congruence).
  - intros i j t [<- _]%lookup_singleton_Some [<- _]%lookup_singleton_Some. done.
  - intros v e [<- <-]%lookup_singleton_Some. cbn [fst snd]. split; [lia|]. split; [lia|]. split; [lia|]. split; [done|].
    exists (k + 2). split; [apply lookup_singleton_Some; split; [reflexivity | done]|].
    change ((954 * 1024 + 1023) `mod` 1024) with 1023. by rewrite Ht, decide_True by lia.
  - intros v t Hv Hn%lookup_singleton_None [E <-]%lookup_singleton_Some. rewrite Ht by zdm. rewrite decide_False; [done|].
    intros E2. apply Hn. zdm.
Qed.

Lemma ex_two_entries k i : k = 0 \/ k = 3 -> 0 <= i < 1024 ->
  mget ex_two_mem (k + 1) i = (if decide (i = 954) then 4096 * (k + 2) + 7 else 0) /\
  mget ex_two_mem (k + 2) i = (if decide (i = 1023) then 4096 * (k + 3) + 7 else 0).
Proof.
  intros Hk Hi. unfold ex_two_mem, ex_stack_mem. rewrite !mget_mset. assert (E0 : forall f, mget ∅ f i = 0) by done. rewrite !E0.
  split; repeat case_decide; lia.
Qed.

Lemma ex_two_ok : kernel_ok ex_kref ex_two [] [] ex_spaces.
Proof.
  destruct ex_two_parts as (E1 & E2 & E3 & E4 & E5 & E6 & E7). set (s := ex_two) in *. clearbody s.
  assert (Hdom : forall p, is_Some (pages s !! p) <-> 0 <= p < npages s) by (intros p; rewrite E1, E2; apply array_of_dom).
  constructor.
  - constructor; [lia | exact Hdom | exact E3 | intros p pi []%elem_of_nil].
  - exact E6.
  - intros e v []%elem_of_nil.
  - intros e. unfold live, ex_spaces. rewrite E5.
    destruct (decide (5 = e)) as [<-|]; [rewrite !lookup_insert_eq; split; intros _; by eexists|]. rewrite !lookup_insert_ne by done.
    destruct (decide (1 = e)) as [<-|]; [rewrite !lookup_singleton_eq; split; intros _; by eexists|].
    rewrite !lookup_singleton_ne by done. split; [by intros [? ?] | by intros (? & ? & _)].
  - intros e v x Hv [[-> ->] | [-> ->]]%ex_spaces_cases; rewrite E5 in Hv.
    + rewrite lookup_insert_ne, lookup_singleton_eq in Hv by done. injection Hv as <-.
      apply (ex_space_wf s 0); [done | lia | lia | done | intros i Hi; by apply ex_two_entries; [left|] ..].
    + rewrite lookup_insert_eq in Hv. injection Hv as <-.
      apply (ex_space_wf s 3); [done | lia | lia | done | intros i Hi; by apply ex_two_entries; [right|] ..].
  - intros p pi Hp. assert (Hr := proj1 (Hdom p) ltac:(by exists pi)). rewrite E1 in Hr. rewrite (ex_total p Hr).
    rewrite E2, array_of_lookup in Hp. destruct (_ && _); [|done]. injection Hp as <-. split; [done | reflexivity].
  - intros p. unfold ex_kref. by case_match.
  - intros e x p [[-> ->] | [-> ->]]%ex_spaces_cases Ht%ex_space_tables; apply ex_total; lia.
  - rewrite E7. split; [done | reflexivity].
Qed.

Lemma ex_two_trap : curenv ex_two = Some 1 /\ envs ex_two !! 1 = Some ex_faulting /\ cr3 ex_two = 4096 /\
  u32 (env_pgdir ex_faulting) - KERNBASE = 4096 /\ kernel_lock ex_two = mkSpinlock 0 None /\ this_cpu ex_two = 0.
Proof. split_and!; reflexivity. Qed.

Lemma ex_two_user : in_user 1 ex_two.
Proof.
  destruct ex_two_trap as (E1 & E2 & E3 & E4 & E5 & E6). constructor; [exact E1 | | exact E5].
  exists ex_faulting. split; [exact E2|]. split; [reflexivity|]. rewrite E6, E3, E4. split; [reflexivity|]. split; [reflexivity | discriminate].
Qed.

Lemma ex_space_writable k f : writable (ex_space k) f -> f = k + 3.
Proof. intros (v & fl & Hv & _). cbn [ex_space sp_A] in Hv. by apply lookup_singleton_Some in Hv as [_ [= <- _]]. Qed.

Lemma ex_no_child : ~ parent ex_two 1 5.
Proof.
  intros (u & v & Hu & Hv & E). destruct ex_two_parts as (_ & _ & _ & _ & E5 & _). rewrite E5 in Hu, Hv.
  rewrite lookup_insert_ne, lookup_singleton_eq in Hu by done. rewrite lookup_insert_eq in Hv. injection Hu as <-. injection Hv as <-. discriminate E.
Qed.

Lemma ex_survives (S' : gmap Z space) : S' ⊆ ex_spaces ->
  (forall e, is_Some (ex_spaces !! e) -> S' !! e = None -> e = 1 \/ parent ex_two 1 e) -> S' !! 5 = Some (ex_space 3).
Proof.
  intros H2 H3. assert (H5 : ex_spaces !! 5 = Some (ex_space 3)) by apply lookup_insert_eq.
  destruct (S' !! 5) as [y|] eqn:Ey.
  - assert (E := lookup_weaken _ _ _ _ Ey H2). congruence.
  - destruct (H3 5 ltac:(by eexists) Ey) as [E | E]; [discriminate E | by destruct (ex_no_child E)].
Qed.

(** Environment 1 asks the kernel to destroy environment 5, in vain. *)
Definition ex_ask : Trapframe :=
  mkTrapframe (mkPushRegs 0 0 0 0 0 0x1005 0 SYS_env_destroy) 0x23 0x23 T_SYSCALL 0 0x800020 0x1b FL_IF 0xeebfdf00 0x23.

Lemma trap_isolates_witness :
  let s' := snd (@trap ex_ask unit 0 0 ex_two) in
  exists l' L' S', kernel_ok ex_kref s' l' L' S' /\ S' !! 5 = Some (ex_space 3) /\ mget (mem s') 6 0 = mget (mem ex_two) 6 0.
Proof.
  intros s'. destruct ex_two_trap as (E1 & E2 & E3 & E4 & _).
  destruct (trap_isolates ex_kref unit ex_ask 0 0 ex_two 1 ex_faulting [] [] ex_spaces _ s' ex_two_ok E1 E2
    ltac:(discriminate) ltac:(by rewrite E3, E4) eq_refl (surjective_pairing _)) as (l' & L' & S' & H1 & H2 & H3 & H4).
  assert (H5 : S' !! 5 = Some (ex_space 3)) by exact (ex_survives S' H2 H3).
  exists l', L', S'. split; [exact H1|]. split; [exact H5|]. apply H4.
  - intros x Hx Hw. apply ex_spaces_cases in Hx as [[_ ->] | [[=] _]]. apply ex_space_writable in Hw. discriminate Hw.
  - intros e x Hx Hn Ht. apply ex_spaces_cases in Hx as [[_ ->] | [-> _]]; [|rewrite H5 in Hn; discriminate Hn].
    apply ex_space_tables in Ht. lia.
Defined.

(** It writes to its stack, then it asks. *)
Definition ex_written : kstate := snd (vstore8 (UXSTACKTOP - 8) 42 ex_two).
Definition ex_asked : kstate := snd (@trap ex_ask unit 0 0 (set_hw (set_cr2 0 (hw ex_written)) ex_written)).

Lemma ex_actions : user_runs [1; 1] ex_two ex_asked.
Proof.
  assert (E1 : vstore8 (UXSTACKTOP - 8) 42 ex_two = (Ret tt, ex_written)) by (apply run_snd; vm_compute; reflexivity).
  apply (runs_store 1 [1] (UXSTACKTOP - 8) 42 ex_two ex_written ex_asked ex_two_user ltac:(split; [discriminate | reflexivity]) E1).
  apply (runs_trap 1 [] ex_ask 0 0 0 1 ex_written ex_asked ex_asked); [| reflexivity | | constructor].
  - exact (proj2 (store_evolves ex_kref ex_two [] [] ex_spaces 1 (UXSTACKTOP - 8) 42 ex_written ex_two_ok ex_two_user
      ltac:(split; [discriminate | reflexivity]) E1)).
  - unfold ex_asked. apply run_snd. vm_compute. reflexivity.
Qed.

Lemma runs_isolate_witness :
  user_runs [1; 1] ex_two ex_asked /\ mget (mem ex_asked) 6 0 = mget (mem ex_two) 6 0 /\ mget (mem ex_asked) 3 1022 = 42.
Proof.
  split; [exact ex_actions|]. split; [|vm_compute; reflexivity].
  destruct (runs_isolate ex_kref [1; 1] ex_two ex_asked [] [] ex_spaces 1 ex_two_ok ex_two_user ex_actions) as (l' & L' & S' & c' & _ & _ & _ & H).
  destruct (H 5 (ex_space 3) ltac:(apply lookup_insert_eq)) as [_ Hm].
  { intros a Ha. assert (E : a = 1) by (repeat (apply elem_of_cons in Ha as [->|Ha]; [done|]); by apply elem_of_nil in Ha).
    rewrite E. split; [discriminate | exact ex_no_child]. }
  apply Hm. right. split; [exists (954 * 1024 + 1023), 7; apply lookup_insert_eq|].
  intros a y Ha Hy Hw. apply ex_spaces_cases in Hy as [[_ ->] | [E _]].
  - apply ex_space_writable in Hw. discriminate Hw.
  - rewrite E in Ha. repeat (apply elem_of_cons in Ha as [Ha|Ha]; [discriminate Ha|]). by apply elem_of_nil in Ha.
Defined.

End Two.
