(* ===== verification/TrapDestroy.v ===== *)
(** * TrapDestroy: traps that end the environment

    A trap that the kernel does not handle, and a page fault of an environment
    without a handler, print the frame and destroy the environment; the
    scheduler goes on with another one. *)

From S2P Require Import Prelude Machine CString Printfmt Hardware Console PrintfProps Kernel KernelProps Spinlock.
From S2P Require Import Pmap PageAlloc PageTable Example UserMem PtProps Env EnvProps EnvFree Sched SchedProps.
From S2P Require Import Syscall SyscallProps Trap TrapUser UserFault KernelExit KernelInv KernelSafe Isolation.

(** ** Computations that only print *)

Section Printing.

Definition prints (m : K unit) : Prop := forall s, exists c, m s = (Ret tt, set_con c s).

Lemma prints_skip : prints skip.
Proof. intros s. exists (con s). by destruct s. Qed.

Lemma prints_bind m n : prints m -> prints n -> prints (m ;; n).
Proof.
  intros Hm Hn s. destruct (Hm s) as [c1 H1]. destruct (Hn (set_con c1 s)) as [c2 H2].
  exists c2. rewrite (bind_Ret _ _ _ _ _ H1). exact H2.
Qed.

Lemma prints_when b m : prints m -> prints (when b m).
Proof. destruct b; [done | intros _; apply prints_skip]. Qed.

Lemma prints_get f : (forall s, prints (f s)) -> prints (s ← get; f s).
Proof. intros H s. exact (H s s). Qed.

Lemma prints_cprintf fmt ap :
  well_typed (length (cstr fmt) + 16) (cstr fmt) (map erase ap) = true -> Forall terminated ap -> prints (cprintf fmt ap).
Proof. intros H1 H2 s. by apply cprintf_matches. Qed.

Lemma terminated_VS str : terminated (VS str).
Proof. unfold VS, cstr. cbn [terminated]. apply elem_of_app. right. by apply list_elem_of_singleton. Qed.

End Printing.

(** Decides that a sequence of outputs with literal formats prints. *)
Ltac prints_code :=
  repeat match goal with
    | |- prints (cprintf _ _) => apply prints_cprintf; [vm_compute; reflexivity | repeat constructor; apply terminated_VS]
    | |- prints (mbind _ get) => apply prints_get; intros ?
    | |- prints (mbind _ _) => apply prints_bind
    | |- prints (when _ _) => apply prints_when
    | |- prints skip => apply prints_skip
    | |- prints (if ?b then _ else _) => destruct b
    end.

Section Frames.

Lemma print_regs_prints r : prints (print_regs r).
Proof. unfold print_regs. prints_code. Qed.

(** The frame of an environment is printed. *)
Lemma print_trapframe_ok tf0 c v s : envs s !! c = Some v ->
  exists con', print_trapframe tf0 (OfEnv c) s = (Ret tt, set_con con' s).
Proof.
  intros He. unfold print_trapframe. kgo get_eq. unfold tf_read.
  erewrite bind_Ret; [|by kgo (env_get_eq _ _ _ He)]. generalize (env_tf v). intros tf.
  match goal with |- exists con', ?m s = _ => enough (Hm : prints m) by apply Hm end.
  prints_code.
apply print_regs_prints.
Qed.

End Frames.

(** ** The destruction of the current environment *)

Section Destroying.

Context (kref : Z -> Z).

(** The state after the destruction of the current environment [c] of [s]. *)
Record destroyed (s : kstate) (l L : list Z) (S : gmap Z space) (c : Z) (v : Env) (s' : kstate) (l' : list Z) : Prop := mkDestroyed {
  de_kernel : kernel_ok kref s' l' (c :: L) (delete c S);
  de_envs : envs s' = <[c := freed_env (env_free_list s) v]> (envs s);
  de_cur : curenv s' = None;
  de_mem : forall x f k, S !! c = Some x -> ~ table_of x f -> mget (mem s') f k = mget (mem s) f k;
}.

Lemma env_destroy_self s l L S c v :
  kernel_ok kref s l L S -> curenv s = Some c -> envs s !! c = Some v -> env_status v <> ENV_FREE ->
  exists s' l', destroyed s l L S c v s' l' /\ kernel_lock s' = kernel_lock s /\ this_cpu s' = this_cpu s /\
    env_destroy c s = @sched_yield unit s'.
Proof.
  intros H Hc He Hst.
  destruct (env_free_ok kref s l L S c v H) as (s1 & l' & x & Hx & Hrun & _ & H1 & Ee & Em); [|done|done|].
  { intros e. rewrite Hc. intros [= <-]. by exists v. }
  assert (Hkeep : curenv s1 = Some c /\ kernel_lock s1 = kernel_lock s /\ this_cpu s1 = this_cpu s).
  { assert (Hs : Steady (fun t => curenv t = Some c /\ kernel_lock t = kernel_lock s /\ this_cpu t = this_cpu s)) by by constructor.
    exact (proj1 (ok_env_free (I := fun t => curenv t = Some c /\ kernel_lock t = kernel_lock s /\ this_cpu t = this_cpu s)
      c s _ _ (conj Hc (conj eq_refl eq_refl)) Hrun)). }
  destruct Hkeep as (Hc1 & Hl1 & Ht1).
  set (s2 := set_cpus (<[this_cpu s1 := set_cpu_env None (thiscpu s1)]> (cpus s1)) s1).
  exists s2, l'. split; [|split; [done|]; split; [done|]].
  - constructor; [by apply (kernel_ok_frame kref s1) | done | | intros y f k Hy; rewrite Hx in Hy; injection Hy as <-; apply Em].
    unfold curenv, thiscpu, s2. cbn [cpus this_cpu set_cpus]. by rewrite lookup_insert_eq.
  - unfold env_destroy. kgo get_eq. kgo (env_get_eq _ _ _ He). rewrite (bool_decide_true (curenv s = Some c)) by done.
    rewrite andb_false_r. kgo Hrun. kgo get_eq. rewrite bool_decide_true by done. by erewrite bind_Ret.
Qed.

(** The destroyed environment is compared with the state before the registers were saved. *)
Lemma destroyed_before s1 s l L S c w s' l' :
  destroyed s1 l L S c w s' l' -> envs s1 = <[c := w]> (envs s) -> env_free_list s1 = env_free_list s -> mem s1 = mem s ->
  destroyed s l L S c w s' l'.
Proof.
  intros [H1 H2 H3 H4] E1 E2 E3. constructor; [done | | done | intros x f k Hx Hf; rewrite <- E3; by apply (H4 x)].
  by rewrite H2, E1, E2, insert_insert_eq.
Qed.

(** Traps that no handler takes, and page faults of environments without a handler. *)
Definition fatal_trap (tf : Trapframe) (v : Env) : Prop :=
  (tf_trapno tf = T_PGFLT /\ env_pgfault_upcall v = 0) \/
  tf_trapno tf ∉ [IRQ_OFFSET + IRQ_SPURIOUS; IRQ_OFFSET + IRQ_TIMER; T_PGFLT; T_BRKPT; T_SYSCALL].

(** A fault without a handler prints and destroys. *)
Lemma page_fault_fatal tf0 s c v :
  curenv s = Some c -> envs s !! c = Some v -> Z.land (tf_cs (env_tf v)) 3 = 3 -> env_pgfault_upcall v = 0 ->
  exists con', page_fault_handler tf0 (OfEnv c) s = env_destroy c (set_con con' s).
Proof.
  intros Hc He Hcs Hu. unfold page_fault_handler. kgo get_eq. unfold tf_read.
  erewrite bind_Ret; [|by kgo (env_get_eq _ _ _ He)]. rewrite Hcs. change (3 =? 0) with false. rewrite Hc.
  kgo @deref_eq. kgo (env_get_eq _ _ _ He). rewrite Hu. change (negb (0 =? 0)) with false. erewrite bind_Ret; [|reflexivity].
  kprint c1. destruct (print_trapframe_ok tf0 c v (set_con c1 s) He) as [c2 H2]. rewrite (bind_Ret _ _ _ _ _ H2).
  by exists c2.
Qed.

Lemma dispatch_fatal tf0 fuel s c v :
  curenv s = Some c -> envs s !! c = Some v -> Z.land (tf_cs (env_tf v)) 3 = 3 -> fatal_trap (env_tf v) v ->
  exists con', forall r s', env_destroy c (set_con con' s) = (Stop r, s') -> trap_dispatch tf0 fuel (OfEnv c) s = (Stop r, s').
Proof.
  intros Hc He Hcs [[Hn Hu] | Hn].
  - destruct (page_fault_fatal tf0 s c v Hc He Hcs Hu) as [con' Hp]. exists con'. intros r0 s0 Hd. rewrite <- Hp in Hd.
    unfold trap_dispatch, tf_read. erewrite bind_Ret; [|by kgo (env_get_eq _ _ _ He)]. rewrite Hn.
    change (T_PGFLT =? IRQ_OFFSET + IRQ_SPURIOUS) with false. change (T_PGFLT =? IRQ_OFFSET + IRQ_TIMER) with false.
    change (T_PGFLT =? T_PGFLT) with true. cbv iota. cbn [when]. by apply bind_Stop.
  - rewrite !not_elem_of_cons in Hn. destruct Hn as (N1 & N2 & N3 & N4 & N5 & _).
    destruct (print_trapframe_ok tf0 c v s He) as [c1 H1]. exists c1. intros r0 s0 Hd.
    unfold trap_dispatch, tf_read. erewrite bind_Ret; [|by kgo (env_get_eq _ _ _ He)].
    rewrite (proj2 (Z.eqb_neq _ _) N1), (proj2 (Z.eqb_neq _ _) N2), (proj2 (Z.eqb_neq _ _) N3), (proj2 (Z.eqb_neq _ _) N4),
      (proj2 (Z.eqb_neq _ _) N5). cbn [when]. erewrite bind_Ret; [|reflexivity]. rewrite (bind_Ret _ _ _ _ _ H1).
    destruct (Z.eqb_spec (tf_cs (env_tf v)) GD_KT) as [E|_]; [rewrite E in Hcs; discriminate Hcs|].
    kgo get_eq. assert (Hc1 : curenv (set_con c1 s) = Some c) by exact Hc. rewrite Hc1. kgo @deref_eq. exact Hd.
Qed.

(** The scheduler may be called after a destruction. *)
Lemma destroyed_sched s l L S c v s' l' :
  destroyed s l L S c v s' l' -> (forall e, is_Some (envs s !! e) <-> 0 <= e < NENV) -> is_Some (envs s !! c) -> holds_lock s' ->
  sched_ok s'.
Proof.
  intros [H1 H2 H3 _] Hd Hc Hl. constructor; [| | | done].
  - intros e. rewrite <- Hd, H2, lookup_insert. case_decide as E; [subst e | done]. split; [done | by eauto].
  - intros e. rewrite H3. done.
  - intros e w Hw Hr. destruct (space_at _ _ _ _ _ e w H1 Hw) as [x Hx]; [by rewrite Hr|].
    assert (W := sw_tables _ _ _ _ _ _ (ko_space _ _ _ _ _ H1 e w x Hw Hx)).
    assert (Hn := aw_npages _ _ (ko_alloc _ _ _ _ _ H1)). assert (Hp := tw_pd _ _ _ _ _ W).
    rewrite (tw_dir _ _ _ _ _ W). unfold KERNBASE. lia.
Qed.

End Destroying.

(** ** The trap *)

Section Trap.

Context (kref : Z -> Z).

Lemma entered_ok tf s c v l L S :
  kernel_ok kref s l L S -> envs s !! c = Some v -> env_status v = ENV_RUNNING ->
  forall con', kernel_ok kref (set_con con' (entered tf c v s)) l L S.
Proof.
  intros H He Hst con'. apply (kernel_ok_frame kref (set_envs (<[c := set_env_tf tf v]> (envs s)) s)); try reflexivity.
  apply (kernel_ok_env kref s l L S c v); [done | done | by split_and!].
Qed.

(** C17. A trap that nobody handles ends the environment and nothing else: for every trap number
    without a handler, and for a page fault of an environment without a page-fault handler, the
    kernel prints the frame, gives back exactly what the environment held -- the invariant of
    the whole kernel holds with the environment gone and its slot free -- changes no memory
    outside the page tables of that environment, and goes on with the first runnable environment
    in round-robin order, or in the monitor when there is none. *)
Theorem trap_destroys A tf fuel addr s c v l L S
  (H : kernel_ok kref s l L S) (Ht : user_trap tf s c v) (Hf : fatal_trap tf v)
  (Hd : forall e, is_Some (envs s !! e) <-> 0 <= e < NENV) :
  exists s1 l', destroyed kref s l L S c (set_env_tf tf v) s1 l' /\
    match pick s1 (round_robin 0) with
    | Some e =>
        exists w, envs s1 !! e = Some w /\ env_status w = ENV_RUNNABLE /\ e <> c /\
          @trap tf A fuel addr s = (Stop (SUser e), switched e w s1)
    | None =>
        (exists s', @trap tf A fuel addr s = (Stop SMonitor, s')) /\
        forall e w, envs s1 !! e = Some w -> env_status w <> ENV_RUNNABLE
    end.
Proof.
  rewrite (trap_enter tf fuel addr s c v Ht). destruct Ht as [Hcs _ _ _ _ Hc He Hst _].
  set (w := set_env_tf tf v). set (s0 := entered tf c v s).
  assert (Hc0 : curenv s0 = Some c) by by apply curenv_entered.
  assert (He0 : envs s0 !! c = Some w) by apply entered_env.
  destruct (dispatch_fatal tf fuel s0 c w Hc0 He0 Hcs Hf) as [con' Hdis].
  assert (Hok := entered_ok tf s c v l L S H He Hst con'). fold s0 in Hok.
  destruct (env_destroy_self kref (set_con con' s0) l L S c w Hok Hc0 He0) as (s1 & l' & Hde & Hlk & Hcpu & Erun);
    [by unfold w; cbn [env_status set_env_tf]; rewrite Hst|].
  assert (Hde' := destroyed_before kref (set_con con' s0) s l L S c w s1 l' Hde eq_refl eq_refl eq_refl).
  exists s1, l'. split; [exact Hde'|].
  assert (Hl : holds_lock s1) by (unfold holds_lock; rewrite Hlk, Hcpu; exact (entered_lock tf c v s)).
  assert (Hs := destroyed_sched kref s l L S c w s1 l' Hde' Hd (ex_intro _ v He) Hl).
  assert (Hy := sched_yield_eq (A := unit) s1 0 Hs). rewrite (de_cur _ _ _ _ _ _ _ _ _ Hde) in Hy.
  specialize (Hy eq_refl ltac:(split; reflexivity)). rewrite <- Erun in Hy.
  destruct (pick s1 (round_robin 0)) as [e|] eqn:Hp.
  - destruct (pick_Some _ _ _ Hp) as [_ Hrun]. destruct (runnable_env _ _ Hrun) as (u & Hu & Hru).
    exists u. split; [done|]. split; [done|]. split.
    + intros ->. rewrite (de_envs _ _ _ _ _ _ _ _ _ Hde'), lookup_insert_eq in Hu. injection Hu as <-. discriminate Hru.
    + rewrite (env_run_eq s1 e u (so_cur _ Hs) Hu (so_pgdir _ Hs _ _ Hu Hru) Hl) in Hy.
      by rewrite (bind_Stop _ _ _ _ _ (Hdis _ _ Hy)).
  - split; [|by apply (none_runnable s1 0)]. assert (Hm := @sched_monitor unit s1). rewrite <- Hy in Hm.
    destruct (env_destroy c (set_con con' s0)) as [o s'] eqn:Ed. cbn [fst] in Hm. subst o. exists s'.
    by rewrite (bind_Stop _ _ _ _ _ (Hdis _ _ eq_refl)).
Qed.

End Trap.

(** ** Witness *)

Section Witness.

(** The table of environments may be filled up with free slots that are on no list. *)
Lemma kernel_ok_padded kref s l S m :
  kernel_ok kref s l [] S -> (forall e v, envs s !! e = Some v -> m !! e = Some v) ->
  (forall e v, m !! e = Some v -> envs s !! e = Some v \/ env_status v = ENV_FREE) ->
  kernel_ok kref (set_envs m s) l [] S.
Proof.
  intros [H1 H2 H3 H4 H5 H6 H7 H8 H9] Hsub Hm. constructor; cbn [envs pages npages mem env_free_list kern_pgdir set_envs]; try done.
  - by eapply alloc_wf_frame.
  - intros e v []%elem_of_nil.
  - intros e. rewrite H4. unfold live. cbn [envs set_envs]. split; intros (v & Hv & Hst); exists v; (split; [|done]).
    + by apply Hsub.
    + by destruct (Hm e v Hv).
  - intros e v x Hv Hx. apply (space_wf_frame _ s); [|done|done].
    destruct (proj1 (H4 e) (ex_intro _ x Hx)) as (u & Hu & _). assert (Hu' := Hsub e u Hu). rewrite Hv in Hu'. injection Hu' as <-.
    by apply (H5 e).
Qed.

(** Environment 1 divides by zero; environment 5 is runnable. *)
Definition ex_table : gmap Z Env := envs ex_two ∪ array_of NENV (fun _ => ex_env).
Definition ex_divides : kstate := set_envs ex_table ex_two.
Definition ex_divide_frame : Trapframe := mkTrapframe ex_regs 0x23 0x23 T_DIVIDE 0 0x800020 0x1b FL_IF 0xeebfdf00 0x23.

Lemma ex_table_old e v : envs ex_two !! e = Some v -> ex_table !! e = Some v.
Proof. unfold ex_table. generalize (envs ex_two). intros m. apply lookup_union_Some_l. Qed.

Lemma ex_table_new e v : ex_table !! e = Some v -> envs ex_two !! e = Some v \/ env_status v = ENV_FREE.
Proof.
  unfold ex_table. generalize (envs ex_two). intros m. rewrite lookup_union_Some_raw. intros [H | [_ H]]; [by left | right].
  rewrite array_of_lookup in H. destruct (_ && _); [|discriminate H]. by injection H as <-.
Qed.

Lemma ex_table_dom e : is_Some (ex_table !! e) <-> 0 <= e < NENV.
Proof.
  unfold ex_table. rewrite lookup_union_is_Some, array_of_dom. split; [|by right]. intros [[v Hv] | ?]; [|done].
  change (envs ex_two) with (<[5 := ex_other]> {[ 1 := ex_faulting ]} : gmap Z Env) in Hv.
  apply lookup_insert_Some in Hv as [[<- _] | [_ Hv]]; [by split|]. apply lookup_singleton_Some in Hv as [<- _]. by split.
Qed.

Lemma ex_divides_ok : kernel_ok ex_kref ex_divides [] [] ex_spaces.
Proof. exact (kernel_ok_padded ex_kref ex_two [] ex_spaces ex_table ex_two_ok ex_table_old ex_table_new). Qed.

Lemma user_trap_envs tf s c v m : user_trap tf s c v -> m !! c = Some v -> user_trap tf (set_envs m s) c v.
Proof. intros [H1 H2 H3 H4 H5 H6 H7 H8 H9] Hm. by constructor. Qed.

Lemma ex_divides_trap : user_trap ex_divide_frame ex_divides 1 ex_faulting.
Proof.
  destruct ex_two_trap as (E1 & E2 & E3 & E4 & E5 & E6). apply user_trap_envs; [|exact (ex_table_old 1 _ E2)].
  constructor; [reflexivity | reflexivity | reflexivity | discriminate | exact E5 | exact E1 | exact E2 | reflexivity |].
  split; [discriminate | reflexivity].
Qed.

Lemma pick_envs s s' l : envs s = envs s' -> pick s l = pick s' l.
Proof. intros E. induction l as [|e l IH]; [done|]. cbn [pick]. rewrite IH. unfold runnable. by rewrite E. Qed.

Definition ex_next : kstate :=
  set_envs (<[1 := freed_env (env_free_list ex_divides) (set_env_tf ex_divide_frame ex_faulting)]> (envs ex_divides)) ex_divides.

Lemma trap_destroys_witness :
  exists s' l', kernel_ok ex_kref s' l' [1] (delete 1 ex_spaces) /\
    (exists w, @trap ex_divide_frame unit 0 0 ex_divides = (Stop (SUser 5), switched 5 w s')).
Proof.
  assert (Hf : fatal_trap ex_divide_frame ex_faulting) by (right; rewrite !not_elem_of_cons; split_and!; (discriminate || apply not_elem_of_nil)).
  destruct (trap_destroys ex_kref unit ex_divide_frame 0 0 ex_divides 1 ex_faulting [] [] ex_spaces
    ex_divides_ok ex_divides_trap Hf ex_table_dom) as (s1 & l' & [H1 H2 _ _] & Hrun).
  exists s1, l'. split; [exact H1|].
  assert (Hp : pick s1 (round_robin 0) = Some 5).
  { rewrite (pick_envs s1 ex_next _ H2). vm_compute. reflexivity. }
  rewrite Hp in Hrun. destruct Hrun as (w & _ & _ & _ & Hrun). exists w. exact Hrun.
Defined.

End Witness.
