(* ===== verification/TrapSyscall.v ===== *)
(** * TrapSyscall: a system call from the trap to the return

    Each system call of the dispatcher, on every branch, and the way back to
    the environment that made it -- or on to the scheduler, when it ended
    itself. *)

From S2P Require Import Prelude Machine CString Printfmt Hardware Console PrintfProps Kernel KernelProps Spinlock.
From S2P Require Import Pmap PageAlloc PageTable Example UserMem PtProps Env EnvProps EnvFree Sched SchedProps.
From S2P Require Import Syscall SyscallProps Trap TrapUser UserFault SysCputs KernelExit KernelInv KernelSafe Isolation TrapDestroy.

(** ** What a system call does *)

Section Calls.

Context (kref : Z -> Z) (fuel : nat).

(** [served s l L S c v n a1 a2 o s']: environment [c], with entry [v], asks in
    state [s] for call [n]; the call ends with [o] in state [s']. *)
Inductive served (s : kstate) (l L : list Z) (S : gmap Z space) (c : Z) (v : Env) : Z -> Z -> Z -> outcome Z -> kstate -> Prop :=
| sv_cputs a1 a2 con' :
    sys_cputs a1 a2 s = (Ret tt, set_con con' s) -> served s l L S c v SYS_cputs a1 a2 (Ret 0) (set_con con' s)
| sv_cputs_stops a1 a2 r s' :
    sys_cputs a1 a2 s = (Stop r, s') -> served s l L S c v SYS_cputs a1 a2 (Stop r) s'
| sv_cgetc a1 a2 ch con' :
    cons_getc fuel (con s) = Some (ch, con') -> served s l L S c v SYS_cgetc a1 a2 (Ret ch) (set_con con' s)
| sv_cgetc_busy a1 a2 :
    cons_getc fuel (con s) = None -> served s l L S c v SYS_cgetc a1 a2 (Stop SDiverge) s
| sv_getenvid a1 a2 : served s l L S c v SYS_getenvid a1 a2 (Ret (env_id v)) s
| sv_destroy_nobody a1 a2 :
    envid2env (i32 a1) true s = (Ret (- E_BAD_ENV, None), s) -> served s l L S c v SYS_env_destroy a1 a2 (Ret (- E_BAD_ENV)) s
| sv_destroy_self a1 a2 s1 l1 r s' :
    envid2env (i32 a1) true s = (Ret (0, Some c), s) -> destroyed kref s l L S c v s1 l1 -> @sched_yield unit s1 = (Stop r, s') ->
    served s l L S c v SYS_env_destroy a1 a2 (Stop r) s'
| sv_destroy_child a1 a2 e u l' s' :
    envid2env (i32 a1) true s = (Ret (0, Some e), s) -> e <> c -> parent s c e ->
    envs s !! e = Some u -> env_status u <> ENV_FREE -> env_status u <> ENV_RUNNING ->
    kernel_ok kref s' l' (e :: L) (delete e S) -> envs s' = <[e := freed_env (env_free_list s) u]> (envs s) ->
    (forall x f k, S !! e = Some x -> ~ table_of x f -> mget (mem s') f k = mget (mem s) f k) ->
    served s l L S c v SYS_env_destroy a1 a2 (Ret 0) s'
| sv_destroy_elsewhere a1 a2 e u con' :
    envid2env (i32 a1) true s = (Ret (0, Some e), s) -> e <> c -> parent s c e ->
    envs s !! e = Some u -> env_status u = ENV_RUNNING ->
    served s l L S c v SYS_env_destroy a1 a2 (Ret 0) (set_envs (<[e := set_env_status ENV_DYING u]> (envs s)) (set_con con' s))
| sv_refused n a1 a2 : 4 <= n -> served s l L S c v n a1 a2 (Ret (- E_INVAL)) s.

(** [sys_cputs] returns only when it has printed. *)
Lemma user_mem_check_state env va len perm s o s' :
  user_mem_check env va len perm s = (o, s') -> s' = s \/ o = Ret (- E_FAULT) \/ exists r, o = Stop r.
Proof.
  unfold user_mem_check. generalize (Z.to_nat (len / PGSIZE) + 3)%nat as n. generalize (u32 (u32 va + len)) as b. generalize (u32 va) as a.
  generalize (u32 (Z.lor (Z.lor perm PTE_U) PTE_P)) as pm. intros pm a b n. revert a.
  induction n as [|n IH]; intros a; cbn [user_mem_check_loop]; [intros [= <- <-]; by left|].
  destruct (negb (a <? b)); [intros [= <- <-]; by left|].
  destruct (ULIM <=? a); [intros [= <- <-]; right; by left|].
  destruct (reads_env_get env s) as [[v|r] E]; [rewrite (bind_Ret _ _ _ _ _ E)|rewrite (bind_Stop _ _ _ _ _ E); intros [= <- <-]; by left].
  destruct (reads_walk (env_pgdir v) a s) as [[pte|r] E1]; [rewrite (bind_Ret _ _ _ _ _ E1)|rewrite (bind_Stop _ _ _ _ _ E1); intros [= <- <-]; by left].
  assert (Hb : reads (if pte =? 0 then mret true else d ← kload pte; mret (negb (Z.land d pm =? pm)))).
  { destruct (pte =? 0); [apply reads_ret | apply reads_bind; [apply reads_kload | intros; apply reads_ret]]. }
  destruct (Hb s) as [[bad|r] E2]; [rewrite (bind_Ret _ _ _ _ _ E2)|rewrite (bind_Stop _ _ _ _ _ E2); intros [= <- <-]; by left].
  destruct bad; [intros [= <- <-]; right; by left | apply IH].
Qed.

Lemma cprintf_outcome fmt ap s : (exists con', cprintf fmt ap s = (Ret tt, set_con con' s)) \/ exists r, cprintf fmt ap s = (Stop r, s).
Proof. unfold cprintf. destruct (Console.cprintf _ _ _) as [[n con']|]; [left | right]; by eexists. Qed.

Lemma mem_assert_outcome s c va len perm s' :
  curenv s = Some c -> user_mem_assert c va len perm s = (Ret tt, s') -> s' = s.
Proof.
  intros Hc. unfold user_mem_assert. destruct (user_mem_check c va len (Z.lor perm PTE_U) s) as [[r|r] s1] eqn:E.
  2:{ rewrite (bind_Stop _ _ _ _ _ E). discriminate. }
  assert (Hc1 : curenv s1 = Some c).
  { assert (Hst : Steady (fun t => curenv t = Some c)) by by constructor.
    exact (proj1 (ok_user_mem_check (I := fun t => curenv t = Some c) _ _ _ _ s _ _ Hc E)). }
  rewrite (bind_Ret _ _ _ _ _ E). destruct (Z.ltb_spec r 0) as [Hr|Hr].
  - destruct (reads_env_get c s1) as [[v|x] Ev]; [rewrite (bind_Ret _ _ _ _ _ Ev) | rewrite (bind_Stop _ _ _ _ _ Ev); discriminate].
    rewrite (bind_Ret _ _ _ _ _ (get_eq s1)).
    match goal with |- (cprintf ?f ?a ≫= _) _ = _ -> _ => destruct (cprintf_outcome f a s1) as [[con' Ep]|[x Ep]] end;
      [rewrite (bind_Ret _ _ _ _ _ Ep) | rewrite (bind_Stop _ _ _ _ _ Ep); discriminate].
    destruct (env_destroy_current (set_con con' s1) c Hc1) as (x & s2 & Ed). rewrite Ed. discriminate.
  - intros [= <-]. destruct (user_mem_check_state _ _ _ _ _ _ _ E) as [|[[= ->]|[x [=]]]]; [done | done].
Qed.

Lemma cputs_served s l L S c v a1 a2 :
  curenv s = Some c -> exists o s', (sys_cputs a1 a2 ;; mret 0) s = (o, s') /\ served s l L S c v SYS_cputs a1 a2 o s' /\
    forall r, o = Ret r -> exists con', s' = set_con con' s.
Proof.
  intros Hc. destruct (sys_cputs a1 a2 s) as [[[]|r] s'] eqn:E.
  2:{ exists (Stop r), s'. split; [by apply bind_Stop|]. split; [by apply sv_cputs_stops | done]. }
  assert (Hs : exists con', s' = set_con con' s).
  { revert E. unfold sys_cputs. rewrite (bind_Ret _ _ _ _ _ (get_eq s)), Hc, (bind_Ret _ _ _ _ _ (deref_eq c s)).
    destruct (user_mem_assert c a1 a2 PTE_U s) as [[[]|r] s1] eqn:E; [|rewrite (bind_Stop _ _ _ _ _ E); discriminate].
    rewrite (bind_Ret _ _ _ _ _ E). rewrite (mem_assert_outcome _ _ _ _ _ _ Hc E). clear E s1.
    destruct (reads_read_user (Z.to_nat a2) a1 s) as [[[t f]|r] E]; [rewrite (bind_Ret _ _ _ _ _ E) | rewrite (bind_Stop _ _ _ _ _ E); discriminate].
    destruct f as [a|].
    - match goal with |- (cprintf ?f ?a ≫= _) _ = _ -> _ => destruct (cprintf_outcome f a s) as [[con' Ep]|[x Ep]] end;
        [rewrite (bind_Ret _ _ _ _ _ Ep) | rewrite (bind_Stop _ _ _ _ _ Ep)]; discriminate.
    - match goal with |- cprintf ?f ?a _ = _ -> _ => destruct (cprintf_outcome f a s) as [[con' Ep]|[x Ep]] end; rewrite Ep; [|discriminate].
      intros [= <-]. by exists con'. }
  destruct Hs as [con' ->]. exists (Ret 0), (set_con con' s). split; [by rewrite (bind_Ret _ _ _ _ _ E)|].
  split; [by apply sv_cputs | eauto].
Qed.

(** [sys_env_destroy]: whom an identifier names. *)
Lemma destroy_names s c id :
  curenv s = Some c -> live s c -> is_Some (envs s !! ENVX id) ->
  envid2env id true s = (Ret (- E_BAD_ENV, None), s) \/
  exists e u, envid2env id true s = (Ret (0, Some e), s) /\ envs s !! e = Some u /\ env_status u <> ENV_FREE /\ (e = c \/ parent s c e).
Proof.
  intros Hc Hl [w Hw]. assert (Hl' := Hl). destruct Hl' as (v & Hv & Hst).
  assert (Hr := envid2env_result c id true s). destruct (envid2env id true s) as [o s'] eqn:E.
  destruct (Hr o s' Hc Hl eq_refl) as [-> Ho]. clear Hr. revert E Ho. unfold envid2env. rewrite (bind_Ret _ _ _ _ _ (get_eq s)), Hc.
  destruct (id =? 0).
  - intros [= <-] Ho. right. exists c, v. split; [done|]. split; [done|]. split; [done | by left].
  - rewrite (bind_Ret _ _ _ _ _ (env_get_eq _ _ _ Hw)). destruct (_ || _); [intros [= <-] _; by left|].
    destruct (_ && _).
    + rewrite (bind_Ret _ _ _ _ _ (deref_eq c s)), (bind_Ret _ _ _ _ _ (env_get_eq _ _ _ Hv)).
      destruct (negb _); intros [= <-] Ho; [by left | right].
      destruct (Ho eq_refl) as (e & [= <-] & (u & Hu & Hus) & Hp). exists (ENVX id), u. auto.
    + intros [= <-] Ho. right. destruct (Ho eq_refl) as (e & [= <-] & (u & Hu & Hus) & Hp). exists (ENVX id), u. auto.
Qed.

Lemma destroy_served s l L S c v a1 a2 :
  kernel_ok kref s l L S -> curenv s = Some c -> envs s !! c = Some v -> env_status v = ENV_RUNNING -> is_Some (envs s !! ENVX (i32 a1)) ->
  exists o s', sys_env_destroy (i32 a1) s = (o, s') /\ served s l L S c v SYS_env_destroy a1 a2 o s' /\
    forall r, o = Ret r -> curenv s' = Some c /\ envs s' !! c = Some v /\ kernel_lock s' = kernel_lock s /\ this_cpu s' = this_cpu s.
Proof.
  intros H Hc Hv Hst Hid. assert (Hl : live s c) by (exists v; by rewrite Hst).
  unfold sys_env_destroy. destruct (destroy_names s c _ Hc Hl Hid) as [E | (e & u & E & Hu & Hus & Hp)].
  { eexists _, s. split; [by rewrite (bind_Ret _ _ _ _ _ E)|]. split; [by apply sv_destroy_nobody | done]. }
  rewrite (bind_Ret _ _ _ _ _ E). change (0 <? 0) with false. cbv iota. rewrite (bind_Ret _ _ _ _ _ (get_eq s)).
  assert (Hid2 : sys_getenvid s = (Ret (env_id v), s)).
  { unfold sys_getenvid. rewrite (bind_Ret _ _ _ _ _ (get_eq s)), Hc, (bind_Ret _ _ _ _ _ (deref_eq c s)). by rewrite (bind_Ret _ _ _ _ _ (env_get_eq _ _ _ Hv)). }
  rewrite (bind_Ret _ _ _ _ _ Hid2), Hc. destruct (decide (e = c)) as [->|Hne].
  - rewrite (bool_decide_true (Some c = Some c)) by done. kprint con'. rewrite (bind_Ret _ _ _ _ _ (deref_eq c _)).
    assert (H1 : kernel_ok kref (set_con con' s) l L S) by by apply (kernel_ok_frame kref s).
    destruct (env_destroy_self kref (set_con con' s) l L S c v H1 Hc Hv) as (s1 & l1 & Hd & _ & _ & Ed); [by rewrite Hst|].
    destruct (never_sched_yield (A := unit) s1) as (r & s' & Ey). exists (Stop r), s'. split; [apply bind_Stop; by rewrite Ed|].
    split; [|done]. eapply sv_destroy_self; [exact E | | exact Ey].
    eapply (destroyed_before kref (set_con con' s)); [exact Hd | cbn [envs set_con]; by rewrite insert_id | done | done].
  - assert (Hpar : parent s c e) by by destruct Hp.
    rewrite (bool_decide_false (Some e = Some c)) by congruence.
    rewrite (bind_assoc (deref (Some e))), (bind_Ret _ _ _ _ _ (deref_eq e s)), (bind_assoc (env_get e)), (bind_Ret _ _ _ _ _ (env_get_eq _ _ _ Hu)).
    kprint con'. rewrite (bind_Ret _ _ _ _ _ (deref_eq e _)). unfold env_destroy.
    set (s1 := set_con con' s). assert (Hc1 : curenv s1 = Some c) by exact Hc. assert (Hu1 : envs s1 !! e = Some u) by exact Hu.
    rewrite (bind_assoc get), (bind_Ret _ _ _ _ _ (get_eq s1)), (bind_assoc (env_get e)), (bind_Ret _ _ _ _ _ (env_get_eq _ _ _ Hu1)).
    rewrite (bool_decide_false (curenv s1 = Some e)) by (rewrite Hc1; congruence). rewrite andb_true_r.
    case_bool_decide as Hrun.
    + rewrite (bind_Ret _ _ _ _ _ (env_update_eq _ _ _ _ Hu1)). eexists (Ret 0), _. split; [reflexivity|].
      split; [exact (sv_destroy_elsewhere s l L S c v a1 a2 e u con' E Hne Hpar Hu Hrun)|]. intros _ _. split; [done|]. split; [|done]. cbn [envs set_envs]. by rewrite lookup_insert_ne.
    + assert (H1 : kernel_ok kref s1 l L S) by by apply (kernel_ok_frame kref s).
      destruct (env_free_ok kref s1 l L S e u H1) as (s2 & l' & x & Hx & Hfree & _ & H2 & Ee & Em); [|done|done|].
      { intros z. rewrite Hc1. intros [= <-]. by exists v. }
      assert (Hkeep : curenv s2 = Some c /\ kernel_lock s2 = kernel_lock s /\ this_cpu s2 = this_cpu s).
      { assert (Hs : Steady (fun t => curenv t = Some c /\ kernel_lock t = kernel_lock s /\ this_cpu t = this_cpu s)) by by constructor.
        exact (proj1 (ok_env_free (I := fun t => curenv t = Some c /\ kernel_lock t = kernel_lock s /\ this_cpu t = this_cpu s)
          e s1 _ _ (conj Hc1 (conj eq_refl eq_refl)) Hfree)). }
      rewrite (bind_assoc (env_free e)), (bind_Ret _ _ _ _ _ Hfree), (bind_assoc get), (bind_Ret _ _ _ _ _ (get_eq s2)).
      rewrite (bool_decide_false (curenv s2 = Some e)) by (rewrite (proj1 Hkeep); congruence).
      exists (Ret 0), s2. split; [reflexivity|]. split.
      * eapply sv_destroy_child; [exact E | done | done | exact Hu | done | done | exact H2 | exact Ee |].
        intros y f k Hy. rewrite Hx in Hy. injection Hy as <-. apply Em.
      * intros _ _. destruct Hkeep as (K1 & K2 & K3). split; [done|]. split; [|done]. by rewrite Ee, lookup_insert_ne.
Qed.

Lemma syscall_served s l L S c v n a1 a2 a3 a4 a5 :
  kernel_ok kref s l L S -> curenv s = Some c -> envs s !! c = Some v -> env_status v = ENV_RUNNING ->
  (forall e, is_Some (envs s !! e) <-> 0 <= e < NENV) -> 0 <= n ->
  exists o s', syscall fuel n a1 a2 a3 a4 a5 s = (o, s') /\ served s l L S c v n a1 a2 o s' /\
    forall r, o = Ret r -> curenv s' = Some c /\ envs s' !! c = Some v /\ kernel_lock s' = kernel_lock s /\ this_cpu s' = this_cpu s.
Proof.
  intros H Hc Hv Hst Hd Hn. destruct (Z.le_gt_cases 4 n) as [Hge|Hlt].
  { exists (Ret (- E_INVAL)), s. split; [by apply syscall_others|]. split; [by apply sv_refused | done]. }
  assert (Hcase : n = SYS_cputs \/ n = SYS_cgetc \/ n = SYS_getenvid \/ n = SYS_env_destroy)
    by (unfold SYS_cputs, SYS_cgetc, SYS_getenvid, SYS_env_destroy; lia).
  destruct Hcase as [-> | [-> | [-> | ->]]].
  - destruct (cputs_served s l L S c v a1 a2 Hc) as (o & s' & E & Hs & Hcon). exists o, s'. split; [exact E|]. split; [exact Hs|].
    intros r Hr. destruct (Hcon r Hr) as [con' ->]. done.
  - change (syscall fuel SYS_cgetc a1 a2 a3 a4 a5) with (sys_cgetc fuel). unfold sys_cgetc.
    destruct (cons_getc fuel (con s)) as [[ch con']|] eqn:E.
    + exists (Ret ch), (set_con con' s). split; [done|]. split; [by apply sv_cgetc | done].
    + exists (Stop SDiverge), s. split; [done|]. split; [by apply sv_cgetc_busy | done].
  - change (syscall fuel SYS_getenvid a1 a2 a3 a4 a5) with sys_getenvid. exists (Ret (env_id v)), s. split; [|split; [apply sv_getenvid | done]].
    unfold sys_getenvid. rewrite (bind_Ret _ _ _ _ _ (get_eq s)), Hc, (bind_Ret _ _ _ _ _ (deref_eq c s)). by rewrite (bind_Ret _ _ _ _ _ (env_get_eq _ _ _ Hv)).
  - change (syscall fuel SYS_env_destroy a1 a2 a3 a4 a5) with (sys_env_destroy (i32 a1)). apply destroy_served; try done.
    apply Hd. apply ENVX_range.
Qed.

End Calls.

(** ** From the trap to the return *)

(** C16. A system call from the trap instruction to the return to user mode, for every number.  When
    the running environment traps with a system call, the kernel takes its lock, saves the
    registers and runs the call with the arguments of the registers: sys_cputs returns only when
    it has printed, and changes the console only; sys_cgetc returns a character of the console;
    sys_getenvid the identifier of the caller; sys_env_destroy refuses an identifier that the
    caller may not name, ends the caller, ends a child that is not running with everything it
    held given back, or marks as dying a child that runs on another processor; every other number
    gives -E_INVAL.  When the call returns, its result is stored in %eax of the saved frame and
    nothing else of it, and the same environment is resumed with the lock released, its page
    directory loaded, and memory and the other environments as the call left them.  When the call
    ends the caller -- or the kernel faults in sys_cputs -- the trap ends as the call does. *)
Theorem trap_syscall_returns kref A tf fuel addr s c v l L S
  (H : kernel_ok kref s l L S) (Ht : user_trap tf s c v) (Hn : tf_trapno tf = T_SYSCALL)
  (Hd : forall e, is_Some (envs s !! e) <-> 0 <= e < NENV) (Hno : 0 <= reg_eax (tf_regs tf)) :
  exists o s1,
    served kref fuel (entered tf c v s) l L S c (set_env_tf tf v)
      (reg_eax (tf_regs tf)) (reg_edx (tf_regs tf)) (reg_ecx (tf_regs tf)) o s1 /\
    match o with
    | Ret ret =>
        exists s', @trap tf A fuel addr s = (Stop (SUser c), s') /\
          envs s' !! c = Some (running_env (this_cpu s) (set_env_tf (with_result ret tf) v)) /\
          (forall e, e <> c -> envs s' !! e = envs s1 !! e) /\ curenv s' = Some c /\
          kernel_lock s' = mkSpinlock 0 None /\ cr3 s' = env_pgdir v - KERNBASE /\ mem s' = mem s1 /\ con s' = con s1
    | Stop r => @trap tf A fuel addr s = (Stop r, s1)
    end.
Proof.
  set (s0 := entered tf c v s). set (v0 := set_env_tf tf v).
  assert (Hc0 : curenv s0 = Some c) by apply (curenv_entered tf c v s (ut_cur _ _ _ _ Ht)).
  assert (He0 : envs s0 !! c = Some v0) by apply entered_env.
  assert (Hok : kernel_ok kref s0 l L S) by exact (entered_ok kref tf s c v l L S H (ut_env _ _ _ _ Ht) (ut_status _ _ _ _ Ht) (con s0)).
  assert (Hd0 : forall e, is_Some (envs s0 !! e) <-> 0 <= e < NENV).
  { intros e. rewrite <- Hd. assert (E0 : envs s0 = <[c := v0]> (envs s)) by done. rewrite E0, lookup_insert.
    case_decide as E; [subst e | done]. split; [by rewrite (ut_env _ _ _ _ Ht) | by eauto]. }
  destruct (syscall_served kref fuel s0 l L S c v0 _ (reg_edx (tf_regs tf)) (reg_ecx (tf_regs tf)) (reg_ebx (tf_regs tf))
    (reg_edi (tf_regs tf)) (reg_esi (tf_regs tf)) Hok Hc0 He0 (ut_status _ _ _ _ Ht) Hd0 Hno) as (o & s1 & Hrun & Hs & Hret).
  exists o, s1. split; [exact Hs|]. destruct o as [ret|r].
  - destruct (Hret ret eq_refl) as (Hc1 & He1 & Hl1 & Ht1).
    assert (Hl : holds_lock s1) by (unfold holds_lock; rewrite Hl1, Ht1; exact (entered_lock tf c v s)).
    eexists. split; [exact (trap_syscall_resumes tf fuel addr s c v ret s1 Ht Hn Hrun Hc1 He1 Hl)|].
    destruct (switched_again c (set_env_tf (with_result ret tf) v) (envs s1) s1 Hc1) as (F1 & F2 & F3 & F4 & F5 & F6).
    rewrite Ht1 in F1. by split_and!.
  - exact (trap_syscall_stops tf fuel addr s c v r s1 Ht Hn Hrun).
Qed.

(** Environment 1 asks for its identifier. *)
Lemma ex_divides_call n : user_trap (ex_call n) ex_divides 1 ex_faulting.
Proof. destruct ex_divides_trap. by constructor. Qed.

Lemma trap_syscall_returns_witness :
  exists s', @trap (ex_call SYS_getenvid) unit 0 0 ex_divides = (Stop (SUser 1), s') /\
    exists v', envs s' !! 1 = Some v' /\ reg_eax (tf_regs (env_tf v')) = 0x1001 /\ tf_eip (env_tf v') = 0x800020.
Proof.
  destruct (trap_syscall_returns ex_kref unit (ex_call SYS_getenvid) 0 0 ex_divides 1 ex_faulting [] [] ex_spaces
    ex_divides_ok (ex_divides_call SYS_getenvid) eq_refl ex_table_dom ltac:(discriminate)) as (o & s1 & Hs & Hrun).
  assert (Ho : o = Ret 0x1001).
  { clear Hrun. generalize dependent (entered (ex_call SYS_getenvid) 1 ex_faulting ex_divides). intros s0 Hs. by inversion Hs. }
  clear Hs. rewrite Ho in Hrun. destruct Hrun as (s' & H1 & H2 & _). exists s'. split; [exact H1|]. eexists. split; [exact H2|]. split; reflexivity.
Defined.
