(* ===== verification/KernelCalls.v ===== *)
(** * KernelCalls: system calls keep the invariant of the kernel

    [kernel_ok] of KernelInv.v when an address space changes ([page_insert],
    [page_remove]) and when an environment is created ([env_alloc]), and so
    along the system calls that create environments, share pages and pass
    messages, most of which the dispatcher does not reach. *)

From S2P Require Import Prelude Machine CString Printfmt Hardware Console Kernel KernelProps Spinlock Pmap PageAlloc.
From S2P Require Import PageTable Example UserMem PtProps Env EnvProps EnvAlloc EnvFree Sched Syscall SyscallProps.
From S2P Require Import Trap KernelExit TrapUser UserFault KernelInv KernelSafe Isolation.

(** ** Counting *)

Section Counts.

Context {V : Type} (f : V -> Z).

Lemma count_val_none (m : gmap Z V) p : (forall k x, m !! k = Some x -> f x <> p) -> count_val f m p = 0.
Proof.
  intros H. unfold count_val. assert (E : filter (fun kv => f kv.2 = p) m = ∅); [|by rewrite E, map_size_empty].
  apply map_empty. intros k. apply map_lookup_filter_None. right. intros x Hk. by apply (H k).
Qed.

Lemma count_val_one (m : gmap Z V) k x :
  m !! k = Some x -> (forall j y, m !! j = Some y -> f y = f x -> j = k) -> count_val f m (f x) = 1.
Proof.
  intros Hk Hu. pose proof (count_val_delete f m k x (f x) Hk) as E. rewrite decide_True in E by done.
  rewrite (count_val_none (delete k m)) in E; [lia|].
  intros j y [Hne Hj]%lookup_delete_Some Ef. by apply Hne, eq_sym, (Hu j y).
Qed.

End Counts.

Lemma below_UTOP va : 0 <= va < UTOP -> below_utop (PDX va) /\ 0 <= va < 2 ^ 32.
Proof.
  intros Hva. change UTOP with 4005560320 in Hva. unfold below_utop. change (PDX UTOP) with 955. rewrite PDX_div. zdm.
Qed.

(** ** One address space changes *)

Section Spaces.

Context (kref : Z -> Z).

Lemma total_insert S e x p : total (<[e := x]> S) p = refs x p + total (delete e S) p.
Proof. rewrite (total_delete _ e x p (lookup_insert_eq _ _ _)). by rewrite delete_insert_eq. Qed.

Lemma others_zero s l L S e x p :
  kernel_ok kref s l L S -> S !! e = Some x -> table_of x p -> others kref S e p = 0.
Proof.
  intros H Hx Ht. pose proof (ko_own _ _ _ _ _ H e x p Hx Ht) as E. rewrite (total_delete S e x p Hx) in E.
  pose proof (refs_table _ _ Ht). pose proof (ko_kref _ _ _ _ _ H p). pose proof (total_nonneg (delete e S) p).
  unfold others. lia.
Qed.

(** A table is counted once when no mapping leads to it. *)
Lemma refs_table_one D s pgdir x p :
  tables_wf D s pgdir (sp_pd x) (sp_T x) -> table_of x p -> (forall w y, sp_A x !! w = Some y -> y.1 <> p) -> refs x p = 1.
Proof.
  intros W Ht Hn. unfold refs, ref_count. rewrite (count_val_none fst (sp_A x) p Hn). case_decide as Ep.
  - rewrite (count_val_none id (sp_T x) p); [lia|]. intros i t Hi. destruct (tw_some _ _ _ _ _ W i t Hi) as (_ & _ & _ & Hne & _).
    cbn. congruence.
  - destruct Ht as [|[i Hi]]; [done|]. assert (E : count_val id (sp_T x) p = 1); [|lia].
    apply (count_val_one id (sp_T x) i p Hi). intros j t Hj E. cbn in E. subst t. by apply (tw_inj _ _ _ _ _ W j i p).
Qed.

(** The space of environment [e] changes: new page tables come from the free
    list, and new mappings lead to pages that are no tables. *)
Lemma kernel_ok_space s s' l l' L S e v x T' A' :
  kernel_ok kref s l L S -> envs s !! e = Some v -> S !! e = Some x -> mm_eq s s' -> mem_frame (sp_pd x) T' s s' ->
  aspace below_utop s' (env_pgdir v) (sp_pd x) T' A' l' (others kref S e) ->
  (forall i t, T' !! i = Some t -> sp_T x !! i = Some t \/ t ∈ l) ->
  (forall w y, A' !! w = Some y ->
    sp_A x !! w = Some y \/ ((forall e' z, S !! e' = Some z -> ~ table_of z y.1) /\ y.1 ∉ l)) ->
  kernel_ok kref s' l' L (<[e := mkSpace (sp_pd x) T' A']> S).
Proof.
  intros H He Hx Hmm Hfr Has HT HA. set (x' := mkSpace (sp_pd x) T' A').
  assert (Hasp := kernel_aspace kref s l L S e v x H He Hx).
  assert (Hown : forall p, table_of x' p -> table_of x p \/ p ∈ l).
  { intros p [-> | [i Hi]]; [left; by left|]. destruct (HT i p Hi) as [Ht|]; [left; right; eauto | by right]. }
  assert (Hmap : forall p, table_of x p \/ p ∈ l -> forall w y, A' !! w = Some y -> y.1 <> p).
  { intros p Hp w y Hy E. destruct (HA w y Hy) as [Hy' | [Hn Hl]]; [|rewrite E in Hn, Hl].
    - destruct Hp as [Hp|Hp].
      + apply (mapped_no_table kref s l L S e e x x w y H Hx Hx Hy'). by rewrite E.
      + destruct (aspace_free _ _ _ _ _ _ _ _ _ Hasp Hp) as (_ & _ & Hn & _). by apply (Hn w y Hy').
    - destruct Hp as [Hp|Hp]; [by apply (Hn e x Hx) | done]. }
  assert (Hdisj : forall e' y p, e' <> e -> S !! e' = Some y -> table_of y p -> ~ table_of x' p).
  { intros e' y p Hne Hy Hty Htx. destruct (Hown p Htx) as [Ht|Hl]; [by apply Hne, (table_unique kref s l L S e' e y x p H)|].
    destruct (aspace_free _ _ _ _ _ _ _ _ _ Hasp Hl) as (_ & _ & _ & E). unfold others in E.
    pose proof (refs_table _ _ Hty). pose proof (total_least (delete e S) e' y p ltac:(by rewrite lookup_delete_ne)).
    pose proof (ko_kref _ _ _ _ _ H p). lia. }
  assert (Emm : envs s' = envs s /\ env_free_list s' = env_free_list s /\ kern_pgdir s' = kern_pgdir s /\ npages s' = npages s)
    by (rewrite Hmm; by destruct s).
  destruct Emm as (E1 & E2 & E3 & E4). constructor; rewrite ?E1, ?E2, ?E3.
  - apply (as_alloc _ _ _ _ _ _ _ _ Has).
  - apply (ko_chain _ _ _ _ _ H).
  - apply (ko_free _ _ _ _ _ H).
  - intros e'. unfold live. rewrite E1. destruct (decide (e = e')) as [<-|Hne].
    + rewrite lookup_insert_eq. split; [intros _; apply (ko_live _ _ _ _ _ H); by eexists | by eexists].
    + rewrite lookup_insert_ne by done. apply (ko_live _ _ _ _ _ H).
  - intros e' u y Hu Hy. destruct (decide (e = e')) as [<-|Hne].
    + rewrite lookup_insert_eq in Hy. injection Hy as <-. assert (u = v) as -> by congruence. apply (as_space _ _ _ _ _ _ _ _ Has).
    + rewrite lookup_insert_ne in Hy by done. apply (space_wf_tables _ s); [by apply (ko_space _ _ _ _ _ H e') | done|].
      intros f k Hf. assert (Hnt := Hdisj e' y f (not_eq_sym Hne) Hy Hf).
      apply Hfr; [intros ->; apply Hnt; by left | intros i Hi; apply Hnt; right; eauto].
  - intros p pi Hp. destruct (as_refs _ _ _ _ _ _ _ _ Has p pi Hp) as [E Hlt]. split; [|done]. rewrite E, total_insert.
    unfold refs, ref_count, others, x'. cbn [sp_pd sp_T sp_A]. lia.
  - apply (ko_kref _ _ _ _ _ H).
  - intros e' y p Hy Ht. rewrite total_insert. destruct (decide (e = e')) as [<-|Hne].
    + rewrite lookup_insert_eq in Hy. injection Hy as <-.
      rewrite (refs_table_one _ _ _ x' p (sw_tables _ _ _ _ _ _ (as_space _ _ _ _ _ _ _ _ Has)) Ht (Hmap p (Hown p Ht))).
      assert (Eo : others kref S e p = 0) by (destruct (Hown p Ht) as [Ht'|Hl]; [by eapply others_zero | by apply (aspace_free _ _ _ _ _ _ _ _ _ Hasp Hl)]).
      unfold others in Eo. lia.
    + rewrite lookup_insert_ne in Hy by done. pose proof (ko_own _ _ _ _ _ H e' y p Hy Ht) as Ho. rewrite (total_delete S e x p Hx) in Ho.
      assert (Hy' : delete e S !! e' = Some y) by by rewrite lookup_delete_ne.
      pose proof (total_least _ e' y p Hy'). pose proof (refs_table _ _ Ht). pose proof (ko_kref _ _ _ _ _ H p).
      pose proof (refs_nonneg x p). assert (E : refs x' p = 0); [|lia].
      assert (Hnt := Hdisj e' y p (not_eq_sym Hne) Hy Ht). unfold refs, ref_count. unfold x' at 1 2 3. cbn [sp_pd sp_T sp_A].
      rewrite (count_val_none id T' p), (count_val_none fst A' p), decide_False; [done | intros ->; apply Hnt; by left | |].
      * intros w z Hz Ez. destruct (HA w z Hz) as [Hz' | [Hn _]]; [|apply (Hn e' y Hy); by rewrite Ez].
        apply (mapped_no_table kref s l L S e e' x y w z H Hx Hy Hz'). by rewrite Ez.
      * intros i t Hi <-. apply Hnt. right. eauto.
  - apply (ko_kern _ _ _ _ _ H).
Qed.

End Spaces.

(** ** Mapping, unmapping and creation *)

Section Changes.

Context (kref : Z -> Z).

(** A page that some environment has mapped is neither free nor a table. *)
Lemma mapped_page s l L S e x w fl p :
  kernel_ok kref s l L S -> S !! e = Some x -> sp_A x !! w = Some (p, fl) ->
  (p ∉ l) /\ (forall e' z, S !! e' = Some z -> ~ table_of z p) /\ exists pi, pages s !! p = Some pi.
Proof.
  intros H Hx Hw. destruct (proj1 (ko_live _ _ _ _ _ H e) ltac:(by exists x)) as (v & He & _).
  assert (Hasp := kernel_aspace kref s l L S e v x H He Hx). split_and!.
  - intros Hl. destruct (aspace_free _ _ _ _ _ _ _ _ _ Hasp Hl) as (_ & _ & Hn & _). by apply (Hn w (p, fl)).
  - intros e' z Hz. exact (mapped_no_table kref s l L S e e' x z w (p, fl) H Hx Hz Hw).
  - destruct (sw_some _ _ _ _ _ _ (as_space _ _ _ _ _ _ _ _ Hasp) _ _ Hw) as (_ & Hp & _). by apply (aspace_page _ _ _ _ _ _ _ _ _ Hasp).
Qed.

Lemma page_insert_ok s l L S e v x p va fl e2 x2 w2 fl2 :
  kernel_ok kref s l L S -> cur_ok s -> envs s !! e = Some v -> S !! e = Some x -> 0 <= va < UTOP ->
  S !! e2 = Some x2 -> sp_A x2 !! w2 = Some (p, fl2) -> 0 <= fl < 4096 ->
  (forall pi, pages s !! p = Some pi -> pp_ref pi + 1 < 2 ^ 16) ->
  page_insert (env_pgdir v) p va fl s = (Ret (- E_NO_MEM), s) \/
  (exists s' l' x', page_insert (env_pgdir v) p va fl s = (Ret 0, s') /\ mm_eq s s' /\
    kernel_ok kref s' l' L (<[e := x']> S) /\ sp_A x' = <[PGNUM va := (p, Z.lor fl PTE_P)]> (sp_A x) /\
    forall f k, (f ∉ l) -> ~ table_of x f -> mget (mem s') f k = mget (mem s) f k).
Proof.
  intros H Hc He Hx Hva Hx2 Hw Hfl Hroom. destruct (below_UTOP va Hva) as [Hd Hva'].
  assert (Hasp := kernel_aspace kref s l L S e v x H He Hx).
  destruct (mapped_page s l L S e2 x2 w2 fl2 p H Hx2 Hw) as (Hl & Hnt & pi & Hpi).
  pose proof (page_insert_eq below_utop s (env_pgdir v) (sp_pd x) (sp_T x) (sp_A x) l (others kref S e) p va fl pi
    Hasp Hc Hd Hva' Hpi Hl (Hroom pi Hpi) Hfl) as Hi.
  unfold spec_insert in Hi. destruct (spec_table (PGNUM va / 1024) (sp_T x) l) as [[T' l1]|] eqn:Et; [right | by left].
  destruct Hi as (s' & Hrun & Hmm & Hfr & Has). eexists s', _, (mkSpace (sp_pd x) T' _). split; [exact Hrun|]. split; [done|].
  assert (HT : forall i t, T' !! i = Some t -> sp_T x !! i = Some t \/ t ∈ l).
  { intros i t Hi. unfold spec_table in Et. destruct (sp_T x !! (PGNUM va / 1024)) as [t0|]; [injection Et as <- <-; by left|].
    destruct l as [|t1 l2]; [done|]. injection Et as <- <-. apply lookup_insert_Some in Hi as [[_ <-] | [_ Hi]]; [right; by left | by left]. }
  split; [|split; [reflexivity|]].
  2:{ intros f k Hfl2 Hft. apply Hfr; [intros ->; apply Hft; by left|]. intros i Hi. destruct (HT i f Hi) as [Hi'|]; [apply Hft; right; by exists i | done]. }
  eapply (kernel_ok_space kref s s' l _ L S e v x T' _ H He Hx Hmm Hfr Has).
  - exact HT.
  - intros w y [[_ <-] | [_ Hy]]%lookup_insert_Some; [right; done | by left].
Qed.

Lemma page_remove_ok s l L S e v x va :
  kernel_ok kref s l L S -> cur_ok s -> envs s !! e = Some v -> S !! e = Some x -> 0 <= va < UTOP ->
  exists s' l' x', page_remove (env_pgdir v) va s = (Ret tt, s') /\ mm_eq s s' /\
    kernel_ok kref s' l' L (<[e := x']> S) /\ sp_A x' = delete (PGNUM va) (sp_A x) /\
    forall f k, ~ table_of x f -> mget (mem s') f k = mget (mem s) f k.
Proof.
  intros H Hc He Hx Hva. destruct (below_UTOP va Hva) as [Hd Hva'].
  assert (Hasp := kernel_aspace kref s l L S e v x H He Hx).
  destruct (sp_A x !! PGNUM va) as [y|] eqn:Hy.
  - destruct (page_remove_some _ _ _ _ _ _ _ _ _ _ Hasp Hc Hd Hva' Hy) as [Hrun Has].
    destruct (entry_table _ _ _ _ _ _ _ _ (as_space _ _ _ _ _ _ _ _ Hasp) Hva' Hy) as [t Ht].
    eexists _, _, (mkSpace (sp_pd x) (sp_T x) _). split; [exact Hrun|]. split; [apply removed_mm|]. split; [|split; [reflexivity|]].
    2:{ intros f k Hf. eapply (removed_frame _ (sp_pd x) _ _ (sp_T x)); [exact Ht | intros ->; apply Hf; by left | intros i Hi; apply Hf; right; by exists i]. }
    eapply (kernel_ok_space kref s _ l _ L S e v x _ _ H He Hx (removed_mm _ _ _ _ _)); [by eapply removed_frame | exact Has | |].
    + intros i u Hu. by left.
    + intros w z [_ Hz]%lookup_delete_Some. by left.
  - exists s, l, x. split; [by eapply page_remove_none|]. split; [apply mm_eq_refl|]. split.
    + by rewrite insert_id.
    + split; [by rewrite delete_id | done].
Qed.

(** The free list of environments has no duplicates. *)
Lemma env_chain_det m hd L1 L2 : env_chain m hd L1 -> env_chain m hd L2 -> L1 = L2.
Proof.
  revert hd L2. induction L1 as [|e L1 IH]; intros hd [|e2 L2]; cbn [env_chain]; try done.
  - by intros -> [? _].
  - by intros [-> _] ?.
  - intros [-> (v & Hv & H1)] [[= <-] (v2 & Hv2 & H2)]. f_equal. apply (IH (env_link v)); [done|]. by assert (v = v2) as -> by congruence.
Qed.

Lemma env_chain_suffix m hd L1 e L2 : env_chain m hd (L1 ++ e :: L2) -> env_chain m (Some e) (e :: L2).
Proof.
  revert hd. induction L1 as [|x L1 IH]; intros hd; cbn [app]; [intros Hc; by destruct Hc as [-> ?]|].
  intros [_ (v & _ & H)]. by apply (IH (env_link v)).
Qed.

Lemma env_chain_fresh m hd e L : env_chain m hd (e :: L) -> e ∉ L.
Proof.
  intros H (L1 & L2 & ->)%list_elem_of_split. assert (H1 := env_chain_suffix m hd [] e _ H).
  assert (H2 := env_chain_suffix m hd (e :: L1) e L2 H). assert (E := env_chain_det _ _ _ _ H1 H2).
  apply (f_equal length) in E. rewrite !length_cons, length_app, length_cons in E. lia.
Qed.

Lemma vm_mem_other kr p m f k : kr <> p -> f <> p -> mget (vm_mem kr p m) f k = mget m f k.
Proof.
  intros H1 H2. unfold vm_mem. rewrite mget_mset_ne by auto. rewrite mget_copy_words, decide_False by naive_solver.
  assert (E : forall n m', mfill n (4096 * p) 0 m' = mfill n (4096 * p + 4 * 0) 0 m') by (intros; f_equal; lia).
  change (PDX UTOP * 4 / 4) with 955. rewrite E, mget_mfill by lia. rewrite decide_False by naive_solver.
  by rewrite mget_zero_page, decide_False by naive_solver.
Qed.

Lemma empty_space s p : 0 <= p < npages s -> (forall i, 0 <= i < 1024 -> below_utop i -> mget (mem s) p i = 0) ->
  space_wf below_utop s (4096 * p + KERNBASE) p ∅ ∅.
Proof.
  intros Hp Hm. constructor; [constructor | |]; try done. intros i Hi Hd _. by rewrite Hm.
Qed.

(** A state in which environment [e] is new: its directory is page [p], taken from the free list. *)
Lemma kernel_ok_created s s' l L S e p pi kp v parent :
  kernel_ok kref s (p :: l) (e :: L) S -> (e ∉ L) -> env_chain (envs s) (env_link v) L -> envs s !! e = Some v -> S !! e = None ->
  kp <> p -> pages s !! p = Some pi -> kref p + total S p = 0 ->
  kern_pgdir s' = kern_pgdir s -> npages s' = npages s -> mem s' = vm_mem kp p (mem s) ->
  pages s' = <[p := mkPageInfo (link_of s p) 1]> (pages s) -> envs s' = <[e := new_env parent e p v]> (envs s) ->
  env_free_list s' = env_link v -> alloc_wf s' l -> kernel_ok kref s' l L (<[e := mkSpace p ∅ ∅]> S).
Proof.
  intros H HeL Hch He HS Hkf Hpi Hp0 E2 E3 E4 E5 E6 E7 Wl. assert (W := ko_alloc _ _ _ _ _ H).
  pose proof (ko_kref _ _ _ _ _ H p). pose proof (total_nonneg S p).
  assert (Hnew : forall q, refs (mkSpace p ∅ ∅) q = if decide (q = p) then 1 else 0).
  { intros q. unfold refs, ref_count. cbn [sp_pd sp_T sp_A]. rewrite !count_val_empty. lia. }
  assert (Htot : forall q, total (<[e := mkSpace p ∅ ∅]> S) q = (if decide (q = p) then 1 else 0) + total S q).
  { intros q. by rewrite total_insert, delete_id, Hnew. }
  assert (Hpt : forall e' y, S !! e' = Some y -> ~ table_of y p).
  { intros e' y Hy Ht. pose proof (ko_own _ _ _ _ _ H e' y p Hy Ht). lia. }
  constructor; rewrite ?E2, ?E3, ?E6, ?E7.
  - done.
  - by apply (env_chain_same_link _ _ _ e v).
  - intros e' w Hin. rewrite lookup_insert_ne by (intros ->; exact (HeL Hin)). apply (ko_free _ _ _ _ _ H). by right.
  - intros e'. unfold live. rewrite E6. destruct (decide (e = e')) as [<-|Hne].
    + rewrite !lookup_insert_eq. split; intros _; [exists (new_env parent e p v); split; [reflexivity | discriminate] | by eexists].
    + rewrite !lookup_insert_ne by done. apply (ko_live _ _ _ _ _ H).
  - intros e' w y Hw Hy. destruct (decide (e = e')) as [<-|Hne].
    + rewrite lookup_insert_eq in Hw. rewrite lookup_insert_eq in Hy. injection Hw as <-. injection Hy as <-.
      apply empty_space; [rewrite E3; apply (aw_dom _ _ W p); by exists pi|]. intros i Hi Hd. unfold below_utop in Hd.
      rewrite E4, mget_vm_mem by assumption. rewrite decide_True by reflexivity.
      change (PDX UTOP) with 955 in *. change (PDX UVPT) with 957. rewrite decide_False by lia. by rewrite decide_True by lia.
    + rewrite lookup_insert_ne in Hw by done. rewrite lookup_insert_ne in Hy by done.
      apply (space_wf_tables _ s); [by apply (ko_space _ _ _ _ _ H e') | exact E3|]. intros f k Ht. rewrite E4. apply vm_mem_other; [done|].
      intros ->. by apply (Hpt e' y).
  - intros q qi Hq. rewrite Htot. rewrite E5 in Hq. destruct (decide (q = p)) as [->|Hne].
    + rewrite lookup_insert_eq in Hq. injection Hq as <-. cbn [pp_ref]. split; [lia | done].
    + rewrite lookup_insert_ne in Hq by done. rewrite Z.add_0_l. by apply (ko_refs _ _ _ _ _ H).
  - apply (ko_kref _ _ _ _ _ H).
  - intros e' y q Hy Ht. rewrite Htot. destruct (decide (e = e')) as [<-|Hne].
    + rewrite lookup_insert_eq in Hy. injection Hy as <-. destruct Ht as [-> | [i Hi]]; [|done]. cbn [sp_pd]. rewrite decide_True by done. lia.
    + rewrite lookup_insert_ne in Hy by done. rewrite decide_False; [by apply (ko_own _ _ _ _ _ H e' y) | intros ->; by apply (Hpt e' y)].
  - apply (ko_kern _ _ _ _ _ H).
Qed.

(** A new environment. *)
Lemma env_alloc_ok s l L S e p kp parent :
  kernel_ok kref s (p :: l) (e :: L) S -> cur_ok s -> kern_pgdir s = 4096 * kp + KERNBASE -> 0 <= kp < 65536 -> 1 <= kref kp ->
  exists v s', envs s !! e = Some v /\ env_alloc parent s = (Ret (0, Some e), s') /\ curenv s' = curenv s /\
    kern_pgdir s' = kern_pgdir s /\ kernel_ok kref s' l L (<[e := mkSpace p ∅ ∅]> S) /\
    envs s' = <[e := new_env parent e p v]> (envs s) /\ S !! e = None /\
    (forall f k, f <> p -> mget (mem s') f k = mget (mem s) f k) /\ (holds_lock s -> holds_lock s').
Proof.
  intros H Hc Hk Hkp Hkr. assert (Hch := ko_chain _ _ _ _ _ H). assert (HeL := env_chain_fresh _ _ _ _ Hch).
  destruct Hch as [Hf (v & He & Hch)].
  assert (Hfree : env_status v = ENV_FREE) by (apply (ko_free _ _ _ _ _ H e v); [by left | done]).
  assert (HS : S !! e = None).
  { destruct (S !! e) as [x|] eqn:Hx; [|done]. destruct (proj1 (ko_live _ _ _ _ _ H e) ltac:(by exists x)) as (w & Hw & Hs). congruence. }
  assert (W := ko_alloc _ _ _ _ _ H). assert (Hp : p ∈ p :: l) by by left.
  destruct (alloc_wf_in _ _ _ W Hp) as (pi & Hpi & Hpr).
  assert (Hp0 : kref p + total S p = 0) by (rewrite <- Hpr; symmetry; by apply (ko_refs _ _ _ _ _ H)).
  assert (Hkf : kp <> p) by (intros ->; pose proof (total_nonneg S p); lia).
  destruct (env_alloc_eq s parent e v p l kp W Hf He Hc Hk Hkp) as [c Hrun].
  exists v. set (s' := set_con c _) in Hrun. exists s'. split; [done|]. split; [exact Hrun|]. clear Hrun.
  assert (E : curenv s' = curenv s /\ kern_pgdir s' = kern_pgdir s /\ npages s' = npages s /\ mem s' = vm_mem kp p (mem s) /\
    pages s' = <[p := mkPageInfo (link_of s p) 1]> (pages s) /\ envs s' = <[e := new_env parent e p v]> (envs s) /\
    env_free_list s' = env_link v) by (split_and!; reflexivity).
  assert (Hlock : holds_lock s -> holds_lock s') by (intros Hh; exact Hh).
  assert (Wl : alloc_wf s' l) by (eapply alloc_wf_frame; [exact (vm_state_wf s kp p e v l W) | done..]).
  clearbody s'. destruct E as (E1 & E2 & E3 & E4 & E5 & E6 & E7).
  assert (Hmem : forall f k, f <> p -> mget (mem s') f k = mget (mem s) f k) by (intros f k Hfp; rewrite E4; by apply vm_mem_other).
  split; [exact E1|]. split; [exact E2|]. split; [|exact (conj E6 (conj HS (conj Hmem Hlock)))].
  exact (kernel_ok_created s s' l L S e p pi kp v parent H HeL Hch He HS Hkf Hpi Hp0 E2 E3 E4 E5 E6 E7 Wl).
Qed.

End Changes.

(** ** What the code does not test *)

Section Fits.

(** The environment that [envid] names for the caller. *)
Definition named (s : kstate) (envid : Z) (check : bool) : option Z :=
  match envid2env envid check s with
  | (Ret (r, e), _) => if r <? 0 then None else e
  | (Stop _, _) => None
  end.

(** The page that environment [e] has at [va]. *)
Definition found (s : kstate) (e va : Z) : option Z :=
  match envs s !! e with
  | Some v => match page_lookup (env_pgdir v) va s with (Ret (p, _), _) => p | (Stop _, _) => None end
  | None => None
  end.

(** The counter of the page, of 16 bits, has room for one more reference. *)
Definition count_fits (s : kstate) (p : option Z) : bool :=
  match p with
  | Some p => match pages s !! p with Some pi => pp_ref pi + 1 <? 2 ^ 16 | None => true end
  | None => true
  end.

(** [sys_page_map]: the permissions are no negative [int], and the page that is shared can be counted. *)
Definition map_fits (s : kstate) (srcenvid srcva perm : Z) : bool :=
  (perm <? 2 ^ 31) && match named s srcenvid true with Some e => count_fits s (found s e srcva) | None => true end.

(** [sys_ipc_try_send]: when a page is sent to a receiver that has an address
    for it, the address is below UTOP and the page can be counted. *)
Definition send_fits (s : kstate) (envid srcva : Z) : bool :=
  (UTOP <=? srcva) ||
  match (e ← named s envid false; envs s !! e) with
  | Some v =>
      negb (env_ipc_recving v) || (env_ipc_dstva v =? 0) ||
      (0 <=? env_ipc_dstva v) && (env_ipc_dstva v <? UTOP) &&
      match curenv s with Some c => count_fits s (found s c srcva) | None => true end
  | None => true
  end.

(** [sys_page_alloc] refuses its arguments. *)
Definition alloc_refused (s : kstate) (envid va perm : Z) : bool :=
  (UTOP <=? va) || no_up perm || bad_perm perm ||
  match envid2env envid true s with (Ret (r, _), _) => r <? 0 | (Stop _, _) => true end.

Lemma count_fits_spec s p pi : count_fits s (Some p) = true -> pages s !! p = Some pi -> pp_ref pi + 1 < 2 ^ 16.
Proof. unfold count_fits. intros H Hp. rewrite Hp in H. by apply Z.ltb_lt. Qed.

Lemma found_eq s e v va p pte : envs s !! e = Some v -> page_lookup (env_pgdir v) va s = (Ret (p, pte), s) -> found s e va = p.
Proof. intros Hv Hl. unfold found. by rewrite Hv, Hl. Qed.

Lemma named_eq s id check r e : envid2env id check s = (Ret (r, Some e), s) -> (r <? 0) = false -> named s id check = Some e.
Proof. intros H Hr. unfold named. by rewrite H, Hr. Qed.

End Fits.

(** ** The calls *)

Section Calls.

(** The kernel's own references; its page directory is page [kp]; environment [c] calls. *)
Context (kref : Z -> Z) (kp c : Z).
Hypothesis Hkp : 0 <= kp < 65536.
Hypothesis Hkr : 1 <= kref kp.

Definition kernel_fine (s : kstate) : Prop :=
  (exists l L S, kernel_ok kref s l L S) /\ kern_pgdir s = 4096 * kp + KERNBASE.

#[export] Instance Grounded_fine : Grounded kernel_fine.
Proof.
  constructor.
  - intros s s' [(l & L & S & H) Hk] [E1 E2 E3 E4 E5 E6 E7]. split; [exists l, L, S; by eapply kernel_ok_frame | by rewrite E7].
  - intros s e v w [(l & L & S & H) Hk] He [Hs _]. split; [exists l, L, S; by eapply kernel_ok_env | done].
Qed.

#[local] Abbreviation safe := (safe_from kernel_fine).
#[local] Abbreviation inv := (inv_from kernel_fine).
#[local] Abbreviation here := (running_in kernel_fine c).

(** Besides the caller, environment [e] is live. *)
Definition pair (e : Z) (s : kstate) : Prop := here s /\ live s e.

#[local] Instance Light_pair e : LightFor kernel_fine (pair e).
Proof.
  constructor.
  - by intros s [[[H _] _] _].
  - intros s s' [H1 (v & H2)] Hs Hc H4. split; [by eapply lt_same|]. exists v. by rewrite (sa_envs _ _ Hs).
  - intros s e' v w [H1 H2] He Hm. split; [by eapply lt_env | by eapply live_env].
Qed.

Lemma pair_here e s : pair e s -> here s.
Proof. by intros [H _]. Qed.

(** Reading at one state. *)
Lemma safe_read {A B} s (m : K A) (f : A -> K B) Q :
  kernel_fine s -> reads m -> (forall a, m s = (Ret a, s) -> safe (eq s) (f a) Q) -> safe (eq s) (m ≫= f) Q.
Proof.
  intros Hk Hm Hf s1 o s' <-. destruct (Hm s) as [[a|r] E]; [rewrite (bind_Ret _ _ _ _ _ E); by apply Hf|].
  rewrite (bind_Stop _ _ _ _ _ E). by intros [= <- <-].
Qed.

Lemma safe_at {A} P (m : K A) Q : (forall s, P s -> safe (eq s) m Q) -> safe P m Q.
Proof. intros H s o s' HP. by apply (H s HP). Qed.

Lemma safe_ret {A} s (a : A) (Q : A -> kstate -> Prop) : Q a s -> safe (eq s) (mret a) Q.
Proof. by intros HQ s1 o s' <- [= <- <-]. Qed.

(** Naming an environment. *)
Lemma safe_name {B} id check s (neg : Z -> K B) (k : option Z -> K B) Q :
  here s -> (forall r, safe (eq s) (neg r) Q) -> (forall e, live s e -> named s id check = Some e -> safe (eq s) (k (Some e)) Q) ->
  safe (eq s) ('(r, e) ← envid2env id check; if r <? 0 then neg r else k e) Q.
Proof.
  intros Hh Hneg Hpos. apply safe_read; [apply Hh | apply reads_envid2env|]. intros [r e] E.
  destruct (envid2env_result c id check s _ _ (proj2 Hh) (proj2 (proj1 Hh)) E) as [_ Hr]. cbn [fst snd] in Hr.
  destruct (r <? 0) eqn:Er; [apply Hneg|]. destruct (Hr eq_refl) as (e' & -> & Hl & _). apply Hpos; [done|]. by eapply named_eq.
Qed.

Lemma safe_eq_pre {A} P s (m : K A) Q : P s -> safe P m Q -> safe (eq s) m Q.
Proof. intros HP. by apply safe_pre; intros ? <-. Qed.

(** Changes of environments only. *)
Lemma inv_set_env_status id st : inv here (sys_env_set_status id st).
Proof.
  apply safe_at. intros s Hh. unfold sys_env_set_status. destruct (status_of st) as [x|] eqn:Ex; [|by apply safe_ret].
  apply (safe_name id true s (fun r => mret r) (fun e => e ← deref e; env_update e (set_env_status x) ;; mret 0)); [done | by intros; apply safe_ret|].
  intros e Hl _. apply safe_deref, (safe_eq_pre (pair e)); [done|]. eapply safe_bind with (Q := fun _ => pair e).
  - apply (inv_set_status (pair e)); [by intros s1 [_ H]|]. revert Ex. unfold status_of. repeat case_match; by intros [= <-].
  - intros _ s1 o s' [H _] [= <- <-]. exact H.
Qed.

Lemma inv_set_upcall id f : inv here (sys_env_set_pgfault_upcall id f).
Proof.
  apply safe_at. intros s Hh. unfold sys_env_set_pgfault_upcall.
  apply (safe_name id true s (fun r => mret (- E_BAD_ENV)) (fun e => e ← deref e; env_update e (set_env_pgfault_upcall f) ;; mret 0));
    [done | by intros; apply safe_ret|].
  intros e Hl _. apply safe_deref, (safe_eq_pre here); [done|]. match goal with |- safe _ ?m _ => change (inv here m) end. inv_code.
Qed.

Lemma safe_ipc_recv va : inv here (sys_ipc_recv va).
Proof.
  unfold sys_ipc_recv. destruct (_ && _); [by apply (inv_ret (P := here))|].
  apply (get_here c); [by intros s [_ H]|]. intros s ->. apply safe_deref.
  eapply safe_bind; [by apply (inv_env_update (P := here))|]. intros ?. eapply safe_bind; [by apply (inv_env_update (P := here))|]. intros ?.
  eapply safe_bind; [by apply (inv_env_update (P := here))|]. intros ?.
  eapply safe_bind; [by apply (inv_set_status here); [intros s1 [[_ H] _]|]|]. intros ?.
  apply (safe_pre _ kernel_fine); [intros s1 H; apply H | apply safe_sched_yield].
Qed.

Lemma inv_deliver e value : inv (pair e) (ipc_deliver e value).
Proof.
  unfold ipc_deliver. apply inv_bind; [apply inv_get|]. intros s. apply inv_bind; [apply inv_deref|]. intros x.
  apply inv_bind; [apply inv_reads, reads_env_get|]. intros v. apply inv_bind; [by apply inv_env_update|]. intros ?.
  apply inv_bind; [by apply inv_env_update|]. intros ?. apply inv_bind; [by apply inv_set_status; [apply Light_pair | intros s1 [_ H]|]|].
  intros ?. inv_code.
Qed.

(** Creation. *)
Lemma safe_env_alloc id : safe here (env_alloc id) (fun r s => here s /\ ((r.1 <? 0) = false -> exists e, r.2 = Some e /\ live s e)).
Proof.
  apply safe_at. intros s Hh s1 o s' <- Hrun. destruct Hh as [[[(l & L & S & H) Hk] Hl] Hcur].
  assert (Hc : cur_ok s) by (intros x; rewrite Hcur; intros [= <-]; destruct Hl as (v & Hv & _); by exists v).
  assert (Hhere : here s) by (split; [split; [split; [by exists l, L, S | done] | done] | done]).
  destruct L as [|e L]; [|destruct l as [|p l]].
  - rewrite (env_alloc_fails s id) in Hrun by (left; apply (ko_chain _ _ _ _ _ H)). injection Hrun as <- <-.
    split; [done|]. by case_decide.
  - rewrite (env_alloc_fails s id) in Hrun.
    + injection Hrun as <- <-. split; [done|]. by case_decide.
    + right. split; [rewrite (proj1 (ko_chain _ _ _ _ _ H)); by eexists | apply (ko_alloc _ _ _ _ _ H)].
  - destruct (env_alloc_ok kref s l L S e p kp id H Hc Hk Hkp Hkr) as (v & s2 & He & Hrun2 & E1 & E2 & H2 & E3 & HS & _ & _).
    rewrite Hrun in Hrun2. injection Hrun2 as -> ->. cbn [fst snd]. split.
    + split; [|by rewrite E1]. split; [split; [by exists l, L, (<[e := mkSpace p ∅ ∅]> S) | by rewrite E2]|].
      assert (Hne : e <> c) by (intros ->; destruct (proj2 (ko_live _ _ _ _ _ H c) Hl) as [y Hy]; congruence).
      destruct Hl as (w & Hw & Hs). exists w. rewrite E3. by rewrite lookup_insert_ne.
    + intros _. exists e. split; [done|]. exists (new_env id e p v). rewrite E3. split; [apply lookup_insert_eq | discriminate].
Qed.

Lemma inv_exofork : inv here sys_exofork.
Proof.
  unfold sys_exofork. eapply safe_bind; [apply (inv_getenvid (P := here))|]. intros id.
  eapply safe_bind; [apply safe_env_alloc|]. intros [r e]. cbn [fst snd].
  destruct (r <? 0); [intros s o s' [H _] [= <- <-]; exact H|]. apply safe_at. intros s [Hh He].
  destruct (He eq_refl) as (e' & -> & Hl). apply safe_deref, (safe_eq_pre (pair e')); [done|].
  apply (safe_post _ _ (fun _ => pair e')); [|by intros a t [H _]].
  match goal with |- safe _ ?m _ => change (inv (pair e') m) end.
  apply inv_bind; [by apply inv_set_status; [apply Light_pair | intros s1 [_ H]|]|]. intros ?. inv_code.
Qed.

(** Page mappings. *)
Lemma lookup_mapped s l L S e v x va :
  kernel_ok kref s l L S -> envs s !! e = Some v -> S !! e = Some x -> 0 <= va < UTOP ->
  exists r, page_lookup (env_pgdir v) va s = (Ret r, s) /\
    forall p, r.1 = Some p -> exists fl, sp_A x !! PGNUM va = Some (p, fl).
Proof.
  intros H He Hx Hva. destruct (below_UTOP va Hva) as [Hd Hva'].
  eexists. split; [eapply (page_lookup_eq below_utop s _ _ _ _ va (ko_space _ _ _ _ _ H e v x He Hx)); [apply (aw_npages _ _ (ko_alloc _ _ _ _ _ H)) | done | done]|].
  cbn [fst]. intros p. destruct (sp_A x !! PGNUM va) as [[q fl]|]; [|done]. intros [= <-]. by exists fl.
Qed.

Lemma pair_mm e s s' l L S : mm_eq s s' -> kernel_ok kref s' l L S -> pair e s -> pair e s'.
Proof.
  intros Hmm H [[[[_ Hk] Hl] Hc] He]. destruct (mm_eq_cur _ _ Hmm) as [E1 E2].
  assert (E3 : kern_pgdir s' = kern_pgdir s) by (rewrite Hmm; by destruct s).
  split; [|unfold live; by rewrite E2]. split; [|by rewrite E1]. split; [|unfold live; by rewrite E2].
  split; [by exists l, L, S | by rewrite E3].
Qed.

Lemma here_cur s : here s -> cur_ok s.
Proof. intros [[_ (v & Hv & _)] Hc] x. rewrite Hc. intros [= <-]. by exists v. Qed.

Lemma page_perm perm : 0 <= perm -> Z.land perm (Z.lnot PTE_USER) <= 0 -> perm < 4096.
Proof.
  intros H0 Hp. assert (Hn : 0 <= Z.land perm (Z.lnot PTE_USER)) by (apply Z.land_nonneg; by left).
  assert (E : PTE_ADDR perm = 0).
  { unfold PTE_ADDR. change (Z.lnot 0xFFF) with (Z.land (Z.lnot PTE_USER) (Z.lnot 0xFFF)). rewrite Z.land_assoc.
    replace (Z.land perm (Z.lnot PTE_USER)) with 0 by lia. apply Z.land_0_l. }
  rewrite PTE_ADDR_mod in E. pose proof (Z.mod_pos_bound perm 4096). lia.
Qed.

Lemma safe_page_remove s e v va :
  pair e s -> envs s !! e = Some v -> 0 <= va < UTOP -> safe (eq s) (page_remove (env_pgdir v) va) (fun _ => pair e).
Proof.
  intros Hp He Hva s1 o s' <- Hrun. destruct Hp as [Hh Hl]. assert (Hh' := Hh). destruct Hh' as [[[(l & L & S & H) _] _] _].
  destruct (proj2 (ko_live _ _ _ _ _ H e) Hl) as [x Hx].
  destruct (page_remove_ok kref s l L S e v x va H (here_cur s Hh) He Hx Hva) as (s2 & l' & x' & Hrun2 & Hmm & H' & _).
  rewrite Hrun in Hrun2. injection Hrun2 as -> ->. by eapply pair_mm.
Qed.

Lemma safe_page_insert s l L S e v p va perm e2 x2 w2 fl2 :
  kernel_ok kref s l L S -> pair e s -> count_fits s (Some p) = true -> envs s !! e = Some v -> 0 <= va < UTOP -> 0 <= perm < 4096 ->
  S !! e2 = Some x2 -> sp_A x2 !! w2 = Some (p, fl2) -> safe (eq s) (page_insert (env_pgdir v) p va perm) (fun _ => pair e).
Proof.
  intros H Hp Hroom He Hva Hperm Hx2 Hw s1 o s' <- Hrun. assert (Hp' := Hp). destruct Hp' as [Hh Hl].
  destruct (proj2 (ko_live _ _ _ _ _ H e) Hl) as [x Hx].
  destruct (page_insert_ok kref s l L S e v x p va perm e2 x2 w2 fl2 H (here_cur s Hh) He Hx Hva Hx2 Hw Hperm (fun pi => count_fits_spec s p pi Hroom))
    as [E | (s2 & l' & x' & Hrun2 & Hmm & H' & _)].
  - rewrite Hrun in E. by injection E as -> ->.
  - rewrite Hrun in Hrun2. injection Hrun2 as -> ->. by eapply pair_mm.
Qed.

Lemma inv_page_unmap id va : 0 <= va -> inv here (sys_page_unmap id va).
Proof.
  intros H0. apply safe_at. intros s Hh. unfold sys_page_unmap.
  destruct (Z.leb_spec UTOP va) as [|Hva]; cbn [orb]; [by apply safe_ret|]. destruct (negb _); [by apply safe_ret|].
  apply (safe_name id true s (fun r => mret (- E_BAD_ENV)) (fun e => e ← deref e; v ← env_get e; page_remove (env_pgdir v) va ;; mret 0));
    [done | by intros; apply safe_ret|].
  intros e Hl _. apply safe_deref. apply safe_read; [apply Hh | apply reads_env_get|]. intros v Hv.
  assert (He : envs s !! e = Some v) by (revert Hv; unfold env_get; destruct (envs s !! e); congruence).
  eapply safe_bind; [by apply safe_page_remove|]. intros [] s1 o s' [H _] [= <- <-]. exact H.
Qed.

Lemma reads_deref {A} (p : option A) : reads (deref p).
Proof. intros s. destruct p; by eexists. Qed.

Lemma env_get_inv s e v : env_get e s = (Ret v, s) -> envs s !! e = Some v.
Proof. unfold env_get. destruct (envs s !! e); congruence. Qed.

Lemma safe_page_map i1 v1 i2 v2 perm : 0 <= v1 -> 0 <= v2 -> 0 <= perm ->
  safe (fun s => here s /\ map_fits s i1 v1 perm = true) (sys_page_map i1 v1 i2 v2 perm) (fun _ => here).
Proof.
  intros H1 H2 Hp0. apply safe_at. intros s [Hh [Hperm%Z.ltb_lt Hroom]%andb_true_iff]. unfold sys_page_map.
  destruct (Z.leb_spec UTOP v1) as [|Hv1]; cbn [orb]; [by apply safe_ret|]. destruct (negb (ROUNDUP v1 PGSIZE =? v1)); cbn [orb]; [by apply safe_ret|].
  destruct (Z.leb_spec UTOP v2) as [|Hv2]; cbn [orb]; [by apply safe_ret|]. destruct (negb (ROUNDUP v2 PGSIZE =? v2)); [by apply safe_ret|].
  destruct (no_up perm); [by apply safe_ret|]. destruct (bad_perm perm) eqn:Hb; [by apply safe_ret|].
  assert (Hp12 : perm < 4096) by (unfold bad_perm in Hb; rewrite i32_small in Hb by lia; apply page_perm; lia).
  apply (safe_name i1 true s (fun r => mret (- E_BAD_ENV)) _ _ Hh); [by intros; apply safe_ret|]. intros e1 Hl1 Hn1. rewrite Hn1 in Hroom.
  apply (safe_name i2 true s (fun r => mret (- E_BAD_ENV)) _ _ Hh); [by intros; apply safe_ret|]. intros e2 Hl2 _.
  apply safe_deref. apply safe_read; [apply Hh | apply reads_env_get|]. intros sv Hsv%env_get_inv.
  assert (Hh' := Hh). destruct Hh' as [[[(l & L & S & H) _] _] _].
  destruct (proj2 (ko_live _ _ _ _ _ H e1) Hl1) as [x1 Hx1].
  destruct (lookup_mapped s l L S e1 sv x1 v1 H Hsv Hx1 ltac:(lia)) as ([q pte] & Hrun & Hq). cbn [fst] in Hq.
  rewrite (found_eq s e1 sv v1 q pte Hsv Hrun) in Hroom.
  intros s1 o s' <-. rewrite (bind_Ret _ _ _ _ _ Hrun). cbv beta iota. revert o s'.
  destruct q as [p|]; [|intros o s' [= <- <-]; exact Hh]. destruct (Hq p eq_refl) as [fl Hfl]. clear Hrun Hq.
  match goal with |- forall o s', ?m s = _ -> _ => enough (Hs : safe (eq s) m (fun _ => here)) by (intros o s'; by apply Hs) end.
  apply safe_read; [apply Hh | destruct (0 <? _); [apply reads_bind; [apply reads_kload | intros; apply reads_ret] | apply reads_ret]|].
  intros ro _. destruct ro; [by apply safe_ret|]. apply safe_deref.
  apply safe_read; [apply Hh | apply reads_env_get|]. intros dv Hdv%env_get_inv.
  eapply safe_bind; [apply (safe_page_insert s l L S e2 dv p v2 perm e1 x1 (PGNUM v1) fl); [done | by split | done | done | lia | lia | done | done]|].
  intros r s1 o s' [Hh1 _]. by case_match; intros [= <- <-].
Qed.

Lemma page_perm_u perm : 0 <= perm < 2 ^ 32 -> bad_perm_u perm = false -> perm < 4096.
Proof.
  intros Hp Hb. apply page_perm; [lia|]. unfold bad_perm_u in Hb. rewrite u32_small in Hb by done.
  assert (E : Z.land perm (Z.lnot PTE_USER) = Z.land perm (u32 (Z.lnot PTE_USER))); [|rewrite E; lia].
  assert (E2 : perm = Z.land perm (Z.ones 32)) by (rewrite Z.land_ones by lia; rewrite Z.mod_small; lia).
  rewrite E2 at 1. rewrite <- Z.land_assoc. reflexivity.
Qed.

Lemma safe_ipc_send id value va perm : 0 <= va -> 0 <= perm < 2 ^ 32 ->
  safe (fun s => here s /\ send_fits s id va = true) (sys_ipc_try_send id value va perm) (fun _ => here).
Proof.
  intros H0 Hperm. apply safe_at. intros s [Hh Hfits]. unfold send_fits in Hfits. rewrite (proj2 Hh) in Hfits. cbn [mbind option_bind] in Hfits. unfold sys_ipc_try_send.
  apply (safe_name id false s (fun r => mret (- E_BAD_ENV)) _ _ Hh); [by intros; apply safe_ret|]. intros e Hl Hn. rewrite Hn in Hfits. cbn [mbind option_bind] in Hfits.
  assert (Hpair : pair e s) by done. assert (Hdel : safe (eq s) (ipc_deliver e value) (fun _ => here)).
  { apply (safe_eq_pre (pair e)); [done|]. apply (safe_post _ _ (fun _ => pair e)); [apply inv_deliver | by intros a t [? _]]. }
  apply safe_deref. apply safe_read; [apply Hh | apply reads_env_get|]. intros dv Hdv%env_get_inv.
  rewrite Hdv in Hfits. destruct (negb (env_ipc_recving dv)) eqn:Erecv; cbn [orb]; [by apply safe_ret|]. destruct (negb (env_ipc_from dv =? 0)); [by apply safe_ret|].
  destruct (Z.ltb_spec va UTOP) as [Hva|]; cbn [andb]; [|exact Hdel].
  rewrite (proj2 (Z.leb_gt UTOP va) Hva) in Hfits. cbn [orb] in Hfits. destruct (negb (ROUNDDOWN va PGSIZE =? va)); [by apply safe_ret|].
  destruct (no_up perm); [by apply safe_ret|]. destruct (bad_perm_u perm) eqn:Hb; [by apply safe_ret|].
  assert (Hp12 := page_perm_u perm Hperm Hb).
  apply safe_read; [apply Hh | intros t; by eexists|]. intros t Ht. injection Ht as <-. rewrite (proj2 Hh). apply safe_deref.
  apply safe_read; [apply Hh | apply reads_env_get|]. intros cv Hcv%env_get_inv.
  assert (Hh' := Hh). destruct Hh' as [[[(l & L & S & H) _] Hlc] _].
  destruct (proj2 (ko_live _ _ _ _ _ H c) Hlc) as [x Hx].
  destruct (lookup_mapped s l L S c cv x va H Hcv Hx ltac:(lia)) as ([q pte] & Hrun & Hq). cbn [fst] in Hq.
  rewrite (found_eq s c cv va q pte Hcv Hrun) in Hfits.
  intros s1 o s' <-. rewrite (bind_Ret _ _ _ _ _ Hrun). cbv beta iota. revert o s'.
  destruct q as [p|]; [|intros o s' [= <- <-]; exact Hh]. destruct (Hq p eq_refl) as [fl Hfl]. clear Hrun Hq.
  match goal with |- forall o s', ?m s = _ -> _ => enough (Hs : safe (eq s) m (fun _ => here)) by (intros o s'; by apply Hs) end.
  apply safe_read; [apply Hh | apply reads_kload|]. intros d _. destruct ((Z.land d PTE_W =? 0) && (0 <? Z.land perm PTE_W)); [by apply safe_ret|].
  destruct (env_ipc_dstva dv =? 0); cbn [negb orb] in Hfits |- *; [exact Hdel|].
  apply andb_true_iff in Hfits as [[Hd0%Z.leb_le Hd1%Z.ltb_lt]%andb_true_iff Hroom].
  eapply safe_bind; [apply (safe_page_insert s l L S e dv p (env_ipc_dstva dv) perm c x (PGNUM va) fl); [done | done | done | done | lia | lia | done | done]|].
  intros r. destruct (r <? 0); [intros t o s' [Ht _] [= <- <-]; exact Ht|].
  apply (safe_post _ _ (fun _ => pair e)); [|by intros a t [? _]].
  match goal with |- safe _ ?m _ => change (inv (pair e) m) end.
  apply inv_bind; [by apply inv_env_update | intros ?; apply inv_deliver].
Qed.

End Calls.

Lemma reads_page_alloc_refused s addr junk id va perm :
  alloc_refused s id va perm = true -> exists o, sys_page_alloc addr junk id va perm s = (o, s).
Proof.
  intros H. unfold alloc_refused in H. unfold sys_page_alloc. destruct (UTOP <=? va); [by eexists|]. destruct (no_up perm); [by eexists|].
  destruct (bad_perm perm); [by eexists|]. cbn [orb] in H.
  destruct (reads_envid2env id true s) as [[[r e]|x] E]; [|rewrite (bind_Stop _ _ _ _ _ E); by eexists].
  rewrite (bind_Ret _ _ _ _ _ E). rewrite E in H. rewrite H. by eexists.
Qed.

(** The system calls in state [s], with arguments of their types, the
    addresses and permissions in user code being [unsigned]. *)
Inductive kernel_call (s : kstate) : K Z -> Prop :=
| kc_dispatched fuel n a1 a2 a3 a4 a5 : kernel_call s (syscall fuel n a1 a2 a3 a4 a5)
| kc_yield : kernel_call s sys_yield
| kc_exofork : kernel_call s sys_exofork
| kc_set_status id st : kernel_call s (sys_env_set_status id st)
| kc_set_upcall id f : kernel_call s (sys_env_set_pgfault_upcall id f)
| kc_page_alloc addr junk id va perm :
    alloc_refused s id va perm = true -> kernel_call s (sys_page_alloc addr junk id va perm)
| kc_page_map i1 v1 i2 v2 perm :
    0 <= v1 -> 0 <= v2 -> 0 <= perm -> map_fits s i1 v1 perm = true -> kernel_call s (sys_page_map i1 v1 i2 v2 perm)
| kc_page_unmap id va : 0 <= va -> kernel_call s (sys_page_unmap id va)
| kc_ipc_try_send id value va perm :
    0 <= va -> 0 <= perm < 2 ^ 32 -> send_fits s id va = true -> kernel_call s (sys_ipc_try_send id value va perm)
| kc_ipc_recv va : kernel_call s (sys_ipc_recv va).

(** C3. The invariant of the kernel is kept by the system calls of kern/syscall.c, those that the
    dispatcher does not reach included, outside four cases in which the code breaks it: every page
    remains counted exactly by the directories, page tables and mappings of the live environments
    and the kernel, page tables remain unshared, and the free lists remain lists of free pages and
    environments -- whether the call succeeds, is refused or runs out of memory, and whether it
    returns or switches to another environment.  When it returns, the caller is still there.  The
    four cases are conditions on the one call: [sys_page_alloc] with arguments that it does not
    refuse ([alloc_refused]; it maps an uninitialised pointer, [sys_page_alloc_maps_table]);
    permissions of [sys_page_map] that are negative as an [int] ([map_fits]; [bad_perm_signed],
    [sys_page_map_device]); the 65536th mapping of a page ([count_fits]; [page_insert_wraps]); and
    a page sent to a receiver that waits at an address not below UTOP ([send_fits];
    [sys_ipc_try_send_kernel_table]). *)
Theorem calls_keep_kernel kref kp c v s l L S call o s'
  (H : kernel_ok kref s l L S) (Hk : kern_pgdir s = 4096 * kp + KERNBASE) (Hkp : 0 <= kp < 65536) (Hkr : 1 <= kref kp)
  (Hcur : curenv s = Some c) (Hv : envs s !! c = Some v) (Hst : env_status v <> ENV_FREE)
  (Hcall : kernel_call s call) (Hrun : call s = (o, s')) :
  (exists l' L' S', kernel_ok kref s' l' L' S') /\ forall r, o = Ret r -> curenv s' = Some c /\ live s' c.
Proof.
  assert (Hlive : live s c) by by exists v.
  assert (Hh : running_in (kernel_fine kref kp) c s) by (split; [split; [split; [by exists l, L, S | done] | done] | done]).
  assert (Hdone : safe_from (kernel_fine kref kp) (eq s) call (fun _ => running_in (kernel_fine kref kp) c) ->
    (exists l' L' S', kernel_ok kref s' l' L' S') /\ forall r, o = Ret r -> curenv s' = Some c /\ live s' c).
  { intros Hs. specialize (Hs s o s' eq_refl Hrun). destruct o as [r|r].
    - destruct Hs as [[[Hs _] Hl] Hc]. split; [exact Hs|]. by intros _ _.
    - split; [apply Hs | done]. }
  destruct Hcall as [fuel n a1 a2 a3 a4 a5| | | | |addr junk id va perm Hr| | | |].
  - assert (He : running_in (evolved kref s S c) c s) by (split; [split; [exists l, L, S; by apply evolved_refl | done] | done]).
    assert (Hs := inv_syscall kref s S c fuel n a1 a2 a3 a4 a5 s o s' He Hrun). destruct o as [r|r].
    + destruct Hs as [[(l' & L' & S' & Hs) Hl] Hc]. split; [exists l', L', S'; apply Hs|]. by intros _ _.
    + destruct Hs as (l' & L' & S' & Hs). split; [exists l', L', S'; apply Hs | done].
  - apply Hdone. eapply safe_eq_pre; [exact (proj1 (proj1 Hh))|]. apply safe_sched_yield.
  - apply Hdone. eapply safe_eq_pre; [exact Hh|]. by apply inv_exofork.
  - apply Hdone. eapply safe_eq_pre; [exact Hh|]. by apply inv_set_env_status.
  - apply Hdone. eapply safe_eq_pre; [exact Hh|]. by apply inv_set_upcall.
  - apply Hdone. destruct (reads_page_alloc_refused s addr junk id va perm Hr) as [o1 E]. intros s1 o2 s2 <- Hrun2.
    rewrite E in Hrun2. injection Hrun2 as <- <-. destruct o1; [exact Hh | exact (proj1 (proj1 Hh))].
  - apply Hdone. apply (safe_eq_pre _ _ (fun s => running_in (kernel_fine kref kp) c s /\ map_fits s i1 v1 perm = true)); [done|]. by apply safe_page_map.
  - apply Hdone. eapply safe_eq_pre; [exact Hh|]. by apply inv_page_unmap.
  - apply Hdone. apply (safe_eq_pre _ _ (fun s => running_in (kernel_fine kref kp) c s /\ send_fits s id va = true)); [done|]. by apply safe_ipc_send.
  - apply Hdone. eapply safe_eq_pre; [exact Hh|]. by apply safe_ipc_recv.
Qed.

(** Environment 1 of the sample state maps the page of its exception stack a second time, below it. *)
Lemma calls_keep_kernel_witness :
  let r := sys_page_map 0 (UXSTACKTOP - 4096) 0 (UXSTACKTOP - 8192) 7 ex_two in
  fst r = Ret 0 /\ (exists l' L' S', kernel_ok ex_kref (snd r) l' L' S') /\ curenv (snd r) = Some 1.
Proof.
  set (s' := snd (sys_page_map 0 (UXSTACKTOP - 4096) 0 (UXSTACKTOP - 8192) 7 ex_two)).
  assert (E : fst (sys_page_map 0 (UXSTACKTOP - 4096) 0 (UXSTACKTOP - 8192) 7 ex_two) = Ret 0) by (vm_compute; reflexivity).
  destruct ex_two_trap as (E1 & E2 & _). destruct ex_two_parts as (_ & _ & _ & _ & _ & _ & E7).
  destruct (calls_keep_kernel ex_kref 0 1 ex_faulting ex_two [] [] ex_spaces _ (Ret 0) s' ex_two_ok
    ltac:(rewrite E7; reflexivity) ltac:(lia) ltac:(vm_compute; discriminate) E1 E2 ltac:(discriminate)
    (kc_page_map ex_two 0 (UXSTACKTOP - 4096) 0 (UXSTACKTOP - 8192) 7 ltac:(discriminate) ltac:(discriminate) ltac:(discriminate) ltac:(vm_compute; reflexivity))
    (run_snd _ _ E)) as [H1 H2].
  split; [exact E|]. split; [exact H1 | exact (proj1 (H2 0 eq_refl))].
Defined.

(** Why [sys_page_map] needs the bound: its test of the permissions is signed, so every value
    with bit 31 passes, and the bits that are no permissions end up in the page address. *)
Lemma bad_perm_signed perm : 2 ^ 31 <= perm < 2 ^ 32 -> bad_perm perm = false.
Proof.
  intros Hp. unfold bad_perm. apply Z.ltb_ge. assert (E : i32 perm < 0) by (unfold i32; revert Hp; zdm).
  apply Z.lt_le_incl, Z.land_neg. by split.
Qed.

(** With them a user program maps a device: the physical page 0xFEE03, instead of its own page 3. *)
Lemma sys_page_map_device :
  let r := sys_page_map 0 (UXSTACKTOP - 4096) 0 (UXSTACKTOP - 8192) 0xFEE00007 ex_two in
  fst r = Ret 0 /\ mmu_walk (mem (snd r)) (cr3 (snd r)) (UXSTACKTOP - 8192) true = Some 0xFEE03000.
Proof. split; vm_compute; reflexivity. Qed.

(** Why it needs the bound on reference counts: the 65536th reference makes the counter 0. *)
Lemma page_insert_wraps :
  let s := set_pages (<[3 := mkPageInfo None 65535]> (pages ex_two)) ex_two in
  let r := page_insert (env_pgdir ex_faulting) 3 (UXSTACKTOP - 8192) 7 s in
  fst r = Ret 0 /\ pages (snd r) !! 3 = Some (mkPageInfo None 0).
Proof. split; vm_compute; reflexivity. Qed.

(** Why [sys_page_alloc] is left out when its arguments pass: the pointer that it maps is whatever
    its stack holds.  When that is the page table of the caller (page 2), the table is counted twice
    and cleared, and so the mappings of the caller are gone; the call returns 0. *)
Lemma sys_page_alloc_maps_table :
  let r := sys_page_alloc 0 2 0 (UXSTACKTOP - 8192) 7 ex_two in
  fst r = Ret 0 /\ pages (snd r) !! 2 = Some (mkPageInfo None 2) /\
  mmu_walk (mem (snd r)) (cr3 (snd r)) (UXSTACKTOP - 8192) true = None /\ mmu_walk (mem (snd r)) (cr3 (snd r)) (UXSTACKTOP - 4096) true = None.
Proof. split_and!; vm_compute; reflexivity. Qed.

(** Why a page must not be sent to a receiver that waits at an address of the kernel: the page
    enters a page table of the kernel (page 7, for the last addresses of environment 5). *)
Definition ex_high_receiver : kstate :=
  let v := set_env_ipc_dstva 0xFFFFF000 (set_env_ipc_recving true ex_other) in
  set_envs (<[5 := v]> (envs ex_two)) (set_mem (mset (mem ex_two) 4 1023 0x7003) ex_two).

Lemma sys_ipc_try_send_kernel_table :
  let r := sys_ipc_try_send (env_id ex_other) 42 (UXSTACKTOP - 4096) 7 ex_high_receiver in
  fst r = Ret 0 /\ mget (mem (snd r)) 7 1023 = 0x3007.
Proof. split; vm_compute; reflexivity. Qed.
