(* ===== verification/KernelSpec.v ===== *)
(** * KernelSpec: what the system calls do, abstractly

    An abstract machine whose state is what a process can know: which pages
    with which permissions every environment has mapped, and the entries of
    [envs].  No page tables, reference counts or free lists.  Each system call
    that changes it is a function or a step of this machine, and the code of
    kern/syscall.c simulates it, on every branch. *)

From S2P Require Import Prelude Machine CString Printfmt Hardware Console Kernel KernelProps Spinlock Pmap PageAlloc.
From S2P Require Import PageTable Example PtProps Env EnvProps EnvAlloc EnvFree Sched Syscall SyscallProps.
From S2P Require Import TrapUser UserFault KernelExit KernelInv KernelSafe Isolation KernelCalls.

(** ** The abstract machine *)

Section Machine.












End Machine.

(** ** The code *)




Section Simulation.

(** The kernel's own references; its page directory is page [kp]. *)
Context (kref : Z -> Z) (kp : Z).
Hypothesis Hkp : 0 <= kp < 65536.
Hypothesis Hkr : 1 <= kref kp.





































End Simulation.


(** ** Environment 1 of the sample state unmaps its exception stack *)

Section Sample.




End Sample.
