(* ===== verification/EnvLoad.v ===== *)
(** * EnvLoad: loading a program into an environment

    [region_alloc] and the loading of segments ([load_icode] of kern/env.c): a
    record [loads] says which bytes an address space holds afterwards, that the
    invariant of the kernel is kept, and that no other page in use changes. *)

From S2P Require Import Prelude Machine CString Printfmt Hardware Console Kernel KernelProps Spinlock Pmap PageAlloc.
From S2P Require Import PageTable Example UserMem PtProps Env EnvProps EnvAlloc EnvFree Sched KernelInv KernelSafe KernelCalls.

(** ** Bytes of words *)

Section Bytes.

Lemma testbit_byte w k i : 0 <= k -> 0 <= i -> Z.testbit (get_byte w k) i = (i <? 8) && Z.testbit w (8 * k + i).
Proof.
  intros Hk Hi. unfold get_byte. change 0xFF with (Z.ones 8). rewrite Z.land_spec, Z.shiftr_spec by lia.
  rewrite Z.testbit_ones_nonneg by lia. rewrite andb_comm. by rewrite (Z.add_comm i).
Qed.

Lemma get_put_byte w k j b : 0 <= k < 4 -> 0 <= j < 4 ->
  get_byte (u32 (put_byte w k b)) j = if decide (j = k) then u8 b else get_byte w j.
Proof.
  intros Hk Hj. apply Z.bits_inj'. intros i Hi. rewrite testbit_byte by lia.
  assert (Hu : forall n, Z.testbit (u8 b) n = (n <? 8) && Z.testbit (u8 b) n).
  { intros n. destruct (Z.ltb_spec n 8); [done|]. unfold u8. destruct (Z.neg_nonneg_cases n); [lia|].
    change (2 ^ 8) with (2 ^ 8). by rewrite Z.mod_pow2_bits_high by lia. }
  destruct (Z.ltb_spec i 8) as [Hi8|Hi8]; cbn [andb].
  2:{ case_decide; [|rewrite testbit_byte by lia]; [|by destruct (Z.ltb_spec i 8); [lia|]].
      rewrite Hu. by destruct (Z.ltb_spec i 8); [lia|]. }
  unfold u32. rewrite Z.mod_pow2_bits_low by lia. unfold put_byte.
  rewrite Z.lor_spec, Z.land_spec, Z.lnot_spec, !Z.shiftl_spec by lia.
  change 0xFF with (Z.ones 8). rewrite (Hu (8 * j + i - 8 * k)).
  case_decide as E; [subst j|].
  - replace (8 * k + i - 8 * k) with i by lia. rewrite Z.testbit_ones_nonneg by lia.
    destruct (Z.ltb_spec i 8); [cbn [negb andb]|lia]. by rewrite andb_false_r.
  - rewrite testbit_byte by lia. destruct (Z.ltb_spec i 8); [cbn [andb]|lia].
    destruct (Z.lt_ge_cases j k).
    + rewrite (Z.testbit_neg_r (Z.ones 8)), (Z.testbit_neg_r (u8 b)) by lia. cbn [negb]. by rewrite andb_true_r, andb_false_r, orb_false_r.
    + rewrite Z.testbit_ones_nonneg by lia. destruct (Z.ltb_spec (8 * j + i - 8 * k) 8); [lia|]. cbn [negb andb].
      by rewrite andb_true_r, orb_false_r.
Qed.

End Bytes.

(** ** Inserting into a directory whose entries are writable *)

Definition dir_writable (s : kstate) (pd : Z) (T : gmap Z Z) : Prop :=
  forall i t, T !! i = Some t -> test (mget (mem s) pd i) PTE_W = true.

Section Insert.

Context (D : Z -> Prop).

Lemma insert_fresh s pgdir pd T A l ext pp va fl pi t :
  aspace D s pgdir pd T A l ext -> 0 <= va < 2 ^ 32 -> D (PDX va) -> T !! PDX va = Some t -> A !! PGNUM va = None ->
  pages s !! pp = Some pi -> pp_ref pi + 1 < 2 ^ 16 -> 0 <= fl < 4096 ->
  page_insert pgdir pp va fl s = (Ret 0, linked t pp va fl s).
Proof.
  intros H Hva Hd Ht Hv Hpi Hlt Hfl. assert (Hs := as_space _ _ _ _ _ _ _ _ H). assert (WT := sw_tables _ _ _ _ _ _ Hs).
  assert (Ha := as_alloc _ _ _ _ _ _ _ _ H). assert (Hn := proj2 (aw_npages _ _ Ha)).
  assert (Hpp : 0 <= pp < npages s) by (apply (aw_dom _ _ Ha); eauto).
  destruct (tw_some _ _ _ _ _ WT _ _ Ht) as (_ & _ & Htr & _). destruct (as_refs _ _ _ _ _ _ _ _ H _ _ Hpi) as [Er _].
  pose proof (ref_count_nonneg pd T A ext pp (as_ext _ _ _ _ _ _ _ _ H pp)).
  unfold page_insert. kgo walk_present; [|done..]. rewrite pte_ptr_nonzero by lia. kgo kload_pte; [|done..].
  erewrite (entry_none D) by done. cbn [when]. rewrite (bind_Ret skip _ s tt s) by reflexivity.
  eapply (link_eq D s pgdir pd T A); (done || lia).
Qed.

Lemma linked_dir s t pp va fl pd k : t <> pd -> mget (mem (linked t pp va fl s)) pd k = mget (mem s) pd k.
Proof. intros Hne. unfold linked, put_pte. cbn [mem set_mem set_pages]. by rewrite mget_mset_ne by auto. Qed.

(** A page that is not mapped yet: the directory entries stay writable. *)
Lemma insert_keeps_writable s pgdir pd T A l ext pp va fl pi T' A' l' s' :
  aspace D s pgdir pd T A l ext -> cur_ok s -> 0 <= va < 2 ^ 32 -> D (PDX va) -> A !! PGNUM va = None ->
  pages s !! pp = Some pi -> pp ∉ l -> pp_ref pi + 1 < 2 ^ 16 -> 0 <= fl < 4096 ->
  spec_insert pd ext pp (PGNUM va) fl T A l = Some (T', A', l') ->
  page_insert pgdir pp va fl s = (Ret 0, s') -> dir_writable s pd T -> dir_writable s' pd T'.
Proof.
  intros H Hc Hva Hd Hv Hpi Hl Hlt Hfl Hspec Hrun Hw. unfold spec_insert, spec_table in Hspec. rewrite PGNUM_dir in Hspec by done.
  assert (WT := sw_tables _ _ _ _ _ _ (as_space _ _ _ _ _ _ _ _ H)). assert (Ha := as_alloc _ _ _ _ _ _ _ _ H).
  destruct (T !! PDX va) as [t|] eqn:Ht.
  - injection Hspec as <- _ _. rewrite (insert_fresh s pgdir pd T A l ext pp va fl pi t) in Hrun by done. injection Hrun as <-.
    intros i u Hi. destruct (tw_some _ _ _ _ _ WT _ _ Ht) as (_ & _ & _ & Hne & _). rewrite linked_dir by done. by apply (Hw i u).
  - destruct l as [|t l]; [discriminate Hspec|].
    assert (ET := f_equal (from_option (fun r => r.1.1) T) Hspec). cbn [from_option fst] in ET. clear Hspec. subst T'.
    destruct (aspace_free _ _ _ _ _ _ _ _ t H (list_elem_of_here t l)) as (F1 & F2 & _ & _).
    rewrite (page_insert_create D s pgdir pd T va t l pp fl) in Hrun by done.
    destruct (alloc_wf_in _ _ _ Ha (list_elem_of_here t l)) as (ti & Hti & _). apply not_elem_of_cons in Hl as [Hne Hl].
    assert (H1 := new_table_aspace _ _ _ _ _ _ _ _ _ _ H Hd (PDX_range va) Ht).
    assert (Hpi1 : pages (new_table pd (PDX va) t s) !! pp = Some pi)
      by (rewrite (new_table_pages _ _ _ _ _ _ Hti), decide_False; assumption).
    rewrite (insert_fresh _ pgdir pd _ A l ext pp va fl pi t H1 Hva Hd (lookup_insert_eq _ _ _) Hv Hpi1 Hlt Hfl) in Hrun.
    injection Hrun as <-. intros i u Hi. rewrite linked_dir, new_table_mem by done.
    apply lookup_insert_Some in Hi as [[<- _] | [Hni Hi]]; [rewrite decide_True, entry_test by (done || (unfold PTE_W; lia)); done|].
    rewrite decide_False by (intros [_ E]; exact (Hni (eq_sym E))). rewrite decide_False by (intros [E _]; exact (F1 (eq_sym E))).
    exact (Hw i u Hi).
Qed.

End Insert.

(** ** An environment that is being loaded *)

Section Loading.

Context (kref : Z -> Z).

(** Its pages belong to it alone and are mapped once, writable. *)
Record loading (s : kstate) (l L : list Z) (R : gmap Z space) (e : Z) (v : Env) (x : space) : Prop := mkLoading {
  ld_ok : kernel_ok kref s l L (<[e := x]> R);
  ld_env : envs s !! e = Some v;
  ld_cur : cur_ok s;
  ld_own : forall w y, sp_A x !! w = Some y -> y.2 = 7 /\ kref y.1 + total (<[e := x]> R) y.1 = 1;
  ld_dir : dir_writable s (sp_pd x) (sp_T x);
}.

Lemma loading_aspace s l L R e v x : loading s l L R e v x ->
  aspace below_utop s (env_pgdir v) (sp_pd x) (sp_T x) (sp_A x) l (others kref (<[e := x]> R) e).
Proof. intros H. eapply kernel_aspace; [apply (ld_ok _ _ _ _ _ _ _ H) | apply (ld_env _ _ _ _ _ _ _ H) | apply lookup_insert_eq]. Qed.

(** Different virtual pages have different pages. *)
Lemma loading_inj s l L R e v x w1 w2 y1 y2 :
  loading s l L R e v x -> sp_A x !! w1 = Some y1 -> sp_A x !! w2 = Some y2 -> y1.1 = y2.1 -> w1 = w2.
Proof.
  intros H H1 H2 E. destruct (decide (w1 = w2)) as [|Hne]; [done|]. destruct (ld_own _ _ _ _ _ _ _ H w1 y1 H1) as [_ Ho].
  rewrite total_insert in Ho. pose proof (total_nonneg (delete e R) y1.1). pose proof (ko_kref _ _ _ _ _ (ld_ok _ _ _ _ _ _ _ H) y1.1).
  assert (Hd := count_val_delete fst (sp_A x) w1 y1 y1.1 H1). rewrite decide_True in Hd by done.
  assert (H2' : delete w1 (sp_A x) !! w2 = Some y2) by by rewrite lookup_delete_ne.
  assert (Hp := count_val_pos fst _ w2 y2 H2'). cbn in Hp. rewrite <- E in Hp. unfold refs, ref_count in Ho.
  pose proof (count_val_nonneg id (sp_T x) y1.1). case_decide; lia.
Qed.

Lemma mapped_no_own_table s l L R e v x w y : loading s l L R e v x -> sp_A x !! w = Some y -> ~ table_of x y.1.
Proof.
  intros H Hy. eapply (mapped_no_table kref s l L _ e e x x w y (ld_ok _ _ _ _ _ _ _ H)); [apply lookup_insert_eq | apply lookup_insert_eq | done].
Qed.

(** The byte at a user address. *)
Definition vbyte (s : kstate) (x : space) (a : Z) : option Z :=
  y ← sp_A x !! (a / 4096); Some (get_byte (mget (mem s) y.1 (a `mod` 4096 / 4)) (a `mod` 4)).

(** A page that is not free and not in the address space. *)
Definition outside (l : list Z) (x : space) (f : Z) : Prop :=
  (f ∉ l) /\ ~ table_of x f /\ forall w y, sp_A x !! w = Some y -> y.1 <> f.
Definition keeps (s s' : kstate) (l l' : list Z) (x x' : space) : Prop :=
  forall f, outside l x f -> outside l' x' f /\ forall k, mget (mem s') f k = mget (mem s) f k.

(** A page is taken from the free list. *)
Lemma kernel_ok_pop s p l L S : kernel_ok kref s (p :: l) L S -> kernel_ok kref (take_page ALLOC_ZERO p s) l L S.
Proof.
  intros H. assert (Wl := take_page_wf s ALLOC_ZERO p l (ko_alloc _ _ _ _ _ H)). revert Wl. rewrite take_zero. intros Wl.
  assert (Hp : forall e x, S !! e = Some x -> ~ table_of x p).
  { intros e x Hx Ht. destruct (alloc_wf_in _ _ _ (ko_alloc _ _ _ _ _ H) (list_elem_of_here p l)) as (pi & Hpi & Hr).
    destruct (ko_refs _ _ _ _ _ H p pi Hpi) as [E _]. pose proof (ko_own _ _ _ _ _ H e x p Hx Ht). lia. }
  assert (Hm : forall f k, f <> p -> mget (zero_page p (mem s)) f k = mget (mem s) f k)
    by (intros f k Hne; by rewrite mget_zero_page, decide_False by naive_solver).
  revert Wl Hm. generalize (zero_page p (mem s)). intros m Wl Hm.
  destruct H as [H1 H2 H3 H4 H5 H6 H7 H8 H9]. constructor; try done.
  intros e' u y Hu Hy. apply (space_wf_tables _ s); [by apply (H5 e') | done|]. intros f k Hf. apply Hm. intros ->. by apply (Hp e' y).
Qed.

(** One round of [region_alloc]. *)
Definition region_page (e i : Z) : K unit :=
  p ← page_alloc 1;
  match p with
  | None => panic "Memory out!"
  | Some p => v ← env_get e; page_insert (env_pgdir v) p i (Z.lor PTE_W PTE_U) ;; skip
  end.

(** The page tables after the insertion. *)
Definition tables_grown (T T' : gmap Z Z) (l l' : list Z) : Prop :=
  (T' = T /\ l' = l) \/ exists j t, T !! j = None /\ T' = <[j := t]> T /\ l = t :: l'.

Lemma spec_insert_fresh pd ext p n fl T A l :
  A !! n = None -> (1 <= length l)%nat ->
  exists T' l', spec_insert pd ext p n fl T A l = Some (T', <[n := (p, Z.lor fl PTE_P)]> A, l') /\ tables_grown T T' l l'.
Proof.
  intros Hn Hl. unfold spec_insert, spec_table. rewrite Hn. destruct (T !! (n / 1024)) as [t|] eqn:Ht.
  - exists T, l. split; [done | by left].
  - destruct l as [|t l]; [cbn in Hl; lia|]. eexists _, l. split; [reflexivity | right]. by exists (n / 1024), t.
Qed.

Lemma grown_count T T' l l' q : tables_grown T T' l l' -> q ∉ l -> count_val id T' q = count_val id T q.
Proof.
  intros [[-> _] | (j & t & Hj & -> & ->)] Hq; [done|]. rewrite count_val_insert by done.
  rewrite decide_False; [lia|]. intros E. apply Hq. cbn in E. subst t. by left.
Qed.

Lemma grown_lookup T T' l l' i t : tables_grown T T' l l' -> T' !! i = Some t -> T !! i = Some t \/ t ∈ l.
Proof.
  intros [[-> _] | (j & t' & Hj & -> & ->)]; [by left|]. intros [[_ <-] | [_ Hi]]%lookup_insert_Some; [right; by left | by left].
Qed.

Lemma grown_refs x T' l l' n p fl q : tables_grown (sp_T x) T' l l' -> q ∉ l -> sp_A x !! n = None ->
  refs (mkSpace (sp_pd x) T' (<[n := (p, fl)]> (sp_A x))) q = refs x q + (if decide (p = q) then 1 else 0).
Proof.
  intros HT Hq Hn. unfold refs, ref_count. cbn [sp_pd sp_T sp_A]. rewrite (grown_count _ _ _ _ _ HT Hq), count_val_insert by done.
  cbn [fst]. lia.
Qed.

(** The page [p], taken and filled with zeroes, is mapped. *)
Lemma loading_insert s s2 p pi l l1 L R e v x T' n :
  loading s (p :: l) L R e v x -> sp_A x !! n = None -> 0 <= n < 2 ^ 20 -> pages s !! p = Some pi -> tables_grown (sp_T x) T' l l1 ->
  let x' := mkSpace (sp_pd x) T' (<[n := (p, 7)]> (sp_A x)) in
  kernel_ok kref s2 l1 L (<[e := x']> R) -> mm_eq s s2 ->
  mem_frame (sp_pd x) T' (take_page ALLOC_ZERO p s) s2 -> dir_writable s2 (sp_pd x) T' ->
  loading s2 l1 L R e v x' /\ keeps s s2 (p :: l) l1 x x' /\
  forall a, vbyte s2 x' a = if decide (a / 4096 = n) then Some 0 else vbyte s x a.
Proof.
  intros H Hn Hnr Hpi HT x' Hko2 Hmm Hfr Hw. assert (Hko := ld_ok _ _ _ _ _ _ _ H).
  assert (Hx : <[e := x]> R !! e = Some x) by apply lookup_insert_eq.
  assert (Hx' : <[e := x']> R !! e = Some x') by apply lookup_insert_eq.
  pose proof (alloc_wf_NoDup _ _ (ko_alloc _ _ _ _ _ Hko)) as [Hpl _]%NoDup_cons.
  assert (Hold : forall w y, sp_A x !! w = Some y -> (y.1 ∉ l) /\ y.1 <> p).
  { intros w y Hy. assert (Hf := mapped_not_free _ _ _ _ _ _ _ _ _ _ (loading_aspace _ _ _ _ _ _ _ H) Hy).
    by apply not_elem_of_cons in Hf as [? ?]. }
  assert (Hpz : kref p + total (<[e := x]> R) p = 0).
  { destruct (alloc_wf_in _ _ _ (ko_alloc _ _ _ _ _ Hko) (list_elem_of_here p l)) as (pj & Hpj & Hr).
    destruct (ko_refs _ _ _ _ _ Hko p pj Hpj) as [E _]. lia. }
  assert (Htot : forall q, q ∉ l -> total (<[e := x']> R) q = total (<[e := x]> R) q + (if decide (p = q) then 1 else 0)).
  { intros q Hq. rewrite !total_insert. unfold x'. rewrite (grown_refs x T' l l1 n p 7 q HT Hq Hn). lia. }
  assert (Hnt : forall w y, sp_A x' !! w = Some y -> ~ table_of x' y.1).
  { intros w y Hy. exact (mapped_no_table kref s2 l1 L _ e e x' x' w y Hko2 Hx' Hx' Hy). }
  assert (Hmem : forall w y k, sp_A x' !! w = Some y -> mget (mem s2) y.1 k = mget (mem (take_page ALLOC_ZERO p s)) y.1 k).
  { intros w y k Hy. apply Hfr; [intros E; apply (Hnt w y Hy); by left | intros j Hj; apply (Hnt w y Hy); right; by exists j]. }
  split; [|split].
  - constructor; [done | | | | done].
    + rewrite (proj2 (mm_eq_cur _ _ Hmm)). apply (ld_env _ _ _ _ _ _ _ H).
    + eapply mm_eq_cur_ok; [done | apply (ld_cur _ _ _ _ _ _ _ H)].
    + intros w y Hwy. unfold x' in Hwy. cbn [sp_A] in Hwy. apply lookup_insert_Some in Hwy as [[_ <-] | [_ Hy]]; cbn [fst snd].
      * split; [done|]. rewrite (Htot p Hpl), decide_True by done. lia.
      * destruct (ld_own _ _ _ _ _ _ _ H w y Hy) as [H7 Ho]. destruct (Hold w y Hy) as [Hyl Hyp].
        split; [done|]. rewrite (Htot _ Hyl), decide_False by congruence. lia.
  - intros f (Hf1 & Hf2 & Hf3). apply not_elem_of_cons in Hf1 as [Hfp Hfl].
    assert (Htab : forall j, T' !! j <> Some f).
    { intros j Hj. destruct (grown_lookup _ _ _ _ _ _ HT Hj) as [Hj'|Hj']; [apply Hf2; right; by exists j | done]. }
    split; [split; [|split]|].
    + intros Hf. apply Hfl. destruct HT as [[_ ->] | (j & t & _ & _ & ->)]; [done | by right].
    + intros [-> | [j Hj]]; [apply Hf2; by left | exact (Htab j Hj)].
    + intros w y. unfold x'. cbn [sp_A]. intros [[_ <-] | [_ Hy]]%lookup_insert_Some; [cbn; congruence | exact (Hf3 w y Hy)].
    + intros k. rewrite Hfr; [| intros ->; apply Hf2; by left | exact Htab]. rewrite take_zero. cbn [mem set_mem set_page_free_list].
      by rewrite mget_zero_page, decide_False by naive_solver.
  - intros a. unfold vbyte. pose proof (Z.mod_pos_bound a 4096 ltac:(lia)) as Ha.
    assert (Hk : 0 <= a `mod` 4096 / 4 < 1024) by zdm. unfold x' at 1. cbn [sp_A].
    case_decide as Ea; [subst n; rewrite lookup_insert_eq | rewrite lookup_insert_ne by done]; cbn [mbind option_bind].
    + rewrite (Hmem (a / 4096) (p, 7)) by apply lookup_insert_eq. rewrite take_zero. cbn [fst mem set_mem set_page_free_list].
      rewrite mget_zero_page, decide_True by done. f_equal. unfold get_byte. by rewrite Z.shiftr_0_l.
    + destruct (sp_A x !! (a / 4096)) as [y|] eqn:Hy; [cbn [mbind option_bind]|done]. destruct (Hold _ _ Hy) as [_ Hyp].
      rewrite (Hmem (a / 4096) y) by (unfold x'; cbn [sp_A]; by rewrite lookup_insert_ne). rewrite take_zero.
      cbn [mem set_mem set_page_free_list]. by rewrite mget_zero_page, decide_False by naive_solver.
Qed.

Lemma region_page_maps s l L R e v x i :
  loading s l L R e v x -> 0 <= i < UTOP -> i `mod` 4096 = 0 -> sp_A x !! (i / 4096) = None -> (2 <= length l)%nat ->
  exists s' l' x' p, region_page e i s = (Ret tt, s') /\ mm_eq s s' /\ loading s' l' L R e v x' /\
    sp_pd x' = sp_pd x /\ sp_A x' = <[i / 4096 := (p, 7)]> (sp_A x) /\ (length l <= length l' + 2)%nat /\
    keeps s s' l l' x x' /\ forall a, vbyte s' x' a = if decide (a / 4096 = i / 4096) then Some 0 else vbyte s x a.
Proof.
  intros H Hi Him Hv Hlen. destruct l as [|p l]; [cbn in Hlen; lia|].
  assert (Hko := ld_ok _ _ _ _ _ _ _ H). assert (Hx : <[e := x]> R !! e = Some x) by apply lookup_insert_eq.
  assert (Hpop := kernel_ok_pop s p l L _ Hko). destruct (below_UTOP i Hi) as [Hd Hi'].
  assert (Hpn : PGNUM i = i / 4096) by apply PGNUM_div. assert (W := ko_alloc _ _ _ _ _ Hko).
  destruct (alloc_wf_in _ _ _ W (list_elem_of_here p l)) as (pi & Hpi & Hpr).
  assert (Hal : page_alloc 1 s = (Ret (Some p), take_page ALLOC_ZERO p s)) by exact (page_alloc_cons s 1 p l W).
  pose proof (alloc_wf_NoDup _ _ W) as [Hpl _]%NoDup_cons.
  assert (Hpt : forall e' z, <[e := x]> R !! e' = Some z -> ~ table_of z p).
  { intros e' z Hz Ht. pose proof (ko_own _ _ _ _ _ Hko e' z p Hz Ht). destruct (ko_refs _ _ _ _ _ Hko p pi Hpi) as [E _]. lia. }
  assert (He := ld_env _ _ _ _ _ _ _ H). assert (Hc := ld_cur _ _ _ _ _ _ _ H).
  assert (Hw1 : dir_writable (take_page ALLOC_ZERO p s) (sp_pd x) (sp_T x)).
  { intros j t Hj. rewrite take_zero. cbn [mem set_mem set_page_free_list]. rewrite mget_zero_page, decide_False.
    - by apply (ld_dir _ _ _ _ _ _ _ H j t).
    - intros [E _]. apply (Hpt e x Hx). by left. }
  assert (Emm : mm_eq s (take_page ALLOC_ZERO p s)) by (rewrite take_zero; generalize (zero_page p (mem s)); intros m; by destruct s).
  assert (He1 : envs (take_page ALLOC_ZERO p s) !! e = Some v) by by rewrite (proj2 (mm_eq_cur _ _ Emm)).
  assert (Hpi1 : pages (take_page ALLOC_ZERO p s) !! p = Some pi) by exact Hpi.
  assert (Hfin := fun s2 l1 T' => loading_insert s s2 p pi l l1 L R e v x T' (i / 4096) H Hv ltac:(change UTOP with 4005560320 in Hi; zdm) Hpi).
  assert (Hc1 := mm_eq_cur_ok _ _ Emm Hc). set (s1 := take_page ALLOC_ZERO p s) in *. clearbody s1.
  assert (Hasp := kernel_aspace kref s1 l L _ e v x Hpop He1 Hx).
  destruct (spec_insert_fresh (sp_pd x) (others kref (<[e := x]> R) e) p (PGNUM i) (Z.lor PTE_W PTE_U) (sp_T x) (sp_A x) l)
    as (T' & l1 & Hspec & HT); [by rewrite Hpn | cbn in Hlen; lia|].
  pose proof (page_insert_eq below_utop s1 (env_pgdir v) (sp_pd x) (sp_T x) (sp_A x) l _ p i (Z.lor PTE_W PTE_U) pi
    Hasp Hc1 Hd Hi' Hpi1 Hpl ltac:(rewrite Hpr; reflexivity) ltac:(split; [discriminate | reflexivity])) as Hins.
  rewrite Hspec in Hins. destruct Hins as (s2 & Hrun & Hmm & Hfr & Has).
  assert (Hw2 := insert_keeps_writable below_utop s1 (env_pgdir v) (sp_pd x) (sp_T x) (sp_A x) l _ p i (Z.lor PTE_W PTE_U) pi T' _ l1 s2
    Hasp Hc1 Hi' Hd ltac:(by rewrite Hpn) Hpi1 Hpl ltac:(rewrite Hpr; reflexivity) ltac:(split; [discriminate | reflexivity]) Hspec Hrun Hw1).
  rewrite Hpn in Has. change (Z.lor (Z.lor PTE_W PTE_U) PTE_P) with 7 in Has.
  assert (Hko2 := kernel_ok_space kref s1 s2 l l1 L _ e v x T' _ Hpop He1 Hx Hmm Hfr Has
    ltac:(intros j t; apply (grown_lookup _ _ _ _ _ _ HT))
    ltac:(intros w y [[_ <-] | [_ Hy]]%lookup_insert_Some; [right; split; [exact Hpt | exact Hpl] | left; exact Hy])).
  rewrite insert_insert_eq in Hko2. destruct (Hfin s2 l1 T' HT Hko2 (mm_eq_trans _ _ _ Emm Hmm) Hfr Hw2) as (Hld & Hkeep & Hb).
  exists s2, l1, (mkSpace (sp_pd x) T' (<[i / 4096 := (p, 7)]> (sp_A x))), p. split.
  - unfold region_page. rewrite (bind_Ret _ _ _ _ _ Hal), (bind_Ret _ _ _ _ _ (env_get_eq _ _ _ He1)).
    rewrite (bind_Ret _ _ _ _ _ Hrun). reflexivity.
  - split; [exact (mm_eq_trans _ _ _ Emm Hmm)|]. split; [exact Hld|]. split; [reflexivity|]. split; [reflexivity|].
    split; [|exact (conj Hkeep Hb)]. destruct HT as [[_ ->] | (j & t & _ & _ & ->)]; cbn [length]; lia.
Qed.

End Loading.

(** ** The loops *)

Section Loops.

Context (kref : Z -> Z) (L : list Z) (R : gmap Z space) (e : Z) (v : Env).
#[local] Abbreviation loading := (fun s l x => loading kref s l L R e v x).

(** From state [s] to [s'], the contents of the address space become [f]. *)
Record loads (s s' : kstate) (l l' : list Z) (x x' : space) (cost : nat) (f : Z -> option Z) : Prop := mkLoads {
  lo_mm : mm_eq s s';
  lo_ok : loading s' l' x';
  lo_pd : sp_pd x' = sp_pd x;
  lo_len : (length l <= length l' + cost)%nat;
  lo_byte : forall a, 0 <= a < 2 ^ 32 -> vbyte s' x' a = f a;
  lo_keep : keeps s s' l l' x x';
}.

Lemma keeps_refl s l x : keeps s s l l x x.
Proof. by intros f Hf. Qed.

Lemma keeps_trans s1 s2 s3 l1 l2 l3 x1 x2 x3 : keeps s1 s2 l1 l2 x1 x2 -> keeps s2 s3 l2 l3 x2 x3 -> keeps s1 s3 l1 l3 x1 x3.
Proof. intros H1 H2 f Hf. destruct (H1 f Hf) as [Hf2 E1]. destruct (H2 f Hf2) as [Hf3 E2]. split; [done|]. intros k. by rewrite E2, E1. Qed.

Lemma loads_trans s1 s2 s3 l1 l2 l3 x1 x2 x3 c1 c2 f g :
  loads s1 s2 l1 l2 x1 x2 c1 f -> loads s2 s3 l2 l3 x2 x3 c2 g -> loads s1 s3 l1 l3 x1 x3 (c1 + c2) g.
Proof.
  intros [A1 A2 A3 A4 A5 A6] [B1 B2 B3 B4 B5 B6]. constructor; [by eapply mm_eq_trans | done | congruence | lia | done | by eapply keeps_trans].
Qed.

Lemma loads_ext s s' l l' x x' c f g : (forall a, 0 <= a < 2 ^ 32 -> f a = g a) ->
  loads s s' l l' x x' c f -> loads s s' l l' x x' c g.
Proof. intros E [A1 A2 A3 A4 A5 A6]. constructor; [done..| |exact A6]. intros a Ha. by rewrite A5, E. Qed.

(** Whether the page of an address is mapped depends on the page only. *)
Lemma vbyte_mapped s x a : is_Some (vbyte s x a) <-> is_Some (sp_A x !! (a / 4096)).
Proof. unfold vbyte. destruct (sp_A x !! (a / 4096)); cbn; split; intros [? Hz]; try discriminate Hz; by eexists. Qed.

Lemma vbyte_none s x a : vbyte s x a = None <-> sp_A x !! (a / 4096) = None.
Proof. unfold vbyte. by destruct (sp_A x !! (a / 4096)). Qed.

Definition on_page (pgs : list Z) (a : Z) : Prop := 4096 * (a / 4096) ∈ pgs.
#[local] Instance on_page_dec pgs a : Decision (on_page pgs a) := _ : Decision (_ ∈ _).

Lemma region_loop pgs s l x :
  loading s l x -> (forall i, i ∈ pgs -> 0 <= i < UTOP /\ i `mod` 4096 = 0 /\ vbyte s x i = None) -> NoDup pgs ->
  (2 * length pgs <= length l)%nat ->
  exists s' l' x', for_each pgs (region_page e) s = (Ret tt, s') /\
    loads s s' l l' x x' (2 * length pgs) (fun a => if decide (on_page pgs a) then Some 0 else vbyte s x a).
Proof.
  revert s l x. induction pgs as [|i pgs IH]; intros s l x H His Hnd Hlen; cbn [for_each].
  { exists s, l, x. split; [done|]. constructor; [apply mm_eq_refl | done | done | cbn; lia | | apply keeps_refl].
    intros a Ha. rewrite decide_False; [done|]. intros Hin. by apply elem_of_nil in Hin. }
  apply NoDup_cons in Hnd as [Hni Hnd]. destruct (His i ltac:(by left)) as (Hi & Him & Hv%vbyte_none). cbn [length] in Hlen.
  destruct (region_page_maps kref s l L R e v x i H Hi Him Hv ltac:(lia)) as (s1 & l1 & x1 & p & Hrun & Hmm & H1 & Hpd & HA & Hl1 & Hkp & Hb).
  destruct (IH s1 l1 x1 H1) as (s2 & l2 & x2 & Hrun2 & H2).
  - intros j Hj. destruct (His j ltac:(by right)) as (Hj1 & Hj2 & Hj3). split; [done|]. split; [done|]. rewrite Hb, decide_False; [done|].
    intros E. apply Hni. replace i with j by zdm. done.
  - done.
  - lia.
  - exists s2, l2, x2. rewrite (bind_Ret _ _ _ _ _ Hrun). split; [exact Hrun2|].
    assert (S1 : loads s s1 l l1 x x1 2 (vbyte s1 x1)) by (by constructor).
    replace (2 * length (i :: pgs))%nat with (2 + 2 * length pgs)%nat by (cbn [length]; lia).
    eapply loads_ext, (loads_trans _ _ _ _ _ _ _ _ _ _ _ _ _ S1 H2). intros a Ha. cbn beta. rewrite Hb.
    unfold on_page. repeat case_decide; try done.
    + exfalso. match goal with Hn : ~ _ ∈ i :: pgs |- _ => apply Hn end. apply elem_of_cons. by right.
    + exfalso. match goal with Hn : ~ _ ∈ i :: pgs |- _ => apply Hn end. apply elem_of_cons. left. zdm.
    + exfalso. match goal with Hn : _ ∈ i :: pgs |- _ => apply elem_of_cons in Hn as [Hn|Hn]; [|done] end.
      match goal with Hn : a / 4096 <> _ |- _ => apply Hn end. zdm.
Qed.

(** A store of one byte. *)
Lemma vstore8_loads s l x a b :
  loading s l x -> cr3 s = 4096 * sp_pd x -> 0 <= a < UTOP -> is_Some (vbyte s x a) ->
  exists s', vstore8 a b s = (Ret tt, s') /\ loads s s' l l x x 0 (fun a' => if decide (a' = a) then Some (u8 b) else vbyte s x a').
Proof.
  intros H Hcr Ha Hm%vbyte_mapped. destruct Hm as [[f fl] Hf]. assert (Hko := ld_ok _ _ _ _ _ _ _ _ H).
  assert (Hx : <[e := x]> R !! e = Some x) by apply lookup_insert_eq. assert (He := ld_env _ _ _ _ _ _ _ _ H).
  destruct (ld_own _ _ _ _ _ _ _ _ H _ _ Hf) as [Hfl _]. cbn [snd] in Hfl. subst fl.
  assert (W := ko_space _ _ _ _ _ Hko e v x He Hx). destruct (sw_some _ _ _ _ _ _ W _ _ Hf) as (_ & _ & _ & _ & t & Ht & Hpte).
  destruct (tw_some _ _ _ _ _ (sw_tables _ _ _ _ _ _ W) _ _ Ht) as (_ & _ & _ & _ & Hp & Haddr).
  assert (Hw := ld_dir _ _ _ _ _ _ _ _ H _ _ Ht). assert (HU : 0 <= a < 4005560320) by exact Ha.
  assert (Hi : a / 4096 / 1024 = PDX a) by (rewrite PDX_div; zdm). assert (Hj : (a / 4096) `mod` 1024 = PTX a) by (by rewrite PTX_div).
  rewrite Hi in Hp, Haddr, Hw, Ht. rewrite Hj in Hpte.
  assert (Eo : PGOFF a = a `mod` 4096) by (unfold PGOFF; change 0xFFF with (Z.ones 12); by rewrite Z.land_ones).
  assert (Hwalk : mmu_walk (mem s) (cr3 s) a true = Some (4096 * f + a `mod` 4096)).
  { unfold mmu_walk. rewrite Hcr, (PTE_ADDR_mod (4096 * sp_pd x)).
    replace (4096 * sp_pd x - (4096 * sp_pd x) `mod` 4096) with (4096 * sp_pd x) by zdm.
    rewrite mload_word by apply PDX_range. rewrite Hp, Hw. cbn [andb orb negb]. rewrite Haddr, mload_word by apply PTX_range.
    rewrite Hpte. rewrite !pte_entry_test by (cbn [snd]; (unfold PTE_P, PTE_W; lia) || lia). cbn [snd].
    rewrite pte_entry_addr by (cbn [snd]; lia). by rewrite Eo. }
  assert (E : vstore8 a b s = (Ret tt, set_mem (mset (mem s) f (a `mod` 4096 / 4)
    (u32 (put_byte (mget (mem s) f (a `mod` 4096 / 4)) (a `mod` 4) b))) s)).
  { unfold vstore8, translate. destruct (Z.leb_spec KERNBASE a) as [Hk|_]; [change KERNBASE with 4026531840 in Hk; lia|]. rewrite Hwalk.
    replace (4096 * f + a `mod` 4096 - (4096 * f + a `mod` 4096) `mod` 4) with (4096 * f + 4 * (a `mod` 4096 / 4)) by zdm.
    rewrite mload_word, mstore_word by zdm. replace ((4096 * f + a `mod` 4096) `mod` 4) with (a `mod` 4) by zdm. done. }
  eexists. split; [exact E|]. set (w := u32 _). set (s' := set_mem _ s). assert (Em : mem s' = mset (mem s) f (a `mod` 4096 / 4) w) by done.
  assert (Emm : mm_eq s s') by by destruct s.
  assert (Hko' : kernel_ok kref s' l L (<[e := x]> R)) by by apply (kernel_ok_store kref s l L _ f _ w e x (a / 4096) 7).
  assert (Hkeep : keeps s s' l l x x).
  { intros q Hq. split; [done|]. intros k. rewrite Em. rewrite mget_mset_ne; [done|]. left. intros ->. destruct Hq as (_ & _ & Hq). exact (Hq _ _ Hf eq_refl). }
  clearbody s'. constructor; [done | | done | lia | | exact Hkeep].
  - constructor; [done | by rewrite (proj2 (mm_eq_cur _ _ Emm)) | by eapply mm_eq_cur_ok, (ld_cur _ _ _ _ _ _ _ _ H) | exact (ld_own _ _ _ _ _ _ _ _ H)|].
    intros j u Hu. rewrite Em, mget_mset_ne; [by apply (ld_dir _ _ _ _ _ _ _ _ H j u)|]. left. intros E2.
    apply (mapped_no_own_table kref s l L R e v x (a / 4096) (f, 7) H Hf). left. cbn. congruence.
  - intros a' Ha'. unfold vbyte. destruct (sp_A x !! (a' / 4096)) as [y|] eqn:Hy; cbn [mbind option_bind].
    2:{ rewrite decide_False; [done|]. intros ->. by rewrite Hf in Hy. }
    rewrite Em, mget_mset. destruct (decide (a' = a)) as [Ea|Ea].
    + rewrite Ea in Hy |- *. rewrite Hf in Hy. injection Hy as <-. cbn [fst]. rewrite decide_True by done. f_equal. unfold w.
      rewrite get_put_byte by (apply Z.mod_pos_bound; lia). by rewrite decide_True.
    + f_equal. case_decide as E2; [|done]. destruct E2 as [E2 E3].
      assert (Epg : a' / 4096 = a / 4096) by (apply (loading_inj kref s l L R e v x _ _ y (f, 7) H Hy Hf); cbn; congruence).
      unfold w. rewrite get_put_byte by (apply Z.mod_pos_bound; lia). rewrite decide_False by zdm. do 2 f_equal; congruence.
Qed.

End Loops.

(** ** The bytes of the program *)

(** The pages of a region, from [region_start] to [region_stop]. *)
Definition region_start (va : Z) : Z := va - va `mod` 4096.
Definition region_stop (va len : Z) : Z := va + len + 4095 - (va + len + 4095) `mod` 4096.

(** Its size in pages. *)
Definition region_count (va len : Z) : nat := Z.to_nat ((region_stop va len - region_start va) / 4096).

Section Regions.

Lemma region_pages_eq va len : 0 <= va -> 0 <= len -> va + len + 4095 < 2 ^ 32 ->
  region_pages va len = (fun k => region_start va + 4096 * k) <$> seqZ 0 (Z.of_nat (region_count va len)).
Proof.
  intros Hva Hlen Hb. unfold region_pages, region_count. change PGSIZE with 4096.
  rewrite (u32_small (va + len)), ROUNDDOWN_small, ROUNDUP_small by lia. fold (region_start va).
  replace (va + len + 4096 - 1) with (va + len + 4095) by lia. fold (region_stop va len).
  rewrite Z2Nat.id; [done|]. unfold region_stop, region_start. zdm.
Qed.

Lemma region_pages_in va len i : 0 <= va -> 0 <= len -> va + len + 4095 < 2 ^ 32 ->
  i ∈ region_pages va len <-> region_start va <= i < region_stop va len /\ i `mod` 4096 = 0.
Proof.
  intros Hva Hlen Hb. rewrite region_pages_eq, list_elem_of_fmap by done. unfold region_count. rewrite Z2Nat.id by (unfold region_stop, region_start; zdm).
  setoid_rewrite elem_of_seqZ. split.
  - intros (k & -> & Hk). unfold region_stop, region_start in *. zdm.
  - intros [Hi Hm]. exists ((i - region_start va) / 4096). unfold region_stop, region_start in *. zdm.
Qed.

Lemma region_pages_length va len : 0 <= va -> 0 <= len -> va + len + 4095 < 2 ^ 32 ->
  length (region_pages va len) = region_count va len.
Proof. intros. rewrite region_pages_eq, length_fmap, length_seqZ by done. lia. Qed.

Lemma region_pages_NoDup va len : 0 <= va -> 0 <= len -> va + len + 4095 < 2 ^ 32 -> NoDup (region_pages va len).
Proof. intros. rewrite region_pages_eq by done. apply NoDup_fmap_2; [intros ???; lia | apply NoDup_seqZ]. Qed.

Lemma on_region va len a : 0 <= va -> 0 <= len -> va + len + 4095 < 2 ^ 32 ->
  on_page (region_pages va len) a <-> region_start va <= a < region_stop va len.
Proof. intros. unfold on_page. rewrite region_pages_in by done. unfold region_stop, region_start. zdm. Qed.

End Regions.

Section Bodies.

Context (kref : Z -> Z) (L : list Z) (R : gmap Z space) (e : Z) (v : Env).
#[local] Abbreviation loading := (fun s l x => loading kref s l L R e v x).
#[local] Abbreviation loads := (loads kref L R e v).

Lemma store_loop n i va f s l x :
  loading s l x -> cr3 s = 4096 * sp_pd x -> 0 <= va -> 0 <= i -> va + i + Z.of_nat n <= UTOP ->
  (forall a, va + i <= a < va + i + Z.of_nat n -> is_Some (vbyte s x a)) ->
  exists s', for_each (seqZ i (Z.of_nat n)) (fun k => vstore8 (u32 (va + k)) (f k)) s = (Ret tt, s') /\
    loads s s' l l x x 0 (fun a => if decide (va + i <= a < va + i + Z.of_nat n) then Some (u8 (f (a - va))) else vbyte s x a).
Proof.
  revert i s. induction n as [|n IH]; intros i s H Hcr Hva Hi Hb Hm.
  { exists s. split; [done|]. constructor; [apply mm_eq_refl | done | done | lia| | apply keeps_refl]. intros a Ha. by rewrite decide_False by lia. }
  rewrite seqZ_cons by lia. cbn [for_each]. assert (UTOP < 2 ^ 32) by done. rewrite u32_small by lia.
  destruct (vstore8_loads kref L R e v s l x (va + i) (f i) H Hcr ltac:(lia) ltac:(apply Hm; lia)) as (s1 & Hrun & H1).
  destruct (IH (Z.succ i) s1) as (s2 & Hrun2 & H2); [exact (lo_ok _ _ _ _ _ _ _ _ _ _ _ _ _ H1) | | lia.. | |].
  - rewrite (lo_mm _ _ _ _ _ _ _ _ _ _ _ _ _ H1). exact Hcr.
  - intros a Ha. rewrite (lo_byte _ _ _ _ _ _ _ _ _ _ _ _ _ H1 a ltac:(lia)). case_decide; [by eexists|]. apply Hm. lia.
  - exists s2. rewrite (bind_Ret _ _ _ _ _ Hrun). replace (Z.pred (Z.of_nat (S n))) with (Z.of_nat n) by lia. split; [exact Hrun2|].
    eapply loads_ext, (loads_trans _ _ _ _ _ _ _ _ _ _ _ _ _ _ _ _ _ _ H1 H2). intros a Ha. cbn beta.
    rewrite (lo_byte _ _ _ _ _ _ _ _ _ _ _ _ _ H1 a Ha). repeat case_decide; try done; try lia. do 3 f_equal. lia.
Qed.

(** [region_alloc] on a region none of whose pages is mapped. *)
Lemma region_alloc_loads s l x va len :
  loading s l x -> 0 <= va -> 0 <= len -> region_stop va len <= UTOP ->
  (forall a, region_start va <= a < region_stop va len -> vbyte s x a = None) -> (2 * region_count va len <= length l)%nat ->
  exists s' l' x', region_alloc e va len s = (Ret tt, s') /\
    loads s s' l l' x x' (2 * region_count va len)
      (fun a => if decide (region_start va <= a < region_stop va len) then Some 0 else vbyte s x a).
Proof.
  intros H Hva Hlen Hb Hn Hl. assert (Hw : va + len + 4095 < 2 ^ 32) by (change UTOP with 4005560320 in Hb; unfold region_stop in Hb; zdm).
  assert (Hin := fun i => region_pages_in va len i Hva Hlen Hw). rewrite <- (region_pages_length va len Hva Hlen Hw) in *.
  destruct (region_loop kref L R e v (region_pages va len) s l x H) as (s' & l' & x' & Hrun & H').
  - intros i Hi%Hin. destruct Hi as [Hi Hm]. split; [unfold region_start in Hi; zdm|]. split; [done|]. by apply Hn.
  - by apply region_pages_NoDup.
  - done.
  - exists s', l', x'. split; [exact Hrun|]. eapply loads_ext, H'. intros a Ha. cbn beta.
    apply decide_ext. by apply on_region.
Qed.

End Bodies.

(** ** The image of a program *)

Definition seg_start (ph : Proghdr) : Z := region_start (p_va ph).
Definition seg_stop (ph : Proghdr) : Z := region_stop (p_va ph) (p_memsz ph).

(** The bytes that the segments put into an address space: those of the file, then zeroes up to the ends of the pages. *)
Fixpoint segments_byte (bin : Z -> Z) (phs : list Proghdr) (a : Z) : option Z :=
  match phs with
  | [] => None
  | ph :: phs =>
      if decide (seg_start ph <= a < seg_stop ph) then
        Some (if decide (p_va ph <= a < p_va ph + p_filesz ph) then bin (p_offset ph + (a - p_va ph)) else 0)
      else segments_byte bin phs a
  end.

Definition load_headers (bin : Z -> Z) : list Proghdr :=
  filter (fun ph => p_type ph = ELF_PROG_LOAD)
    ((fun k => prog_header bin (e_phoff (elf_header bin) + 32 * k)) <$> seqZ 0 (e_phnum (elf_header bin))).

(** The user's memory when the program starts. *)
Definition image_byte (bin : Z -> Z) (a : Z) : option Z :=
  if decide (USTACKTOP - PGSIZE <= a < USTACKTOP) then Some 0 else segments_byte bin (load_headers bin) a.

(** A segment that lies below the stack and is not larger in the file than in memory. *)
Definition seg_ok (ph : Proghdr) : Prop :=
  0 <= p_va ph /\ 0 <= p_filesz ph <= p_memsz ph /\ seg_stop ph <= USTACKTOP - PGSIZE.
Definition seg_apart (p1 p2 : Proghdr) : Prop := seg_stop p1 <= seg_start p2 \/ seg_stop p2 <= seg_start p1.

Definition segs_count (phs : list Proghdr) : nat := list_sum ((fun ph => region_count (p_va ph) (p_memsz ph)) <$> phs).

(** A program that [load_icode] can load: no page belongs to two segments. *)
Record elf_ok (bin : Z -> Z) : Prop := mkElfOk {
  elf_magic : e_magic (elf_header bin) = ELF_MAGIC;
  elf_segs : Forall seg_ok (load_headers bin);
  elf_apart : ForallOrdPairs seg_apart (load_headers bin);
  elf_bytes : forall o, 0 <= bin o < 256;
}.

Section Image.

Context (kref : Z -> Z) (L : list Z) (R : gmap Z space) (e : Z) (v : Env).
#[local] Abbreviation loading := (fun s l x => loading kref s l L R e v x).
#[local] Abbreviation loads := (loads kref L R e v).

Lemma segments_apart bin ph phs a : Forall (seg_apart ph) phs -> seg_start ph <= a < seg_stop ph -> segments_byte bin phs a = None.
Proof.
  intros H Ha. induction H as [|p2 phs H1 H2 IH]; [done|]. cbn [segments_byte]. rewrite decide_False; [done|]. unfold seg_apart in H1. lia.
Qed.

Lemma load_segment_loads bin ph s l x :
  loading s l x -> cr3 s = 4096 * sp_pd x -> p_type ph = ELF_PROG_LOAD -> seg_ok ph -> (forall o, 0 <= bin o < 256) ->
  (forall a, seg_start ph <= a < seg_stop ph -> vbyte s x a = None) -> (2 * region_count (p_va ph) (p_memsz ph) <= length l)%nat ->
  exists s' l' x', load_segment e bin ph s = (Ret tt, s') /\
    loads s s' l l' x x' (2 * region_count (p_va ph) (p_memsz ph))
      (fun a => match segments_byte bin [ph] a with Some b => Some b | None => vbyte s x a end).
Proof.
  intros H Hcr Hty (Hva & Hsz & Hb) Hbin Hn Hl. change (USTACKTOP - PGSIZE) with 4005548032 in Hb.
  unfold load_segment. rewrite Hty, Z.eqb_refl. unfold seg_start, seg_stop in *.
  assert (Hr : region_start (p_va ph) <= p_va ph /\ p_va ph + p_memsz ph <= region_stop (p_va ph) (p_memsz ph))
    by (unfold region_start, region_stop; zdm).
  destruct (region_alloc_loads kref L R e v s l x (p_va ph) (p_memsz ph) H Hva ltac:(lia)
    ltac:(change UTOP with 4005560320; lia) Hn Hl) as (s1 & l1 & x1 & R1 & H1).
  assert (Hcr1 : cr3 s1 = 4096 * sp_pd x1).
  { rewrite (lo_pd _ _ _ _ _ _ _ _ _ _ _ _ _ H1), (lo_mm _ _ _ _ _ _ _ _ _ _ _ _ _ H1). exact Hcr. }
  destruct (store_loop kref L R e v (Z.to_nat (p_memsz ph)) 0 (p_va ph) (fun _ => 0) s1 l1 x1
    (lo_ok _ _ _ _ _ _ _ _ _ _ _ _ _ H1) Hcr1 Hva ltac:(lia) ltac:(change UTOP with 4005560320; lia)) as (s2 & R2 & H2).
  { intros a Ha. rewrite (lo_byte _ _ _ _ _ _ _ _ _ _ _ _ _ H1 a ltac:(lia)), decide_True by lia. by eexists. }
  assert (Hcr2 : cr3 s2 = 4096 * sp_pd x1) by (rewrite (lo_mm _ _ _ _ _ _ _ _ _ _ _ _ _ H2); exact Hcr1).
  destruct (store_loop kref L R e v (Z.to_nat (p_filesz ph)) 0 (p_va ph) (fun k => bin (p_offset ph + k)) s2 l1 x1
    (lo_ok _ _ _ _ _ _ _ _ _ _ _ _ _ H2) Hcr2 Hva ltac:(lia) ltac:(change UTOP with 4005560320; lia)) as (s3 & R3 & H3).
  { intros a Ha. rewrite (lo_byte _ _ _ _ _ _ _ _ _ _ _ _ _ H2 a ltac:(lia)), decide_True by lia. by eexists. }
  rewrite Z2Nat.id in R2, R3 by lia. exists s3, l1, x1. rewrite (bind_Ret _ _ _ _ _ R1). unfold user_memset. rewrite (bind_Ret _ _ _ _ _ R2).
  split; [exact R3|]. rewrite <- (Nat.add_0_r (2 * _)). rewrite <- (Nat.add_0_r (2 * _ + 0)).
  eapply loads_ext, (loads_trans _ _ _ _ _ _ _ _ _ _ _ _ _ _ _ _ _ _ (loads_trans _ _ _ _ _ _ _ _ _ _ _ _ _ _ _ _ _ _ H1 H2) H3).
  intros a Ha. cbn beta. rewrite (lo_byte _ _ _ _ _ _ _ _ _ _ _ _ _ H2 a Ha). cbn beta.
  rewrite (lo_byte _ _ _ _ _ _ _ _ _ _ _ _ _ H1 a Ha). cbn [segments_byte]. unfold seg_start, seg_stop. rewrite !Z.add_0_r, !Z2Nat.id by lia.
  destruct (decide (p_va ph <= a < p_va ph + p_filesz ph)).
  - rewrite decide_True by lia. unfold u8. by rewrite Z.mod_small by apply Hbin.
  - destruct (decide (p_va ph <= a < p_va ph + p_memsz ph)); [by rewrite decide_True by lia|]. by case_decide.
Qed.

(** All segments, one after the other. *)
Lemma segments_loop (ph : Z -> Proghdr) bin ks s l x :
  let phs := filter (fun p => p_type p = ELF_PROG_LOAD) (ph <$> ks) in
  loading s l x -> cr3 s = 4096 * sp_pd x -> Forall seg_ok phs -> ForallOrdPairs seg_apart phs -> (forall o, 0 <= bin o < 256) ->
  (forall a, is_Some (segments_byte bin phs a) -> vbyte s x a = None) -> (2 * segs_count phs <= length l)%nat ->
  exists s' l' x', for_each ks (fun k => load_segment e bin (ph k)) s = (Ret tt, s') /\
    loads s s' l l' x x' (2 * segs_count phs) (fun a => match segments_byte bin phs a with Some b => Some b | None => vbyte s x a end).
Proof.
  cbn zeta. revert s l x. induction ks as [|k ks IH]; intros s l x H Hcr Hok Hap Hbin Hn Hl; cbn [for_each].
  { exists s, l, x. split; [done|]. constructor; [apply mm_eq_refl | done | done | lia | done | apply keeps_refl]. }
  rewrite fmap_cons in *. rewrite filter_cons in *. destruct (decide (p_type (ph k) = ELF_PROG_LOAD)) as [Hty|Hty].
  2:{ destruct (IH s l x H Hcr Hok Hap Hbin Hn Hl) as (s' & l' & x' & Hrun & H'). exists s', l', x'. split; [|done].
      rewrite (bind_Ret (load_segment e bin (ph k)) _ s tt s); [exact Hrun|]. unfold load_segment. by rewrite (proj2 (Z.eqb_neq _ _) Hty). }
  set (phs := filter _ (ph <$> ks)) in *. apply Forall_cons in Hok as [Hk Hok]. inversion Hap as [|? ? Hk2 Hap2]; subst.
  unfold segs_count in Hl |- *. rewrite fmap_cons in Hl |- *. cbn [list_sum foldr] in Hl |- *. fold (list_sum ((fun ph => region_count (p_va ph) (p_memsz ph)) <$> phs)) in Hl |- *. fold (segs_count phs) in Hl |- *.
  assert (Happ := segments_apart bin (ph k) phs).
  destruct (load_segment_loads bin (ph k) s l x H Hcr Hty Hk Hbin) as (s1 & l1 & x1 & R1 & H1).
  { intros a Ha. apply Hn. cbn [segments_byte]. rewrite decide_True by done. by eexists. }
  { lia. }
  pose proof (lo_len _ _ _ _ _ _ _ _ _ _ _ _ _ H1) as Hlen1.
  destruct (IH s1 l1 x1 (lo_ok _ _ _ _ _ _ _ _ _ _ _ _ _ H1)) as (s2 & l2 & x2 & R2 & H2).
  - rewrite (lo_pd _ _ _ _ _ _ _ _ _ _ _ _ _ H1), (lo_mm _ _ _ _ _ _ _ _ _ _ _ _ _ H1). exact Hcr.
  - exact Hok.
  - exact Hap2.
  - exact Hbin.
  - intros a Ha. assert (Hra : 0 <= a < 2 ^ 32).
    { clear -Ha Hok. induction Hok as [|p ps (Hp1 & Hp2 & Hp3) Hps IHp]; cbn [segments_byte] in Ha; [by destruct Ha|].
      case_decide as Hd; [|exact (IHp Ha)]. change (USTACKTOP - PGSIZE) with 4005548032 in Hp3. unfold seg_start, region_start in Hd. zdm. }
    rewrite (lo_byte _ _ _ _ _ _ _ _ _ _ _ _ _ H1 a Hra). cbn [segments_byte].
    case_decide as Hd; [rewrite (Happ a Hk2 Hd) in Ha; by destruct Ha|]. apply Hn. cbn [segments_byte]. by rewrite decide_False.
  - lia.
  - exists s2, l2, x2. rewrite (bind_Ret _ _ _ _ _ R1). split; [exact R2|]. rewrite Nat.mul_add_distr_l.
    eapply loads_ext, (loads_trans _ _ _ _ _ _ _ _ _ _ _ _ _ _ _ _ _ _ H1 H2). intros a Ha. cbn beta.
    rewrite (lo_byte _ _ _ _ _ _ _ _ _ _ _ _ _ H1 a Ha). cbn [segments_byte].
    case_decide as Hd; [by rewrite (Happ a Hk2 Hd) | done].
Qed.

End Image.
