(* ===== verification/EnvCreate.v ===== *)
(** * EnvCreate: the creation of an environment with a program

    [load_icode] and [env_create] of kern/env.c, and the first entry into the
    program: what the environment finds in its memory when it starts. *)

From S2P Require Import Prelude Machine CString Printfmt Hardware Console Kernel KernelProps Spinlock Pmap PageAlloc.
From S2P Require Import PageTable Example UserMem PtProps Env EnvProps EnvAlloc EnvFree Sched KernelExit KernelInv KernelSafe.
From S2P Require Import KernelCalls EnvLoad.

(** ** [load_icode] and [env_create] *)

(** Free pages that are enough: for every page of the program and of the stack, and a page table each. *)
Definition load_cost (bin : Z -> Z) : nat := 2 * segs_count (load_headers bin) + 2.

Definition loaded_env (bin : Z -> Z) (v : Env) : Env := set_env_tf (set_tf_eip (e_entry (elf_header bin)) (env_tf v)) v.

Section Create.

Context (kref : Z -> Z).

Lemma loading_frame s s' l L R e v x : loading kref s l L R e v x ->
  npages s' = npages s -> pages s' = pages s -> page_free_list s' = page_free_list s -> mem s' = mem s ->
  envs s' = envs s -> env_free_list s' = env_free_list s -> kern_pgdir s' = kern_pgdir s -> curenv s' = curenv s ->
  loading kref s' l L R e v x.
Proof.
  intros [H1 H2 H3 H4 H5] E1 E2 E3 E4 E5 E6 E7 E8. constructor.
  - by eapply kernel_ok_frame.
  - by rewrite E5.
  - unfold cur_ok. by rewrite E5, E8.
  - exact H4.
  - intros i t. rewrite E4. apply H5.
Qed.

Lemma loading_soft s l L R e v w x : loading kref s l L R e v x -> soft v w ->
  loading kref (set_envs (<[e := w]> (envs s)) s) l L R e w x.
Proof.
  intros [H1 H2 H3 H4 H5] Hs. constructor; [by eapply kernel_ok_env | by apply lookup_insert_eq | | exact H4 | exact H5].
  intros c Hc. cbn [envs set_envs] in *. rewrite lookup_insert. case_decide; [by eexists | by apply H3].
Qed.

Lemma loading_dir s l L R e v x : loading kref s l L R e v x -> PADDR (env_pgdir v) s = (Ret (4096 * sp_pd x), s).
Proof.
  intros H. assert (Hko := ld_ok _ _ _ _ _ _ _ _ H). assert (Hx : <[e := x]> R !! e = Some x) by apply lookup_insert_eq.
  destruct (sw_tables _ _ _ _ _ _ (ko_space _ _ _ _ _ Hko e v x (ld_env _ _ _ _ _ _ _ _ H) Hx)) as [Hd Hp _ _ _].
  pose proof (aw_npages _ _ (ko_alloc _ _ _ _ _ Hko)). rewrite Hd, PADDR_eq by (change KERNBASE with 4026531840; lia).
  do 2 f_equal. lia.
Qed.

(** What stays the same of the state, the program in environment [e]. *)
Record kept (e : Z) (w : Env) (s s' : kstate) : Prop := mkKept {
  kp_envs : envs s' = <[e := w]> (envs s);
  kp_cur : curenv s' = curenv s;
  kp_kern : kern_pgdir s' = kern_pgdir s;
  kp_lock : holds_lock s -> holds_lock s';
}.

Lemma vbyte_mem s s' x a : mem s' = mem s -> vbyte s' x a = vbyte s x a.
Proof. unfold vbyte. by intros ->. Qed.

Lemma mm_eq_kept s s' : mm_eq s s' -> kern_pgdir s' = kern_pgdir s /\ cr3 s' = cr3 s /\ (holds_lock s -> holds_lock s').
Proof. intros ->. by destruct s. Qed.

Lemma kept_trans e w w1 s1 s2 s3 : kept e w1 s1 s2 -> kept e w s2 s3 -> kept e w s1 s3.
Proof. intros [A1 A2 A3 A4] [B1 B2 B3 B4]. constructor; [by rewrite B1, A1, insert_insert_eq | congruence | congruence | auto]. Qed.

(** No segment reaches the stack page. *)
Lemma segments_below bin phs a : Forall seg_ok phs -> USTACKTOP - PGSIZE <= a -> segments_byte bin phs a = None.
Proof.
  intros M Ha. induction M as [|p ps (Hp1 & Hp2 & Hp3) Hps IHp]; [done|]. cbn [segments_byte]. by rewrite decide_False by lia.
Qed.

(** The part after the segments: the entry point, the stack, the message. *)
Lemma load_stack bin s l L R e v x :
  loading kref s l L R e v x -> Forall seg_ok (load_headers bin) -> (2 <= length l)%nat ->
  (forall a, 0 <= a < 2 ^ 32 -> vbyte s x a = segments_byte bin (load_headers bin) a) ->
  exists s' l' x', (env_update e (fun v => set_env_tf (set_tf_eip (e_entry (elf_header bin)) (env_tf v)) v) ;;
      region_alloc e (USTACKTOP - PGSIZE) PGSIZE ;; cprintf "load_icode finish!\r\n" []) s = (Ret tt, s') /\
    kept e (loaded_env bin v) s s' /\ cr3 s' = cr3 s /\ loading kref s' l' L R e (loaded_env bin v) x' /\ keeps s s' l l' x x' /\
    forall a, 0 <= a < 2 ^ 32 -> vbyte s' x' a = image_byte bin a.
Proof.
  intros H M Hl Hb. rewrite (bind_Ret _ _ _ _ _ (env_update_eq s e v _ (ld_env _ _ _ _ _ _ _ _ H))). fold (loaded_env bin v).
  assert (H3 := loading_soft _ _ _ _ _ _ (loaded_env bin v) _ H ltac:(by repeat split)).
  set (s3 := set_envs _ s) in *. assert (E3 : cr3 s3 = cr3 s /\ envs s3 = <[e := loaded_env bin v]> (envs s) /\ curenv s3 = curenv s /\
    kern_pgdir s3 = kern_pgdir s /\ mem s3 = mem s /\ (holds_lock s -> holds_lock s3)) by done.
  clearbody s3. destruct E3 as (E31 & E32 & E33 & E34 & E35 & E36).
  change PGSIZE with 4096. change USTACKTOP with 4005552128. change (4005552128 - 4096) with 4005548032.
  destruct (region_alloc_loads kref L R e _ s3 l x 4005548032 4096 H3 ltac:(lia) ltac:(lia) ltac:(discriminate)) as (s4 & l4 & x4 & R4 & H4).
  { intros a Ha. change (region_start 4005548032) with 4005548032 in Ha. change (region_stop 4005548032 4096) with 4005552128 in Ha.
    rewrite (vbyte_mem s), Hb by (lia || done). apply segments_below; [done|]. apply Ha. }
  { exact Hl. }
  rewrite (bind_Ret _ _ _ _ _ R4). clear R4. destruct H4 as [Hmm4 H4 _ _ Hb4 Hk4].
  destruct (mm_eq_cur _ _ Hmm4) as [E41 E42]. destruct (mm_eq_kept _ _ Hmm4) as (E43 & E44 & E46).
  destruct (cprintf_matches "load_icode finish!\r\n" [] s4) as [c Hc]; [split; [vm_compute; reflexivity | constructor]|].
  exists (set_con c s4), l4, x4. split; [exact Hc|]. split; [|split; [|split; [|split]]].
  - constructor; [transitivity (envs s4) | transitivity (curenv s4) | transitivity (kern_pgdir s4) |]; try (done || congruence).
    intros Hh. exact (E46 (E36 Hh)).
  - transitivity (cr3 s4); [done | congruence].
  - by apply (loading_frame s4).
  - intros f Hf. destruct (Hk4 f Hf) as [Hf' E]. split; [exact Hf'|]. intros k. change (mem (set_con c s4)) with (mem s4). rewrite E. congruence.
  - intros a Ha. rewrite (vbyte_mem s4) by done. rewrite (Hb4 a Ha). unfold image_byte.
    change (region_start 4005548032) with 4005548032. change (region_stop 4005548032 4096) with 4005552128.
    change (USTACKTOP - PGSIZE) with 4005548032. change USTACKTOP with 4005552128.
    case_decide; [done|]. by rewrite (vbyte_mem s), Hb.
Qed.

Lemma load_icode_eq bin s l L R e v x :
  loading kref s l L R e v x -> sp_A x = ∅ -> elf_ok bin -> (load_cost bin <= length l)%nat ->
  exists s' l' x', load_icode e bin s = (Ret tt, s') /\ kept e (loaded_env bin v) s s' /\ cr3 s' = kern_pgdir s - KERNBASE /\
    loading kref s' l' L R e (loaded_env bin v) x' /\ keeps s s' l l' x x' /\ forall a, 0 <= a < 2 ^ 32 -> vbyte s' x' a = image_byte bin a.
Proof.
  intros H HA [M1 M2 M3 M4] Hl. unfold load_cost in Hl. unfold load_icode. rewrite M1, Z.eqb_refl. cbn [negb].
  assert (He := ld_env _ _ _ _ _ _ _ _ H). kgo (env_get_eq _ _ _ He). rewrite (bind_Ret _ _ _ _ _ (loading_dir _ _ _ _ _ _ _ H)).
  rewrite (bind_Ret (lcr3 _) _ s tt (set_cr3 (4096 * sp_pd x) s)) by reflexivity.
  assert (H0 : loading kref (set_cr3 (4096 * sp_pd x) s) l L R e v x) by (by apply (loading_frame s)).
  assert (Hk0 : KERNBASE <= kern_pgdir s < 2 ^ 32) by apply (ko_kern _ _ _ _ _ (ld_ok _ _ _ _ _ _ _ _ H)).
  assert (Hb0 : forall a, vbyte (set_cr3 (4096 * sp_pd x) s) x a = None) by (intros a; unfold vbyte; by rewrite HA, lookup_empty).
  destruct (segments_loop kref L R e v (fun k => prog_header bin (e_phoff (elf_header bin) + 32 * k)) bin (seqZ 0 (e_phnum (elf_header bin)))
    _ l x H0 eq_refl M2 M3 M4 (fun a _ => Hb0 a) ltac:(unfold load_headers in Hl; lia)) as (s1 & l1 & x1 & R1 & H1).
  rewrite (bind_Ret _ _ _ _ _ R1). clear R1. fold (load_headers bin) in H1.
  destruct H1 as [Hmm1 H1 _ Hlen1 Hb1 Hk1]. destruct (mm_eq_cur _ _ Hmm1) as [E11 E12]. destruct (mm_eq_kept _ _ Hmm1) as (E13 & _ & E16).
  rewrite (bind_Ret get _ s1 s1 s1) by reflexivity. rewrite E13. change (kern_pgdir (set_cr3 _ s)) with (kern_pgdir s).
  rewrite (bind_Ret _ _ _ _ _ (PADDR_eq s1 _ Hk0)). rewrite (bind_Ret (lcr3 _) _ s1 tt (set_cr3 (kern_pgdir s - KERNBASE) s1)) by reflexivity.
  assert (H2 : loading kref (set_cr3 (kern_pgdir s - KERNBASE) s1) l1 L R e v x1) by (by apply (loading_frame s1)).
  destruct (load_stack bin _ l1 L R e v x1 H2 M2 ltac:(unfold load_headers in *; lia)) as (s2 & l2 & x2 & R2 & K2 & Ecr & H3 & Hk2 & Hb2).
  { intros a Ha. rewrite (vbyte_mem s1) by done. rewrite (Hb1 a Ha), Hb0. by destruct (segments_byte _ _ a). }
  exists s2, l2, x2. split; [exact R2|]. split; [|split; [exact Ecr|split; [exact H3|split; [|exact Hb2]]]].
  - apply (kept_trans e _ v s (set_cr3 (kern_pgdir s - KERNBASE) s1) s2); [|exact K2]. constructor.
    + transitivity (envs s); [exact E12 | symmetry; by apply insert_id].
    + exact E11.
    + exact E13.
    + intros Hh. exact (E16 Hh).
  - apply (keeps_trans s s1 s2 l l1 l2 x x1 x2); [exact Hk1 | exact Hk2].
Qed.

End Create.

Section Creates.

Context (kref : Z -> Z).

(** Environment [v] after [env_create]. *)
Definition created_env (bin : Z -> Z) (type e p : Z) (v : Env) : Env :=
  loaded_env bin (set_env_type type (new_env 0 e p v)).

Lemma create_loads junk bin type s l L S e p kp :
  kernel_ok kref s (p :: l) (e :: L) S -> cur_ok s -> kern_pgdir s = 4096 * kp + KERNBASE -> 0 <= kp < 65536 -> 1 <= kref kp ->
  elf_ok bin -> (load_cost bin <= length l)%nat ->
  exists v s' l' x, envs s !! e = Some v /\ env_create junk bin type s = (Ret tt, s') /\
    kernel_ok kref s' l' L (<[e := x]> S) /\ envs s' = <[e := created_env bin type e p v]> (envs s) /\
    curenv s' = curenv s /\ cr3 s' = 4096 * kp /\
    (forall w y, sp_A x !! w = Some y -> y.2 = 7 /\ kref y.1 + total (<[e := x]> S) y.1 = 1) /\
    (forall a, 0 <= a < 2 ^ 32 -> vbyte s' x a = image_byte bin a) /\
    (forall f k, f ∉ p :: l -> mget (mem s') f k = mget (mem s) f k) /\ (holds_lock s -> holds_lock s').
Proof.
  intros H Hc Hk Hkp Hkr Hb Hl. destruct (env_alloc_ok kref s l L S e p kp 0 H Hc Hk Hkp Hkr) as (v & s1 & He & R1 & E1 & E2 & H1 & E3 & HS & Em & Hlk).
  exists v. set (w := new_env 0 e p v) in *. assert (Hw : soft w (set_env_type type w)) by by repeat split.
  assert (He1 : envs s1 !! e = Some w) by (rewrite E3; apply lookup_insert_eq).
  assert (H2 : loading kref s1 l L S e w (mkSpace p ∅ ∅)).
  { constructor; [exact H1 | exact He1 | | |].
    - intros c. rewrite E1, E3, lookup_insert. intros Hcur. case_decide; [by eexists | by apply Hc].
    - intros n y. cbn [sp_A]. by rewrite lookup_empty.
    - intros i t. cbn [sp_T]. by rewrite lookup_empty. }
  apply (loading_soft kref s1 l L S e w (set_env_type type w) _) in H2; [|exact Hw].
  destruct (load_icode_eq kref bin _ l L S e _ _ H2 eq_refl Hb Hl) as (s2 & l2 & x & R2 & [K1 K2 K3 K4] & Ecr & H3 & Hkeep & Hby).
  exists s2, l2, x. split; [exact He|]. split.
  { unfold env_create. rewrite (bind_Ret _ _ _ _ _ R1). cbn [snd]. rewrite (bind_Ret (deref (Some e)) _ s1 e s1) by reflexivity.
    rewrite (bind_Ret _ _ _ _ _ (env_update_eq s1 e w _ He1)). exact R2. }
  split; [exact (ld_ok _ _ _ _ _ _ _ _ H3)|]. split; [|split; [|split; [|split; [|split; [|split]]]]].
  - rewrite K1. cbn [envs set_envs]. rewrite E3. by rewrite !insert_insert_eq.
  - rewrite K2. exact E1.
  - rewrite Ecr. change (kern_pgdir (set_envs _ s1)) with (kern_pgdir s1). rewrite E2, Hk. lia.
  - exact (ld_own _ _ _ _ _ _ _ _ H3).
  - exact Hby.
  - intros f k [Hfp Hfl]%not_elem_of_cons. destruct (Hkeep f) as [_ E].
    + split; [exact Hfl|]. split; [|intros n y; cbn [sp_A]; by rewrite lookup_empty].
      intros [-> | [i Hi]]; [by apply Hfp|]. cbn [sp_T] in Hi. by rewrite lookup_empty in Hi.
    + rewrite E. change (mem (set_envs _ s1)) with (mem s1). by apply Em.
  - intros Hh. exact (K4 (Hlk Hh)).
Qed.

(** C21. [env_create] on a program that [load_icode] accepts takes the first
    free environment and builds its address space: afterwards every user
    address holds what the program headers say (the bytes of the file, then
    zeroes up to the end of the page, a stack page of zeroes, and nothing
    else is mapped), the environment is runnable at the entry point, [cr3]
    holds the kernel's directory again, and the invariant of the kernel holds. *)
Theorem env_create_loads junk bin type s l L S e p kp :
  kernel_ok kref s (p :: l) (e :: L) S -> cur_ok s -> kern_pgdir s = 4096 * kp + KERNBASE -> 0 <= kp < 65536 -> 1 <= kref kp ->
  elf_ok bin -> (load_cost bin <= length l)%nat ->
  exists v s' l' x, envs s !! e = Some v /\ env_create junk bin type s = (Ret tt, s') /\
    kernel_ok kref s' l' L (<[e := x]> S) /\ envs s' = <[e := created_env bin type e p v]> (envs s) /\
    curenv s' = curenv s /\ cr3 s' = 4096 * kp /\
    (forall w y, sp_A x !! w = Some y -> y.2 = 7 /\ kref y.1 + total (<[e := x]> S) y.1 = 1) /\
    (forall a, 0 <= a < 2 ^ 32 -> vbyte s' x a = image_byte bin a) /\
    forall f k, f ∉ p :: l -> mget (mem s') f k = mget (mem s) f k.
Proof.
  intros H Hc Hk Hkp Hkr Hb Hl.
  destruct (create_loads junk bin type s l L S e p kp H Hc Hk Hkp Hkr Hb Hl) as (v & s' & l' & x & H1 & H2 & H3 & H4 & H5 & H6 & H7 & H8 & H9 & _).
  exists v, s', l', x. split_and!; assumption.
Qed.

End Creates.

(** ** The first instruction *)

Section Start.

Context (kref : Z -> Z).

(** What the processor finds at a user address is what the address space says. *)
Lemma walk_read s pgdir x a :
  space_wf below_utop s pgdir (sp_pd x) (sp_T x) (sp_A x) -> 0 <= a < UTOP ->
  mmu_walk (mem s) (4096 * sp_pd x) a false = y ← sp_A x !! (a / 4096); Some (4096 * y.1 + a `mod` 4096).
Proof.
  intros [W1 W2 W3] Ha. change UTOP with 4005560320 in Ha. unfold mmu_walk. rewrite (PTE_ADDR_mod (4096 * sp_pd x)).
  replace (4096 * sp_pd x - (4096 * sp_pd x) `mod` 4096) with (4096 * sp_pd x) by zdm. rewrite mload_word by apply PDX_range.
  assert (Hi : a / 4096 / 1024 = PDX a) by (rewrite PDX_div; zdm). assert (Hj : (a / 4096) `mod` 1024 = PTX a) by (by rewrite PTX_div).
  cbn [negb orb]. rewrite !andb_true_r.
  destruct (sp_A x !! (a / 4096)) as [y|] eqn:Hy; cbn [mbind option_bind].
  - destruct (W2 _ _ Hy) as (_ & _ & Hfl & Hp & t & Ht & Em). rewrite Hi in Ht. rewrite Hj in Em.
    destruct (tw_some _ _ _ _ _ W1 _ _ Ht) as (_ & _ & _ & _ & Hpd & E). rewrite Hpd, E, mload_word by apply PTX_range. rewrite Em.
    rewrite pte_entry_test by (done || (unfold PTE_P; lia)). rewrite Hp, pte_entry_addr by done.
    do 2 f_equal. unfold PGOFF. change 0xFFF with (Z.ones 12). by rewrite Z.land_ones.
  - destruct (sp_T x !! PDX a) as [t|] eqn:Ht.
    + destruct (tw_some _ _ _ _ _ W1 _ _ Ht) as (_ & _ & _ & _ & Hpd & E). rewrite Hpd, E, mload_word by apply PTX_range.
      rewrite <- Hi in Ht. assert (Hn := W3 (a / 4096) t ltac:(zdm) Hy Ht). rewrite Hj in Hn. by rewrite Hn.
    + rewrite (tw_none _ _ _ _ _ W1 (PDX a)); [done | apply PDX_range | | done].
      unfold below_utop. change (PDX UTOP) with 955. rewrite PDX_div. zdm.
Qed.

Lemma vload8_space s pgdir x a :
  space_wf below_utop s pgdir (sp_pd x) (sp_T x) (sp_A x) -> 0 <= a < UTOP -> cr3 s = 4096 * sp_pd x ->
  vload8 a s = (match vbyte s x a with Some b => Ret b | None => Stop (SFault a) end, s).
Proof.
  intros W Ha Hcr. unfold vload8, translate, vbyte. assert (UTOP < KERNBASE) by done. destruct (Z.leb_spec KERNBASE a); [lia|].
  rewrite Hcr, (walk_read s pgdir x a W Ha). destruct (sp_A x !! (a / 4096)) as [y|]; cbn [mbind option_bind]; [|done].
  do 3 f_equal; [|zdm]. rewrite <- (mload_word (mem s) y.1 (a `mod` 4096 / 4)) by zdm. f_equal. zdm.
Qed.

Lemma switched_ok s l L S e v :
  kernel_ok kref s l L S -> cur_ok s -> envs s !! e = Some v -> env_status v <> ENV_FREE -> kernel_ok kref (switched e v s) l L S.
Proof.
  intros H Hc He Hs. unfold switched.
  assert (H1 : kernel_ok kref (set_envs (demote (curenv s) (envs s)) s) l L S /\
    exists w, demote (curenv s) (envs s) !! e = Some w /\ env_pgdir w = env_pgdir v /\ env_link w = env_link v /\ env_status w <> ENV_FREE).
  { unfold demote. destruct (curenv s) as [c|] eqn:Ec; [|split; [by apply (kernel_ok_frame kref s) | by exists v]].
    destruct (Hc c Ec) as [u Hu]. rewrite Hu. case_bool_decide as Hr; [|split; [by apply (kernel_ok_frame kref s) | by exists v]].
    split; [apply (kernel_ok_env kref s l L S c u); [done..|]; split; [done|]; split; [done|]; cbn; rewrite Hr; done|].
    rewrite lookup_insert. case_decide as E; [|by exists v]. subst c. rewrite He in Hu. injection Hu as ->. by eexists. }
  destruct H1 as [H1 (w & Hw & E1 & E2 & E3)].
  apply (kernel_ok_env kref _ l L S e w (running_env (this_cpu s) v)) in H1; [|exact Hw | split; [|split]; [by rewrite E1 | by rewrite E2 |]].
  - revert H1. generalize (running_env (this_cpu s) v). intros w' H1. cbn [envs set_envs] in H1.
    by apply (kernel_ok_frame kref (set_envs (<[e := w']> (demote (curenv s) (envs s))) s)).
  - cbn. split; [discriminate | by intros ?%E3].
Qed.

(** C22. A new program starts as its file says: [env_create] followed by
    [env_run] leaves the kernel for user mode of the new environment with the
    lock released, at the entry point and the top of the stack, and every read
    below UTOP through the page tables gives the byte of the program image, or
    faults where the image has none; the kernel's invariant holds. *)
Theorem program_starts A junk bin type s l L S e p kp :
  kernel_ok kref s (p :: l) (e :: L) S -> cur_ok s -> kern_pgdir s = 4096 * kp + KERNBASE -> 0 <= kp < 65536 -> 1 <= kref kp ->
  elf_ok bin -> (load_cost bin <= length l)%nat -> holds_lock s ->
  exists s' l' x v, (env_create junk bin type ;; @env_run A e) s = (Stop (SUser e), s') /\ in_user e s' /\
    kernel_ok kref s' l' L (<[e := x]> S) /\ envs s' !! e = Some v /\
    env_tf v = set_tf_eip (e_entry (elf_header bin)) init_tf /\
    forall a, 0 <= a < UTOP -> vload8 a s' = (match image_byte bin a with Some b => Ret b | None => Stop (SFault a) end, s').
Proof.
  intros H Hc Hk Hkp Hkr Hb Hl Hlock.
  destruct (create_loads kref junk bin type s l L S e p kp H Hc Hk Hkp Hkr Hb Hl)
    as (v & s1 & l' & x & Hv & R1 & H1 & Ee & Ec & _ & _ & Hby & _ & Hlock1).
  set (w := created_env bin type e p v) in *. assert (He1 : envs s1 !! e = Some w) by (rewrite Ee; apply lookup_insert_eq).
  assert (Hc1 : cur_ok s1) by (intros c; rewrite Ec, Ee, lookup_insert; intros Hcur; case_decide; [by eexists | by apply Hc]).
  assert (Hx : <[e := x]> S !! e = Some x) by apply lookup_insert_eq.
  assert (Hd := tw_dir _ _ _ _ _ (sw_tables _ _ _ _ _ _ (ko_space _ _ _ _ _ H1 e w x He1 Hx))).
  assert (Hpd := tw_pd _ _ _ _ _ (sw_tables _ _ _ _ _ _ (ko_space _ _ _ _ _ H1 e w x He1 Hx))).
  pose proof (aw_npages _ _ (ko_alloc _ _ _ _ _ H1)) as Hn.
  assert (R2 := @env_run_eq A s1 e w Hc1 He1 ltac:(rewrite Hd; change KERNBASE with 4026531840; lia) (Hlock1 Hlock)).
  assert (H2 := switched_ok s1 l' L _ e w H1 Hc1 He1 ltac:(discriminate)).
  exists (switched e w s1), l', x, (running_env (this_cpu s1) w). rewrite (bind_Ret _ _ _ _ _ R1). split; [exact R2|].
  split; [exact (env_run_exit e s1 e _ R2)|]. split; [exact H2|].
  assert (He2 : envs (switched e w s1) !! e = Some (running_env (this_cpu s1) w)) by apply lookup_insert_eq.
  split; [exact He2|]. split; [reflexivity|]. intros a Ha.
  rewrite (vload8_space _ _ x a (ko_space _ _ _ _ _ H2 e _ x He2 Hx) Ha).
  - rewrite (vbyte_mem s1) by reflexivity. rewrite Hby; [done|]. change UTOP with 4005560320 in Ha. lia.
  - change (cr3 (switched e w s1)) with (env_pgdir w - KERNBASE). rewrite Hd. lia.
Qed.

End Start.

(** ** A program *)

Section Sample.

(** A header, one segment of 8 bytes at 0x800020 of which the file has two, 0xAA and 0xBB. *)
Definition ex_bytes : list Z :=
  [0x7F; 0x45; 0x4C; 0x46] ++ repeat 0 20 ++ [0x20; 0; 0x80; 0] ++ [52; 0; 0; 0] ++ repeat 0 12 ++ [1; 0] ++ repeat 0 6 ++
  [1; 0; 0; 0] ++ [84; 0; 0; 0] ++ [0x20; 0; 0x80; 0] ++ repeat 0 4 ++ [2; 0; 0; 0] ++ [8; 0; 0; 0] ++ repeat 0 8 ++ [0xAA; 0xBB].
Definition ex_program (o : Z) : Z := nth (Z.to_nat o) ex_bytes 0.

(** One environment, free; the kernel's directory is page 3, pages 8 to 15 are free. *)
Definition ex_idle : kstate :=
  set_kern_pgdir (4096 * 3 + KERNBASE) (set_env_free_list (Some 0) (set_envs {[ 0 := ex_env ]} (ex_dir 16 3 8 8))).
Definition ex_held (p : Z) : Z := if p =? 3 then 1 else 0.

(** Fields that the invariants do not look at. *)
Lemma alloc_wf_idle k f m s l : alloc_wf s l -> alloc_wf (set_kern_pgdir k (set_env_free_list f (set_envs m s))) l.
Proof. intros H. by apply (alloc_wf_frame s). Qed.

Lemma kernel_ok_lock kref k s l L S : kernel_ok kref s l L S -> kernel_ok kref (set_kernel_lock k s) l L S.
Proof. intros H. by apply (kernel_ok_frame kref s). Qed.

Lemma ex_idle_ok : kernel_ok ex_held ex_idle (seqZ 8 8) [0] ∅.
Proof.
  constructor.
  - apply alloc_wf_idle, ex_dir_alloc; lia.
  - split; [reflexivity|]. exists ex_env. split; [reflexivity | reflexivity].
  - intros e v ->%list_elem_of_singleton [= <-]. reflexivity.
  - intros e. rewrite lookup_empty. split; [by intros [? ?]|]. intros (v & Hv & Hs). change (envs ex_idle) with ({[ 0 := ex_env ]} : gmap Z Env) in Hv. apply lookup_singleton_Some in Hv as [_ <-].
    by destruct Hs.
  - intros e v x _. by rewrite lookup_empty.
  - intros p pi Hp. assert (E : total ∅ p = 0) by reflexivity. rewrite E. unfold ex_held.
    change (pages ex_idle) with (<[3 := mkPageInfo None 1]> (array_of 16 (fun i => mkPageInfo (ex_link 8 8 i) 0))) in Hp.
    apply lookup_insert_Some in Hp as [[<- <-] | [Hne Hp]]; [split; reflexivity|].
    rewrite array_of_lookup in Hp. destruct (_ && _); [|discriminate Hp]. injection Hp as <-.
    rewrite (proj2 (Z.eqb_neq p 3)) by congruence. split; reflexivity.
  - intros p. unfold ex_held. by case_match.
  - intros e x p. by rewrite lookup_empty.
  - split; [discriminate | reflexivity].
Qed.

Lemma ex_program_ok : elf_ok ex_program.
Proof.
  assert (E : load_headers ex_program = [mkProghdr 1 84 0x800020 2 8]) by (vm_compute; reflexivity).
  constructor; rewrite ?E; [vm_compute; reflexivity | | | ].
  - repeat constructor; discriminate.
  - repeat constructor.
  - intros o. unfold ex_program. destruct (nth_in_or_default (Z.to_nat o) ex_bytes 0) as [Hin | ->]; [|lia].
    assert (F : Forall (fun b => 0 <= b < 256) ex_bytes) by (unfold ex_bytes; cbn; repeat constructor; lia).
    rewrite List.Forall_forall in F. exact (F _ Hin).
Qed.

Lemma env_create_loads_witness :
  exists s' l' x v, env_create None ex_program ENV_TYPE_USER ex_idle = (Ret tt, s') /\ kernel_ok ex_held s' l' [] {[ 0 := x ]} /\
    envs s' !! 0 = Some v /\ env_status v = ENV_RUNNABLE /\ tf_eip (env_tf v) = 0x800020 /\
    vbyte s' x 0x800021 = Some 0xBB /\ vbyte s' x 0x800022 = Some 0 /\ vbyte s' x (USTACKTOP - 4) = Some 0 /\ vbyte s' x USTACKTOP = None.
Proof.
  destruct (env_create_loads ex_held None ex_program ENV_TYPE_USER ex_idle (seqZ 9 7) [] ∅ 0 8 3 ex_idle_ok
    ltac:(discriminate) eq_refl ltac:(lia) ltac:(discriminate) ex_program_ok ltac:(apply Nat.leb_le; vm_compute; reflexivity))
    as (v & s' & l' & x & He & Hrun & H & Ee & _ & _ & _ & Hb & _).
  exists s', l', x, (created_env ex_program ENV_TYPE_USER 0 8 v). split; [exact Hrun|]. split; [exact H|].
  split; [rewrite Ee; apply lookup_insert_eq|]. split; [reflexivity|]. split; [vm_compute; reflexivity|].
  split_and!; rewrite Hb by (split; [discriminate | reflexivity]); vm_compute; reflexivity.
Defined.

(** The same machine, its processor in the kernel. *)
Definition ex_inside : kstate := set_kernel_lock (mkSpinlock 1 (Some 0)) ex_idle.

Lemma ex_inside_ok : kernel_ok ex_held ex_inside (seqZ 8 8) [0] ∅ /\ cur_ok ex_inside /\ kern_pgdir ex_inside = 4096 * 3 + KERNBASE /\
  holds_lock ex_inside.
Proof.
  split; [exact (kernel_ok_lock ex_held _ ex_idle _ _ _ ex_idle_ok)|].
  split; [|split; reflexivity]. intros e He. discriminate He.
Qed.

Lemma program_starts_witness :
  exists s' v, (env_create None ex_program ENV_TYPE_USER ;; @env_run unit 0) ex_inside = (Stop (SUser 0), s') /\
    in_user 0 s' /\ envs s' !! 0 = Some v /\ tf_eip (env_tf v) = 0x800020 /\ tf_esp (env_tf v) = USTACKTOP /\
    vload8 0x800020 s' = (Ret 0xAA, s') /\ vload8 (USTACKTOP - 1) s' = (Ret 0, s') /\ vload8 0x801000 s' = (Stop (SFault 0x801000), s').
Proof.
  destruct ex_inside_ok as (H1 & H2 & H3 & H4).
  assert (Hl : (load_cost ex_program <= length (seqZ 9 7))%nat) by (apply Nat.leb_le; vm_compute; reflexivity).
  destruct (program_starts ex_held unit None ex_program ENV_TYPE_USER ex_inside (seqZ 9 7) [] ∅ 0 8 3 H1 H2 H3
    ltac:(lia) ltac:(discriminate) ex_program_ok Hl H4) as (s' & l' & x & v & Hrun & Hu & _ & Ee & Et & Hb).
  exists s', v. split; [exact Hrun|]. split; [exact Hu|]. split; [exact Ee|]. rewrite Et.
  split; [vm_compute; reflexivity|]. split; [reflexivity|].
  clear Hrun Hu Ee H1 H2 H3 H4.
  split_and!; rewrite Hb by (split; [discriminate | reflexivity]); f_equal; vm_compute; reflexivity.
Defined.

End Sample.

(** ** What the hypotheses are for *)

Section Corners.

(** The same machine with two free pages: the new environment takes one for its directory. *)
Definition ex_short : kstate :=
  snd (env_alloc 0 (set_kern_pgdir (4096 * 3 + KERNBASE) (set_env_free_list (Some 0) (set_envs {[ 0 := ex_env ]} (ex_dir 16 3 8 2))))).

(** [region_alloc] does not look at the result of [page_insert]: when no page table can be
    allocated it returns as if it had mapped the page, which is lost, and nothing is mapped. *)
Lemma region_alloc_leaves_hole :
  let r := region_alloc 0 0x800000 4096 ex_short in
  fst r = Ret tt /\ mmu_walk (mem (snd r)) (4096 * 8) 0x800000 true = None /\
  page_free_list ex_short = Some 9 /\ page_free_list (snd r) = None /\ pages (snd r) !! 9 = Some (mkPageInfo None 0).
Proof. split_and!; vm_compute; reflexivity. Qed.

(** Two segments in one page: the second one gets a new page, and the bytes of the first are gone. *)
Lemma shared_page_lost :
  let ph1 := mkProghdr ELF_PROG_LOAD 84 0x800020 2 2 in
  let ph2 := mkProghdr ELF_PROG_LOAD 86 0x800040 2 2 in
  let s := snd (env_alloc 0 ex_idle) in
  let s1 := snd (load_segment 0 ex_program ph1 (set_cr3 (4096 * 8) s)) in
  let r := load_segment 0 ex_program ph2 s1 in
  fst (vload8 0x800020 s1) = Ret 0xAA /\ fst r = Ret tt /\ fst (vload8 0x800020 (snd r)) = Ret 0.
Proof. split_and!; vm_compute; reflexivity. Qed.

End Corners.
