(* ===== verification/MemInit.v ===== *)
(** * MemInit: mem_init of kern/pmap.c and its self-tests

    The construction of the kernel's address space and the functions
    [check_page_free_list], [check_page_alloc], [check_page],
    [check_kern_pgdir] and [check_page_installed_pgdir] that the source runs
    on it at boot. *)

From S2P Require Import Prelude Machine CString Printfmt Hardware Console Kernel Pmap Env.

Definition CR0_PE : Z := 0x00000001.
Definition CR0_MP : Z := 0x00000002.
Definition CR0_EM : Z := 0x00000004.
Definition CR0_TS : Z := 0x00000008.
Definition CR0_NE : Z := 0x00000020.
Definition CR0_WP : Z := 0x00010000.
Definition CR0_AM : Z := 0x00040000.
Definition CR0_PG : Z := 0x80000000.

Definition sizeof_PageInfo : Z := 8.
Definition sizeof_Env : Z := 124.

(** [~0] as a physical address. *)
Definition NOPAGE : Z := 0xFFFFFFFF.

(** ** Helpers of the self-tests *)

Section Helpers.

(** [assert((pp = page_alloc(fl)))]. *)
Definition assert_alloc (fl : Z) (text : string) : K Z :=
  pp ← page_alloc fl;
  match pp with Some p => mret p | None => panic ("assertion failed: " +:+ text) end.

(** [assert(!page_alloc(0))]. *)
Definition assert_no_alloc : K unit :=
  pp ← page_alloc 0;
  assert_ (bool_decide (pp = None)) "!page_alloc(0)".

Definition assert_ref (pp r : Z) (text : string) : K unit :=
  pi ← page_info pp;
  assert_ (pp_ref pi =? r) text.

(** [assert(page_insert(...) == 0)]. *)
Definition assert_insert (pgdir pp va perm : Z) (text : string) : K unit :=
  r ← page_insert pgdir pp va perm;
  assert_ (r =? 0) text.

(** A loop over the free list from [pp]; more steps than there are pages
    mean that the list is cyclic. *)
Fixpoint walk_list (fuel : nat) (pp : option Z) (body : Z -> K unit) : K unit :=
  match pp with
  | None => skip
  | Some p =>
      match fuel with
      | O => halt SDiverge
      | S fuel' =>
          body p ;;
          pi ← page_info p;
          walk_list fuel' (pp_link pi) body
      end
  end.

Definition for_free (body : Z -> K unit) : K unit :=
  s ← get;
  walk_list (Z.to_nat (npages s)) (page_free_list s) body.

Fixpoint list_length (fuel : nat) (pp : option Z) : K Z :=
  match pp with
  | None => mret 0
  | Some p =>
      match fuel with
      | O => halt SDiverge
      | S fuel' => pi ← page_info p; n ← list_length fuel' (pp_link pi); mret (n + 1)
      end
  end.

Definition count_free : K Z :=
  s ← get;
  list_length (Z.to_nat (npages s)) (page_free_list s).

End Helpers.

(** ** check_page_free_list *)

Section FreeList.

Context (end_ : Z).

(** The cells that [tp[0]] and [tp[1]] point to: the local variables [pp1]
    and [pp2], or the link of a page. *)
Inductive cell := LocalCell | LinkCell (p : Z).

Record partition := mkPartition {
  pp1 : option Z;
  pp2 : option Z;
  tp0 : cell;
  tp1 : cell;
}.

(** [*tp[0] = v] and [*tp[1] = v]. *)
Definition store_tp0 (v : option Z) (t : partition) : K partition :=
  match tp0 t with
  | LocalCell => mret (mkPartition v (pp2 t) (tp0 t) (tp1 t))
  | LinkCell p => page_update p (set_pp_link v) ;; mret t
  end.

Definition store_tp1 (v : option Z) (t : partition) : K partition :=
  match tp1 t with
  | LocalCell => mret (mkPartition (pp1 t) v (tp0 t) (tp1 t))
  | LinkCell p => page_update p (set_pp_link v) ;; mret t
  end.

Fixpoint split_loop (fuel : nat) (pdx_limit : Z) (pp : option Z) (t : partition) : K partition :=
  match pp with
  | None => mret t
  | Some p =>
      match fuel with
      | O => halt SDiverge
      | S fuel' =>
          t ← (if pdx_limit <=? PDX (page2pa p) then
                 t ← store_tp1 (Some p) t;
                 mret (mkPartition (pp1 t) (pp2 t) (tp0 t) (LinkCell p))
               else
                 t ← store_tp0 (Some p) t;
                 mret (mkPartition (pp1 t) (pp2 t) (LinkCell p) (tp1 t)));
          pi ← page_info p;
          split_loop fuel' pdx_limit (pp_link pi) t
      end
  end.

(** Pages below [pdx_limit] to the front of the list.  The local variables
    start uninitialised. *)
Definition split_free_list (pdx_limit : Z) : K unit :=
  s ← get;
  t ← split_loop (Z.to_nat (npages s)) pdx_limit (page_free_list s)
        (mkPartition None None LocalCell LocalCell);
  t ← store_tp1 None t;
  t ← store_tp0 (pp2 t) t;
  modify (set_page_free_list (pp1 t)).

Definition check_free_page (first_free_page p : Z) : K unit :=
  s ← get;
  assert_ (0 <=? p) "pp >= pages" ;;
  assert_ (p <? npages s) "pp < pages + npages" ;;
  assert_ ((sizeof_PageInfo * p) `mod` sizeof_PageInfo =? 0)
    "((char *) pp - (char *) pages) % sizeof(*pp) == 0" ;;
  assert_ (negb (page2pa p =? 0)) "page2pa(pp) != 0" ;;
  assert_ (negb (page2pa p =? IOPHYSMEM)) "page2pa(pp) != IOPHYSMEM" ;;
  assert_ (negb (page2pa p =? EXTPHYSMEM - PGSIZE)) "page2pa(pp) != EXTPHYSMEM - PGSIZE" ;;
  assert_ (negb (page2pa p =? EXTPHYSMEM)) "page2pa(pp) != EXTPHYSMEM" ;;
  ok ← (if page2pa p <? EXTPHYSMEM then mret true
        else kva ← page2kva p; mret (first_free_page <=? kva));
  assert_ ok "page2pa(pp) < EXTPHYSMEM || (char *) page2kva(pp) >= first_free_page" ;;
  assert_ (negb (page2pa p =? MPENTRY_PADDR)) "page2pa(pp) != MPENTRY_PADDR".

(** How many pages of the list lie below and above EXTPHYSMEM. *)
Fixpoint count_kinds (fuel : nat) (pp : option Z) : K (Z * Z) :=
  match pp with
  | None => mret (0, 0)
  | Some p =>
      match fuel with
      | O => halt SDiverge
      | S fuel' =>
          pi ← page_info p;
          '(b, e) ← count_kinds fuel' (pp_link pi);
          mret (if page2pa p <? EXTPHYSMEM then (b + 1, e) else (b, e + 1))
      end
  end.

Definition check_page_free_list (only_low_memory : bool) : K unit :=
  let pdx_limit := if only_low_memory then 1 else NPDENTRIES in
  s ← get;
  (if bool_decide (page_free_list s = None) then panic "'page_free_list' is a null pointer!" else skip) ;;
  when only_low_memory (split_free_list pdx_limit) ;;
  for_free (fun p => when (PDX (page2pa p) <? pdx_limit) (kva ← page2kva p; kmemset kva 0x97 128)) ;;
  first_free_page ← boot_alloc end_ 0;
  for_free (check_free_page first_free_page) ;;
  s ← get;
  '(b, e) ← count_kinds (Z.to_nat (npages s)) (page_free_list s);
  assert_ (0 <? b) "nfree_basemem > 0" ;;
  assert_ (0 <? e) "nfree_extmem > 0".

End FreeList.

(** ** check_page_alloc *)

Section CheckAlloc.

Definition check_page_alloc : K unit :=
  s ← get;
  (if pages_kva s =? 0 then panic "'pages' is a null pointer!" else skip) ;;
  nfree ← count_free;
  pp0 ← assert_alloc 0 "(pp0 = page_alloc(0))";
  pp1 ← assert_alloc 0 "(pp1 = page_alloc(0))";
  pp2 ← assert_alloc 0 "(pp2 = page_alloc(0))";
  assert_ (negb (pp1 =? pp0)) "pp1 && pp1 != pp0" ;;
  assert_ (negb (pp2 =? pp1) && negb (pp2 =? pp0)) "pp2 && pp2 != pp1 && pp2 != pp0" ;;
  s ← get;
  assert_ (page2pa pp0 <? npages s * PGSIZE) "page2pa(pp0) < npages*PGSIZE" ;;
  assert_ (page2pa pp1 <? npages s * PGSIZE) "page2pa(pp1) < npages*PGSIZE" ;;
  assert_ (page2pa pp2 <? npages s * PGSIZE) "page2pa(pp2) < npages*PGSIZE" ;;
  let fl := page_free_list s in
  modify (set_page_free_list None) ;;
  assert_no_alloc ;;
  page_free pp0 ;;
  page_free pp1 ;;
  page_free pp2 ;;
  pp0 ← assert_alloc 0 "(pp0 = page_alloc(0))";
  pp1 ← assert_alloc 0 "(pp1 = page_alloc(0))";
  pp2 ← assert_alloc 0 "(pp2 = page_alloc(0))";
  assert_ (negb (pp1 =? pp0)) "pp1 && pp1 != pp0" ;;
  assert_ (negb (pp2 =? pp1) && negb (pp2 =? pp0)) "pp2 && pp2 != pp1 && pp2 != pp0" ;;
  assert_no_alloc ;;
  kva ← page2kva pp0;
  kmemset kva 1 PGSIZE ;;
  page_free pp0 ;;
  pp ← assert_alloc ALLOC_ZERO "(pp = page_alloc(ALLOC_ZERO))";
  assert_ (pp0 =? pp) "pp && pp0 == pp" ;;
  c ← page2kva pp;
  for_each (seqZ 0 PGSIZE) (fun i => b ← vload8 (u32 (c + i)); assert_ (b =? 0) "c[i] == 0") ;;
  modify (set_page_free_list fl) ;;
  page_free pp0 ;;
  page_free pp1 ;;
  page_free pp2 ;;
  n ← count_free;
  assert_ (nfree =? n) "nfree == 0" ;;
  cprintf "check_page_alloc() succeeded!\n" [].

End CheckAlloc.

(** ** check_page *)

Section CheckPage.

Definition check_va2pa (pgdir va : Z) : K Z :=
  d ← kload (u32 (pgdir + 4 * PDX va));
  if negb (test d PTE_P) then mret NOPAGE
  else
    p ← KADDR (PTE_ADDR d);
    e ← kload (u32 (p + 4 * PTX va));
    if negb (test e PTE_P) then mret NOPAGE else mret (PTE_ADDR e).

Definition assert_va2pa (pgdir va pa : Z) (text : string) : K unit :=
  a ← check_va2pa pgdir va;
  assert_ (a =? pa) text.

(** [*pgdir_walk(pgdir, va, 0)]. *)
Definition walk_read (pgdir va : Z) : K Z := p ← pgdir_walk pgdir va 0; kload p.
Definition walk_clear (pgdir va : Z) : K unit := p ← pgdir_walk pgdir va 0; kstore p 0.

Definition pde_read (pgdir i : Z) : K Z := kload (u32 (pgdir + 4 * i)).
Definition pde_clear (pgdir i : Z) : K unit := kstore (u32 (pgdir + 4 * i)) 0.

(** The first part: mapping, remapping and unmapping. *)
Definition check_page_map (kd pp0 pp1 pp2 : Z) : K unit :=
  l ← page_lookup kd 0;
  assert_ (bool_decide (fst l = None)) "page_lookup(kern_pgdir, (void *) 0x0, &ptep) == NULL" ;;
  r ← page_insert kd pp1 0 PTE_W;
  assert_ (r <? 0) "page_insert(kern_pgdir, pp1, 0x0, PTE_W) < 0" ;;
  page_free pp0 ;;
  assert_insert kd pp1 0 PTE_W "page_insert(kern_pgdir, pp1, 0x0, PTE_W) == 0" ;;
  d ← pde_read kd 0;
  assert_ (PTE_ADDR d =? page2pa pp0) "PTE_ADDR(kern_pgdir[0]) == page2pa(pp0)" ;;
  assert_va2pa kd 0 (page2pa pp1) "check_va2pa(kern_pgdir, 0x0) == page2pa(pp1)" ;;
  assert_ref pp1 1 "pp1->pp_ref == 1" ;;
  assert_ref pp0 1 "pp0->pp_ref == 1" ;;
  assert_insert kd pp2 PGSIZE PTE_W "page_insert(kern_pgdir, pp2, (void*) PGSIZE, PTE_W) == 0" ;;
  assert_va2pa kd PGSIZE (page2pa pp2) "check_va2pa(kern_pgdir, PGSIZE) == page2pa(pp2)" ;;
  assert_ref pp2 1 "pp2->pp_ref == 1" ;;
  assert_no_alloc ;;
  assert_insert kd pp2 PGSIZE PTE_W "page_insert(kern_pgdir, pp2, (void*) PGSIZE, PTE_W) == 0" ;;
  assert_va2pa kd PGSIZE (page2pa pp2) "check_va2pa(kern_pgdir, PGSIZE) == page2pa(pp2)" ;;
  assert_ref pp2 1 "pp2->pp_ref == 1" ;;
  assert_no_alloc ;;
  d ← pde_read kd (PDX PGSIZE);
  ptep ← KADDR (PTE_ADDR d);
  w ← pgdir_walk kd PGSIZE 0;
  assert_ (w =? u32 (ptep + 4 * PTX PGSIZE)) "pgdir_walk(kern_pgdir, (void*)PGSIZE, 0) == ptep+PTX(PGSIZE)" ;;
  assert_insert kd pp2 PGSIZE (Z.lor PTE_W PTE_U)
    "page_insert(kern_pgdir, pp2, (void*) PGSIZE, PTE_W|PTE_U) == 0" ;;
  assert_va2pa kd PGSIZE (page2pa pp2) "check_va2pa(kern_pgdir, PGSIZE) == page2pa(pp2)" ;;
  assert_ref pp2 1 "pp2->pp_ref == 1" ;;
  d ← walk_read kd PGSIZE;
  assert_ (test d PTE_U) "*pgdir_walk(kern_pgdir, (void*) PGSIZE, 0) & PTE_U" ;;
  d ← pde_read kd 0;
  assert_ (test d PTE_U) "kern_pgdir[0] & PTE_U" ;;
  assert_insert kd pp2 PGSIZE PTE_W "page_insert(kern_pgdir, pp2, (void*) PGSIZE, PTE_W) == 0" ;;
  d ← walk_read kd PGSIZE;
  assert_ (test d PTE_W) "*pgdir_walk(kern_pgdir, (void*) PGSIZE, 0) & PTE_W" ;;
  assert_ (negb (test d PTE_U)) "!(*pgdir_walk(kern_pgdir, (void*) PGSIZE, 0) & PTE_U)" ;;
  r ← page_insert kd pp0 PTSIZE PTE_W;
  assert_ (r <? 0) "page_insert(kern_pgdir, pp0, (void*) PTSIZE, PTE_W) < 0".

(** The second part: replacing, freeing, and the pointers of pgdir_walk. *)
Definition check_page_unmap (kd pp0 pp1 pp2 : Z) : K unit :=
  assert_insert kd pp1 PGSIZE PTE_W "page_insert(kern_pgdir, pp1, (void*) PGSIZE, PTE_W) == 0" ;;
  d ← walk_read kd PGSIZE;
  assert_ (negb (test d PTE_U)) "!(*pgdir_walk(kern_pgdir, (void*) PGSIZE, 0) & PTE_U)" ;;
  assert_va2pa kd 0 (page2pa pp1) "check_va2pa(kern_pgdir, 0) == page2pa(pp1)" ;;
  assert_va2pa kd PGSIZE (page2pa pp1) "check_va2pa(kern_pgdir, PGSIZE) == page2pa(pp1)" ;;
  assert_ref pp1 2 "pp1->pp_ref == 2" ;;
  assert_ref pp2 0 "pp2->pp_ref == 0" ;;
  pp ← page_alloc 0;
  assert_ (bool_decide (pp = Some pp2)) "(pp = page_alloc(0)) && pp == pp2" ;;
  page_remove kd 0 ;;
  assert_va2pa kd 0 NOPAGE "check_va2pa(kern_pgdir, 0x0) == ~0" ;;
  assert_va2pa kd PGSIZE (page2pa pp1) "check_va2pa(kern_pgdir, PGSIZE) == page2pa(pp1)" ;;
  assert_ref pp1 1 "pp1->pp_ref == 1" ;;
  assert_ref pp2 0 "pp2->pp_ref == 0" ;;
  page_remove kd PGSIZE ;;
  assert_va2pa kd 0 NOPAGE "check_va2pa(kern_pgdir, 0x0) == ~0" ;;
  assert_va2pa kd PGSIZE NOPAGE "check_va2pa(kern_pgdir, PGSIZE) == ~0" ;;
  assert_ref pp1 0 "pp1->pp_ref == 0" ;;
  assert_ref pp2 0 "pp2->pp_ref == 0" ;;
  pp ← page_alloc 0;
  assert_ (bool_decide (pp = Some pp1)) "(pp = page_alloc(0)) && pp == pp1" ;;
  assert_no_alloc ;;
  d ← pde_read kd 0;
  assert_ (PTE_ADDR d =? page2pa pp0) "PTE_ADDR(kern_pgdir[0]) == page2pa(pp0)" ;;
  pde_clear kd 0 ;;
  assert_ref pp0 1 "pp0->pp_ref == 1" ;;
  page_update pp0 (set_pp_ref 0) ;;
  page_free pp0 ;;
  let va := PGSIZE * NPDENTRIES + PGSIZE in
  ptep ← pgdir_walk kd va 1;
  d ← pde_read kd (PDX va);
  ptep1 ← KADDR (PTE_ADDR d);
  assert_ (ptep =? u32 (ptep1 + 4 * PTX va)) "ptep == ptep1 + PTX(va)" ;;
  pde_clear kd (PDX va) ;;
  page_update pp0 (set_pp_ref 0) ;;
  kva ← page2kva pp0;
  kmemset kva 0xFF PGSIZE ;;
  page_free pp0 ;;
  pgdir_walk kd 0 1 ;;
  ptep ← page2kva pp0;
  for_each (seqZ 0 NPTENTRIES) (fun i =>
    d ← kload (u32 (ptep + 4 * i));
    assert_ (Z.land d PTE_P =? 0) "(ptep[i] & PTE_P) == 0") ;;
  pde_clear kd 0 ;;
  page_update pp0 (set_pp_ref 0).

(** The third part: the regions of [mmio_map_region]. *)
Definition check_page_mmio (kd : Z) : K unit :=
  mm1 ← mmio_map_region 0 4097;
  mm2 ← mmio_map_region 0 4096;
  assert_ ((MMIOBASE <=? mm1) && (u32 (mm1 + 8096) <? MMIOLIM)) "mm1 >= MMIOBASE && mm1 + 8096 < MMIOLIM" ;;
  assert_ ((MMIOBASE <=? mm2) && (u32 (mm2 + 8096) <? MMIOLIM)) "mm2 >= MMIOBASE && mm2 + 8096 < MMIOLIM" ;;
  assert_ ((mm1 `mod` PGSIZE =? 0) && (mm2 `mod` PGSIZE =? 0)) "mm1 % PGSIZE == 0 && mm2 % PGSIZE == 0" ;;
  assert_va2pa kd mm1 0 "check_va2pa(kern_pgdir, mm1) == 0" ;;
  assert_va2pa kd (u32 (mm1 + PGSIZE)) PGSIZE "check_va2pa(kern_pgdir, mm1+PGSIZE) == PGSIZE" ;;
  assert_va2pa kd mm2 0 "check_va2pa(kern_pgdir, mm2) == 0" ;;
  assert_va2pa kd (u32 (mm2 + PGSIZE)) NOPAGE "check_va2pa(kern_pgdir, mm2+PGSIZE) == ~0" ;;
  d ← walk_read kd mm1;
  assert_ (test d (Z.lor (Z.lor PTE_W PTE_PWT) PTE_PCD))
    "*pgdir_walk(kern_pgdir, (void*) mm1, 0) & (PTE_W|PTE_PWT|PTE_PCD)" ;;
  assert_ (negb (test d PTE_U)) "!(*pgdir_walk(kern_pgdir, (void*) mm1, 0) & PTE_U)" ;;
  walk_clear kd mm1 ;;
  walk_clear kd (u32 (mm1 + PGSIZE)) ;;
  walk_clear kd mm2.

Definition check_page : K unit :=
  pp0 ← assert_alloc 0 "(pp0 = page_alloc(0))";
  pp1 ← assert_alloc 0 "(pp1 = page_alloc(0))";
  pp2 ← assert_alloc 0 "(pp2 = page_alloc(0))";
  assert_ (negb (pp1 =? pp0)) "pp1 && pp1 != pp0" ;;
  assert_ (negb (pp2 =? pp1) && negb (pp2 =? pp0)) "pp2 && pp2 != pp1 && pp2 != pp0" ;;
  s ← get;
  let fl := page_free_list s in
  let kd := kern_pgdir s in
  modify (set_page_free_list None) ;;
  assert_no_alloc ;;
  check_page_map kd pp0 pp1 pp2 ;;
  check_page_unmap kd pp0 pp1 pp2 ;;
  modify (set_page_free_list fl) ;;
  page_free pp0 ;;
  page_free pp1 ;;
  page_free pp2 ;;
  check_page_mmio kd ;;
  cprintf "check_page() succeeded!\n" [].

End CheckPage.

(** ** check_kern_pgdir and check_page_installed_pgdir *)

Section CheckKernPgdir.

(** The address of [percpu_kstacks]. *)
Context (percpu_kstacks : Z).

Definition kstack_addr (i : Z) : Z := u32 (percpu_kstacks + KSTKSIZE * i).

(** [for (i = 0; i < n; i += PGSIZE)]. *)
Definition for_pages (n : Z) (body : Z -> K unit) : K unit :=
  for_each ((fun k => PGSIZE * k) <$> seqZ 0 ((n + PGSIZE - 1) / PGSIZE)) body.

Definition check_pde (pgdir i : Z) : K unit :=
  d ← pde_read pgdir i;
  if (i =? PDX UVPT) || (i =? PDX (KSTACKTOP - 1)) || (i =? PDX UPAGES) || (i =? PDX UENVS)
     || (i =? PDX MMIOBASE)
  then assert_ (test d PTE_P) "pgdir[i] & PTE_P"
  else if PDX KERNBASE <=? i then
    assert_ (test d PTE_P) "pgdir[i] & PTE_P" ;;
    assert_ (test d PTE_W) "pgdir[i] & PTE_W"
  else assert_ (d =? 0) "pgdir[i] == 0".

Definition check_kern_pgdir : K unit :=
  s ← get;
  let pgdir := kern_pgdir s in
  for_pages (ROUNDUP (npages s * sizeof_PageInfo) PGSIZE) (fun i =>
    pa ← PADDR (pages_kva s);
    assert_va2pa pgdir (UPAGES + i) (u32 (pa + i)) "check_va2pa(pgdir, UPAGES + i) == PADDR(pages) + i") ;;
  for_pages (ROUNDUP (NENV * sizeof_Env) PGSIZE) (fun i =>
    pa ← PADDR (envs_kva s);
    assert_va2pa pgdir (UENVS + i) (u32 (pa + i)) "check_va2pa(pgdir, UENVS + i) == PADDR(envs) + i") ;;
  for_pages (u32 (npages s * PGSIZE)) (fun i =>
    assert_va2pa pgdir (u32 (KERNBASE + i)) i "check_va2pa(pgdir, KERNBASE + i) == i") ;;
  for_each (seqZ 0 NCPU) (fun n =>
    let base := u32 (KSTACKTOP - (KSTKSIZE + KSTKGAP) * (n + 1)) in
    for_pages KSTKSIZE (fun i =>
      pa ← PADDR (kstack_addr n);
      assert_va2pa pgdir (base + KSTKGAP + i) (u32 (pa + i))
        "check_va2pa(pgdir, base + KSTKGAP + i) == PADDR(percpu_kstacks[n]) + i") ;;
    for_pages KSTKGAP (fun i =>
      assert_va2pa pgdir (base + i) NOPAGE "check_va2pa(pgdir, base + i) == ~0")) ;;
  for_each (seqZ 0 NPDENTRIES) (check_pde pgdir) ;;
  cprintf "check_kern_pgdir() succeeded!\n" [].

Definition check_page_installed_pgdir : K unit :=
  pp0 ← assert_alloc 0 "(pp0 = page_alloc(0))";
  pp1 ← assert_alloc 0 "(pp1 = page_alloc(0))";
  pp2 ← assert_alloc 0 "(pp2 = page_alloc(0))";
  page_free pp0 ;;
  kva1 ← page2kva pp1;
  kmemset kva1 1 PGSIZE ;;
  kva2 ← page2kva pp2;
  kmemset kva2 2 PGSIZE ;;
  s ← get;
  let kd := kern_pgdir s in
  page_insert kd pp1 PGSIZE PTE_W ;;
  assert_ref pp1 1 "pp1->pp_ref == 1" ;;
  w ← vload PGSIZE;
  assert_ (w =? 0x01010101) "*(uint32_t *)PGSIZE == 0x01010101U" ;;
  page_insert kd pp2 PGSIZE PTE_W ;;
  w ← vload PGSIZE;
  assert_ (w =? 0x02020202) "*(uint32_t *)PGSIZE == 0x02020202U" ;;
  assert_ref pp2 1 "pp2->pp_ref == 1" ;;
  assert_ref pp1 0 "pp1->pp_ref == 0" ;;
  vstore PGSIZE 0x03030303 ;;
  kva2 ← page2kva pp2;
  w ← kload kva2;
  assert_ (w =? 0x03030303) "*(uint32_t *)page2kva(pp2) == 0x03030303U" ;;
  page_remove kd PGSIZE ;;
  assert_ref pp2 0 "pp2->pp_ref == 0" ;;
  d ← pde_read kd 0;
  assert_ (PTE_ADDR d =? page2pa pp0) "PTE_ADDR(kern_pgdir[0]) == page2pa(pp0)" ;;
  pde_clear kd 0 ;;
  assert_ref pp0 1 "pp0->pp_ref == 1" ;;
  page_update pp0 (set_pp_ref 0) ;;
  page_free pp0 ;;
  cprintf "check_page_installed_pgdir() succeeded!\n" [].

End CheckKernPgdir.

(** ** mem_init *)

Section MemInit.

(** The linker symbol [end], the addresses of [bootstack] and
    [percpu_kstacks], and what the memory allocated for the arrays [pages]
    and [envs] holds before it is written. *)
Context (end_ bootstack percpu_kstacks : Z) (pages_mem : Z -> PageInfo) (envs_mem : Z -> Env).

Definition array (n : Z) {A} (f : Z -> A) : gmap Z A := list_to_map ((fun i => (i, f i)) <$> seqZ 0 n).

Definition mem_init_mp : K unit :=
  s ← get;
  for_each (seqZ 0 NCPU) (fun i =>
    pa ← PADDR (kstack_addr percpu_kstacks i);
    boot_map_region (kern_pgdir s) (u32 (KSTACKTOP - i * (KSTKSIZE + KSTKGAP) - KSTKSIZE)) KSTKSIZE pa PTE_W).

(** The first half: the initial directory and the two arrays. *)
Definition mem_init_arrays : K unit :=
  kd ← boot_alloc end_ PGSIZE;
  modify (set_kern_pgdir kd) ;;
  kmemset kd 0 PGSIZE ;;
  pa ← PADDR kd;
  kstore (u32 (kd + 4 * PDX UVPT)) (Z.lor (Z.lor pa PTE_U) PTE_P) ;;
  s ← get;
  a ← boot_alloc end_ (u32 (npages s * sizeof_PageInfo));
  modify (set_pages_kva a) ;;
  modify (set_pages (array (npages s) pages_mem)) ;;
  a ← boot_alloc end_ (NENV * sizeof_Env);
  modify (set_envs_kva a) ;;
  modify (set_envs (array NENV envs_mem)).

Definition mem_init : K unit :=
  i386_detect_memory ;;
  mem_init_arrays ;;
  page_init end_ ;;
  check_page_free_list end_ true ;;
  check_page_alloc ;;
  check_page ;;
  s ← get;
  ppa ← PADDR (pages_kva s);
  boot_map_region (kern_pgdir s) UPAGES (u32 (npages s * sizeof_PageInfo)) ppa PTE_U ;;
  epa ← PADDR (envs_kva s);
  boot_map_region (kern_pgdir s) UENVS (ROUNDUP (NENV * sizeof_Env) PGSIZE) epa PTE_U ;;
  bpa ← PADDR bootstack;
  boot_map_region (kern_pgdir s) (KSTACKTOP - KSTKSIZE) KSTKSIZE bpa PTE_W ;;
  boot_map_region (kern_pgdir s) KERNBASE 0xfffffff 0 PTE_W ;;
  mem_init_mp ;;
  check_kern_pgdir percpu_kstacks ;;
  pa ← PADDR (kern_pgdir s);
  lcr3 pa ;;
  check_page_free_list end_ false ;;
  s ← get;
  let c := cr0 s in
  let c := Z.lor c (Z.lor (Z.lor (Z.lor (Z.lor (Z.lor CR0_PE CR0_PG) CR0_AM) CR0_WP) CR0_NE) CR0_MP) in
  let c := Z.land c (Z.lnot (Z.lor CR0_TS CR0_EM)) in
  modify (set_cr0 c) ;;
  check_page_installed_pgdir.

End MemInit.
