(* ===== verification/Devices.v ===== *)
(** * Devices: interrupt controllers, console initialisation, processors

    kern/picirq.c (the 8259A pair), [kbd_init] and [cons_init] of
    kern/console.c, kern/mpconfig.c (the multiprocessor tables) and
    kern/lapic.c (the local APIC). *)

From S2P Require Import Prelude Machine CString Printfmt Hardware Console Kernel Pmap Env.

(** ** kern/picirq.c *)

Section Pic.

Definition IO_PIC1 : Z := 0x20.
Definition IO_PIC2 : Z := 0xA0.
Definition IRQ_SLAVE : Z := 2.

Definition irq_setmask_8259A (mask : Z) : K unit :=
  hw_update (set_irq_mask_8259A mask) ;;
  s ← get;
  if negb (didinit (hw s)) then skip
  else
    out_io (outb (IO_PIC1 + 1) (u8 mask)) ;;
    out_io (outb (IO_PIC2 + 1) (u8 (Z.shiftr mask 8))) ;;
    cprintf "enabled interrupts:" [] ;;
    for_each (seqZ 0 16) (fun i => when (test (Z.lnot mask) (Z.shiftl 1 i)) (cprintf " %d" [VInt i])) ;;
    cprintf "\n" [].

(** The initialisation sequence: port and value, in order. *)
Definition pic_sequence : list (Z * Z) :=
  [(IO_PIC1 + 1, 0xFF); (IO_PIC2 + 1, 0xFF);
   (IO_PIC1, 0x11); (IO_PIC1 + 1, IRQ_OFFSET); (IO_PIC1 + 1, Z.shiftl 1 IRQ_SLAVE); (IO_PIC1 + 1, 0x3);
   (IO_PIC2, 0x11); (IO_PIC2 + 1, IRQ_OFFSET + 8); (IO_PIC2 + 1, IRQ_SLAVE); (IO_PIC2 + 1, 0x01);
   (IO_PIC1, 0x68); (IO_PIC1, 0x0a); (IO_PIC2, 0x68); (IO_PIC2, 0x0a)].

Definition pic_init : K unit :=
  hw_update (set_didinit true) ;;
  for_each pic_sequence (fun pv => out_io (outb (fst pv) (snd pv))) ;;
  s ← get;
  when (negb (irq_mask_8259A (hw s) =? 0xFFFF)) (irq_setmask_8259A (irq_mask_8259A (hw s))).

End Pic.

(** ** Initialisation of the console *)

Section ConsoleInit.

(** A function of console.c that only changes the console; [None] is a
    device that never stops sending. *)
Definition on_console (f : console -> option console) : K unit := fun s =>
  match f (con s) with
  | Some c => (Ret tt, set_con c s)
  | None => (Stop SDiverge, s)
  end.

Definition kbd_init (fuel : nat) : K unit :=
  on_console (kbd_intr fuel) ;;
  s ← get;
  irq_setmask_8259A (Z.land (irq_mask_8259A (hw s)) (Z.lnot (Z.shiftl 1 1))).

Definition cons_init (fuel : nat) : K unit :=
  on_console (fun c => Some (cga_init c)) ;;
  kbd_init fuel ;;
  on_console (fun c => Some (serial_init c)) ;;
  s ← get;
  when (negb (serial_exists (con s))) (cprintf "Serial port does not exist!\n" []).

End ConsoleInit.

(** ** kern/mpconfig.c *)

Section MpConfig.

Definition MPPROC_BOOT : Z := 0x02.
Definition MPPROC : Z := 0x00.
Definition MPBUS : Z := 0x01.
Definition MPIOAPIC : Z := 0x02.
Definition MPIOINTR : Z := 0x03.
Definition MPLINTR : Z := 0x04.
Definition sizeof_mp : Z := 16.
Definition sizeof_mpproc : Z := 20.

(** Little-endian fields in memory. *)
Definition vload16 (va : Z) : K Z := a ← vload8 va; b ← vload8 (va + 1); mret (a + 256 * b).
Definition vload32 (va : Z) : K Z := a ← vload16 va; b ← vload16 (va + 2); mret (a + 65536 * b).

Fixpoint sum_bytes (n : nat) (addr acc : Z) : K Z :=
  match n with
  | O => mret acc
  | S n' => b ← vload8 addr; sum_bytes n' (addr + 1) (acc + b)
  end.

Definition sum (addr len : Z) : K Z := t ← sum_bytes (Z.to_nat len) addr 0; mret (u8 t).

(** [memcmp(va, sig, 4) == 0]. *)
Fixpoint signature_is (va : Z) (sig : list Z) : K bool :=
  match sig with
  | [] => mret true
  | c :: sig' => b ← vload8 va; if b =? c then signature_is (va + 1) sig' else mret false
  end.

Fixpoint mpsearch_loop (n : nat) (mp : Z) : K (option Z) :=
  match n with
  | O => mret None
  | S n' =>
      sg ← signature_is mp (chars "_MP_");
      ok ← (if (sg : bool) then t ← sum mp sizeof_mp; mret (t =? 0) else mret false);
      if (ok : bool) then mret (Some mp) else mpsearch_loop n' (mp + sizeof_mp)
  end.

Definition mpsearch1 (a len : Z) : K (option Z) :=
  mp ← KADDR a;
  e ← KADDR (u32 (a + len));
  mpsearch_loop (Z.to_nat ((e - mp + sizeof_mp - 1) / sizeof_mp)) mp.

Definition mpsearch : K (option Z) :=
  bda ← KADDR (Z.shiftl 0x40 4);
  p ← vload16 (bda + 0x0E);
  r ← (if negb (p =? 0) then mpsearch1 (Z.shiftl p 4) 1024
       else
         q ← vload16 (bda + 0x13);
         mpsearch1 (u32 (q * 1024 - 1024)) 1024);
  match r with
  | Some mp => mret (Some mp)
  | None => mpsearch1 0xF0000 0x10000
  end.

(** The table and the floating pointer that leads to it. *)
Definition mpconfig : K (option (Z * Z)) :=
  mp ← mpsearch;
  match mp with
  | None => mret None
  | Some mp =>
      physaddr ← vload32 (mp + 4);
      type ← vload8 (mp + 11);
      if (physaddr =? 0) || negb (type =? 0) then
        cprintf "SMP: Default configurations not implemented\n" [] ;; mret None
      else
        conf ← KADDR physaddr;
        sg ← signature_is conf (chars "PCMP");
        if negb sg then cprintf "SMP: Incorrect MP configuration table signature\n" [] ;; mret None
        else
          len ← vload16 (conf + 4);
          t ← sum conf len;
          if negb (t =? 0) then cprintf "SMP: Bad MP configuration checksum\n" [] ;; mret None
          else
            version ← vload8 (conf + 6);
            if negb (version =? 1) && negb (version =? 4) then
              cprintf "SMP: Unsupported MP version %d\n" [VInt version] ;; mret None
            else
              xlen ← vload16 (conf + 40);
              xsum ← vload8 (conf + 42);
              t ← sum (conf + len) xlen;
              if negb (t =? xsum) then
                cprintf "SMP: Bad MP configuration extended checksum\n" [] ;; mret None
              else mret (Some (mp, conf))
  end.

Definition cpu_update (i : Z) (f : CpuInfo -> CpuInfo) : K unit := fun s =>
  match cpus s !! i with
  | Some c => (Ret tt, set_cpus (<[i := f c]> (cpus s)) s)
  | None => (Stop (SFault i), s)
  end.

(** One entry of the table at [p]; the result is the address of the next
    one, [None] after an unknown type. *)
Definition mp_entry (p : Z) : K (option Z) :=
  type ← vload8 p;
  if type =? MPPROC then
    flags ← vload8 (p + 3);
    s ← get;
    when (test flags MPPROC_BOOT) (hw_update (fun h => set_bootcpu (Some (ncpu h)) h)) ;;
    (if ncpu (hw s) <? NCPU then
       cpu_update (ncpu (hw s)) (fun c => mkCpuInfo (u8 (ncpu (hw s))) (cpu_status c) (cpu_env c)) ;;
       hw_update (fun h => set_ncpu (ncpu h + 1) h)
     else
       apicid ← vload8 (p + 1);
       cprintf "SMP: too many CPUs, CPU %d disabled\n" [VInt apicid]) ;;
    mret (Some (p + sizeof_mpproc))
  else if (type =? MPBUS) || (type =? MPIOAPIC) || (type =? MPIOINTR) || (type =? MPLINTR)
  then mret (Some (p + 8))
  else
    cprintf "mpinit: unknown config type %x\n" [VInt type] ;;
    hw_update (set_ismp 0) ;;
    mret None.

Fixpoint mp_entries (n : nat) (p : Z) : K unit :=
  match n with
  | O => skip
  | S n' => r ← mp_entry p; match r with Some p' => mp_entries n' p' | None => skip end
  end.

Definition mp_init : K unit :=
  hw_update (set_bootcpu (Some 0)) ;;
  r ← mpconfig;
  match r with
  | None => skip
  | Some (mp, conf) =>
      hw_update (set_ismp 1) ;;
      la ← vload32 (conf + 36);
      hw_update (set_lapicaddr la) ;;
      n ← vload16 (conf + 34);
      mp_entries (Z.to_nat n) (conf + 44) ;;
      s ← get;
      b ← deref (bootcpu (hw s));
      cpu_update b (set_cpu_status CPU_STARTED) ;;
      if ismp (hw s) =? 0 then
        hw_update (set_ncpu 1) ;;
        hw_update (set_lapicaddr 0) ;;
        cprintf "SMP: configuration not found, SMP disabled\n" []
      else
        cprintf "SMP: CPU %d found %d CPU(s)\n"
          [VInt (cpu_id (default cpu0 (cpus s !! b))); VInt (ncpu (hw s))] ;;
        imcrp ← vload8 (mp + 12);
        when (negb (imcrp =? 0))
          (cprintf "SMP: Setting IMCR to switch from PIC mode to symmetric I/O mode\n" [] ;;
           out_io (outb 0x22 0x70) ;;
           v ← with_io (inb 0x23);
           out_io (outb 0x23 (Z.lor v 1)))
  end.

End MpConfig.

(** ** kern/lapic.c *)

Section Lapic.

(** The device: what the register with an index reads as, given the number
    of writes so far and the number of the read in a waiting loop. *)
Context (lapic_in : Z -> nat -> nat -> Z).

Definition ID : Z := 0x0020 / 4.
Definition VER : Z := 0x0030 / 4.
Definition TPR : Z := 0x0080 / 4.
Definition EOI : Z := 0x00B0 / 4.
Definition SVR : Z := 0x00F0 / 4.
Definition ENABLE : Z := 0x00000100.
Definition ESR : Z := 0x0280 / 4.
Definition ICRLO : Z := 0x0300 / 4.
Definition INIT : Z := 0x00000500.
Definition STARTUP : Z := 0x00000600.
Definition DELIVS : Z := 0x00001000.
Definition ASSERT : Z := 0x00004000.
Definition LEVEL : Z := 0x00008000.
Definition BCAST : Z := 0x00080000.
Definition OTHERS : Z := 0x000C0000.
Definition FIXED : Z := 0x00000000.
Definition ICRHI : Z := 0x0310 / 4.
Definition TIMER : Z := 0x0320 / 4.
Definition X1 : Z := 0x0000000B.
Definition PERIODIC : Z := 0x00020000.
Definition PCINT : Z := 0x0340 / 4.
Definition LINT0 : Z := 0x0350 / 4.
Definition LINT1 : Z := 0x0360 / 4.
Definition ERROR : Z := 0x0370 / 4.
Definition MASKED : Z := 0x00010000.
Definition TICR : Z := 0x0380 / 4.
Definition TDCR : Z := 0x03E0 / 4.

(** The registers are accessed through the mapping that [lapic] points to:
    an access to an unmapped address faults, a write reaches the device at
    the physical address it is mapped to. *)
Definition lapic_access (index : Z) (write : bool) : K Z := fun s =>
  let va := u32 (lapic (hw s) + 4 * index) in
  match translate va write s with
  | Some pa => (Ret pa, s)
  | None => (Stop (SFault va), s)
  end.

Definition lapicr (index : Z) (k : nat) : K Z :=
  lapic_access index false ;;
  s ← get;
  mret (u32 (lapic_in index (length (lapic_log (hw s))) k)).

Definition lapicw (index value : Z) : K unit :=
  pa ← lapic_access index true;
  hw_update (fun h => set_lapic_log ((pa, u32 value) :: lapic_log h) h) ;;
  lapicr ID 0 ;;
  skip.

(** [while (lapic[ICRLO] & DELIVS);] *)
Fixpoint wait_delivery (fuel : nat) (k : nat) : K unit :=
  match fuel with
  | O => halt SDiverge
  | S fuel' => v ← lapicr ICRLO k; if test v DELIVS then wait_delivery fuel' (S k) else skip
  end.

Definition lapic_init (fuel : nat) : K unit :=
  s ← get;
  if lapicaddr (hw s) =? 0 then skip
  else
    a ← mmio_map_region (lapicaddr (hw s)) 4096;
    hw_update (set_lapic a) ;;
    lapicw SVR (Z.lor ENABLE (IRQ_OFFSET + IRQ_SPURIOUS)) ;;
    lapicw TDCR X1 ;;
    lapicw TIMER (Z.lor PERIODIC (IRQ_OFFSET + IRQ_TIMER)) ;;
    lapicw TICR 10000000 ;;
    s ← get;
    when (negb (bool_decide (bootcpu (hw s) = Some (this_cpu s)))) (lapicw LINT0 MASKED) ;;
    lapicw LINT1 MASKED ;;
    v ← lapicr VER 0;
    when (4 <=? Z.land (Z.shiftr v 16) 0xFF) (lapicw PCINT MASKED) ;;
    lapicw ERROR (IRQ_OFFSET + IRQ_ERROR) ;;
    lapicw ESR 0 ;;
    lapicw ESR 0 ;;
    lapicw EOI 0 ;;
    lapicw ICRHI 0 ;;
    lapicw ICRLO (Z.lor (Z.lor BCAST INIT) LEVEL) ;;
    wait_delivery fuel 0 ;;
    lapicw TPR 0.

Definition cpunum : K Z :=
  s ← get;
  if negb (lapic (hw s) =? 0) then v ← lapicr ID 0; mret (Z.shiftr v 24) else mret 0.

Definition lapic_eoi : K unit :=
  s ← get;
  when (negb (lapic (hw s) =? 0)) (lapicw EOI 0).

Definition lapic_startap (apicid addr : Z) : K unit :=
  out_io (outb IO_RTC 0xF) ;;
  out_io (outb (IO_RTC + 1) 0x0A) ;;
  wrv ← KADDR (Z.lor (Z.shiftl 0x40 4) 0x67);
  vstore8 wrv 0 ;;
  vstore8 (wrv + 1) 0 ;;
  vstore8 (wrv + 2) (u8 (Z.shiftr addr 4)) ;;
  vstore8 (wrv + 3) (u8 (Z.shiftr addr 12)) ;;
  lapicw ICRHI (Z.shiftl apicid 24) ;;
  lapicw ICRLO (Z.lor (Z.lor INIT LEVEL) ASSERT) ;;
  lapicw ICRLO (Z.lor INIT LEVEL) ;;
  for_each (seqZ 0 2) (fun _ =>
    lapicw ICRHI (Z.shiftl apicid 24) ;;
    lapicw ICRLO (Z.lor STARTUP (Z.shiftr addr 12))).

Definition lapic_ipi (fuel : nat) (vector : Z) : K unit :=
  lapicw ICRLO (Z.lor (Z.lor OTHERS FIXED) vector) ;;
  wait_delivery fuel 0.

End Lapic.
