(* ===== verification/Init.v ===== *)
(** * Init: kern/init.c

    The start of the kernel, of the other processors, and the last resort
    [_panic].  The processor that runs is the bootstrap processor; waiting
    for another one is the outcome [SSpin]. *)

From S2P Require Import Prelude Machine CString Printfmt Hardware Console Kernel Pmap Spinlock Env.
From S2P Require Import Sched Syscall Trap MemInit Devices.

Section Panic.

(** [while (1) monitor(NULL)] after the message, which is printed once. *)
Definition _panic {A} (file : string) (line : Z) (fmt : string) (ap : list va_arg) : K A :=
  s ← get;
  (if bool_decide (is_Some (panicstr (hw s))) then skip
   else
     hw_update (set_panicstr (Some fmt)) ;;
     cprintf "kernel panic on CPU %d at %s:%d: " [VInt (this_cpu s); VS file; VInt line] ;;
     cprintf fmt ap ;;
     cprintf "\n" []) ;;
  halt SMonitor.

Definition _warn (file : string) (line : Z) (fmt : string) (ap : list va_arg) : K unit :=
  cprintf "kernel warning at %s:%d: " [VS file; VInt line] ;;
  cprintf fmt ap ;;
  cprintf "\n" [].

End Panic.

Section Start.

(** Symbols of the linker and of the assembly files, the embedded programs,
    the contents of uninitialised memory, and the local APIC. *)
Context (end_ bootstack percpu_kstacks ts_addr : Z) (pages_mem : Z -> PageInfo) (envs_mem : Z -> Env)
  (routine routine_irq : Z -> Z) (mpentry : list Z) (user_primes user_divzero : Z -> Z)
  (lapic_in : Z -> nat -> nat -> Z) (junk : option Z) (fuel : nat).

(** [memmove] of the bytes [l] to the kernel address [va]. *)
Fixpoint copy_bytes (l : list Z) (va : Z) : K unit :=
  match l with [] => skip | b :: l' => vstore8 va b ;; copy_bytes l' (u32 (va + 1)) end.

(** One processor [c]: start it and wait until it says so. *)
Definition boot_ap (code c : Z) : K unit :=
  n ← cpunum lapic_in;
  if c =? n then skip
  else
    hw_update (set_mpentry_kstack (u32 (kstack_addr percpu_kstacks c + KSTKSIZE))) ;;
    s ← get;
    pa ← PADDR code;
    lapic_startap lapic_in (cpu_id (default cpu0 (cpus s !! c))) pa ;;
    s ← get;
    if bool_decide (cpu_status (default cpu0 (cpus s !! c)) = CPU_STARTED) then skip else halt SSpin.

Definition boot_aps : K unit :=
  code ← KADDR MPENTRY_PADDR;
  copy_bytes mpentry code ;;
  s ← get;
  for_each (seqZ 0 (ncpu (hw s))) (boot_ap code) ;;
  env_create junk user_divzero ENV_TYPE_USER ;;
  env_run 0.

Definition i386_init : K unit :=
  cons_init fuel ;;
  cprintf "6828 decimal is %o octal!\n" [VInt 6828] ;;
  mem_init end_ bootstack percpu_kstacks pages_mem envs_mem ;;
  env_init ;;
  trap_init routine routine_irq ts_addr ;;
  mp_init ;;
  lapic_init lapic_in fuel ;;
  pic_init ;;
  lock_kernel ;;
  boot_aps ;;
  env_create junk user_primes ENV_TYPE_USER ;;
  sched_yield.

(** The other processors stop in [for (;;);]. *)
Definition mp_main : K unit :=
  s ← get;
  pa ← PADDR (kern_pgdir s);
  lcr3 pa ;;
  n ← cpunum lapic_in;
  cprintf "SMP: CPU %d starting\n" [VInt n] ;;
  lapic_init lapic_in fuel ;;
  env_init_percpu ;;
  trap_init_percpu ts_addr ;;
  set_thiscpu (set_cpu_status CPU_STARTED) ;;
  halt SSpin.

End Start.
