(* ===== verification/MemInitProps.v ===== *)
(** * MemInitProps: the self-tests of mem_init

    [mem_init] runs its own tests while it sets memory up.  The test of
    [mmio_map_region] can never pass, because of the wrong return value; on a
    machine with 8 MB, the tests before it do. *)

From S2P Require Import Prelude Machine CString Printfmt Hardware Console Kernel Pmap PageAlloc PageTable.
From S2P Require Import Spinlock Example Env EnvProps Sched Syscall Trap KernelExit KernelSafe MemInit Devices Init.

(** The devices of the sample machine and a CMOS memory that reports 640 KB
    of base and 7 MB of extended memory: 2048 pages. *)
Definition ex_cmos : ports :=
  mkPorts (fun p n => if p =? 0x3FD then 0x20 else if p =? 0x379 then 0x80
                      else if p =? 0x71 then default 0 ([0x80; 0x02; 0; 0x1C] !! n)
                      else 0) ∅ [].

(** Memory and variables before [mem_init], the kernel at 1 MB and ending at
    1.5 MB. *)
Definition ex_start : kstate := set_nextfree 0 (set_con (set_io ex_cmos ex_console) (ex_boot 0)).

Definition ex_end : Z := KERNBASE + 0x180000.
Definition ex_bootstack : Z := KERNBASE + 0x118000.
Definition ex_kstacks : Z := KERNBASE + 0x120000.

(** The tests of the allocator and of [page_insert] pass on this machine, and the test of
    [mmio_map_region] stops the kernel. *)
Lemma mem_init_panics :
  fst (mem_init ex_end ex_bootstack ex_kstacks (fun _ => mkPageInfo None 0) (fun _ => ex_env) ex_start)
  = Stop (SPanic "assertion failed: check_va2pa(kern_pgdir, mm1+PGSIZE) == PGSIZE").
Proof. vm_compute. reflexivity. Qed.

(** ** On every machine *)

Section Never.

(** A sequence never returns when a part of it never does. *)
Lemma never_first {A B} (m : K A) (f : A -> K B) : never m -> never (m ≫= f).
Proof. intros Hm s. destruct (Hm s) as (r & s' & E). exists r, s'. by apply bind_Stop. Qed.

Lemma reads_va2pa pgdir va : reads (check_va2pa pgdir va).
Proof.
  unfold check_va2pa. apply reads_bind; [apply reads_kload|]. intros d. destruct (negb _); [apply reads_ret|].
  apply reads_bind; [apply reads_KADDR|]. intros p. apply reads_bind; [apply reads_kload|]. intros e.
  destruct (negb _); apply reads_ret.
Qed.

(** An assertion about a translation that holds changes nothing. *)
Lemma assert_va2pa_inv pgdir va pa text s s' :
  assert_va2pa pgdir va pa text s = (Ret tt, s') -> s' = s /\ check_va2pa pgdir va s = (Ret pa, s).
Proof.
  unfold assert_va2pa. intros (a & s1 & E & H)%bind_inv. assert (s1 = s) as -> by exact (reads_result _ _ _ _ (reads_va2pa pgdir va) E).
  destruct (Z.eqb_spec a pa) as [<-|]; [|discriminate H]. by injection H as <-.
Qed.

Lemma assert_inv b text s s' : assert_ b text s = (Ret tt, s') -> s' = s.
Proof. destruct b; [by intros [= <-] | discriminate]. Qed.

#[local] Instance Steady_mmio b : Steady (fun s => mmio_base s = b).
Proof. by constructor. Qed.

Lemma boot_map_mmio pgdir va size pa perm s s' :
  boot_map_region pgdir va size pa perm s = (Ret tt, s') -> mmio_base s' = mmio_base s.
Proof.
  intros H. assert (Hk : ok (fun t => mmio_base t = mmio_base s) (boot_map_region pgdir va size pa perm)); [|exact (proj1 (Hk _ _ _ eq_refl H))].
  unfold boot_map_region. generalize (Z.to_nat ((size + PGSIZE - 1) / PGSIZE)) as n. intros n. clear H.
  revert va pa. induction n as [|n IH]; intros va pa; cbn [boot_map_loop]; [apply ok_skip|].
  apply ok_bind; [apply ok_pgdir_walk|]. intros p. apply ok_bind; [apply ok_kstore|]. intros ?. apply IH.
Qed.

(** [mmio_map_region] returns the end of the region, which is a page boundary. *)
Lemma mmio_map_region_ret pa size s r s' :
  mmio_map_region pa size s = (Ret r, s') -> r = ROUNDUP (u32 (mmio_base s + size)) PGSIZE /\ mmio_base s' = r.
Proof.
  unfold mmio_map_region. rewrite (bind_Ret _ _ _ _ _ (get_eq s)). intros ([] & s1 & H1 & H)%bind_inv.
  apply boot_map_mmio in H1. apply bind_inv in H as ([] & s2 & H2 & H). injection H2 as <-.
  rewrite (bind_Ret _ _ _ _ _ (get_eq _)) in H. apply bind_inv in H as ([] & s3 & H3 & H). apply cprintf_inv in H3 as [c ->].
  injection H as <- <-. cbn [mmio_base set_mmio_base set_con]. by rewrite H1.
Qed.

Lemma ROUNDUP_next a : u32 (ROUNDUP a PGSIZE + PGSIZE) = ROUNDUP (u32 (ROUNDUP a PGSIZE + 4096)) PGSIZE.
Proof.
  unfold ROUNDUP, ROUNDDOWN. change (u32 PGSIZE) with 4096. change PGSIZE with 4096. cbv zeta.
  unfold u32. zdm.
Qed.

(** The test of [mmio_map_region] asks for two different translations of the same address: the
    page behind [mm1] and [mm2]. *)
Lemma never_mmio kd : never (check_page_mmio kd).
Proof.
  intros s. destruct (check_page_mmio kd s) as [[[]|r] s'] eqn:E; [|by eexists _, _]. exfalso.
  unfold check_page_mmio in E. apply bind_inv in E as (mm1 & s1 & H1 & E). apply bind_inv in E as (mm2 & s2 & H2 & E).
  apply mmio_map_region_ret in H1 as [H1 Hb]. apply mmio_map_region_ret in H2 as [H2 _].
  do 3 (apply bind_inv in E as ([] & ? & ?%assert_inv & E); subst).
  apply bind_inv in E as ([] & s4 & [-> _]%assert_va2pa_inv & E). apply bind_inv in E as ([] & s5 & [-> A1]%assert_va2pa_inv & E).
  apply bind_inv in E as ([] & s6 & [-> A2]%assert_va2pa_inv & E). clear E.
  rewrite Hb in A2. rewrite ROUNDUP_next in A1. rewrite A1 in A2. discriminate A2.
Qed.

Lemma never_check_page : never check_page.
Proof. unfold check_page. repeat first [apply never_first, never_mmio | apply never_bind; intros ?]. Qed.

End Never.

(** C40. The kernel does not start: [mem_init] never returns, and so [i386_init] never gets beyond
    it, whatever the memory, the devices and the addresses of the linker are.  [mmio_map_region]
    returns the end of the region it mapped, where its comment promises the base; so the last
    test of [check_page] asks in two assertions for two different translations of one address,
    and one of them fails when nothing failed before. *)
Theorem mem_init_never_returns (end_ bootstack percpu_kstacks : Z) (pages_mem : Z -> PageInfo) (envs_mem : Z -> Env)
  ts_addr routine routine_irq mpentry user_primes user_divzero lapic_in junk fuel (s : kstate) :
  (exists r s', mem_init end_ bootstack percpu_kstacks pages_mem envs_mem s = (Stop r, s')) /\
  (exists r s', i386_init end_ bootstack percpu_kstacks ts_addr pages_mem envs_mem routine routine_irq mpentry
    user_primes user_divzero lapic_in junk fuel s = (Stop r, s')).
Proof.
  assert (Hm : never (mem_init end_ bootstack percpu_kstacks pages_mem envs_mem)).
  { unfold mem_init. do 5 (apply never_bind; intros ?). apply never_first, never_check_page. }
  split; [apply Hm|]. revert s. change (never (i386_init end_ bootstack percpu_kstacks ts_addr pages_mem envs_mem routine routine_irq mpentry
    user_primes user_divzero lapic_in junk fuel)).
  unfold i386_init. do 2 (apply never_bind; intros ?). by apply never_first.
Qed.
