(* ===== verification/Kdebug.v ===== *)
(** * Kdebug: kern/kdebug.c

    The search of the STABS debugging tables: [stab_binsearch] and
    [debuginfo_eip].  A table in memory is the function that gives the entry
    at each index. *)

From S2P Require Import Prelude Machine CString Printfmt Hardware Console Kernel Pmap.

(** ** inc/stab.h *)

Definition N_FUN : Z := 0x24.
Definition N_SLINE : Z := 0x44.
Definition N_SO : Z := 0x64.
Definition N_SOL : Z := 0x84.
Definition N_PSYM : Z := 0xa0.

Record Stab := mkStab {
  n_strx : Z;
  n_type : Z;
  n_other : Z;
  n_desc : Z;
  n_value : Z;
}.

(** ** The binary search *)

Section BinarySearch.

Context (stabs : Z -> Stab).

(** [while (m >= l && stabs[m].n_type != type) m--]: the last index down
    from [m] that has the type, or [l-1]; [n] is at least [m-l+1]. *)
Fixpoint scan_back (n : nat) (l type m : Z) : Z :=
  match n with
  | O => m
  | S n' => if (l <=? m) && negb (n_type (stabs m) =? type) then scan_back n' l type (m - 1) else m
  end.

(** The local variables of the search loop. *)
Record search := mkSearch {
  sb_left : Z;      (* *region_left *)
  sb_right : Z;     (* *region_right *)
  sb_l : Z;
  sb_r : Z;
  sb_any : bool;    (* any_matches *)
  sb_addr : Z;
}.

(** One iteration of [while (l <= r)]. *)
Definition search_step (type : Z) (b : search) : search :=
  let true_m := (sb_l b + sb_r b) / 2 in
  let m := scan_back (Z.to_nat (true_m - sb_l b + 1)) (sb_l b) type true_m in
  if m <? sb_l b then
    mkSearch (sb_left b) (sb_right b) (true_m + 1) (sb_r b) (sb_any b) (sb_addr b)
  else if n_value (stabs m) <? sb_addr b then
    mkSearch m (sb_right b) (true_m + 1) (sb_r b) true (sb_addr b)
  else if sb_addr b <? n_value (stabs m) then
    mkSearch (sb_left b) (m - 1) (sb_l b) (m - 1) true (sb_addr b)
  else
    mkSearch m (sb_right b) m (sb_r b) true (u32 (sb_addr b + 1)).

Fixpoint search_loop (fuel : nat) (type : Z) (b : search) : option search :=
  if sb_l b <=? sb_r b then
    match fuel with O => None | S fuel' => search_loop fuel' type (search_step type b) end
  else Some b.

(** [for (l = *region_right; l > *region_left && ...; l--)]. *)
Fixpoint scan_right (n : nat) (left type l : Z) : Z :=
  match n with
  | O => l
  | S n' => if (left <? l) && negb (n_type (stabs l) =? type) then scan_right n' left type (l - 1) else l
  end.

(** The new values of [*region_left] and [*region_right]; [None] when
    [fuel] iterations are not enough. *)
Definition stab_binsearch (fuel : nat) (left right type addr : Z) : option (Z * Z) :=
  b ← search_loop fuel type (mkSearch left right left right false addr);
  if negb (sb_any b) then Some (sb_left b, sb_left b - 1)
  else Some (scan_right (Z.to_nat (sb_right b - sb_left b)) (sb_left b) type (sb_right b), sb_right b).

End BinarySearch.

(** ** debuginfo_eip *)

Section DebugInfo.

(** kern/kdebug.h *)
Record Eipdebuginfo := mkEipdebuginfo {
  eip_file : list Z;
  eip_line : Z;
  eip_fn_name : list Z;
  eip_fn_namelen : Z;
  eip_fn_addr : Z;
  eip_fn_narg : Z;
}.

(** A table: the entries and how many there are, the bytes of the string
    table. *)
Record stabtab := mkStabtab {
  st_stabs : Z -> Stab;
  st_count : Z;
  st_str : list Z;
}.

Definition unknown : list Z := chars "<unknown>" ++ [0].

Definition info0 (addr : Z) : Eipdebuginfo := mkEipdebuginfo unknown 0 unknown 9 addr 0.

(** Backwards to the stab that names the source file. *)
Fixpoint scan_file (n : nat) (stabs : Z -> Stab) (lfile lline : Z) : Z :=
  match n with
  | O => lline
  | S n' =>
      let st := stabs lline in
      if (lfile <=? lline) && negb (n_type st =? N_SOL) && (negb (n_type st =? N_SO) || (n_value st =? 0))
      then scan_file n' stabs lfile (lline - 1) else lline
  end.

(** The number of parameter stabs from [lline] on. *)
Fixpoint count_params (n : nat) (stabs : Z -> Stab) (rfun lline : Z) : Z :=
  match n with
  | O => 0
  | S n' =>
      if (lline <? rfun) && (n_type (stabs lline) =? N_PSYM)
      then 1 + count_params n' stabs rfun (lline + 1) else 0
  end.

(** The part of [debuginfo_eip] after the table was found; [None] is a read
    outside the string table or a search out of fuel. *)
Definition debuginfo_table (fuel : nat) (t : stabtab) (addr : Z) : option (Z * Eipdebuginfo) :=
  let stabs := st_stabs t in
  let strlen := Z.of_nat (length (st_str t)) in
  let str o := drop (Z.to_nat o) (st_str t) in
  if (strlen <=? 0) || negb (bool_decide (last (st_str t) = Some 0)) then Some (-1, info0 addr)
  else
    '(lfile, rfile) ← stab_binsearch stabs fuel 0 (st_count t - 1) N_SO addr;
    if lfile =? 0 then Some (-1, info0 addr)
    else
      '(lfun, rfun) ← stab_binsearch stabs fuel lfile rfile N_FUN addr;
      let found := lfun <=? rfun in
      let fn_name := if found && (n_strx (stabs lfun) <? strlen) then str (n_strx (stabs lfun)) else unknown in
      let fn_addr := if found then n_value (stabs lfun) else addr in
      let lline := if found then lfun else lfile in
      k ← strfind fn_name 58;
      let lline := scan_file (Z.to_nat (lline - lfile + 1)) stabs lfile lline in
      let file := if (lfile <=? lline) && (n_strx (stabs lline) <? strlen)
                  then str (n_strx (stabs lline)) else unknown in
      let narg := if lfun <? rfun then count_params (Z.to_nat (rfun - lfun)) stabs rfun (lfun + 1) else 0 in
      Some (0, mkEipdebuginfo file 0 fn_name k fn_addr narg).

(** [kern_tab] is the kernel's table (from the linker script), [user_tab]
    reads the table of the current environment from its memory. *)
Definition debuginfo_eip (fuel : nat) (kern_tab : stabtab) (user_tab : K (Z * Z * Z * Z * stabtab)) (addr : Z)
  : K (Z * Eipdebuginfo) :=
  let run t := match debuginfo_table fuel t addr with Some r => mret r | None => halt (SFault 0) end in
  if ULIM <=? addr then run kern_tab
  else
    s ← get;
    c ← deref (curenv s);
    r ← user_mem_check c USTABDATA 16 PTE_U;
    if r <? 0 then mret (-1, info0 addr)
    else
      '(stabs, stab_end, stabstr, stabstr_end, t) ← user_tab;
      r ← user_mem_check c stabs (u32 (Z.quot (stab_end - stabs) 12)) PTE_U;
      if r <? 0 then mret (-1, info0 addr)
      else
        r ← user_mem_check c stabstr (u32 (stabstr_end - stabstr)) PTE_U;
        if r <? 0 then mret (-1, info0 addr) else run t.

End DebugInfo.
