(* ===== verification/KdebugProps.v ===== *)
(** * KdebugProps: the binary search of the debugging tables

    [stab_binsearch] on a table whose entries of one type are sorted by
    address, between entries of other types. *)

From S2P Require Import Prelude Machine CString Printfmt Hardware Console Kernel Pmap Kdebug.

Section Search.

Context (stabs : Z -> Stab) (L R type addr0 : Z).

(** An entry of the type that is searched. *)
Definition good (i : Z) : Prop := L <= i <= R /\ n_type (stabs i) = type.

(** What the search needs of the table: the entries are sorted, one of them
    is at or below the address, and none starts right behind it. *)
Record table_ok : Prop := mkTableOk {
  to_range : 0 <= addr0 < 2 ^ 32 - 1;
  to_sorted : forall i j, good i -> good j -> i <= j -> n_value (stabs i) <= n_value (stabs j);
  to_exists : exists i, good i /\ n_value (stabs i) <= addr0;
  to_gap : forall i, good i -> n_value (stabs i) <> addr0 + 1;
}.

Lemma scan_back_spec n l m :
  Z.of_nat n >= m - l + 1 -> l - 1 <= m ->
  let k := scan_back stabs n l type m in
  l - 1 <= k <= m /\ (k < l \/ n_type (stabs k) = type) /\
  forall i, k < i <= m -> n_type (stabs i) <> type.
Proof.
  revert m. induction n as [|n IH]; intros m Hn Hm; cbn [scan_back].
  - split; [lia|]. split; [left; lia | intros; lia].
  - destruct (Z.leb_spec l m) as [Hle|Hlt]; simpl; [|split; [lia|]; split; [by left | intros; lia]].
    destruct (Z.eqb_spec (n_type (stabs m)) type) as [E|E]; simpl; [split; [lia|]; split; [by right | intros; lia]|].
    destruct (IH (m - 1) ltac:(lia) ltac:(lia)) as (H1 & H2 & H3). split; [lia|]. split; [done|].
    intros i Hi. destruct (Z.eq_dec i m) as [->|]; [done|]. apply H3. lia.
Qed.

Lemma scan_right_spec n left k :
  Z.of_nat n >= k - left -> left <= k ->
  let q := scan_right stabs n left type k in
  left <= q <= k /\ (q = left \/ n_type (stabs q) = type) /\ forall i, q < i <= k -> n_type (stabs i) <> type.
Proof.
  revert k. induction n as [|n IH]; intros k Hn Hk; cbn [scan_right].
  - split; [lia|]. split; [left; lia | intros; lia].
  - destruct (Z.ltb_spec left k) as [Hlt|Hle]; simpl; [|split; [lia|]; split; [left; lia | intros; lia]].
    destruct (Z.eqb_spec (n_type (stabs k)) type) as [E|E]; simpl; [split; [lia|]; split; [by right | intros; lia]|].
    destruct (IH (k - 1) ltac:(lia) ltac:(lia)) as (H1 & H2 & H3). split; [lia|]. split; [done|].
    intros i Hi. destruct (Z.eq_dec i k) as [->|]; [done|]. apply H3. lia.
Qed.

(** The loop invariant: entries below [l] are at or below the address,
    entries above [r] are above it. *)
Record search_inv (b : search) : Prop := mkSearchInv {
  si_bounds : L <= sb_l b /\ sb_l b <= sb_r b + 1 /\ sb_r b <= R;
  si_right : sb_right b = sb_r b /\ (sb_r b = R \/ good (sb_r b + 1));
  si_below : forall i, good i -> i < sb_l b -> n_value (stabs i) <= addr0;
  si_above : forall i, good i -> sb_r b < i -> addr0 < n_value (stabs i);
  si_left : sb_left b = L \/ (good (sb_left b) /\ n_value (stabs (sb_left b)) <= addr0);
  si_any : sb_any b = true \/ (sb_r b = R /\ forall i, good i -> sb_l b <= i);
  si_addr : sb_addr b = addr0 \/ sb_addr b = addr0 + 1;
}.

(** How many iterations are left at most. *)
Definition remaining (b : search) : Z := sb_r b - sb_l b + 1 + (if sb_addr b =? addr0 then 1 else 0).

Lemma search_step_inv b :
  table_ok -> search_inv b -> sb_l b <= sb_r b ->
  search_inv (search_step stabs type b) /\ remaining (search_step stabs type b) < remaining b.
Proof.
  intros [T0 T1 _ T3] [(B1 & B2 & B3) (R1 & R2) Ib Ia Il Iy Iad] Hlr. unfold search_step.
  set (t := (sb_l b + sb_r b) / 2). assert (Ht : sb_l b <= t <= sb_r b) by (unfold t; zdm).
  destruct (scan_back_spec (Z.to_nat (t - sb_l b + 1)) (sb_l b) t ltac:(lia) ltac:(lia)) as (M1 & M2 & M3).
  set (m := scan_back stabs _ _ _ _) in *. clearbody m t.
  assert (Hgap : forall i, good i -> m < i -> t < i).
  { intros i [_ Hi] Hm. destruct (Z.le_gt_cases i t); [|done]. by destruct (M3 i ltac:(lia)). }
  destruct (Z.ltb_spec m (sb_l b)) as [Hm|Hm].
  { split; [constructor; cbn [sb_l sb_r sb_left sb_right sb_any sb_addr]; try done; try lia|].
    - intros i Hi Hlt. apply Ib; [done|]. destruct (Z.lt_ge_cases i (sb_l b)); [done|]. specialize (Hgap i Hi ltac:(lia)). lia.
    - destruct Iy as [|[Hr Hall]]; [by left | right]. split; [done|]. intros i Hi. specialize (Hall i Hi).
      specialize (Hgap i Hi ltac:(lia)). lia.
    - unfold remaining. cbn [sb_l sb_r sb_addr]. lia. }
  assert (Hg : good m) by (split; [lia|]; destruct M2; [lia | done]).
  destruct (Z.ltb_spec (n_value (stabs m)) (sb_addr b)) as [Hv|Hv].
  { split; [constructor; cbn [sb_l sb_r sb_left sb_right sb_any sb_addr]; try done; try lia; auto|].
    - intros i Hi Hlt. assert (i <= m) by (destruct (Z.le_gt_cases i m); [done|]; specialize (Hgap i Hi ltac:(lia)); lia).
      specialize (T1 i m Hi Hg ltac:(lia)). lia.
    - right. split; [done | lia].
    - unfold remaining. cbn [sb_l sb_r sb_addr]. lia. }
  destruct (Z.ltb_spec (sb_addr b) (n_value (stabs m))) as [Hv2|Hv2].
  { split; [constructor; cbn [sb_l sb_r sb_left sb_right sb_any sb_addr]; try done; try lia; auto|].
    - split; [done|]. right. by replace (m - 1 + 1) with m by lia.
    - intros i Hi Hlt. specialize (T1 m i Hg Hi ltac:(lia)). lia.
    - unfold remaining. cbn [sb_l sb_r sb_addr]. lia. }
  assert (Hva : n_value (stabs m) = addr0) by (specialize (T3 m Hg); lia).
  assert (Hu : u32 (sb_addr b + 1) = addr0 + 1) by (rewrite u32_small; lia).
  split; [constructor; cbn [sb_l sb_r sb_left sb_right sb_any sb_addr]; try done; try lia; auto|].
  - intros i Hi Hlt. specialize (T1 i m Hi Hg ltac:(lia)). lia.
  - right. split; [done | lia].
  - unfold remaining. cbn [sb_l sb_r sb_addr]. rewrite Hu.
    rewrite (proj2 (Z.eqb_neq (addr0 + 1) addr0)) by lia. rewrite (proj2 (Z.eqb_eq (sb_addr b) addr0)) by lia. lia.
Qed.

Lemma search_loop_inv fuel b :
  table_ok -> search_inv b -> remaining b <= Z.of_nat fuel ->
  exists b', search_loop stabs fuel type b = Some b' /\ search_inv b' /\ sb_r b' < sb_l b'.
Proof.
  intros Ht. revert b. induction fuel as [|fuel IH]; intros b Hb Hf; cbn [search_loop].
  - destruct (Z.leb_spec (sb_l b) (sb_r b)) as [Hle|]; [|eauto].
    exfalso. unfold remaining in Hf. destruct (_ =? _); lia.
  - destruct (Z.leb_spec (sb_l b) (sb_r b)) as [Hle|]; [|eauto].
    destruct (search_step_inv b Ht Hb Hle) as [H1 H2]. apply IH; [done | lia].
Qed.

(** C28. [stab_binsearch] finds the entry that contains an address: when the entries of the type
    are sorted, one starts at or below the address and none exactly one byte above it, the
    search terminates within [R-L+2] iterations and returns the last entry at or below the
    address, with the right bound just before the next entry of the type (or at the end). *)
Theorem stab_binsearch_finds (fuel : nat) :
  table_ok -> R - L + 2 <= Z.of_nat fuel ->
  exists lf rt, stab_binsearch stabs fuel L R type addr0 = Some (lf, rt) /\
    good lf /\ n_value (stabs lf) <= addr0 /\ lf <= rt /\ (rt = R \/ good (rt + 1)) /\
    forall i, good i -> lf < i -> rt < i /\ addr0 < n_value (stabs i).
Proof.
  intros Ht Hf. destruct (to_exists Ht) as (i0 & Hi0 & Hv0).
  assert (HI : search_inv (mkSearch L R L R false addr0)).
  { destruct Hi0 as [Hi0 _].
    constructor; cbn [sb_l sb_r sb_left sb_right sb_any sb_addr]; [lia | auto | | | by left | right | by left].
    - intros i [Hi _]. lia.
    - intros i [Hi _]. lia.
    - split; [done|]. intros i [Hi _]. lia. }
  unfold stab_binsearch. destruct (search_loop_inv fuel _ Ht HI) as (b & -> & Hb & Hend).
  { unfold remaining. cbn [sb_l sb_r sb_addr]. rewrite Z.eqb_refl. lia. }
  destruct Hb as [(B1 & B2 & B3) (R1 & R2) Ib Ia Il Iy _]. cbn [mbind option_bind].
  assert (Hany : sb_any b = true).
  { destruct Iy as [|[Hr Hall]]; [done|]. specialize (Hall i0 Hi0). destruct Hi0. lia. }
  rewrite Hany, R1. cbn [negb].
  assert (Hi0r : i0 <= sb_r b) by (destruct (Z.le_gt_cases i0 (sb_r b)); [done | specialize (Ia i0 Hi0 ltac:(lia)); lia]).
  assert (Hleft : sb_left b <= sb_r b).
  { destruct Il as [->|[Hg Hv]]; [destruct Hi0; lia|].
    destruct (Z.le_gt_cases (sb_left b) (sb_r b)); [done | specialize (Ia _ Hg ltac:(lia)); lia]. }
  assert (HLl : L <= sb_left b) by (destruct Il as [->|[[? _] _]]; lia).
  destruct (scan_right_spec (Z.to_nat (sb_r b - sb_left b)) (sb_left b) (sb_r b) ltac:(lia) Hleft) as (S1 & S2 & S3).
  set (q := scan_right _ _ _ _ _) in *. clearbody q.
  assert (Hq : good q).
  { destruct S2 as [->|S2]; [|split; [lia | done]]. destruct Il as [E|[Hg _]]; [|done].
    destruct (Z.eq_dec i0 (sb_left b)) as [->|Hne]; [done|].
    exfalso. destruct Hi0 as [Hr0 Ht0]. by apply (S3 i0); [lia|]. }
  exists q, (sb_r b). split; [done|]. split; [done|]. split; [apply Ib; [done | lia]|]. split; [lia|]. split; [done|].
  intros i Hi Hlt. assert (sb_r b < i).
  { destruct (Z.le_gt_cases i (sb_r b)); [|done]. exfalso. apply (S3 i); [lia | apply Hi]. }
  split; [done | by apply Ia].
Qed.

End Search.

(** A table with source lines (type 68) between three functions (type 36). *)
Definition sample_stabs (v1 v2 v3 : Z) (i : Z) : Stab :=
  if i =? 1 then mkStab 0 36 0 0 v1
  else if i =? 3 then mkStab 0 36 0 0 v2
  else if i =? 4 then mkStab 0 36 0 0 v3 else mkStab 0 68 0 0 7.

Lemma sample_good v1 v2 v3 i : good (sample_stabs v1 v2 v3) 0 5 36 i <-> i = 1 \/ i = 3 \/ i = 4.
Proof.
  unfold good, sample_stabs. split.
  - intros [_ H]. repeat (zcase_in H; [lia|]). done.
  - by intros [->|[->| ->]].
Qed.

Lemma stab_binsearch_finds_witness :
  exists lf rt, stab_binsearch (sample_stabs 100 200 300) 7 0 5 36 250 = Some (lf, rt) /\ lf = 3 /\ rt = 3.
Proof.
  destruct (stab_binsearch_finds (sample_stabs 100 200 300) 0 5 36 250 7) as (lf & rt & E & _).
  - split; [lia | | |].
    + intros i j Hi%sample_good Hj%sample_good Hij. destruct Hi as [->|[->| ->]], Hj as [->|[->| ->]]; first [lia | by vm_compute].
    + exists 1. split; [apply sample_good; lia | by vm_compute].
    + intros i Hi%sample_good. by destruct Hi as [->|[->| ->]].
  - done.
  - vm_compute in E. exists 3, 3. vm_compute. by repeat split.
Defined.

(** The condition [to_gap] is needed: after an exact match the code goes on
    with [addr+1], and an entry at that address is taken for a second exact
    match, although it starts behind the address asked for. *)
Lemma stab_binsearch_adjacent :
  stab_binsearch (sample_stabs 100 101 300) 7 0 5 36 100 = Some (3, 3) /\
  n_value (sample_stabs 100 101 300 3) = 101.
Proof. by vm_compute. Qed.
