(* ===== verification/Monitor.v ===== *)
(** * Monitor: kern/monitor.c and lib/readline.c

    The line editor and the command interpreter of the kernel monitor. *)

From S2P Require Import Prelude Machine CString Printfmt Hardware Console Kernel Pmap Spinlock Env.
From S2P Require Import Sched Syscall Trap Kdebug.

(** ** lib/readline.c *)

Section Readline.

Definition BUFLEN : Z := 1024.

Definition cputchar (c : Z) : K unit := modify (fun s => set_con (Console.cputchar c (con s)) s).

Definition getchar (tries fuel : nat) : K Z := fun s =>
  match Console.getchar tries fuel (con s) with
  | Some (c, con') => (Ret c, set_con con' s)
  | None => (Stop SDiverge, s)
  end.

(** What one input character does to the line of [i] characters typed so
    far: the line is kept newest first. *)
Inductive edit :=
| EError           (* c < 0 *)
| EErase           (* backspace *)
| EKeep            (* a character for the buffer *)
| EDone            (* end of line *)
| EIgnore.

Definition classify (c i : Z) : edit :=
  if c <? 0 then EError
  else if ((c =? 8) || (c =? 0x7f)) && (0 <? i) then EErase
  else if (32 <=? c) && (i <? BUFLEN - 1) then EKeep
  else if (c =? 10) || (c =? 13) then EDone
  else EIgnore.

(** The loop of [readline]; [lines] bounds the number of characters read. *)
Fixpoint readline_loop (lines tries fuel : nat) (echoing : bool) (buf : list Z) : K (option (list Z)) :=
  match lines with
  | O => halt SDiverge
  | S lines' =>
      c ← getchar tries fuel;
      match classify c (Z.of_nat (length buf)) with
      | EError => cprintf "read error: %e\n" [VInt c] ;; mret None
      | EErase => when echoing (cputchar 8) ;; readline_loop lines' tries fuel echoing (tail buf)
      | EKeep => when echoing (cputchar c) ;; readline_loop lines' tries fuel echoing (u8 c :: buf)
      | EDone => when echoing (cputchar 10) ;; mret (Some (rev buf ++ [0]))
      | EIgnore => readline_loop lines' tries fuel echoing buf
      end
  end.

Definition readline (lines tries fuel : nat) (prompt : option string) : K (option (list Z)) :=
  match prompt with Some p => cprintf "%s" [VS p] | None => skip end ;;
  readline_loop lines tries fuel (negb (iscons 0 =? 0)) [].

End Readline.

(** ** Commands *)

Section Commands.

Definition MAXARGS : Z := 16.
Definition WHITESPACE : list Z := [9; 13; 10; 32].

(** The linker symbols printed by [kerninfo]; the stack and the debugging
    tables used by [backtrace]. *)
Context (start_ entry etext edata end_ : Z) (ebp0 : Z) (kern_tab : stabtab)
  (user_tab : K (Z * Z * Z * Z * stabtab)) (fuel : nat).

Inductive command := CHelp | CKerninfo | CBacktrace.

(** [commands[]]: name, description, function. *)
Definition commands : list (string * string * command) :=
  [("help", "Display this list of commands", CHelp);
   ("kerninfo", "Display information about the kernel", CKerninfo);
   ("backtrace", "Display information about the function call", CBacktrace)]%string.

Definition mon_help : K Z :=
  for_each commands (fun c => cprintf "%s - %s\n" [VS (fst (fst c)); VS (snd (fst c))]) ;;
  mret 0.

Definition mon_kerninfo : K Z :=
  cprintf "Special kernel symbols:\n" [] ;;
  cprintf "  _start                  %08x (phys)\n" [VInt start_] ;;
  cprintf "  entry  %08x (virt)  %08x (phys)\n" [VInt entry; VInt (entry - KERNBASE)] ;;
  cprintf "  etext  %08x (virt)  %08x (phys)\n" [VInt etext; VInt (etext - KERNBASE)] ;;
  cprintf "  edata  %08x (virt)  %08x (phys)\n" [VInt edata; VInt (edata - KERNBASE)] ;;
  cprintf "  end    %08x (virt)  %08x (phys)\n" [VInt end_; VInt (end_ - KERNBASE)] ;;
  cprintf "Kernel executable memory footprint: %dKB\n" [VInt (ROUNDUP (end_ - entry) 1024 / 1024)] ;;
  mret 0.

Definition print_frame (ebp : Z) : K unit :=
  eip ← vload (ebp + 4);
  '(_, info) ← debuginfo_eip fuel kern_tab user_tab eip;
  cprintf "ebp %0x eip %0x " [VInt ebp; VInt eip] ;;
  cprintf "args " [] ;;
  for_each (seqZ 0 5) (fun i => v ← vload (ebp + 8 + 4 * i); cprintf "%0x " [VInt v]) ;;
  cprintf "\n" [] ;;
  cprintf "\teipfile: %s\teipfunc: %s " [VStr (Some (eip_file info)); VStr (Some (eip_fn_name info))] ;;
  cprintf "\n" [].

Fixpoint backtrace_loop (depth : nat) (ebp : Z) : K unit :=
  if ebp =? 0 then skip
  else match depth with
       | O => halt SDiverge
       | S depth' => print_frame ebp ;; next ← vload ebp; backtrace_loop depth' next
       end.

Definition mon_backtrace (depth : nat) : K Z := backtrace_loop depth ebp0 ;; mret 0.

Definition run_command (depth : nat) (c : command) : K Z :=
  match c with
  | CHelp => mon_help
  | CKerninfo => mon_kerninfo
  | CBacktrace => mon_backtrace depth
  end.

(** The parser: a line up to its NUL byte is split at white space; [None]
    when there are more than 15 words. *)
Definition is_space (c : Z) : bool := bool_decide (c ∈ WHITESPACE).

Fixpoint skip_space (l : list Z) : list Z :=
  match l with
  | c :: l' => if negb (c =? 0) && is_space c then skip_space l' else l
  | [] => []
  end.

(** One word and the rest of the line. *)
Fixpoint take_word (l : list Z) : list Z * list Z :=
  match l with
  | c :: l' =>
      if negb (c =? 0) && negb (is_space c) then let '(w, r) := take_word l' in (c :: w, r) else ([], l)
  | [] => ([], [])
  end.

Fixpoint parse_args (fuel : nat) (buf : list Z) (argv : list (list Z)) : option (list (list Z)) :=
  match fuel with
  | O => None
  | S fuel' =>
      match skip_space buf with
      | [] => Some argv
      | (c :: _) as l =>
          if c =? 0 then Some argv
          else if Z.of_nat (length argv) =? MAXARGS - 1 then None
          else let '(w, r) := take_word l in parse_args fuel' r (argv ++ [w])
      end
  end.

Definition runcmd (depth : nat) (buf : list Z) : K Z :=
  match parse_args (Z.to_nat MAXARGS) buf [] with
  | None => cprintf "Too many arguments (max %d)\n" [VInt MAXARGS] ;; mret 0
  | Some [] => mret 0
  | Some (w :: _) =>
      match list_find (fun c => strcmp (w ++ [0]) (cstr (fst (fst c))) = Some 0) commands with
      | Some (_, c) => run_command depth (snd c)
      | None => cprintf "Unknown command '%s'\n" [VStr (Some (w ++ [0]))] ;; mret 0
      end
  end.

(** The loop of [monitor]; [rounds] bounds the number of lines read. *)
Fixpoint monitor_loop (rounds lines tries depth : nat) : K unit :=
  match rounds with
  | O => halt SDiverge
  | S rounds' =>
      buf ← readline lines tries fuel (Some "K> "%string);
      r ← (match buf with Some l => runcmd depth l | None => mret 0 end);
      if r <? 0 then skip else monitor_loop rounds' lines tries depth
  end.

Definition monitor (stack_tf : Trapframe) (rounds lines tries depth : nat) (tf : option tfptr) : K unit :=
  cprintf "Welcome to the JOS kernel monitor!\n" [] ;;
  cprintf "Type 'help' for a list of commands.\n" [] ;;
  match tf with Some p => print_trapframe stack_tf p | None => skip end ;;
  monitor_loop rounds lines tries depth.

End Commands.
