(* ===== verification/Boot.v ===== *)
(** * Boot: boot/main.c and kern/entrypgdir.c

    The boot loader reads the kernel image from the first disk, sector by
    sector through the ports of the controller, and jumps to its entry
    point; [entry_pgdir] is the address space in which that code starts. *)

From S2P Require Import Prelude Machine CString Hardware Console Kernel Env.

(** ** The loader *)

(** The machine before the kernel runs: ports, physical memory by byte. *)
Record bstate := mkBstate {
  b_io : ports;
  b_mem : gmap Z Z;
}.

Section Loader.

(** The disk: byte [i] of sector [lba]. *)
Context (disk : Z -> Z -> Z).

Definition SECTSIZE : Z := 512.
Definition ELFHDR : Z := 0x10000.

(** [while ((inb(0x1F7) & 0xC0) != 0x40);] *)
Fixpoint waitdisk (fuel : nat) (io : ports) : option ports :=
  let '(d, io) := inb 0x1F7 io in
  if Z.land d 0xC0 =? 0x40 then Some io
  else match fuel with O => None | S fuel' => waitdisk fuel' io end.

(** The command that selects sector [offset]. *)
Definition ide_command (offset : Z) (io : ports) : ports :=
  let io := outb 0x1F2 1 io in
  let io := outb 0x1F3 offset io in
  let io := outb 0x1F4 (Z.shiftr offset 8) io in
  let io := outb 0x1F5 (Z.shiftr offset 16) io in
  let io := outb 0x1F6 (Z.lor (Z.shiftr offset 24) 0xE0) io in
  outb 0x1F7 0x20 io.

(** The sector number that the last writes to the controller's registers
    select: 28 bits, the upper four from the low half of port 0x1F6. *)
Definition last_write (p : Z) (log : list (Z * Z)) : Z :=
  default 0 (snd <$> head (filter (fun e => fst e = p) log)).
Definition ide_lba (io : ports) : Z :=
  last_write 0x1F3 (port_log io) + 256 * last_write 0x1F4 (port_log io)
  + 65536 * last_write 0x1F5 (port_log io) + 16777216 * Z.land (last_write 0x1F6 (port_log io)) 0x0F.

(** [insl(0x1F0, dst, SECTSIZE/4)]: the bytes of the selected sector. *)
Fixpoint insl (n : nat) (dst lba i : Z) (m : gmap Z Z) : gmap Z Z :=
  match n with O => m | S n' => insl n' dst lba (i + 1) (<[u32 (dst + i) := u8 (disk lba i)]> m) end.

Definition readsect (fuel : nat) (dst offset : Z) (st : bstate) : option bstate :=
  match waitdisk fuel (b_io st) with
  | None => None
  | Some io =>
      match waitdisk fuel (ide_command offset io) with
      | None => None
      | Some io => Some (mkBstate io (insl (Z.to_nat SECTSIZE) dst (ide_lba io) 0 (b_mem st)))
      end
  end.

(** The loop of [readseg]; [n] bounds the number of sectors. *)
Fixpoint readseg_loop (n fuel : nat) (pa end_pa offset : Z) (st : bstate) : option bstate :=
  if pa <? end_pa then
    match n with
    | O => None
    | S n' =>
        match readsect fuel pa offset st with
        | None => None
        | Some st => readseg_loop n' fuel (u32 (pa + SECTSIZE)) end_pa (u32 (offset + 1)) st
        end
    end
  else Some st.

Definition readseg (fuel : nat) (pa count offset : Z) (st : bstate) : option bstate :=
  let end_pa := u32 (pa + count) in
  let pa := Z.land pa (Z.lnot (SECTSIZE - 1)) in
  let offset := offset / SECTSIZE + 1 in
  readseg_loop (Z.to_nat (count / SECTSIZE + 2)) fuel pa end_pa offset st.

Fixpoint load_segments (n fuel : nat) (ph : Z) (st : bstate) : option bstate :=
  match n with
  | O => Some st
  | S n' =>
      let b a := bget (b_mem st) a in
      match readseg fuel (le32 b (ph + 12)) (le32 b (ph + 20)) (le32 b (ph + 4)) st with
      | None => None
      | Some st => load_segments n' fuel (ph + 32) st
      end
  end.

(** How the loader ends. *)
Inductive boot_result := Jump (entry : Z) (st : bstate) | Bad (st : bstate) | Hang.

Definition bootmain (fuel : nat) (st : bstate) : boot_result :=
  match readseg fuel ELFHDR (SECTSIZE * 8) 0 st with
  | None => Hang
  | Some st =>
      let b a := bget (b_mem st) (ELFHDR + a) in
      if negb (le32 b 0 =? ELF_MAGIC) then Bad st
      else
        match load_segments (Z.to_nat (le16 b 44)) fuel (ELFHDR + le32 b 28) st with
        | None => Hang
        | Some st' => Jump (le32 (fun a => bget (b_mem st') (ELFHDR + a)) 24) st'
        end
  end.

End Loader.

(** ** kern/entrypgdir.c *)

Section EntryPgdir.

(** The table at kernel address [entry_pgtable]. *)
Context (entry_pgtable_addr : Z).

Definition entry_pgdir (i : Z) : Z :=
  if i =? 0 then entry_pgtable_addr - KERNBASE + PTE_P
  else if i =? Z.shiftr KERNBASE PDXSHIFT then entry_pgtable_addr - KERNBASE + PTE_P + PTE_W
  else 0.

(** Entry [i] of the table is page [i], present and writable. *)
Definition entry_pgtable (i : Z) : Z := Z.lor (Z.lor (4096 * i) PTE_P) PTE_W.

End EntryPgdir.
