(* ===== verification/BootProps.v ===== *)
(** * BootProps: the boot loader loads the image

    [readseg] reads whole sectors through the ports of the disk controller;
    the bytes of the image arrive at the addresses asked for. *)

From S2P Require Import Prelude Machine CString Hardware Console Kernel Env Boot.

Section Loading.

Context (disk : Z -> Z -> Z) (fuel : nat).

(** The status register shows a ready disk at the latest at the [fuel]-th of
    any sequence of further reads. *)
Definition disk_ready (io : ports) : Prop :=
  forall n, exists j, (j <= fuel)%nat /\ Z.land (u8 (port_in io 0x1F7 (n + j)%nat)) 0xC0 = 0x40.

Lemma waitdisk_ready f io n :
  default O (port_reads io !! 0x1F7) = n ->
  (exists j, (j <= f)%nat /\ Z.land (u8 (port_in io 0x1F7 (n + j)%nat)) 0xC0 = 0x40) ->
  exists io', waitdisk f io = Some io' /\ port_in io' = port_in io /\ port_log io' = port_log io.
Proof.
  revert io n. induction f as [|f IH]; intros io n Hn (j & Hj & Hr); cbn [waitdisk inb]; rewrite Hn.
  - assert (j = O) as -> by lia. rewrite Nat.add_0_r in Hr. rewrite Hr. eexists. by split_and!.
  - destruct (Z.land (u8 (port_in io 0x1F7 n)) 0xC0 =? 0x40) eqn:E; [eexists; by split_and!|].
    destruct j as [|j]; [rewrite Nat.add_0_r in Hr; by rewrite Hr in E|].
    edestruct (IH (mkPorts (port_in io) (<[0x1F7 := S n]> (port_reads io)) (port_log io)) (S n)) as (io' & Hw & H1 & H2).
    + cbn [port_reads]. by rewrite lookup_insert_eq.
    + exists j. split; [lia|]. by replace (S n + j)%nat with (n + S j)%nat by lia.
    + exists io'. by split_and!.
Qed.

Lemma last_write_cons p q d log : last_write p ((q, d) :: log) = if q =? p then d else last_write p log.
Proof.
  unfold last_write. rewrite filter_cons. cbn [fst]. destruct (Z.eqb_spec q p) as [->|Hne].
  - by rewrite decide_True.
  - by rewrite decide_False.
Qed.

(** The four writes select the sector. *)
Lemma ide_lba_command offset io : 0 <= offset < 2 ^ 28 -> ide_lba (ide_command offset io) = offset.
Proof.
  intros Ho. unfold ide_lba, ide_command, outb. cbn [port_log]. rewrite !last_write_cons. cbn [Z.eqb Pos.eqb].
  unfold u8. rewrite !Z.shiftr_div_pow2 by lia.
  rewrite Z.lor_comm. assert (Hd : 0 <= offset / 2 ^ 24 < 16) by zdm.
  set (d := offset / 2 ^ 24) in *.
  assert (Hl : Z.land (Z.lor 0xE0 d `mod` 2 ^ 8) 0x0F = d).
  { change 0x0F with (Z.ones 4). rewrite Z.land_ones by lia.
    assert (E : Z.lor (14 * 2 ^ 4) d = 14 * 2 ^ 4 + d) by (apply lor_low_add; lia).
    change (14 * 2 ^ 4) with 0xE0 in E. rewrite E. zdm. }
  rewrite Hl. unfold d. zdm.
Qed.

Lemma insl_lookup n dst lba i m a :
  0 <= dst -> 0 <= i -> dst + i + Z.of_nat n <= 2 ^ 32 ->
  insl disk n dst lba i m !! a =
  if decide (dst + i <= a < dst + i + Z.of_nat n) then Some (u8 (disk lba (a - dst))) else m !! a.
Proof.
  revert i m. induction n as [|n IH]; intros i m Hd Hi Hn; cbn [insl].
  - by rewrite decide_False by lia.
  - rewrite IH by lia. rewrite u32_small by lia. rewrite lookup_insert.
    destruct (decide (dst + i = a)) as [<-|].
    + rewrite decide_False, decide_True by lia. do 3 f_equal. lia.
    + repeat case_decide; done || lia.
Qed.

(** One sector. *)
Lemma readsect_eq dst offset st :
  disk_ready (b_io st) -> 0 <= dst -> dst + 512 <= 2 ^ 32 -> 0 <= offset < 2 ^ 28 ->
  exists st', readsect disk fuel dst offset st = Some st' /\ port_in (b_io st') = port_in (b_io st) /\
    forall a, b_mem st' !! a =
      if decide (dst <= a < dst + 512) then Some (u8 (disk offset (a - dst))) else b_mem st !! a.
Proof.
  intros Hr Hd1 Hd2 Ho. unfold readsect.
  destruct (waitdisk_ready fuel (b_io st) _ eq_refl (Hr _)) as (io1 & -> & E1 & _).
  assert (Hr2 : disk_ready (ide_command offset io1)) by (intros n; cbn; rewrite E1; apply Hr).
  destruct (waitdisk_ready fuel (ide_command offset io1) _ eq_refl (Hr2 _)) as (io2 & -> & E2 & E3).
  eexists. split; [reflexivity|]. cbn [b_io b_mem]. split; [by rewrite E2; cbn|]. intros a.
  assert (El : ide_lba io2 = offset) by (rewrite <- (ide_lba_command offset io1 Ho); unfold ide_lba; by rewrite E3).
  rewrite El, insl_lookup by (lia || (change (Z.of_nat (Z.to_nat SECTSIZE)) with 512; lia)).
  change (Z.of_nat (Z.to_nat SECTSIZE)) with 512. by rewrite Z.add_0_r.
Qed.

(** Byte [i] of the image, which starts at sector 1. *)
Definition image (i : Z) : Z := u8 (disk (i / 512 + 1) (i `mod` 512)).

Lemma readseg_loop_eq n pa end_pa offset st :
  disk_ready (b_io st) -> 0 <= pa -> pa `mod` 512 = 0 -> end_pa + 512 <= 2 ^ 32 -> 1 <= offset ->
  end_pa - pa <= 512 * Z.of_nat n -> offset + Z.of_nat n < 2 ^ 28 ->
  exists st', readseg_loop disk n fuel pa end_pa offset st = Some st' /\ port_in (b_io st') = port_in (b_io st) /\
    forall a, b_mem st' !! a =
      if decide (pa <= a < pa + 512 * ((end_pa - pa + 511) / 512)) then Some (image (a - pa + 512 * (offset - 1)))
      else b_mem st !! a.
Proof.
  revert pa offset st. induction n as [|n IH]; intros pa offset st Hr Hpa Hal Hend Ho Hn Hof; cbn [readseg_loop];
    destruct (Z.ltb_spec pa end_pa) as [Hlt|Hge]; try lia.
  1,3: exists st; split; [done|]; split; [done|]; intros a; rewrite decide_False; [done|]; intros [? H2];
    assert ((end_pa - pa + 511) / 512 <= 0) by zdm; lia.
  destruct (readsect_eq pa offset st Hr Hpa ltac:(lia) ltac:(lia)) as (st1 & -> & E1 & M1).
  unfold SECTSIZE. rewrite !u32_small by lia.
  destruct (IH (pa + 512) (offset + 1) st1) as (st' & -> & E' & M'); [unfold disk_ready; by rewrite E1 | zdm | zdm | lia..|].
  exists st'. split; [done|]. split; [by rewrite E', E1|]. intros a. rewrite M', M1.
  assert (Eq : (end_pa - pa + 511) / 512 = (end_pa - (pa + 512) + 511) / 512 + 1) by zdm.
  assert (Hq : 0 <= (end_pa - (pa + 512) + 511) / 512) by zdm.
  rewrite Eq. set (q := (end_pa - (pa + 512) + 511) / 512) in *. clearbody q. clear Eq.
  destruct (decide (pa + 512 <= a < pa + 512 + 512 * q)); [rewrite decide_True by lia; do 2 f_equal; lia|].
  destruct (decide (pa <= a < pa + 512)).
  - rewrite decide_True by lia. unfold image. do 3 f_equal; zdm.
  - rewrite decide_False by lia. done.
Qed.

(** The bytes that a read of [count] bytes to [pa] overwrites: whole sectors. *)
Definition extent_lo (pa : Z) : Z := pa - pa `mod` 512.
Definition extent_hi (pa count : Z) : Z := extent_lo pa + 512 * ((pa + count - extent_lo pa + 511) / 512).

(** What the loader needs of a segment: address and offset agree modulo the
    sector size, and nothing wraps around. *)
Record segment_ok (pa count offset : Z) : Prop := mkSegmentOk {
  so_pa : 0 <= pa;
  so_count : 0 <= count;
  so_end : pa + count + 512 <= 2 ^ 32;
  so_offset : 0 <= offset < 2 ^ 32;
  so_align : pa `mod` 512 = offset `mod` 512;
}.

Lemma readseg_eq pa count offset st :
  disk_ready (b_io st) -> segment_ok pa count offset ->
  exists st', readseg disk fuel pa count offset st = Some st' /\ port_in (b_io st') = port_in (b_io st) /\
    forall a, b_mem st' !! a =
      if decide (extent_lo pa <= a < extent_hi pa count) then Some (image (a - pa + offset)) else b_mem st !! a.
Proof.
  intros Hr [H1 H2 H3 H4 H5]. unfold readseg. rewrite u32_small by lia.
  change (Z.lnot (SECTSIZE - 1)) with (Z.lnot (Z.ones 9)). rewrite land_lnot_ones by lia.
  change (2 ^ 9) with 512. fold (extent_lo pa). unfold SECTSIZE.
  assert (Hlo : 0 <= extent_lo pa /\ extent_lo pa `mod` 512 = 0 /\ pa - 512 < extent_lo pa <= pa) by (unfold extent_lo; zdm).
  destruct (readseg_loop_eq (Z.to_nat (count / 512 + 2)) (extent_lo pa) (pa + count) (offset / 512 + 1) st Hr)
    as (st' & -> & E & M); [lia | lia | lia | zdm | rewrite Z2Nat.id; zdm | rewrite Z2Nat.id; zdm |].
  exists st'. split; [done|]. split; [done|]. intros a. rewrite M. unfold extent_hi.
  case_decide; [|done]. do 2 f_equal. unfold extent_lo. zdm.
Qed.

(** ** The whole image *)

(** The program headers, as the image has them. *)
Definition phdr_pa (i : Z) : Z := le32 image (le32 image 28 + 32 * i + 12).
Definition phdr_memsz (i : Z) : Z := le32 image (le32 image 28 + 32 * i + 20).
Definition phdr_offset (i : Z) : Z := le32 image (le32 image 28 + 32 * i + 4).
Definition in_segment (i a : Z) : Prop := extent_lo (phdr_pa i) <= a < extent_hi (phdr_pa i) (phdr_memsz i).

(** The first page of the image is in memory at ELFHDR. *)
Definition header_loaded (m : gmap Z Z) : Prop := forall k, 0 <= k < 4096 -> m !! (ELFHDR + k) = Some (image k).

Lemma le32_loaded m o b :
  header_loaded m -> 0 <= o -> o + 4 <= 4096 -> (forall a, b a = bget m a) -> le32 b (ELFHDR + o) = le32 image o.
Proof.
  intros H Ho1 Ho2 Hb. unfold le32, le16. rewrite !Hb. unfold bget. rewrite <- !Z.add_assoc.
  rewrite !H by lia. done.
Qed.

Lemma le16_loaded m o b :
  header_loaded m -> 0 <= o -> o + 2 <= 4096 -> (forall a, b a = bget m a) -> le16 b (ELFHDR + o) = le16 image o.
Proof.
  intros H Ho1 Ho2 Hb. unfold le16. rewrite !Hb. unfold bget. rewrite <- !Z.add_assoc. by rewrite !H by lia.
Qed.

(** The image fits the loader: the program headers lie in the first page, the
    segments are sound, do not touch that page and do not touch each other. *)
Record image_ok : Prop := mkImageOk {
  io_magic : le32 image 0 = ELF_MAGIC;
  io_phdrs : 0 <= le32 image 28 /\ le32 image 28 + 32 * le16 image 44 <= 4096;
  io_segment : forall i, 0 <= i < le16 image 44 -> segment_ok (phdr_pa i) (phdr_memsz i) (phdr_offset i);
  io_header : forall i a, 0 <= i < le16 image 44 -> in_segment i a -> a < ELFHDR \/ ELFHDR + 4096 <= a;
  io_disjoint : forall i j a, 0 <= i < le16 image 44 -> 0 <= j < le16 image 44 ->
    in_segment i a -> in_segment j a -> i = j;
}.

(** Segments [i], [i+1], ..., [i+n-1]. *)
Lemma load_segments_eq n i st :
  image_ok -> disk_ready (b_io st) -> header_loaded (b_mem st) -> 0 <= i -> i + Z.of_nat n <= le16 image 44 ->
  exists st', load_segments disk n fuel (ELFHDR + le32 image 28 + 32 * i) st = Some st' /\
    header_loaded (b_mem st') /\
    (forall j a, i <= j < i + Z.of_nat n -> in_segment j a ->
      b_mem st' !! a = Some (image (a - phdr_pa j + phdr_offset j))) /\
    (forall a, (forall j, i <= j < i + Z.of_nat n -> ~ in_segment j a) -> b_mem st' !! a = b_mem st !! a).
Proof.
  intros Hok. revert i st. induction n as [|n IH]; intros i st Hr Hh Hi Hn; cbn [load_segments].
  - exists st. split_and!; try done. intros; lia.
  - destruct (io_phdrs Hok) as [P1 P2].
    assert (L : forall o, 0 <= o -> o + 4 <= 32 ->
      le32 (fun a => bget (b_mem st) a) (ELFHDR + le32 image 28 + 32 * i + o) = le32 image (le32 image 28 + 32 * i + o)).
    { intros o Ho1 Ho2. rewrite <- !Z.add_assoc. apply (le32_loaded (b_mem st)); done || lia. }
    rewrite !L by lia. fold (phdr_pa i) (phdr_memsz i) (phdr_offset i).
    destruct (readseg_eq (phdr_pa i) (phdr_memsz i) (phdr_offset i) st Hr (io_segment Hok i ltac:(lia)))
      as (st1 & -> & E1 & M1).
    assert (Hr1 : disk_ready (b_io st1)) by (unfold disk_ready; by rewrite E1).
    assert (Hh1 : header_loaded (b_mem st1)).
    { intros k Hk. rewrite M1, decide_False; [by apply Hh|]. intros Hin. apply (io_header Hok) in Hin; lia. }
    replace (ELFHDR + le32 image 28 + 32 * i + 32) with (ELFHDR + le32 image 28 + 32 * (i + 1)) by lia.
    destruct (IH (i + 1) st1 Hr1 Hh1 ltac:(lia) ltac:(lia)) as (st' & -> & Hh' & Hin' & Hout').
    exists st'. split; [done|]. split; [done|]. split.
    + intros j a Hj Ha. destruct (decide (j = i)) as [->|Hne].
      * rewrite Hout'; [by rewrite M1, decide_True by exact Ha|].
        intros k Hk Hka. assert (k = i) by (apply (io_disjoint Hok k i a); done || lia). lia.
      * apply Hin'; [lia | done].
    + intros a Ha. rewrite Hout'; [|intros j Hj; apply Ha; lia]. rewrite M1, decide_False; [done|].
      apply (Ha i). lia.
Qed.

(** C27. The boot loader loads the kernel: for an image that starts at sector 1 of the disk, has the
    ELF magic number and segments that agree with their file offsets modulo the sector size and
    overlap neither each other nor the loader's buffer, and a disk that becomes ready, [bootmain]
    does not hang or give up; it jumps to the image's entry point with every byte of every
    segment, [p_memsz] of them, at its physical address. *)
Theorem bootmain_loads st :
  disk_ready (b_io st) -> image_ok ->
  exists st', bootmain disk fuel st = Jump (le32 image 24) st' /\
    forall i k, 0 <= i < le16 image 44 -> 0 <= k < phdr_memsz i ->
      b_mem st' !! (phdr_pa i + k) = Some (image (phdr_offset i + k)).
Proof.
  intros Hr Hok. unfold bootmain. change (SECTSIZE * 8) with 4096.
  destruct (readseg_eq ELFHDR 4096 0 st Hr) as (st1 & -> & E1 & M1); [by constructor|].
  assert (Hh : header_loaded (b_mem st1)).
  { intros k Hk. rewrite M1, decide_True; [do 2 f_equal; lia|].
    change (extent_lo ELFHDR) with ELFHDR. change (extent_hi ELFHDR 4096) with (ELFHDR + 4096). lia. }
  assert (L0 : forall m o, header_loaded m -> 0 <= o -> o + 4 <= 4096 -> le32 (fun a => bget m (ELFHDR + a)) o = le32 image o).
  { intros m o Hm Ho1 Ho2. rewrite <- (le32_loaded m o (bget m) Hm Ho1 Ho2 (fun _ => eq_refl)).
    unfold le32, le16. rewrite !Z.add_assoc. done. }
  assert (L1 : le16 (fun a => bget (b_mem st1) (ELFHDR + a)) 44 = le16 image 44).
  { rewrite <- (le16_loaded (b_mem st1) 44 (bget (b_mem st1)) Hh) by done. done. }
  rewrite !L0, L1, (io_magic Hok) by (done || lia). rewrite Z.eqb_refl. cbn [negb].
  assert (Hp : 0 <= le16 image 44).
  { unfold le16, image. pose proof (u8_range (disk (44 / 512 + 1) (44 `mod` 512))).
    pose proof (u8_range (disk ((44 + 1) / 512 + 1) ((44 + 1) `mod` 512))). lia. }
  destruct (load_segments_eq (Z.to_nat (le16 image 44)) 0 st1 Hok) as (st' & Hrun & Hh' & Hin & _);
    [unfold disk_ready; by rewrite E1 | done | done | lia |].
  rewrite Z.mul_0_r, Z.add_0_r in Hrun. rewrite Hrun, L0 by (done || lia).
  exists st'. split; [done|]. intros i k Hi Hk.
  rewrite (Hin i); [do 2 f_equal; lia | lia |]. unfold in_segment, extent_hi, extent_lo. zdm.
Qed.

End Loading.

(** A disk with a small image: one segment of 600 bytes at physical address 1 MB. *)
Definition ex_image : list (Z * Z) :=
  [(0, 0x7F); (1, 0x45); (2, 0x4C); (3, 0x46); (24, 0x0C); (26, 0x10); (28, 52); (44, 1);
   (52, 1); (57, 0x10); (66, 0x10); (72, 0x58); (73, 0x02)].
Definition ex_disk (lba i : Z) : Z :=
  let k := 512 * (lba - 1) + i in if k <? 4096 then default 0 ((list_to_map ex_image : gmap Z Z) !! k) else k.
Definition ex_bstate : bstate := mkBstate (mkPorts (fun _ _ => 0x40) ∅ []) ∅.

Lemma ex_image_ok : image_ok ex_disk.
Proof.
  assert (E1 : le16 (image ex_disk) 44 = 1) by by vm_compute.
  assert (E2 : phdr_pa ex_disk 0 = 0x100000 /\ phdr_memsz ex_disk 0 = 600 /\ phdr_offset ex_disk 0 = 4096) by by vm_compute.
  destruct E2 as (E2 & E3 & E4).
  constructor.
  - by vm_compute.
  - by vm_compute.
  - intros i Hi. rewrite E1 in Hi. assert (i = 0) as -> by lia. rewrite E2, E3, E4. by constructor.
  - intros i a Hi. rewrite E1 in Hi. assert (i = 0) as -> by lia. unfold in_segment. rewrite E2, E3.
    change (extent_lo 0x100000) with 0x100000. unfold ELFHDR. lia.
  - intros i j a Hi Hj. lia.
Qed.

Lemma bootmain_loads_witness :
  exists st', bootmain ex_disk 0 ex_bstate = Jump 0x10000C st' /\ b_mem st' !! 0x100007 = Some 7.
Proof.
  destruct (bootmain_loads ex_disk 0 ex_bstate) as (st' & H1 & H2).
  - intros n. exists O. split; [constructor | reflexivity].
  - exact ex_image_ok.
  - assert (E0 : le32 (image ex_disk) 24 = 0x10000C) by (vm_compute; reflexivity). rewrite E0 in H1.
    assert (E1 : phdr_pa ex_disk 0 = 0x100000) by (vm_compute; reflexivity).
    assert (E2 : phdr_memsz ex_disk 0 = 600) by (vm_compute; reflexivity).
    assert (E3 : image ex_disk (phdr_offset ex_disk 0 + 7) = 7) by (vm_compute; reflexivity).
    assert (E4 : le16 (image ex_disk) 44 = 1) by (vm_compute; reflexivity).
    specialize (H2 0 7). rewrite E1, E2, E3, E4 in H2. exists st'. split; [exact H1|]. apply H2; lia.
Defined.
