(* ===== verification/UserLib.v ===== *)
(** * UserLib: the library that user programs are linked with

    lib/syscall.c (the stubs), lib/fork.c, lib/pgfault.c, lib/ipc.c,
    lib/printf.c, lib/console.c, lib/exit.c, lib/panic.c, lib/libmain.c.  The
    code runs above the kernel: [User] is the interface it sees, the trap
    [int $T_SYSCALL], its own page tables (read-only at [uvpt], [uvpd]) and
    the array [envs] (read-only at UENVS), and its memory.  The source does
    not name the accesses to the stack, but the compiled code makes them: the
    call of each stub stores the return address and saved registers, which
    may fault when the stack is copy-on-write, as it is in the middle of
    [fork] ([u_call]). *)

From S2P Require Import Prelude Machine CString Printfmt Hardware Console Kernel.

(** ** The interface to the kernel *)

Class User (S : Type) := {
  u_int30 : Z -> Z -> Z -> Z -> Z -> Z -> S -> Z * S;   (* number and five arguments, result in eax *)
  u_pde : S -> Z -> Z;
  u_pte : S -> Z -> Z;
  u_env : S -> Z -> Env;
  u_copy : Z -> Z -> Z -> S -> S;                         (* memmove(dst, src, n) *)
  u_call : S -> S;                                        (* the stores of a call to the stack *)
}.

(** How user code ends: it returns, it panics (and loops on [int3]), or it
    waits for ever. *)
Inductive uout (A : Type) := URet (a : A) | UPanic (msg : string) | UWait.
Arguments URet {A} a.
Arguments UPanic {A} msg.
Arguments UWait {A}.

Definition U (S A : Type) : Type := S -> uout A * S.

#[export] Instance U_ret S : MRet (U S) := fun A a s => (URet a, s).
#[export] Instance U_bind S : MBind (U S) := fun A B f m s =>
  match m s with
  | (URet a, s') => f a s'
  | (UPanic msg, s') => (UPanic msg, s')
  | (UWait, s') => (UWait, s')
  end.

Definition upanic {S A} (msg : string) : U S A := fun s => (UPanic msg, s).
Definition uget {S} : U S S := fun s => (URet s, s).

Section Stubs.

Context {S : Type} `{User S}.

(** ** lib/syscall.c *)

Definition syscall (num : Z) (check : bool) (a1 a2 a3 a4 a5 : Z) : U S Z := fun s =>
  let '(r, s') := u_int30 num a1 a2 a3 a4 a5 (u_call s) in
  let ret := i32 r in
  if check && (0 <? ret) then (UPanic "syscall %d returned %d (> 0)", s') else (URet ret, s').

Definition sys_cputs (a len : Z) : U S unit := syscall SYS_cputs false a len 0 0 0 ;; mret tt.
Definition sys_cgetc : U S Z := syscall SYS_cgetc false 0 0 0 0 0.
Definition sys_env_destroy (envid : Z) : U S Z := syscall SYS_env_destroy true envid 0 0 0 0.
Definition sys_getenvid : U S Z := syscall SYS_getenvid false 0 0 0 0 0.
Definition sys_yield : U S unit := syscall SYS_yield false 0 0 0 0 0 ;; mret tt.
Definition sys_page_alloc (envid va perm : Z) : U S Z := syscall SYS_page_alloc true envid va perm 0 0.
Definition sys_page_map (srcenv srcva dstenv dstva perm : Z) : U S Z :=
  syscall SYS_page_map true srcenv srcva dstenv dstva perm.
Definition sys_page_unmap (envid va : Z) : U S Z := syscall SYS_page_unmap true envid va 0 0 0.
Definition sys_env_set_status (envid status : Z) : U S Z :=
  syscall SYS_env_set_status true envid status 0 0 0.
Definition sys_env_set_pgfault_upcall (envid upcall : Z) : U S Z :=
  syscall SYS_env_set_pgfault_upcall true envid upcall 0 0 0.
Definition sys_ipc_try_send (envid value srcva perm : Z) : U S Z :=
  syscall SYS_ipc_try_send false envid value srcva perm 0.
Definition sys_ipc_recv (dstva : Z) : U S Z := syscall SYS_ipc_recv true dstva 0 0 0 0.

(** inc/lib.h: inlined, so without a call, and without the test of the other stubs. *)
Definition sys_exofork : U S Z := fun s =>
  let '(r, s') := u_int30 SYS_exofork 0 0 0 0 0 s in (URet (i32 r), s').

(** ** lib/fork.c *)

Definition PTE_COW : Z := 0x800.

(** [vpd[VPD(addr)]] and [vpt[VPN(addr)]]: no header declares these names; they are read as
    the page tables [uvpd] and [uvpt] of inc/memlayout.h, which the comment of [fork] names. *)
Definition vpd (a : Z) : U S Z := s ← uget; mret (u_pde s (PDX a)).
Definition vpt (a : Z) : U S Z := s ← uget; mret (u_pte s (PGNUM a)).

Definition PTE_UPW : Z := Z.lor (Z.lor PTE_U PTE_P) PTE_W.
Definition PTE_UPC : Z := Z.lor (Z.lor PTE_U PTE_P) PTE_COW.

Definition pgfault (fault_va err : Z) : U S unit :=
  d ← vpd fault_va;
  e ← vpt fault_va;
  if (Z.land err FEC_WR =? 0) || (Z.land d PTE_P =? 0) || (Z.land e PTE_COW =? 0)
  then upanic "pgfault: not a write or attempting to access a non-COW page"
  else
    r ← sys_page_alloc 0 PFTEMP PTE_UPW;
    if r <? 0 then upanic "pgfault: page allocation failed : %e"
    else
      let addr := ROUNDDOWN fault_va PGSIZE in
      (fun s => (URet tt, u_copy PFTEMP addr PGSIZE s)) ;;
      r ← sys_page_map 0 PFTEMP 0 addr PTE_UPW;
      if r <? 0 then upanic "pgfault: page mapping failed : %e" else mret tt.

Definition duppage (envid pn : Z) : U S Z :=
  let addr := u32 (pn * PGSIZE) in
  pte ← vpt addr;
  if (0 <? Z.land pte PTE_W) || (0 <? Z.land pte PTE_COW) then
    r ← sys_page_map 0 addr envid addr PTE_UPC;
    if r <? 0 then upanic "duppage: page re-mapping failed at 1 : %e"
    else
      r ← sys_page_map 0 addr 0 addr PTE_UPC;
      if r <? 0 then upanic "duppage: page re-mapping failed at 2 : %e" else mret 0
  else
    r ← sys_page_map 0 addr envid addr (Z.lor PTE_U PTE_P);
    if r <? 0 then upanic "duppage: page re-mapping failed at 3 : %e" else mret 0.

(** The loop over the user's pages, [n] of them from [addr] on. *)
Fixpoint dup_loop (n : nat) (envid addr : Z) : U S unit :=
  match n with
  | O => mret tt
  | Datatypes.S n' =>
      d ← vpd addr;
      e ← (if 0 <? Z.land d PTE_P then vpt addr else mret 0);
      (if (0 <? Z.land d PTE_P) && (0 <? Z.land e PTE_P) && (0 <? Z.land e PTE_U)
       then duppage envid (PGNUM addr) ;; mret tt else mret tt) ;;
      dup_loop n' envid (addr + PGSIZE)
  end.

(** ** lib/pgfault.c *)

(** [handler0] is [_pgfault_handler] (0 for none), [upcall] the address of
    [_pgfault_upcall]; the result is the new handler. *)
Definition set_pgfault_handler (handler0 upcall handler : Z) : U S Z :=
  (if handler0 =? 0 then
     r ← sys_page_alloc 0 (UXSTACKTOP - PGSIZE) PTE_UPW;
     if r <? 0 then upanic "set_pgfault_handler: %e"
     else sys_env_set_pgfault_upcall 0 upcall ;; mret tt
   else mret tt) ;;
  mret handler.

Definition fork (handler0 upcall pgfault_addr : Z) : U S Z :=
  set_pgfault_handler handler0 upcall pgfault_addr ;;
  envid ← sys_exofork;
  if envid <? 0 then upanic "sys_exofork: %e"
  else if envid =? 0 then sys_getenvid ;; mret 0
  else
    dup_loop (Z.to_nat ((UXSTACKTOP - PGSIZE - UTEXT) / PGSIZE)) envid UTEXT ;;
    r ← sys_page_alloc envid (UXSTACKTOP - PGSIZE) PTE_UPW;
    if r <? 0 then upanic "fork: page allocation failed : %e"
    else
      sys_env_set_pgfault_upcall envid upcall ;;
      r ← sys_env_set_status envid 2;
      if r <? 0 then upanic "fork: set child env status failed : %e" else mret envid.

Definition sfork : U S Z := upanic "sfork not implemented".

(** ** lib/ipc.c *)

(** [ipc_recv]: the value returned, and what is stored in
    [*from_env_store] and [*perm_store]. *)
Definition ipc_recv (pg : Z) : U S (Z * Z * Z) :=
  r ← (if negb (pg =? 0) then sys_ipc_recv UTOP else sys_ipc_recv pg);
  id ← sys_getenvid;
  s ← uget;
  let e := u_env s (ENVX id) in
  let from := if r <? 0 then 0 else env_ipc_from e in
  let perm := if r <? 0 then 0 else env_ipc_perm e in
  if r <? 0 then mret (r, from, perm) else mret (env_ipc_value e, from, perm).

(** [ipc_send] tries until the receiver waits; [tries] bounds the attempts. *)
Fixpoint ipc_send (tries : nat) (to_env val pg perm : Z) : U S unit :=
  match tries with
  | O => fun s => (UWait, s)
  | Datatypes.S tries' =>
      r ← sys_ipc_try_send to_env val (if negb (pg =? 0) then pg else UTOP) perm;
      if r <? 0 then
        if negb (r =? - E_IPC_NOT_RECV) then upanic "ipc_send: send message error %e"
        else sys_yield ;; ipc_send tries' to_env val pg perm
      else mret tt
  end.

Fixpoint find_env_loop (n : nat) (i type : Z) (s : S) : Z :=
  match n with
  | O => 0
  | Datatypes.S n' =>
      if env_type (u_env s i) =? type then env_id (u_env s i) else find_env_loop n' (i + 1) type s
  end.

Definition ipc_find_env (type : Z) : U S Z := s ← uget; mret (find_env_loop (Z.to_nat NENV) 0 type s).

(** ** lib/console.c, lib/exit.c, lib/libmain.c *)

(** [a] is the address of the local variable that holds the character. *)
Definition cputchar (a : Z) : U S unit := sys_cputs a 1.

Fixpoint getchar (tries : nat) : U S Z :=
  match tries with
  | O => fun s => (UWait, s)
  | Datatypes.S tries' =>
      r ← sys_cgetc;
      if r =? 0 then sys_yield ;; getchar tries' else mret r
  end.

Definition exit : U S unit := sys_env_destroy 0 ;; mret tt.

(** [libmain]: [umain] gets the index of this environment ([thisenv]). *)
Definition libmain (umain : Z -> U S unit) : U S unit :=
  id ← sys_getenvid;
  umain (ENVX id) ;;
  exit.

End Stubs.

(** ** lib/printf.c *)

(** [struct printbuf], with the buffers handed to [sys_cputs] so far, oldest
    first. *)
Record printbuf := mkPrintbuf {
  pb_buf : list Z;
  pb_cnt : Z;
  pb_out : list (list Z);
}.

(** [pb_buf] holds [idx] characters. *)
Definition putch_user (ch : Z) (b : printbuf) : printbuf :=
  let buf := pb_buf b ++ [u8 ch] in
  if Z.of_nat (length buf) =? 256 - 1
  then mkPrintbuf [] (pb_cnt b + 1) (pb_out b ++ [buf])
  else mkPrintbuf buf (pb_cnt b + 1) (pb_out b).

#[export] Instance Putch_printbuf : Putch printbuf := putch_user.

(** The buffers printed and the result. *)
Definition vcprintf (fmt : list Z) (ap : list va_arg) : option (list (list Z) * Z) :=
  b ← vprintfmt fmt ap (mkPrintbuf [] 0 []);
  Some (pb_out b ++ [pb_buf b], pb_cnt b).

Definition ucprintf (fmt : list Z) (ap : list va_arg) : option (list (list Z) * Z) := vcprintf fmt ap.
