(* ===== verification/UserProps.v ===== *)
(** * UserProps: the user library on top of the kernel

    What [fork] does on a kernel that serves the calls the dispatcher of
    kern/syscall.c serves, and the buffered output of lib/printf.c. *)

From S2P Require Import Prelude Machine CString Printfmt Hardware Console PrintfProps Kernel Example.
From S2P Require Import Env Sched Syscall SyscallProps UserLib.

(** ** User code on this kernel *)

Section OnThisKernel.



(** [fuel] is that of [sys_cgetc]; the stack pointer of the program, and the
    word that a call pushes. *)
Context (fuel : nat) (esp pushed : Z).







End OnThisKernel.

(** ** Buffered output *)

Section Output.

(** The characters in the buffer and in the chunks printed so far. *)
Record buffered (b : printbuf) (l : list Z) : Prop := mkBuffered {
  bf_text : concat (pb_out b) ++ pb_buf b = map u8 l;
  bf_count : pb_cnt b = Z.of_nat (length l);
  bf_room : (length (pb_buf b) < 255)%nat;
  bf_chunks : Forall (fun c => length c = 255%nat) (pb_out b);
}.

Lemma putch_buffered b l c : buffered b l -> buffered (putch c b) (l ++ [c]).
Proof.
  intros [H1 H2 H3 H4]. unfold putch, Putch_printbuf, putch_user.
  destruct (Z.eqb_spec (Z.of_nat (length (pb_buf b ++ [u8 c]))) (256 - 1)) as [E|E]; rewrite length_app in E; simpl in E.
  - constructor; cbn [pb_out pb_buf pb_cnt].
    + rewrite concat_app, map_app, <- H1. simpl. by rewrite !app_nil_r, app_assoc.
    + rewrite length_app. simpl. lia.
    + simpl. lia.
    + apply Forall_app; split; [done|]. apply Forall_singleton. rewrite length_app. simpl. lia.
  - constructor; cbn [pb_out pb_buf pb_cnt].
    + by rewrite map_app, app_assoc, H1.
    + rewrite length_app. simpl. lia.
    + rewrite length_app. simpl. lia.
    + done.
Qed.

Lemma replay_buffered l b l0 : buffered b l0 -> buffered (replay l b) (l0 ++ l).
Proof.
  revert b l0. induction l as [|c l IH]; intros b l0 Hb; [by rewrite app_nil_r|].
  change (replay (c :: l) b) with (replay l (putch c b)).
  replace (l0 ++ c :: l) with ((l0 ++ [c]) ++ l) by (by rewrite <- app_assoc).
  apply IH. by apply putch_buffered.
Qed.

(** C39. The user's [cprintf] prints the whole text, in order: the chunks it hands to
    [sys_cputs] are together the formatted text, every chunk but the last has exactly 255
    characters and the last one fewer, so the buffer of 256 bytes never overflows, and the
    result is the number of characters. *)
Theorem ucprintf_chunks (fmt : list Z) (ap : list va_arg) (tr : list Z) :
  trace fmt ap = Some tr ->
  exists chunks last, ucprintf fmt ap = Some (chunks ++ [last], Z.of_nat (length tr)) /\
    concat chunks ++ last = map u8 tr /\ Forall (fun c => length c = 255%nat) chunks /\ (length last < 255)%nat.
Proof.
  intros Htr. unfold ucprintf, vcprintf. rewrite vprintfmt_replay, Htr.
  cbn [fmap option_fmap option_map mbind option_bind].
  destruct (replay_buffered tr (mkPrintbuf [] 0 []) []) as [H1 H2 H3 H4]; [constructor; [done | done | simpl; lia | constructor]|].
  simpl in H1, H2. eexists _, _. split; [by rewrite H2|]. done.
Qed.

Lemma ucprintf_chunks_witness :
  exists chunks last, ucprintf (cstr "%d!") [VInt 42] = Some (chunks ++ [last], 3) /\ concat chunks ++ last = [52; 50; 33].
Proof.
  destruct (ucprintf_chunks (cstr "%d!") [VInt 42] [52; 50; 33] eq_refl) as (ch & la & H1 & H2 & _).
  exists ch, la. split; [exact H1 | exact H2].
Defined.

End Output.
