(* ===== verification/UserPrograms.v ===== *)
(** * UserPrograms: the programs of user/

    The test programs the kernel is built with, as clients of the user
    library.  [Program] adds to [User] what they do besides system calls:
    print, and access their memory (an access may fault, and then the handler
    of the program runs).  With printing, lib/panic.c is here too. *)

From S2P Require Import Prelude Machine CString Printfmt Hardware Console Kernel UserLib.

Class Program (S : Type) `{User S} := {
  u_cputs : list Z -> S -> S;                            (* sys_cputs of a buffer *)
  u_load : Z -> S -> uout Z * S;                         (* a word *)
  u_store : Z -> Z -> S -> uout unit * S;
  u_string : Z -> S -> uout (list Z) * S;                (* a string as an argument *)
  u_write : Z -> list Z -> S -> uout unit * S;           (* bytes *)
}.

Section Programs.

Context {S : Type} `{Program S}.

(** Addresses of [_pgfault_upcall] and of the copy-on-write handler. *)
Variables upcall cow_handler : Z.

(** [cprintf]; a format that reads past its arguments is undefined. *)
Definition uprintf (fmt : string) (ap : list va_arg) : U S unit := fun s =>
  match ucprintf (cstr fmt) ap with
  | Some (bufs, _) => (URet tt, fold_left (fun s b => u_cputs b s) bufs s)
  | None => (UWait, s)
  end.

Definition uwait {A} : U S A := fun s => (UWait, s).
Definition load (a : Z) : U S Z := u_load a.
Definition store (a v : Z) : U S unit := u_store a v.

(** lib/panic.c: prints the message and loops on [int3], which enters the kernel monitor. *)
Definition user_panic {A} (binaryname file : list Z) (line : Z) (fmt : string) (ap : list va_arg) : U S A :=
  id ← sys_getenvid;
  uprintf "[%08x] user panic in %s at %s:%d: " [VInt id; VStr (Some binaryname); VStr (Some file); VInt line] ;;
  uprintf fmt ap ;;
  uprintf "\n" [] ;;
  upanic fmt.

(** ** user/hello.c, user/yield.c, user/idle.c *)

(** [umain] gets the index of its environment, which is [thisenv]. *)
Definition hello_umain (thisenv : Z) : U S unit :=
  uprintf "hello, world\n" [] ;;
  s ← uget;
  uprintf "i am environment %08x\n" [VInt (env_id (u_env s thisenv))].

Fixpoint yield_loop (n : nat) (i thisenv : Z) : U S unit :=
  match n with
  | O => mret tt
  | Datatypes.S n' =>
      sys_yield ;;
      s ← uget;
      uprintf "Back in environment %08x, iteration %d.\n" [VInt (env_id (u_env s thisenv)); VInt i] ;;
      yield_loop n' (i + 1) thisenv
  end.

Definition yield_umain (thisenv : Z) : U S unit :=
  s ← uget;
  uprintf "Hello, I am environment %08x.\n" [VInt (env_id (u_env s thisenv))] ;;
  yield_loop 5 0 thisenv ;;
  s ← uget;
  uprintf "All done in environment %08x.\n" [VInt (env_id (u_env s thisenv))].

(** Runs for ever: [n] rounds of it. *)
Fixpoint idle_umain (n : nat) (thisenv : Z) : U S unit :=
  match n with
  | O => uwait
  | Datatypes.S n' => sys_yield ;; idle_umain n' thisenv
  end.

(** ** user/dumbfork.c *)

Definition dumb_duppage (dstenv addr : Z) : U S unit :=
  r ← sys_page_alloc dstenv addr PTE_UPW;
  if r <? 0 then upanic "sys_page_alloc: %e"
  else
    r ← sys_page_map dstenv addr 0 UTEMP PTE_UPW;
    if r <? 0 then upanic "sys_page_map: %e"
    else
      (fun s => (URet tt, u_copy UTEMP addr PGSIZE s)) ;;
      r ← sys_page_unmap 0 UTEMP;
      if r <? 0 then upanic "sys_page_unmap: %e" else mret tt.

Fixpoint dumb_loop (n : nat) (envid addr : Z) : U S unit :=
  match n with
  | O => mret tt
  | Datatypes.S n' => dumb_duppage envid addr ;; dumb_loop n' envid (addr + PGSIZE)
  end.

(** [end_] is the address of [end], [stack] that of the local variable [addr]. *)
Definition dumbfork (end_ stack : Z) : U S Z :=
  envid ← UserLib.sys_exofork;
  if envid <? 0 then upanic "sys_exofork: %e"
  else if envid =? 0 then sys_getenvid ;; mret 0
  else
    dumb_loop (Z.to_nat ((end_ - UTEXT + PGSIZE - 1) / PGSIZE)) envid UTEXT ;;
    dumb_duppage envid (ROUNDDOWN stack PGSIZE) ;;
    r ← sys_env_set_status envid 2;
    if r <? 0 then upanic "sys_env_set_status: %e" else mret envid.

Fixpoint dumb_talk (n : nat) (i : Z) (parent : bool) : U S unit :=
  match n with
  | O => mret tt
  | Datatypes.S n' =>
      uprintf "%d: I am the %s!\n" [VInt i; VStr (Some (cstr (if parent then "parent" else "child")))] ;;
      sys_yield ;;
      dumb_talk n' (i + 1) parent
  end.

Definition dumbfork_umain (end_ stack thisenv : Z) : U S unit :=
  who ← dumbfork end_ stack;
  dumb_talk (if negb (who =? 0) then 10 else 20) 0 (negb (who =? 0)).

(** ** user/forktree.c *)

Definition DEPTH : Z := 3.

(** [handler] is [_pgfault_handler]; [fuel] bounds the depth of the recursion.  [forkchild]
    returns when [strlen(cur) >= DEPTH]; the result is the new handler. *)
Fixpoint forktree (fuel : nat) (handler : Z) (cur : list Z) : U S Z :=
  match fuel with
  | O => uwait
  | Datatypes.S fuel' =>
      let forkchild (handler : Z) (branch : Z) : U S Z :=
        match strlen cur with
        | None => uwait
        | Some n =>
            if DEPTH <=? n then mret handler
            else
              match snprintf (Some (replicate (Z.to_nat (DEPTH + 1)) 0)) (DEPTH + 1) (cstr "%s%c") [VStr (Some cur); VInt branch] with
              | None => uwait
              | Some (nxt, _) =>
                  who ← UserLib.fork handler upcall cow_handler;
                  (if who =? 0 then forktree fuel' cow_handler nxt ;; exit ;; mret cow_handler
                   else mret cow_handler)
              end
        end in
      id ← sys_getenvid;
      uprintf "%04x: I am '%s'\n" [VInt id; VStr (Some cur)] ;;
      handler ← forkchild handler 48;
      forkchild handler 49
  end.

Definition forktree_umain (thisenv : Z) : U S unit := forktree 4 0 (cstr "") ;; mret tt.

(** ** user/pingpong.c, user/fairness.c, user/spin.c *)

(** The loop, for [n] rounds; [tries] bounds the attempts of [ipc_send]. *)
Fixpoint pingpong_loop (n tries : nat) : U S unit :=
  match n with
  | O => uwait
  | Datatypes.S n' =>
      x ← ipc_recv 0;
      let '(v, who, _) := x in
      let i := u32 v in
      id ← sys_getenvid;
      uprintf "%x got %d from %x\n" [VInt id; VInt i; VInt who] ;;
      if i =? 10 then mret tt
      else
        ipc_send tries who (u32 (i + 1)) 0 0 ;;
        if u32 (i + 1) =? 10 then mret tt else pingpong_loop n' tries
  end.

Definition pingpong_umain (n tries : nat) (thisenv : Z) : U S unit :=
  who ← UserLib.fork 0 upcall cow_handler;
  (if negb (who =? 0) then
     id ← sys_getenvid;
     uprintf "send 0 from %x to %x\n" [VInt id; VInt who] ;;
     ipc_send tries who 0 0 0
   else mret tt) ;;
  pingpong_loop n tries.

(** user/pingpongs.c: the variable [val], which parent and child were to share, is read and
    written by [get_val] and [set_val]; [ptr] is the address of [envs[thisenv]]. *)
Fixpoint pingpongs_loop (n tries : nat) (get_val : U S Z) (set_val : Z -> U S unit) (ptr thisenv : Z) : U S unit :=
  match n with
  | O => uwait
  | Datatypes.S n' =>
      x ← ipc_recv 0;
      let '(_, who, _) := x in
      id ← sys_getenvid;
      val ← get_val;
      s ← uget;
      uprintf "%x got %d from %x (thisenv is %p %x)\n"
        [VInt id; VInt val; VInt who; VInt ptr; VInt (env_id (u_env s thisenv))] ;;
      val ← get_val;
      if val =? 10 then mret tt
      else
        set_val (u32 (val + 1)) ;;
        ipc_send tries who 0 0 0 ;;
        val ← get_val;
        if val =? 10 then mret tt else pingpongs_loop n' tries get_val set_val ptr thisenv
  end.

Definition pingpongs_umain (n tries : nat) (get_val : U S Z) (set_val : Z -> U S unit) (ptr thisenv : Z) : U S unit :=
  who ← sfork;
  (if negb (who =? 0) then
     id ← sys_getenvid;
     uprintf "i am %08x; thisenv is %p\n" [VInt id; VInt ptr] ;;
     id ← sys_getenvid;
     uprintf "send 0 from %x to %x\n" [VInt id; VInt who] ;;
     ipc_send tries who 0 0 0
   else mret tt) ;;
  pingpongs_loop n tries get_val set_val ptr thisenv.

(** It ends in the panic of [sfork]. *)
Lemma pingpongs_panics n tries get_val set_val ptr thisenv s :
  pingpongs_umain n tries get_val set_val ptr thisenv s = (UPanic "sfork not implemented", s).
Proof. reflexivity. Qed.

Fixpoint fairness_receive (n : nat) (id : Z) : U S unit :=
  match n with
  | O => uwait
  | Datatypes.S n' =>
      x ← ipc_recv 0;
      let '(_, who, _) := x in
      uprintf "%x recv from %x\n" [VInt id; VInt who] ;;
      fairness_receive n' id
  end.

Fixpoint fairness_send (n tries : nat) : U S unit :=
  match n with
  | O => uwait
  | Datatypes.S n' =>
      s ← uget;
      ipc_send tries (env_id (u_env s 1)) 0 0 0 ;;
      fairness_send n' tries
  end.

Definition fairness_umain (n tries : nat) (thisenv : Z) : U S unit :=
  id ← sys_getenvid;
  if thisenv =? 1 then fairness_receive n id
  else
    s ← uget;
    uprintf "%x loop sending to %x\n" [VInt id; VInt (env_id (u_env s 1))] ;;
    fairness_send n tries.

Fixpoint yields (n : nat) : U S unit :=
  match n with O => mret tt | Datatypes.S n' => sys_yield ;; yields n' end.

Definition spin_umain (thisenv : Z) : U S unit :=
  uprintf "I am the parent.  Forking the child...\n" [] ;;
  env ← UserLib.fork 0 upcall cow_handler;
  if env =? 0 then uprintf "I am the child.  Spinning...\n" [] ;; uwait
  else
    uprintf "I am the parent.  Running the child...\n" [] ;;
    yields 8 ;;
    uprintf "I am the parent.  Killing the child...\n" [] ;;
    sys_env_destroy env ;; mret tt.

(** ** user/primes.c *)

(** The loop that filters out the multiples of [p], for [n] numbers; a division by 0 traps. *)
Fixpoint primes_filter (n tries : nat) (id p : Z) : U S unit :=
  match n with
  | O => uwait
  | Datatypes.S n' =>
      x ← ipc_recv 0;
      let '(i, _, _) := x in
      if p =? 0 then uwait
      else
        (if negb (Z.rem i p =? 0) then ipc_send tries id i 0 0 else mret tt) ;;
        primes_filter n' tries id p
  end.

(** From the label [top] on; [fuel] bounds the length of the chain.  [fork] leaves [thisenv] as it is in the child. *)
Fixpoint primeproc (fuel n tries : nat) (handler thisenv : Z) : U S unit :=
  match fuel with
  | O => uwait
  | Datatypes.S fuel' =>
      x ← ipc_recv 0;
      let '(p, _, _) := x in
      s ← uget;
      uprintf "CPU %d: %d " [VInt (env_cpunum (u_env s thisenv)); VInt p] ;;
      id ← UserLib.fork handler upcall cow_handler;
      if id <? 0 then user_panic (cstr "user_primes") (cstr "user/primes.c") 26 "fork: %e" [VInt id]
      else if id =? 0 then primeproc fuel' n tries cow_handler thisenv
      else primes_filter n tries id p
  end.

(** All the integers from [i] on, [n] of them. *)
Fixpoint primes_feed (n tries : nat) (id i : Z) : U S unit :=
  match n with
  | O => uwait
  | Datatypes.S n' => ipc_send tries id i 0 0 ;; primes_feed n' tries id (i32 (i + 1))
  end.

Definition primes_umain (fuel n tries : nat) (thisenv : Z) : U S unit :=
  id ← UserLib.fork 0 upcall cow_handler;
  if id <? 0 then user_panic (cstr "user_primes") (cstr "user/primes.c") 45 "fork: %e" [VInt id]
  else
    (if id =? 0 then primeproc fuel n tries cow_handler thisenv else mret tt) ;;
    primes_feed n tries id 2.

(** ** user/stresssched.c *)

(** [fork] twenty times; a child leaves the loop with its [i]. *)
Fixpoint stress_fork (n : nat) (i handler : Z) : U S Z :=
  match n with
  | O => mret i
  | Datatypes.S n' =>
      who ← UserLib.fork handler upcall cow_handler;
      if who =? 0 then mret i else stress_fork n' (i + 1) cow_handler
  end.

Fixpoint stress_wait (n : nat) (parent : Z) : U S unit :=
  match n with
  | O => uwait
  | Datatypes.S n' =>
      s ← uget;
      if bool_decide (env_status (u_env s (ENVX parent)) = ENV_FREE) then mret tt else stress_wait n' parent
  end.

(** [counter++] on the volatile global at address [counter], [n] times. *)
Fixpoint stress_count (n : nat) (counter : Z) : U S unit :=
  match n with
  | O => mret tt
  | Datatypes.S n' => c ← load counter; store counter (u32 (c + 1)) ;; stress_count n' counter
  end.

Fixpoint stress_rounds (n : nat) (counter : Z) : U S unit :=
  match n with
  | O => mret tt
  | Datatypes.S n' => sys_yield ;; stress_count (Z.to_nat 10000) counter ;; stress_rounds n' counter
  end.

Definition stresssched_umain (counter : Z) (waits : nat) (thisenv : Z) : U S unit :=
  parent ← sys_getenvid;
  i ← stress_fork 20 0 0;
  if i =? 20 then sys_yield
  else
    stress_wait waits parent ;;
    stress_rounds 10 counter ;;
    c ← load counter;
    if negb (c =? 10 * 10000) then upanic "ran on two CPUs at once (counter is %d)"
    else
      s ← uget;
      uprintf "[%08x] stresssched on CPU %d\n" [VInt (env_id (u_env s thisenv)); VInt (env_cpunum (u_env s thisenv))].

(** ** user/testbss.c *)

Definition ARRAYSIZE : Z := 1024 * 1024.

(** The three loops over [bigarray] at address [a], from index [i] on. *)
Fixpoint bss_cleared (n : nat) (a i : Z) : U S unit :=
  match n with
  | O => mret tt
  | Datatypes.S n' =>
      v ← load (a + 4 * i);
      if negb (v =? 0) then upanic "bigarray[%d] isn't cleared!\n" else bss_cleared n' a (i + 1)
  end.
Fixpoint bss_fill (n : nat) (a i : Z) : U S unit :=
  match n with O => mret tt | Datatypes.S n' => store (a + 4 * i) i ;; bss_fill n' a (i + 1) end.
Fixpoint bss_held (n : nat) (a i : Z) : U S unit :=
  match n with
  | O => mret tt
  | Datatypes.S n' =>
      v ← load (a + 4 * i);
      if negb (v =? i) then upanic "bigarray[%d] didn't hold its value!\n" else bss_held n' a (i + 1)
  end.

Definition testbss_umain (a thisenv : Z) : U S unit :=
  uprintf "Making sure bss works right...\n" [] ;;
  bss_cleared (Z.to_nat ARRAYSIZE) a 0 ;;
  bss_fill (Z.to_nat ARRAYSIZE) a 0 ;;
  bss_held (Z.to_nat ARRAYSIZE) a 0 ;;
  uprintf "Yes, good.  Now doing a wild write off the end...\n" [] ;;
  store (a + 4 * (ARRAYSIZE + 1024)) 0 ;;
  upanic "SHOULD HAVE TRAPPED!!!".

(** ** Programs with a handler of page faults *)

Definition faultalloc_handler (utf : UTrapframe) : U S unit :=
  let addr := utf_fault_va utf in
  uprintf "fault %x\n" [VInt addr] ;;
  r ← sys_page_alloc 0 (ROUNDDOWN addr PGSIZE) PTE_UPW;
  if r <? 0 then upanic "allocating at %x in page fault handler: %e"
  else
    match snprintf (Some (replicate 100 0)) 100 (cstr "this string was faulted in at %x") [VInt addr] with
    | None => uwait
    | Some (buf, n) => u_write addr (take (Z.to_nat (Z.min n 99 + 1)) buf)
    end.

(** [%s] of the string at [a]: reading it faults. *)
Definition print_string_at (a : Z) : U S unit :=
  str ← (u_string a : U S (list Z));
  uprintf "%s\n" [VStr (Some str)].

Definition faultalloc_umain (handler thisenv : Z) : U S unit :=
  set_pgfault_handler 0 upcall handler ;;
  print_string_at 0xDeadBeef ;;
  print_string_at 0xCafeBffe.

(** user/faultallocbad.c has the same handler. *)
Definition faultallocbad_handler (utf : UTrapframe) : U S unit := faultalloc_handler utf.

Definition faultallocbad_umain (handler thisenv : Z) : U S unit :=
  set_pgfault_handler 0 upcall handler ;;
  sys_cputs 0xDEADBEEF 4.

Definition faultdie_handler (utf : UTrapframe) : U S unit :=
  uprintf "i faulted at va %x, err %x\n" [VInt (utf_fault_va utf); VInt (Z.land (utf_err utf) 7)] ;;
  id ← sys_getenvid;
  sys_env_destroy id ;; mret tt.

Definition faultdie_umain (handler thisenv : Z) : U S unit :=
  set_pgfault_handler 0 upcall handler ;;
  store 0xDeadBeef 0.

Definition faultbadhandler_umain (thisenv : Z) : U S unit :=
  sys_page_alloc 0 (UXSTACKTOP - PGSIZE) PTE_UPW ;;
  sys_env_set_pgfault_upcall 0 0xDeadBeef ;;
  store 0 0.

Definition faultevilhandler_umain (thisenv : Z) : U S unit :=
  sys_page_alloc 0 (UXSTACKTOP - PGSIZE) PTE_UPW ;;
  sys_env_set_pgfault_upcall 0 0xF0100020 ;;
  store 0 0.

Definition faultnostack_umain (thisenv : Z) : U S unit :=
  sys_env_set_pgfault_upcall 0 upcall ;;
  store 0 0.

(** ** Faults and bad arguments *)

Definition faultread_umain (thisenv : Z) : U S unit :=
  v ← load 0; uprintf "I read %08x from location 0!\n" [VInt v].
Definition faultreadkernel_umain (thisenv : Z) : U S unit :=
  v ← load 0xf0100000; uprintf "I read %08x from location 0xf0100000!\n" [VInt v].
Definition faultwrite_umain (thisenv : Z) : U S unit := store 0 0.
Definition faultwritekernel_umain (thisenv : Z) : U S unit := store 0xf0100000 0.
Definition buggyhello_umain (thisenv : Z) : U S unit := sys_cputs 1 1.
Definition evilhello_umain (thisenv : Z) : U S unit := sys_cputs 0xf010000c 100.
(** [hello] is the value of the variable of that name. *)
Definition buggyhello2_umain (hello thisenv : Z) : U S unit := sys_cputs hello (1024 * 1024).

(** ** user/faultregs.c *)

(** [struct regs]. *)
Record regs := mkRegs { r_regs : PushRegs; r_eip : Z; r_eflags : Z; r_esp : Z }.

(** The macro [CHECK]: prints, and tells whether the values differ. *)
Definition CHECK (name : string) (a b : Z) (mismatch : bool) : U S bool :=
  uprintf "%-6s %08x %08x " [VStr (Some (cstr name)); VInt a; VInt b] ;;
  if a =? b then uprintf "OK\n" [] ;; mret mismatch else uprintf "MISMATCH\n" [] ;; mret true.

Definition check_regs (a : regs) (an : string) (b : regs) (bn testname : string) : U S unit :=
  uprintf "%-6s %-8s %-8s\n" [VStr (Some (cstr "")); VStr (Some (cstr an)); VStr (Some (cstr bn))] ;;
  m ← CHECK "edi" (reg_edi (r_regs a)) (reg_edi (r_regs b)) false;
  m ← CHECK "esi" (reg_esi (r_regs a)) (reg_esi (r_regs b)) m;
  m ← CHECK "ebp" (reg_ebp (r_regs a)) (reg_ebp (r_regs b)) m;
  m ← CHECK "ebx" (reg_ebx (r_regs a)) (reg_ebx (r_regs b)) m;
  m ← CHECK "edx" (reg_edx (r_regs a)) (reg_edx (r_regs b)) m;
  m ← CHECK "ecx" (reg_ecx (r_regs a)) (reg_ecx (r_regs b)) m;
  m ← CHECK "eax" (reg_eax (r_regs a)) (reg_eax (r_regs b)) m;
  m ← CHECK "eip" (r_eip a) (r_eip b) m;
  m ← CHECK "eflags" (r_eflags a) (r_eflags b) m;
  m ← CHECK "esp" (r_esp a) (r_esp b) m;
  uprintf "Registers %s " [VStr (Some (cstr testname))] ;;
  if negb m then uprintf "OK\n" [] else uprintf "MISMATCH\n" [].

(** The handler; the result is the new value of [during]. *)
Definition faultregs_pgfault (before : regs) (utf : UTrapframe) : U S regs :=
  if negb (utf_fault_va utf =? UTEMP) then upanic "pgfault expected at UTEMP, got 0x%08x (eip %08x)"
  else
    let during := mkRegs (utf_regs utf) (utf_eip utf) (utf_eflags utf) (utf_esp utf) in
    check_regs before "before" during "during" "in UTrapframe" ;;
    r ← sys_page_alloc 0 UTEMP PTE_UPW;
    if r <? 0 then upanic "sys_page_alloc: %e" else mret during.

End Programs.
