(* ===== verification/MonitorProps.v ===== *)
(** * MonitorProps: the line editor and the command interpreter

    What [readline] returns for a sequence of keys, how [runcmd] splits a line
    into words and which command it runs, and that the monitor never ends. *)

From S2P Require Import Prelude Machine CString Printfmt Hardware Console PrintfProps ConsoleProps StringProps.
From S2P Require Import Kernel KernelProps Pmap Spinlock Env Sched Syscall Trap Kdebug Monitor Example.

(** ** Words *)

Section Words.

(** A word, and white space between words. *)
Definition word_char (c : Z) : Prop := 0 < c < 256 /\ is_space c = false.
Definition word (w : list Z) : Prop := w <> [] /\ Forall word_char w.
Definition blank (g : list Z) : Prop := Forall (fun c => is_space c = true) g.
Definition ends_word (l : list Z) : Prop := match l with [] => True | c :: _ => is_space c = true end.

(** The line [l] consists of the words [ws] with white space between them, before and behind. *)
Inductive line_of : list (list Z) -> list Z -> Prop :=
| line_end g : blank g -> line_of [] g
| line_word g w ws l : blank g -> word w -> ends_word l -> line_of ws l -> line_of (w :: ws) (g ++ w ++ l).

Lemma space_cases c : is_space c = true -> c = 9 \/ c = 13 \/ c = 10 \/ c = 32.
Proof.
  unfold is_space, WHITESPACE. intros H%bool_decide_eq_true. rewrite !elem_of_cons in H.
  destruct H as [?|[?|[?|[?|[]%elem_of_nil]]]]; tauto.
Qed.

Lemma space_nonzero c : is_space c = true -> (c =? 0) = false.
Proof. intros H%space_cases. destruct H as [->|[->|[->| ->]]]; done. Qed.

Lemma skip_blank g l : blank g -> skip_space (g ++ l) = skip_space l.
Proof. intros H. induction H as [|c g Hc Hg IH]; [done|]. cbn [skip_space app]. by rewrite (space_nonzero c Hc), Hc. Qed.

Lemma skip_stop c l : is_space c = false -> skip_space (c :: l) = c :: l.
Proof. intros H. cbn [skip_space]. by rewrite H, andb_false_r. Qed.

Lemma take_word_eq w l : Forall word_char w -> match l with [] => True | c :: _ => c = 0 \/ is_space c = true end ->
  take_word (w ++ l) = (w, l).
Proof.
  intros Hw Hl. induction Hw as [|c w [Hc1 Hc2] Hw IH]; cbn [app take_word].
  - destruct l as [|c l]; [done|]. cbn [take_word]. destruct Hl as [-> | ->]; [done|]. by rewrite andb_false_r.
  - rewrite (proj2 (Z.eqb_neq c 0)), Hc2 by lia. cbn [negb andb]. by rewrite IH.
Qed.

(** The parser finds exactly the words, when there are at most 15. *)
Lemma parse_line ws l : line_of ws l -> forall r argv fuel,
  (length argv <= 15)%nat -> (16 <= fuel + length argv)%nat ->
  parse_args fuel (l ++ 0 :: r) argv =
  if (length argv + length ws <=? 15)%nat then Some (argv ++ ws) else None.
Proof.
  intros H. induction H as [g Hg | g w ws l Hg [Hne Hw] Hend Hl IH]; intros r argv fuel Hlen Hf;
    (destruct fuel as [|fuel]; [lia|]); cbn [parse_args].
  - rewrite skip_blank, skip_stop by done. change (0 =? 0) with true. cbn [length]. rewrite app_nil_r.
    destruct (Nat.leb_spec (length argv + 0) 15); [done | lia].
  - rewrite <- app_assoc, skip_blank by done. rewrite <- app_assoc.
    destruct w as [|c w]; [done|]. destruct (Forall_inv Hw) as [Hc1 Hc2]. cbn [app]. rewrite skip_stop by done.
    rewrite (proj2 (Z.eqb_neq c 0)) by lia. change (MAXARGS - 1) with 15. cbn [length].
    destruct (Z.eqb_spec (Z.of_nat (length argv)) 15) as [E|E]; [by rewrite (proj2 (Nat.leb_gt _ _)) by lia|].
    change (c :: w ++ l ++ 0 :: r) with ((c :: w) ++ (l ++ 0 :: r)).
    rewrite take_word_eq; [ | exact Hw | by destruct l; [left | right]]. rewrite IH by (rewrite length_app; cbn [length]; lia).
    rewrite length_app, <- app_assoc. cbn [length app]. by rewrite <- Nat.add_assoc.
Qed.

(** Every line is made of words in this way. *)
Lemma blank_or_word c : 0 < c < 256 -> is_space c = true \/ word_char c.
Proof. intros Hc. destruct (is_space c) eqn:E; [by left | by right]. Qed.

Lemma line_blank c ws l : is_space c = true -> line_of ws l -> line_of ws (c :: l).
Proof.
  intros Hc H. destruct H as [g Hg | g w ws l Hg Hw Hend Hl].
  - apply line_end. by constructor.
  - apply (line_word (c :: g)); [by constructor | done..].
Qed.

Lemma line_total l : cbytes l -> exists ws, line_of ws l.
Proof.
  intros H. induction H as [|c l Hc Hl [ws IH]]; [exists []; apply line_end; constructor|].
  destruct (blank_or_word c Hc) as [Hs | Hw]; [exists ws; by apply line_blank|].
  destruct IH as [g Hg | g w ws l Hg [Hne Hw2] Hend Hl2].
  - exists [[c]]. change (c :: g) with ([] ++ [c] ++ g).
    apply line_word; [by constructor | split; [done | by apply Forall_singleton] | | by apply line_end].
    destruct g; [done | exact (Forall_inv Hg)].
  - destruct g as [|d g].
    + exists ((c :: w) :: ws). change (c :: [] ++ w ++ l) with ([] ++ (c :: w) ++ l).
      apply line_word; [by constructor | split; [done | by constructor] | done | done].
    + exists ([c] :: w :: ws). change (c :: (d :: g) ++ w ++ l) with ([] ++ [c] ++ ((d :: g) ++ w ++ l)).
      apply line_word; [by constructor | split; [done | by apply Forall_singleton] | exact (Forall_inv Hg) | by apply line_word].
Qed.

Lemma word_bytes w : word w -> cbytes w.
Proof. intros [_ H]. eapply Forall_impl; [exact H|]. by intros c [Hc _]. Qed.

End Words.

(** ** The line editor *)

Section Editor.

(** Every character in the input buffer is a byte. *)
Definition buffer_bytes (c : console) : Prop := map_Forall (fun _ x => 0 <= x < 256) (cons_buf c).

Lemma buffer_same c c' : cons_buf c' = cons_buf c -> buffer_bytes c -> buffer_bytes c'.
Proof. unfold buffer_bytes. by intros ->. Qed.

Lemma cons_put_bytes ch c : buffer_bytes c -> buffer_bytes (cons_put ch c).
Proof. intros H. unfold buffer_bytes, cons_put. apply map_Forall_insert_2; [apply Z.mod_pos_bound; lia | exact H]. Qed.

Lemma cputchar_bytes ch c : buffer_bytes c -> buffer_bytes (Console.cputchar ch c).
Proof. destruct (cons_putc_input ch c) as (_ & _ & E & _). by apply buffer_same. Qed.

Lemma cons_intr_bytes fuel proc c c' :
  keeps_buffer proc -> cons_intr fuel proc c = Some c' -> buffer_bytes c -> buffer_bytes c'.
Proof.
  intros Hk. revert c. induction fuel as [|fuel IH]; intros c; [done|]. cbn [cons_intr].
  destruct (Hk c) as (_ & _ & E). destruct (proc c) as [ch c1]. cbn [snd] in E. intros H Hb.
  assert (Hb1 := buffer_same _ _ E Hb). destruct (ch =? -1); [by injection H as <-|].
  destruct (ch =? 0); [by eapply IH | eapply IH; [exact H | by apply cons_put_bytes]].
Qed.

Lemma cons_getc_bytes fuel c ch c' :
  cons_getc fuel c = Some (ch, c') -> buffer_bytes c -> 0 <= ch < 256 /\ buffer_bytes c'.
Proof.
  unfold cons_getc, serial_intr, kbd_intr. intros H Hb.
  apply bind_Some in H as (c1 & H1 & H). apply bind_Some in H as (c2 & H2 & H).
  assert (Hb1 : buffer_bytes c1).
  { destruct (serial_exists c); [by eapply cons_intr_bytes; [exact serial_keeps | ..] | by injection H1 as <-]. }
  assert (Hb2 : buffer_bytes c2) by (by eapply cons_intr_bytes; [exact kbd_keeps | ..]).
  unfold cons_get in H. destruct (negb _); injection H as <- <-; [|split; [lia | done]].
  split; [|done]. destruct (cons_buf c2 !! cons_rpos c2) as [x|] eqn:E; [exact (Hb2 _ _ E) | cbn; lia].
Qed.

(** [getchar] never reports an error: it waits for a byte other than 0. *)
Lemma getchar_byte tries fuel c ch c' :
  Console.getchar tries fuel c = Some (ch, c') -> buffer_bytes c -> 0 < ch < 256 /\ buffer_bytes c'.
Proof.
  revert c. induction tries as [|tries IH]; intros c; [done|]. cbn [Console.getchar]. intros H Hb.
  apply bind_Some in H as ([ch1 c1] & H1 & H). apply cons_getc_bytes in H1 as [Hr Hb1]; [|done].
  destruct (Z.eqb_spec ch1 0); [by eapply IH | injection H as <- <-; split; [lia | done]].
Qed.

Lemma cons_intr_more proc n m c c' : (n <= m)%nat -> cons_intr n proc c = Some c' -> cons_intr m proc c = Some c'.
Proof.
  revert m c. induction n as [|n IH]; intros [|m] c Hm; [done..|lia|]. cbn [cons_intr].
  destruct (proc c) as [ch c1]. destruct (ch =? -1); [done|]. destruct (ch =? 0); apply IH; lia.
Qed.

Lemma cons_getc_more n m c r : (n <= m)%nat -> cons_getc n c = Some r -> cons_getc m c = Some r.
Proof.
  intros Hm H. unfold cons_getc, serial_intr, kbd_intr in *.
  apply bind_Some in H as (c1 & H1 & H). apply bind_Some in H as (c2 & H2 & H).
  apply bind_Some. exists c1. split.
  - destruct (serial_exists c); [by eapply cons_intr_more | done].
  - apply bind_Some. exists c2. split; [by eapply cons_intr_more | done].
Qed.

Lemma getchar_more n m f g c r :
  (n <= m)%nat -> (f <= g)%nat -> Console.getchar n f c = Some r -> Console.getchar m g c = Some r.
Proof.
  revert m c. induction n as [|n IH]; intros [|m] c Hm Hf; [done..|lia|]. cbn [Console.getchar]. intros H.
  apply bind_Some in H as ([ch c1] & H1 & H). rewrite (cons_getc_more f g _ _ Hf H1). cbn [mbind option_bind].
  destruct (ch =? 0); [apply IH; [lia | done | done] | done].
Qed.

End Editor.

(** ** A line typed at the console *)

Section Typing.

(** What a key does to the line [l]: backspace and delete erase the last character, a character
    that can be printed is appended while there is room for the NUL byte behind it. *)
Definition edit_key (l : list Z) (k : Z) : list Z :=
  if bool_decide ((k = 8 \/ k = 127) /\ l <> []) then removelast l
  else if bool_decide (32 <= k /\ Z.of_nat (length l) + 1 < BUFLEN) then l ++ [k]
  else l.

(** The key is echoed when it changed the line. *)
Definition echo_key (l : list Z) (k : Z) (c : console) : console :=
  if bool_decide (edit_key l k = l) then c
  else if bool_decide ((length (edit_key l k) < length l)%nat) then Console.cputchar 8 c
  else Console.cputchar k c.

Definition is_enter (k : Z) : Prop := k = 10 \/ k = 13.

(** The console delivers the key [k] to a program that waits for one. *)
Definition gets (c : console) (k : Z) (c' : console) : Prop := exists n, Console.getchar n n c = Some (k, c').

(** The keys [ks] and then Enter are typed when the line holds [l]. *)
Inductive typed : console -> list Z -> list Z -> console -> Prop :=
| typed_enter c k c1 l : gets c k c1 -> is_enter k -> typed c l [] (Console.cputchar 10 c1)
| typed_key c k c1 l ks c' :
    gets c k c1 -> ~ is_enter k -> typed (echo_key l k c1) (edit_key l k) ks c' -> typed c l (k :: ks) c'.

(** The line that results. *)
Definition edit_line (l ks : list Z) : list Z := fold_left edit_key ks l.

Definition good_line (l : list Z) : Prop := cbytes l /\ Z.of_nat (length l) < BUFLEN.

Lemma removelast_rev {A} (l : list A) : removelast l = rev (tail (rev l)).
Proof. destruct l as [|x l _] using rev_ind; [done|]. rewrite removelast_last, rev_unit. cbn [tail]. by rewrite rev_involutive. Qed.

Lemma removelast_length {A} (l : list A) : l <> [] -> (length (removelast l) < length l)%nat.
Proof. destruct l as [|x l _] using rev_ind; [done|]. rewrite removelast_last, length_app. cbn. lia. Qed.

Lemma edit_key_good l k : 0 < k < 256 -> good_line l -> good_line (edit_key l k).
Proof.
  intros Hk [Hb Hl]. unfold edit_key. case_bool_decide as H1; [|case_bool_decide as H2; [|done]].
  - destruct l as [|x l _] using rev_ind; [done|]. rewrite removelast_last.
    apply Forall_app in Hb as [Hb _]. rewrite length_app in Hl. split; [done | lia].
  - split; [apply Forall_app_2; [done | by apply Forall_singleton]|]. rewrite length_app. cbn. lia.
Qed.

(** [classify] tells the same keys apart. *)
Lemma classify_key (l : list Z) k : 0 < k < 256 ->
  classify k (Z.of_nat (length l)) =
  if bool_decide ((k = 8 \/ k = 127) /\ l <> []) then EErase
  else if bool_decide (32 <= k /\ Z.of_nat (length l) + 1 < BUFLEN) then EKeep
  else if bool_decide (is_enter k) then EDone else EIgnore.
Proof.
  intros Hk. unfold classify, is_enter. change BUFLEN with 1024.
  assert (Hl : l <> [] <-> 0 < Z.of_nat (length l)) by (destruct l; cbn; split; (done || lia)).
  destruct (Z.ltb_spec k 0); [lia|].
  repeat case_bool_decide; rewrite ?Hl in *;
  destruct (Z.eqb_spec k 8), (Z.eqb_spec k 127), (Z.ltb_spec 0 (Z.of_nat (length l))), (Z.leb_spec 32 k),
    (Z.ltb_spec (Z.of_nat (length l)) (1024 - 1)), (Z.eqb_spec k 10), (Z.eqb_spec k 13); cbn [orb andb];
    (reflexivity || lia).
Qed.

Lemma gets_byte c k c' : gets c k c' -> buffer_bytes c -> 0 < k < 256 /\ buffer_bytes c'.
Proof. intros [n H]. exact (getchar_byte n n c k c' H). Qed.

Lemma getchar_ok tries fuel n c k c' s :
  Console.getchar n n c = Some (k, c') -> (n <= tries)%nat -> (n <= fuel)%nat ->
  getchar tries fuel (set_con c s) = (Ret k, set_con c' s).
Proof.
  intros H Ht Hf. unfold getchar. cbn [con set_con]. by rewrite (getchar_more n tries n fuel c (k, c') Ht Hf H).
Qed.

Lemma echo_bytes l k c : buffer_bytes c -> buffer_bytes (echo_key l k c).
Proof. intros H. unfold echo_key. repeat case_bool_decide; auto using cputchar_bytes. Qed.

Lemma edit_line_good ks : forall c l c', typed c l ks c' -> buffer_bytes c -> good_line l ->
  good_line (edit_line l ks) /\ buffer_bytes c'.
Proof.
  induction ks as [|k ks IH]; intros c l c' H Hb Hl; inversion H as [? k1 c1 ? Hg He | ? ? c1 ? ? ? Hg He Ht]; subst;
    destruct (gets_byte _ _ _ Hg Hb) as [Hk Hb1].
  - split; [done | by apply cputchar_bytes].
  - exact (IH _ _ _ Ht (echo_bytes l k c1 Hb1) (edit_key_good l k Hk Hl)).
Qed.

End Typing.

(** ** [readline] *)

Section Readline.

(** One round of the loop for a key that is not Enter. *)
Lemma readline_step lines tries fuel l k c c1 s n :
  Console.getchar n n c = Some (k, c1) -> (n <= tries)%nat -> (n <= fuel)%nat -> 0 < k < 256 -> ~ is_enter k ->
  readline_loop (S lines) tries fuel true (rev l) (set_con c s) =
  readline_loop lines tries fuel true (rev (edit_key l k)) (set_con (echo_key l k c1) s).
Proof.
  intros H Ht Hf Hk He. cbn [readline_loop]. rewrite (bind_Ret _ _ _ _ _ (getchar_ok tries fuel n c k c1 s H Ht Hf)).
  rewrite length_rev, classify_key by done. unfold edit_key, echo_key, edit_key.
  case_bool_decide as H1; [|case_bool_decide as H2].
  - destruct H1 as [_ Hl]. assert (Hlen := removelast_length l Hl).
    rewrite bool_decide_false by (intros E; rewrite E in Hlen; lia). rewrite bool_decide_true by done.
    by rewrite removelast_rev, rev_involutive.
  - rewrite bool_decide_false by (intros E; apply (f_equal length) in E; rewrite length_app in E; cbn in E; lia).
    rewrite bool_decide_false by (rewrite length_app; lia). rewrite rev_unit, u8_small by lia. done.
  - rewrite bool_decide_false by done. by rewrite bool_decide_true.
Qed.

(** Enter ends the line. *)
Lemma readline_enter lines tries fuel l k c c1 s n :
  Console.getchar n n c = Some (k, c1) -> (n <= tries)%nat -> (n <= fuel)%nat -> 0 < k < 256 -> is_enter k ->
  readline_loop (S lines) tries fuel true (rev l) (set_con c s) =
  (Ret (Some (l ++ [0])), set_con (Console.cputchar 10 c1) s).
Proof.
  intros H Ht Hf Hk He. cbn [readline_loop]. rewrite (bind_Ret _ _ _ _ _ (getchar_ok tries fuel n c k c1 s H Ht Hf)).
  rewrite length_rev, classify_key by done. destruct He as [-> | ->];
    (rewrite bool_decide_false by lia; rewrite bool_decide_false by lia; rewrite bool_decide_true by (unfold is_enter; lia));
    by rewrite rev_involutive.
Qed.

(** A typed line is read back, and the loop ends. *)
Lemma readline_typed ks : forall c l c', typed c l ks c' -> buffer_bytes c ->
  exists n, forall lines tries fuel s, (n <= lines)%nat -> (n <= tries)%nat -> (n <= fuel)%nat ->
    readline_loop lines tries fuel true (rev l) (set_con c s) = (Ret (Some (edit_line l ks ++ [0])), set_con c' s).
Proof.
  induction ks as [|k ks IH]; intros c l c' H Hb; inversion H as [? k1 c1 ? Hg He | ? ? c1 ? ? ? Hg He Hn]; subst;
    destruct (gets_byte _ _ _ Hg Hb) as [Hk Hb1]; destruct Hg as [n Hg].
  - exists (S n). intros [|lines] tries fuel s H1 H2 H3; [lia|]. apply (readline_enter lines tries fuel l k1 c c1 s n); (done || lia).
  - destruct (IH _ _ _ Hn (echo_bytes l k c1 Hb1)) as [m Hm]. exists (S (n + m)).
    intros [|lines] tries fuel s H1 H2 H3; [lia|].
    rewrite (readline_step lines tries fuel l k c c1 s n); [apply Hm; lia | (done || lia)..].
Qed.

End Readline.

(** ** The command interpreter *)

Section Interpreter.

Context (start_ entry etext edata end_ ebp0 : Z) (kern_tab : stabtab)
  (user_tab : K (Z * Z * Z * Z * stabtab)) (lookups : nat).

Abbreviation run := (run_command start_ entry etext edata end_ ebp0 kern_tab user_tab lookups).
Abbreviation line_command := (runcmd start_ entry etext edata end_ ebp0 kern_tab user_tab lookups).

(** The command with the name [w]. *)
Definition command_named (w : list Z) : option command :=
  if bool_decide (w = chars "help") then Some CHelp
  else if bool_decide (w = chars "kerninfo") then Some CKerninfo
  else if bool_decide (w = chars "backtrace") then Some CBacktrace
  else None.

Lemma bind_same {A B} (m1 m2 : K A) (f g : A -> K B) s :
  m1 s = m2 s -> (forall a s', m1 s = (Ret a, s') -> f a s' = g a s') -> (m1 ≫= f) s = (m2 ≫= g) s.
Proof. unfold mbind, K_bind. intros <- H. destruct (m1 s) as [[a|r] s']; [by apply H | done]. Qed.

(** What a line that consists of the words [ws] asks for. *)
Definition execute (depth : nat) (ws : list (list Z)) : K Z :=
  if (15 <? length ws)%nat then cprintf "Too many arguments (max %d)\n" [VInt 16] ;; mret 0
  else match ws with
       | [] => mret 0
       | w :: _ =>
           match command_named w with
           | Some c => run depth c
           | None => cprintf "Unknown command '%s'\n" [VStr (Some (w ++ [0]))] ;; mret 0
           end
       end.

Lemma strcmp_name w n l : cbytes w -> cbytes l -> cstr n = l ++ [0] -> strcmp (w ++ [0]) (cstr n) = Some 0 <-> w = l.
Proof.
  intros Hw Hl ->. destruct (strcmp_lex w l [] [] Hw Hl) as (z & H & _ & Hz). rewrite H. split.
  - intros [= ->]. by apply Hz.
  - intros E. f_equal. by apply Hz.
Qed.

Lemma find_command w : cbytes w ->
  (fun ic => snd (snd ic)) <$> list_find (fun c => strcmp (w ++ [0]) (cstr (fst (fst c))) = Some 0) commands =
  command_named w.
Proof.
  intros Hw. unfold command_named.
  destruct (decide (w = chars "help")) as [->|N1]; [by vm_compute|].
  destruct (decide (w = chars "kerninfo")) as [->|N2]; [by vm_compute|].
  destruct (decide (w = chars "backtrace")) as [->|N3]; [by vm_compute|].
  rewrite !bool_decide_false by done. rewrite (proj2 (list_find_None _ _)); [done|].
  assert (Hn : forall n, cbytes (chars n) -> cstr n = chars n ++ [0] -> w <> chars n -> strcmp (w ++ [0]) (cstr n) <> Some 0).
  { intros n Hb E N H. by apply N, (strcmp_name w n). }
  unfold commands. repeat (constructor; [apply Hn; [repeat constructor | reflexivity | done]|]). constructor.
Qed.

(** [runcmd] executes the words of its line. *)
Lemma runcmd_line depth ws l s : line_of ws l -> line_command depth (l ++ [0]) s = execute depth ws s.
Proof.
  intros H. unfold runcmd, execute. change (Z.to_nat MAXARGS) with 16%nat.
  rewrite (parse_line ws l H [] [] 16) by (cbn [length]; lia). cbn [length app Nat.add].
  destruct (Nat.leb_spec (length ws) 15) as [Hn|Hn].
  - rewrite (proj2 (Nat.ltb_ge _ _)) by done. destruct H as [|g w ws l _ Hw _ _]; [done|].
    rewrite <- find_command by (by apply word_bytes). by destruct (list_find _ _) as [[i c]|].
  - by rewrite (proj2 (Nat.ltb_lt _ _)).
Qed.

(** Every command returns 0, when it returns. *)
Lemma run_command_zero depth c s r s' : run depth c s = (Ret r, s') -> r = 0.
Proof.
  destruct c; cbn [run_command]; unfold mon_help, mon_kerninfo, mon_backtrace; intros H;
    repeat (apply bind_inv in H as (? & ? & _ & H)); by injection H as <- _.
Qed.

Lemma runcmd_zero depth l s r s' : line_command depth l s = (Ret r, s') -> r = 0.
Proof.
  unfold runcmd. destruct (parse_args _ l []) as [[|w argv]|].
  - by intros [= <- _].
  - destruct (list_find _ _) as [[i c]|]; [apply run_command_zero|].
    intros H. apply bind_inv in H as (? & ? & _ & H). by injection H as <- _.
  - intros H. apply bind_inv in H as (? & ? & _ & H). by injection H as <- _.
Qed.

Abbreviation rounds_of := (monitor_loop start_ entry etext edata end_ ebp0 kern_tab user_tab lookups).

(** The console after the prompt. *)
Definition prompt (c : console) : console := fold_left (fun c ch => Console.cputchar ch c) (chars "K> ") c.

Lemma prompt_ok s : cprintf "%s" [VS "K> "] s = (Ret tt, set_con (prompt (con s)) s).
Proof.
  assert (E : trace (cstr "%s") [VS "K> "] = Some (chars "K> ")) by (by vm_compute).
  unfold cprintf, Console.cprintf, vcprintf. rewrite vprintfmt_replay, E.
  cbn [fmap option_fmap option_map mbind option_bind]. rewrite replay_console. unfold prompt. reflexivity.
Qed.

Lemma prompt_bytes c : buffer_bytes c -> buffer_bytes (prompt c).
Proof. apply buffer_same. apply (cputchar_input (chars "K> ") c). Qed.

(** The monitor never returns to the kernel. *)
Lemma monitor_loop_stays rounds : forall lines tries depth s, fst (rounds_of rounds lines tries depth s) <> Ret tt.
Proof.
  induction rounds as [|rounds IH]; intros lines tries depth s; [done|]. cbn [monitor_loop].
  destruct (readline lines tries lookups (Some "K> "%string) s) as [[buf|st] s1] eqn:E1; [|by rewrite (bind_Stop _ _ _ _ _ E1)].
  rewrite (bind_Ret _ _ _ _ _ E1).
  destruct ((match buf with Some l => line_command depth l | None => mret 0 end) s1) as [[r|st] s2] eqn:E2;
    [|by rewrite (bind_Stop _ _ _ _ _ E2)].
  rewrite (bind_Ret _ _ _ _ _ E2).
  assert (r = 0) as -> by (destruct buf; [by eapply runcmd_zero | by injection E2 as <- _]).
  apply IH.
Qed.

End Interpreter.

(** ** The monitor *)

Section Monitor.

(** C36. The monitor reads a line and executes it: for keys typed at the prompt and ended by Enter,
    with backspace and delete erasing, the line is shorter than 1024 bytes, [readline] ends and
    returns it, it is split into its words, and the monitor runs the command that the first word
    names, or reports an unknown command or too many words, and then waits for the next line.  It
    never returns to its caller. *)
Theorem monitor_executes start_ entry etext edata end_ ebp0 kern_tab user_tab s ks c' :
  buffer_bytes (con s) -> typed (prompt (con s)) [] ks c' ->
  good_line (edit_line [] ks) /\ buffer_bytes c' /\
  (exists ws, line_of ws (edit_line [] ks)) /\
  exists n, forall rounds lines tries fuel depth ws,
    (n <= lines)%nat -> (n <= tries)%nat -> (n <= fuel)%nat -> line_of ws (edit_line [] ks) ->
    monitor_loop start_ entry etext edata end_ ebp0 kern_tab user_tab fuel (S rounds) lines tries depth s =
    (execute start_ entry etext edata end_ ebp0 kern_tab user_tab fuel depth ws ;;
     monitor_loop start_ entry etext edata end_ ebp0 kern_tab user_tab fuel rounds lines tries depth) (set_con c' s) /\
    fst (monitor_loop start_ entry etext edata end_ ebp0 kern_tab user_tab fuel rounds lines tries depth s) <> Ret tt.
Proof.
  intros Hb Ht. assert (Hb1 := prompt_bytes _ Hb).
  destruct (edit_line_good ks _ _ _ Ht Hb1) as [Hg Hb']; [split; [constructor | reflexivity]|].
  split; [done|]. split; [done|]. split; [exact (line_total _ (proj1 Hg))|].
  destruct (readline_typed ks _ [] c' Ht Hb1) as [n Hn]. exists n.
  intros rounds lines tries fuel depth ws H1 H2 H3 Hws. split; [|apply monitor_loop_stays].
  assert (E1 : readline lines tries fuel (Some "K> "%string) s = (Ret (Some (edit_line [] ks ++ [0])), set_con c' s)).
  { unfold readline. rewrite (bind_Ret _ _ _ _ _ (prompt_ok s)). exact (Hn lines tries fuel s H1 H2 H3). }
  cbn [monitor_loop]. rewrite (bind_Ret _ _ _ _ _ E1). apply bind_same.
  - exact (runcmd_line _ _ _ _ _ _ _ _ _ depth ws _ _ Hws).
  - intros r s2 E2. apply runcmd_zero in E2 as ->. reflexivity.
Qed.

End Monitor.

(** ** Witnesses *)

Section Witnesses.

(** A keyboard whose keys are h, e, i, backspace, l, p and Enter. *)
Definition ex_keyboard : console :=
  set_io (mkPorts (fun p n => if p =? KBSTATP then (if (n <? 7)%nat then 1 else 0)
                              else if p =? KBDATAP then nth n [0x23; 0x12; 0x17; 0x0E; 0x26; 0x19; 0x1C] 0
                              else 0xFF) ∅ []) ex_console.

Definition ex_no_stabs : stabtab := mkStabtab (fun _ => mkStab 0 0 0 0 0) 0 [].

(** The keys of a line from a console, each with [n] tries. *)
Fixpoint type_run (n : nat) (ks : list Z) (l : list Z) (c : console) : option console :=
  '(k, c) ← Console.getchar n n c;
  match ks with
  | [] => if (k =? 10) || (k =? 13) then Some (Console.cputchar 10 c) else None
  | k' :: ks' => if (k =? k') && negb ((k =? 10) || (k =? 13)) then type_run n ks' (edit_key l k) (echo_key l k c) else None
  end.

Lemma type_run_typed n ks : forall l c c', type_run n ks l c = Some c' -> typed c l ks c'.
Proof.
  induction ks as [|k' ks IH]; intros l c c' H; cbn [type_run] in H; apply bind_Some in H as ([k c1] & Hg & H);
    destruct ((k =? 10) || (k =? 13)) eqn:E; rewrite ?andb_false_r in H; try done.
  - injection H as <-. eapply typed_enter; [by exists n|]. unfold is_enter. lia.
  - destruct (Z.eqb_spec k k') as [<-|]; [|done]. eapply typed_key; [by exists n | unfold is_enter; lia | exact (IH _ _ _ H)].
Qed.

Lemma monitor_executes_witness :
  exists c' n, forall rounds lines tries fuel depth,
    (n <= lines)%nat -> (n <= tries)%nat -> (n <= fuel)%nat ->
    monitor_loop 0 0 0 0 0 0 ex_no_stabs (halt SDiverge) fuel (S rounds) lines tries depth (set_con ex_keyboard (ex_boot 0)) =
    (mon_help ;; monitor_loop 0 0 0 0 0 0 ex_no_stabs (halt SDiverge) fuel rounds lines tries depth)
      (set_con c' (set_con ex_keyboard (ex_boot 0))).
Proof.
  assert (H : exists c', type_run 20 (chars "hei" ++ [8] ++ chars "lp") [] (prompt ex_keyboard) = Some c')
    by (eexists; vm_compute; reflexivity).
  destruct H as [c' H]. apply type_run_typed in H. exists c'.
  destruct (monitor_executes 0 0 0 0 0 0 ex_no_stabs (halt SDiverge) (set_con ex_keyboard (ex_boot 0)) _ c'
              ltac:(done) H) as (_ & _ & _ & n & Hn).
  exists n. intros rounds lines tries fuel depth H1 H2 H3.
  refine (proj1 (Hn rounds lines tries fuel depth [chars "help"] H1 H2 H3 _)).
  apply (line_word [] (chars "help") [] []); [constructor | split; [done | repeat constructor] | done | apply line_end; constructor].
Defined.

End Witnesses.
