(* ===== verification/MpProps.v ===== *)
(** * MpProps: the multiprocessor tables

    kern/mpconfig.c looks for the tables that the BIOS leaves in low memory
    and registers the processors it finds there.  The search, the validation
    and the entries are described as functions of the bytes in memory. *)

From S2P Require Import Prelude Machine CString Printfmt Hardware Console PrintfProps Kernel KernelProps Pmap PageAlloc.
From S2P Require Import Env Devices Example.

(** Runs the first action of a sequence by the equation [E]. *)
Ltac step E := rewrite (bind_Ret _ _ _ _ _ E).

(** ** Memory as bytes *)

Section Bytes.

Definition mem_byte (m : gmap Z (gmap Z Z)) (a : Z) : Z := get_byte (mload m (a - a `mod` 4)) (a `mod` 4).

Lemma vload8_kernel s a : 0 <= a -> vload8 (KERNBASE + a) s = (Ret (mem_byte (mem s) a), s).
Proof.
  intros Ha. unfold vload8, translate. rewrite (proj2 (Z.leb_le _ _)) by lia.
  by replace (KERNBASE + a - KERNBASE) with a by lia.
Qed.

Lemma mem_byte_range m a : 0 <= mem_byte m a < 256.
Proof. unfold mem_byte, get_byte. change 0xFF with (Z.ones 8). rewrite Z.land_ones by lia. apply Z.mod_pos_bound. lia. Qed.

Lemma vload16_kernel s a : 0 <= a -> vload16 (KERNBASE + a) s = (Ret (le16 (mem_byte (mem s)) a), s).
Proof.
  intros Ha. unfold vload16. rewrite (bind_Ret _ _ _ _ _ (vload8_kernel s a Ha)).
  rewrite <- Z.add_assoc. by rewrite (bind_Ret _ _ _ _ _ (vload8_kernel s (a + 1) ltac:(lia))).
Qed.

Lemma vload32_kernel s a : 0 <= a -> vload32 (KERNBASE + a) s = (Ret (le32 (mem_byte (mem s)) a), s).
Proof.
  intros Ha. unfold vload32. rewrite (bind_Ret _ _ _ _ _ (vload16_kernel s a Ha)).
  rewrite <- Z.add_assoc. by rewrite (bind_Ret _ _ _ _ _ (vload16_kernel s (a + 2) ltac:(lia))).
Qed.

(** The sum of [n] bytes. *)
Fixpoint total (B : Z -> Z) (n : nat) (a : Z) : Z :=
  match n with O => 0 | S n' => B a + total B n' (a + 1) end.
Definition checksum (B : Z -> Z) (a len : Z) : Z := total B (Z.to_nat len) a `mod` 256.

Lemma sum_kernel s a len : 0 <= a -> sum (KERNBASE + a) len s = (Ret (checksum (mem_byte (mem s)) a len), s).
Proof.
  intros Ha. unfold sum, checksum.
  assert (H : forall n a acc, 0 <= a -> sum_bytes n (KERNBASE + a) acc s = (Ret (acc + total (mem_byte (mem s)) n a), s)).
  { clear. induction n as [|n IH]; intros a acc Ha; cbn [sum_bytes total]; [by rewrite Z.add_0_r|].
    rewrite (bind_Ret _ _ _ _ _ (vload8_kernel s a Ha)), <- Z.add_assoc, IH by lia. by rewrite Z.add_assoc. }
  by rewrite (bind_Ret _ _ _ _ _ (H _ _ _ Ha)).
Qed.

(** The bytes from [a] on begin with [sig]. *)
Fixpoint begins (B : Z -> Z) (a : Z) (sig : list Z) : bool :=
  match sig with [] => true | c :: sig' => (B a =? c) && begins B (a + 1) sig' end.

Lemma signature_kernel s sig a : 0 <= a -> signature_is (KERNBASE + a) sig s = (Ret (begins (mem_byte (mem s)) a sig), s).
Proof.
  revert a. induction sig as [|c sig IH]; intros a Ha; cbn [signature_is begins]; [done|].
  rewrite (bind_Ret _ _ _ _ _ (vload8_kernel s a Ha)). destruct (_ =? c); [|done].
  rewrite <- Z.add_assoc, IH by lia. done.
Qed.

End Bytes.

(** ** The search *)

Section Search.

(** A floating pointer structure: the signature and a checksum of 0. *)
Definition is_mp (B : Z -> Z) (a : Z) : bool := begins B a (chars "_MP_") && (checksum B a 16 =? 0).

(** The first one at a multiple of 16 bytes from [a]. *)
Fixpoint first_mp (B : Z -> Z) (n : nat) (a : Z) : option Z :=
  match n with O => None | S n' => if is_mp B a then Some a else first_mp B n' (a + 16) end.

Lemma mpsearch_loop_kernel s n a : 0 <= a ->
  mpsearch_loop n (KERNBASE + a) s = (Ret (Z.add KERNBASE <$> first_mp (mem_byte (mem s)) n a), s).
Proof.
  revert a. induction n as [|n IH]; intros a Ha; cbn [mpsearch_loop first_mp]; [done|].
  rewrite (bind_Ret _ _ _ _ _ (signature_kernel s (chars "_MP_") a Ha)). unfold is_mp.
  destruct (begins _ a _); cbn [andb].
  - rewrite (bind_Ret _ _ s (checksum (mem_byte (mem s)) a 16 =? 0) s).
    + destruct (_ =? 0); [done|]. unfold sizeof_mp. rewrite <- Z.add_assoc. apply IH. lia.
    + by rewrite (bind_Ret _ _ _ _ _ (sum_kernel s a 16 Ha)).
  - erewrite bind_Ret; [|reflexivity]. unfold sizeof_mp. rewrite <- Z.add_assoc. apply IH. lia.
Qed.

Lemma KADDR_low s a : 0 <= a < 4096 * npages s -> npages s <= 65536 -> KADDR a s = (Ret (KERNBASE + a), s).
Proof.
  intros Ha Hn. rewrite (Z_div_mod_eq_full a 4096), KADDR_eq by zdm. by rewrite Z.add_comm.
Qed.

Lemma mpsearch1_kernel s a n : 0 <= a -> a + 16 * Z.of_nat n < 4096 * npages s -> npages s <= 65536 ->
  mpsearch1 a (16 * Z.of_nat n) s = (Ret (Z.add KERNBASE <$> first_mp (mem_byte (mem s)) n a), s).
Proof.
  intros Ha Hn Hp. unfold mpsearch1. rewrite (bind_Ret _ _ _ _ _ (KADDR_low s a ltac:(lia) Hp)).
  rewrite u32_small by lia. rewrite (bind_Ret _ _ _ _ _ (KADDR_low s (a + 16 * Z.of_nat n) ltac:(lia) Hp)).
  replace (Z.to_nat _) with n; [by apply mpsearch_loop_kernel|]. unfold sizeof_mp. zdm.
Qed.

(** Where the structure may be: the start of the extended BIOS data area, or the end of base
    memory, or the ROM of the BIOS. *)
Definition base_area (B : Z -> Z) : Z :=
  if le16 B 0x40E =? 0 then 1024 * le16 B 0x413 - 1024 else 16 * le16 B 0x40E.
Definition find_mp (B : Z -> Z) : option Z :=
  match first_mp B 64 (base_area B) with Some mp => Some mp | None => first_mp B 4096 0xF0000 end.

(** The machine has more than 1 MB of memory, and the area it names is in it. *)
Record low_ok (s : kstate) : Prop := mkLowOk {
  lo_npages : 256 < npages s <= 65536;
  lo_area : 0 <= base_area (mem_byte (mem s)) /\ base_area (mem_byte (mem s)) + 1024 < 4096 * npages s;
}.

Lemma mpsearch_kernel s : low_ok s -> mpsearch s = (Ret (Z.add KERNBASE <$> find_mp (mem_byte (mem s))), s).
Proof.
  intros [Hn Ha]. unfold mpsearch, find_mp, base_area in *. set (B := mem_byte (mem s)) in *.
  change (Z.shiftl 0x40 4) with 0x400. rewrite (bind_Ret _ _ _ _ _ (KADDR_low s 0x400 ltac:(lia) ltac:(lia))).
  replace (KERNBASE + 0x400 + 0x0E) with (KERNBASE + 0x40E) by lia.
  rewrite (bind_Ret _ _ _ _ _ (vload16_kernel s 0x40E ltac:(lia))).
  replace (KERNBASE + 0x400 + 0x13) with (KERNBASE + 0x413) by lia. fold B.
  rewrite (bind_Ret _ _ s (Z.add KERNBASE <$> first_mp B 64 (if le16 B 0x40E =? 0 then 1024 * le16 B 0x413 - 1024 else 16 * le16 B 0x40E)) s).
  - destruct (first_mp B 64 _); [done|]. exact (mpsearch1_kernel s 0xF0000 4096 ltac:(lia) ltac:(lia) ltac:(lia)).
  - destruct (le16 B 0x40E =? 0) eqn:E; cbn [negb].
    + rewrite (bind_Ret _ _ _ _ _ (vload16_kernel s 0x413 ltac:(lia))). fold B.
      rewrite u32_small, (Z.mul_comm (le16 B 0x413)) by lia.
      exact (mpsearch1_kernel s (1024 * le16 B 0x413 - 1024) 64 ltac:(lia) ltac:(lia) ltac:(lia)).
    + rewrite Z.shiftl_mul_pow2, Z.mul_comm by lia. change (2 ^ 4) with 16.
      exact (mpsearch1_kernel s (16 * le16 B 0x40E) 64 ltac:(lia) ltac:(lia) ltac:(lia)).
Qed.

End Search.

(** ** The configuration table *)

Section Table.

(** The table at [conf] that the structure at [mp] points to is acceptable. *)
Definition valid_table (B : Z -> Z) (mp conf : Z) : bool :=
  negb (conf =? 0) && (B (mp + 11) =? 0) && begins B conf (chars "PCMP") &&
  (checksum B conf (le16 B (conf + 4)) =? 0) && ((B (conf + 6) =? 1) || (B (conf + 6) =? 4)) &&
  (checksum B (conf + le16 B (conf + 4)) (le16 B (conf + 40)) =? B (conf + 42)).

(** What [mpconfig] looks for. *)
Definition find_table (B : Z -> Z) : option (Z * Z) :=
  mp ← find_mp B; if valid_table B mp (le32 B (mp + 4)) then Some (mp, le32 B (mp + 4)) else None.

Lemma first_mp_range B n a mp : first_mp B n a = Some mp -> a <= mp.
Proof.
  revert a. induction n as [|n IH]; intros a; cbn [first_mp]; [done|].
  destruct (is_mp B a); [by intros [= <-] | intros H%IH; lia].
Qed.

Lemma find_mp_range s mp : low_ok s -> find_mp (mem_byte (mem s)) = Some mp -> 0 <= mp.
Proof.
  intros [_ Ha]. unfold find_mp. destruct (first_mp _ 64 _) as [x|] eqn:E.
  - intros [= <-]. apply first_mp_range in E. lia.
  - intros H%first_mp_range. lia.
Qed.

Lemma set_con_same s : set_con (con s) s = s.
Proof. by destruct s. Qed.

Section Fields.

Context (s : kstate) (b o : Z) (Hb : 0 <= b) (Ho : 0 <= o).

Lemma field8 : vload8 (KERNBASE + b + o) s = (Ret (mem_byte (mem s) (b + o)), s).
Proof. rewrite <- Z.add_assoc. apply vload8_kernel. lia. Qed.
Lemma field16 : vload16 (KERNBASE + b + o) s = (Ret (le16 (mem_byte (mem s)) (b + o)), s).
Proof. rewrite <- Z.add_assoc. apply vload16_kernel. lia. Qed.
Lemma field32 : vload32 (KERNBASE + b + o) s = (Ret (le32 (mem_byte (mem s)) (b + o)), s).
Proof. rewrite <- Z.add_assoc. apply vload32_kernel. lia. Qed.

End Fields.

Lemma le16_nonneg m a : 0 <= le16 (mem_byte m) a.
Proof. unfold le16. pose proof (mem_byte_range m a). pose proof (mem_byte_range m (a + 1)). lia. Qed.

Lemma le32_nonneg m a : 0 <= le32 (mem_byte m) a.
Proof. unfold le32. pose proof (le16_nonneg m a). pose proof (le16_nonneg m (a + 2)). lia. Qed.

(** A table is refused with a message. *)
Lemma refuse msg ap s : matches (cstr msg) ap ->
  exists c, (cprintf msg ap ;; mret (@None (Z * Z))) s = (Ret None, set_con c s).
Proof. intros Hm. destruct (cprintf_matches msg ap s Hm) as [c Hp]. exists c. by rewrite (bind_Ret _ _ _ _ _ Hp). Qed.

Ltac refused := apply refuse; split; [vm_compute; reflexivity | repeat constructor].
(** [mpconfig] finds it, or reports what is wrong and finds nothing. *)
Lemma mpconfig_kernel s :
  low_ok s -> (forall mp, find_mp (mem_byte (mem s)) = Some mp -> le32 (mem_byte (mem s)) (mp + 4) < 4096 * npages s) ->
  exists c, mpconfig s =
    (Ret ((fun t => (KERNBASE + fst t, KERNBASE + snd t)) <$> find_table (mem_byte (mem s))), set_con c s).
Proof.
  intros Hlow Hin. unfold mpconfig, find_table. step (mpsearch_kernel s Hlow).
  destruct (find_mp (mem_byte (mem s))) as [mp|] eqn:Emp; cbn [fmap option_fmap option_map mbind option_bind];
    [|by exists (con s); rewrite set_con_same].
  assert (Hmp := find_mp_range s mp Hlow Emp). specialize (Hin mp eq_refl). destruct Hlow as [Hn _].
  step (field32 s mp 4 Hmp ltac:(lia)). step (field8 s mp 11 Hmp ltac:(lia)).
  assert (Hc := le32_nonneg (mem s) (mp + 4)). set (conf := le32 _ (mp + 4)) in *. unfold valid_table.
  destruct (conf =? 0); cbn [orb negb andb]; [refused|]. destruct (mem_byte (mem s) (mp + 11) =? 0); cbn [negb andb]; [|refused].
  step (KADDR_low s conf ltac:(lia) ltac:(lia)). step (signature_kernel s (chars "PCMP") conf Hc).
  destruct (begins _ conf _); cbn [negb andb]; [|refused].
  step (field16 s conf 4 Hc ltac:(lia)). assert (Hl := le16_nonneg (mem s) (conf + 4)). set (len := le16 _ (conf + 4)) in *.
  step (sum_kernel s conf len Hc). destruct (checksum _ conf len =? 0); cbn [negb andb]; [|refused].
  step (field8 s conf 6 Hc ltac:(lia)). set (version := mem_byte (mem s) (conf + 6)).
  destruct (version =? 1), (version =? 4); cbn [negb orb andb]; try refused;
    (step (field16 s conf 40 Hc ltac:(lia)); step (field8 s conf 42 Hc ltac:(lia)); rewrite <- Z.add_assoc;
     step (sum_kernel s (conf + len) (le16 (mem_byte (mem s)) (conf + 40)) ltac:(lia));
     destruct (_ =? mem_byte (mem s) (conf + 42)); cbn [negb andb]; [by exists (con s); rewrite set_con_same | refused]).
Qed.

End Table.

(** ** The processors *)

Section Processors.

(** The entries of a table: for every processor whether it is the boot processor, and whether all
    entries have a known type; an unknown one ends the walk. *)
Fixpoint decode (B : Z -> Z) (n : nat) (p : Z) : list bool * bool :=
  match n with
  | O => ([], true)
  | S n' =>
      if B p =? MPPROC then let '(l, ok) := decode B n' (p + 20) in (test (B (p + 3)) MPPROC_BOOT :: l, ok)
      else if bool_decide (1 <= B p <= 4) then decode B n' (p + 8)
      else ([], false)
  end.

(** The number of processors registered and the index of the boot processor, when [n] and [b]
    were before the processors [l]. *)
Fixpoint register (l : list bool) (n b : Z) : Z * Z :=
  match l with
  | [] => (n, b)
  | boot :: l' => register l' (Z.min NCPU (n + 1)) (if (boot : bool) then n else b)
  end.

(** The array of processors with the identifiers from [n] on filled in up to [m]. *)
Definition numbered (cp cp' : gmap Z CpuInfo) (n m : Z) : Prop := forall i,
  option_Forall2 (fun c c' => cpu_status c' = cpu_status c /\ cpu_env c' = cpu_env c /\
    cpu_id c' = if bool_decide (n <= i < m) then i else cpu_id c) (cp !! i) (cp' !! i).

Lemma numbered_refl cp n : numbered cp cp n n.
Proof. intros i. destruct (cp !! i); constructor. by rewrite bool_decide_false by lia. Qed.

Lemma numbered_next cp cp' n m c :
  0 <= n < m -> n < 256 -> cp !! n = Some c ->
  numbered (<[n := mkCpuInfo (u8 n) (cpu_status c) (cpu_env c)]> cp) cp' (n + 1) m -> numbered cp cp' n m.
Proof.
  intros Hn Hn2 Hc H i. specialize (H i). rewrite lookup_insert in H. case_decide as Hi.
  - subst i. rewrite Hc. inversion H as [? c' (H2 & H3 & H4) |]; subst. constructor.
    rewrite bool_decide_true by lia. rewrite H4, bool_decide_false by lia. cbn [cpu_id]. by rewrite u8_small by lia.
  - inversion H as [? c' (H2 & H3 & H4) |]; subst; constructor. split_and!; [done..|].
    rewrite H4. do 2 case_bool_decide; (done || lia).
Qed.

Lemma numbered_dom cp cp' n m i : numbered cp cp' n m -> is_Some (cp' !! i) <-> is_Some (cp !! i).
Proof. intros H. specialize (H i). inversion H; subst; split; (done || by intros [? ?]). Qed.

(** The kernel state with other processors, console and machine registers. *)
Definition upd (c : console) (cp : gmap Z CpuInfo) (h : machine) (s : kstate) : kstate := set_con c (set_cpus cp (set_hw h s)).

Definition registered (n b : Z) (ok : bool) (h : machine) : machine :=
  set_ismp (if ok then ismp h else 0) (set_ncpu n (set_bootcpu (Some b) h)).

Lemma upd_same s : upd (con s) (cpus s) (hw s) s = s.
Proof. by destruct s. Qed.

Lemma registered_same h b : bootcpu h = Some b -> registered (ncpu h) b true h = h.
Proof. intros E. unfold registered. rewrite <- E. by destruct h. Qed.

Lemma cpu_update_eq s i c f : cpus s !! i = Some c -> cpu_update i f s = (Ret tt, set_cpus (<[i := f c]> (cpus s)) s).
Proof. intros H. unfold cpu_update. by rewrite H. Qed.

(** The entry of a processor. *)
Definition proc_hw (boot : bool) (h : machine) : machine :=
  set_ncpu (Z.min NCPU (ncpu h + 1)) (if boot then set_bootcpu (Some (ncpu h)) h else h).

Lemma proc_hw_same (boot : bool) h : ~ ncpu h < NCPU -> ncpu h <= NCPU ->
  (if boot then set_bootcpu (Some (ncpu h)) h else h) = proc_hw boot h.
Proof. intros H1 H2. unfold proc_hw. rewrite Z.min_l by lia. replace NCPU with (ncpu h) by lia. by destruct boot, h. Qed.

Lemma mp_entry_proc s p :
  0 <= p -> mem_byte (mem s) p = MPPROC -> 0 <= ncpu (hw s) <= NCPU -> (forall i, 0 <= i < NCPU -> is_Some (cpus s !! i)) ->
  exists c cp, mp_entry (KERNBASE + p) s =
      (Ret (Some (KERNBASE + (p + 20))), upd c cp (proc_hw (test (mem_byte (mem s) (p + 3)) MPPROC_BOOT) (hw s)) s) /\
    (forall i, 0 <= i < NCPU -> is_Some (cp !! i)) /\
    forall cp' m, Z.min NCPU (ncpu (hw s) + 1) <= m -> numbered cp cp' (Z.min NCPU (ncpu (hw s) + 1)) m -> numbered (cpus s) cp' (ncpu (hw s)) m.
Proof.
  intros Hp Hty Hn Hcp. unfold mp_entry. step (vload8_kernel s p Hp). rewrite Hty. change (MPPROC =? MPPROC) with true. cbv iota.
  step (field8 s p 3 Hp ltac:(lia)). kgo get_eq. set (boot := test _ MPPROC_BOOT).
  set (s1 := set_hw (if boot then set_bootcpu (Some (ncpu (hw s))) (hw s) else hw s) s).
  assert (Hw : when boot (hw_update (fun h => set_bootcpu (Some (ncpu h)) h)) s = (Ret tt, s1))
    by (unfold s1; destruct boot; [done | by destruct s]).
  step Hw. clear Hw. destruct (Z.ltb_spec (ncpu (hw s)) NCPU) as [Hlt | Hge].
  - destruct (Hcp (ncpu (hw s)) ltac:(lia)) as [cpu Hcpu].
    exists (con s), (<[ncpu (hw s) := mkCpuInfo (u8 (ncpu (hw s))) (cpu_status cpu) (cpu_env cpu)]> (cpus s)). split; [|split].
    + assert (Hc1 : cpus s1 !! ncpu (hw s) = Some cpu) by exact Hcpu. rewrite bind_assoc.
      step (cpu_update_eq s1 _ cpu (fun c => mkCpuInfo (u8 (ncpu (hw s))) (cpu_status c) (cpu_env c)) Hc1).
      erewrite bind_Ret; [|reflexivity]. unfold sizeof_mpproc. rewrite <- Z.add_assoc.
      unfold mret, K_ret, upd, proc_hw, s1. rewrite Z.min_r by lia. by destruct boot, s.
    + intros i Hi. rewrite lookup_insert. case_decide; [by eexists | by apply Hcp].
    + intros cp' m. rewrite Z.min_r by lia. intros Hm H. apply (numbered_next (cpus s) cp' _ m cpu); [lia | | done | done].
      change NCPU with 8 in *. lia.
  - rewrite <- (proc_hw_same boot (hw s)) by lia. rewrite bind_assoc.
    assert (Hm : mem s1 = mem s) by done. step (field8 s1 p 1 Hp ltac:(lia)).
    match goal with |- context [cprintf ?f ?a] => destruct (cprintf_matches f a s1) as [c Hc];
      [split; [vm_compute; reflexivity | repeat constructor]|] end.
    step Hc. exists c, (cpus s). split; [|split; [done|]].
    + unfold sizeof_mpproc. rewrite <- Z.add_assoc. unfold s1, upd. by destruct s.
    + rewrite Z.min_l by lia. by replace NCPU with (ncpu (hw s)) by lia.
Qed.

(** The walk over the table. *)
Lemma mp_entries_kernel n : forall s p b,
  0 <= p -> bootcpu (hw s) = Some b -> ismp (hw s) = 1 -> 0 <= ncpu (hw s) <= NCPU -> (forall i, 0 <= i < NCPU -> is_Some (cpus s !! i)) ->
  forall l ok m b', decode (mem_byte (mem s)) n p = (l, ok) -> register l (ncpu (hw s)) b = (m, b') ->
  ncpu (hw s) <= m /\
  exists c cp, mp_entries n (KERNBASE + p) s = (Ret tt, upd c cp (registered m b' ok (hw s)) s) /\ numbered (cpus s) cp (ncpu (hw s)) m.
Proof.
  induction n as [|n IH]; intros s p b Hp Hb Hi Hn Hcp l ok m b' Hd Hr; cbn [mp_entries decode] in *.
  - injection Hd as <- <-. injection Hr as <- <-. split; [lia|]. exists (con s), (cpus s). split; [|apply numbered_refl].
    rewrite registered_same, upd_same by done. done.
  - destruct (Z.eqb_spec (mem_byte (mem s) p) MPPROC) as [Hty | Hty].
    + destruct (mp_entry_proc s p Hp Hty Hn Hcp) as (c1 & cp1 & He & Hcp1 & Hnum). step He.
      destruct (decode _ n (p + 20)) as [l1 ok1] eqn:Hd1. injection Hd as <- <-. cbn [register] in Hr.
      set (boot := test _ MPPROC_BOOT) in *. set (s1 := upd c1 cp1 (proc_hw boot (hw s)) s) in *.
      assert (Hs1 : bootcpu (hw s1) = Some (if boot then ncpu (hw s) else b) /\ ismp (hw s1) = 1 /\
                    ncpu (hw s1) = Z.min NCPU (ncpu (hw s) + 1)) by (unfold s1, proc_hw; by destruct boot).
      destruct Hs1 as (B1 & B2 & B3).
      destruct (IH s1 (p + 20) _ ltac:(lia) B1 B2 ltac:(rewrite B3; lia) Hcp1 l1 ok1 m b' Hd1 ltac:(by rewrite B3)) as (Hle & c & cp & Hrun & Hnum1).
      rewrite B3 in Hle, Hnum1. split; [lia|]. exists c, cp. split; [|exact (Hnum cp m Hle Hnum1)].
      rewrite Hrun. unfold s1, upd, registered, proc_hw. by destruct boot, ok1.
    + destruct (bool_decide_reflect (1 <= mem_byte (mem s) p <= 4)) as [Hk | Hk].
      * assert (He : mp_entry (KERNBASE + p) s = (Ret (Some (KERNBASE + (p + 8))), s)).
        { unfold mp_entry. step (vload8_kernel s p Hp). rewrite (proj2 (Z.eqb_neq _ _) Hty).
          rewrite Z.add_assoc. unfold MPBUS, MPIOAPIC, MPIOINTR, MPLINTR. by repeat zcase; try lia. }
        step He. exact (IH s (p + 8) b ltac:(lia) Hb Hi Hn Hcp l ok m b' Hd Hr).
      * injection Hd as <- <-. injection Hr as <- <-. split; [lia|].
        destruct (cprintf_matches "mpinit: unknown config type %x\n" [VInt (mem_byte (mem s) p)] s) as [c Hc];
          [split; [vm_compute; reflexivity | repeat constructor]|].
        assert (He : mp_entry (KERNBASE + p) s = (Ret None, set_hw (set_ismp 0 (hw s)) (set_con c s))).
        { unfold mp_entry. step (vload8_kernel s p Hp). rewrite (proj2 (Z.eqb_neq _ _) Hty).
          unfold MPBUS, MPIOAPIC, MPIOINTR, MPLINTR, MPPROC in *. repeat (rewrite (proj2 (Z.eqb_neq _ _)) by lia). cbn [orb].
          by step Hc. }
        step He. exists c, (cpus s). split; [|apply numbered_refl]. unfold upd, registered. rewrite <- Hb. by destruct s as [].
Qed.

Lemma register_count l : forall n b, 0 <= n <= NCPU -> fst (register l n b) = Z.min NCPU (n + Z.of_nat (length l)).
Proof. induction l as [|boot l IH]; intros n b Hn; cbn [register length fst]; [lia|]. rewrite IH by lia. lia. Qed.

Lemma register_boot l : forall n b, 0 <= n <= NCPU -> 0 <= b <= NCPU -> 0 <= snd (register l n b) <= NCPU.
Proof. induction l as [|boot l IH]; intros n b Hn Hb; cbn [register snd]; [done|]. apply IH; [lia | by destruct boot]. Qed.

Lemma with_io_con {A} (f : ports -> A * ports) s : exists a c, with_io f s = (Ret a, set_con c s).
Proof. unfold with_io. destruct (f (io (con s))) as [a i]. by eexists _, _. Qed.

(** The end of [mp_init]: in PIC mode interrupts are switched to the local APIC. *)
Lemma imcr_switch s b :
  exists c, when b
      (cprintf "SMP: Setting IMCR to switch from PIC mode to symmetric I/O mode\n" [] ;;
       out_io (outb 0x22 0x70) ;; v ← with_io (inb 0x23); out_io (outb 0x23 (Z.lor v 1))) s = (Ret tt, set_con c s).
Proof.
  destruct b; [|exists (con s); by rewrite set_con_same]. cbn [when]. kprint c1. erewrite bind_Ret; [|reflexivity].
  match goal with |- context [(with_io ?f ≫= _) ?t] => destruct (with_io_con f t) as (v & c2 & H) end.
  step H. by eexists.
Qed.

(** The machine registers after [mp_init]. *)
Definition mp_hw (n b la : Z) (ok : bool) (h : machine) : machine :=
  set_lapicaddr (if ok then la else 0) (set_ncpu (if ok then n else 1)
    (set_ismp (if ok then 1 else 0) (set_bootcpu (Some b) h))).

Lemma upd_upd c cp h c' cp' h' s : upd c cp h (upd c' cp' h' s) = upd c cp h s.
Proof. done. Qed.

Lemma mp_hw_eq (ok : bool) n b la h (h2 := registered n b ok (set_lapicaddr la (set_ismp 1 (set_bootcpu (Some 0) h)))) :
  (if ok then h2 else set_lapicaddr 0 (set_ncpu 1 h2)) = mp_hw n b la ok h.
Proof. by destruct ok. Qed.

(** The part of [mp_init] behind the walk. *)
Lemma mp_finish s mp b cpu (ok : bool) :
  0 <= mp -> bootcpu (hw s) = Some b -> cpus s !! b = Some cpu -> ismp (hw s) = (if ok then 1 else 0) ->
  exists c,
    (s ← get; b ← deref (bootcpu (hw s)); cpu_update b (set_cpu_status CPU_STARTED) ;;
      if ismp (hw s) =? 0 then
        hw_update (set_ncpu 1) ;; hw_update (set_lapicaddr 0) ;;
        cprintf "SMP: configuration not found, SMP disabled\n" []
      else
        cprintf "SMP: CPU %d found %d CPU(s)\n" [VInt (cpu_id (default cpu0 (cpus s !! b))); VInt (ncpu (hw s))] ;;
        imcrp ← vload8 (KERNBASE + mp + 12);
        when (negb (imcrp =? 0))
          (cprintf "SMP: Setting IMCR to switch from PIC mode to symmetric I/O mode\n" [] ;;
           out_io (outb 0x22 0x70) ;; v ← with_io (inb 0x23); out_io (outb 0x23 (Z.lor v 1)))) s =
    (Ret tt, upd c (<[b := set_cpu_status CPU_STARTED cpu]> (cpus s))
               (if ok then hw s else set_lapicaddr 0 (set_ncpu 1 (hw s))) s).
Proof.
  intros Hmp Hb Hcpu Hok. kgo get_eq. rewrite Hb. kgo @deref_eq. step (cpu_update_eq s b cpu (set_cpu_status CPU_STARTED) Hcpu).
  set (s1 := set_cpus _ s). rewrite Hok. destruct ok; cbn [Z.eqb].
  - kprint c. step (field8 (set_con c s1) mp 12 Hmp ltac:(lia)).
    match goal with |- context [when ?b _ ?t] => destruct (imcr_switch t b) as [c2 Hc2] end.
    exists c2. rewrite Hc2. unfold s1, upd. by destruct s.
  - erewrite bind_Ret; [|reflexivity]. erewrite bind_Ret; [|reflexivity].
    match goal with |- context [cprintf ?f ?a ?t] => destruct (cprintf_matches f a t) as [c Hc];
      [split; [vm_compute; reflexivity | constructor]|] end.
    exists c. rewrite Hc. unfold s1, upd. by destruct s.
Qed.

End Processors.

(** ** [mp_init] *)

Section Init.

(** C35. [mp_init] registers exactly the processors of the tables in memory.  When there is no
    valid configuration -- a structure with signature and checksum in one of the three places the
    specification names, pointing to a table with signature, checksums and a known version -- it
    changes nothing but the boot processor.  Otherwise every processor entry gets the next
    identifier until the array of 8 is full, the flagged one becomes the boot processor and is
    started, and the address of the local APIC is recorded; an entry of unknown type turns
    multiprocessing off.  When the array is full before the entry of the boot processor, the
    write to its status is behind the array. *)
Theorem mp_init_registers s (B := mem_byte (mem s))
  (Hlow : low_ok s) (Hin : forall mp, find_mp B = Some mp -> le32 B (mp + 4) < 4096 * npages s)
  (Hn : ncpu (hw s) = 0) (Hcp : forall i, is_Some (cpus s !! i) <-> 0 <= i < NCPU) :
  match find_table B with
  | None => exists c, mp_init s = (Ret tt, upd c (cpus s) (set_bootcpu (Some 0) (hw s)) s)
  | Some (mp, conf) =>
      let '(l, ok) := decode B (Z.to_nat (le16 B (conf + 34))) (conf + 44) in
      let '(n, b) := register l 0 0 in
      n = Z.min NCPU (Z.of_nat (length l)) /\
      if b <? NCPU then
        exists c cp cpu, mp_init s =
            (Ret tt, upd c (<[b := set_cpu_status CPU_STARTED cpu]> cp) (mp_hw n b (le32 B (conf + 36)) ok (hw s)) s) /\
          cp !! b = Some cpu /\ numbered (cpus s) cp 0 n
      else exists s', mp_init s = (Stop (SFault NCPU), s')
  end.
Proof.
  set (s1 := set_hw (set_bootcpu (Some 0) (hw s)) s).
  assert (Hlow1 : low_ok s1) by (destruct Hlow; by constructor).
  destruct (mpconfig_kernel s1 Hlow1 Hin) as [c1 Hconf]. change (mem_byte (mem s1)) with B in Hconf.
  unfold mp_init. erewrite bind_Ret; [|reflexivity]. fold s1. rewrite (bind_Ret _ _ _ _ _ Hconf). clear Hconf.
  destruct (find_table B) as [[mp conf]|] eqn:Et; cbn [fmap option_fmap option_map fst snd];
    [|exists c1; unfold s1, upd; by destruct s].
  assert (Hr : 0 <= mp /\ 0 <= conf).
  { apply bind_Some in Et as (x & Hx & Et). destruct (valid_table _ _ _); [|discriminate Et]. injection Et as <- <-.
    split; [exact (find_mp_range s x Hlow Hx) | apply le32_nonneg]. }
  destruct Hr as [Hmp Hc]. clear Et.
  destruct (decode B _ (conf + 44)) as [l ok] eqn:Ed. destruct (register l 0 0) as [n b] eqn:Er.
  assert (Hn1 := register_count l 0 0 ltac:(done)). assert (Hb1 := register_boot l 0 0 ltac:(done) ltac:(done)).
  rewrite Er in Hn1, Hb1. cbn [fst snd] in Hn1, Hb1. split; [exact Hn1|].
  erewrite bind_Ret; [|reflexivity].
  step (field32 (set_hw (set_ismp 1 (hw (set_con c1 s1))) (set_con c1 s1)) conf 36 Hc ltac:(lia)).
  erewrite bind_Ret; [|reflexivity].
  match goal with |- context [(vload16 _ ≫= _) ?t] => set (s2 := t) end.
  assert (E2 : s2 = upd c1 (cpus s) (set_lapicaddr (le32 B (conf + 36)) (set_ismp 1 (set_bootcpu (Some 0) (hw s)))) s) by done.
  step (field16 s2 conf 34 Hc ltac:(lia)). rewrite <- (Z.add_assoc KERNBASE conf 44).
  assert (Es : mem_byte (mem s2) = B /\ bootcpu (hw s2) = Some 0 /\ ismp (hw s2) = 1 /\ ncpu (hw s2) = 0 /\ cpus s2 = cpus s)
    by (rewrite E2; split_and!; (reflexivity || exact Hn)).
  destruct Es as (F1 & F2 & F3 & F4 & F5). rewrite <- F1 in Ed. rewrite <- F4 in Er at 1.
  destruct (mp_entries_kernel _ s2 (conf + 44) 0 ltac:(lia) F2 F3 ltac:(rewrite F4; done) ltac:(intros i Hi; rewrite F5; by apply Hcp)
    l ok n b Ed Er) as (Hle & c & cp & Hrun & Hnum).
  step Hrun. rewrite F4, F5 in Hnum. set (s3 := upd c cp _ s2).
  assert (Hb3 : bootcpu (hw s3) = Some b) by done.
  destruct (Z.ltb_spec b NCPU) as [Hlt | Hge].
  - destruct (proj2 (numbered_dom _ _ _ _ b Hnum) (proj2 (Hcp b) ltac:(lia))) as [cpu Hcpu].
    destruct (mp_finish s3 mp b cpu ok Hmp Hb3 Hcpu ltac:(by destruct ok)) as [c3 H3].
    exists c3, cp, cpu. split; [|done]. etransitivity; [exact H3|].
    unfold s3. rewrite E2, !upd_upd, <- mp_hw_eq. reflexivity.
  - replace b with NCPU in Hb3 by lia. kgo get_eq. rewrite Hb3. kgo @deref_eq.
    assert (Hnone : cpus s3 !! NCPU = None).
    { apply eq_None_not_Some. intros [_ Hx]%(numbered_dom _ _ _ _ _ Hnum)%Hcp. by apply Z.lt_irrefl in Hx. }
    exists s3. unfold cpu_update. by erewrite bind_Stop; [|by rewrite Hnone].
Qed.

End Init.

(** ** Witness *)

Section Witness.

(** A byte list stored in memory. *)
Definition put8 (m : gmap Z (gmap Z Z)) (a b : Z) : gmap Z (gmap Z Z) :=
  mstore m (a - a `mod` 4) (put_byte (mload m (a - a `mod` 4)) (a `mod` 4) b).
Fixpoint put_list (m : gmap Z (gmap Z Z)) (a : Z) (l : list Z) : gmap Z (gmap Z Z) :=
  match l with [] => m | b :: l' => put_list (put8 m a b) (a + 1) l' end.

(** 640 KB of base memory; in the ROM a floating pointer, and a table with two processors, the
    second of which is the boot processor, and a bus between them. *)
Definition ex_mp : list Z := [95; 77; 80; 95; 0; 1; 15; 0; 1; 4; 144; 0; 0; 0; 0; 0].
Definition ex_conf : list Z :=
  [80; 67; 77; 80; 92; 0; 4; 88; 0; 0; 0; 0; 0; 0; 0; 0; 0; 0; 0; 0; 0; 0; 0; 0; 0; 0; 0; 0; 0; 0; 0; 0; 0; 0; 3; 0; 0; 0; 224; 254; 0; 0; 0; 0] ++
  [0; 3; 20; 1; 0; 0; 0; 0; 0; 0; 0; 0; 0; 0; 0; 0; 0; 0; 0; 0] ++
  [1; 0; 0; 0; 0; 0; 0; 0] ++
  [0; 7; 20; 3; 0; 0; 0; 0; 0; 0; 0; 0; 0; 0; 0; 0; 0; 0; 0; 0].
Definition ex_bios : kstate :=
  set_hw (set_ncpu 0 ex_machine) (set_cpus (array_of NCPU (fun _ => cpu0))
    (set_mem (put_list (put_list (put_list ∅ 0x413 [0x80; 0x02]) 0xF0000 ex_mp) 0xF0100 ex_conf) (ex_boot 300))).

Lemma mp_init_registers_witness :
  exists c cp cpu, mp_init ex_bios =
      (Ret tt, upd c (<[1 := set_cpu_status CPU_STARTED cpu]> cp) (mp_hw 2 1 0xFEE00000 true (hw ex_bios)) ex_bios) /\
    cp !! 1 = Some cpu /\ numbered (cpus ex_bios) cp 0 2.
Proof.
  assert (Ea : base_area (mem_byte (mem ex_bios)) = 0x9FC00) by (vm_compute; reflexivity).
  assert (Em : find_mp (mem_byte (mem ex_bios)) = Some 0xF0000) by (vm_compute; reflexivity).
  assert (Et : find_table (mem_byte (mem ex_bios)) = Some (0xF0000, 0xF0100)) by (vm_compute; reflexivity).
  assert (En : le32 (mem_byte (mem ex_bios)) (0xF0000 + 4) = 0xF0100 /\ le16 (mem_byte (mem ex_bios)) (0xF0100 + 34) = 3 /\
               le32 (mem_byte (mem ex_bios)) (0xF0100 + 36) = 0xFEE00000) by (split; [|split]; vm_compute; reflexivity).
  assert (Ed : decode (mem_byte (mem ex_bios)) (Z.to_nat 3) (0xF0100 + 44) = ([false; true], true)) by (vm_compute; reflexivity).
  destruct En as (E1 & E2 & E3). assert (Ep : npages ex_bios = 300) by reflexivity.
  assert (Ecp : forall i, is_Some (cpus ex_bios !! i) <-> 0 <= i < NCPU) by exact (array_of_dom NCPU (fun _ => cpu0)).
  assert (H := fun H1 H2 => mp_init_registers ex_bios H1 H2 eq_refl Ecp).
  rewrite Et, E2, E3, Ed in H. apply H; clear H.
  - constructor; rewrite ?Ea, Ep; lia.
  - intros mp Hm. rewrite Em in Hm. injection Hm as <-. rewrite E1, Ep. reflexivity.
Defined.

End Witness.
